(* ===== verification/_CoqProject ===== *)
-Q . S2P
Prelude.v
SortedMap.v
Status.v
Mode.v
Atomic.v
Cycles.v
KVStore.v
Backends.v
MetaData.v
Partition.v
File.v
FileData.v
Directory.v
DirectoryProps.v
ChangeLog.v
Wire.v
FileSystemManager.v
Mount.v
Fuse.v
Frame.v
MountProps.v
CreateProps.v
IOProps.v
NameProps.v
ListProps.v
DirSession.v
FileSession.v
DeleteProps.v
AttrProps.v
FuseProps.v
Tiering.v
Lifecycle.v
TieringProps.v
PersistProps.v
Agents.v
AgentProps.v
Config.v
Main.v
MainProps.v
CycleProps.v
