(* ===== verification/Prelude.v ===== *)
(** * KVFS: a verification development

    KVFS is a FUSE file system that keeps its inodes, directories and file data in a
    key-value store and moves cold data to a cloud store.  This library translates the
    C++ code under src/ into Rocq functions and proves what its operations do.

    ** The program

    main (src/fuse_kvfs_main.cc) builds the store, a FileSystemManager and a KvfsMount,
    calls KvfsMount::Init (which reads the superblock and starts a change log), starts the
    tiering agents and the web controller, calls CreateRoot, and runs the FUSE session
    loop; KvfsMount::Shutdown writes the superblock and the log back.

    - A request enters through an [fk_] function (src/fuse_kvfs_ops.cc), which finds the
      FuseKvfsInode in the table of the mount (src/kvfs_mount.cc), holds it, calls the
      inode and releases it.  The inode calls its LogFSFile, logs changes, and replies.
    - LogFSFile (src/KVFSFile.cc) is the file or directory: metadata stored under the
      inode number, data in chunks stored under "inode.chunk", entries in
      LogFSDirectoryPartition objects (src/KVFSDirectoryPartition.cc) stored under
      "inode.partition".
    - FsChangeLog (src/tiering/fs_change_log.cc) numbers the changes.  The tiering-out
      agent reads it, and the SnapshotPersister copies the changed files into a Segment
      and enters it in the IndexManager; the eviction agent deletes the data of files
      that were tiered out; a later read makes LogFSFile::UnEvict fetch the data again
      through the tiering-in agent.

    ** Files

    - [Prelude]: runs of C++ code ([res], [crash], the state monad [M] and EXPECT,
      assert), machine integers ([u16], [u32], [u64], [i64]), byte strings, decimal
      printing, the shared tactics and hint databases.
    - [SortedMap]: std::map and std::set as sorted association lists.
    - [Status], [Mode]: src/Status.h, .cc; the mode conversions of src/KVFSFile.cc and
      src/KVFSMetaData.h.
    - [Atomic]: src/Atomic.h, one locked instruction a step.  [Cycles]: src/Cycles.h,
      .cc on the binary64 numbers of the Standard Library.
    - [KVStore]: the interface of src/KVStore.h as a class with laws, and
      src/LevelDBStore.cc as an instance of it over a leveldb database.  [Backends]:
      src/RocksDBStore.h, .cc, the factories, src/hexdump.cc, and both back ends as
      objects with all their operations.
    - [MetaData]: LogFSMetaData (src/KVFSMetaData.h), its bytes, and the keys.
    - [Partition]: src/KVFSDirectoryPartition.h, .cc, whole.
    - [File]: the methods of LogFSFile that touch one object; [FileData] holds their
      theorems.
    - [Directory]: the directory methods of LogFSFile and those on two objects (create,
      link, remove, createRoot), over a heap; [DirectoryProps] holds their theorems.
    - [ChangeLog]: src/tiering/fs_change_log.h, .cc, with the theorems.  [Wire]:
      src/tiering/change_log.pb.h, .cc, the generated class of a log entry, over the
      protobuf runtime, with the theorems.
    - [FileSystemManager]: src/FileSystemManager.h, .cc, src/WallTime.h, .cc.
    - [Mount]: src/kvfs_mount.h, .cc and src/dir_entry_adder.cc; [Fuse]:
      src/fuse_kvfs_ops.cc and src/fuse_err_ops.cc.  [Frame], [MountProps],
      [CreateProps], [IOProps], [NameProps], [ListProps], [DirSession],
      [FileSession], [DeleteProps], [AttrProps] and [FuseProps] hold the theorems.
    - [Tiering]: cloud_proxy, index_manager, segment, tiered_in_file, tiering_in_agent,
      snapshot_persister, tiering_out_agent and eviction_agent of src/tiering/;
      [TieringProps] and [PersistProps] hold the theorems.
    - [Lifecycle]: the base class LogFSObject (src/KVFSObject.h, .cc), the manager as the
      owner of a store object (mounting and closing a snapshot and the live store), the
      segment factory and the closing of files that were tiered in, with the lemmas.
    - [Agents]: the threads of the agents, web_controller and restful_web_server of
      src/tiering/; [AgentProps] holds the theorems.
    - [Config]: src/Config.h, .cc and src/config/, with the theorems.
    - [Main]: src/fuse_kvfs_main.cc, the composition of all of them; [MainProps] and
      [CycleProps] hold the theorems.

    A method of class X is a function in a state monad over the object and whatever it
    shares: [PM] (a partition and the store), [FM] (a file, the store, the clock), [WM]
    (a heap of files, the store, the clock), [MM] (the mount), [TM] (the tiering state).
    A method is run inside a larger state by a lifting ([at_partition], [at_obj],
    [at_log], [at_manager], [at_shared]).  A call that ends the process, or whose behaviour
    C++ leaves undefined, is a [Crash] with its reason: an overflowing read of a buffer,
    the front of an empty deque and the use of a freed inode are such runs, not values.
    A pointer to an inode is its number, and the table says whether it is alive.

    ** What the theorems show

    - Sessions ([IOProps], [NameProps]): read, write, truncate, getattr and flush
      requests on the open files, in any number and order, are answered as one array of
      bytes for each file answers them, and touch nothing else; lookup, create, mkdir,
      unlink, rmdir and link requests on a directory as a finite map from names to inodes
      does, errors included.  Each is a simulation from the FUSE entry point down to the
      store and the change log.  They meet in [FileSession]: the file a create request
      leaves is an open file of no bytes, and a session on it leaves the name bound.
    - Listing, deleting, attributes ([ListProps], [DirSession], [DeleteProps], [AttrProps]):
      the readdir requests that follow each other's offsets end and hand over exactly the
      bindings of the directory, and after a session exactly the map the session refines; a
      file whose last name is unlinked goes on as an array of bytes while it is open, and
      when the kernel forgets it, its record and all its chunks leave the store, whatever
      was written in between, and nothing else; setattr replaces what its flags name, until
      the inode is forgotten.
    - File data ([FileData]): the contents of a file are a function from offsets to
      bytes.  [write] changes exactly the range it reports, on every outcome, a failed
      put included; [read] returns that function; [SetSize] truncates and extends with
      zeros; a file that was evicted and has an intact tiered copy reads as before.
    - Directories ([Partition], [DirectoryProps]): each partition, and the directory as
      a whole for every hash function, refines a finite map from names to inode
      numbers, in memory and in the store; the listing of a partition is complete and
      resumable; create,
      link, remove and createRoot change the maps, the link counts and the stored
      inodes as stated.
    - Requests ([FuseProps], [CreateProps], [MountProps]): every request that ends has
      exactly one reply; the inode table is well formed in every reachable state; inode
      numbers are not reused after a clean shutdown.
    - Log and tiering ([ChangeLog], [Wire], [TieringProps], [PersistProps]): entries are numbered
      without gaps, a range read is exact, flushing and reading back in the
      generated encoding is the identity, a snapshot covers the log in order and ends, the
      index returns the newest usable segment, and what the persister stores for a file is what the tiering-in agent
      opens.
    - The running program ([AgentProps], [MainProps], [CycleProps]): a pass of the
      tiering-out agent, a pass of the eviction agent and a read give back the bytes of the
      file; a requested pass is done within
      three steps of its thread under every schedule; under every interleaving of
      requests and threads the inode table stays well formed; the joins of the way down
      return; a snapshot asked for over HTTP tiers out the log; [main] gets past its
      set-up exactly when what it needs is there.
    - Representation ([MetaData], [Mode], [Config], [Backends], [Atomic]): round trips of
      the stored metadata, of modes and of printed configuration values; keys of
      different objects never collide; the accessors of the configuration return values
      of their types; the two back ends answer every session alike; increments are never
      lost, but two threads may read the same number.
    - The last group states, on all inputs of a class, where the code does not do what
      its comments say: reading past the end of a file, writing to an evicted file,
      mounting twice, a lookup in a directory that is not loaded, evicting what was not
      tiered out, and numbering changes after a remount.

    ** Interfaces

    [KVStore] and [KVStoreLaws] separate the file system from the back ends: the file
    and directory theorems hold for every instance, and [LevelDBStore] and the
    in-memory map of the examples are instances.  [KVReliable] (no put fails) is an
    extra hypothesis of the theorems that need it; the data and directory refinements
    of LogFSFile do not.  [BackendLaws] is the same contract for the store objects with
    their snapshots, and both LevelDBStore and RocksDBStore discharge it.  [FsEnv],
    [MountEnv], [TierEnv], [EntryCodec], [LevelDB], [RocksDB], [DBInfo], [JsonC] and
    [TimeLib] collect what the code calls outside src/: the clock, CityHash64, the process
    identity, FUSE, the shell, the files, leveldb, rocksdb, json-c and the text
    format of protobuf, with the laws that are used ([EntryCodecLaws], [SuperLaws],
    [LevelDBLaws], [RocksDBLaws], [JsonCLaws]) in classes of their own.  [EntryCodec] is
    between the log and the generated code: [Wire] discharges its laws from those of the
    protobuf runtime ([WireRuntime], [WireLaws]), and the encoding that its documentation
    describes is an instance of these.  The tiered copy
    a restore needs is a hypothesis of [FileData]; [TieringProps] and [PersistProps] show
    that the tiering-in agent provides it, and [agent_env] of [Main] puts the agent, with
    the index and the files of the running system, in the place of that parameter, which
    is how [CycleProps] composes the two.

    ** Bounds

    - Loops over chunks, partitions and entries run on their number of turns, which the
      source computes before the loop.
    - [fmt_lu] prints at most 20 digits, which is every 64-bit number.
    - [parse_entries] has one turn per byte of the buffer, and each turn consumes nine
      bytes or more; [unevict_loop] one per byte of the tiered file and one to see the
      end; [refresh_loop] one per byte of the log file; [merge_loop] one per byte of the
      message and one to see the end ([merge_total]); [OutOfFuel] is excluded in the
      theorems by stating the result.
    - [snapshot_loop] takes its bound as an argument, and [snapshot_covers_log] shows
      that one turn for each pending entry is enough; [GetPath] takes the depth, and
      [GetPath_walks] shows that the length of the chain of parents is enough.
    - The loops of [Cycles] wait for a clock: they take fuel, and [measure_ends] states
      how much is enough for given readings.
    - The theorems on file data assume that offsets stay below 2^63, the range of
      [off_t]: beyond it the source has signed overflow.
    - [readdir_all] takes the number of requests as fuel, and [readdir_complete] shows that
      one for each entry and one for the empty answer are enough; it assumes fewer than
      1000000 entries in a partition ([vectors_small]), the range the offsets give each.
    - The session on a directory assumes an inode number for each request that needs one
      ([numbers_left]) and that the stored names take less than 2^32 bytes ([ns_room]), the
      range of the 32-bit length of a stored partition; a listing after it assumes that the
      kernel has looked up what is bound ([all_loaded]), since listing an inode that is not
      in the table stops the process ([unloaded_child_stops_listing]).
    - The deletion assumes that no chunk is stored past the end of the file
      ([no_chunks_past]), which writes and truncations keep.

    ** Not modelled

    - Locks: a request, or the work that an agent does on waking up, is one step, and
      the steps interleave freely; only [Atomic] goes below that, to instructions.
    - Logging, statistics and printing; nanosecond fields of times, which the code
      leaves alone.
    - The other code protoc generates: the superblock and the configuration are in the
      text format, which the runtime reads and prints by reflection (a parameter, with its
      round trip as a law); the format of the index is a parameter.
    - src/KVFS.cc, a test program that the Makefile has commented out and that calls
      operations FileSystemManager no longer has; fk_rename, which is under #if 0;
      src/Initialize.h, which only calls a function before main.
    - In the running system, the copies that the tiering-in agent unpacks into its
      directory for a read are not kept on the disk after the step.

    - Of the tables around the entry points, the option table of main (FUSE parses it) and
      the declarations of the headers; the argument loop of RESTfulWebServer::Init, which is
      compiled out.
    - The binary format of the index (index.pb.cc): main uses the text format. *)

From Stdlib Require Import ZArith Lia Strings.Byte Strings.String.
From stdpp Require Import base gmap list sorting.

#[global] Open Scope Z_scope.

(** ** Results of running C++ code *)

(** Why a run of the C++ code has no result: a failed EXPECT (which calls
    abort), a failed assert, a LOG(FATAL), an exception nobody catches ([at] out of
    range), or behaviour the C++ standard leaves undefined.  [OutOfFuel] is only produced by loops whose bound is explicit. *)
Inductive crash :=
  | ExpectFailed
  | AssertFailed
  | FatalLog
  | UndefinedBehaviour
  | UncaughtException
  | OutOfFuel.

Inductive res (A : Type) :=
  | Ok (a : A)
  | Crash (c : crash).
Arguments Ok {A} a.
Arguments Crash {A} c.

(** A computation over a state [St]: the state after it, or a crash. *)
Definition M (St A : Type) : Type := St → res (A * St).

#[global] Instance M_ret {St} : MRet (M St) := λ A a s, Ok (a, s).
#[global] Instance M_bind {St} : MBind (M St) := λ A B k m s,
  match m s with
  | Ok (a, s') => k a s'
  | Crash c => Crash c
  end.
#[global] Instance M_fmap {St} : FMap (M St) := λ A B f m s,
  match m s with
  | Ok (a, s') => Ok (f a, s')
  | Crash c => Crash c
  end.

Definition get_st {St} : M St St := λ s, Ok (s, s).
Definition put_st {St} (s : St) : M St unit := λ _, Ok (tt, s).
Definition modify {St} (f : St → St) : M St unit := λ s, Ok (tt, f s).
Definition gets {St A} (f : St → A) : M St A := λ s, Ok (f s, s).
Definition crash_with {St A} (c : crash) : M St A := λ _, Crash c.

(** [EXPECT(expr)] of src/tiering/expect.h and [assert(expr)] of <assert.h>
    (NDEBUG is not defined by the Makefiles). *)
Definition EXPECT {St} (b : bool) : M St unit :=
  if b then mret tt else crash_with ExpectFailed.
Definition cassert {St} (b : bool) : M St unit :=
  if b then mret tt else crash_with AssertFailed.

(** ** Machine integers

    A value of an unsigned type of width [w] is kept as its number; the places
    where the code relies on (or falls into) wrap-around apply these. *)

Definition u8 (z : Z) : Z := z mod 256.
Definition u16 (z : Z) : Z := z mod 65536.
Definition u32 (z : Z) : Z := z mod 4294967296.
Definition u64 (z : Z) : Z := z mod 18446744073709551616.
Definition i32 (z : Z) : Z := (z + 2147483648) mod 4294967296 - 2147483648.
Definition i64 (z : Z) : Z :=
  (z + 9223372036854775808) mod 18446744073709551616 - 9223372036854775808.

(** ** Bytes and std::string *)

Abbreviation byte := Byte.byte.
Abbreviation bytes := (list Byte.byte).

#[global] Instance byte_eq_dec : EqDecision byte := Byte.byte_eq_dec.
#[global] Instance byte_countable : Countable byte :=
  inj_countable Byte.to_N Byte.of_N Byte.of_to_N.

Definition b2z (b : byte) : Z := Z.of_N (Byte.to_N b).
Definition z2b (z : Z) : byte :=
  default Byte.x00 (Byte.of_N (Z.to_N (u8 z))).

(** A C string literal as a std::string. *)
Definition lit (s : string) : bytes := String.list_byte_of_string s.
Arguments lit s%_string_scope.

(** [std::string::replace(pos, n, buf, n)] with [n] the length of [buf]. *)
Definition splice (pos : nat) (new old : bytes) : bytes :=
  take pos old ++ new ++ drop (pos + length new) old.

(** The bytes [pos, pos + n) of a string ([std::string(ptr + pos, n)]). *)
Definition slice {A} (pos n : nat) (l : list A) : list A := take n (drop pos l).

(** An unsigned integer of [n] bytes, as the x86-64 stores it. *)
Fixpoint le_bytes (n : nat) (z : Z) : bytes :=
  match n with
  | O => []
  | S n => z2b z :: le_bytes n (z / 256)
  end.
Fixpoint le_val (l : bytes) : Z :=
  match l with
  | [] => 0
  | b :: l => b2z b + 256 * le_val l
  end.

(** ** Decimal formatting: the [%lu] and [%d] of snprintf *)

Definition digit (d : Z) : byte := z2b (48 + d).

Fixpoint dec_fuel (k : nat) (n : Z) : bytes :=
  match k with
  | O => []
  | S k => if n <? 10 then [digit n] else dec_fuel k (n / 10) ++ [digit (n mod 10)]
  end.

(** 20 digits print every 64-bit number (see [dec_val_lu]). *)
Definition fmt_lu (n : Z) : bytes := dec_fuel 20 (u64 n).

Definition dec_val (l : bytes) : Z :=
  foldl (λ a b, 10 * a + (b2z b - 48)) 0 l.

(** [atoi]: blanks, an optional sign, digits (the values of interest fit an int). *)
Definition is_digit (b : byte) : bool := (48 <=? b2z b) && (b2z b <=? 57).
Definition is_space (b : byte) : bool := (b2z b =? 32) || ((9 <=? b2z b) && (b2z b <=? 13)).
Fixpoint take_digits (l : bytes) : bytes :=
  match l with
  | b :: l => if is_digit b then b :: take_digits l else []
  | [] => []
  end.
Fixpoint atoi (l : bytes) : Z :=
  match l with
  | [] => 0
  | b :: l' =>
      if is_space b then atoi l'
      else if b2z b =? 45 then - dec_val (take_digits l')
      else if b2z b =? 43 then dec_val (take_digits l')
      else dec_val (take_digits l)
  end.

(** ** Byte-wise order of std::string *)

Fixpoint bytes_ltb (a b : bytes) : bool :=
  match a, b with
  | _, [] => false
  | [], _ :: _ => true
  | x :: a, y :: b =>
      if b2z x <? b2z y then true
      else if b2z y <? b2z x then false else bytes_ltb a b
  end.

(** ** Automation *)

Create HintDb kvfs.
Create Rewrite HintDb kvfs_rw.
Create Rewrite HintDb cint.

(** Case analysis on the boolean tests of the code. *)
Ltac zbool :=
  repeat match goal with
  | H : (_ && _)%bool = true |- _ => apply andb_true_iff in H; destruct H
  | H : (_ || _)%bool = false |- _ => apply orb_false_iff in H; destruct H
  | H : negb _ = true |- _ => apply negb_true_iff in H
  | H : negb _ = false |- _ => apply negb_false_iff in H
  | H : (_ <? _) = true |- _ => apply Z.ltb_lt in H
  | H : (_ <? _) = false |- _ => apply Z.ltb_ge in H
  | H : (_ <=? _) = true |- _ => apply Z.leb_le in H
  | H : (_ <=? _) = false |- _ => apply Z.leb_gt in H
  | H : (_ =? _) = true |- _ => apply Z.eqb_eq in H
  | H : (_ =? _) = false |- _ => apply Z.eqb_neq in H
  | H : bool_decide _ = true |- _ => apply bool_decide_eq_true_1 in H
  | H : bool_decide _ = false |- _ => apply bool_decide_eq_false_1 in H
  end.

(** Split on the innermost condition of the goal, keeping the equation. *)
Ltac zcase :=
  match goal with
  | |- context [if ?b then _ else _] =>
      lazymatch b with
      | context [if _ then _ else _] => fail
      | _ => let E := fresh "E" in destruct b eqn:E; zbool
      end
  end.

Ltac zcase_hyp :=
  match goal with
  | H : context [if ?b then _ else _] |- _ =>
      lazymatch b with
      | context [if _ then _ else _] => fail
      | _ => let E := fresh "E" in destruct b eqn:E; zbool
      end
  end.

(** Unfold the monad one layer. *)
Ltac mrun :=
  cbv beta iota delta [mbind M_bind mret M_ret fmap M_fmap get_st put_st modify gets
                       crash_with EXPECT cassert].

(** ** Lemmas: the monad *)

Lemma bind_ok {St A B} (m : M St A) (k : A → M St B) s a s' :
  m s = Ok (a, s') → (m ≫= k) s = k a s'.
Proof. intros E. unfold mbind, M_bind. by rewrite E. Qed.

Lemma bind_crash {St A B} (m : M St A) (k : A → M St B) s c :
  m s = Crash c → (m ≫= k) s = Crash c.
Proof. intros E. unfold mbind, M_bind. by rewrite E. Qed.

Lemma bind_inv {St A B} (m : M St A) (k : A → M St B) s b s'' :
  (m ≫= k) s = Ok (b, s'') → ∃ a s', m s = Ok (a, s') ∧ k a s' = Ok (b, s'').
Proof.
  unfold mbind, M_bind. destruct (m s) as [[a s']|c]; [eauto | done].
Qed.

Lemma EXPECT_true {St} (b : bool) (s : St) : b = true → EXPECT b s = Ok (tt, s).
Proof. by intros ->. Qed.

Lemma cassert_true {St} (b : bool) (s : St) : b = true → cassert b s = Ok (tt, s).
Proof. by intros ->. Qed.

(** Open a successful run, one [bind] at a time. *)
Ltac minv H :=
  lazymatch type of H with
  | (mbind _ _) _ = Ok _ =>
      let a := fresh "a" in let s := fresh "s" in
      let H1 := fresh "Hm" in let H2 := fresh "Hk" in
      apply bind_inv in H as (a & s & H1 & H2)
  end.

(** ** Lemmas: machine integers *)

Lemma u8_range z : 0 ≤ u8 z < 256.
Proof. unfold u8. apply Z.mod_pos_bound. lia. Qed.
Lemma u64_range z : 0 ≤ u64 z < 18446744073709551616.
Proof. unfold u64. apply Z.mod_pos_bound. lia. Qed.
Lemma u32_range z : 0 ≤ u32 z < 4294967296.
Proof. unfold u32. apply Z.mod_pos_bound. lia. Qed.
Lemma u8_small z : 0 ≤ z < 256 → u8 z = z.
Proof. intros. unfold u8. by apply Z.mod_small. Qed.
Lemma u16_small z : 0 ≤ z < 65536 → u16 z = z.
Proof. intros. unfold u16. by apply Z.mod_small. Qed.
Lemma u32_small z : 0 ≤ z < 4294967296 → u32 z = z.
Proof. intros. unfold u32. by apply Z.mod_small. Qed.
Lemma u64_small z : 0 ≤ z < 18446744073709551616 → u64 z = z.
Proof. intros. unfold u64. by apply Z.mod_small. Qed.
Lemma i64_small z : -9223372036854775808 ≤ z < 9223372036854775808 → i64 z = z.
Proof. intros. unfold i64. rewrite Z.mod_small; lia. Qed.

Lemma i64_plus_64 x : i64 (x + 18446744073709551616) = i64 x.
Proof.
  unfold i64. replace (x + 18446744073709551616 + 9223372036854775808)
    with (x + 9223372036854775808 + 1 * 18446744073709551616) by lia.
  by rewrite Z_mod_plus_full.
Qed.
Lemma i64_range z : -9223372036854775808 ≤ i64 z < 9223372036854775808.
Proof.
  unfold i64.
  pose proof (Z.mod_pos_bound (z + 9223372036854775808) 18446744073709551616). lia.
Qed.
Lemma i64_u64 z : i64 (u64 z) = i64 z.
Proof. unfold i64, u64. by rewrite Zplus_mod_idemp_l. Qed.
Lemma u64_idem z : u64 (u64 z) = u64 z.
Proof. apply u64_small, u64_range. Qed.
#[export] Hint Rewrite u64_idem i64_u64 : cint.
#[export] Hint Rewrite u8_small u16_small u32_small u64_small i64_small using lia : cint.

(** ** Lemmas: bytes *)

Lemma b2z_range b : 0 ≤ b2z b < 256.
Proof. unfold b2z. pose proof (Byte.to_N_bounded b). lia. Qed.

Lemma z2b_b2z b : z2b (b2z b) = b.
Proof.
  unfold z2b. rewrite u8_small by apply b2z_range.
  unfold b2z. by rewrite N2Z.id, Byte.of_to_N.
Qed.

Lemma b2z_z2b z : b2z (z2b z) = u8 z.
Proof.
  unfold z2b. pose proof (u8_range z).
  destruct (Byte.of_N (Z.to_N (u8 z))) as [b|] eqn:E; cbn.
  - apply Byte.to_of_N in E. unfold b2z. rewrite E. lia.
  - apply Byte.of_N_None_iff in E. lia.
Qed.

Lemma b2z_inj a b : b2z a = b2z b → a = b.
Proof. intros E. rewrite <-(z2b_b2z a), <-(z2b_b2z b). by rewrite E. Qed.

Lemma length_le_bytes n z : length (le_bytes n z) = n.
Proof. revert z. induction n; intros z; cbn; auto. Qed.

Lemma le_val_le_bytes n z : le_val (le_bytes n z) = z mod 256 ^ Z.of_nat n.
Proof.
  revert z. induction n as [|n IH]; intros z; cbn [le_bytes le_val].
  - by rewrite Z.mod_1_r.
  - rewrite IH, b2z_z2b, Nat2Z.inj_succ, Z.pow_succ_r by lia.
    unfold u8. rewrite Z.rem_mul_r by lia. done.
Qed.

Lemma le_val_u64 z : le_val (le_bytes 8 z) = u64 z.
Proof. by rewrite le_val_le_bytes. Qed.
Lemma le_val_u32 z : le_val (le_bytes 4 z) = u32 z.
Proof. by rewrite le_val_le_bytes. Qed.
Lemma le_val_u16 z : le_val (le_bytes 2 z) = u16 z.
Proof. by rewrite le_val_le_bytes. Qed.
#[export] Hint Rewrite length_le_bytes le_val_u64 le_val_u32 le_val_u16 : kvfs_rw.

(** ** Lemmas: splice, slice *)

Lemma slice_length {A} pos n (l : list A) :
  (pos + n ≤ length l)%nat → length (slice pos n l) = n.
Proof. intros. unfold slice. rewrite length_take, length_drop. lia. Qed.

Lemma slice_lookup {A} pos n (l : list A) i :
  slice pos n l !! i = if decide (i < n)%nat then l !! (pos + i)%nat else None.
Proof.
  unfold slice. case_decide.
  - by rewrite lookup_take_lt, lookup_drop by lia.
  - apply lookup_take_ge. lia.
Qed.

Lemma slice_app_l {A} n (l k : list A) : length l = n → slice 0 n (l ++ k) = l.
Proof. intros <-. unfold slice. by rewrite drop_0, take_app_length. Qed.

Lemma slice_app_r {A} p n (l k : list A) :
  (length l ≤ p)%nat → slice p n (l ++ k) = slice (p - length l) n k.
Proof. intros. unfold slice. by rewrite drop_app_ge. Qed.

Lemma splice_length pos new old :
  (pos + length new ≤ length old)%nat → length (splice pos new old) = length old.
Proof. intros. unfold splice. rewrite !length_app, length_take, length_drop. lia. Qed.

Lemma splice_lookup pos new old i :
  (pos ≤ length old)%nat →
  splice pos new old !! i =
    if decide (i < pos)%nat then old !! i
    else if decide (i < pos + length new)%nat then new !! (i - pos)%nat
    else old !! i.
Proof.
  intros Hp. unfold splice. rewrite lookup_app.
  destruct (decide (i < pos)%nat) as [Hi|Hi].
  - rewrite lookup_take_lt by lia.
    destruct (lookup_lt_is_Some_2 old i) as [b ->]; [lia|done].
  - rewrite lookup_take_ge by lia. rewrite length_take, Nat.min_l by lia.
    rewrite lookup_app. destruct (decide (i < pos + length new)%nat) as [Hn|Hn].
    + by destruct (lookup_lt_is_Some_2 new (i - pos)) as [b ->]; [lia|].
    + rewrite lookup_ge_None_2 by lia. rewrite lookup_drop. f_equal. lia.
Qed.

(** ** Lemmas: decimal numbers *)

Lemma digit_val d : 0 ≤ d < 10 → b2z (digit d) = 48 + d.
Proof. intros. unfold digit. rewrite b2z_z2b, u8_small; lia. Qed.

Lemma dec_val_snoc l b : dec_val (l ++ [b]) = 10 * dec_val l + (b2z b - 48).
Proof. unfold dec_val. by rewrite foldl_app. Qed.

Lemma dec_fuel_val k n : 0 ≤ n < 10 ^ Z.of_nat k → dec_val (dec_fuel k n) = n.
Proof.
  revert n. induction k as [|k IH]; intros n Hn.
  - cbn in *. lia.
  - rewrite Nat2Z.inj_succ, Z.pow_succ_r in Hn by lia. cbn [dec_fuel].
    destruct (n <? 10) eqn:E; zbool.
    + unfold dec_val. cbn. rewrite digit_val; lia.
    + rewrite dec_val_snoc, IH.
      * rewrite digit_val by (apply Z.mod_pos_bound; lia).
        pose proof (Z_div_mod_eq_full n 10). lia.
      * split; [apply Z.div_pos; lia|]. apply Z.div_lt_upper_bound; lia.
Qed.

Lemma dec_fuel_length k n : (length (dec_fuel k n) ≤ k)%nat.
Proof.
  revert n. induction k as [|k IH]; intros n; cbn; [lia|].
  destruct (n <? 10); cbn; [lia|]. rewrite length_app. cbn.
  specialize (IH (n / 10)). lia.
Qed.

Lemma dec_fuel_digits k n b :
  0 ≤ n → b ∈ dec_fuel k n → 48 ≤ b2z b ≤ 57.
Proof.
  revert n. induction k as [|k IH]; intros n Hn; cbn.
  - intros H. by apply not_elem_of_nil in H.
  - destruct (n <? 10) eqn:E; zbool.
    + intros ->%list_elem_of_singleton. rewrite digit_val; lia.
    + rewrite elem_of_app, list_elem_of_singleton. intros [H| ->].
      * eapply IH; [|done]. apply Z.div_pos; lia.
      * pose proof (Z.mod_pos_bound n 10). rewrite digit_val; lia.
Qed.

Lemma dec_val_lu n : dec_val (fmt_lu n) = u64 n.
Proof.
  unfold fmt_lu. apply dec_fuel_val. pose proof (u64_range n).
  change (10 ^ Z.of_nat 20) with 100000000000000000000. lia.
Qed.

Lemma fmt_lu_inj a b : fmt_lu a = fmt_lu b → u64 a = u64 b.
Proof. intros E. by rewrite <-!dec_val_lu, E. Qed.

Lemma fmt_lu_digits n b : b ∈ fmt_lu n → 48 ≤ b2z b ≤ 57.
Proof. apply dec_fuel_digits. apply u64_range. Qed.

Lemma fmt_lu_length n : (length (fmt_lu n) ≤ 20)%nat.
Proof. apply dec_fuel_length. Qed.

(** Splitting at a separator that the first parts do not contain. *)
Lemma app_sep_inj {A} (x : A) l1 l2 k1 k2 :
  x ∉ l1 → x ∉ l2 → l1 ++ x :: k1 = l2 ++ x :: k2 → l1 = l2 ∧ k1 = k2.
Proof.
  revert l2. induction l1 as [|a l1 IH]; intros [|b l2] H1 H2 E; cbn in *.
  - by injection E.
  - injection E as -> _. destruct H2. by left.
  - injection E as -> _. destruct H1. by left.
  - injection E as -> E. destruct (IH l2) as [-> ->]; [..|done].
    + by intros ?; apply H1; right.
    + by intros ?; apply H2; right.
    + done.
Qed.

(** ** Lemmas: the order of std::string is a strict total order *)

Lemma bytes_ltb_irrefl a : bytes_ltb a a = false.
Proof. induction a as [|x a IH]; cbn; [done|]. by rewrite Z.ltb_irrefl. Qed.

Lemma bytes_ltb_trans a b c :
  bytes_ltb a b = true → bytes_ltb b c = true → bytes_ltb a c = true.
Proof.
  revert b c. induction a as [|x a IH]; intros [|y b] [|z c]; cbn; try done.
  intros H1 H2. repeat (zcase || zcase_hyp); try done; try lia; eauto.
Qed.

Lemma bytes_ltb_total a b :
  bytes_ltb a b = false → bytes_ltb b a = false → a = b.
Proof.
  revert b. induction a as [|x a IH]; intros [|y b]; cbn; try done.
  intros H1 H2. destruct (b2z x <? b2z y) eqn:E1; [done|].
  destruct (b2z y <? b2z x) eqn:E2; [done|]. zbool.
  f_equal; [apply b2z_inj; lia | auto].
Qed.
