(* ===== verification/SortedMap.v ===== *)
(** * std::map and std::set

    The ordered containers of the C++ library that the sources use: the
    directory partition keeps [std::map<std::string, uint64_t>], a segment keeps
    [std::map<int64_t, std::string>], GetInodes uses [std::set<uint64_t>].  A map
    is an association list sorted by key, so iteration order is list order. *)

From Stdlib Require Import ZArith Lia.
From stdpp Require Import base list sorting.
From S2P Require Import Prelude.

(** The key orders ([std::less]). *)
Class KeyOrder (K : Type) := {
  key_ltb : K → K → bool;
  key_ltb_irrefl k : key_ltb k k = false;
  key_ltb_trans a b c : key_ltb a b = true → key_ltb b c = true → key_ltb a c = true;
  key_ltb_total a b : key_ltb a b = false → key_ltb b a = false → a = b;
}.

#[export, refine] Instance bytes_order : KeyOrder bytes := {| key_ltb := bytes_ltb |}.
Proof. exact bytes_ltb_irrefl. exact bytes_ltb_trans. exact bytes_ltb_total. Defined.

#[export, refine] Instance Z_order : KeyOrder Z := {| key_ltb := Z.ltb |}.
Proof.
  - apply Z.ltb_irrefl.
  - intros. zbool. apply Z.ltb_lt. lia.
  - intros. zbool. lia.
Defined.

Section Map.
Context {K V : Type} `{KeyOrder K}.

(** [find]. *)
Fixpoint sm_find (k : K) (m : list (K * V)) : option V :=
  match m with
  | [] => None
  | (k', v) :: m =>
      if key_ltb k k' then None
      else if key_ltb k' k then sm_find k m else Some v
  end.

(** [map[k] = v]. *)
Fixpoint sm_insert (k : K) (v : V) (m : list (K * V)) : list (K * V) :=
  match m with
  | [] => [(k, v)]
  | (k', v') :: m' =>
      if key_ltb k k' then (k, v) :: m
      else if key_ltb k' k then (k', v') :: sm_insert k v m' else (k, v) :: m'
  end.

(** [erase]. *)
Fixpoint sm_erase (k : K) (m : list (K * V)) : list (K * V) :=
  match m with
  | [] => []
  | (k', v') :: m' =>
      if key_ltb k k' then m
      else if key_ltb k' k then (k', v') :: sm_erase k m' else m'
  end.

(** The representation invariant: keys strictly increase. *)
Inductive sm_sorted : list (K * V) → Prop :=
  | sm_sorted_nil : sm_sorted []
  | sm_sorted_cons k v m :
      (∀ k' v', (k', v') ∈ m → key_ltb k k' = true) → sm_sorted m →
      sm_sorted ((k, v) :: m).

Lemma key_ltb_asym a b : key_ltb a b = true → key_ltb b a = false.
Proof.
  intros E. destruct (key_ltb b a) eqn:E'; [|done].
  pose proof (key_ltb_trans _ _ _ E E') as F. by rewrite key_ltb_irrefl in F.
Qed.

Lemma key_ltb_ne a b : key_ltb a b = true → a ≠ b.
Proof. intros E ->. by rewrite key_ltb_irrefl in E. Qed.

(** Three-way split on two keys. *)
Lemma key_cases a b :
  (key_ltb a b = true ∧ key_ltb b a = false) ∨
  (key_ltb a b = false ∧ key_ltb b a = true) ∨
  (key_ltb a b = false ∧ key_ltb b a = false ∧ a = b).
Proof.
  destruct (key_ltb a b) eqn:E1.
  - left. eauto using key_ltb_asym.
  - destruct (key_ltb b a) eqn:E2; [eauto|]. right. right. eauto using key_ltb_total.
Qed.

Ltac kcases a b :=
  let E1 := fresh "E" in let E2 := fresh "E" in
  destruct (key_cases a b) as [[E1 E2]|[[E1 E2]|(E1 & E2 & ?)]];
  subst; rewrite ?E1, ?E2, ?E1; cbn.

Lemma sm_sorted_inv k v m :
  sm_sorted ((k, v) :: m) →
  (∀ k' v', (k', v') ∈ m → key_ltb k k' = true) ∧ sm_sorted m.
Proof. inversion 1; subst; eauto. Qed.

Lemma sm_find_elem k v m : sm_find k m = Some v → (k, v) ∈ m.
Proof.
  induction m as [|[k' v'] m IH]; cbn; [done|].
  kcases k k'; [done| |].
  - intros. right. auto.
  - intros [= ->]. left.
Qed.

Lemma sm_elem_find k v m : sm_sorted m → (k, v) ∈ m → sm_find k m = Some v.
Proof.
  induction 1 as [|k' v' m Hlt Hs IH]; [intros E; by apply not_elem_of_nil in E|].
  rewrite elem_of_cons. intros [[= -> ->]|Hin]; cbn.
  - by rewrite key_ltb_irrefl.
  - rewrite (Hlt _ _ Hin), (key_ltb_asym _ _ (Hlt _ _ Hin)). auto.
Qed.

Lemma sm_insert_elem k v m k' v' :
  (k', v') ∈ sm_insert k v m → (k' = k ∧ v' = v) ∨ (k', v') ∈ m.
Proof.
  induction m as [|[k1 v1] m IH]; cbn.
  - rewrite list_elem_of_singleton. intros [= -> ->]. auto.
  - kcases k k1;
      rewrite !elem_of_cons; naive_solver.
Qed.

Lemma sm_insert_sorted k v m : sm_sorted m → sm_sorted (sm_insert k v m).
Proof.
  induction 1 as [|k' v' m Hlt Hs IH]; cbn.
  - constructor; [|constructor]. intros ?? E. by apply not_elem_of_nil in E.
  - destruct (key_cases k k') as [[E1 E2]|[[E1 E2]|(E1 & E2 & ->)]]; rewrite E1, ?E2.
    + constructor; [|by constructor]. intros k2 v2.
      rewrite elem_of_cons. intros [[= -> ->]|Hin]; [done|].
      eapply key_ltb_trans; eauto.
    + constructor; [|done]. intros k2 v2 [[-> ->]|Hin]%sm_insert_elem; eauto.
    + by constructor.
Qed.

Lemma sm_erase_sub k m k' v' : (k', v') ∈ sm_erase k m → (k', v') ∈ m.
Proof.
  induction m as [|[k1 v1] m IH]; cbn; [done|].
  destruct (key_ltb k k1); [done|]. destruct (key_ltb k1 k);
    rewrite !elem_of_cons; naive_solver.
Qed.

Lemma sm_erase_sorted k m : sm_sorted m → sm_sorted (sm_erase k m).
Proof.
  induction 1 as [|k' v' m Hlt Hs IH]; cbn; [constructor|].
  destruct (key_ltb k k'); [by constructor|].
  destruct (key_ltb k' k); [|done].
  constructor; [|done]. intros k2 v2 Hin%sm_erase_sub. eauto.
Qed.

Lemma sm_find_insert k v m k' :
  sm_find k' (sm_insert k v m) =
    if key_ltb k k' || key_ltb k' k then sm_find k' m else Some v.
Proof.
  induction m as [|[k1 v1] m IH]; cbn.
  - kcases k k'; done.
  - destruct (key_cases k k1) as [[E1 E2]|[[E1 E2]|(E1 & E2 & ->)]]; rewrite E1, ?E2; cbn.
    + destruct (key_cases k k') as [[F1 F2]|[[F1 F2]|(F1 & F2 & ->)]]; rewrite F1, ?F2; cbn; try done.
      by rewrite (key_ltb_trans k' k k1).
    + rewrite IH. destruct (key_cases k' k1) as [[F1 F2]|[[F1 F2]|(F1 & F2 & ->)]]; rewrite F1, ?F2; try done.
      * by rewrite (key_ltb_trans k' k1 k), orb_true_r.
      * by rewrite E2, E1.
    + rewrite (orb_comm (key_ltb k1 k')).
      kcases k' k1; done.
Qed.

Lemma sm_find_insert_eq k v m : sm_find k (sm_insert k v m) = Some v.
Proof. by rewrite sm_find_insert, key_ltb_irrefl. Qed.

Lemma sm_find_insert_ne k v m k' : k ≠ k' → sm_find k' (sm_insert k v m) = sm_find k' m.
Proof.
  intros Hne. rewrite sm_find_insert.
  kcases k k'; done.
Qed.

Lemma sm_find_none_lt k k' v m :
  sm_sorted ((k', v) :: m) → key_ltb k k' = true → sm_find k m = None.
Proof.
  intros Hs E. apply sm_sorted_inv in Hs as [Hlt _].
  destruct (sm_find k m) as [v1|] eqn:F; [|done].
  apply sm_find_elem, Hlt in F. pose proof (key_ltb_trans _ _ _ F E) as G.
  by rewrite key_ltb_irrefl in G.
Qed.

Lemma sm_find_erase k m k' :
  sm_sorted m →
  sm_find k' (sm_erase k m) =
    if key_ltb k k' || key_ltb k' k then sm_find k' m else None.
Proof.
  induction 1 as [|k1 v1 m Hlt Hs IH]; cbn; [by destruct (_ || _)|].
  assert (sm_sorted ((k1, v1) :: m)) as Hs' by by constructor.
  destruct (key_cases k k1) as [[E1 E2]|[[E1 E2]|(E1 & E2 & ->)]]; rewrite E1, ?E2; cbn.
  - destruct (key_cases k k') as [[F1 F2]|[[F1 F2]|(F1 & F2 & ->)]]; rewrite F1, ?F2; cbn; try done.
    by rewrite E1.
  - rewrite IH. destruct (key_cases k' k1) as [[F1 F2]|[[F1 F2]|(F1 & F2 & ->)]]; rewrite F1, ?F2; try done.
    + by rewrite (key_ltb_trans k' k1 k), orb_true_r.
    + by rewrite E2, E1.
  - rewrite (orb_comm (key_ltb k1 k')).
    destruct (key_cases k' k1) as [[F1 F2]|[[F1 F2]|(F1 & F2 & ->)]]; rewrite F1, ?F2; cbn; try done.
    + by apply (sm_find_none_lt k' k1 v1).
    + destruct (sm_find k1 m) as [v2|] eqn:F; [|done].
      apply sm_find_elem, Hlt in F. by rewrite key_ltb_irrefl in F.
Qed.

Lemma sm_find_erase_eq k m : sm_sorted m → sm_find k (sm_erase k m) = None.
Proof. intros. by rewrite sm_find_erase, key_ltb_irrefl. Qed.

Lemma sm_find_erase_ne k m k' :
  sm_sorted m → k ≠ k' → sm_find k' (sm_erase k m) = sm_find k' m.
Proof.
  intros Hs Hne. rewrite sm_find_erase by done.
  kcases k k'; done.
Qed.

(** Inserting a key above all the others appends it. *)
Lemma sm_insert_last k v m :
  (∀ k' v', (k', v') ∈ m → key_ltb k' k = true) → sm_insert k v m = m ++ [(k, v)].
Proof.
  induction m as [|[k' v'] m IH]; cbn; intros Hlt; [done|].
  assert (key_ltb k' k = true) as E by (eapply Hlt; left).
  rewrite (key_ltb_asym _ _ E), E, IH; [done|]. intros. eapply Hlt. by right.
Qed.

Lemma sm_sorted_app_lt m k v :
  sm_sorted (m ++ [(k, v)]) → ∀ k' v', (k', v') ∈ m → key_ltb k' k = true.
Proof.
  induction m as [|[k1 v1] m IH]; cbn; intros Hs k' v' Hin; [by apply not_elem_of_nil in Hin|].
  apply sm_sorted_inv in Hs as [Hlt Hs]. apply elem_of_cons in Hin as [[= -> ->]|Hin]; [|eauto].
  apply (Hlt k v). apply elem_of_app. right. by left.
Qed.

Lemma sm_sorted_app_l m m' : sm_sorted (m ++ m') → sm_sorted m.
Proof.
  induction m as [|[k v] m IH]; cbn; intros Hs; [constructor|].
  apply sm_sorted_inv in Hs as [Hlt Hs]. constructor; [|auto].
  intros k' v' Hin. eapply (Hlt k' v'), elem_of_app. by left.
Qed.

(** Rebuilding a sorted list by insertion in order gives the list back. *)
Lemma sm_rebuild m :
  sm_sorted m → foldl (λ acc e, sm_insert e.1 e.2 acc) [] m = m.
Proof.
  induction m as [|[k v] m IH] using rev_ind; intros Hs; [done|].
  rewrite foldl_app, IH by eauto using sm_sorted_app_l. cbn.
  eapply sm_insert_last, sm_sorted_app_lt, Hs.
Qed.

(** Sorted maps with the same lookups are the same list. *)
Lemma sm_eq m1 m2 :
  sm_sorted m1 → sm_sorted m2 → (∀ k, sm_find k m1 = sm_find k m2) → m1 = m2.
Proof.
  intros H1. revert m2. induction H1 as [|k v m1 Hlt Hs IH]; intros m2 H2 E.
  - destruct H2 as [|k v m2]; [done|]. specialize (E k). cbn in E.
    by rewrite key_ltb_irrefl in E.
  - destruct H2 as [|k' v' m2 Hlt' Hs'].
    { specialize (E k). cbn in E. by rewrite key_ltb_irrefl in E. }
    assert (sm_sorted ((k, v) :: m1)) as S1 by by constructor.
    assert (sm_sorted ((k', v') :: m2)) as S2 by by constructor.
    destruct (key_cases k k') as [[F1 F2]|[[F1 F2]|(F1 & F2 & ->)]].
    + specialize (E k). cbn in E. by rewrite key_ltb_irrefl, F1 in E.
    + specialize (E k'). cbn in E. by rewrite key_ltb_irrefl, F2 in E.
    + assert (v = v') as -> by (specialize (E k'); cbn in E; rewrite key_ltb_irrefl in E; congruence).
      f_equal. apply IH; [done|]. intros k. specialize (E k). cbn in E.
      destruct (key_cases k k') as [[G1 G2]|[[G1 G2]|(G1 & G2 & ->)]].
      * rewrite (sm_find_none_lt k k' v'), (sm_find_none_lt k k' v') by done. done.
      * by rewrite G1, G2 in E.
      * destruct (sm_find k' m1) eqn:X; [apply sm_find_elem, Hlt in X; by rewrite key_ltb_irrefl in X|].
        destruct (sm_find k' m2) eqn:Y; [apply sm_find_elem, Hlt' in Y; by rewrite key_ltb_irrefl in Y|done].
Qed.

Lemma sm_sorted_NoDup m : sm_sorted m → NoDup m.*1.
Proof.
  induction 1 as [|k v m Hlt Hs IH]; cbn; constructor; [|done].
  intros ([k' v'] & -> & Hin)%list_elem_of_fmap. apply Hlt in Hin.
  cbn in Hin. by rewrite key_ltb_irrefl in Hin.
Qed.

End Map.

#[export] Hint Resolve sm_insert_sorted sm_erase_sorted sm_sorted_nil : kvfs.

(** [std::set]: a map to [unit]. *)
Definition ss_insert {K} `{KeyOrder K} (k : K) (s : list (K * unit)) : list (K * unit) :=
  sm_insert k tt s.
Definition ss_elems {K} (s : list (K * unit)) : list K := s.*1.

Lemma ss_insert_elem {K} `{KeyOrder K} (k k' : K) s :
  sm_sorted s → k' ∈ ss_elems (ss_insert k s) ↔ k' = k ∨ k' ∈ ss_elems s.
Proof.
  intros Hs. unfold ss_elems, ss_insert. rewrite !list_elem_of_fmap. split.
  - intros ([k1 []] & -> & [[-> _]|Hin]%sm_insert_elem); [by left|right]. by exists (k1, tt).
  - intros [->|([k1 []] & -> & Hin)].
    + exists (k, tt). split; [done|]. apply sm_find_elem, sm_find_insert_eq.
    + exists (k1, tt). split; [done|]. cbn. apply sm_find_elem. rewrite sm_find_insert.
      destruct (_ || _); [|done]. by apply sm_elem_find.
Qed.

Lemma ss_sorted_NoDup {K} `{KeyOrder K} (s : list (K * unit)) :
  sm_sorted s → NoDup (ss_elems s).
Proof. apply sm_sorted_NoDup. Qed.
