(* ===== verification/Status.v ===== *)
(** * Status codes (src/Status.h, src/Status.cc)

    The enumeration every file-system operation returns, its message and symbol
    tables, and the translation to errno values that the FUSE replies carry. *)

From Stdlib Require Import ZArith Lia Strings.String.
From stdpp Require Import base list strings.
From S2P Require Import Prelude.

(** ** errno values (Linux <errno.h>) *)

Definition ENOENT : Z := 2.
Definition EIO : Z := 5.
Definition ENOMEM : Z := 12.
Definition EACCES : Z := 13.
Definition EEXIST : Z := 17.
Definition ENOTDIR : Z := 20.
Definition EINVAL : Z := 22.
Definition ENOSYS : Z := 38.
Definition ENOTSUP : Z := 95.

(** ** The enumeration *)

Inductive Status :=
  | STATUS_OK
  | STATUS_UNKNOWN_TABLET
  | STATUS_TABLE_DOESNT_EXIST
  | STATUS_OBJECT_DOESNT_EXIST
  | STATUS_OBJECT_EXISTS
  | STATUS_WRONG_VERSION
  | STATUS_NO_TABLE_SPACE
  | STATUS_MESSAGE_TOO_SHORT
  | STATUS_UNIMPLEMENTED_REQUEST
  | STATUS_REQUEST_FORMAT_ERROR
  | STATUS_RESPONSE_FORMAT_ERROR
  | STATUS_COULDNT_CONNECT
  | STATUS_BACKUP_BAD_SEGMENT_ID
  | STATUS_BACKUP_OPEN_REJECTED
  | STATUS_BACKUP_SEGMENT_OVERFLOW
  | STATUS_BACKUP_MALFORMED_SEGMENT
  | STATUS_SEGMENT_RECOVERY_FAILED
  | STATUS_RETRY
  | STATUS_SERVICE_NOT_AVAILABLE
  | STATUS_TIMEOUT
  | STATUS_SERVER_NOT_UP
  | STATUS_INTERNAL_ERROR
  | STATUS_INVALID_OBJECT
  | STATUS_TABLET_DOESNT_EXIST
  | STATUS_PARTITION_BEFORE_READ
  | STATUS_WRONG_SERVER
  | STATUS_CALLER_NOT_IN_CLUSTER
  | STATUS_REQUEST_TOO_LARGE
  | STATUS_UNKNOWN_INDEXLET
  | STATUS_UNKNOWN_INDEX
  | STATUS_INVALID_PARAMETER.

#[export] Instance Status_eq_dec : EqDecision Status.
Proof. solve_decision. Defined.

(** The enumerators in declaration order; [STATUS_MAX_VALUE] is the last one. *)
Definition all_statuses : list Status :=
  [STATUS_OK; STATUS_UNKNOWN_TABLET; STATUS_TABLE_DOESNT_EXIST;
   STATUS_OBJECT_DOESNT_EXIST; STATUS_OBJECT_EXISTS; STATUS_WRONG_VERSION;
   STATUS_NO_TABLE_SPACE; STATUS_MESSAGE_TOO_SHORT; STATUS_UNIMPLEMENTED_REQUEST;
   STATUS_REQUEST_FORMAT_ERROR; STATUS_RESPONSE_FORMAT_ERROR;
   STATUS_COULDNT_CONNECT; STATUS_BACKUP_BAD_SEGMENT_ID;
   STATUS_BACKUP_OPEN_REJECTED; STATUS_BACKUP_SEGMENT_OVERFLOW;
   STATUS_BACKUP_MALFORMED_SEGMENT; STATUS_SEGMENT_RECOVERY_FAILED; STATUS_RETRY;
   STATUS_SERVICE_NOT_AVAILABLE; STATUS_TIMEOUT; STATUS_SERVER_NOT_UP;
   STATUS_INTERNAL_ERROR; STATUS_INVALID_OBJECT; STATUS_TABLET_DOESNT_EXIST;
   STATUS_PARTITION_BEFORE_READ; STATUS_WRONG_SERVER;
   STATUS_CALLER_NOT_IN_CLUSTER; STATUS_REQUEST_TOO_LARGE;
   STATUS_UNKNOWN_INDEXLET; STATUS_UNKNOWN_INDEX; STATUS_INVALID_PARAMETER].

Fixpoint position (s : Status) (l : list Status) : Z :=
  match l with
  | [] => 0
  | t :: l => if decide (s = t) then 0 else 1 + position s l
  end.

(** The integer value of an enumerator ([int err = status]). *)
Definition status_val (s : Status) : Z := position s all_statuses.

Definition STATUS_MAX_VALUE : Z := 30.

(** ** The tables of Status.cc *)

Definition messages : list string :=
  ["operation succeeded"; "unknown table (may exist elsewhere)";
   "table doesn't exist"; "object doesn't exist"; "object already exists";
   "object has wrong version"; "insufficient space to create new table";
   "RPC request message too short"; "invalid RPC request type";
   "RPC request improperly formatted"; "RPC response improperly formatted";
   "couldn't connect to RAMCloud cluster"; "bad segment id";
   "backup rejected replica open request"; "segment overflow";
   "malformed segment"; "segment recovery failed"; "retry";
   "service not available"; "operation took too long"; "server doesn't exist";
   "internal RAMCloud error"; "object is invalid for the chosen operation";
   "tablet doesn't exist"; "reading data should preceed partitioning";
   "rpc sent to wrong server id";
   "invoking server does not appear to be in the cluster";
   "request is too large"; "unknown indexlet (may exist elsewhere)";
   "unknown index"; "invalid parameter"]%string.

Definition symbols : list string :=
  ["STATUS_OK"; "STATUS_UNKNOWN_TABLET"; "STATUS_TABLE_DOESNT_EXIST";
   "STATUS_OBJECT_DOESNT_EXIST"; "STATUS_OBJECT_EXISTS"; "STATUS_WRONG_VERSION";
   "STATUS_NO_TABLE_SPACE"; "STATUS_MESSAGE_TOO_SHORT";
   "STATUS_UNIMPLEMENTED_REQUEST"; "STATUS_REQUEST_FORMAT_ERROR";
   "STATUS_RESPONSE_FORMAT_ERROR"; "STATUS_COULDNT_CONNECT";
   "STATUS_BACKUP_BAD_SEGMENT_ID"; "STATUS_BACKUP_OPEN_REJECTED";
   "STATUS_BACKUP_SEGMENT_OVERFLOW"; "STATUS_BACKUP_MALFORMED_SEGMENT";
   "STATUS_SEGMENT_RECOVERY_FAILED"; "STATUS_RETRY";
   "STATUS_SERVICE_NOT_AVAILABLE"; "STATUS_TIMEOUT"; "STATUS_SERVER_NOT_UP";
   "STATUS_INTERNAL_ERROR"; "STATUS_INVALID_OBJECT"; "STATUS_TABLET_DOESNT_EXIST";
   "STATUS_PARTITION_BEFORE_READ"; "STATUS_WRONG_SERVER";
   "STATUS_CALLER_NOT_IN_CLUSTER"; "STATUS_REQUEST_TOO_LARGE";
   "STATUS_UNKNOWN_INDEXLET"; "STATUS_UNKNOWN_INDEX";
   "STATUS_INVALID_PARAMETER"]%string.

(** A table access guarded by the comparison with [sizeof(table)/sizeof(char* )]:
    the argument is converted to [unsigned int] first. *)
Definition table_get (tbl : list string) (dflt : string) (status : Z) : string :=
  let index := u32 status in
  if index <? Z.of_nat (length tbl) then default dflt (tbl !! Z.to_nat index)
  else dflt.

Definition statusToString (status : Z) : string :=
  table_get messages "unrecognized RAMCloud error" status.

Definition statusToSymbol (status : Z) : string :=
  table_get symbols "STATUS_UNKNOWN" status.

Definition StatusToErrno (status : Status) : Z :=
  match status with
  | STATUS_OK => 0
  | STATUS_OBJECT_DOESNT_EXIST => ENOENT
  | STATUS_OBJECT_EXISTS => EEXIST
  | STATUS_INTERNAL_ERROR => EIO
  | STATUS_INVALID_PARAMETER => EINVAL
  | _ => EIO
  end.

(** The spelling of each enumerator, written independently of the table. *)
Definition enumerator_name (s : Status) : string :=
  match s with
  | STATUS_OK => "STATUS_OK"
  | STATUS_UNKNOWN_TABLET => "STATUS_UNKNOWN_TABLET"
  | STATUS_TABLE_DOESNT_EXIST => "STATUS_TABLE_DOESNT_EXIST"
  | STATUS_OBJECT_DOESNT_EXIST => "STATUS_OBJECT_DOESNT_EXIST"
  | STATUS_OBJECT_EXISTS => "STATUS_OBJECT_EXISTS"
  | STATUS_WRONG_VERSION => "STATUS_WRONG_VERSION"
  | STATUS_NO_TABLE_SPACE => "STATUS_NO_TABLE_SPACE"
  | STATUS_MESSAGE_TOO_SHORT => "STATUS_MESSAGE_TOO_SHORT"
  | STATUS_UNIMPLEMENTED_REQUEST => "STATUS_UNIMPLEMENTED_REQUEST"
  | STATUS_REQUEST_FORMAT_ERROR => "STATUS_REQUEST_FORMAT_ERROR"
  | STATUS_RESPONSE_FORMAT_ERROR => "STATUS_RESPONSE_FORMAT_ERROR"
  | STATUS_COULDNT_CONNECT => "STATUS_COULDNT_CONNECT"
  | STATUS_BACKUP_BAD_SEGMENT_ID => "STATUS_BACKUP_BAD_SEGMENT_ID"
  | STATUS_BACKUP_OPEN_REJECTED => "STATUS_BACKUP_OPEN_REJECTED"
  | STATUS_BACKUP_SEGMENT_OVERFLOW => "STATUS_BACKUP_SEGMENT_OVERFLOW"
  | STATUS_BACKUP_MALFORMED_SEGMENT => "STATUS_BACKUP_MALFORMED_SEGMENT"
  | STATUS_SEGMENT_RECOVERY_FAILED => "STATUS_SEGMENT_RECOVERY_FAILED"
  | STATUS_RETRY => "STATUS_RETRY"
  | STATUS_SERVICE_NOT_AVAILABLE => "STATUS_SERVICE_NOT_AVAILABLE"
  | STATUS_TIMEOUT => "STATUS_TIMEOUT"
  | STATUS_SERVER_NOT_UP => "STATUS_SERVER_NOT_UP"
  | STATUS_INTERNAL_ERROR => "STATUS_INTERNAL_ERROR"
  | STATUS_INVALID_OBJECT => "STATUS_INVALID_OBJECT"
  | STATUS_TABLET_DOESNT_EXIST => "STATUS_TABLET_DOESNT_EXIST"
  | STATUS_PARTITION_BEFORE_READ => "STATUS_PARTITION_BEFORE_READ"
  | STATUS_WRONG_SERVER => "STATUS_WRONG_SERVER"
  | STATUS_CALLER_NOT_IN_CLUSTER => "STATUS_CALLER_NOT_IN_CLUSTER"
  | STATUS_REQUEST_TOO_LARGE => "STATUS_REQUEST_TOO_LARGE"
  | STATUS_UNKNOWN_INDEXLET => "STATUS_UNKNOWN_INDEXLET"
  | STATUS_UNKNOWN_INDEX => "STATUS_UNKNOWN_INDEX"
  | STATUS_INVALID_PARAMETER => "STATUS_INVALID_PARAMETER"
  end%string.

(** ** Lemmas *)

Lemma StatusToErrno_0 s : StatusToErrno s = 0 ↔ s = STATUS_OK.
Proof. by destruct s. Qed.

Lemma StatusToErrno_nonneg s : 0 ≤ StatusToErrno s.
Proof. by destruct s. Qed.
#[export] Hint Resolve StatusToErrno_nonneg : kvfs.

Lemma status_val_range s : 0 ≤ status_val s ≤ STATUS_MAX_VALUE.
Proof. by destruct s. Qed.

(** ** Properties *)

(** The tables stay in step with the enumeration: for every status code of
    Status.h, [statusToSymbol] yields exactly the enumerator's own name and
    [statusToString] never falls back to the "unrecognized" message; for every
    code past [STATUS_MAX_VALUE] (as a 32-bit unsigned) both fall back; and a
    status maps to errno 0 exactly when it is [STATUS_OK]. *)
Lemma status_tables_agree :
  (∀ s, statusToSymbol (status_val s) = enumerator_name s
        ∧ statusToString (status_val s) ≠ "unrecognized RAMCloud error"%string
        ∧ (StatusToErrno s = 0 ↔ s = STATUS_OK))
  ∧ (∀ v, STATUS_MAX_VALUE < u32 v →
        statusToSymbol v = "STATUS_UNKNOWN"%string
        ∧ statusToString v = "unrecognized RAMCloud error"%string).
Proof.
  split.
  - intros s. split; [by destruct s|]. split; [by destruct s|apply StatusToErrno_0].
  - intros v Hv. unfold STATUS_MAX_VALUE in Hv.
    unfold statusToSymbol, statusToString, table_get.
    by rewrite !(proj2 (Z.ltb_ge _ _)) by (cbn; lia).
Qed.
