(* ===== verification/Mode.v ===== *)
(** * File types and permissions (src/KVFSMetaData.h, src/KVFSFile.cc)

    The split of a POSIX [mode_t] into the inode's type and protection fields,
    its reassembly, and the permission check. *)

From Stdlib Require Import ZArith Lia.
From stdpp Require Import base list.
From S2P Require Import Prelude.

(** ** Constants of <sys/stat.h> *)

Definition S_IFMT : Z := 61440.
Definition S_IFSOCK : Z := 49152.
Definition S_IFLNK : Z := 40960.
Definition S_IFREG : Z := 32768.
Definition S_IFBLK : Z := 24576.
Definition S_IFDIR : Z := 16384.
Definition S_IFCHR : Z := 8192.
Definition S_IFIFO : Z := 4096.
Definition S_ISUID : Z := 2048.
Definition S_ISGID : Z := 1024.
Definition S_ISVTX : Z := 512.
Definition S_IRUSR : Z := 256.
Definition S_IWUSR : Z := 128.
Definition S_IXUSR : Z := 64.
Definition S_IRGRP : Z := 32.
Definition S_IWGRP : Z := 16.
Definition S_IXGRP : Z := 8.
Definition S_IROTH : Z := 4.
Definition S_IWOTH : Z := 2.
Definition S_IXOTH : Z := 1.
Definition X_OK : Z := 1.
Definition W_OK : Z := 2.
Definition R_OK : Z := 4.

Definition is_type (t mode : Z) : bool := Z.land mode S_IFMT =? t.
Definition S_ISREG (mode : Z) : bool := is_type S_IFREG mode.
Definition S_ISDIR (mode : Z) : bool := is_type S_IFDIR mode.

(** ** Types of KVFSMetaData.h *)

Inductive meta_type_t :=
  | LOGFS_INVAL | LOGFS_IFREG | LOGFS_IFDIR | LOGFS_IFLNK
  | LOGFS_IFBLK | LOGFS_IFCHR | LOGFS_IFIFO | LOGFS_IFSOCK.

#[export] Instance meta_type_eq_dec : EqDecision meta_type_t.
Proof. solve_decision. Defined.

Inductive EvictionState := ES_RESIDENT | ES_DATA_EVICTED | ES_EVICTED.

#[export] Instance eviction_state_eq_dec : EqDecision EvictionState.
Proof. solve_decision. Defined.

(** The anonymous struct of three one-bit fields. *)
Record rwx := Rwx { read : bool; write : bool; exec : bool }.

#[export] Instance rwx_eq_dec : EqDecision rwx.
Proof. solve_decision. Defined.

Record meta_prot_t := MetaProt {
  suid : bool; sgid : bool; sticky : bool;
  owner : rwx; group : rwx; other : rwx }.

#[export] Instance meta_prot_eq_dec : EqDecision meta_prot_t.
Proof. solve_decision. Defined.

Definition prot_zero : meta_prot_t :=
  MetaProt false false false (Rwx false false false) (Rwx false false false)
    (Rwx false false false).

(** ** Operations *)

(** The C condition [mode & bit]. *)
Definition has_bit (mode bit : Z) : bool := negb (Z.land mode bit =? 0).

(** [SetProtectionFromMode]: every field is cleared, then set from its bit. *)
Definition SetProtectionFromMode (mode : Z) : meta_prot_t :=
  MetaProt (has_bit mode S_ISUID) (has_bit mode S_ISGID) (has_bit mode S_ISVTX)
    (Rwx (has_bit mode S_IRUSR) (has_bit mode S_IWUSR) (has_bit mode S_IXUSR))
    (Rwx (has_bit mode S_IRGRP) (has_bit mode S_IWGRP) (has_bit mode S_IXGRP))
    (Rwx (has_bit mode S_IROTH) (has_bit mode S_IWOTH) (has_bit mode S_IXOTH)).

(** [setTypeFromMode]: seven tests in a row, the last match wins; the old type
    stays when none matches. *)
Definition setTypeFromMode (mode : Z) (type : meta_type_t) : meta_type_t :=
  let type := if is_type S_IFREG mode then LOGFS_IFREG else type in
  let type := if is_type S_IFDIR mode then LOGFS_IFDIR else type in
  let type := if is_type S_IFLNK mode then LOGFS_IFLNK else type in
  let type := if is_type S_IFBLK mode then LOGFS_IFBLK else type in
  let type := if is_type S_IFCHR mode then LOGFS_IFCHR else type in
  let type := if is_type S_IFIFO mode then LOGFS_IFIFO else type in
  let type := if is_type S_IFSOCK mode then LOGFS_IFSOCK else type in
  type.

Definition type_bit (type : meta_type_t) : Z :=
  match type with
  | LOGFS_IFREG => S_IFREG
  | LOGFS_IFDIR => S_IFDIR
  | LOGFS_IFLNK => S_IFLNK
  | LOGFS_IFBLK => S_IFBLK
  | LOGFS_IFCHR => S_IFCHR
  | LOGFS_IFIFO => S_IFIFO
  | LOGFS_IFSOCK => S_IFSOCK
  | LOGFS_INVAL => 0
  end.

(** [if (flag) prot_bit |= bit;] *)
Definition or_if (flag : bool) (bit acc : Z) : Z := if flag then Z.lor acc bit else acc.

Definition prot_bits (p : meta_prot_t) : Z :=
  let b := 0 in
  let b := or_if (suid p) S_ISUID b in
  let b := or_if (sgid p) S_ISGID b in
  let b := or_if (sticky p) S_ISVTX b in
  let b := or_if (read (owner p)) S_IRUSR b in
  let b := or_if (write (owner p)) S_IWUSR b in
  let b := or_if (exec (owner p)) S_IXUSR b in
  let b := or_if (read (group p)) S_IRGRP b in
  let b := or_if (write (group p)) S_IWGRP b in
  let b := or_if (exec (group p)) S_IXGRP b in
  let b := or_if (read (other p)) S_IROTH b in
  let b := or_if (write (other p)) S_IWOTH b in
  or_if (exec (other p)) S_IXOTH b.

Definition ModeFromMeta (type : meta_type_t) (protection : meta_prot_t) : Z :=
  Z.lor (type_bit type) (prot_bits protection).

(** One of the three branches of [LogFSFile::access]. *)
Definition access_class (mode : Z) (c : rwx) : bool :=
  let ok := true in
  let ok := if has_bit mode X_OK then (if negb (exec c) then false else ok) else ok in
  let ok := if has_bit mode W_OK then (if negb (write c) then false else ok) else ok in
  if has_bit mode R_OK then (if negb (read c) then false else ok) else ok.

(** ** Lemmas *)

Lemma land_pow2 m k : 0 ≤ k → has_bit m (2 ^ k) = Z.testbit m k.
Proof.
  intros Hk. unfold has_bit.
  destruct (Z.testbit m k) eqn:E.
  - apply negb_true_iff, Z.eqb_neq. intros F.
    apply (f_equal (λ z, Z.testbit z k)) in F.
    by rewrite Z.land_spec, Z.pow2_bits_true, E, Z.testbit_0_l in F by lia.
  - apply negb_false_iff, Z.eqb_eq, Z.bits_inj'. intros i Hi.
    rewrite Z.land_spec, Z.testbit_0_l.
    destruct (decide (i = k)) as [->|]; [by rewrite E|].
    rewrite Z.pow2_bits_false by lia. apply andb_false_r.
Qed.

Lemma or_if_testbit f k acc i :
  0 ≤ k → Z.testbit (or_if f (2 ^ k) acc) i = Z.testbit acc i || (f && (i =? k)).
Proof.
  intros Hk. destruct f; cbn; [|by rewrite orb_false_r].
  rewrite Z.lor_spec, Z.pow2_bits_eqb by lia. by rewrite Z.eqb_sym.
Qed.

(** Reassembling the protection bits of a mode gives its low twelve bits. *)
Lemma prot_bits_roundtrip mode :
  prot_bits (SetProtectionFromMode mode) = Z.land mode 4095.
Proof.
  apply Z.bits_inj'. intros i Hi. unfold prot_bits, SetProtectionFromMode. cbn.
  change S_ISUID with (2 ^ 11). change S_ISGID with (2 ^ 10).
  change S_ISVTX with (2 ^ 9). change S_IRUSR with (2 ^ 8).
  change S_IWUSR with (2 ^ 7). change S_IXUSR with (2 ^ 6).
  change S_IRGRP with (2 ^ 5). change S_IWGRP with (2 ^ 4).
  change S_IXGRP with (2 ^ 3). change S_IROTH with (2 ^ 2).
  change S_IWOTH with (2 ^ 1). change S_IXOTH with (2 ^ 0).
  rewrite !or_if_testbit, !land_pow2, Z.testbit_0_l by lia.
  change 4095 with (Z.ones 12). rewrite Z.land_spec.
  destruct (decide (12 ≤ i)).
  - rewrite Z.ones_spec_high, andb_false_r by lia.
    repeat rewrite (proj2 (Z.eqb_neq i _)) by lia. by rewrite !andb_false_r.
  - rewrite Z.ones_spec_low, andb_true_r by lia.
    assert (i = 0 ∨ i = 1 ∨ i = 2 ∨ i = 3 ∨ i = 4 ∨ i = 5 ∨ i = 6 ∨ i = 7 ∨ i = 8
            ∨ i = 9 ∨ i = 10 ∨ i = 11) as C by lia.
    destruct_or! C; subst i; cbn [Z.eqb Pos.eqb];
      rewrite ?andb_false_r, ?andb_true_r, ?orb_false_r, ?orb_false_l; done.
Qed.

Lemma type_bit_roundtrip mode :
  Z.land mode S_IFMT ∈ [S_IFREG; S_IFDIR; S_IFLNK; S_IFBLK; S_IFCHR; S_IFIFO; S_IFSOCK] →
  type_bit (setTypeFromMode mode LOGFS_INVAL) = Z.land mode S_IFMT.
Proof.
  intros Hin. unfold setTypeFromMode, is_type.
  rewrite !elem_of_cons in Hin. destruct_or! Hin; rewrite ?Hin; try reflexivity.
  by apply not_elem_of_nil in Hin.
Qed.

Lemma mode_split mode : 0 ≤ mode < 65536 →
  mode = Z.lor (Z.land mode S_IFMT) (Z.land mode 4095).
Proof.
  intros H. rewrite <-Z.land_lor_distr_r. change (Z.lor S_IFMT 4095) with (Z.ones 16).
  rewrite Z.land_ones by lia. by rewrite Z.mod_small.
Qed.

Lemma S_ISDIR_or mode : 0 ≤ mode < 4096 → S_ISDIR (Z.lor S_IFDIR mode) = true.
Proof.
  intros H. unfold S_ISDIR, is_type. apply Z.eqb_eq.
  rewrite Z.land_lor_distr_l. change (Z.land S_IFDIR S_IFMT) with S_IFDIR.
  assert (Z.land mode S_IFMT = 0) as ->; [|done].
  apply Z.bits_inj'. intros i Hi. rewrite Z.land_spec, Z.testbit_0_l.
  destruct (decide (i < 12)).
  - change S_IFMT with (Z.shiftl 15 12). by rewrite Z.shiftl_spec_low, andb_false_r by lia.
  - rewrite <-(Z.mod_small mode (2 ^ 12)) by lia.
    by rewrite Z.mod_pow2_bits_high by lia.
Qed.

Lemma setTypeFromMode_reg mode t : S_ISREG mode = true → setTypeFromMode mode t = LOGFS_IFREG.
Proof.
  unfold S_ISREG, setTypeFromMode, is_type. intros E%Z.eqb_eq. by rewrite E.
Qed.

Lemma setTypeFromMode_dir mode t : S_ISDIR mode = true → setTypeFromMode mode t = LOGFS_IFDIR.
Proof.
  unfold S_ISDIR, setTypeFromMode, is_type. intros E%Z.eqb_eq. by rewrite E.
Qed.

(** The file type of a stored mode. *)
Lemma or_if_land f b acc : Z.land b S_IFMT = 0 → Z.land (or_if f b acc) S_IFMT = Z.land acc S_IFMT.
Proof. intros E. destruct f; [|done]. cbn. by rewrite Z.land_lor_distr_l, E, Z.lor_0_r. Qed.

Lemma type_of_meta ty p : Z.land (ModeFromMeta ty p) S_IFMT = Z.land (type_bit ty) S_IFMT.
Proof.
  unfold ModeFromMeta. rewrite Z.land_lor_distr_l.
  assert (Z.land (prot_bits p) S_IFMT = 0) as ->
    by (unfold prot_bits; by rewrite !or_if_land).
  by destruct ty.
Qed.
Lemma S_ISDIR_meta ty p : S_ISDIR (ModeFromMeta ty p) = bool_decide (ty = LOGFS_IFDIR).
Proof. unfold S_ISDIR, is_type. rewrite type_of_meta. by destruct ty. Qed.
Lemma S_ISREG_meta ty p : S_ISREG (ModeFromMeta ty p) = bool_decide (ty = LOGFS_IFREG).
Proof. unfold S_ISREG, is_type. rewrite type_of_meta. by destruct ty. Qed.

Lemma prot_roundtrip p : SetProtectionFromMode (prot_bits p) = p.
Proof. by destruct p as [[] [] [] [[] [] []] [[] [] []] [[] [] []]]. Qed.

(** ** Properties *)

(** Storing a mode in an inode and reading it back loses nothing: for every
    16-bit [mode_t] whose file type is one of the seven POSIX types, the type and
    protection fields that [setTypeFromMode] and [SetProtectionFromMode] compute
    reassemble, with [ModeFromMeta], to the same mode. *)
Theorem mode_roundtrip mode :
  0 ≤ mode < 65536 →
  Z.land mode S_IFMT ∈ [S_IFREG; S_IFDIR; S_IFLNK; S_IFBLK; S_IFCHR; S_IFIFO; S_IFSOCK] →
  ModeFromMeta (setTypeFromMode mode LOGFS_INVAL) (SetProtectionFromMode mode) = mode.
Proof.
  intros Hm Ht. unfold ModeFromMeta.
  rewrite type_bit_roundtrip, prot_bits_roundtrip by done. symmetry. by apply mode_split.
Qed.

Lemma mode_roundtrip_witness :
  ModeFromMeta (setTypeFromMode 33188 LOGFS_INVAL) (SetProtectionFromMode 33188) = 33188.
Proof.
  apply (mode_roundtrip 33188); [lia|]. vm_compute. left.
Defined.
