(* ===== verification/Atomic.v ===== *)
(** * Atomic integers (src/Atomic.h)

    [Atomic<ValueType>] for integers and pointers of four or eight bytes.  Each locked
    instruction is one step; an operation of the class that uses two of them is two
    steps, between which other threads run: [++x] used as a value increments and then
    loads.  FileSystemManager hands out inode numbers this way. *)

From Stdlib Require Import ZArith Lia.
From stdpp Require Import base list gmap.
From S2P Require Import Prelude.

(** ** The class *)

(** The size in bytes (the static_assert), [AtomicStride<ValueType>::unitSize] and the
    value, as an unsigned number of that size. *)
Inductive width := W4 | W8.
Record Atomic := MkAtomic { at_width : width; unitSize : Z; value : Z }.

Definition wrap (w : width) (z : Z) : Z := match w with W4 => u32 z | W8 => u64 z end.
Definition set_value (v : Z) (a : Atomic) : Atomic :=
  MkAtomic (at_width a) (unitSize a) (wrap (at_width a) v).

(** [AtomicStride<T>::unitSize]: one, or the size of the referent of a pointer type. *)
Definition AtomicStride_unitSize (referent : option Z) : Z := default 1 referent.

Definition new_Atomic (w : width) (unit v : Z) : Atomic := MkAtomic w unit (wrap w v).

(** [add]: the increment is an int64_t, cast to int for a four-byte value, times an
    unsigned int. *)
Definition add (increment : Z) (a : Atomic) : Atomic :=
  match at_width a with
  | W8 => set_value (value a + i64 (increment * unitSize a)) a
  | W4 => set_value (value a + u32 (i32 increment * unitSize a)) a
  end.

(** The previous value and the object. *)
Definition compareExchange (test newValue : Z) (a : Atomic) : Z * Atomic :=
  (value a, if value a =? test then set_value newValue a else a).
Definition exchange (newValue : Z) (a : Atomic) : Z * Atomic := (value a, set_value newValue a).

Definition inc (a : Atomic) : Atomic :=
  if unitSize a =? 1 then set_value (value a + 1) a else add 1 a.
Definition load (a : Atomic) : Z := value a.
Definition store (newValue : Z) (a : Atomic) : Atomic := set_value newValue a.

(** [operator=], the conversion to [ValueType], and the prefix operators, which return the
    object itself. *)
Definition assign (newValue : Z) (a : Atomic) : Atomic := store newValue a.
Definition to_ValueType (a : Atomic) : Z := load a.
Definition pre_inc (a : Atomic) : Atomic := inc a.
Definition pre_dec (a : Atomic) : Atomic := add (-1) a.

(** The postfix operators return a copy made after the update. *)
Definition post_inc (a : Atomic) : Atomic * Atomic := let a' := inc a in (a', a').
Definition post_dec (a : Atomic) : Atomic * Atomic := let a' := add (-1) a in (a', a').

(** ** Threads *)

(** The steps on a shared object; a thread is the steps it still has to do and the values
    it has loaded. *)
Inductive instr :=
  | I_add (n : Z)
  | I_inc
  | I_load
  | I_cas (test newValue : Z).

Definition thread := (list instr * list Z)%type.

Definition exec (i : instr) (a : Atomic) : Atomic * list Z :=
  match i with
  | I_add n => (add n a, [])
  | I_inc => (inc a, [])
  | I_load => (a, [load a])
  | I_cas t n => let '(old, a') := compareExchange t n a in (a', [old])
  end.

(** A step of thread [k]. *)
Definition at_step (k : nat) (st : list thread * Atomic) : list thread * Atomic :=
  let '(ts, a) := st in
  match ts !! k with
  | Some (i :: rest, out) => let '(a', l) := exec i a in (<[k := (rest, out ++ l)]> ts, a')
  | _ => (ts, a)
  end.

Definition at_run (ks : list nat) (st : list thread * Atomic) : list thread * Atomic :=
  foldl (λ st k, at_step k st) st ks.

(** [getNextHandleId]: [return ++handleId]. *)
Definition get_next : list instr := [I_inc; I_load].

(** ** Lemmas *)

(** What a step adds, in units. *)
Definition adds (i : instr) : Z := match i with I_add n => n | I_inc => 1 | _ => 0 end.
Definition no_cas (i : instr) : Prop := match i with I_cas _ _ => False | _ => True end.
Definition pending (ts : list thread) : Z := foldr Z.add 0 (foldr Z.add 0 <$> (fmap adds <$> ts.*1)).

Lemma u32_mod z : u32 z = z mod 4294967296.
Proof. done. Qed.
Lemma u64_mod z : u64 z = z mod 18446744073709551616.
Proof. done. Qed.

(** [add] adds modulo the size of the value. *)
Lemma add_value n a : value (add n a) = wrap (at_width a) (value a + n * unitSize a).
Proof.
  unfold add, set_value. destruct (at_width a) eqn:E; cbn; rewrite ?E; unfold wrap, u64, u32, i64, i32.
  - rewrite Zplus_mod_idemp_r.
    replace (value a + ((n + 2147483648) mod 4294967296 - 2147483648) * unitSize a)
      with (value a + n * unitSize a + ((n + 2147483648) mod 4294967296 - (n + 2147483648)) * unitSize a) by ring.
    rewrite (Z.mod_eq (n + 2147483648) 4294967296) by done.
    replace ((n + 2147483648 - 4294967296 * ((n + 2147483648) / 4294967296) - (n + 2147483648)) * unitSize a)
      with ((- ((n + 2147483648) / 4294967296) * unitSize a) * 4294967296) by ring.
    by rewrite Z_mod_plus_full.
  - set (x := n * unitSize a).
    replace (value a + ((x + 9223372036854775808) mod 18446744073709551616 - 9223372036854775808))
      with (value a + x + ((x + 9223372036854775808) mod 18446744073709551616 - (x + 9223372036854775808))) by ring.
    rewrite (Z.mod_eq (x + 9223372036854775808) 18446744073709551616) by done.
    replace (x + 9223372036854775808 - 18446744073709551616 * ((x + 9223372036854775808) / 18446744073709551616)
             - (x + 9223372036854775808))
      with (- ((x + 9223372036854775808) / 18446744073709551616) * 18446744073709551616) by ring.
    by rewrite Z_mod_plus_full.
Qed.

Lemma add_shape n a : at_width (add n a) = at_width a ∧ unitSize (add n a) = unitSize a.
Proof. unfold add, set_value. by destruct (at_width a) eqn:E; cbn; rewrite ?E. Qed.

Lemma inc_value a : value (inc a) = wrap (at_width a) (value a + unitSize a).
Proof.
  unfold inc. destruct (Z.eqb_spec (unitSize a) 1) as [E|E]; [by rewrite E|].
  rewrite add_value. by rewrite Z.mul_1_l.
Qed.
Lemma inc_shape a : at_width (inc a) = at_width a ∧ unitSize (inc a) = unitSize a.
Proof. unfold inc. destruct (unitSize a =? 1); [done|apply add_shape]. Qed.

Lemma wrap_wrap w x y : wrap w (wrap w x + y) = wrap w (x + y).
Proof. destruct w; unfold wrap, u32, u64; apply Zplus_mod_idemp_l. Qed.

Lemma pending_insert (ts : list thread) k i rest out out' :
  ts !! k = Some (i :: rest, out) → pending ts = adds i + pending (<[k := (rest, out')]> ts).
Proof.
  unfold pending. revert k. induction ts as [|t ts IH]; intros [|k]; cbn; try done.
  - intros [= ->]. cbn. lia.
  - intros Hk. specialize (IH k Hk). unfold insert in *. rewrite IH. lia.
Qed.

Lemma pending_done ts : Forall (λ t : thread, t.1 = []) ts → pending ts = 0.
Proof. unfold pending. induction 1 as [|[rest out] ts E _ IH]; cbn in *; [done|]. subst. cbn. lia. Qed.

(** The steps of a thread keep the object's shape, and the value plus what is pending. *)
Definition conserves (st st' : list thread * Atomic) : Prop :=
  at_width (st'.2) = at_width (st.2) ∧ unitSize (st'.2) = unitSize (st.2)
  ∧ wrap (at_width (st.2)) (value (st'.2) + pending (st'.1) * unitSize (st.2))
    = wrap (at_width (st.2)) (value (st.2) + pending (st.1) * unitSize (st.2)).

Lemma exec_value i a :
  no_cas i →
  at_width (exec i a).1 = at_width a ∧ unitSize (exec i a).1 = unitSize a
  ∧ (value (exec i a).1 = wrap (at_width a) (value a + adds i * unitSize a) ∨ (exec i a).1 = a ∧ adds i = 0).
Proof.
  destruct i; cbn; intros Hn; try done.
  - destruct (add_shape n a). rewrite add_value. eauto.
  - destruct (inc_shape a). rewrite inc_value. split_and!; try done. left. f_equal. lia.
  - eauto 6.
Qed.

Lemma at_step_conserves k (ts : list thread) a :
  Forall (λ t : thread, Forall no_cas t.1) ts →
  conserves (ts, a) (at_step k (ts, a)) ∧ Forall (λ t : thread, Forall no_cas t.1) (at_step k (ts, a)).1.
Proof.
  intros Hf. assert (conserves (ts, a) (ts, a)) as Hid by by split_and!.
  unfold at_step. destruct (ts !! k) as [[[|i rest] out]|] eqn:E;
    [split; [exact Hid|exact Hf]| |split; [exact Hid|exact Hf]].
  pose proof (proj1 (Forall_lookup _ _) Hf k _ E) as Hi. apply Forall_cons in Hi as [Hi Hr].
  destruct (exec_value i a Hi) as (S1 & S2 & Hv). destruct (exec i a) as [a' l]. cbn [fst snd] in *. split.
  - split_and!; [done|done|]. cbn [fst snd]. rewrite (pending_insert ts k i rest out (out ++ l) E).
    destruct Hv as [->|[-> ->]]; [|by rewrite Z.add_0_l].
    rewrite wrap_wrap. f_equal. ring.
  - by apply Forall_insert.
Qed.

Lemma at_run_conserves ks (ts : list thread) a :
  Forall (λ t : thread, Forall no_cas t.1) ts → conserves (ts, a) (at_run ks (ts, a)).
Proof.
  revert ts a. induction ks as [|k ks IH]; intros ts a Hf; [by split_and!|].
  change (at_run (k :: ks) (ts, a)) with (at_run ks (at_step k (ts, a))).
  destruct (at_step_conserves k ts a Hf) as [(A1 & A2 & A3) Hf']. destruct (at_step k (ts, a)) as [ts1 a1].
  cbn in *. destruct (IH ts1 a1 Hf') as (B1 & B2 & B3). cbn in *. rewrite A1, A2 in *.
  split_and!; cbn; congruence.
Qed.

(** A decrement takes an increment back, whatever the stride, also across the wrap. *)
Lemma pre_dec_inc a : value a = wrap (at_width a) (value a) → pre_dec (pre_inc a) = a.
Proof.
  intros Hv. destruct (inc_shape a) as [S1 S2], (add_shape (-1) (inc a)) as [S3 S4]. unfold pre_dec, pre_inc.
  pose proof (add_value (-1) (inc a)) as E. rewrite S1, S2, inc_value, wrap_wrap in E.
  replace (value a + unitSize a + -1 * unitSize a) with (value a) in E by lia. rewrite <-Hv in E.
  destruct (add (-1) (inc a)), a. cbn in *. congruence.
Qed.

(** ** Properties *)

(** No increment is lost: threads that add to an Atomic and load it, in any number
    and under any interleaving of their instructions, leave it, once all have finished,
    at its first value plus the sum of all increments in units, modulo its size. *)
Theorem increments_never_lost ks (ts : list thread) a ts' a' :
  Forall (λ t : thread, Forall no_cas t.1) ts → at_run ks (ts, a) = (ts', a') →
  Forall (λ t : thread, t.1 = []) ts' → wrap (at_width a) (value a') = wrap (at_width a) (value a + pending ts * unitSize a).
Proof.
  intros Hf Hr Hd. destruct (at_run_conserves ks ts a Hf) as (_ & _ & E). rewrite Hr in E. cbn [fst snd] in E.
  by rewrite (pending_done ts' Hd), Z.mul_0_l, Z.add_0_r in E.
Qed.

Lemma increments_never_lost_witness :
  wrap W8 7 = wrap W8 (5 + pending [(get_next, []); (get_next, [])] * 1).
Proof.
  apply (increments_never_lost [0; 1; 1; 0]%nat [(get_next, []); (get_next, [])] (new_Atomic W8 1 5)
           [([], [7]); ([], [7])] (new_Atomic W8 1 7)); [by repeat constructor|reflexivity|by repeat constructor].
Defined.

(** Inode numbers are unique only while one thread asks for them: two threads in
    [getNextHandleId], whose increments both come before their loads, get the same
    number, for every value of the counter; one after the other they get two. *)
Theorem concurrent_handles_collide v :
  at_run [0; 1; 0; 1]%nat ([(get_next, []); (get_next, [])], new_Atomic W8 1 v)
    = ([([], [u64 (v + 2)]); ([], [u64 (v + 2)])], new_Atomic W8 1 (v + 2))
  ∧ at_run [0; 0; 1; 1]%nat ([(get_next, []); (get_next, [])], new_Atomic W8 1 v)
    = ([([], [u64 (v + 1)]); ([], [u64 (v + 2)])], new_Atomic W8 1 (v + 2))
  ∧ u64 (v + 1) ≠ u64 (v + 2).
Proof.
  assert (∀ x, inc (new_Atomic W8 1 x) = new_Atomic W8 1 (x + 1)) as Hi.
  { intros x. unfold inc, new_Atomic, set_value. cbn. f_equal. apply (wrap_wrap W8). }
  split_and!.
  - unfold at_run, at_step. cbn -[inc new_Atomic u64]. rewrite !Hi. by replace (v + 1 + 1) with (v + 2) by lia.
  - unfold at_run, at_step. cbn -[inc new_Atomic u64]. rewrite !Hi. by replace (v + 1 + 1) with (v + 2) by lia.
  - unfold u64. intros E. pose proof (Z.div_mod (v + 1) 18446744073709551616).
    pose proof (Z.div_mod (v + 2) 18446744073709551616). lia.
Qed.
