(* ===== verification/Cycles.v ===== *)
(** * The cycle counter (src/Cycles.h, src/Cycles.cc)

    Doubles are the binary64 numbers of the IEEE standard, with round to nearest even,
    as the Standard Library specifies them.  What the code reads from the machine is a
    pair of functions: the time and the counter at the k-th pair of readings. *)

From Stdlib Require Import ZArith Lia Floats.SpecFloat.
From stdpp Require Import base list.
From S2P Require Import Prelude.

(** ** Doubles *)

Abbreviation double := spec_float.

Definition d_mul : double → double → double := SFmul 53 1024.
Definition d_div : double → double → double := SFdiv 53 1024.
Definition d_add : double → double → double := SFadd 53 1024.
Definition d_sub : double → double → double := SFsub 53 1024.

(** [static_cast<double>] of an integer. *)
Definition d_of (z : Z) : double := binary_normalize 53 1024 z 0 false.
Definition d_zero : double := S754_zero false.
(** 0.5 *)
Definition d_half : double := binary_normalize 53 1024 1 (-1) false.

(** The integer part of the magnitude. *)
Definition d_floor (m : positive) (e : Z) : Z :=
  if 0 <=? e then Z.pos m * 2 ^ e else Z.pos m / 2 ^ (- e).

(** [(uint64_t)]: undefined when the value without its fraction is out of range. *)
Definition d_to_u64 (x : double) : res Z :=
  match x with
  | S754_zero _ => Ok 0
  | S754_finite sign m e =>
      let v := d_floor m e in
      if (if sign then v =? 0 else v <? 18446744073709551616) then Ok v
      else Crash UndefinedBehaviour
  | _ => Crash UndefinedBehaviour
  end.

(** ** Conversions *)

(** [rdtsc]: the two halves of the counter. *)
Definition rdtsc (lo hi : Z) : Z := Z.lor (u64 (Z.shiftl hi 32)) lo.

Section Cycles.
(** The static member. *)
Context (cyclesPerSec : double).

(** The argument, or the static member if it is 0. *)
Definition pick (arg : double) : double := if SFeqb arg d_zero then cyclesPerSec else arg.

Definition toSeconds (cycles : Z) (arg : double) : double := d_div (d_of cycles) (pick arg).
Definition fromSeconds (seconds arg : double) : res Z :=
  d_to_u64 (d_add (d_mul seconds (pick arg)) d_half).
Definition toNanoseconds (cycles : Z) (arg : double) : res Z :=
  d_to_u64 (d_add (d_div (d_mul (d_of 1000000000) (d_of cycles)) (pick arg)) d_half).
Definition toMicroseconds (cycles : Z) (arg : double) : res Z :=
  match toNanoseconds cycles arg with
  | Ok ns => Ok (ns / 1000)
  | Crash c => Crash c
  end.
Definition fromNanoseconds (ns : Z) (arg : double) : res Z :=
  d_to_u64 (d_add (d_div (d_mul (d_of ns) (pick arg)) (d_of 1000000000)) d_half).

End Cycles.

(** ** Loops over readings *)

Section Readings.
(** [gettimeofday] (seconds and microseconds) and [rdtsc] at the k-th readings. *)
Context (clock : nat → Z * Z) (tsc : nat → Z).

Definition micros (start stop : Z * Z) : Z :=
  u64 ((snd stop - snd start) + (fst stop - fst start) * 1000000).

(** The inner loop of [init]: until 10 ms have gone by, or seem to. *)
Fixpoint measure (fuel k : nat) (startTime : Z * Z) (startCycles : Z) : option (double * nat) :=
  match fuel with
  | O => None
  | S fuel =>
      let us := micros startTime (clock k) in
      if 10000 <? us
      then Some (d_div (d_mul (d_of 1000000) (d_of (u64 (tsc k - startCycles)))) (d_of us), S k)
      else measure fuel (S k) startTime startCycles
  end.

(** Two results are within 0.1% of the newer one. *)
Definition close_to (oldCycles cps : double) : bool :=
  let delta := d_div cps (d_of 1000) in
  SFltb (d_sub cps delta) oldCycles && SFltb oldCycles (d_add cps delta).

(** The outer loop: until two results in a row agree. *)
Fixpoint init_loop (fuel inner k : nat) (oldCycles : double) : option (double * nat) :=
  match fuel with
  | O => None
  | S fuel =>
      match measure inner (S k) (clock k) (tsc k) with
      | None => None
      | Some (cps, k') =>
          if close_to oldCycles cps then Some (cps, k') else init_loop fuel inner k' cps
      end
  end.

(** [Cycles::init]: the new value of the static member. *)
Definition init (fuel inner : nat) (cps : double) : option double :=
  if negb (SFeqb cps d_zero) then Some cps else fst <$> init_loop fuel inner 0 d_zero.

(** The loop of [sleep], from reading [k] on: the reading that ended it. *)
Fixpoint sleep_loop (fuel k : nat) (stop : Z) : option nat :=
  match fuel with
  | O => None
  | S fuel => if tsc k <? stop then sleep_loop fuel (S k) stop else Some k
  end.
Definition sleep (fuel : nat) (cps : double) (us : Z) : res (option nat) :=
  match fromNanoseconds cps (u64 (1000 * us)) d_zero with
  | Ok d => Ok (sleep_loop fuel 1 (u64 (tsc 0 + d)))
  | Crash c => Crash c
  end.

(** ** Lemmas *)

(** The result of a measurement spans more than 10 ms of the clock. *)
Lemma measure_spans fuel k t0 c0 cps k' :
  measure fuel k t0 c0 = Some (cps, k') →
  ∃ j, (k ≤ j)%nat ∧ k' = S j ∧ 10000 < micros t0 (clock j)
    ∧ cps = d_div (d_mul (d_of 1000000) (d_of (u64 (tsc j - c0)))) (d_of (micros t0 (clock j))).
Proof.
  revert k. induction fuel as [|fuel IH]; intros k; [done|]. cbn [measure].
  destruct (Z.ltb_spec 10000 (micros t0 (clock k))) as [Hu|Hu].
  - intros [= <- <-]. by exists k.
  - intros (j & Hj & R)%IH. exists j. split; [lia|done].
Qed.

(** A clock that gets there ends the measurement. *)
Lemma measure_ends fuel k t0 c0 j :
  (k ≤ j < k + fuel)%nat → 10000 < micros t0 (clock j) → is_Some (measure fuel k t0 c0).
Proof.
  revert k. induction fuel as [|fuel IH]; intros k Hj Hu; [lia|]. cbn [measure].
  destruct (Z.ltb_spec 10000 (micros t0 (clock k))) as [|Hk]; [eauto|].
  apply IH; [|done]. destruct (decide (k = j)) as [->|]; lia.
Qed.

(** What [init] returns was measured, and agrees with the result before it. *)
Lemma init_loop_agrees fuel inner k old cps k' :
  init_loop fuel inner k old = Some (cps, k') →
  ∃ i prev, measure inner (S i) (clock i) (tsc i) = Some (cps, k') ∧ close_to prev cps = true
    ∧ ((prev = old ∧ i = k) ∨ ∃ h, measure inner (S h) (clock h) (tsc h) = Some (prev, i)).
Proof.
  revert k old. induction fuel as [|fuel IH]; intros k old; [done|]. cbn [init_loop].
  destruct (measure inner (S k) (clock k) (tsc k)) as [[c j]|] eqn:E; [|done].
  destruct (close_to old c) eqn:Ec.
  - intros [= <- <-]. exists k, old. auto.
  - intros (i & prev & Em & Hc & Hor)%IH. exists i, prev. split; [done|]. split; [done|]. right.
    destruct Hor as [[-> ->]|Hor]; [by exists k|done].
Qed.

(** [sleep] ends at the first reading that is not before the stop. *)
Lemma sleep_loop_first fuel k stop j :
  (k ≤ j < k + fuel)%nat → stop ≤ tsc j → (∀ i, (k ≤ i < j)%nat → tsc i < stop) →
  sleep_loop fuel k stop = Some j.
Proof.
  revert k. induction fuel as [|fuel IH]; intros k Hj Hs Hb; [lia|]. cbn [sleep_loop].
  destruct (decide (k = j)) as [->|Hne]; [by rewrite (proj2 (Z.ltb_ge _ _))|].
  rewrite (proj2 (Z.ltb_lt _ _)) by (apply Hb; lia). apply IH; [lia|done|]. intros i Hi. apply Hb. lia.
Qed.

(** Calibrating: whatever the readings are (a clock that is set back included), [init]
    keeps a frequency that is set, and otherwise returns only a frequency that was measured
    over more than 10 ms and agrees within 0.1% with the measurement before it (or with 0,
    the value before the first). *)
Theorem init_calibrates fuel inner cps cps' :
  init fuel inner cps = Some cps' →
  if SFeqb cps d_zero then
    ∃ i j prev, (i < j)%nat ∧ 10000 < micros (clock i) (clock j)
      ∧ cps' = d_div (d_mul (d_of 1000000) (d_of (u64 (tsc j - tsc i)))) (d_of (micros (clock i) (clock j)))
      ∧ close_to prev cps' = true
      ∧ (prev = d_zero ∨ ∃ h, measure inner (S h) (clock h) (tsc h) = Some (prev, i))
  else cps' = cps.
Proof.
  unfold init. destruct (SFeqb cps d_zero); cbn [negb]; [|by intros [= ->]].
  destruct (init_loop fuel inner 0 d_zero) as [[c k]|] eqn:E; [|done]. intros [= <-].
  apply init_loop_agrees in E as (i & prev & Em & Hc & Hor).
  apply measure_spans in Em as (j & Hj & _ & Hu & ->).
  exists i, j, prev. split; [lia|]. do 3 (split; [done|]). destruct Hor as [[-> _]|Hor]; auto.
Qed.

End Readings.

(** ** Examples *)

(** At 2.5 GHz one second is 2.5e9 cycles, both ways. *)
Example one_second :
  toNanoseconds (d_of 2500000000) 2500000000 d_zero = Ok 1000000000
  ∧ fromNanoseconds (d_of 2500000000) 1000000000 d_zero = Ok 2500000000
  ∧ toMicroseconds (d_of 2500000000) 2500000000 d_zero = Ok 1000000.
Proof. by vm_compute. Qed.

(** A steady clock and counter calibrate in two measurements. *)
Example steady_clock :
  let cps := init (λ k, (0, 6000 * Z.of_nat k)) (λ k, 15000000 * Z.of_nat k) 3 5 d_zero in
  cps = Some (d_of 2500000000).
Proof. by vm_compute. Qed.

(** A clock that is set back during a measurement makes the elapsed time wrap around: the
    measurement ends at once, with a frequency near zero, and is discarded. *)
Example clock_set_back :
  measure (λ k, (if (k =? 0)%nat then 100 else 50, 0)) (λ k, 1000 * Z.of_nat k) 1 1 (100, 0) 0 ≠ None
  ∧ init (λ k, (if (k =? 0)%nat then 100 else 50, 6000 * Z.of_nat k)) (λ k, 15000000 * Z.of_nat k)
      4 5 d_zero = Some (d_of 2500000000).
Proof. by vm_compute. Qed.
