(* ===== verification/KVStore.v ===== *)
(** * The key-value store interface (src/KVStore.h) and its LevelDB back end
    (src/LevelDBStore.h, src/LevelDBStore.cc)

    [KVStore] is the part of the abstract C++ class that the file system calls;
    [KVStoreLaws] is what its clients rely on.  Every theorem about files and
    directories is proved against this interface.  The LevelDB back end is
    modelled over the operations of leveldb::DB, which is third-party code: the
    database is a parameter, its documented behaviour the class [LevelDBLaws],
    and the back end is proved to implement the interface. *)

From Stdlib Require Import ZArith Lia Strings.String.
From stdpp Require Import base gmap list.
From S2P Require Import Prelude.

(** ** The interface *)

(** [get] reports absence as [None]; [put] and [remove] return whether they
    succeeded together with the store afterwards. *)
Class KVStore (S : Type) := {
  kv_get : S → bytes → option bytes;
  kv_put : S → bytes → bytes → bool * S;
  kv_remove : S → bytes → bool * S;
}.

Class KVStoreLaws (S : Type) `{KVStore S} : Prop := {
  kv_put_ok s k v s' : kv_put s k v = (true, s') →
    ∀ k', kv_get s' k' = if decide (k = k') then Some v else kv_get s k';
  kv_put_fail s k v s' : kv_put s k v = (false, s') →
    ∀ k', kv_get s' k' = kv_get s k';
  kv_remove_ok s k s' : kv_remove s k = (true, s') →
    ∀ k', kv_get s' k' = if decide (k = k') then None else kv_get s k';
  kv_remove_fail s k s' : kv_remove s k = (false, s') →
    ∀ k', kv_get s' k' = kv_get s k';
}.

(** A store whose updates never fail. *)
Class KVReliable (S : Type) `{KVStore S} : Prop := {
  kv_put_succeeds s k v : (kv_put s k v).1 = true;
  kv_remove_succeeds s k : (kv_remove s k).1 = true;
}.

(** Two stores are equivalent when every key reads the same. *)
Definition kv_equiv {S} `{KVStore S} : relation S :=
  λ s t, ∀ k, kv_get s k = kv_get t k.

#[export] Instance kv_equiv_equivalence {S} `{KVStore S} : Equivalence (@kv_equiv S _).
Proof.
  split.
  - by intros s k.
  - intros s t E k. by rewrite E.
  - intros s t u E1 E2 k. by rewrite E1.
Qed.

#[export] Instance kv_get_proper {S} `{KVStore S} :
  Proper (kv_equiv ==> eq ==> eq) (@kv_get S _).
Proof. intros s t E k ? <-. apply E. Qed.

(** ** Stores for running the model *)

(** An in-memory store. *)
Abbreviation MemStore := (gmap bytes bytes).

#[export] Instance mem_kv : KVStore MemStore := {|
  kv_get m k := m !! k;
  kv_put m k v := (true, <[k := v]> m);
  kv_remove m k := (true, delete k m);
|}.

#[export] Instance mem_kv_laws : KVStoreLaws MemStore.
Proof.
  split; cbn; intros; simplify_eq.
  - by rewrite lookup_insert.
  - by rewrite lookup_delete.
Qed.

#[export] Instance mem_kv_reliable : KVReliable MemStore.
Proof. split; done. Qed.

(** The same store with a script of outcomes for the next updates: [true] lets
    one through, [false] makes it fail; updates after the script succeed. *)
Record FlakyStore := Flaky { fl_map : gmap bytes bytes; fl_script : list bool }.

Definition fl_step (s : FlakyStore) (m' : gmap bytes bytes) : bool * FlakyStore :=
  match fl_script s with
  | [] => (true, Flaky m' [])
  | true :: r => (true, Flaky m' r)
  | false :: r => (false, Flaky (fl_map s) r)
  end.

#[export] Instance flaky_kv : KVStore FlakyStore := {|
  kv_get s k := fl_map s !! k;
  kv_put s k v := fl_step s (<[k := v]> (fl_map s));
  kv_remove s k := fl_step s (delete k (fl_map s));
|}.

Lemma fl_step_map s m b s' :
  fl_step s m = (b, s') → fl_map s' = if b then m else fl_map s.
Proof. unfold fl_step. destruct (fl_script s) as [|[] r]; intros; by simplify_eq/=. Qed.

#[export] Instance flaky_kv_laws : KVStoreLaws FlakyStore.
Proof.
  split; cbn; intros s; intros; erewrite fl_step_map by done; cbn; try done.
  - by rewrite lookup_insert.
  - by rewrite lookup_delete.
Qed.

(** ** The LevelDB back end *)

(** The calls on leveldb::DB, on a database state [W] with snapshots [Snap]. *)
Class LevelDB (W Snap : Type) := {
  db_Open : bytes → W → option W;
  db_Put : W → bytes → bytes → bool * W;
  db_Get : W → option Snap → bytes → option bytes;
  db_Delete : W → bytes → bool * W;
  db_GetSnapshot : W → Snap;
  db_ReleaseSnapshot : W → Snap → W;
  db_close : W → W;
  db_Destroy : bytes → W → bool * W;
  db_CompactRange : W → W;
}.

(** leveldb's documented behaviour: updates that report OK are seen by later
    reads, updates that do not leave the contents alone, a read at a snapshot sees the
    contents at the time the snapshot was taken, and releasing a snapshot or compacting
    changes no contents. *)
Class LevelDBLaws (W Snap : Type) `{LevelDB W Snap} : Prop := {
  db_put_ok w k v w' : db_Put w k v = (true, w') →
    ∀ k', db_Get w' None k' = if decide (k = k') then Some v else db_Get w None k';
  db_put_fail w k v w' : db_Put w k v = (false, w') →
    ∀ k', db_Get w' None k' = db_Get w None k';
  db_delete_ok w k w' : db_Delete w k = (true, w') →
    ∀ k', db_Get w' None k' = if decide (k = k') then None else db_Get w None k';
  db_delete_fail w k w' : db_Delete w k = (false, w') →
    ∀ k', db_Get w' None k' = db_Get w None k';
  db_snapshot_get w k : db_Get w (Some (db_GetSnapshot w)) k = db_Get w None k;
  db_snapshot_put w k v sn k' :
    db_Get (db_Put w k v).2 (Some sn) k' = db_Get w (Some sn) k';
  db_release_get w sn k : db_Get (db_ReleaseSnapshot w sn) None k = db_Get w None k;
  db_compact_get w k : db_Get (db_CompactRange w) None k = db_Get w None k;
}.

(** A database without I/O errors. *)
Class LevelDBReliable (W Snap : Type) `{LevelDB W Snap} : Prop := {
  db_put_succeeds w k v : (db_Put w k v).1 = true;
  db_delete_succeeds w k : (db_Delete w k).1 = true;
}.

Section LevelDBStore.
Context {W Snap : Type} `{LevelDB W Snap}.

(** The members of LevelDBStore: whether [db] is non-null, [db_name],
    [is_snapshot], and [read_options->snapshot] (absent when [read_options] is
    null). *)
Record LevelDBStore := mkLevelDBStore {
  db_open : bool;
  db_name : bytes;
  is_snapshot : bool;
  read_snapshot : option Snap;
}.

(** A method runs on the object and the database it points to. *)
Abbreviation LM := (M (LevelDBStore * W)).

Definition new_LevelDBStore : LevelDBStore := mkLevelDBStore false [] false None.

(** A call through [db], undefined when [db] is null. *)
Definition on_db {A} (f : W → A * W) : LM A := λ '(this, w),
  if db_open this then let '(a, w') := f w in Ok (a, (this, w'))
  else Crash UndefinedBehaviour.

Definition LevelDBStore_init : LM bool := mret true.

(** A failing DB::Open stores a null pointer in [db]. *)
Definition LevelDBStore_open (dbName : bytes) : LM bool := λ '(this, w),
  match db_Open dbName w with
  | None => Ok (false, (mkLevelDBStore false (db_name this) (is_snapshot this) (read_snapshot this), w))
  | Some w' => Ok (true, (mkLevelDBStore true dbName (is_snapshot this) (read_snapshot this), w'))
  end.

Definition LevelDBStore_close : LM bool := λ '(this, w),
  if db_open this then
    Ok (true, (mkLevelDBStore false (db_name this) (is_snapshot this) (read_snapshot this),
               db_close w))
  else Ok (true, (this, w)).

Definition LevelDBStore_destroy (dbName : bytes) : LM bool := λ '(this, w),
  let '(ok, w') := db_Destroy dbName w in Ok (ok, (this, w')).

Definition LevelDBStore_put (key value : bytes) : LM bool :=
  on_db (λ w, db_Put w key value).

(** [get] passes a default [leveldb::ReadOptions()], whatever [read_options] is. *)
Definition LevelDBStore_get (key : bytes) : LM (option bytes) :=
  on_db (λ w, (db_Get w None key, w)).

Definition LevelDBStore_remove (key : bytes) : LM bool :=
  on_db (λ w, db_Delete w key).

Definition LevelDBStore_Compact : LM unit := on_db (λ w, (tt, db_CompactRange w)).

(** [Snapshot]: a new store object on the same database. *)
Definition LevelDBStore_Snapshot : LM LevelDBStore :=
  '(this, w) ← get_st;
  if is_snapshot this then crash_with FatalLog
  else snap ← on_db (λ w, (db_GetSnapshot w, w));
       mret (mkLevelDBStore true (db_name this ++ lit ".SNAP") true (Some snap)).

(** The destructor releases the snapshot. *)
Definition LevelDBStore_destructor : LM unit := λ '(this, w),
  match is_snapshot this, read_snapshot this with
  | true, Some sn =>
      if db_open this then
        Ok (tt, (mkLevelDBStore (db_open this) (db_name this) false None,
                 db_ReleaseSnapshot w sn))
      else Crash UndefinedBehaviour
  | _, _ => Ok (tt, (this, w))
  end.

Definition IsSnapshot (this : LevelDBStore) : bool := is_snapshot this.

(** The store an opened object implements. *)
Definition opened : LevelDBStore := mkLevelDBStore true [] false None.

Definition run_update (m : LM bool) (w : W) : bool * W :=
  match m (opened, w) with
  | Ok (b, (_, w')) => (b, w')
  | Crash _ => (false, w)
  end.

#[export] Instance leveldb_kv : KVStore W := {|
  kv_get w k := match LevelDBStore_get k (opened, w) with
                | Ok (r, _) => r
                | Crash _ => None
                end;
  kv_put w k v := run_update (LevelDBStore_put k v) w;
  kv_remove w k := run_update (LevelDBStore_remove k) w;
|}.

End LevelDBStore.

Arguments LevelDBStore Snap : clear implicits.

(** ** Lemmas *)

Section Laws.
Context {S : Type} `{KVStoreLaws S}.

(** The shape every client proof uses: what one update does to one key. *)
Lemma kv_put_cases s k v b s' :
  kv_put s k v = (b, s') →
  ∀ k', kv_get s' k' = if b then (if decide (k = k') then Some v else kv_get s k')
                       else kv_get s k'.
Proof. destruct b; [apply kv_put_ok | apply kv_put_fail]. Qed.

Lemma kv_put_ne s k v b s' k' :
  kv_put s k v = (b, s') → k ≠ k' → kv_get s' k' = kv_get s k'.
Proof.
  intros E Hne. rewrite (kv_put_cases _ _ _ _ _ E). destruct b; [|done].
  by rewrite decide_False.
Qed.

Lemma kv_put_eq s k v s' : kv_put s k v = (true, s') → kv_get s' k = Some v.
Proof. intros E. rewrite (kv_put_ok _ _ _ _ E). by rewrite decide_True. Qed.

Lemma kv_remove_ne s k b s' k' :
  kv_remove s k = (b, s') → k ≠ k' → kv_get s' k' = kv_get s k'.
Proof.
  intros E Hne. destruct b.
  - rewrite (kv_remove_ok _ _ _ E). by rewrite decide_False.
  - by rewrite (kv_remove_fail _ _ _ E).
Qed.

Lemma kv_remove_eq s k s' : kv_remove s k = (true, s') → kv_get s' k = None.
Proof. intros E. rewrite (kv_remove_ok _ _ _ E). by rewrite decide_True. Qed.

End Laws.

(** The LevelDB back end satisfies the laws of the interface. *)
#[export] Instance leveldb_kv_laws {W Snap} `{LevelDBLaws W Snap} :
  @KVStoreLaws W (@leveldb_kv W Snap _).
Proof.
  split; cbn; unfold run_update, LevelDBStore_put, LevelDBStore_remove, on_db; cbn;
    intros s k.
  - intros v s'. destruct (db_Put s k v) eqn:E. intros [= -> ->]. eauto using db_put_ok.
  - intros v s'. destruct (db_Put s k v) eqn:E. intros [= -> ->]. eauto using db_put_fail.
  - intros s'. destruct (db_Delete s k) eqn:E. intros [= -> ->]. eauto using db_delete_ok.
  - intros s'. destruct (db_Delete s k) eqn:E. intros [= -> ->]. eauto using db_delete_fail.
Qed.

(** A database for running the back end: contents, and frozen copies as
    snapshots. *)
#[export] Instance gmap_leveldb : LevelDB (gmap bytes bytes) (gmap bytes bytes) := {|
  db_Open _ w := Some w;
  db_Put w k v := (true, <[k := v]> w);
  db_Get w sn k := match sn with Some f => f !! k | None => w !! k end;
  db_Delete w k := (true, delete k w);
  db_GetSnapshot w := w;
  db_ReleaseSnapshot w _ := w;
  db_close w := w;
  db_Destroy _ _ := (true, ∅);
  db_CompactRange w := w;
|}.

#[export] Instance gmap_leveldb_laws :
  LevelDBLaws (gmap bytes bytes) (gmap bytes bytes).
Proof.
  split; cbn; intros; simplify_eq; try done.
  - by rewrite lookup_insert.
  - by rewrite lookup_delete.
Qed.

#[export] Instance gmap_leveldb_reliable :
  LevelDBReliable (gmap bytes bytes) (gmap bytes bytes).
Proof. split; done. Qed.

(** ** Properties *)

(** Reads through a store object that [Snapshot] returned are reads of the
    live database: [LevelDBStore::get] builds a fresh [ReadOptions] and ignores
    the snapshot held in [read_options], so after a snapshot is taken and a key is
    then overwritten through the base object, the snapshot object returns the new
    value, for every key and value and on any LevelDB. *)
Theorem snapshot_get_sees_later_put {W Snap} `{LevelDBLaws W Snap}
    (base : LevelDBStore Snap) (w w' : W) (k v : bytes) :
  db_open base = true → is_snapshot base = false →
  db_Put w k v = (true, w') →
  ∃ snap, LevelDBStore_Snapshot (base, w) = Ok (snap, (base, w))
    ∧ IsSnapshot snap = true
    ∧ LevelDBStore_put k v (base, w) = Ok (true, (base, w'))
    ∧ LevelDBStore_get k (snap, w') = Ok (Some v, (snap, w')).
Proof.
  intros Ho Hs Hp.
  exists (mkLevelDBStore true (db_name base ++ lit ".SNAP") true (Some (db_GetSnapshot w))).
  split.
  { unfold LevelDBStore_Snapshot. mrun. rewrite Hs. unfold on_db. mrun. by rewrite Ho. }
  split; [done|].
  unfold LevelDBStore_put, LevelDBStore_get, on_db. cbn. rewrite Ho, Hp.
  rewrite (db_put_ok _ _ _ _ Hp), decide_True by done. done.
Qed.

Lemma snapshot_get_sees_later_put_witness :
  ∃ snap, LevelDBStore_Snapshot (mkLevelDBStore true (lit "db") false None, ∅)
            = Ok (snap, (mkLevelDBStore true (lit "db") false None, ∅))
    ∧ IsSnapshot snap = true
    ∧ LevelDBStore_put (lit "2") (lit "x") (mkLevelDBStore true (lit "db") false None, ∅)
      = Ok (true, (mkLevelDBStore true (lit "db") false None, <[lit "2" := lit "x"]> ∅))
    ∧ LevelDBStore_get (lit "2") (snap, <[lit "2" := lit "x"]> ∅)
      = Ok (Some (lit "x"), (snap, <[lit "2" := lit "x"]> (∅ : gmap bytes bytes))).
Proof.
  apply (snapshot_get_sees_later_put
    (mkLevelDBStore true (lit "db") false None) ∅ _ (lit "2") (lit "x")); reflexivity.
Defined.
