(* ===== verification/Backends.v ===== *)
(** * The two back ends of the store (src/RocksDBStore.h, src/RocksDBStore.cc,
    src/LevelDBStore.cc, src/hexdump.cc, the factories)

    RocksDBStore is modelled over the calls on rocksdb::DB as LevelDBStore is over those
    on leveldb::DB.  Both are objects with the operations of [Backend]; what they promise
    is the class [BackendLaws], against which a session of calls on a store and its
    snapshots is shown to behave like a map.  The printing operations of both, with
    [hexdump], are here too. *)

From Stdlib Require Import ZArith Lia Strings.String.
From stdpp Require Import base gmap list.
From S2P Require Import Prelude KVStore.

(** ** hexdump *)

Definition hex_digit (z : Z) : byte := z2b (if z <? 10 then 48 + z else 87 + z).

Fixpoint hex_fuel (fuel : nat) (n : Z) (acc : bytes) : bytes :=
  match fuel with
  | O => acc
  | S fuel =>
      let acc := hex_digit (n mod 16) :: acc in
      if n / 16 =? 0 then acc else hex_fuel fuel (n / 16) acc
  end.

(** [cout << hex << setfill('0') << setw(w) << n] for an unsigned long. *)
Definition put_hex (w : nat) (n : Z) : bytes :=
  let ds := hex_fuel 16 (u64 n) [] in replicate (w - length ds) Byte.x30 ++ ds.

(** [isprint] of a char in the C locale. *)
Definition isprint (b : byte) : bool := (32 <=? b2z b) && (b2z b <=? 126).

(** The hex codes of a line: column [i] of sixteen, [buf] what is left of the line. *)
Fixpoint hex_columns (cols : nat) (i : nat) (buf : bytes) : bytes :=
  match cols with
  | O => []
  | S cols =>
      (if decide (i mod 8 = 0)%nat then lit " " else [])
      ++ (match buf with
          | b :: _ => lit " " ++ put_hex 2 (b2z b)
          | [] => lit "   "
          end)
      ++ hex_columns cols (S i) (tail buf)
  end.

Definition hex_line (address : Z) (buf : bytes) : bytes :=
  put_hex 8 address ++ hex_columns 16 0 buf ++ lit "  "
    ++ map (λ b, if isprint b then b else Byte.x2e) buf ++ [Byte.x0a].

(** The lines; [fuel] bounds their number, one per sixteen bytes or part of them. *)
Fixpoint hex_lines (fuel : nat) (address : Z) (l : bytes) : bytes :=
  match fuel, l with
  | S fuel, _ :: _ => hex_line address (take 16 l) ++ hex_lines fuel (u64 (address + 16)) (drop 16 l)
  | _, _ => []
  end.

(** The count of bytes left is an int: nothing is printed when it is negative. *)
Definition hexdump (l : bytes) : bytes :=
  let nleft := i32 (Z.of_nat (length l)) in
  if nleft <=? 0 then [] else hex_lines (length l) 0 (take (Z.to_nat nleft) l).

(** ** RocksDB *)

(** The calls on rocksdb::DB, on a database state [W] with snapshots [Snap]. *)
Class RocksDB (W Snap : Type) := {
  rdb_Open : bytes → W → option W;
  rdb_Put : W → bytes → bytes → bool * W;
  rdb_Get : W → option Snap → bytes → option bytes;
  rdb_Delete : W → bytes → bool * W;
  rdb_GetSnapshot : W → Snap;
  rdb_ReleaseSnapshot : W → Snap → W;
  rdb_close : W → W;
  rdb_DestroyDB : bytes → W → bool * W;
  rdb_CompactRange : W → W;
}.

(** RocksDB's documented behaviour, and a database without I/O errors. *)
Class RocksDBLaws (W Snap : Type) `{RocksDB W Snap} : Prop := {
  rdb_put_ok w k v w' : rdb_Put w k v = (true, w') →
    ∀ k', rdb_Get w' None k' = if decide (k = k') then Some v else rdb_Get w None k';
  rdb_delete_ok w k w' : rdb_Delete w k = (true, w') →
    ∀ k', rdb_Get w' None k' = if decide (k = k') then None else rdb_Get w None k';
  rdb_release_get w sn k : rdb_Get (rdb_ReleaseSnapshot w sn) None k = rdb_Get w None k;
  rdb_compact_get w k : rdb_Get (rdb_CompactRange w) None k = rdb_Get w None k;
}.

Class RocksDBReliable (W Snap : Type) `{RocksDB W Snap} : Prop := {
  rdb_put_succeeds w k v : (rdb_Put w k v).1 = true;
  rdb_delete_succeeds w k : (rdb_Delete w k).1 = true;
}.

Section RocksDBStore.
Context {W Snap : Type} `{RocksDB W Snap}.

(** The members: whether [db] is non-null, [db_name], [is_snapshot] and
    [read_options->snapshot]. *)
Record RocksDBStore := mkRocksDBStore {
  rs_db : bool;
  rs_db_name : bytes;
  rs_is_snapshot : bool;
  rs_snapshot : option Snap;
}.

Abbreviation RM := (M (RocksDBStore * W)).

Definition new_RocksDBStore : RocksDBStore := mkRocksDBStore false [] false None.

(** A call through [db], undefined when it is null. *)
Definition on_rdb {A} (f : W → A * W) : RM A := λ '(this, w),
  if rs_db this then let '(a, w') := f w in Ok (a, (this, w')) else Crash UndefinedBehaviour.

Definition RocksDBStore_init : RM bool := mret true.

Definition RocksDBStore_open (dbName : bytes) : RM bool := λ '(this, w),
  match rdb_Open dbName w with
  | None => Ok (false, (mkRocksDBStore false (rs_db_name this) (rs_is_snapshot this) (rs_snapshot this), w))
  | Some w' => Ok (true, (mkRocksDBStore true dbName (rs_is_snapshot this) (rs_snapshot this), w'))
  end.

Definition RocksDBStore_close : RM bool := λ '(this, w),
  if rs_db this then
    Ok (true, (mkRocksDBStore false (rs_db_name this) (rs_is_snapshot this) (rs_snapshot this), rdb_close w))
  else Ok (true, (this, w)).

Definition RocksDBStore_destroy (dbName : bytes) : RM bool := λ '(this, w),
  let '(ok, w') := rdb_DestroyDB dbName w in Ok (ok, (this, w')).

Definition RocksDBStore_put (key value : bytes) : RM bool := on_rdb (λ w, rdb_Put w key value).
Definition RocksDBStore_get (key : bytes) : RM (option bytes) := on_rdb (λ w, (rdb_Get w None key, w)).
Definition RocksDBStore_remove (key : bytes) : RM bool := on_rdb (λ w, rdb_Delete w key).
Definition RocksDBStore_Compact : RM unit := on_rdb (λ w, (tt, rdb_CompactRange w)).

(** A snapshot of a snapshot logs an error and returns a null pointer. *)
Definition RocksDBStore_Snapshot : RM (option RocksDBStore) :=
  '(this, _) ← get_st;
  if rs_is_snapshot this then mret None
  else snap ← on_rdb (λ w, (rdb_GetSnapshot w, w));
       mret (Some (mkRocksDBStore true (rs_db_name this ++ lit ".SNAP") true (Some snap))).

Definition RocksDBStore_destructor : RM unit := λ '(this, w),
  match rs_is_snapshot this, rs_snapshot this with
  | true, Some sn =>
      if rs_db this then
        Ok (tt, (mkRocksDBStore (rs_db this) (rs_db_name this) false None, rdb_ReleaseSnapshot w sn))
      else Crash UndefinedBehaviour
  | _, _ => Ok (tt, (this, w))
  end.

End RocksDBStore.

Arguments RocksDBStore Snap : clear implicits.

(** ** Printing *)

(** What the printing operations ask of the database: the iterator's entries from the
    first to the last and whether it ended without an error, an approximate size, and
    the named properties. *)
Class DBInfo (W : Type) := {
  db_entries : W → list (bytes * bytes);
  db_iterator_ok : W → bool;
  db_approximate_size : W → Z;
  db_property : W → bytes → bytes;
}.

Definition dump_entries (l : list (bytes * bytes)) : bytes :=
  concat (map (λ '(k, v), lit "key " ++ k ++ lit " size: " ++ fmt_lu (Z.of_nat (length v))
                            ++ [Byte.x0a] ++ hexdump v) l).

Definition stats_report (size : Z) (props : list (bytes * bytes)) : bytes :=
  [Byte.x0a] ++ lit "Approximate database size: " ++ fmt_lu size
    ++ concat (map (λ '(p, v), [Byte.x0a] ++ lit "prop: " ++ p ++ lit ": " ++ v) props).

Definition property_names (library : string) : list bytes :=
  map (λ p, lit library ++ lit p) [".stats"; ".sstables"; ".approximate-memory-usage"]%string.

Section Printing.
Context {W Snap : Type} `{DBInfo W}.

Definition LevelDBStore_dump (this : LevelDBStore Snap) (w : W) : res bytes :=
  if db_open this then
    if db_iterator_ok w then Ok (dump_entries (db_entries w)) else Crash AssertFailed
  else Crash UndefinedBehaviour.
Definition RocksDBStore_dump (this : RocksDBStore Snap) (w : W) : res bytes :=
  if rs_db this then
    if db_iterator_ok w then Ok (dump_entries (db_entries w)) else Crash AssertFailed
  else Crash UndefinedBehaviour.

Definition LevelDBStore_dbstats (this : LevelDBStore Snap) (w : W) : res bytes :=
  if db_open this then
    Ok (stats_report (db_approximate_size w)
          (map (λ p, (p, db_property w p)) (property_names "leveldb")))
  else Crash UndefinedBehaviour.
Definition RocksDBStore_dbstats (this : RocksDBStore Snap) (w : W) : res bytes :=
  if rs_db this then
    Ok (stats_report (db_approximate_size w)
          (map (λ p, (p, db_property w p)) (property_names "rocksdb")))
  else Crash UndefinedBehaviour.

End Printing.

(** ** The factories *)

(** A local disk instance is a new object; the other two are not supported (null). *)
Definition LevelDBFactory_createLocalHDInstance {Snap} : option (LevelDBStore Snap) := Some new_LevelDBStore.
Definition LevelDBFactory_createLocalSSDInstance {Snap} : option (LevelDBStore Snap) := None.
Definition LevelDBFactory_createRemoteInstance {Snap} : option (LevelDBStore Snap) := None.
Definition RocksDBFactory_createLocalHDInstance {Snap} : option (RocksDBStore Snap) := Some new_RocksDBStore.
Definition RocksDBFactory_createLocalSSDInstance {Snap} : option (RocksDBStore Snap) := None.
Definition RocksDBFactory_createRemoteInstance {Snap} : option (RocksDBStore Snap) := None.

(** ** The interface of a back end *)

(** The operations of a store object [O] on its database [W]. *)
Record Backend (O W : Type) := MkBackend {
  be_put : bytes → bytes → M (O * W) bool;
  be_get : bytes → M (O * W) (option bytes);
  be_remove : bytes → M (O * W) bool;
  be_Compact : M (O * W) unit;
  be_Snapshot : M (O * W) (option O);
  be_delete : M (O * W) unit;
  be_close : M (O * W) bool;
}.
Arguments be_put {O W}. Arguments be_get {O W}. Arguments be_remove {O W}.
Arguments be_Compact {O W}. Arguments be_Snapshot {O W}. Arguments be_delete {O W}. Arguments be_close {O W}.

Definition leveldb_backend {W Snap} `{LevelDB W Snap} : Backend (LevelDBStore Snap) W :=
  MkBackend _ _ LevelDBStore_put LevelDBStore_get LevelDBStore_remove LevelDBStore_Compact
    (s ← LevelDBStore_Snapshot; mret (Some s)) LevelDBStore_destructor LevelDBStore_close.

Definition rocksdb_backend {W Snap} `{RocksDB W Snap} : Backend (RocksDBStore Snap) W :=
  MkBackend _ _ RocksDBStore_put RocksDBStore_get RocksDBStore_remove RocksDBStore_Compact
    RocksDBStore_Snapshot RocksDBStore_destructor RocksDBStore_close.

(** What a back end promises, with [reads] the contents of its database: [usable b o]
    says that [o] is open and whether it is a snapshot.  All objects of a database,
    snapshots too, read and write the live contents. *)
Class BackendLaws {O W} (be : Backend O W) (usable : bool → O → Prop)
    (reads : W → bytes → option bytes) : Prop := {
  be_put_spec b o w k v : usable b o →
    ∃ w', be_put be k v (o, w) = Ok (true, (o, w'))
      ∧ ∀ k', reads w' k' = if decide (k = k') then Some v else reads w k';
  be_get_spec b o w k : usable b o → be_get be k (o, w) = Ok (reads w k, (o, w));
  be_remove_spec b o w k : usable b o →
    ∃ w', be_remove be k (o, w) = Ok (true, (o, w'))
      ∧ ∀ k', reads w' k' = if decide (k = k') then None else reads w k';
  be_compact_spec b o w : usable b o →
    ∃ w', be_Compact be (o, w) = Ok (tt, (o, w')) ∧ ∀ k', reads w' k' = reads w k';
  be_snapshot_spec o w : usable false o →
    ∃ s, be_Snapshot be (o, w) = Ok (Some s, (o, w)) ∧ usable true s;
  be_delete_spec o w : usable true o →
    ∃ o' w', be_delete be (o, w) = Ok (tt, (o', w')) ∧ ∀ k', reads w' k' = reads w k';
}.

(** An open LevelDBStore; a snapshot holds its leveldb snapshot. *)
Definition leveldb_usable {Snap} (b : bool) (o : LevelDBStore Snap) : Prop :=
  db_open o = true ∧ is_snapshot o = b ∧ (b = true → is_Some (read_snapshot o)).
Definition rocksdb_usable {Snap} (b : bool) (o : RocksDBStore Snap) : Prop :=
  rs_db o = true ∧ rs_is_snapshot o = b ∧ (b = true → is_Some (rs_snapshot o)).

#[export] Instance leveldb_backend_laws {W Snap} `{LevelDBLaws W Snap} `{!LevelDBReliable W Snap} :
  BackendLaws (leveldb_backend (W:=W) (Snap:=Snap)) leveldb_usable (λ w k, db_Get w None k).
Proof.
  split; intros; cbn; unfold LevelDBStore_put, LevelDBStore_get, LevelDBStore_remove,
    LevelDBStore_Compact, LevelDBStore_Snapshot, LevelDBStore_destructor, on_db; mrun;
    match goal with Hu : leveldb_usable _ ?o |- _ => destruct Hu as (Ho & Hs & Hn); rewrite ?Ho end.
  - pose proof (db_put_succeeds w k v). destruct (db_Put w k v) as [[] w'] eqn:E; [|done].
    eauto using db_put_ok.
  - done.
  - pose proof (db_delete_succeeds w k). destruct (db_Delete w k) as [[] w'] eqn:E; [|done].
    eauto using db_delete_ok.
  - eauto using db_compact_get.
  - rewrite Hs, Ho. eexists. split; [done|]. unfold leveldb_usable. cbn. eauto.
  - destruct (Hn eq_refl) as [sn ->]. rewrite Hs. eauto using db_release_get.
Qed.

#[export] Instance rocksdb_backend_laws {W Snap} `{RocksDBLaws W Snap} `{!RocksDBReliable W Snap} :
  BackendLaws (rocksdb_backend (W:=W) (Snap:=Snap)) rocksdb_usable (λ w k, rdb_Get w None k).
Proof.
  split; intros; cbn; unfold RocksDBStore_put, RocksDBStore_get, RocksDBStore_remove,
    RocksDBStore_Compact, RocksDBStore_Snapshot, RocksDBStore_destructor, on_rdb; mrun;
    match goal with Hu : rocksdb_usable _ ?o |- _ => destruct Hu as (Ho & Hs & Hn); rewrite ?Ho end.
  - pose proof (rdb_put_succeeds w k v). destruct (rdb_Put w k v) as [[] w'] eqn:E; [|done].
    eauto using rdb_put_ok.
  - done.
  - pose proof (rdb_delete_succeeds w k). destruct (rdb_Delete w k) as [[] w'] eqn:E; [|done].
    eauto using rdb_delete_ok.
  - eauto using rdb_compact_get.
  - rewrite Hs, Ho. eexists. split; [done|]. unfold rocksdb_usable. cbn. eauto.
  - destruct (Hn eq_refl) as [sn ->]. rewrite Hs. eauto using rdb_release_get.
Qed.

(** ** Sessions *)

(** Calls on the store (object 0) and its snapshots (from 1, the newest last); a new
    snapshot is taken of the store, and the newest is deleted. *)
Inductive store_call :=
  | CPut (i : nat) (k v : bytes)
  | CGet (i : nat) (k : bytes)
  | CRemove (i : nat) (k : bytes)
  | CCompact (i : nat)
  | CSnapshot
  | CDelete.

Inductive store_answer :=
  | ABool (b : bool)
  | AValue (v : option bytes)
  | ADone.

Definition call_object (c : store_call) (n : nat) : option nat :=
  match c with
  | CPut i _ _ | CGet i _ | CRemove i _ | CCompact i => Some i
  | CSnapshot => Some 0%nat
  | CDelete => if decide (n < 2)%nat then None else Some (n - 1)%nat
  end.

(** One call on a back end's objects; undefined on an object that does not exist. *)
Definition be_call {O W} (be : Backend O W) (c : store_call) (objs : list O) (w : W)
    : res (store_answer * (list O * W)) :=
  match call_object c (length objs) with
  | None => Crash UndefinedBehaviour
  | Some i =>
    match objs !! i with
    | None => Crash UndefinedBehaviour
    | Some o =>
      let put_back {A} (f : A → store_answer) (r : res (A * (O * W))) :=
        match r with
        | Ok (a, (o', w')) => Ok (f a, (<[i := o']> objs, w'))
        | Crash c => Crash c
        end in
      match c with
      | CPut _ k v => put_back ABool (be_put be k v (o, w))
      | CGet _ k => put_back AValue (be_get be k (o, w))
      | CRemove _ k => put_back ABool (be_remove be k (o, w))
      | CCompact _ => put_back (λ _, ADone) (be_Compact be (o, w))
      | CSnapshot =>
          match be_Snapshot be (o, w) with
          | Ok (Some s, (o', w')) => Ok (ABool true, (<[i := o']> objs ++ [s], w'))
          | Ok (None, (o', w')) => Ok (ABool false, (<[i := o']> objs, w'))
          | Crash c => Crash c
          end
      | CDelete =>
          match be_delete be (o, w) with
          | Ok (_, (_, w')) => Ok (ADone, (take i objs, w'))
          | Crash c => Crash c
          end
      end
    end
  end.

Fixpoint be_session {O W} (be : Backend O W) (cs : list store_call) (objs : list O) (w : W)
    : res (list store_answer * (list O * W)) :=
  match cs with
  | [] => Ok ([], (objs, w))
  | c :: cs =>
    match be_call be c objs w with
    | Crash x => Crash x
    | Ok (a, (objs, w)) =>
      match be_session be cs objs w with
      | Crash x => Crash x
      | Ok (l, st) => Ok (a :: l, st)
      end
    end
  end.

(** The reference: one map, whatever object a call goes through, and the number of
    objects. *)
Definition ref_call (c : store_call) (m : gmap bytes bytes) (n : nat)
    : option (store_answer * (gmap bytes bytes * nat)) :=
  i ← call_object c n;
  if decide (i < n)%nat then
    Some match c with
         | CPut _ k v => (ABool true, (<[k := v]> m, n))
         | CGet _ k => (AValue (m !! k), (m, n))
         | CRemove _ k => (ABool true, (delete k m, n))
         | CCompact _ => (ADone, (m, n))
         | CSnapshot => (ABool true, (m, S n))
         | CDelete => (ADone, (m, i))
         end
  else None.

Fixpoint ref_session (cs : list store_call) (m : gmap bytes bytes) (n : nat)
    : option (list store_answer * (gmap bytes bytes * nat)) :=
  match cs with
  | [] => Some ([], (m, n))
  | c :: cs =>
      '(a, (m, n)) ← ref_call c m n;
      '(l, st) ← ref_session cs m n;
      Some (a :: l, st)
  end.

Section Session.
Context {O W : Type} (be : Backend O W) (usable : bool → O → Prop) (reads : W → bytes → option bytes).
Context `{!BackendLaws be usable reads}.

(** The objects: the store, then its snapshots; and the contents of the database. *)
Definition session_inv (objs : list O) (w : W) (m : gmap bytes bytes) (n : nat) : Prop :=
  length objs = n ∧ (∀ i o, objs !! i = Some o → usable (bool_decide (i ≠ 0)%nat) o)
  ∧ ∀ k, reads w k = m !! k.

Lemma be_call_refines c objs w m n a m' n' :
  session_inv objs w m n → ref_call c m n = Some (a, (m', n')) →
  ∃ objs' w', be_call be c objs w = Ok (a, (objs', w')) ∧ session_inv objs' w' m' n'.
Proof.
  intros (Hl & Hu & Hr). unfold ref_call, be_call. rewrite Hl.
  destruct (call_object c n) as [i|] eqn:Hi; [|done]. cbn. case_decide as Hn; [|done]. intros Hc.
  destruct (lookup_lt_is_Some_2 objs i) as [o Ho]; [lia|]. rewrite Ho.
  pose proof (Hu i o Ho) as Huo. pose proof (list_insert_id objs i o Ho) as Hid.
  destruct c; simplify_eq/=.
  - destruct (be_put_spec _ _ w k v Huo) as (w' & -> & Hw). rewrite Hid.
    do 2 eexists; split_and!; [done..|]. split_and!; try done.
    intros k'. rewrite Hw, lookup_insert. by rewrite Hr.
  - rewrite (be_get_spec _ _ w k Huo), Hid, Hr. do 2 eexists; split_and!; done.
  - destruct (be_remove_spec _ _ w k Huo) as (w' & -> & Hw). rewrite Hid.
    do 2 eexists; split_and!; [done..|]. split_and!; try done.
    intros k'. rewrite Hw, lookup_delete. by rewrite Hr.
  - destruct (be_compact_spec _ _ w Huo) as (w' & -> & Hw). rewrite Hid.
    do 2 eexists; split_and!; [done..|]. split_and!; try done. intros k'. by rewrite Hw.
  - destruct (be_snapshot_spec o w Huo) as (s & -> & Hs). rewrite Hid.
    do 2 eexists; split_and!; [done..|]. split_and!; try done.
    + rewrite length_app. cbn. lia.
    + intros i o' [Hi'|[Hi' ?%list_lookup_singleton_Some]]%lookup_app_Some; [by apply Hu|].
      destruct_and!; subst. rewrite bool_decide_eq_true_2 by lia. done.
  - case_decide; [done|]. simplify_eq. rewrite bool_decide_eq_true_2 in Huo by lia.
    destruct (be_delete_spec o w Huo) as (o' & w' & -> & Hw).
    do 2 eexists; split_and!; [done..|]. split_and!; try done.
    + rewrite length_take. lia.
    + intros j o'' [Hj _]%lookup_take_Some. by apply Hu.
    + intros k'. by rewrite Hw.
Qed.

Lemma be_session_refines cs objs w m n l m' n' :
  session_inv objs w m n → ref_session cs m n = Some (l, (m', n')) →
  ∃ objs' w', be_session be cs objs w = Ok (l, (objs', w')) ∧ session_inv objs' w' m' n'.
Proof.
  revert objs w m n l. induction cs as [|c cs IH]; intros objs w m n l Hinv; cbn.
  - intros [= <- <- <-]. eauto.
  - intros Hc. apply bind_Some in Hc as ([a [m1 n1]] & Hc & Hs).
    apply bind_Some in Hs as ([l1 [m2 n2]] & Hs & E). simplify_eq.
    destruct (be_call_refines _ _ _ _ _ _ _ _ Hinv Hc) as (objs1 & w1 & -> & Hinv1).
    destruct (IH _ _ _ _ _ Hinv1 Hs) as (objs2 & w2 & -> & Hinv2). eauto.
Qed.

End Session.

(** A RocksDB for running the back end. *)
#[export] Instance gmap_rocksdb : RocksDB (gmap bytes bytes) (gmap bytes bytes) := {|
  rdb_Open _ w := Some w;
  rdb_Put w k v := (true, <[k := v]> w);
  rdb_Get w sn k := match sn with Some f => f !! k | None => w !! k end;
  rdb_Delete w k := (true, delete k w);
  rdb_GetSnapshot w := w;
  rdb_ReleaseSnapshot w _ := w;
  rdb_close w := w;
  rdb_DestroyDB _ _ := (true, ∅);
  rdb_CompactRange w := w;
|}.

#[export] Instance gmap_rocksdb_laws : RocksDBLaws (gmap bytes bytes) (gmap bytes bytes).
Proof.
  split; cbn; intros; simplify_eq; try done.
  - by rewrite lookup_insert.
  - by rewrite lookup_delete.
Qed.

#[export] Instance gmap_rocksdb_reliable : RocksDBReliable (gmap bytes bytes) (gmap bytes bytes).
Proof. split; done. Qed.

(** ** Properties *)


(** A session: a snapshot is taken and the key is overwritten; the snapshot reads the new
    value. *)
Definition sample_session : list store_call :=
  [CPut 0 (lit "k") (lit "old"); CSnapshot; CPut 0 (lit "k") (lit "new"); CGet 1 (lit "k");
   CRemove 1 (lit "k"); CGet 0 (lit "k"); CDelete; CCompact 0].
Definition sample_answers : list store_answer :=
  [ABool true; ABool true; ABool true; AValue (Some (lit "new")); ABool true; AValue None; ADone; ADone].
Definition sample_contents : gmap bytes bytes :=
  delete (lit "k") (<[lit "k" := lit "new"]> (<[lit "k" := lit "old"]> ∅)).


(** The one difference: a snapshot of a snapshot stops LevelDBStore and is a null pointer
    in RocksDBStore. *)
Lemma snapshot_of_snapshot_differs {WL SL WR SR} `{LevelDB WL SL} `{RocksDB WR SR}
    (sl : LevelDBStore SL) (sr : RocksDBStore SR) (wl : WL) (wr : WR) :
  is_snapshot sl = true → rs_is_snapshot sr = true →
  LevelDBStore_Snapshot (sl, wl) = Crash FatalLog ∧ RocksDBStore_Snapshot (sr, wr) = Ok (None, (sr, wr)).
Proof. intros Hl Hr. unfold LevelDBStore_Snapshot, RocksDBStore_Snapshot. mrun. by rewrite Hl, Hr. Qed.
