(* ===== verification/MetaData.v ===== *)
(** * Inode metadata (src/KVFSMetaData.h) and inode keys

    [LogFSMetaData] is stored in the key-value store as the raw bytes of the
    struct; [encode_meta] and [decode_meta] follow its x86-64 layout (376 bytes,
    little endian, one byte of tail padding written as zero). *)

From Stdlib Require Import ZArith Lia Strings.String.
From stdpp Require Import base list gmap.
From S2P Require Import Prelude Status Mode.

(** ** The struct *)

Record LogFSMetaData := MkMeta {
  meta_metaVersion : Z;
  meta_checkSum : Z;
  meta_fsId : Z;
  meta_handle : Z;
  meta_xid : Z;
  meta_type : meta_type_t;
  meta_protection : meta_prot_t;
  meta_userId : Z;
  meta_groupId : Z;
  meta_devId : Z;
  meta_rDev : Z;
  meta_fileTotalSize : Z;
  meta_evictionState : EvictionState;
  meta_fileInitialSize : Z;
  meta_fileChunkSize : Z;
  meta_nLink : Z;
  meta_atime : Z;
  meta_atimeNsec : Z;
  meta_mtime : Z;
  meta_mtimeNsec : Z;
  meta_ctime : Z;
  meta_ctimeNsec : Z;
  meta_parentHandle : Z;
  meta_name : bytes;
}.

#[export] Instance LogFSMetaData_eq_dec : EqDecision LogFSMetaData.
Proof. solve_decision. Defined.

Definition NAME_MAX : nat := 255.
Definition DEFAULT_FILE_INITIAL_SIZE : Z := 0.
Definition DEFAULT_FILE_CHUNK_SIZE : Z := 8192.

(** The constructor: every field zero but the two sizes. *)
Definition new_meta (initialSize chunkSize : Z) : LogFSMetaData := {|
  meta_metaVersion := 0;
  meta_checkSum := 0;
  meta_fsId := 0;
  meta_handle := 0;
  meta_xid := 0;
  meta_type := LOGFS_INVAL;
  meta_protection := prot_zero;
  meta_userId := 0;
  meta_groupId := 0;
  meta_devId := 0;
  meta_rDev := 0;
  meta_fileTotalSize := 0;
  meta_evictionState := ES_RESIDENT;
  meta_fileInitialSize := initialSize;
  meta_fileChunkSize := chunkSize;
  meta_nLink := 0;
  meta_atime := 0;
  meta_atimeNsec := 0;
  meta_mtime := 0;
  meta_mtimeNsec := 0;
  meta_ctime := 0;
  meta_ctimeNsec := 0;
  meta_parentHandle := 0;
  meta_name := replicate NAME_MAX Byte.x00;
|}.

(** ** Field updates ([meta.x = v]) *)

(** [meta.nLink = v] *)
Definition set_nLink (v : Z) (m : LogFSMetaData) : LogFSMetaData := {|
  meta_metaVersion := meta_metaVersion m; meta_checkSum := meta_checkSum m;
  meta_fsId := meta_fsId m; meta_handle := meta_handle m; meta_xid := meta_xid m;
  meta_type := meta_type m; meta_protection := meta_protection m;
  meta_userId := meta_userId m; meta_groupId := meta_groupId m;
  meta_devId := meta_devId m; meta_rDev := meta_rDev m;
  meta_fileTotalSize := meta_fileTotalSize m;
  meta_evictionState := meta_evictionState m;
  meta_fileInitialSize := meta_fileInitialSize m;
  meta_fileChunkSize := meta_fileChunkSize m; meta_nLink := v;
  meta_atime := meta_atime m; meta_atimeNsec := meta_atimeNsec m;
  meta_mtime := meta_mtime m; meta_mtimeNsec := meta_mtimeNsec m;
  meta_ctime := meta_ctime m; meta_ctimeNsec := meta_ctimeNsec m;
  meta_parentHandle := meta_parentHandle m; meta_name := meta_name m;
|}.

(** [meta.userId = uid; meta.groupId = gid] *)
Definition set_owner (uid gid : Z) (m : LogFSMetaData) : LogFSMetaData := {|
  meta_metaVersion := meta_metaVersion m; meta_checkSum := meta_checkSum m;
  meta_fsId := meta_fsId m; meta_handle := meta_handle m; meta_xid := meta_xid m;
  meta_type := meta_type m; meta_protection := meta_protection m; meta_userId := uid;
  meta_groupId := gid; meta_devId := meta_devId m; meta_rDev := meta_rDev m;
  meta_fileTotalSize := meta_fileTotalSize m;
  meta_evictionState := meta_evictionState m;
  meta_fileInitialSize := meta_fileInitialSize m;
  meta_fileChunkSize := meta_fileChunkSize m; meta_nLink := meta_nLink m;
  meta_atime := meta_atime m; meta_atimeNsec := meta_atimeNsec m;
  meta_mtime := meta_mtime m; meta_mtimeNsec := meta_mtimeNsec m;
  meta_ctime := meta_ctime m; meta_ctimeNsec := meta_ctimeNsec m;
  meta_parentHandle := meta_parentHandle m; meta_name := meta_name m;
|}.

(** [meta.fileTotalSize = v] *)
Definition set_size (v : Z) (m : LogFSMetaData) : LogFSMetaData := {|
  meta_metaVersion := meta_metaVersion m; meta_checkSum := meta_checkSum m;
  meta_fsId := meta_fsId m; meta_handle := meta_handle m; meta_xid := meta_xid m;
  meta_type := meta_type m; meta_protection := meta_protection m;
  meta_userId := meta_userId m; meta_groupId := meta_groupId m;
  meta_devId := meta_devId m; meta_rDev := meta_rDev m; meta_fileTotalSize := v;
  meta_evictionState := meta_evictionState m;
  meta_fileInitialSize := meta_fileInitialSize m;
  meta_fileChunkSize := meta_fileChunkSize m; meta_nLink := meta_nLink m;
  meta_atime := meta_atime m; meta_atimeNsec := meta_atimeNsec m;
  meta_mtime := meta_mtime m; meta_mtimeNsec := meta_mtimeNsec m;
  meta_ctime := meta_ctime m; meta_ctimeNsec := meta_ctimeNsec m;
  meta_parentHandle := meta_parentHandle m; meta_name := meta_name m;
|}.

(** [meta.evictionState = v] *)
Definition set_evictionState (v : EvictionState) (m : LogFSMetaData) : LogFSMetaData := {|
  meta_metaVersion := meta_metaVersion m; meta_checkSum := meta_checkSum m;
  meta_fsId := meta_fsId m; meta_handle := meta_handle m; meta_xid := meta_xid m;
  meta_type := meta_type m; meta_protection := meta_protection m;
  meta_userId := meta_userId m; meta_groupId := meta_groupId m;
  meta_devId := meta_devId m; meta_rDev := meta_rDev m;
  meta_fileTotalSize := meta_fileTotalSize m; meta_evictionState := v;
  meta_fileInitialSize := meta_fileInitialSize m;
  meta_fileChunkSize := meta_fileChunkSize m; meta_nLink := meta_nLink m;
  meta_atime := meta_atime m; meta_atimeNsec := meta_atimeNsec m;
  meta_mtime := meta_mtime m; meta_mtimeNsec := meta_mtimeNsec m;
  meta_ctime := meta_ctime m; meta_ctimeNsec := meta_ctimeNsec m;
  meta_parentHandle := meta_parentHandle m; meta_name := meta_name m;
|}.

(** [meta.protection = v] *)
Definition set_protection (v : meta_prot_t) (m : LogFSMetaData) : LogFSMetaData := {|
  meta_metaVersion := meta_metaVersion m; meta_checkSum := meta_checkSum m;
  meta_fsId := meta_fsId m; meta_handle := meta_handle m; meta_xid := meta_xid m;
  meta_type := meta_type m; meta_protection := v; meta_userId := meta_userId m;
  meta_groupId := meta_groupId m; meta_devId := meta_devId m; meta_rDev := meta_rDev m;
  meta_fileTotalSize := meta_fileTotalSize m;
  meta_evictionState := meta_evictionState m;
  meta_fileInitialSize := meta_fileInitialSize m;
  meta_fileChunkSize := meta_fileChunkSize m; meta_nLink := meta_nLink m;
  meta_atime := meta_atime m; meta_atimeNsec := meta_atimeNsec m;
  meta_mtime := meta_mtime m; meta_mtimeNsec := meta_mtimeNsec m;
  meta_ctime := meta_ctime m; meta_ctimeNsec := meta_ctimeNsec m;
  meta_parentHandle := meta_parentHandle m; meta_name := meta_name m;
|}.

(** [meta.type = v] *)
Definition set_type (v : meta_type_t) (m : LogFSMetaData) : LogFSMetaData := {|
  meta_metaVersion := meta_metaVersion m; meta_checkSum := meta_checkSum m;
  meta_fsId := meta_fsId m; meta_handle := meta_handle m; meta_xid := meta_xid m;
  meta_type := v; meta_protection := meta_protection m; meta_userId := meta_userId m;
  meta_groupId := meta_groupId m; meta_devId := meta_devId m; meta_rDev := meta_rDev m;
  meta_fileTotalSize := meta_fileTotalSize m;
  meta_evictionState := meta_evictionState m;
  meta_fileInitialSize := meta_fileInitialSize m;
  meta_fileChunkSize := meta_fileChunkSize m; meta_nLink := meta_nLink m;
  meta_atime := meta_atime m; meta_atimeNsec := meta_atimeNsec m;
  meta_mtime := meta_mtime m; meta_mtimeNsec := meta_mtimeNsec m;
  meta_ctime := meta_ctime m; meta_ctimeNsec := meta_ctimeNsec m;
  meta_parentHandle := meta_parentHandle m; meta_name := meta_name m;
|}.

(** [set_xid] *)
Definition set_xid (v : Z) (m : LogFSMetaData) : LogFSMetaData := {|
  meta_metaVersion := meta_metaVersion m; meta_checkSum := meta_checkSum m;
  meta_fsId := meta_fsId m; meta_handle := meta_handle m; meta_xid := v;
  meta_type := meta_type m; meta_protection := meta_protection m;
  meta_userId := meta_userId m; meta_groupId := meta_groupId m;
  meta_devId := meta_devId m; meta_rDev := meta_rDev m;
  meta_fileTotalSize := meta_fileTotalSize m;
  meta_evictionState := meta_evictionState m;
  meta_fileInitialSize := meta_fileInitialSize m;
  meta_fileChunkSize := meta_fileChunkSize m; meta_nLink := meta_nLink m;
  meta_atime := meta_atime m; meta_atimeNsec := meta_atimeNsec m;
  meta_mtime := meta_mtime m; meta_mtimeNsec := meta_mtimeNsec m;
  meta_ctime := meta_ctime m; meta_ctimeNsec := meta_ctimeNsec m;
  meta_parentHandle := meta_parentHandle m; meta_name := meta_name m;
|}.

(** [meta.mtime = t; meta.mtimeNsec = 0] *)
Definition set_mtime (t : Z) (m : LogFSMetaData) : LogFSMetaData := {|
  meta_metaVersion := meta_metaVersion m; meta_checkSum := meta_checkSum m;
  meta_fsId := meta_fsId m; meta_handle := meta_handle m; meta_xid := meta_xid m;
  meta_type := meta_type m; meta_protection := meta_protection m;
  meta_userId := meta_userId m; meta_groupId := meta_groupId m;
  meta_devId := meta_devId m; meta_rDev := meta_rDev m;
  meta_fileTotalSize := meta_fileTotalSize m;
  meta_evictionState := meta_evictionState m;
  meta_fileInitialSize := meta_fileInitialSize m;
  meta_fileChunkSize := meta_fileChunkSize m; meta_nLink := meta_nLink m;
  meta_atime := meta_atime m; meta_atimeNsec := meta_atimeNsec m; meta_mtime := t;
  meta_mtimeNsec := 0; meta_ctime := meta_ctime m; meta_ctimeNsec := meta_ctimeNsec m;
  meta_parentHandle := meta_parentHandle m; meta_name := meta_name m;
|}.

(** [meta.ctime = t; meta.ctimeNsec = 0] *)
Definition set_ctime (t : Z) (m : LogFSMetaData) : LogFSMetaData := {|
  meta_metaVersion := meta_metaVersion m; meta_checkSum := meta_checkSum m;
  meta_fsId := meta_fsId m; meta_handle := meta_handle m; meta_xid := meta_xid m;
  meta_type := meta_type m; meta_protection := meta_protection m;
  meta_userId := meta_userId m; meta_groupId := meta_groupId m;
  meta_devId := meta_devId m; meta_rDev := meta_rDev m;
  meta_fileTotalSize := meta_fileTotalSize m;
  meta_evictionState := meta_evictionState m;
  meta_fileInitialSize := meta_fileInitialSize m;
  meta_fileChunkSize := meta_fileChunkSize m; meta_nLink := meta_nLink m;
  meta_atime := meta_atime m; meta_atimeNsec := meta_atimeNsec m;
  meta_mtime := meta_mtime m; meta_mtimeNsec := meta_mtimeNsec m; meta_ctime := t;
  meta_ctimeNsec := 0; meta_parentHandle := meta_parentHandle m;
  meta_name := meta_name m;
|}.

(** [meta.atime = t; meta.atimeNsec = 0] *)
Definition set_atime (t : Z) (m : LogFSMetaData) : LogFSMetaData := {|
  meta_metaVersion := meta_metaVersion m; meta_checkSum := meta_checkSum m;
  meta_fsId := meta_fsId m; meta_handle := meta_handle m; meta_xid := meta_xid m;
  meta_type := meta_type m; meta_protection := meta_protection m;
  meta_userId := meta_userId m; meta_groupId := meta_groupId m;
  meta_devId := meta_devId m; meta_rDev := meta_rDev m;
  meta_fileTotalSize := meta_fileTotalSize m;
  meta_evictionState := meta_evictionState m;
  meta_fileInitialSize := meta_fileInitialSize m;
  meta_fileChunkSize := meta_fileChunkSize m; meta_nLink := meta_nLink m;
  meta_atime := t; meta_atimeNsec := 0; meta_mtime := meta_mtime m;
  meta_mtimeNsec := meta_mtimeNsec m; meta_ctime := meta_ctime m;
  meta_ctimeNsec := meta_ctimeNsec m; meta_parentHandle := meta_parentHandle m;
  meta_name := meta_name m;
|}.

(** [meta.atime = a; meta.mtime = t] (the nanosecond fields stay) *)
Definition set_amtimes (a t : Z) (m : LogFSMetaData) : LogFSMetaData := {|
  meta_metaVersion := meta_metaVersion m; meta_checkSum := meta_checkSum m;
  meta_fsId := meta_fsId m; meta_handle := meta_handle m; meta_xid := meta_xid m;
  meta_type := meta_type m; meta_protection := meta_protection m;
  meta_userId := meta_userId m; meta_groupId := meta_groupId m;
  meta_devId := meta_devId m; meta_rDev := meta_rDev m;
  meta_fileTotalSize := meta_fileTotalSize m;
  meta_evictionState := meta_evictionState m;
  meta_fileInitialSize := meta_fileInitialSize m;
  meta_fileChunkSize := meta_fileChunkSize m; meta_nLink := meta_nLink m;
  meta_atime := a; meta_atimeNsec := meta_atimeNsec m; meta_mtime := t;
  meta_mtimeNsec := meta_mtimeNsec m; meta_ctime := meta_ctime m;
  meta_ctimeNsec := meta_ctimeNsec m; meta_parentHandle := meta_parentHandle m;
  meta_name := meta_name m;
|}.

(** [parentHandle = parent], the [name] array *)
Definition set_path (parent : Z) (n : bytes) (m : LogFSMetaData) : LogFSMetaData := {|
  meta_metaVersion := meta_metaVersion m; meta_checkSum := meta_checkSum m;
  meta_fsId := meta_fsId m; meta_handle := meta_handle m; meta_xid := meta_xid m;
  meta_type := meta_type m; meta_protection := meta_protection m;
  meta_userId := meta_userId m; meta_groupId := meta_groupId m;
  meta_devId := meta_devId m; meta_rDev := meta_rDev m;
  meta_fileTotalSize := meta_fileTotalSize m;
  meta_evictionState := meta_evictionState m;
  meta_fileInitialSize := meta_fileInitialSize m;
  meta_fileChunkSize := meta_fileChunkSize m; meta_nLink := meta_nLink m;
  meta_atime := meta_atime m; meta_atimeNsec := meta_atimeNsec m;
  meta_mtime := meta_mtime m; meta_mtimeNsec := meta_mtimeNsec m;
  meta_ctime := meta_ctime m; meta_ctimeNsec := meta_ctimeNsec m;
  meta_parentHandle := parent; meta_name := n;
|}.

(** The plain assignments of [initMeta] (0xF5D5 = 62933) *)
Definition init_fields (fsId handle uid gid : Z) (m : LogFSMetaData) : LogFSMetaData := {|
  meta_metaVersion := 0; meta_checkSum := 62933; meta_fsId := fsId;
  meta_handle := handle; meta_xid := meta_xid m; meta_type := meta_type m;
  meta_protection := meta_protection m; meta_userId := uid; meta_groupId := gid;
  meta_devId := fsId; meta_rDev := 0; meta_fileTotalSize := meta_fileTotalSize m;
  meta_evictionState := meta_evictionState m;
  meta_fileInitialSize := meta_fileInitialSize m;
  meta_fileChunkSize := meta_fileChunkSize m; meta_nLink := 0;
  meta_atime := meta_atime m; meta_atimeNsec := meta_atimeNsec m;
  meta_mtime := meta_mtime m; meta_mtimeNsec := meta_mtimeNsec m;
  meta_ctime := meta_ctime m; meta_ctimeNsec := meta_ctimeNsec m;
  meta_parentHandle := meta_parentHandle m; meta_name := meta_name m;
|}.

(** ** C strings *)

(** The C string at the start of a buffer: up to the first NUL. *)
Fixpoint cstr (b : bytes) : bytes :=
  match b with
  | [] => []
  | c :: b => if decide (c = Byte.x00) then [] else c :: cstr b
  end.

(** [strncpy(dst, src, n)] into an array of at least [n] bytes: pads with NULs. *)
Definition strncpy (dst src : bytes) (n : nat) : bytes :=
  resize n Byte.x00 (cstr src) ++ drop n dst.

(** [addPathInfo]: a name of 255 bytes or more is fatal. *)
Definition addPathInfo (parent_handle : Z) (aname : bytes) (m : LogFSMetaData)
    : res LogFSMetaData :=
  if (NAME_MAX <=? length aname)%nat then Crash FatalLog
  else Ok (set_path parent_handle (strncpy (meta_name m) aname (NAME_MAX - 1)) m).

Definition getPathInfo (m : LogFSMetaData) : Z * bytes :=
  (meta_parentHandle m, cstr (meta_name m)).

(** ** Byte layout *)

Definition type_val (t : meta_type_t) : Z :=
  match t with
  | LOGFS_INVAL => 0 | LOGFS_IFREG => 1 | LOGFS_IFDIR => 2 | LOGFS_IFLNK => 3
  | LOGFS_IFBLK => 4 | LOGFS_IFCHR => 5 | LOGFS_IFIFO => 6 | LOGFS_IFSOCK => 7
  end.
Definition type_of_val (z : Z) : option meta_type_t :=
  match z with
  | 0 => Some LOGFS_INVAL | 1 => Some LOGFS_IFREG | 2 => Some LOGFS_IFDIR
  | 3 => Some LOGFS_IFLNK | 4 => Some LOGFS_IFBLK | 5 => Some LOGFS_IFCHR
  | 6 => Some LOGFS_IFIFO | 7 => Some LOGFS_IFSOCK | _ => None
  end.
Definition evict_val (e : EvictionState) : Z :=
  match e with ES_RESIDENT => 0 | ES_DATA_EVICTED => 1 | ES_EVICTED => 2 end.
Definition evict_of_val (z : Z) : option EvictionState :=
  match z with
  | 0 => Some ES_RESIDENT | 1 => Some ES_DATA_EVICTED | 2 => Some ES_EVICTED
  | _ => None
  end.

(** Three one-bit fields, allocated from the low bit up. *)
Definition bits3 (a b c : bool) : byte :=
  z2b (Z.b2z a + 2 * Z.b2z b + 4 * Z.b2z c).
Definition bit_at (b : byte) (i : Z) : bool := Z.testbit (b2z b) i.
Definition encode_rwx (r : rwx) : byte := bits3 (read r) (write r) (exec r).
Definition decode_rwx (b : byte) : rwx := Rwx (bit_at b 0) (bit_at b 1) (bit_at b 2).
Definition encode_prot (p : meta_prot_t) : bytes :=
  [bits3 (suid p) (sgid p) (sticky p); encode_rwx (owner p); encode_rwx (group p);
   encode_rwx (other p)].

(** A cursor over the buffer: [n] bytes as an unsigned integer, and the rest. *)
Definition get_le (n : nat) (b : bytes) : option (Z * bytes) :=
  if (n <=? length b)%nat then Some (le_val (take n b), drop n b) else None.
Definition get_bytes (n : nat) (b : bytes) : option (bytes * bytes) :=
  if (n <=? length b)%nat then Some (take n b, drop n b) else None.
Definition get_prot (b : bytes) : option (meta_prot_t * bytes) :=
  match b with
  | b0 :: b1 :: b2 :: b3 :: rest =>
      Some (MetaProt (bit_at b0 0) (bit_at b0 1) (bit_at b0 2)
              (decode_rwx b1) (decode_rwx b2) (decode_rwx b3), rest)
  | _ => None
  end.

(** The bytes [reinterpret_cast<char*>(&meta)] names, [sizeof(LogFSMetaData)] of
    them. *)
Definition encode_meta (m : LogFSMetaData) : bytes :=
  le_bytes 4 (meta_metaVersion m) ++ le_bytes 4 (meta_checkSum m) ++
  le_bytes 8 (meta_fsId m) ++ le_bytes 8 (meta_handle m) ++ le_bytes 8 (meta_xid m) ++
  le_bytes 4 (type_val (meta_type m)) ++ encode_prot (meta_protection m) ++
  le_bytes 4 (meta_userId m) ++ le_bytes 4 (meta_groupId m) ++
  le_bytes 8 (meta_devId m) ++ le_bytes 8 (meta_rDev m) ++
  le_bytes 8 (meta_fileTotalSize m) ++ le_bytes 4 (evict_val (meta_evictionState m)) ++
  le_bytes 4 (meta_fileInitialSize m) ++ le_bytes 4 (meta_fileChunkSize m) ++
  le_bytes 4 (meta_nLink m) ++ le_bytes 4 (meta_atime m) ++
  le_bytes 4 (meta_atimeNsec m) ++ le_bytes 4 (meta_mtime m) ++
  le_bytes 4 (meta_mtimeNsec m) ++ le_bytes 4 (meta_ctime m) ++
  le_bytes 4 (meta_ctimeNsec m) ++ le_bytes 8 (meta_parentHandle m) ++ meta_name m ++
  [Byte.x00].

(** Reading the bytes back as a struct; [None] when the buffer is shorter than
    the struct or holds a value outside an enumeration (undefined in C++). *)
Definition decode_meta (b : bytes) : option LogFSMetaData :=
  '(v_metaVersion, b) ← get_le 4 b;
  '(v_checkSum, b) ← get_le 4 b;
  '(v_fsId, b) ← get_le 8 b;
  '(v_handle, b) ← get_le 8 b;
  '(v_xid, b) ← get_le 8 b;
  '(v_type, b) ← get_le 4 b; v_type ← type_of_val v_type;
  '(v_protection, b) ← get_prot b;
  '(v_userId, b) ← get_le 4 b;
  '(v_groupId, b) ← get_le 4 b;
  '(v_devId, b) ← get_le 8 b;
  '(v_rDev, b) ← get_le 8 b;
  '(v_fileTotalSize, b) ← get_le 8 b;
  '(v_evictionState, b) ← get_le 4 b; v_evictionState ← evict_of_val v_evictionState;
  '(v_fileInitialSize, b) ← get_le 4 b;
  '(v_fileChunkSize, b) ← get_le 4 b;
  '(v_nLink, b) ← get_le 4 b;
  '(v_atime, b) ← get_le 4 b;
  '(v_atimeNsec, b) ← get_le 4 b;
  '(v_mtime, b) ← get_le 4 b;
  '(v_mtimeNsec, b) ← get_le 4 b;
  '(v_ctime, b) ← get_le 4 b;
  '(v_ctimeNsec, b) ← get_le 4 b;
  '(v_parentHandle, b) ← get_le 8 b;
  '(v_name, b) ← get_bytes NAME_MAX b;
  '(_, b) ← get_bytes 1 b;
  Some (MkMeta v_metaVersion v_checkSum v_fsId v_handle (i64 v_xid) v_type v_protection v_userId v_groupId v_devId v_rDev v_fileTotalSize v_evictionState v_fileInitialSize v_fileChunkSize v_nLink v_atime v_atimeNsec v_mtime v_mtimeNsec v_ctime v_ctimeNsec v_parentHandle v_name).

(** Every field is in the range of its C type. *)
Record wf_meta (m : LogFSMetaData) : Prop := {
  wf_metaVersion : 0 ≤ meta_metaVersion m < 4294967296;
  wf_checkSum : 0 ≤ meta_checkSum m < 4294967296;
  wf_fsId : 0 ≤ meta_fsId m < 18446744073709551616;
  wf_handle : 0 ≤ meta_handle m < 18446744073709551616;
  wf_xid : -9223372036854775808 ≤ meta_xid m < 9223372036854775808;
  wf_userId : 0 ≤ meta_userId m < 4294967296;
  wf_groupId : 0 ≤ meta_groupId m < 4294967296;
  wf_devId : 0 ≤ meta_devId m < 18446744073709551616;
  wf_rDev : 0 ≤ meta_rDev m < 18446744073709551616;
  wf_fileTotalSize : 0 ≤ meta_fileTotalSize m < 18446744073709551616;
  wf_fileInitialSize : 0 ≤ meta_fileInitialSize m < 4294967296;
  wf_fileChunkSize : 0 ≤ meta_fileChunkSize m < 4294967296;
  wf_nLink : 0 ≤ meta_nLink m < 4294967296;
  wf_atime : 0 ≤ meta_atime m < 4294967296;
  wf_atimeNsec : 0 ≤ meta_atimeNsec m < 4294967296;
  wf_mtime : 0 ≤ meta_mtime m < 4294967296;
  wf_mtimeNsec : 0 ≤ meta_mtimeNsec m < 4294967296;
  wf_ctime : 0 ≤ meta_ctime m < 4294967296;
  wf_ctimeNsec : 0 ≤ meta_ctimeNsec m < 4294967296;
  wf_parentHandle : 0 ≤ meta_parentHandle m < 18446744073709551616;
  wf_meta_name : length (meta_name m) = NAME_MAX;
}.

(** ** Keys

    [snprintf(key, 128, "%lu", handle)] and [snprintf(key, 128, "%lu.%lu", handle,
    chunk)]; a directory partition uses the same two-part form. *)

Definition inode_key (handle : Z) : bytes := fmt_lu handle.
Definition sub_key (handle n : Z) : bytes := fmt_lu handle ++ lit "." ++ fmt_lu n.

(** ** Lemmas: codec *)

Lemma get_le_app n z rest :
  get_le n (le_bytes n z ++ rest) = Some (z mod 256 ^ Z.of_nat n, rest).
Proof.
  unfold get_le. rewrite length_app, length_le_bytes.
  rewrite (proj2 (Nat.leb_le _ _)) by lia.
  by rewrite take_app_length', drop_app_length', le_val_le_bytes by by rewrite length_le_bytes.
Qed.

Lemma get_bytes_app n l rest : length l = n → get_bytes n (l ++ rest) = Some (l, rest).
Proof.
  intros <-. unfold get_bytes. rewrite length_app, (proj2 (Nat.leb_le _ _)) by lia.
  by rewrite take_app_length, drop_app_length.
Qed.

Lemma get_prot_app p rest : get_prot (encode_prot p ++ rest) = Some (p, rest).
Proof. by destruct p as [[] [] [] [[] [] []] [[] [] []] [[] [] []]]. Qed.

Lemma type_of_type_val t : type_of_val (type_val t) = Some t.
Proof. by destruct t. Qed.
Lemma evict_of_evict_val e : evict_of_val (evict_val e) = Some e.
Proof. by destruct e. Qed.

Lemma mod_256_4 z : z mod 256 ^ Z.of_nat 4 = u32 z.
Proof. done. Qed.
Lemma mod_256_8 z : z mod 256 ^ Z.of_nat 8 = u64 z.
Proof. done. Qed.

Lemma u32_type_val t : u32 (type_val t) = type_val t.
Proof. by destruct t. Qed.
Lemma u32_evict_val e : u32 (evict_val e) = evict_val e.
Proof. by destruct e. Qed.

(** One field of the struct off the front of the buffer. *)
Ltac field_step :=
  first [ rewrite get_le_app | rewrite get_prot_app
        | rewrite get_bytes_app by first [assumption | reflexivity] ];
  cbn [mbind option_bind];
  rewrite ?mod_256_4, ?mod_256_8, ?u32_type_val, ?u32_evict_val,
    ?type_of_type_val, ?evict_of_evict_val; cbn [mbind option_bind].

Lemma decode_encode m : wf_meta m → decode_meta (encode_meta m) = Some m.
Proof.
  intros W. destruct W. unfold decode_meta, encode_meta.
  repeat field_step.
  rewrite i64_u64, i64_small by done.
  rewrite !u32_small, !u64_small by done. by destruct m.
Qed.

Lemma encode_meta_length m :
  length (meta_name m) = NAME_MAX → length (encode_meta m) = 376%nat.
Proof.
  intros E. unfold encode_meta. rewrite !length_app, !length_le_bytes, E. done.
Qed.

(** ** Lemmas: keys *)

Lemma dot_not_digit n : Byte.x2e ∉ fmt_lu n.
Proof. intros H%fmt_lu_digits. change (b2z Byte.x2e) with 46 in H. lia. Qed.

Lemma sub_key_inj h n h' n' :
  sub_key h n = sub_key h' n' → u64 h = u64 h' ∧ u64 n = u64 n'.
Proof.
  unfold sub_key. cbn. intros E.
  apply app_sep_inj in E as [E1%fmt_lu_inj E2%fmt_lu_inj]; [done|apply dot_not_digit..].
Qed.

Lemma inode_key_inj h h' : inode_key h = inode_key h' → u64 h = u64 h'.
Proof. apply fmt_lu_inj. Qed.

Lemma inode_sub_key h h' n : inode_key h ≠ sub_key h' n.
Proof.
  unfold inode_key, sub_key. intros E. apply (dot_not_digit h). rewrite E.
  apply elem_of_app. right. left.
Qed.

Lemma sub_key_ne h n n' :
  0 ≤ n < 18446744073709551616 → 0 ≤ n' < 18446744073709551616 → n ≠ n' →
  sub_key h n ≠ sub_key h n'.
Proof. intros ? ? Hne [_ E]%sub_key_inj. rewrite !u64_small in E; lia. Qed.

Lemma sub_key_handle_ne h h' n n' :
  u64 h ≠ u64 h' → sub_key h n ≠ sub_key h' n'.
Proof. by intros Hne [E _]%sub_key_inj. Qed.

Lemma sub_key_length h n : (length (sub_key h n) ≤ 41)%nat.
Proof.
  unfold sub_key. rewrite !length_app. change (length (lit ".")) with 1%nat.
  pose proof (fmt_lu_length h). pose proof (fmt_lu_length n). lia.
Qed.

#[export] Hint Resolve inode_sub_key not_eq_sym : kvfs.

(** ** Lemmas: C strings and path information *)

Lemma cstr_id s : Byte.x00 ∉ s → cstr s = s.
Proof.
  induction s as [|c s IH]; cbn; intros H; [done|].
  rewrite decide_False by (intros ->; apply H; left).
  f_equal. apply IH. intros ?. apply H. by right.
Qed.

Lemma cstr_app_nul s r : Byte.x00 ∉ s → cstr (s ++ Byte.x00 :: r) = s.
Proof.
  induction s as [|c s IH]; cbn; intros H; [done|].
  rewrite decide_False by (intros ->; apply H; left).
  f_equal. apply IH. intros ?. apply H. by right.
Qed.

Lemma strncpy_length dst src n :
  (n ≤ length dst)%nat → length (strncpy dst src n) = length dst.
Proof.
  intros. unfold strncpy. rewrite length_app, length_resize, length_drop. lia.
Qed.

Lemma set_path_wf p n m :
  wf_meta m → 0 ≤ p < 18446744073709551616 → length n = NAME_MAX → wf_meta (set_path p n m).
Proof. intros [] ??. by split. Qed.

Lemma addPathInfo_ok p n m :
  (length n < NAME_MAX)%nat →
  addPathInfo p n m = Ok (set_path p (strncpy (meta_name m) n (NAME_MAX - 1)) m).
Proof.
  intros. unfold addPathInfo. by rewrite (proj2 (Nat.leb_gt _ _)) by done.
Qed.

(** ** Properties *)

(** C34: the on-store form of an inode is a faithful codec: reading back the
    376 bytes that [writeToLog] and [flush] write yields the same metadata, for
    every metadata value whose fields are in range. *)
Theorem meta_codec_roundtrip m :
  wf_meta m →
  decode_meta (encode_meta m) = Some m ∧ length (encode_meta m) = 376%nat.
Proof.
  intros W. split; [by apply decode_encode|]. apply encode_meta_length. by destruct W.
Qed.

Lemma meta_codec_roundtrip_witness :
  decode_meta (encode_meta (new_meta 0 8192)) = Some (new_meta 0 8192)
  ∧ length (encode_meta (new_meta 0 8192)) = 376%nat.
Proof. apply (meta_codec_roundtrip (new_meta 0 8192)). split; cbn; first [lia | reflexivity]. Defined.

(** The keys of distinct objects never collide and are never truncated by
    the 128-byte buffers: an inode key is never a chunk or partition key, inode
    keys are injective in the 64-bit handle, chunk and partition keys in the
    handle and the 64-bit index, and both fit with their NUL. *)
Theorem store_keys_disjoint h h' n n' :
  inode_key h ≠ sub_key h' n
  ∧ (inode_key h = inode_key h' → u64 h = u64 h')
  ∧ (sub_key h n = sub_key h' n' → u64 h = u64 h' ∧ u64 n = u64 n')
  ∧ (length (inode_key h) < 128)%nat ∧ (length (sub_key h n) < 128)%nat.
Proof.
  split; [apply inode_sub_key|]. split; [apply inode_key_inj|].
  split; [apply sub_key_inj|].
  pose proof (fmt_lu_length h). pose proof (sub_key_length h n).
  unfold inode_key. lia.
Qed.

(** The path information kept in an inode round-trips: after
    [addPathInfo(parent, name)] with a NUL-free name shorter than 255 bytes,
    [getPathInfo] returns that parent and that name, provided the last byte of the
    array is still the NUL the constructor put there; a longer name is fatal. *)
Theorem path_info_roundtrip m parent name :
  length (meta_name m) = NAME_MAX → meta_name m !! 254%nat = Some Byte.x00 →
  Byte.x00 ∉ name →
  if (NAME_MAX <=? length name)%nat then addPathInfo parent name m = Crash FatalLog
  else ∃ m', addPathInfo parent name m = Ok m' ∧ getPathInfo m' = (parent, name)
             ∧ length (meta_name m') = NAME_MAX ∧ meta_name m' !! 254%nat = Some Byte.x00.
Proof.
  intros Hl Hz Hn. unfold addPathInfo. destruct (NAME_MAX <=? length name)%nat eqn:E; [done|].
  apply Nat.leb_gt in E. unfold NAME_MAX in *.
  exists (set_path parent (strncpy (meta_name m) name (255 - 1)) m).
  split; [done|]. cbn [getPathInfo set_path meta_name meta_parentHandle].
  assert (drop 254 (meta_name m) = [Byte.x00]) as Hd.
  { apply drop_S in Hz. rewrite Hz. f_equal. apply nil_length_inv. rewrite length_drop. lia. }
  unfold strncpy. rewrite cstr_id by done. change (255 - 1)%nat with 254%nat.
  rewrite Hd, resize_ge by lia. unfold getPathInfo. cbn. repeat split.
  - f_equal. rewrite <-app_assoc.
    destruct (254 - length name)%nat eqn:El; cbn; by apply cstr_app_nul.
  - rewrite !length_app, length_replicate. cbn. lia.
  - rewrite lookup_app_r by (rewrite length_app, length_replicate; lia).
    rewrite length_app, length_replicate.
    by replace (254 - (length name + (254 - length name)))%nat with 0%nat by lia.
Qed.

Lemma path_info_roundtrip_witness :
  ∃ m', addPathInfo 1 (lit "home") (new_meta 0 8192) = Ok m'
        ∧ getPathInfo m' = (1, lit "home")
        ∧ length (meta_name m') = NAME_MAX ∧ meta_name m' !! 254%nat = Some Byte.x00.
Proof.
  apply (path_info_roundtrip (new_meta 0 8192) 1 (lit "home")); [reflexivity..|].
  apply (bool_decide_unpack _). vm_compute. exact I.
Defined.
