(* ===== verification/Partition.v ===== *)
(** * Directory partitions (src/KVFSDirectoryPartition.h, .cc)

    A directory is a few partitions; each keeps its entries in a vector (in
    readdir order), an ordered map by name, and one value in the key-value store
    under the key "ino.partition".  The model has the object with its cache state,
    the byte format of the stored value, and every method. *)

From Stdlib Require Import ZArith Lia Strings.String.
From stdpp Require Import base list gmap.
From S2P Require Import Prelude Status SortedMap KVStore MetaData.

(** ** The object *)

Inductive PartState := P_INVALID | P_CLEAN | P_DIRTY.

#[export] Instance PartState_eq_dec : EqDecision PartState.
Proof. solve_decision. Defined.

Record LogFSDirectoryPartition := MkPart {
  partitionNumber : Z;
  part_fsId : Z;
  dir_ino : Z;
  entries : list (bytes * Z);
  entries_by_name : list (bytes * Z);
  part_state : PartState;
}.

Definition new_partition (pn fs ino : Z) : LogFSDirectoryPartition :=
  MkPart (u16 pn) fs ino [] [] P_INVALID.

Definition set_pstate (st : PartState) (p : LogFSDirectoryPartition) :=
  MkPart (partitionNumber p) (part_fsId p) (dir_ino p) (entries p) (entries_by_name p) st.
Definition set_entries (es bn : list (bytes * Z)) (p : LogFSDirectoryPartition) :=
  MkPart (partitionNumber p) (part_fsId p) (dir_ino p) es bn (part_state p).

(** ** The stored form *)

(** [null_termination]. *)
Definition null_termination : byte := Byte.x7c.

Definition serialize_entry (e : bytes * Z) : bytes :=
  le_bytes 8 (snd e) ++ fst e ++ [null_termination].

Definition serialize_map (fs ino pn : Z) (m : list (bytes * Z)) : bytes :=
  le_bytes 8 fs ++ le_bytes 8 ino ++ le_bytes 2 pn ++ concat (serialize_entry <$> m).

(** [Serialize] appends header and entries, in map order, to an empty buffer. *)
Definition Serialize (p : LogFSDirectoryPartition) : bytes :=
  serialize_map (part_fsId p) (dir_ino p) (partitionNumber p) (entries_by_name p).

(** [strchr(s, c)]: the offset of [c] before the terminating NUL. *)
Fixpoint strchr (c : byte) (s : bytes) : option nat :=
  match s with
  | [] => None
  | x :: s =>
      if decide (x = c) then Some O
      else if decide (x = Byte.x00) then None else S <$> strchr c s
  end.

(** The loop of [Deserialize]: [buff] is the rest of the buffer, [total] the
    32-bit [totalSize].  Reading past the buffer, or a missing terminator (a null
    pointer from strchr), is undefined. *)
Fixpoint parse_entries (fuel : nat) (buff : bytes) (total : Z)
    (es bn : list (bytes * Z)) : res (list (bytes * Z) * list (bytes * Z)) :=
  match fuel with
  | O => Crash OutOfFuel
  | S fuel =>
      if total =? 0 then Ok (es, bn)
      else if (length buff <? 8)%nat then Crash UndefinedBehaviour
      else
        let ino := le_val (take 8 buff) in
        let name := drop 8 buff in
        match strchr null_termination name with
        | None => Crash UndefinedBehaviour
        | Some nameLen =>
            let name_str := take nameLen name in
            parse_entries fuel (drop (nameLen + 1) name)
              (u32 (total - (8 + Z.of_nat nameLen + 1)))
              (es ++ [(name_str, ino)]) (sm_insert name_str ino bn)
        end
  end.

Definition header_size : nat := 18.

(** [Deserialize]: the header overwrites the members before the comparison that
    follows it. *)
Definition Deserialize (outBuffer : bytes) : M LogFSDirectoryPartition bool :=
  if (length outBuffer <? header_size)%nat then mret false
  else
    this ← get_st;
    let fsId := le_val (slice 0 8 outBuffer) in
    let ino := le_val (slice 8 8 outBuffer) in
    EXPECT (dir_ino this =? ino);;
    cassert (dir_ino this =? ino);;
    let pn := le_val (slice 16 2 outBuffer) in
    let this := MkPart pn fsId ino (entries this) (entries_by_name this) (part_state this) in
    put_st this;;
    if negb (part_fsId this =? fsId) || negb (partitionNumber this =? pn)
       || negb (dir_ino this =? ino)
    then mret false
    else
      let rest := drop header_size outBuffer in
      match parse_entries (S (length rest)) rest
              (u32 (Z.of_nat (length outBuffer) - Z.of_nat header_size)) (entries this) [] with
      | Crash c => crash_with c
      | Ok (es, bn) =>
          put_st (set_pstate P_CLEAN (set_entries es bn this));;
          mret true
      end.

Section Methods.
Context {S : Type} `{KVStore S}.

(** A method runs on the partition object and the store. *)
Abbreviation PM := (M (LogFSDirectoryPartition * S)).

Definition on_part {A} (m : M LogFSDirectoryPartition A) : PM A := λ '(p, kv),
  match m p with
  | Ok (a, p') => Ok (a, (p', kv))
  | Crash c => Crash c
  end.

Definition this_part : PM LogFSDirectoryPartition := gets fst.

Definition partition_key (p : LogFSDirectoryPartition) : bytes :=
  sub_key (dir_ino p) (partitionNumber p).

(** [readFromLog]: the stored value, if any. *)
Definition part_readFromLog : PM (option bytes) :=
  gets (λ '(p, kv), kv_get kv (partition_key p)).

(** [writeToLog]. *)
Definition part_writeToLog : PM Status := λ '(p, kv),
  if decide (part_state p = P_DIRTY) then
    match kv_put kv (partition_key p) (Serialize p) with
    | (true, kv') => Ok (STATUS_OK, (set_pstate P_CLEAN p, kv'))
    | (false, kv') => Ok (STATUS_INTERNAL_ERROR, (p, kv'))
    end
  else Ok (STATUS_INTERNAL_ERROR, (p, kv)).

(** [Refresh]: read and parse the stored value the first time. *)
Definition part_Refresh : PM Z :=
  p ← this_part;
  if decide (part_state p = P_INVALID) then
    r ← part_readFromLog;
    match r with
    | Some buf =>
        ok ← on_part (Deserialize buf);
        if (ok : bool) then on_part (modify (set_pstate P_CLEAN));; mret 0
        else mret EIO
    | None =>
        on_part (modify (λ p, set_pstate P_CLEAN (set_entries (entries p) [] p)));;
        mret 0
    end
  else mret 0.

Definition refresh_or_abort : PM unit := err ← part_Refresh; EXPECT (err =? 0).

(** [insertEntry]: the result of [writeToLog] is not looked at. *)
Definition part_insertEntry (ino : Z) (name : bytes) : PM Z :=
  refresh_or_abort;;
  p ← this_part;
  EXPECT (bool_decide (part_state p ≠ P_INVALID));;
  match sm_find name (entries_by_name p) with
  | Some _ => mret EEXIST
  | None =>
      on_part (put_st (set_pstate P_DIRTY
        (set_entries (entries p ++ [(name, ino)]) (sm_insert name ino (entries_by_name p)) p)));;
      part_writeToLog;;
      mret 0
  end.

(** [removeEntry]: the entry stays in the vector; the handle is not compared. *)
Definition part_removeEntry (handle : Z) (name : bytes) : PM Z :=
  err ← part_Refresh;
  if err =? 0 then
    p ← this_part;
    match sm_find name (entries_by_name p) with
    | None => mret ENOENT
    | Some _ =>
        on_part (put_st (set_pstate P_DIRTY
          (set_entries (entries p) (sm_erase name (entries_by_name p)) p)));;
        part_writeToLog;;
        mret 0
    end
  else mret err.

Definition part_findEntry (name : bytes) : PM Z :=
  refresh_or_abort;;
  p ← this_part;
  mret (default 0 (sm_find name (entries_by_name p))).

Definition is_dot_name (name : bytes) : bool :=
  bool_decide (name = lit ".") || bool_decide (name = lit "..").

Definition isPartitionEmpty : PM bool :=
  refresh_or_abort;;
  p ← this_part;
  if (2 <? length (entries_by_name p))%nat then mret false
  else mret (forallb (λ e, is_dot_name (fst e)) (entries_by_name p)).

End Methods.

(** Is a vector entry still in the map, with the same inode? *)
Definition entry_live (bn : list (bytes * Z)) (e : bytes * Z) : bool :=
  match sm_find (fst e) bn with
  | Some ino => ino =? snd e
  | None => false
  end.

(** The loop of [listEntries] from vector index [i] on; [add] is
    [DirEntryAdder::Add] (it is passed [name.c_str()]), in whatever state it needs. *)
Fixpoint list_loop {St} (add : bytes → Z → Z → M St bool) (bn es : list (bytes * Z))
    (i base : Z) : M St unit :=
  match es with
  | [] => mret tt
  | e :: es =>
      if entry_live bn e then
        ok ← add (cstr (fst e)) (snd e) (base + i + 1);
        if (ok : bool) then list_loop add bn es (i + 1) base else mret tt
      else list_loop add bn es (i + 1) base
  end.

(** [listEntries], run in a larger state that contains the partition. *)
Definition listEntries {S St} `{KVStore S}
    (at_part : ∀ A, M (LogFSDirectoryPartition * S) A → M St A)
    (add : bytes → Z → Z → M St bool) (cur_offset part_base_offset : Z) : M St Z :=
  err ← at_part _ part_Refresh;
  if err =? 0 then
    EXPECT (part_base_offset <=? cur_offset);;
    p ← at_part _ this_part;
    let i := cur_offset - part_base_offset in
    list_loop add (entries_by_name p) (drop (Z.to_nat i) (entries p)) i part_base_offset;;
    mret 0
  else mret err.

(** ** Specification *)

(** What the stored format can carry: names without the separator or NUL, 64-bit
    inode numbers, a total below the 32-bit counter of [Deserialize]. *)
Definition wf_name (name : bytes) : Prop := (null_termination ∉ name) ∧ (Byte.x00 ∉ name).
Definition wf_entry (e : bytes * Z) : Prop :=
  wf_name (fst e) ∧ (0 ≤ snd e < 18446744073709551616).
Definition entries_bytes (m : list (bytes * Z)) : bytes :=
  concat (serialize_entry <$> m).
Record wf_map (m : list (bytes * Z)) : Prop := {
  wfm_sorted : sm_sorted m;
  wfm_entries : Forall wf_entry m;
  wfm_size : Z.of_nat (length (entries_bytes m)) < 4294967296;
}.

(** The name map a stored value denotes. *)
Definition decode_part (v : bytes) : list (bytes * Z) :=
  let rest := drop header_size v in
  match parse_entries (S (length rest)) rest (u32 (Z.of_nat (length v) - Z.of_nat header_size))
          [] [] with
  | Ok (_, bn) => bn
  | Crash _ => []
  end.

(** The directory partition as the store alone has it. *)
Definition part_view {S} `{KVStore S} (kv : S) (ino pn : Z) : list (bytes * Z) :=
  match kv_get kv (sub_key ino pn) with
  | Some v => decode_part v
  | None => []
  end.

(** The stored value, if there is one, is well formed. *)
Definition stored_ok {S} `{KVStore S} (kv : S) (fs ino pn : Z) : Prop :=
  ∀ v, kv_get kv (sub_key ino pn) = Some v →
    ∃ m, wf_map m ∧ v = serialize_map fs ino pn m.

(** The object invariant: the identity fields are in range, the store is readable,
    an unread partition is empty, a clean one agrees with the store, and every
    name of the map is in the vector. *)
Record part_inv {S} `{KVStore S} (p : LogFSDirectoryPartition) (kv : S) : Prop := {
  pi_pn : 0 ≤ partitionNumber p < 65536;
  pi_fs : 0 ≤ part_fsId p < 18446744073709551616;
  pi_ino : 0 ≤ dir_ino p < 18446744073709551616;
  pi_stored : stored_ok kv (part_fsId p) (dir_ino p) (partitionNumber p);
  pi_wf : wf_map (entries_by_name p);
  pi_invalid : part_state p = P_INVALID → entries p = [] ∧ entries_by_name p = [];
  pi_clean : part_state p = P_CLEAN →
    part_view kv (dir_ino p) (partitionNumber p) = entries_by_name p;
  pi_vector : ∀ e, e ∈ entries_by_name p → e ∈ entries p;
}.

(** The abstract contents of a partition object: its cache once it is read, the
    store before that. *)
Definition part_abs {S} `{KVStore S} (p : LogFSDirectoryPartition) (kv : S) : list (bytes * Z) :=
  if decide (part_state p = P_INVALID) then part_view kv (dir_ino p) (partitionNumber p)
  else entries_by_name p.

(** ** Lemmas: the codec *)

Lemma strchr_found c s r :
  c ∉ s → Byte.x00 ∉ s → c ≠ Byte.x00 → strchr c (s ++ c :: r) = Some (length s).
Proof.
  induction s as [|x s IH]; cbn; intros H1 H2 Hc.
  - by rewrite decide_True.
  - rewrite decide_False by (intros ->; apply H1; left).
    rewrite decide_False by (intros ->; apply H2; left).
    rewrite IH; [done|..|done]; intros ?; [apply H1|apply H2]; by right.
Qed.

Lemma serialize_entry_length e : length (serialize_entry e) = (9 + length (fst e))%nat.
Proof. unfold serialize_entry. rewrite !length_app, length_le_bytes. cbn. lia. Qed.

Lemma entries_bytes_cons e m : entries_bytes (e :: m) = serialize_entry e ++ entries_bytes m.
Proof. done. Qed.

(** One turn of the loop on a serialized entry. *)
Lemma parse_entries_step fuel name ino rest total es bn :
  wf_entry (name, ino) → total ≠ 0 →
  parse_entries (S fuel) (serialize_entry (name, ino) ++ rest) total es bn =
  parse_entries fuel rest (u32 (total - (9 + Z.of_nat (length name))))
    (es ++ [(name, ino)]) (sm_insert name ino bn).
Proof.
  intros [[H1 H2] H3] Ht. cbn in H1, H2, H3. cbn [parse_entries].
  rewrite (proj2 (Z.eqb_neq _ _)) by done.
  rewrite (proj2 (Nat.ltb_ge _ _)) by (rewrite length_app, serialize_entry_length; lia).
  unfold serialize_entry. cbn [fst snd]. rewrite <-!app_assoc. cbn [app].
  rewrite take_app_length', drop_app_length' by by rewrite length_le_bytes.
  rewrite strchr_found by done. rewrite take_app_length, le_val_u64, u64_small by done.
  rewrite drop_app_ge, Nat.add_comm, Nat.add_sub by lia. cbn [drop].
  rewrite drop_0. do 2 f_equal. lia.
Qed.

Lemma parse_entries_all fuel m es bn :
  (length m < fuel)%nat → Forall wf_entry m →
  Z.of_nat (length (entries_bytes m)) < 4294967296 →
  parse_entries fuel (entries_bytes m) (Z.of_nat (length (entries_bytes m))) es bn =
  Ok (es ++ m, foldl (λ acc e, sm_insert e.1 e.2 acc) bn m).
Proof.
  revert fuel es bn. induction m as [|[name ino] m IH]; intros fuel es bn Hf Hw Hs.
  - destruct fuel; cbn in *; [lia|]. by rewrite app_nil_r.
  - destruct fuel as [|fuel]; cbn in Hf; [lia|]. apply Forall_cons in Hw as [Hw1 Hw2].
    rewrite entries_bytes_cons in Hs |- *.
    rewrite length_app, serialize_entry_length in Hs |- *. cbn [fst] in Hs |- *.
    rewrite parse_entries_step by (done || lia).
    replace (u32 _) with (Z.of_nat (length (entries_bytes m))) by (rewrite u32_small; lia).
    rewrite IH by (done || lia). cbn [foldl fst snd]. by rewrite <-app_assoc.
Qed.

Lemma entries_bytes_length m : (length m ≤ length (entries_bytes m))%nat.
Proof.
  induction m as [|e m IH]; cbn [length]; [lia|].
  rewrite entries_bytes_cons, length_app, serialize_entry_length. lia.
Qed.

Lemma serialize_map_length fs ino pn m :
  length (serialize_map fs ino pn m) = (18 + length (entries_bytes m))%nat.
Proof. unfold serialize_map. by rewrite !length_app, !length_le_bytes. Qed.

Lemma serialize_map_drop fs ino pn m :
  drop header_size (serialize_map fs ino pn m) = entries_bytes m.
Proof.
  unfold serialize_map, header_size. rewrite !app_assoc.
  apply drop_app_length'. rewrite !length_app, !length_le_bytes. done.
Qed.

Lemma parse_serialized fs ino pn m es :
  wf_map m →
  let v := serialize_map fs ino pn m in
  parse_entries (S (length (drop header_size v))) (drop header_size v)
    (u32 (Z.of_nat (length v) - Z.of_nat header_size)) es [] = Ok (es ++ m, m).
Proof.
  intros [Hs Hw Hl] v. unfold v. rewrite serialize_map_drop, serialize_map_length.
  replace (u32 _) with (Z.of_nat (length (entries_bytes m)))
    by (unfold header_size; rewrite u32_small; lia).
  rewrite parse_entries_all; [by rewrite sm_rebuild| |done..].
  pose proof (entries_bytes_length m). lia.
Qed.

Lemma decode_serialized fs ino pn m :
  wf_map m → decode_part (serialize_map fs ino pn m) = m.
Proof.
  intros W. unfold decode_part. by rewrite (parse_serialized fs ino pn m [] W).
Qed.

Lemma Deserialize_serialized p fs pn m :
  wf_map m → 0 ≤ fs < 18446744073709551616 → 0 ≤ pn < 65536 →
  0 ≤ dir_ino p < 18446744073709551616 →
  Deserialize (serialize_map fs (dir_ino p) pn m) p =
  Ok (true, MkPart pn fs (dir_ino p) (entries p ++ m) m P_CLEAN).
Proof.
  intros W Hfs Hpn Hino. unfold Deserialize.
  rewrite (proj2 (Nat.ltb_ge _ _)) by (rewrite serialize_map_length; unfold header_size; lia).
  assert (le_val (slice 0 8 (serialize_map fs (dir_ino p) pn m)) = fs) as E1.
  { unfold serialize_map. rewrite slice_app_l by apply length_le_bytes.
    by rewrite le_val_u64, u64_small. }
  assert (le_val (slice 8 8 (serialize_map fs (dir_ino p) pn m)) = dir_ino p) as E2.
  { unfold serialize_map. rewrite slice_app_r by by rewrite length_le_bytes.
    rewrite length_le_bytes, Nat.sub_diag, slice_app_l by apply length_le_bytes.
    by rewrite le_val_u64, u64_small. }
  assert (le_val (slice 16 2 (serialize_map fs (dir_ino p) pn m)) = pn) as E3.
  { unfold serialize_map. do 2 (rewrite slice_app_r by (rewrite !length_le_bytes; lia)).
    rewrite !length_le_bytes. cbn [Nat.sub].
    rewrite slice_app_l by apply length_le_bytes. by rewrite le_val_u16, u16_small. }
  mrun. rewrite E1, E2, E3, Z.eqb_refl. cbn [negb orb partitionNumber part_fsId dir_ino entries].
  rewrite !Z.eqb_refl. cbn [negb orb].
  rewrite (parse_serialized fs (dir_ino p) pn m (entries p) W). done.
Qed.

Lemma wf_map_nil : wf_map [].
Proof. split; [constructor|constructor|cbn; lia]. Qed.
#[export] Hint Resolve wf_map_nil : kvfs.

Lemma wf_map_erase name m : wf_map m → wf_map (sm_erase name m).
Proof.
  intros [Hs Hw Hl]. split; [auto with kvfs| |].
  - apply Forall_forall. intros [n i] Hin%sm_erase_sub.
    by apply (proj1 (Forall_forall _ _) Hw (n, i)).
  - revert Hl. clear Hs Hw. induction m as [|[k v] m IH]; [done|].
    rewrite entries_bytes_cons, length_app. cbn [sm_erase]. intros Hl.
    destruct (key_ltb name k); [by rewrite entries_bytes_cons, length_app|].
    destruct (key_ltb k name); [|lia].
    rewrite entries_bytes_cons, length_app.
    enough (length (entries_bytes (sm_erase name m)) ≤ length (entries_bytes m))%nat by lia.
    clear. induction m as [|[k' v'] m IH]; cbn [sm_erase]; [lia|].
    destruct (key_ltb name k'); [lia|]. destruct (key_ltb k' name);
      rewrite !entries_bytes_cons, !length_app; lia.
Qed.

Lemma entries_bytes_insert name ino m :
  sm_find name m = None →
  length (entries_bytes (sm_insert name ino m)) =
  (9 + length name + length (entries_bytes m))%nat.
Proof.
  induction m as [|[k v] m IH]; intros E.
  - cbn [sm_insert]. rewrite entries_bytes_cons, length_app, serialize_entry_length. done.
  - cbn [sm_find sm_insert] in *. destruct (key_ltb name k).
    + by rewrite entries_bytes_cons, length_app, serialize_entry_length.
    + destruct (key_ltb k name); [|done]. rewrite !entries_bytes_cons, !length_app, IH by done.
      rewrite serialize_entry_length. cbn. lia.
Qed.

Lemma wf_map_insert name ino m :
  wf_map m → wf_entry (name, ino) → sm_find name m = None →
  Z.of_nat (length (entries_bytes m) + length name + 9) < 4294967296 →
  wf_map (sm_insert name ino m).
Proof.
  intros [Hs Hw Hl] He Hf Hsz. split; [auto with kvfs| |].
  - apply Forall_forall. intros [n i] [[-> ->]|Hin]%sm_insert_elem; [done|].
    by apply (proj1 (Forall_forall _ _) Hw (n, i)).
  - rewrite entries_bytes_insert by done. lia.
Qed.

(** ** Lemmas: the object against the store *)

Definition same_part (p p' : LogFSDirectoryPartition) : Prop :=
  partitionNumber p' = partitionNumber p ∧ part_fsId p' = part_fsId p ∧ dir_ino p' = dir_ino p.

Section PartLemmas.
Context {S : Type} `{KVStoreLaws S}.
Implicit Types (kv : S) (p : LogFSDirectoryPartition).

(** Reading the partition for the first time, or not again. *)
Lemma part_Refresh_ok p kv :
  part_inv p kv →
  ∃ p', part_Refresh (p, kv) = Ok (0, (p', kv)) ∧ part_inv p' kv ∧ same_part p p'
    ∧ part_state p' ≠ P_INVALID ∧ entries_by_name p' = part_abs p kv.
Proof.
  intros I. destruct p as [pn fs ino es bn st]. unfold part_Refresh, part_abs, this_part.
  mrun. cbn [fst part_state]. destruct (decide (st = P_INVALID)) as [->|Hst].
  2:{ exists (MkPart pn fs ino es bn st). by repeat split; try apply I. }
  destruct (pi_invalid _ _ I eq_refl) as [[= ->] [= ->]].
  pose proof (pi_stored _ _ I) as Hst. unfold stored_ok in Hst.
  unfold part_view, part_readFromLog, partition_key in *. mrun.
  cbn [dir_ino partitionNumber part_fsId] in *.
  destruct (kv_get kv (sub_key ino pn)) as [v|] eqn:E.
  - destruct (Hst v eq_refl) as (m & W & ->).
    pose proof (Deserialize_serialized (MkPart pn fs ino [] [] P_INVALID) fs pn m W
      (pi_fs _ _ I) (pi_pn _ _ I) (pi_ino _ _ I)) as D.
    cbn [dir_ino entries app] in D. unfold on_part. rewrite D.
    rewrite decode_serialized by done. cbn.
    eexists. split; [done|]. split; [|done].
    split; cbn; try apply I; try done. intros _. unfold part_view. rewrite E.
    by apply decode_serialized.
  - unfold on_part. cbn. eexists. split; [done|]. split; [|done].
    split; cbn; try apply I; try done. intros _. unfold part_view. by rewrite E.
Qed.

Lemma refresh_or_abort_ok p kv :
  part_inv p kv →
  ∃ p', refresh_or_abort (p, kv) = Ok (tt, (p', kv)) ∧ part_inv p' kv ∧ same_part p p'
    ∧ part_state p' ≠ P_INVALID ∧ entries_by_name p' = part_abs p kv.
Proof.
  intros (p' & E & R)%part_Refresh_ok. exists p'. split; [|done].
  unfold refresh_or_abort. by rewrite (bind_ok _ _ _ _ _ E).
Qed.

(** Once read, a partition's contents are its cache. *)
Lemma part_abs_read p kv : part_state p ≠ P_INVALID → part_abs p kv = entries_by_name p.
Proof. intros. unfold part_abs. by rewrite decide_False. Qed.

(** Changing the cache of a partition that was read. *)
Lemma part_inv_dirty p kv es bn :
  part_inv p kv → wf_map bn → (∀ e, e ∈ bn → e ∈ es) →
  part_inv (set_pstate P_DIRTY (set_entries es bn p)) kv.
Proof. intros I W V. by split; try apply I. Qed.

(** Writing a dirty partition. *)
Lemma part_writeToLog_dirty p kv :
  part_inv p kv → part_state p = P_DIRTY →
  ∃ b kv' p', kv_put kv (partition_key p) (Serialize p) = (b, kv')
    ∧ part_writeToLog (p, kv) =
        Ok (if b then STATUS_OK else STATUS_INTERNAL_ERROR, (p', kv'))
    ∧ p' = (if b then set_pstate P_CLEAN p else p)
    ∧ part_inv p' kv'
    ∧ part_view kv' (dir_ino p) (partitionNumber p) =
        (if b then entries_by_name p else part_view kv (dir_ino p) (partitionNumber p)).
Proof.
  intros I Hd. unfold part_writeToLog. rewrite decide_True by done.
  destruct (kv_put kv (partition_key p) (Serialize p)) as [b kv'] eqn:E.
  exists b, kv', (if b then set_pstate P_CLEAN p else p).
  split; [done|]. split; [by destruct b|]. split; [done|].
  pose proof (kv_put_cases _ _ _ _ _ E (partition_key p)) as G.
  assert (part_view kv' (dir_ino p) (partitionNumber p) =
    (if b then entries_by_name p else part_view kv (dir_ino p) (partitionNumber p))) as V.
  { unfold part_view. fold (partition_key p). rewrite G. destruct b; [|done].
    rewrite decide_True by done. apply decode_serialized, I. }
  split; [|done]. destruct b; split; try apply I; try done; cbn.
  - intros v. fold (partition_key p). rewrite G, decide_True by done. intros [= <-].
    exists (entries_by_name p). split; [apply I|done].
  - intros v. fold (partition_key p). rewrite G. apply I.
  - congruence.
Qed.

(** Room for one more entry: the stored size stays below the 32-bit counter. *)
Definition fits (m : list (bytes * Z)) (name : bytes) : Prop :=
  Z.of_nat (length (entries_bytes m) + length name + 9) < 4294967296.

(** [insertEntry], on both branches. *)
Lemma part_insertEntry_exists p kv ino name i :
  part_inv p kv → sm_find name (part_abs p kv) = Some i →
  ∃ p', part_insertEntry ino name (p, kv) = Ok (EEXIST, (p', kv))
    ∧ part_inv p' kv ∧ same_part p p' ∧ part_abs p' kv = part_abs p kv.
Proof.
  intros I F. destruct (refresh_or_abort_ok p kv I) as (p1 & E & I1 & Hid & Hst & Hbn).
  exists p1. rewrite (part_abs_read p1), Hbn by done. split; [|done].
  unfold part_insertEntry. rewrite (bind_ok _ _ _ _ _ E). unfold this_part. mrun. cbn [fst].
  rewrite bool_decide_true by done. by rewrite Hbn, F.
Qed.

Lemma part_insertEntry_new p kv ino name :
  part_inv p kv → wf_entry (name, ino) → fits (part_abs p kv) name →
  sm_find name (part_abs p kv) = None →
  ∃ b kv' p', part_insertEntry ino name (p, kv) = Ok (0, (p', kv'))
    ∧ kv_put kv (partition_key p)
        (serialize_map (part_fsId p) (dir_ino p) (partitionNumber p)
           (sm_insert name ino (part_abs p kv))) = (b, kv')
    ∧ part_inv p' kv' ∧ same_part p p'
    ∧ part_abs p' kv' = sm_insert name ino (part_abs p kv)
    ∧ part_view kv' (dir_ino p) (partitionNumber p) =
        (if b then sm_insert name ino (part_abs p kv)
         else part_view kv (dir_ino p) (partitionNumber p)).
Proof.
  intros I We Hfit F. destruct (refresh_or_abort_ok p kv I) as (p1 & E & I1 & Hid & Hst & Hbn).
  set (bn := sm_insert name ino (part_abs p kv)).
  set (p2 := set_pstate P_DIRTY (set_entries (entries p1 ++ [(name, ino)]) bn p1)).
  assert (part_inv p2 kv) as I2.
  { apply part_inv_dirty; [done|..].
    - apply wf_map_insert; [|done..]. rewrite <-Hbn. apply I1.
    - intros [n i]. rewrite elem_of_app. intros [[-> ->]|Hin]%sm_insert_elem.
      + right. by left.
      + left. apply (pi_vector _ _ I1). by rewrite Hbn. }
  destruct (part_writeToLog_dirty p2 kv I2 eq_refl) as (b & kv' & p3 & Ep & Ew & Hp3 & I3 & V).
  destruct Hid as (Hpn & Hfs & Hino). exists b, kv', p3. cbn [p2 dir_ino partitionNumber set_pstate set_entries] in V.
  rewrite Hpn, Hino in V.
  split; [|split; [|split; [done|split; [|split; [|done]]]]].
  - unfold part_insertEntry. rewrite (bind_ok _ _ _ _ _ E). unfold this_part.
    unfold on_part. mrun. cbn [fst]. rewrite bool_decide_true by done. rewrite Hbn, F. cbv beta iota zeta.
    fold bn. fold p2. by rewrite Ew.
  - rewrite <-Ep. unfold partition_key, Serialize. cbn. by rewrite Hpn, Hfs, Hino.
  - subst p3. unfold same_part. by destruct b; cbn; rewrite Hpn, Hfs, Hino.
  - subst p3. by destruct b.
Qed.

(** [removeEntry], on both branches. *)
Lemma part_removeEntry_absent p kv h name :
  part_inv p kv → sm_find name (part_abs p kv) = None →
  ∃ p', part_removeEntry h name (p, kv) = Ok (ENOENT, (p', kv))
    ∧ part_inv p' kv ∧ same_part p p' ∧ part_abs p' kv = part_abs p kv.
Proof.
  intros I F. destruct (part_Refresh_ok p kv I) as (p1 & E & I1 & Hid & Hst & Hbn).
  exists p1. rewrite (part_abs_read p1), Hbn by done. split; [|done].
  unfold part_removeEntry. rewrite (bind_ok _ _ _ _ _ E). unfold this_part. mrun.
  change (0 =? 0) with true. cbn [fst]. by rewrite Hbn, F.
Qed.

Lemma part_removeEntry_found p kv h name i :
  part_inv p kv → sm_find name (part_abs p kv) = Some i →
  ∃ b kv' p', part_removeEntry h name (p, kv) = Ok (0, (p', kv'))
    ∧ kv_put kv (partition_key p)
        (serialize_map (part_fsId p) (dir_ino p) (partitionNumber p)
           (sm_erase name (part_abs p kv))) = (b, kv')
    ∧ part_inv p' kv' ∧ same_part p p'
    ∧ part_abs p' kv' = sm_erase name (part_abs p kv)
    ∧ part_view kv' (dir_ino p) (partitionNumber p) =
        (if b then sm_erase name (part_abs p kv)
         else part_view kv (dir_ino p) (partitionNumber p)).
Proof.
  intros I F. destruct (part_Refresh_ok p kv I) as (p1 & E & I1 & Hid & Hst & Hbn).
  set (bn := sm_erase name (part_abs p kv)).
  set (p2 := set_pstate P_DIRTY (set_entries (entries p1) bn p1)).
  assert (part_inv p2 kv) as I2.
  { apply part_inv_dirty; [done|..].
    - unfold bn. rewrite <-Hbn. apply wf_map_erase, I1.
    - intros [n j] Hin%sm_erase_sub. apply (pi_vector _ _ I1). by rewrite Hbn. }
  destruct (part_writeToLog_dirty p2 kv I2 eq_refl) as (b & kv' & p3 & Ep & Ew & Hp3 & I3 & V).
  destruct Hid as (Hpn & Hfs & Hino). exists b, kv', p3. cbn [p2 dir_ino partitionNumber set_pstate set_entries] in V.
  rewrite Hpn, Hino in V.
  split; [|split; [|split; [done|split; [|split; [|done]]]]].
  - unfold part_removeEntry. rewrite (bind_ok _ _ _ _ _ E). unfold this_part, on_part.
    mrun. change (0 =? 0) with true. cbn [fst]. rewrite Hbn, F. cbv beta iota zeta.
    fold bn. fold p2. by rewrite Ew.
  - rewrite <-Ep. unfold partition_key, Serialize. cbn. by rewrite Hpn, Hfs, Hino.
  - subst p3. unfold same_part. by destruct b; cbn; rewrite Hpn, Hfs, Hino.
  - subst p3. by destruct b.
Qed.

Lemma part_findEntry_ok p kv name :
  part_inv p kv →
  ∃ p', part_findEntry name (p, kv) =
      Ok (default 0 (sm_find name (part_abs p kv)), (p', kv))
    ∧ part_inv p' kv ∧ same_part p p' ∧ part_abs p' kv = part_abs p kv.
Proof.
  intros I. destruct (refresh_or_abort_ok p kv I) as (p1 & E & I1 & Hid & Hst & Hbn).
  exists p1. rewrite (part_abs_read p1), Hbn by done. split; [|done].
  unfold part_findEntry. rewrite (bind_ok _ _ _ _ _ E). unfold this_part. mrun. cbn [fst].
  by rewrite Hbn.
Qed.

End PartLemmas.

(** ** Lemmas: listing *)

(** What a listing from vector index [i] offers to the adder, in order: the live
    entries with the offset that resumes after each. *)
Fixpoint live_from (bn es : list (bytes * Z)) (i base : Z) : list (bytes * Z * Z) :=
  match es with
  | [] => []
  | e :: es =>
      if entry_live bn e then (cstr (fst e), snd e, base + i + 1) :: live_from bn es (i + 1) base
      else live_from bn es (i + 1) base
  end.

(** An adder with room for [k] entries, which records what it accepts. *)
Definition rec_add {St} (name : bytes) (ino next : Z)
    : M (St * (nat * list (bytes * Z * Z))) bool := λ '(s, (k, out)),
  match k with
  | O => Ok (false, (s, (O, out)))
  | S k => Ok (true, (s, (k, out ++ [(name, ino, next)])))
  end.

Definition at_fst {St X} (A : Type) (m : M St A) : M (St * X) A := λ '(s, x),
  match m s with
  | Ok (a, s') => Ok (a, (s', x))
  | Crash c => Crash c
  end.

Lemma list_loop_records {St} (s : St) bn es i base k out :
  list_loop rec_add bn es i base (s, (k, out)) =
  Ok (tt, (s, ((k - length (live_from bn es i base))%nat,
               out ++ take k (live_from bn es i base)))).
Proof.
  revert i k out. induction es as [|e es IH]; intros i k out; cbn.
  - by rewrite take_nil, app_nil_r, Nat.sub_0_r.
  - destruct (entry_live bn e); [|apply IH]. unfold mbind, M_bind. destruct k as [|k]; cbn.
    + by rewrite app_nil_r.
    + rewrite IH. by rewrite <-app_assoc.
Qed.

(** The offsets increase, and the listing from an entry's offset is what came
    after that entry. *)
Lemma live_from_resume bn es i base k n ino o :
  0 ≤ i → live_from bn es i base !! k = Some (n, ino, o) →
  base + i < o ∧ o ≤ base + i + Z.of_nat (length es)
  ∧ live_from bn (drop (Z.to_nat (o - base - i)) es) (o - base) base
    = drop (S k) (live_from bn es i base).
Proof.
  revert i k. induction es as [|e es IH]; intros i k Hi Hk; [done|].
  cbn [live_from length] in *. destruct (entry_live bn e).
  - destruct k as [|k]; cbn in Hk.
    + injection Hk as <- <- <-. split; [lia|]. split; [lia|].
      replace (Z.to_nat _) with 1%nat by lia.
      replace (base + i + 1 - base) with (i + 1) by lia. cbn [drop]. by rewrite !drop_0.
    + destruct (IH (i + 1) k ltac:(lia) Hk) as (H1 & H2 & H3). split; [lia|]. split; [lia|].
      replace (Z.to_nat (o - base - i)) with (S (Z.to_nat (o - base - (i + 1)))) by lia.
      cbn [drop]. rewrite H3. done.
  - destruct (IH (i + 1) k ltac:(lia) Hk) as (H1 & H2 & H3). split; [lia|]. split; [lia|].
    replace (Z.to_nat (o - base - i)) with (S (Z.to_nat (o - base - (i + 1)))) by lia.
    by cbn [drop].
Qed.

Lemma live_from_sound bn es i base n ino o :
  (n, ino, o) ∈ live_from bn es i base →
  ∃ name, n = cstr name ∧ sm_find name bn = Some ino ∧ (name, ino) ∈ es.
Proof.
  revert i. induction es as [|[name j] es IH]; intros i; cbn; [intros E; by apply not_elem_of_nil in E|].
  assert ((n, ino, o) ∈ live_from bn es (i + 1) base →
    ∃ name', n = cstr name' ∧ sm_find name' bn = Some ino ∧ (name', ino) ∈ (name, j) :: es) as Ht.
  { intros (n' & ? & ? & ?)%IH. exists n'. by repeat split; try right. }
  unfold entry_live. cbn. destruct (sm_find name bn) as [j'|] eqn:E; [|done].
  destruct (Z.eqb_spec j' j) as [->|_]; [|done].
  rewrite elem_of_cons. intros [[= -> -> ->]|Hin]; [|by apply Ht]. exists name. by repeat split; try left.
Qed.

Lemma live_from_complete bn es i base name ino :
  sm_find name bn = Some ino → (name, ino) ∈ es →
  ∃ o, (cstr name, ino, o) ∈ live_from bn es i base.
Proof.
  intros F. revert i. induction es as [|e es IH]; intros i Hin; [by apply not_elem_of_nil in Hin|].
  apply elem_of_cons in Hin as [<-|Hin]; cbn.
  - unfold entry_live. cbn. rewrite F, Z.eqb_refl. eexists. by left.
  - destruct (IH (i + 1) Hin) as [o Ho]. exists o. destruct (entry_live bn e); [by right|done].
Qed.

(** [listEntries] with the recording adder. *)
Lemma listEntries_ok {S} `{KVStoreLaws S} p (kv : S) cur base k out :
  part_inv p kv → base ≤ cur →
  ∃ p', listEntries at_fst rec_add cur base ((p, kv), (k, out)) =
      Ok (0, ((p', kv),
        ((k - length (live_from (part_abs p kv) (drop (Z.to_nat (cur - base)) (entries p'))
                (cur - base) base))%nat,
         out ++ take k (live_from (part_abs p kv)
                 (drop (Z.to_nat (cur - base)) (entries p')) (cur - base) base))))
    ∧ part_inv p' kv ∧ same_part p p' ∧ part_abs p' kv = part_abs p kv
    ∧ part_Refresh (p, kv) = Ok (0, (p', kv)).
Proof.
  intros I Hb. destruct (part_Refresh_ok p kv I) as (p1 & E & I1 & Hid & Hst & Hbn).
  exists p1. rewrite (part_abs_read p1), Hbn by done. split; [|done].
  unfold listEntries, this_part. mrun. unfold at_fst. rewrite E.
  change (0 =? 0) with true. cbv beta iota.
  rewrite (proj2 (Z.leb_le _ _)) by lia. cbn [fst].
  by rewrite Hbn, list_loop_records.
Qed.

(** ** Lemmas: the emptiness test *)

Definition only_dots (m : list (bytes * Z)) : Prop :=
  ∀ n i, sm_find n m = Some i → n = lit "." ∨ n = lit "..".

Lemma dots_forallb m :
  sm_sorted m → forallb (λ e, is_dot_name (fst e)) m = true ↔ only_dots m.
Proof.
  intros Hs. rewrite forallb_forall. unfold is_dot_name. split.
  - intros A n i F%sm_find_elem. apply list_elem_of_In, A in F. cbn in F.
    apply orb_true_iff in F as [F|F]; zbool; auto.
  - intros A [n i] Hin%list_elem_of_In. cbn. apply orb_true_iff.
    destruct (A n i (sm_elem_find _ _ _ Hs Hin)) as [->| ->]; [left|right];
      by apply bool_decide_eq_true_2.
Qed.

Lemma dots_length m : sm_sorted m → only_dots m → (length m ≤ 2)%nat.
Proof.
  intros Hs A. pose proof (sm_sorted_NoDup m Hs) as Hnd.
  assert (m.*1 ⊆ [lit "."; lit ".."]) as Hsub.
  { intros n ([n' i] & -> & Hin)%list_elem_of_fmap.
    destruct (A n' i (sm_elem_find _ _ _ Hs Hin)) as [->| ->]; [left|right; left]. }
  apply NoDup_submseteq, submseteq_length in Hsub; [|done].
  by rewrite length_fmap in Hsub.
Qed.

Lemma isPartitionEmpty_ok {S} `{KVStoreLaws S} p (kv : S) :
  part_inv p kv →
  ∃ b p', isPartitionEmpty (p, kv) = Ok (b, (p', kv))
    ∧ part_inv p' kv ∧ same_part p p' ∧ part_abs p' kv = part_abs p kv
    ∧ (b = true ↔ only_dots (part_abs p kv)).
Proof.
  intros I. destruct (refresh_or_abort_ok p kv I) as (p1 & E & I1 & Hid & Hst & Hbn).
  pose proof (wfm_sorted _ (pi_wf _ _ I1)) as Hs. rewrite Hbn in Hs.
  set (m := part_abs p kv) in *.
  exists (if (2 <? length m)%nat then false else forallb (λ e, is_dot_name (fst e)) m), p1.
  split; [|split; [done|split; [done|split; [by rewrite part_abs_read|]]]].
  - unfold isPartitionEmpty. rewrite (bind_ok _ _ _ _ _ E). unfold this_part. mrun. cbn [fst].
    rewrite Hbn. fold m. by destruct (2 <? length m)%nat.
  - rewrite <-(dots_forallb m Hs). destruct (Nat.ltb_spec 2 (length m)); [|done].
    split; [done|]. intros A%dots_forallb; [|done]. apply dots_length in A; [lia|done].
Qed.

(** ** Properties *)


(** A store with one object: an unread partition over an empty store. *)
Definition part0 : LogFSDirectoryPartition := new_partition 0 1 2.

Lemma new_partition_inv {S} `{KVStore S} (kv : S) pn fs ino :
  0 ≤ pn < 65536 → 0 ≤ fs < 18446744073709551616 → 0 ≤ ino < 18446744073709551616 →
  stored_ok kv fs ino pn → part_inv (new_partition pn fs ino) kv.
Proof.
  intros Hpn Hfs Hino Hst. unfold new_partition. rewrite u16_small by done.
  split; cbn; auto with kvfs; try done.
Qed.

Lemma part0_inv (s : list bool) : part_inv part0 (Flaky ∅ s).
Proof.
  apply new_partition_inv; [lia..|]. intros v. cbn. by rewrite lookup_empty.
Qed.


(** [removeEntry] implements removal from a name map: ENOENT and no change
    for an unbound name; otherwise 0, and the binding (and no other) is gone from the
    object, and from the store when the put succeeded.  The inode number the caller
    passes plays no part.  No other key of the store is touched. *)
Theorem removeEntry_refines {S} `{KVStoreLaws S} p (kv : S) handle name :
  part_inv p kv →
  match sm_find name (part_abs p kv) with
  | None => ∃ p', part_removeEntry handle name (p, kv) = Ok (ENOENT, (p', kv))
      ∧ part_inv p' kv ∧ part_abs p' kv = part_abs p kv
  | Some _ => ∃ b p' kv', part_removeEntry handle name (p, kv) = Ok (0, (p', kv'))
      ∧ part_inv p' kv' ∧ part_abs p' kv' = sm_erase name (part_abs p kv)
      ∧ sm_find name (part_abs p' kv') = None
      ∧ (∀ n, n ≠ name → sm_find n (part_abs p' kv') = sm_find n (part_abs p kv))
      ∧ part_view kv' (dir_ino p) (partitionNumber p) =
          (if (b : bool) then sm_erase name (part_abs p kv)
           else part_view kv (dir_ino p) (partitionNumber p))
      ∧ ∀ k, k ≠ partition_key p → kv_get kv' k = kv_get kv k
  end.
Proof.
  intros I. destruct (sm_find name (part_abs p kv)) eqn:F.
  - destruct (part_removeEntry_found p kv handle name z I F)
      as (b & kv' & p' & E & Ep & I' & _ & Ha & V).
    destruct (part_Refresh_ok p kv I) as (p1 & _ & I1 & _ & _ & Hbn).
    assert (sm_sorted (part_abs p kv)) as Hs by (rewrite <-Hbn; apply (pi_wf _ _ I1)).
    exists b, p', kv'. rewrite !Ha. repeat (split; [done|]).
    split; [by apply sm_find_erase_eq|]. split; [intros; by apply sm_find_erase_ne|].
    split; [done|]. intros k Hk. by eapply kv_put_ne.
  - destruct (part_removeEntry_absent p kv handle name I F) as (p' & ? & ? & ? & ?). eauto.
Qed.

Lemma removeEntry_refines_witness :
  ∃ p', part_removeEntry 7 (lit "a") (part0, Flaky ∅ []) = Ok (ENOENT, (p', Flaky ∅ []))
      ∧ part_inv p' (Flaky ∅ []) ∧ part_abs p' (Flaky ∅ []) = part_abs part0 (Flaky ∅ []).
Proof. apply (removeEntry_refines part0 (Flaky ∅ []) 7 (lit "a") (part0_inv [])). Defined.

(** A binding outlives the object that made it.  When [insertEntry] adds a
    name and its put succeeds, a partition object built later on the same store finds
    exactly the inode that was inserted, and finds every other name as the first
    object did. *)
Theorem inserted_entry_reads_back {S} `{KVStoreLaws S, !KVReliable S} p (kv : S) ino name :
  part_inv p kv → wf_entry (name, ino) → fits (part_abs p kv) name →
  sm_find name (part_abs p kv) = None →
  ∃ p' kv', part_insertEntry ino name (p, kv) = Ok (0, (p', kv'))
    ∧ ∀ n, ∃ q, part_findEntry n
          (new_partition (partitionNumber p) (part_fsId p) (dir_ino p), kv') =
        Ok (if decide (n = name) then ino else default 0 (sm_find n (part_abs p kv)), (q, kv')).
Proof.
  intros I We Hf F.
  destruct (part_insertEntry_new p kv ino name I We Hf F)
    as (b & kv' & p' & E & Ep & I' & (Hpn & Hfs & Hino) & Ha & V).
  exists p', kv'. split; [done|]. intros n.
  pose proof (kv_put_succeeds kv (partition_key p)
    (serialize_map (part_fsId p) (dir_ino p) (partitionNumber p)
       (sm_insert name ino (part_abs p kv)))) as Hb. rewrite Ep in Hb. cbn in Hb. subst b.
  assert (part_inv (new_partition (partitionNumber p) (part_fsId p) (dir_ino p)) kv') as Iq.
  { apply new_partition_inv; [apply I..|]. rewrite <-Hpn, <-Hfs, <-Hino. apply I'. }
  destruct (part_findEntry_ok _ kv' n Iq) as (q & Eq & _). exists q. rewrite Eq. do 3 f_equal.
  unfold part_abs at 1. cbn [new_partition part_state dir_ino partitionNumber].
  rewrite decide_True, (u16_small (partitionNumber p)), V by (done || apply I).
  destruct (decide (n = name)) as [->|Hne].
  - by rewrite sm_find_insert_eq.
  - by rewrite sm_find_insert_ne.
Qed.

Lemma part0_inv_mem : part_inv part0 (∅ : MemStore).
Proof. apply new_partition_inv; [lia..|]. intros v. cbn. by rewrite lookup_empty. Qed.

Lemma inserted_entry_reads_back_witness :
  ∃ p' kv', part_insertEntry 7 (lit "a") (part0, (∅ : MemStore)) = Ok (0, (p', kv'))
    ∧ ∀ n, ∃ q, part_findEntry n
          (new_partition (partitionNumber part0) (part_fsId part0) (dir_ino part0), kv') =
        Ok (if decide (n = lit "a") then 7
            else default 0 (sm_find n (part_abs part0 (∅ : MemStore))), (q, kv')).
Proof.
  apply (inserted_entry_reads_back part0 (∅ : MemStore) 7 (lit "a") part0_inv_mem).
  - split; [split; by apply (bool_decide_unpack _); vm_compute | cbn; lia].
  - reflexivity.
  - reflexivity.
Defined.

(** [listEntries] is a complete and resumable scan.  Given room for [k]
    entries it hands over the first [k] of a fixed sequence [L] of (name, inode, next
    offset) that contains every binding of the partition and nothing else; and a
    second call that starts at the offset of the last entry handed over produces
    exactly the rest of [L], so a sequence of readdir calls loses and repeats
    nothing. *)
Theorem listEntries_resumable {KV} `{KVStoreLaws KV} p (kv : KV) base k :
  part_inv p kv → (∀ n i, sm_find n (part_abs p kv) = Some i → cstr n = n) →
  ∃ p' L,
    (∀ n i, sm_find n (part_abs p kv) = Some i ↔ ∃ o, (n, i, o) ∈ L)
    ∧ listEntries at_fst rec_add base base ((p, kv), (k, [])) =
        Ok (0, ((p', kv), ((k - length L)%nat, take k L)))
    ∧ ∀ n i o k', last (take k L) = Some (n, i, o) →
        ∃ r, listEntries at_fst rec_add o base ((p', kv), (k', [])) =
             Ok (0, ((p', kv), (r, take k' (drop k L)))).
Proof.
  intros I Hn. destruct (listEntries_ok p kv base base k [] I ltac:(lia))
    as (p' & E & I' & Hid & Ha & Hr).
  rewrite Z.sub_diag in E. change (Z.to_nat 0) with 0%nat in E. rewrite drop_0 in E.
  cbn [app] in E. set (L := live_from (part_abs p kv) (entries p') 0 base) in E.
  exists p', L. split; [|split; [done|]].
  - intros n i. split.
    + intros F. destruct (part_Refresh_ok p kv I) as (p1 & E1 & I1 & _ & _ & Hbn).
      rewrite E1 in Hr. injection Hr as <-. rewrite <-(Hn n i F).
      apply live_from_complete; [done|]. apply (pi_vector _ _ I1).
      rewrite Hbn. by apply sm_find_elem.
    + intros [o (name & -> & F & _)%live_from_sound]. by rewrite (Hn name i F).
  - intros n i o k' Hl. rewrite last_lookup in Hl. rewrite length_take in Hl.
    set (j := Init.Nat.pred (k `min` length L)) in Hl.
    destruct k as [|k]; [cbn in Hl; done|].
    assert (j < S k)%nat as Hj by (unfold j; destruct L; cbn; lia).
    rewrite lookup_take_lt in Hl by done.
    destruct (live_from_resume _ _ 0 base j n i o ltac:(lia) Hl) as (H1 & _ & H3).
    destruct (listEntries_ok p' kv o base k' [] I' ltac:(lia)) as (p2 & E2 & _ & _ & _ & Hr2).
    assert (p2 = p') as ->.
    { assert (part_state p' ≠ P_INVALID) as Hv.
      { destruct (part_Refresh_ok p kv I) as (p1 & E1 & _ & _ & Hst & _).
        rewrite E1 in Hr. by injection Hr as <-. }
      unfold part_Refresh, this_part in Hr2. revert Hr2. mrun. cbn [fst].
      rewrite decide_False by done. congruence. }
    rewrite E2, Ha. replace (o - base - 0) with (o - base) in H3 by lia. rewrite H3.
    eexists. do 4 f_equal. cbn [app]. f_equal. unfold L.
    destruct (decide (S k ≤ length L)%nat).
    + replace (S j) with (S k) by (unfold j; lia). done.
    + rewrite !drop_ge; [done|fold L; lia|fold L; unfold j; destruct L; cbn in *; lia].
Qed.

(** A partition with two bindings. *)
Definition part_ab : LogFSDirectoryPartition :=
  MkPart 0 1 2 [(lit "b", 5); (lit "a", 4)] [(lit "a", 4); (lit "b", 5)] P_DIRTY.

Lemma part_ab_inv : part_inv part_ab (∅ : MemStore).
Proof.
  split; cbn; try done; try lia.
  - split.
    + constructor; [|constructor; [|constructor]].
      * intros k' v' [= -> ->]%list_elem_of_singleton. done.
      * intros k' v' E. by apply not_elem_of_nil in E.
    + repeat constructor; cbn; try lia; by apply (bool_decide_unpack _); vm_compute.
    + vm_compute. done.
  - intros e. rewrite !elem_of_cons. tauto.
Qed.

Lemma listEntries_resumable_witness :
  ∃ p' L,
    (∀ n i, sm_find n (part_abs part_ab (∅ : MemStore)) = Some i ↔ ∃ o, (n, i, o) ∈ L)
    ∧ listEntries at_fst rec_add 0 0 ((part_ab, (∅ : MemStore)), (1%nat, [])) =
        Ok (0, ((p', ∅), ((1 - length L)%nat, take 1 L)))
    ∧ ∀ n i o k', last (take 1 L) = Some (n, i, o) →
        ∃ r, listEntries at_fst rec_add o 0 ((p', (∅ : MemStore)), (k', [])) =
             Ok (0, ((p', ∅), (r, take k' (drop 1 L)))).
Proof.
  apply (listEntries_resumable part_ab (∅ : MemStore) 0 1 part_ab_inv).
  intros n i F%sm_find_elem. change (part_abs part_ab (∅ : MemStore))
    with [(lit "a", 4); (lit "b", 5)] in F.
  apply elem_of_cons in F as [[= -> ->]|[= -> ->]%list_elem_of_singleton]; reflexivity.
Defined.

(** [isPartitionEmpty] answers true exactly when every name of the partition
    is "." or "..", and changes nothing in the contents or the store. *)
Theorem isPartitionEmpty_spec {S} `{KVStoreLaws S} p (kv : S) :
  part_inv p kv →
  ∃ b p', isPartitionEmpty (p, kv) = Ok (b, (p', kv))
    ∧ part_inv p' kv ∧ part_abs p' kv = part_abs p kv
    ∧ (b = true ↔ ∀ n i, sm_find n (part_abs p kv) = Some i → n = lit "." ∨ n = lit "..").
Proof.
  intros (b & p' & E & I & _ & Ha & Hb)%isPartitionEmpty_ok. by exists b, p'.
Qed.

Lemma isPartitionEmpty_spec_witness :
  ∃ b p', isPartitionEmpty (part_ab, (∅ : MemStore)) = Ok (b, (p', ∅))
    ∧ part_inv p' (∅ : MemStore) ∧ part_abs p' (∅ : MemStore) = part_abs part_ab (∅ : MemStore)
    ∧ (b = true ↔ ∀ n i, sm_find n (part_abs part_ab (∅ : MemStore)) = Some i →
        n = lit "." ∨ n = lit "..").
Proof. apply (isPartitionEmpty_spec part_ab (∅ : MemStore) part_ab_inv). Defined.

(** The stored format cannot carry the separator '|': after a name of the
    form [a|b] (with a short [b]) is inserted, successfully, into an empty
    partition, reading the partition back runs the parser off the end of the
    buffer. *)
Theorem pipe_in_name_breaks_partition (a b : bytes) (ino : Z) :
  wf_name a → (length a ≤ 255)%nat → (length b < 7)%nat →
  0 ≤ ino < 18446744073709551616 →
  ∃ p' kv', part_insertEntry ino (a ++ null_termination :: b) (part0, (∅ : MemStore))
      = Ok (0, (p', kv'))
    ∧ part_findEntry a (part0, kv') = Crash UndefinedBehaviour.
Proof.
  intros Ha Hla Hb Hino.
  set (name := a ++ null_termination :: b).
  set (v := serialize_map 1 2 0 [(name, ino)]).
  exists (MkPart 0 1 2 [(name, ino)] [(name, ino)] P_CLEAN), {[ sub_key 2 0 := v ]}.
  split; [reflexivity|].
  assert (Deserialize v part0 = Crash UndefinedBehaviour) as D.
  { unfold Deserialize. rewrite (proj2 (Nat.ltb_ge _ _))
      by (unfold v; rewrite serialize_map_length; unfold header_size; lia).
    change (slice 0 8 v) with (le_bytes 8 1). change (slice 8 8 v) with (le_bytes 8 2).
    change (slice 16 2 v) with (le_bytes 2 0).
    mrun. change (dir_ino part0 =? le_val (le_bytes 8 2)) with true.
    cbn [part_fsId partitionNumber dir_ino]. rewrite !Z.eqb_refl. cbn [negb orb].
    replace (drop header_size v) with
      (serialize_entry (a, ino) ++ (b ++ [null_termination])).
    2:{ unfold v. rewrite serialize_map_drop, entries_bytes_cons. unfold entries_bytes. cbn [fmap concat].
        unfold serialize_entry, name. cbn. rewrite app_nil_r, <-!app_assoc. done. }
    assert (length v = 18 + 9 + length a + (length b + 1))%nat as Hv.
    { unfold v. rewrite serialize_map_length, entries_bytes_cons, length_app, serialize_entry_length.
      unfold name. cbn [fst]. rewrite length_app. cbn. lia. }
    replace (u32 _) with (9 + Z.of_nat (length a) + Z.of_nat (length b + 1))
      by (rewrite Hv, u32_small by (unfold header_size; lia); unfold header_size; lia).
    cbn [app length]. rewrite length_app, serialize_entry_length. cbn [fst Nat.add].
    rewrite parse_entries_step by (done || lia).
    replace (u32 _) with (Z.of_nat (length b + 1)) by (rewrite u32_small; lia).
    cbn [parse_entries]. rewrite (proj2 (Z.eqb_neq _ _)) by lia.
    by rewrite (proj2 (Nat.ltb_lt _ _)) by (rewrite length_app; cbn; lia). }
  unfold part_findEntry, refresh_or_abort, part_Refresh, this_part, part_readFromLog. mrun.
  cbn [fst part0 new_partition part_state]. rewrite decide_True by done.
  change (kv_get _ _) with (({[ sub_key 2 0 := v ]} : MemStore) !! sub_key 2 0).
  rewrite lookup_singleton, decide_True by done. unfold on_part.
  change {| partitionNumber := _ |} with part0. by rewrite D.
Qed.

Lemma pipe_in_name_breaks_partition_witness :
  ∃ p' kv', part_insertEntry 7 (lit "a" ++ null_termination :: lit "b") (part0, (∅ : MemStore))
      = Ok (0, (p', kv'))
    ∧ part_findEntry (lit "a") (part0, kv') = Crash UndefinedBehaviour.
Proof.
  apply (pipe_in_name_breaks_partition (lit "a") (lit "b") 7).
  - split; by apply (bool_decide_unpack _); vm_compute.
  - apply (bool_decide_unpack _). vm_compute. done.
  - apply (bool_decide_unpack _). vm_compute. done.
  - lia.
Defined.

(** The entries a listing shows after running [m] on a new partition. *)
Definition listing_after {A} (m : M (LogFSDirectoryPartition * MemStore) A)
    : option (list (bytes * Z * Z)) :=
  match m (part0, ∅) with
  | Ok (_, st) =>
      match listEntries at_fst rec_add 0 0 (st, (10%nat, [])) with
      | Ok (_, (_, (_, out))) => Some out
      | Crash _ => None
      end
  | Crash _ => None
  end.

(** a name that is inserted, removed and inserted again with the same inode
    is listed twice, because the vector keeps the first entry and the check against
    the map cannot tell the two apart. *)
Theorem relink_lists_twice :
  listing_after (part_insertEntry 7 (lit "a");; part_removeEntry 7 (lit "a");;
                 part_insertEntry 7 (lit "a"))
  = Some [(lit "a", 7, 1); (lit "a", 7, 2)].
Proof. vm_compute. reflexivity. Qed.
