(* ===== verification/File.v ===== *)
(** * Files and directories (src/KVFSFile.h, src/KVFSFile.cc, src/KVFSObject.h)

    [LogFSFile] is the object behind every inode, regular file or directory.  The
    methods that touch one object run on that object, the key-value store and the
    clock; the methods that touch two (create, link, remove, the dot entries) run on
    a heap of objects, because their arguments may alias ([createRoot] passes the
    root as its own parent).

    Integers follow the C++ types: [off_t] values are kept in Z with the conversions
    to and from the unsigned types written out ([i64], [u64], [u32]); division of
    [off_t] is [Z.quot]. *)

From Stdlib Require Import ZArith Lia Strings.String.
From stdpp Require Import base list gmap.
From S2P Require Import Prelude Status Mode SortedMap KVStore MetaData Partition.

(** ** Data *)

(** The members of LogFSFile and of its base LogFSObject.  [_partitions] is null
    until a partition is used. *)
Record LogFSFile := MkFile {
  fsId : Z;
  handle : Z;
  nameString : bytes;
  meta : LogFSMetaData;
  fmode : Z;
  metaDirty : bool;
  data_hold_count : Z;
  partitions : option (list (option LogFSDirectoryPartition));
}.

(** The constructor. *)
Definition new_LogFSFile (fs : Z) (name : bytes) (h modeInput initialSize chunkSize : Z)
    : LogFSFile :=
  MkFile fs h name (new_meta initialSize chunkSize) modeInput false 0 None.

(** [struct stat], without the nanosecond fields (their uses are compiled out). *)
Record stat_t := MkStat {
  st_dev : Z; st_ino : Z; st_mode : Z; st_nlink : Z; st_uid : Z; st_gid : Z;
  st_rdev : Z; st_size : Z; st_blksize : Z; st_blocks : Z;
  st_atime : Z; st_mtime : Z; st_ctime : Z;
}.

(** What the file layer uses of a TieredInFile: [fstat] on its descriptor (the
    size, [None] on error), the inode number it was opened for, and [pread]
    ([None] for -1). *)
Record TieredFile := MkTiered {
  tf_fstat : option Z;
  tf_ino : Z;
  tf_pread : Z → Z → option bytes;
}.

(** The process around the file system: [time()] (the result of the n-th call), the
    effective ids, the hash of third-party CityHash, and [TieringInAgent::Open]. *)
Class FsEnv := {
  env_time : nat → Z;
  env_uid : Z;
  env_gid : Z;
  CityHash64 : bytes → Z;
  tier_Open : Z → Z → option TieredFile;
}.

Definition XID_MAX : Z := 9223372036854775807.

(** Member assignments. *)
Definition set_meta (m : LogFSMetaData) (f : LogFSFile) : LogFSFile :=
  MkFile (fsId f) (handle f) (nameString f) m (fmode f) (metaDirty f) (data_hold_count f)
    (partitions f).
Definition set_metaDirty (b : bool) (f : LogFSFile) : LogFSFile :=
  MkFile (fsId f) (handle f) (nameString f) (meta f) (fmode f) b (data_hold_count f)
    (partitions f).
Definition set_fmode (m : Z) (f : LogFSFile) : LogFSFile :=
  MkFile (fsId f) (handle f) (nameString f) (meta f) m (metaDirty f) (data_hold_count f)
    (partitions f).
Definition set_hold (n : Z) (f : LogFSFile) : LogFSFile :=
  MkFile (fsId f) (handle f) (nameString f) (meta f) (fmode f) (metaDirty f) n (partitions f).
Definition set_parts (ps : option (list (option LogFSDirectoryPartition))) (f : LogFSFile) :=
  MkFile (fsId f) (handle f) (nameString f) (meta f) (fmode f) (metaDirty f)
    (data_hold_count f) ps.

Section File.
Context {S : Type} `{KVStore S} `{FsEnv}.

(** The state a one-object method runs on. *)
Record FState := mkFS { f_this : LogFSFile; f_kv : S; f_clock : nat }.

Abbreviation FM := (M FState).

Definition this : FM LogFSFile := gets f_this.
Definition set_this (f : LogFSFile) : FM unit := modify (λ s, mkFS f (f_kv s) (f_clock s)).
Definition upd (g : LogFSFile → LogFSFile) : FM unit :=
  modify (λ s, mkFS (g (f_this s)) (f_kv s) (f_clock s)).
Definition upd_meta (g : LogFSMetaData → LogFSMetaData) : FM unit :=
  upd (λ f, set_meta (g (meta f)) f).

(** [time((time_t* )nullptr)]. *)
Definition time : FM Z := λ s,
  Ok (env_time (f_clock s), mkFS (f_this s) (f_kv s) (Datatypes.S (f_clock s))).

(** Calls on [kvstore]. *)
Definition fget (k : bytes) : FM (option bytes) := gets (λ s, kv_get (f_kv s) k).
Definition fput (k v : bytes) : FM bool := λ s,
  let '(b, kv') := kv_put (f_kv s) k v in Ok (b, mkFS (f_this s) kv' (f_clock s)).
Definition fremove (k : bytes) : FM bool := λ s,
  let '(b, kv') := kv_remove (f_kv s) k in Ok (b, mkFS (f_this s) kv' (f_clock s)).

(** ** Metadata *)

Definition UpdateMTime (t : Z) : FM Z := upd_meta (set_mtime (u32 t));; mret t.
Definition UpdateCTime (t : Z) : FM Z := upd_meta (set_ctime (u32 t));; mret t.
Definition UpdateATime (t : Z) : FM Z := upd_meta (set_atime (u32 t));; mret t.

(** [setProtectionFromMode]. *)
Definition file_setProtectionFromMode : FM unit :=
  f ← this; upd_meta (set_protection (SetProtectionFromMode (fmode f))).

(** [initMeta]: a new inode, with no links yet. *)
Definition initMeta : FM unit :=
  f ← this;
  upd_meta (λ m, set_type (setTypeFromMode (fmode f) (meta_type m)) m);;
  file_setProtectionFromMode;;
  upd_meta (init_fields (fsId f) (handle f) env_uid env_gid);;
  upd_meta (set_nLink 0);;
  t ← time;
  upd_meta (λ m, set_mtime (u32 t) (set_atime (u32 t) (set_ctime (u32 t) m))).

Definition writeToLog : FM Status :=
  f ← this;
  ok ← fput (inode_key (handle f)) (encode_meta (meta f));
  mret (if (ok : bool) then STATUS_OK else STATUS_INTERNAL_ERROR).

(** [readFromLog]: the stored bytes, or STATUS_OBJECT_DOESNT_EXIST. *)
Definition readFromLog : FM (option bytes) :=
  f ← this; fget (inode_key (handle f)).

(** The cast of the stored bytes to LogFSMetaData: reading bytes that are not a
    LogFSMetaData is undefined. *)
Definition as_meta (b : bytes) : FM LogFSMetaData :=
  match decode_meta b with
  | Some m => mret m
  | None => crash_with UndefinedBehaviour
  end.

Definition NLinkAdjust (n : Z) : FM unit :=
  upd_meta (λ m, set_nLink (u32 (meta_nLink m + n)) m).

(** [open]: load the stored metadata. *)
Definition open : FM bool :=
  r ← readFromLog;
  match r with
  | None => mret false
  | Some b =>
      m ← as_meta b; f ← this;
      cassert ((meta_fsId m =? fsId f) && (meta_handle m =? handle f));;
      upd_meta (λ _, m);;
      mret true
  end.

(** [stat]: loads the metadata and fills the buffer the caller passes. *)
Definition stat (statBuff : stat_t) : FM (Status * stat_t) :=
  r ← readFromLog;
  match r with
  | None => mret (STATUS_OBJECT_DOESNT_EXIST, statBuff)
  | Some b =>
      m ← as_meta b; f ← this;
      if negb (meta_fsId m =? fsId f) || negb (meta_handle m =? handle f)
      then mret (STATUS_OBJECT_DOESNT_EXIST, statBuff)
      else
        upd_meta (λ _, m);;
        mret (STATUS_OK,
              {| st_dev := meta_devId m; st_ino := meta_handle m;
                 st_mode := ModeFromMeta (meta_type m) (meta_protection m);
                 st_nlink := meta_nLink m; st_uid := meta_userId m; st_gid := meta_groupId m;
                 st_rdev := meta_rDev m; st_size := i64 (meta_fileTotalSize m);
                 st_blksize := meta_fileChunkSize m;
                 st_blocks := i64 (meta_fileTotalSize m / 512);
                 st_atime := meta_atime m; st_mtime := meta_mtime m; st_ctime := meta_ctime m |})
  end.

(** [SetAttr]: nothing is written to the store. *)
Definition SetAttr (new_attr : stat_t) : FM Status :=
  r ← readFromLog;
  match r with
  | None => mret STATUS_OBJECT_DOESNT_EXIST
  | Some b =>
      m ← as_meta b; f ← this;
      if negb (meta_fsId m =? fsId f) || negb (meta_handle m =? handle f)
         || negb (st_ino new_attr =? handle f)
      then mret STATUS_OBJECT_DOESNT_EXIST
      else
        upd_meta (λ _, m);;
        upd_meta (λ m, set_nLink (u32 (st_nlink new_attr)) m);;
        upd_meta (λ m, set_owner (st_uid new_attr) (st_gid new_attr) m);;
        upd_meta (λ m, set_amtimes (u32 (st_atime new_attr)) (u32 (st_mtime new_attr)) m);;
        f ← this;
        (if negb (fmode f =? st_mode new_attr)
         then upd (set_fmode (st_mode new_attr));; file_setProtectionFromMode
         else mret tt);;
        mret STATUS_OK
  end.

(** [flush]. *)
Definition flush : FM Status :=
  f ← this;
  if negb (handle f =? meta_handle (meta f)) then mret STATUS_INTERNAL_ERROR
  else
    ok ← fput (inode_key (handle f)) (encode_meta (meta f));
    if (ok : bool) then upd (set_metaDirty false);; mret STATUS_OK
    else mret STATUS_INTERNAL_ERROR.

(** [access]: EACCES through [pError] and STATUS_INVALID_PARAMETER when denied. *)
Definition access (mode userId groupId : Z) : FM (Status * option Z) :=
  f ← this;
  let p := meta_protection (meta f) in
  let ok :=
    if userId =? meta_userId (meta f) then access_class mode (owner p)
    else if groupId =? meta_groupId (meta f) then access_class mode (group p)
    else access_class mode (other p) in
  mret (if ok : bool then (STATUS_OK, None) else (STATUS_INVALID_PARAMETER, Some EACCES)).

Definition chmod (mode : Z) : FM Status :=
  upd (set_fmode mode);; file_setProtectionFromMode;; flush.

Definition chown (userId groupId : Z) : FM Status :=
  upd_meta (set_owner userId groupId);; flush.

Definition exists_ : FM bool :=
  r ← readFromLog;
  match r with
  | None => mret false
  | Some b =>
      m ← as_meta b; f ← this;
      mret ((meta_fsId m =? fsId f) && (meta_handle m =? handle f))
  end.

Definition RemoveInodeFromKvs : FM unit :=
  f ← this; fremove (inode_key (handle f));; mret tt.

(** ** File data *)

(** The loop of [read], from chunk [chunk] on, [n] chunks left: the offset, the
    remaining length, and the bytes stored through [readBuffer] so far. *)
Fixpoint read_loop (kv : S) (h init cs : Z) (n : nat) (chunk offset length_ : Z) (out : bytes)
    : res (Z * bytes) :=
  match n with
  | O => Ok (length_, out)
  | Datatypes.S n =>
      let chunk_base_off := init + chunk * cs in
      let value := default [] (kv_get kv (sub_key h chunk)) in
      if offset <? chunk_base_off then Crash ExpectFailed
      else
        let chunk_off := offset - chunk_base_off in
        let avail_bytes := i64 (Z.of_nat (length value) - chunk_off) in
        let copy_bytes := Z.min avail_bytes (i64 length_) in
        let '(offset, length_, out) :=
          if 0 <? copy_bytes
          then (offset + copy_bytes, u64 (length_ - copy_bytes),
                out ++ slice (Z.to_nat chunk_off) (Z.to_nat copy_bytes) value)
          else (offset, length_, out) in
        let '(offset, length_, out) :=
          if 0 <? length_
          then let zero_bytes := Z.min length_ (u64 (chunk_base_off + cs - offset)) in
               (offset + zero_bytes, u64 (length_ - zero_bytes),
                out ++ replicate (Z.to_nat zero_bytes) Byte.x00)
          else (offset, length_, out) in
        read_loop kv h init cs n (chunk + 1) offset length_ out
  end.

(** The body of the loop of [write]: the value to put for one chunk. *)
Definition write_chunk (old : bytes) (chunk_off chunk_end : Z) (data : bytes) : bytes :=
  let value := if Z.of_nat (length old) <? chunk_end
               then resize (Z.to_nat chunk_end) Byte.x00 old else old in
  splice (Z.to_nat chunk_off) data value.

(** The loop of [write]: [buf] is what is left of [write_buf], its length the
    remaining [length].  The result is the status and the final offset. *)
Fixpoint write_loop (h init cs total : Z) (n : nat) (chunk offset : Z) (buf : bytes)
    : FM (Status * Z) :=
  match n with
  | O => mret (STATUS_OK, offset)
  | Datatypes.S n =>
      let length_ := Z.of_nat (length buf) in
      let chunk_base_off := init + chunk * cs in
      EXPECT (chunk_base_off <=? offset);;
      let chunk_off := offset - chunk_base_off in
      let do_get :=
        if chunk_off =? 0
        then if cs <=? length_ then false
             else if offset =? i64 total then false else true
        else true in
      value ← (if do_get : bool then r ← fget (sub_key h chunk); mret (default [] r)
               else mret []);
      let chunk_end_off := Z.min (offset + length_) (chunk_base_off + cs) in
      let copy_bytes := chunk_end_off - offset in
      if 0 <? copy_bytes then
        ok ← fput (sub_key h chunk)
               (write_chunk value chunk_off (chunk_end_off - chunk_base_off)
                  (take (Z.to_nat copy_bytes) buf));
        if (ok : bool)
        then write_loop h init cs total n (chunk + 1) (offset + copy_bytes)
               (drop (Z.to_nat copy_bytes) buf)
        else mret (STATUS_INTERNAL_ERROR, offset)
      else write_loop h init cs total n (chunk + 1) offset buf
  end.

(** The number of turns of [for (chunk = first; chunk <= last; chunk++)]. *)
Definition loop_count (first last : Z) : nat := Z.to_nat (last - first + 1).

(** [off_t / uint32_t]. *)
Definition off_div (a b : Z) : FM Z :=
  if b =? 0 then crash_with UndefinedBehaviour else mret (Z.quot a b).

(** [write]: the status and [*actualLen].  A null buffer is [None]. *)
Definition write (offset : Z) (write_buf : option bytes) (update_meta : bool) : FM (Status * Z) :=
  match write_buf with
  | None => mret (STATUS_OK, 0)
  | Some buf =>
      f ← this;
      let m := meta f in
      let init := meta_fileInitialSize m in
      let cs := meta_fileChunkSize m in
      first_chunk ← off_div (offset - init) cs;
      let end_off := offset + Z.of_nat (length buf) in
      last_chunk ← off_div (end_off - 1 - init) cs;
      '(status, offset') ← write_loop (handle f) init cs (meta_fileTotalSize m)
          (loop_count first_chunk last_chunk) first_chunk offset buf;
      let actualLen := u64 (offset' - offset) in
      if decide (status = STATUS_OK) then
        if update_meta then
          (if i64 (meta_fileTotalSize m) <? offset'
           then upd_meta (set_size (u64 offset')) else mret tt);;
          t ← time; UpdateMTime t;;
          t ← time; UpdateCTime t;;
          upd (set_metaDirty true);;
          status ← flush;
          if decide (status = STATUS_OK)
          then upd (set_metaDirty false);; mret (status, actualLen)
          else mret (status, actualLen)
        else if i64 (meta_fileTotalSize m) <? offset' then crash_with FatalLog
        else mret (status, actualLen)
      else mret (status, actualLen)
  end.

(** The loop of [UnEvict]: read up to 8192 bytes, write them, until nothing is
    read.  A failed pread is size_t(-1), which overruns the buffer. *)
Fixpoint unevict_loop (fuel : nat) (tf : TieredFile) (offset : Z) : FM (Status * Z) :=
  match fuel with
  | O => crash_with OutOfFuel
  | Datatypes.S fuel =>
      match tf_pread tf offset 8192 with
      | None => crash_with UndefinedBehaviour
      | Some [] => mret (STATUS_OK, offset)
      | Some buf =>
          '(write_status, bytes_written) ← write offset (Some buf) false;
          if decide (write_status = STATUS_OK) then
            cassert (bytes_written =? Z.of_nat (length buf));;
            unevict_loop fuel tf (offset + Z.of_nat (length buf))
          else mret (write_status, offset)
      end
  end.

(** [UnEvict]: the loop runs at most once per byte of the tiered file, and once
    more to see its end. *)
Definition UnEvict : FM Status :=
  f ← this;
  match tier_Open (meta_handle (meta f)) XID_MAX with
  | None => mret STATUS_OBJECT_DOESNT_EXIST
  | Some tf =>
      match tf_fstat tf with
      | None => crash_with UndefinedBehaviour
      | Some size =>
          cassert (tf_ino tf =? meta_handle (meta f));;
          cassert (i64 (meta_fileTotalSize (meta f)) =? size);;
          '(status, offset) ← unevict_loop (Datatypes.S (Z.to_nat size)) tf 0;
          if decide (status = STATUS_OK) then
            cassert (offset =? size);;
            upd_meta (set_evictionState ES_RESIDENT);;
            flush;;
            mret status
          else mret status
      end
  end.

Definition HoldData : FM unit :=
  upd (λ f, set_hold (data_hold_count f + 1) f);;
  f ← this;
  if decide (meta_evictionState (meta f) = ES_RESIDENT) then mret tt
  else
    cassert (bool_decide (meta_evictionState (meta f) = ES_DATA_EVICTED));;
    UnEvict;; mret tt.

Definition ReleaseData : FM unit := upd (λ f, set_hold (data_hold_count f - 1) f).

(** [read]: the status, [*actualLen] and the bytes stored through [readBuffer];
    [readBuffer] says whether the pointer is non-null. *)
Definition read (offset length_ : Z) (readBuffer : bool) : FM (Status * Z * bytes) :=
  if negb readBuffer then mret (STATUS_OK, 0, [])
  else
    f ← this;
    let total := meta_fileTotalSize (meta f) in
    let length_ := if i64 total <? offset + i64 length_ then u64 (total - offset) else length_ in
    let orig_length := length_ in
    HoldData;;
    f ← this;
    let init := meta_fileInitialSize (meta f) in
    let cs := meta_fileChunkSize (meta f) in
    '(length_, out) ←
      (if init <? length_ then
         first_chunk ← off_div (offset - init) cs;
         let last_byte_off := offset + i64 (u64 (length_ - 1 - init)) in
         last_chunk ← off_div last_byte_off cs;
         kv ← gets f_kv;
         match read_loop kv (handle f) init cs (loop_count first_chunk last_chunk)
                 first_chunk offset length_ [] with
         | Ok r => mret r
         | Crash c => crash_with c
         end
       else mret (length_, []));
    ReleaseData;;
    mret (STATUS_OK, u64 (orig_length - length_), out).

(** The loop of [ResizeData]. *)
Fixpoint resize_loop (h new_size init cs first_chunk : Z) (n : nat) (chunk : Z)
    (status : Status) : FM Status :=
  match n with
  | O => mret status
  | Datatypes.S n =>
      let chunk_base_off := init + chunk * cs in
      let chunk_off := new_size - chunk_base_off in
      let key := sub_key h chunk in
      status ←
        (if (chunk =? first_chunk) && (0 <? chunk_off) && (chunk_off <? cs) then
           r ← fget key;
           match r with
           | Some value =>
               if chunk_off <? Z.of_nat (length value) then
                 ok ← fput key (resize (Z.to_nat chunk_off) Byte.x00 value);
                 mret (if (ok : bool) then status else STATUS_INTERNAL_ERROR)
               else mret status
           | None => mret status
           end
         else fremove key;; mret status);
      resize_loop h new_size init cs first_chunk n (chunk + 1) status
  end.

(** [ResizeData]: drops or shortens the chunks past [new_size]. *)
Definition ResizeData (new_size old_size cs init : Z) : FM Status :=
  if new_size <? old_size then
    f ← this;
    first_chunk ← off_div (new_size - init) cs;
    let last_byte := old_size - 1 in
    cassert (0 <=? last_byte);;
    last_chunk ← off_div (last_byte - init) cs;
    resize_loop (handle f) new_size init cs first_chunk
      (loop_count first_chunk last_chunk) first_chunk STATUS_OK
  else mret STATUS_OK.

Definition SetSize (new_size : Z) : FM Status :=
  ok ← open;
  if negb ok then mret STATUS_INTERNAL_ERROR
  else
    f ← this;
    let m := meta f in
    let old_size := i64 (meta_fileTotalSize m) in
    status ← ResizeData new_size old_size (meta_fileChunkSize m) (meta_fileInitialSize m);
    if decide (status = STATUS_OK) then
      upd_meta (set_size (u64 new_size));;
      t ← time;
      upd_meta (λ m, set_mtime (u32 t) (set_ctime (u32 t) m));;
      upd (set_metaDirty true);;
      status ← flush;
      (if decide (status = STATUS_OK) then upd (set_metaDirty false) else mret tt);;
      mret status
    else mret status.

(** [close]: an inode without links is deleted. *)
Definition close : FM Status :=
  f ← this;
  (if meta_nLink (meta f) <=? 0 then SetSize 0;; RemoveInodeFromKvs else mret tt);;
  mret STATUS_OK.

(** [Evict]: the data chunks go, the inode stays and is marked. *)
Definition stat_zero : stat_t := MkStat 0 0 0 0 0 0 0 0 0 0 0 0 0.

Definition Evict : FM Status :=
  '(status, st) ← stat stat_zero;
  if decide (status = STATUS_OK) then
    f ← this;
    status ← ResizeData 0 (st_size st) (meta_fileChunkSize (meta f))
               (meta_fileInitialSize (meta f));
    upd (set_metaDirty true);;
    upd_meta (set_evictionState ES_DATA_EVICTED);;
    flush;;
    mret status
  else mret status.

End File.

Arguments FState S : clear implicits.
Arguments mkFS {S} _ _ _.
