(* ===== verification/FileData.v ===== *)
(** * Reading, writing and resizing file data

    The contents of a file are a function from byte offsets to bytes, spread over
    chunks of [fileChunkSize] bytes stored under "ino.chunk"; a missing chunk or a
    short one reads as zeros.  The theorems relate [read], [write], [SetSize],
    [Evict] and [UnEvict] to that function. *)

From Stdlib Require Import ZArith Lia Strings.String.
From stdpp Require Import base list gmap.
From S2P Require Import Prelude Status Mode KVStore MetaData Partition File.

(** ** Specification *)

(** The largest offset: [off_t] is 64 bits, signed. *)
Definition OFF_MAX : Z := 9223372036854775807.

Definition chunk_byte (v : option bytes) (j : Z) : byte :=
  default Byte.x00 (default [] v !! Z.to_nat j).

(** The byte at offset [i] of the file with inode number [h]. *)
Definition file_byte {S} `{KVStore S} (kv : S) (h cs i : Z) : byte :=
  chunk_byte (kv_get kv (sub_key h (i / cs))) (i mod cs).

Definition file_bytes {S} `{KVStore S} (kv : S) (h cs off : Z) (n : nat) : bytes :=
  (λ k, file_byte kv h cs (off + Z.of_nat k)) <$> seq 0 n.

(** No stored chunk is longer than the chunk size. *)
Definition chunks_ok {S} `{KVStore S} (kv : S) (h cs : Z) : Prop :=
  ∀ c v, 0 ≤ c < OFF_MAX → kv_get kv (sub_key h c) = Some v → Z.of_nat (length v) ≤ cs.

(** Nothing but zeros from [size] on. *)
Definition eof_clean {S} `{KVStore S} (kv : S) (h cs size : Z) : Prop :=
  ∀ i, size ≤ i < OFF_MAX → file_byte kv h cs i = Byte.x00.

(** No chunk is stored from [size] on. *)
Definition no_tail {S} `{KVStore S} (kv : S) (h cs size : Z) : Prop :=
  ∀ c, 0 ≤ c < OFF_MAX → size ≤ c * cs → kv_get kv (sub_key h c) = None.

(** Keys that are not data chunks (or directory partitions) of inode [h] read the
    same in both stores. *)
Definition only_chunks {S} `{KVStore S} (h : Z) (kv kv' : S) : Prop :=
  ∀ k, (∀ c, 0 ≤ c < OFF_MAX → k ≠ sub_key h c) → kv_get kv' k = kv_get kv k.

(** The same, but for the inode record of [h] too. *)
Definition only_file {S} `{KVStore S} (h : Z) (kv kv' : S) : Prop :=
  ∀ k, k ≠ inode_key h → (∀ c, 0 ≤ c < OFF_MAX → k ≠ sub_key h c) → kv_get kv' k = kv_get kv k.

(** [kv'] is [kv] with [data] written at [offset] of file [h], and nothing else. *)
Record wrote {S} `{KVStore S} (h cs : Z) (kv kv' : S) (offset : Z) (data : bytes) : Prop := {
  wrote_bytes i : 0 ≤ i < OFF_MAX →
    file_byte kv' h cs i =
      if decide (offset ≤ i < offset + Z.of_nat (length data))
      then default Byte.x00 (data !! Z.to_nat (i - offset)) else file_byte kv h cs i;
  wrote_only : only_chunks h kv kv';
  wrote_tail c : 0 ≤ c < OFF_MAX → offset + Z.of_nat (length data) ≤ c * cs →
    kv_get kv' (sub_key h c) = kv_get kv (sub_key h c);
  wrote_chunks : chunks_ok kv' h cs;
}.

(** [kv'] is [kv] with the bytes of file [h] from [lo] up to [hi] gone. *)
Record cut {S} `{KVStore S} (h cs : Z) (kv kv' : S) (lo hi : Z) : Prop := {
  cut_bytes i : 0 ≤ i < OFF_MAX →
    file_byte kv' h cs i = if decide (lo ≤ i < hi) then Byte.x00 else file_byte kv h cs i;
  cut_only : only_chunks h kv kv';
  cut_gone c : 0 ≤ c < OFF_MAX → lo ≤ c * cs < hi → kv_get kv' (sub_key h c) = None;
  cut_none c : 0 ≤ c < OFF_MAX → kv_get kv (sub_key h c) = None → kv_get kv' (sub_key h c) = None;
  cut_chunks : chunks_ok kv' h cs;
}.

(** The sizes for which no [off_t] computation overflows. *)
Definition MAX_SIZE : Z := 4611686018427387904.

(** The invariant of a file object over the store: the cached metadata is well
    formed and names this inode, the inode holds no data of its own
    ([fileInitialSize] 0), no chunk is too long and there is nothing past the end. *)
Record file_inv {S} `{KVStore S} (f : LogFSFile) (kv : S) : Prop := {
  fi_wf : wf_meta (meta f);
  fi_handle : meta_handle (meta f) = handle f;
  fi_fs : meta_fsId (meta f) = fsId f;
  fi_init : meta_fileInitialSize (meta f) = 0;
  fi_cs : 0 < meta_fileChunkSize (meta f);
  fi_total : meta_fileTotalSize (meta f) ≤ MAX_SIZE;
  fi_chunks : chunks_ok kv (handle f) (meta_fileChunkSize (meta f));
  fi_eof : eof_clean kv (handle f) (meta_fileChunkSize (meta f)) (meta_fileTotalSize (meta f));
}.

(** The byte at offset [i] of the file object [f]. *)
Definition fbyte {S} `{KVStore S} (f : LogFSFile) (kv : S) (i : Z) : byte :=
  file_byte kv (handle f) (meta_fileChunkSize (meta f)) i.

(** ** Lemmas: chunks *)

Lemma write_chunk_length old co ce data :
  0 ≤ co → ce = co + Z.of_nat (length data) →
  Z.of_nat (length (write_chunk old co ce data)) = Z.max (Z.of_nat (length old)) ce.
Proof.
  intros Hco ->. unfold write_chunk.
  destruct (Z.ltb_spec (Z.of_nat (length old)) (co + Z.of_nat (length data))).
  - rewrite splice_length; rewrite length_resize; lia.
  - rewrite splice_length; lia.
Qed.

Lemma resize_byte n (l : bytes) j :
  (length l ≤ n)%nat →
  default Byte.x00 (resize n Byte.x00 l !! j) = default Byte.x00 (l !! j).
Proof.
  intros Hn. destruct (decide (j < length l)%nat) as [Hj|Hj].
  - by rewrite lookup_resize by lia.
  - rewrite (lookup_ge_None_2 l) by lia. destruct (decide (j < n)%nat).
    + by rewrite lookup_resize_new by lia.
    + by rewrite lookup_resize_old by lia.
Qed.

Lemma write_chunk_lookup old co ce data j :
  0 ≤ co → ce = co + Z.of_nat (length data) → 0 ≤ j →
  chunk_byte (Some (write_chunk old co ce data)) j =
    if decide (co ≤ j < ce) then default Byte.x00 (data !! Z.to_nat (j - co))
    else chunk_byte (Some old) j.
Proof.
  intros Hco -> Hj. unfold chunk_byte, write_chunk. cbn [default from_option id].
  set (v := if _ <? _ then _ else _).
  assert (∀ j, default Byte.x00 (v !! j) = default Byte.x00 (old !! j)) as Hv.
  { intros j'. unfold v. destruct (Z.ltb_spec (Z.of_nat (length old)) (co + Z.of_nat (length data)));
      [|done]. apply resize_byte. lia. }
  assert (Z.to_nat co ≤ length v)%nat.
  { unfold v. destruct (Z.ltb_spec (Z.of_nat (length old)) (co + Z.of_nat (length data)));
      [rewrite length_resize|]; lia. }
  rewrite splice_lookup by done.
  destruct (decide (co ≤ j < co + Z.of_nat (length data))).
  - rewrite decide_False, decide_True by lia. do 2 f_equal. lia.
  - destruct (decide (Z.to_nat j < Z.to_nat co)%nat); [apply Hv|].
    rewrite decide_False by lia. apply Hv.
Qed.

Section Data.
Context {S : Type} `{KVStoreLaws S}.
Implicit Types (kv : S).

Lemma file_byte_at kv h cs c j :
  0 < cs → 0 ≤ j < cs → file_byte kv h cs (c * cs + j) = chunk_byte (kv_get kv (sub_key h c)) j.
Proof.
  intros Hcs Hj. unfold file_byte.
  rewrite Z.add_comm, Z.div_add, Z.div_small, Z_mod_plus_full, Z.mod_small by lia. done.
Qed.

Lemma chunk_of_offset cs i : 0 < cs → 0 ≤ i < OFF_MAX → 0 ≤ i / cs < OFF_MAX.
Proof.
  intros. pose proof (Z.div_pos i cs). split; [lia|].
  apply Z.div_lt_upper_bound; nia.
Qed.

Lemma file_bytes_length kv h cs off n : length (file_bytes kv h cs off n) = n.
Proof. unfold file_bytes. by rewrite length_fmap, length_seq. Qed.

Lemma file_bytes_lookup kv h cs off n k :
  (k < n)%nat → file_bytes kv h cs off n !! k = Some (file_byte kv h cs (off + Z.of_nat k)).
Proof.
  intros Hk. unfold file_bytes. rewrite list_lookup_fmap, lookup_seq_lt by done. done.
Qed.

Lemma file_bytes_app kv h cs off n m :
  file_bytes kv h cs off (n + m) =
  file_bytes kv h cs off n ++ file_bytes kv h cs (off + Z.of_nat n) m.
Proof.
  apply list_eq. intros k. destruct (decide (k < n + m)%nat) as [Hk|Hk].
  - rewrite file_bytes_lookup by done. destruct (decide (k < n)%nat).
    + rewrite lookup_app_l by (rewrite file_bytes_length; lia). by rewrite file_bytes_lookup.
    + rewrite lookup_app_r by (rewrite file_bytes_length; lia). rewrite file_bytes_length.
      rewrite file_bytes_lookup by lia. do 2 f_equal. lia.
  - rewrite !lookup_ge_None_2; [done|..]; rewrite ?length_app, !file_bytes_length; lia.
Qed.

Lemma file_bytes_ext kv kv' h h' cs off n :
  (∀ i, off ≤ i < off + Z.of_nat n → file_byte kv h cs i = file_byte kv' h' cs i) →
  file_bytes kv h cs off n = file_bytes kv' h' cs off n.
Proof.
  intros E. unfold file_bytes. apply list_fmap_ext. intros k x [-> Hk]%lookup_seq. apply E. lia.
Qed.

(** Copying from one chunk and padding with zeros reads the file. *)
Lemma chunk_copy kv h cs c co n z :
  0 < cs → 0 ≤ co → co + Z.of_nat (n + z) ≤ cs →
  let v := default [] (kv_get kv (sub_key h c)) in
  (n = 0 ∨ Z.to_nat co + n ≤ length v)%nat → (z = 0 ∨ length v ≤ Z.to_nat co + n)%nat →
  slice (Z.to_nat co) n v ++ replicate z Byte.x00 = file_bytes kv h cs (c * cs + co) (n + z).
Proof.
  intros Hcs Hco Hn v Hv1 Hv2.
  assert (length (slice (Z.to_nat co) n v) = n) as Hl.
  { destruct Hv1 as [->|]; [done|]. by apply slice_length. }
  apply list_eq. intros k. destruct (decide (k < n + z)%nat) as [Hk|Hk].
  2:{ rewrite !lookup_ge_None_2; [done|..]; rewrite ?length_app, ?length_replicate, ?Hl,
        ?file_bytes_length; lia. }
  rewrite file_bytes_lookup, <-Z.add_assoc, file_byte_at by lia.
  unfold chunk_byte. fold v. replace (Z.to_nat (co + Z.of_nat k)) with (Z.to_nat co + k)%nat by lia.
  destruct (decide (k < n)%nat).
  - rewrite lookup_app_l, slice_lookup, decide_True by lia.
    destruct (lookup_lt_is_Some_2 v (Z.to_nat co + k)) as [b ->]; [lia|done].
  - rewrite lookup_app_r, Hl, lookup_replicate_2 by lia.
    rewrite (lookup_ge_None_2 v) by lia. done.
Qed.

(** ** Lemmas: the read loop *)

Lemma read_loop_step kv h cs n chunk offset len out :
  0 < cs → chunks_ok kv h cs → 0 ≤ chunk → (chunk + 1) * cs ≤ OFF_MAX →
  chunk * cs ≤ offset < (chunk + 1) * cs → 0 < len ≤ OFF_MAX →
  let k := Z.min len ((chunk + 1) * cs - offset) in
  read_loop kv h 0 cs (Datatypes.S n) chunk offset len out =
  read_loop kv h 0 cs n (chunk + 1) (offset + k) (len - k)
    (out ++ file_bytes kv h cs offset (Z.to_nat k)).
Proof.
  intros Hcs Hok Hc Hm Ho Hl k. unfold OFF_MAX in Hm, Hl. cbn [read_loop]. rewrite Z.add_0_l.
  rewrite (proj2 (Z.ltb_ge _ _)) by lia.
  set (v := default [] (kv_get kv (sub_key h chunk))). set (co := offset - chunk * cs).
  assert (Z.of_nat (length v) ≤ cs) as Hv.
  { unfold v. destruct (kv_get kv (sub_key h chunk)) as [w|] eqn:E; [|cbn; lia].
    apply (Hok chunk w); [unfold OFF_MAX; nia|done]. }
  assert (0 ≤ co < cs ∧ offset = chunk * cs + co) as [Hco Eo] by (unfold co; lia).
  clearbody co. subst offset.
  rewrite !i64_small by nia.
  set (copy := Z.min (Z.of_nat (length v) - co) len).
  assert (∀ a z, 0 ≤ a → 0 ≤ z → a + z = k → (a = 0 ∨ a = copy ∧ 0 < copy) →
    (z = 0 ∨ Z.of_nat (length v) ≤ co + a) →
    out ++ file_bytes kv h cs (chunk * cs + co) (Z.to_nat k) =
    (out ++ slice (Z.to_nat co) (Z.to_nat a) v) ++ replicate (Z.to_nat z) Byte.x00) as Piece.
  { intros a z Ha Hz Hk H1 H2. rewrite <-app_assoc. f_equal.
    replace (Z.to_nat k) with (Z.to_nat a + Z.to_nat z)%nat by lia. symmetry.
    apply chunk_copy; [lia|lia|lia|fold v; lia|fold v; lia]. }
  destruct (Z.ltb_spec 0 copy) as [Hcp|Hcp].
  - rewrite (u64_small (len - copy)) by lia.
    destruct (Z.ltb_spec 0 (len - copy)).
    + rewrite (u64_small (chunk * cs + cs - (chunk * cs + co + copy))) by lia.
      rewrite (Piece copy (k - copy)) by lia.
      replace (Z.min (len - copy) _) with (k - copy) by lia. rewrite u64_small by lia.
      f_equal; lia.
    + rewrite (Piece copy 0) by lia. rewrite app_nil_r. f_equal; lia.
  - rewrite (proj2 (Z.ltb_lt _ _)) by lia.
    rewrite (u64_small (chunk * cs + cs - (chunk * cs + co))) by lia.
    rewrite (Piece 0 k) by lia. replace (Z.min len _) with k by lia.
    rewrite u64_small by lia. rewrite app_nil_r. f_equal; lia.
Qed.

Lemma read_loop_ok kv h cs n chunk offset len out :
  0 < cs → chunks_ok kv h cs → 0 ≤ chunk → (chunk + Z.of_nat n) * cs ≤ OFF_MAX →
  match n with
  | O => len = 0
  | Datatypes.S n' => chunk * cs ≤ offset < (chunk + 1) * cs ∧ 0 < len ∧
      (chunk + Z.of_nat n') * cs < offset + len ≤ (chunk + Z.of_nat n' + 1) * cs
  end →
  read_loop kv h 0 cs n chunk offset len out =
    Ok (0, out ++ file_bytes kv h cs offset (Z.to_nat len)).
Proof.
  intros Hcs Hok. revert chunk offset len out.
  induction n as [|n IH]; intros chunk offset len out Hc Hm Hn.
  - subst len. cbn. by rewrite app_nil_r.
  - destruct Hn as (Ho & Hl & He). unfold OFF_MAX in Hm.
    assert (0 ≤ chunk * cs ∧ 0 ≤ Z.of_nat n * cs) as [? ?] by nia.
    rewrite read_loop_step by (done || unfold OFF_MAX; lia).
    set (k := Z.min len ((chunk + 1) * cs - offset)).
    rewrite IH; [|lia|unfold OFF_MAX; lia|].
    + replace (Z.to_nat len) with (Z.to_nat k + Z.to_nat (len - k))%nat by lia.
      rewrite file_bytes_app, Z2Nat.id by lia. by rewrite app_assoc.
    + destruct n as [|n]; [lia|]. assert (0 ≤ Z.of_nat n * cs) by nia. lia.
Qed.

(** ** Lemmas: the write loop *)

Lemma wrote_nil h cs kv kv' offset :
  chunks_ok kv h cs → (∀ k, kv_get kv' k = kv_get kv k) → wrote h cs kv kv' offset [].
Proof.
  intros Hok E. split.
  - intros i _. rewrite decide_False by (cbn; lia). unfold file_byte. by rewrite E.
  - intros k _. apply E.
  - intros c _ _. apply E.
  - intros c v Hc. rewrite E. by apply Hok.
Qed.

Lemma wrote_app h cs kv kv1 kv2 offset d1 d2 :
  wrote h cs kv kv1 offset d1 → wrote h cs kv1 kv2 (offset + Z.of_nat (length d1)) d2 →
  wrote h cs kv kv2 offset (d1 ++ d2).
Proof.
  intros W1 W2. split.
  - intros i Hi. rewrite (wrote_bytes _ _ _ _ _ _ W2), (wrote_bytes _ _ _ _ _ _ W1) by done.
    rewrite length_app. destruct (decide (offset ≤ i < offset + Z.of_nat (length d1))) as [H1|H1].
    + rewrite decide_False, decide_True by lia. by rewrite lookup_app_l by lia.
    + destruct (decide (offset + Z.of_nat (length d1) ≤ i < _)) as [H2|H2].
      * rewrite decide_True, lookup_app_r by lia. do 2 f_equal. lia.
      * by rewrite decide_False by lia.
  - intros k Hk. by rewrite (wrote_only _ _ _ _ _ _ W2), (wrote_only _ _ _ _ _ _ W1).
  - intros c Hc Hl. rewrite length_app in Hl.
    rewrite (wrote_tail _ _ _ _ _ _ W2), (wrote_tail _ _ _ _ _ _ W1) by lia. done.
  - apply W2.
Qed.

Lemma put_chunk h cs kv kv' chunk co value data :
  0 < cs → chunks_ok kv h cs → 0 ≤ chunk → (chunk + 1) * cs ≤ OFF_MAX →
  0 ≤ co → 0 < Z.of_nat (length data) → co + Z.of_nat (length data) ≤ cs → Z.of_nat (length value) ≤ cs →
  (∀ j, 0 ≤ j < cs → ¬ (co ≤ j < co + Z.of_nat (length data)) →
     chunk_byte (Some value) j = chunk_byte (kv_get kv (sub_key h chunk)) j) →
  kv_put kv (sub_key h chunk) (write_chunk value co (co + Z.of_nat (length data)) data)
    = (true, kv') →
  wrote h cs kv kv' (chunk * cs + co) data.
Proof.
  intros Hcs Hok Hc Hm Hco Hpos Hce Hvl Hv E.
  assert (0 ≤ chunk * cs ∧ chunk < OFF_MAX) as [Hcc Hcm] by (unfold OFF_MAX in *; nia).
  assert (∀ c, 0 ≤ c < OFF_MAX → c ≠ chunk →
    kv_get kv' (sub_key h c) = kv_get kv (sub_key h c)) as Hother.
  { intros c Hcr Hne. eapply kv_put_ne; [done|]. unfold OFF_MAX in *. apply sub_key_ne; lia. }
  split.
  - intros i Hi. pose proof (chunk_of_offset cs i Hcs Hi) as Hci.
    pose proof (Z.mod_pos_bound i cs Hcs) as Hj. pose proof (Z.div_mod i cs ltac:(lia)) as Ei.
    set (c := i / cs) in *. set (j := i mod cs) in *. rewrite Z.mul_comm in Ei.
    rewrite Ei, !file_byte_at by lia.
    destruct (decide (c = chunk)) as [->|Hne].
    + rewrite (kv_put_eq _ _ _ _ E), write_chunk_lookup by lia.
      destruct (decide (co ≤ j < _)) as [Hin|Hout].
      * rewrite decide_True by lia. do 2 f_equal. lia.
      * rewrite decide_False by lia. by apply Hv.
    + rewrite decide_False by nia. by rewrite Hother.
  - intros k Hk. eapply kv_put_ne; [done|]. apply not_eq_sym, Hk. lia.
  - intros c Hcr Hl. apply Hother; [done|]. intros ->. lia.
  - intros c v Hcr. destruct (decide (c = chunk)) as [->|Hne].
    + rewrite (kv_put_eq _ _ _ _ E). intros [= <-]. rewrite write_chunk_length by lia. lia.
    + rewrite Hother by done. by apply Hok.
Qed.

(** The value the loop starts from agrees with the stored chunk outside the range
    it overwrites, also when it skips the [get]. *)
Lemma do_get_skip_ok h cs kv chunk co total len :
  0 < cs → chunks_ok kv h cs → 0 ≤ chunk → (chunk + 1) * cs ≤ OFF_MAX → 0 ≤ co < cs → 0 < len →
  0 ≤ total < OFF_MAX →
  eof_clean kv h cs (Z.max total (chunk * cs + co)) →
  let do_get :=
    if co =? 0
    then if cs <=? len then false else if chunk * cs + co =? i64 total then false else true
    else true in
  let value := if do_get : bool then default [] (kv_get kv (sub_key h chunk)) else [] in
  Z.of_nat (length value) ≤ cs ∧
  ∀ j, 0 ≤ j < cs → ¬ (co ≤ j < co + Z.min len (cs - co)) →
    chunk_byte (Some value) j = chunk_byte (kv_get kv (sub_key h chunk)) j.
Proof.
  intros Hcs Hok Hc Hm Hco Hl Ht Heof.
  assert (chunk < OFF_MAX) by (unfold OFF_MAX in *; nia).
  assert (Z.of_nat (length (default [] (kv_get kv (sub_key h chunk)))) ≤ cs) as Hvl.
  { destruct (kv_get kv (sub_key h chunk)) as [w|] eqn:E; [|cbn; lia]. by apply (Hok chunk w). }
  assert (∀ j, chunk_byte (Some (default [] (kv_get kv (sub_key h chunk)))) j =
    chunk_byte (kv_get kv (sub_key h chunk)) j) as Hsame.
  { intros j. unfold chunk_byte. by destruct (kv_get kv (sub_key h chunk)). }
  destruct (Z.eqb_spec co 0) as [->|]; [|done].
  destruct (Z.leb_spec cs len); [split; [cbn; lia|intros; lia]|].
  rewrite i64_small by (unfold OFF_MAX in *; lia).
  destruct (Z.eqb_spec (chunk * cs + 0) total); [|done].
  split; [cbn; lia|]. intros j Hj Hout. rewrite <-(file_byte_at kv h cs chunk j) by done.
  rewrite Heof; [done|]. unfold OFF_MAX in *. lia.
Qed.

Lemma eof_clean_wrote h cs kv kv' offset data total :
  wrote h cs kv kv' offset data → eof_clean kv h cs (Z.max total offset) → 0 ≤ total →
  eof_clean kv' h cs (Z.max total (offset + Z.of_nat (length data))).
Proof.
  intros W He Ht i Hi. rewrite (wrote_bytes _ _ _ _ _ _ W) by lia.
  rewrite decide_False by lia. apply He. lia.
Qed.

(** Every update of this store succeeds. *)
Definition reliable : Prop := ∀ kv k v, (kv_put kv k v).1 = true.

(** One turn of the loop, when there is something to write: the chunk gets the bytes
    that fall in it, or the put fails and the loop ends there. *)
Lemma write_loop_step `{FsEnv} f clk h cs total n chunk co buf kv :
  let cp := Z.min (Z.of_nat (length buf)) (cs - co) in
  0 < cs → 0 ≤ total < OFF_MAX → 0 ≤ chunk → (chunk + 1) * cs ≤ OFF_MAX → 0 ≤ co < cs → buf ≠ [] →
  chunks_ok kv h cs → eof_clean kv h cs (Z.max total (chunk * cs + co)) →
  ∃ b kv1, write_loop h 0 cs total (Datatypes.S n) chunk (chunk * cs + co) buf (mkFS f kv clk) =
    (if b : bool
     then write_loop h 0 cs total n (chunk + 1) (chunk * cs + co + cp) (drop (Z.to_nat cp) buf)
            (mkFS f kv1 clk)
     else Ok ((STATUS_INTERNAL_ERROR, chunk * cs + co), mkFS f kv1 clk))
    ∧ if b then wrote h cs kv kv1 (chunk * cs + co) (take (Z.to_nat cp) buf)
      else wrote h cs kv kv1 (chunk * cs + co) [] ∧ ¬ reliable.
Proof.
  intros cp Hcs Ht Hc Hm Hco Hbuf Hok He. cbn [write_loop]. rewrite Z.add_0_l.
  replace (chunk * cs + co - chunk * cs) with co by lia.
  set (len := Z.of_nat (length buf)) in *.
  assert (0 < len) as Hlen by (unfold len; destruct buf; [done|cbn; lia]).
  destruct (do_get_skip_ok h cs kv chunk co total len) as [Hvl Hv]; [done..|].
  set (do_get := if co =? 0 then _ else true) in *.
  set (value := if do_get : bool then _ else _) in *.
  replace (Z.min (chunk * cs + co + len) (chunk * cs + cs) - chunk * cs)
    with (co + cp) by lia.
  replace (Z.min (chunk * cs + co + len) (chunk * cs + cs) - (chunk * cs + co))
    with cp by lia.
  set (data := take (Z.to_nat cp) buf).
  assert (Z.of_nat (length data) = cp) as Hd by (unfold data; rewrite length_take; lia).
  destruct (kv_put kv (sub_key h chunk) (write_chunk value co (co + cp) data)) as [b kv1] eqn:E.
  rewrite (bind_ok _ _ _ tt (mkFS f kv clk)) by (apply EXPECT_true, Z.leb_le; lia).
  rewrite (bind_ok _ _ _ value (mkFS f kv clk)) by (unfold value, fget; by destruct do_get).
  rewrite (proj2 (Z.ltb_lt _ _)) by lia.
  rewrite (bind_ok _ _ _ b (mkFS f kv1 clk)) by (unfold fput; cbn [f_kv]; by rewrite E).
  exists b, kv1. destruct b; (split; [done|]).
  - apply (put_chunk h cs kv kv1 chunk co value data); rewrite ?Hd; [done..|lia|lia|lia|done|done|done].
  - split; [apply wrote_nil; [done|]; apply (kv_put_fail _ _ _ _ E)|].
    intros R. specialize (R kv (sub_key h chunk) (write_chunk value co (co + cp) data)).
    by rewrite E in R.
Qed.

(** A last turn with nothing left to write. *)
Lemma write_loop_idle `{FsEnv} f clk h cs total chunk offset kv :
  chunk * cs ≤ offset →
  write_loop h 0 cs total 1 chunk offset [] (mkFS f kv clk) = Ok ((STATUS_OK, offset), mkFS f kv clk).
Proof.
  intros Ho. cbn [write_loop]. rewrite Z.add_0_l.
  rewrite (bind_ok _ _ _ tt (mkFS f kv clk)) by (apply EXPECT_true, Z.leb_le; lia).
  set (do_get := if offset - chunk * cs =? 0 then _ else true).
  rewrite (bind_ok _ _ _ (if do_get : bool then default [] (kv_get kv (sub_key h chunk)) else [])
    (mkFS f kv clk)) by (unfold fget; by destruct do_get).
  by rewrite (proj2 (Z.ltb_ge _ _)) by (cbn [length]; lia).
Qed.

Lemma write_loop_ok `{FsEnv} f clk h cs total n chunk offset buf kv :
  0 < cs → 0 ≤ total < OFF_MAX → 0 ≤ chunk → (chunk + Z.of_nat n) * cs ≤ OFF_MAX →
  chunks_ok kv h cs → eof_clean kv h cs (Z.max total offset) →
  match n with
  | O => buf = []
  | Datatypes.S n' => chunk * cs ≤ offset < (chunk + 1) * cs ∧
      offset + Z.of_nat (length buf) ≤ (chunk + Z.of_nat n' + 1) * cs ∧
      (n' = 0%nat ∨ (chunk + Z.of_nat n') * cs < offset + Z.of_nat (length buf))
  end →
  ∃ st k kv', write_loop h 0 cs total n chunk offset buf (mkFS f kv clk) =
      Ok ((st, offset + Z.of_nat k), mkFS f kv' clk)
    ∧ (k ≤ length buf)%nat ∧ wrote h cs kv kv' offset (take k buf)
    ∧ (st = STATUS_OK ∧ k = length buf ∨ st = STATUS_INTERNAL_ERROR ∧ (k < length buf)%nat ∧ ¬ reliable).
Proof.
  intros Hcs Ht. revert chunk offset buf kv.
  induction n as [|n IH]; intros chunk offset buf kv Hc Hm Hok He Hn.
  { subst buf. exists STATUS_OK, 0%nat, kv. rewrite Z.add_0_r.
    split; [done|]. split; [cbn; lia|]. split; [by apply wrote_nil|by left]. }
  destruct Hn as (Ho & Hend & Hn).
  destruct (decide (buf = [])) as [->|Hbuf].
  { assert (n = 0%nat) as -> by (destruct Hn; [done|cbn in *; nia]). exists STATUS_OK, 0%nat, kv.
    split; [|split; [cbn; lia|split; [by apply wrote_nil|by left]]].
    rewrite write_loop_idle by lia. by rewrite Z.add_0_r. }
  assert (∃ co, 0 ≤ co < cs ∧ offset = chunk * cs + co) as (co & Hco & ->)
    by (exists (offset - chunk * cs); lia).
  assert (0 ≤ Z.of_nat n * cs) as Hnc by nia.
  destruct (write_loop_step f clk h cs total n chunk co buf kv) as (b & kv1 & -> & Hb);
    [done|done|done|nia|done|done|done|done|].
  set (cp := Z.min _ _) in *. destruct b.
  - set (data := take _ buf) in *.
    assert (0 < length buf)%nat by (destruct buf; [done|cbn; lia]).
    assert (Z.of_nat (length data) = cp) as Hd by (unfold data; rewrite length_take; lia).
    pose proof (eof_clean_wrote _ _ _ _ _ _ total Hb He ltac:(lia)) as He1. rewrite Hd in He1.
    destruct (IH (chunk + 1) (chunk * cs + co + cp) (drop (Z.to_nat cp) buf) kv1)
      as (st & k & kv' & Ew & Hk & W & Hst); [lia|lia|apply Hb|done|..].
    { destruct n as [|n]; [apply drop_ge; lia|].
      assert (0 ≤ Z.of_nat n * cs) by nia. rewrite length_drop. lia. }
    exists st, (Z.to_nat cp + k)%nat, kv'. rewrite length_drop in Hk, Hst.
    split; [rewrite Ew; do 3 f_equal; lia|]. split; [lia|]. split.
    + rewrite <-(take_drop (Z.to_nat cp) buf) at 1. fold data.
      rewrite take_app_ge by lia. replace (Z.to_nat cp + k - length data)%nat with k by lia.
      apply (wrote_app _ _ _ kv1); [done|]. by rewrite Hd.
    + destruct Hst as [[-> ->]|(-> & Hk1 & ?)]; [left|right]; (split; [done|]); [lia|split; [lia|done]].
  - exists STATUS_INTERNAL_ERROR, 0%nat, kv1. rewrite Z.add_0_r. destruct Hb as [W R].
    split; [done|]. split; [lia|]. split; [done|]. right. split; [done|]. split; [|done].
    destruct buf; [done|cbn; lia].
Qed.

(** The loop bounds [write] computes cover exactly the bytes to write. *)
Lemma write_bounds cs offset len :
  0 < cs < 4294967296 → 0 ≤ offset → 0 ≤ len → offset + len ≤ MAX_SIZE →
  let first := Z.quot offset cs in
  let n := loop_count first (Z.quot (offset + len - 1) cs) in
  0 ≤ first ∧ (first + Z.of_nat n) * cs ≤ OFF_MAX ∧
  match n with
  | O => len = 0
  | Datatypes.S n' => first * cs ≤ offset < (first + 1) * cs ∧
      offset + len ≤ (first + Z.of_nat n' + 1) * cs ∧
      (n' = 0%nat ∨ (first + Z.of_nat n') * cs < offset + len)
  end.
Proof.
  unfold MAX_SIZE, OFF_MAX, loop_count. intros Hcs Ho Hl Hm. cbn zeta.
  rewrite (Z.quot_div_nonneg offset) by lia.
  pose proof (Z.div_mod offset cs ltac:(lia)) as Eo.
  pose proof (Z.mod_pos_bound offset cs ltac:(lia)) as Ro.
  pose proof (Z.div_pos offset cs ltac:(lia) ltac:(lia)).
  set (q := offset / cs) in *. set (r := offset mod cs) in *.
  destruct (decide (offset + len = 0)) as [E0|E0].
  - assert (q = 0 ∧ r = 0 ∧ len = 0) as (-> & -> & ->) by nia.
    replace (offset + 0 - 1) with (- (1)) by lia. rewrite Z.quot_opp_l by lia.
    rewrite Z.quot_div_nonneg by lia. destruct (decide (cs = 1)) as [->|].
    + change (Z.to_nat (- (1 / 1) - 0 + 1)) with 0%nat. lia.
    + rewrite Z.div_small by lia. change (Z.to_nat (- 0 - 0 + 1)) with 1%nat.
      change (Z.of_nat 1) with 1. split; [lia|]. split; [lia|]. repeat split; try lia.
  - rewrite Z.quot_div_nonneg by lia.
    pose proof (Z.div_mod (offset + len - 1) cs ltac:(lia)) as El.
    pose proof (Z.mod_pos_bound (offset + len - 1) cs ltac:(lia)) as Rl.
    set (l := (offset + len - 1) / cs) in *. set (r' := (offset + len - 1) mod cs) in *.
    assert (q - 1 ≤ l) by nia.
    destruct (Z.to_nat (l - q + 1)) as [|n] eqn:En.
    + assert (l = q - 1) as -> by lia. nia.
    + assert (Z.of_nat n = l - q) as -> by lia.
      replace (Z.of_nat (Datatypes.S n)) with (l - q + 1) by lia. nia.
Qed.

Lemma read_bounds cs offset len :
  0 < cs < 4294967296 → 0 ≤ offset → 0 < len → offset + len ≤ MAX_SIZE →
  let first := Z.quot offset cs in
  let n := loop_count first (Z.quot (offset + len - 1) cs) in
  0 ≤ first ∧ (first + Z.of_nat n) * cs ≤ OFF_MAX ∧
  match n with
  | O => len = 0
  | Datatypes.S n' => first * cs ≤ offset < (first + 1) * cs ∧ 0 < len ∧
      (first + Z.of_nat n') * cs < offset + len ≤ (first + Z.of_nat n' + 1) * cs
  end.
Proof.
  intros Hcs Ho Hl Hm.
  destruct (write_bounds cs offset len Hcs Ho ltac:(lia) Hm) as (H1 & H2 & H3).
  split; [done|]. split; [done|]. destruct (loop_count _ _); [done|].
  destruct H3 as (H3 & H4 & [->|H5]); repeat split; try lia.
Qed.

(** ** Lemmas: the methods *)

(** An update of the inode record leaves the data alone. *)
Lemma inode_put_byte kv kv' h v b cs i :
  kv_put kv (inode_key h) v = (b, kv') → file_byte kv' h cs i = file_byte kv h cs i.
Proof.
  intros E. unfold file_byte.
  by rewrite (kv_put_ne _ _ _ _ _ (sub_key h (i / cs)) E) by apply inode_sub_key.
Qed.

Lemma inode_put_chunks kv kv' h v b cs :
  kv_put kv (inode_key h) v = (b, kv') → chunks_ok kv h cs → chunks_ok kv' h cs.
Proof.
  intros E Hok c w Hc. rewrite (kv_put_ne _ _ _ _ _ (sub_key h c) E) by apply inode_sub_key.
  by apply Hok.
Qed.

(** The invariant depends on the store only through the data bytes. *)
Lemma file_inv_meta f f' kv kv' :
  wf_meta (meta f') → meta_handle (meta f') = handle f' → meta_fsId (meta f') = fsId f' →
  meta_fileInitialSize (meta f') = 0 →
  handle f' = handle f → meta_fileChunkSize (meta f') = meta_fileChunkSize (meta f) →
  0 < meta_fileChunkSize (meta f) → meta_fileTotalSize (meta f') ≤ MAX_SIZE →
  chunks_ok kv' (handle f) (meta_fileChunkSize (meta f)) →
  eof_clean kv' (handle f) (meta_fileChunkSize (meta f)) (meta_fileTotalSize (meta f')) →
  file_inv f' kv'.
Proof. intros ???? Hh Hc ????. split; rewrite ?Hh, ?Hc; (done || congruence). Qed.

Context `{FsEnv}.

Lemma flush_ok f kv clk :
  meta_handle (meta f) = handle f →
  ∃ b kv', kv_put kv (inode_key (handle f)) (encode_meta (meta f)) = (b, kv')
    ∧ flush (mkFS f kv clk) =
      Ok (if b then STATUS_OK else STATUS_INTERNAL_ERROR,
          mkFS (if b then set_metaDirty false f else f) kv' clk).
Proof.
  intros Hh. destruct (kv_put kv (inode_key (handle f)) (encode_meta (meta f))) as [b kv'] eqn:E.
  exists b, kv'. split; [done|]. unfold flush, this, upd, fput. mrun. cbn [f_this f_kv f_clock].
  rewrite Hh, Z.eqb_refl. cbn [negb f_this f_kv f_clock]. rewrite E. by destruct b.
Qed.

(** The metadata [write] leaves behind after writing up to [e]. *)
Definition written_meta (m : LogFSMetaData) (e : Z) (clk : nat) : LogFSMetaData :=
  let m := if i64 (meta_fileTotalSize m) <? e then set_size (u64 e) m else m in
  set_ctime (u32 (env_time (Datatypes.S clk))) (set_mtime (u32 (env_time clk)) m).

Lemma written_meta_wf m e clk : wf_meta m → wf_meta (written_meta m e clk).
Proof.
  intros W. unfold written_meta. pose proof (u64_range e).
  pose proof (u32_range (env_time clk)). pose proof (u32_range (env_time (Datatypes.S clk))).
  destruct (_ <? _); destruct W; by split.
Qed.

Lemma written_meta_fields f kv clk e :
  file_inv f kv → 0 ≤ e ≤ MAX_SIZE →
  let m' := written_meta (meta f) e clk in
  meta_handle m' = handle f ∧ meta_fsId m' = fsId f ∧ meta_fileInitialSize m' = 0 ∧
  meta_fileChunkSize m' = meta_fileChunkSize (meta f) ∧
  meta_evictionState m' = meta_evictionState (meta f) ∧
  meta_fileTotalSize m' = Z.max (meta_fileTotalSize (meta f)) e.
Proof.
  intros I He. pose proof (fi_total _ _ I). pose proof (wf_fileTotalSize _ (fi_wf _ _ I)).
  unfold written_meta. rewrite i64_small by (unfold MAX_SIZE in *; lia). cbn zeta.
  destruct (Z.ltb_spec (meta_fileTotalSize (meta f)) e); cbn; repeat split; try apply I.
  - rewrite u64_small by (unfold MAX_SIZE in *; lia). lia.
  - lia.
Qed.

Lemma write_data_ok f kv clk offset buf :
  file_inv f kv → 0 ≤ offset → offset + Z.of_nat (length buf) ≤ MAX_SIZE →
  let cs := meta_fileChunkSize (meta f) in
  let first := Z.quot offset cs in
  let last := Z.quot (offset + Z.of_nat (length buf) - 1) cs in
  ∃ st k kv', write_loop (handle f) 0 cs (meta_fileTotalSize (meta f)) (loop_count first last)
        first offset buf (mkFS f kv clk) = Ok ((st, offset + Z.of_nat k), mkFS f kv' clk)
    ∧ (k ≤ length buf)%nat ∧ wrote (handle f) cs kv kv' offset (take k buf)
    ∧ (st = STATUS_OK ∧ k = length buf
       ∨ st = STATUS_INTERNAL_ERROR ∧ (k < length buf)%nat ∧ ¬ reliable).
Proof.
  intros I Ho Hm cs first last.
  pose proof (fi_cs _ _ I). pose proof (wf_fileChunkSize _ (fi_wf _ _ I)).
  pose proof (wf_fileTotalSize _ (fi_wf _ _ I)). pose proof (fi_total _ _ I).
  destruct (write_bounds cs offset (Z.of_nat (length buf))) as (B1 & B2 & B3);
    [unfold cs; lia|lia|lia|lia|].
  apply write_loop_ok; [done|unfold OFF_MAX, MAX_SIZE in *; lia|done|done|apply I|..].
  - intros i Hi. apply (fi_eof _ _ I). lia.
  - unfold first, last. destruct (loop_count _ _); [|exact B3].
    destruct buf; [done|cbn in B3; lia].
Qed.

Lemma write_ok f kv clk offset buf :
  file_inv f kv → 0 ≤ offset → offset + Z.of_nat (length buf) ≤ MAX_SIZE →
  let cs := meta_fileChunkSize (meta f) in
  (∃ k kv', write offset (Some buf) true (mkFS f kv clk) =
        Ok ((STATUS_INTERNAL_ERROR, Z.of_nat k), mkFS f kv' clk)
      ∧ (k < length buf)%nat ∧ wrote (handle f) cs kv kv' offset (take k buf) ∧ ¬ reliable)
  ∨ (∃ (b : bool) kv1 kv', write offset (Some buf) true (mkFS f kv clk) =
        Ok ((if b then STATUS_OK else STATUS_INTERNAL_ERROR, Z.of_nat (length buf)),
            mkFS (set_metaDirty (negb b) (set_meta (written_meta (meta f)
                    (offset + Z.of_nat (length buf)) clk) f)) kv'
                 (Datatypes.S (Datatypes.S clk)))
      ∧ wrote (handle f) cs kv kv1 offset buf
      ∧ kv_put kv1 (inode_key (handle f))
          (encode_meta (written_meta (meta f) (offset + Z.of_nat (length buf)) clk)) = (b, kv')).
Proof.
  intros I Ho Hm cs.
  destruct (write_data_ok f kv clk offset buf I Ho Hm) as (st & k & kv1 & E & Hk & W & Hst).
  fold cs in E, W. pose proof (fi_cs _ _ I).
  assert (∀ a, off_div a cs (mkFS f kv clk) = Ok (Z.quot a cs, mkFS f kv clk)) as Hdiv.
  { intros a. unfold off_div. rewrite (proj2 (Z.eqb_neq _ _)) by (unfold cs; lia). done. }
  assert (write offset (Some buf) true (mkFS f kv clk) =
    (let actualLen := u64 (offset + Z.of_nat k - offset) in
     if decide (st = STATUS_OK) then
       (if i64 (meta_fileTotalSize (meta f)) <? offset + Z.of_nat k
        then upd_meta (set_size (u64 (offset + Z.of_nat k))) else mret tt);;
       t ← time; UpdateMTime t;; t ← time; UpdateCTime t;;
       upd (set_metaDirty true);;
       status ← flush;
       if decide (status = STATUS_OK)
       then upd (set_metaDirty false);; mret (status, actualLen)
       else mret (status, actualLen)
     else mret (st, actualLen)) (mkFS f kv1 clk)) as ->.
  { unfold write, this. rewrite (bind_ok _ _ _ f (mkFS f kv clk)) by done.
    rewrite (fi_init _ _ I), !Z.sub_0_r. fold cs.
    rewrite (bind_ok _ _ _ _ _ (Hdiv _)), (bind_ok _ _ _ _ _ (Hdiv _)).
    by rewrite (bind_ok _ _ _ _ _ E). }
  cbn zeta. replace (offset + Z.of_nat k - offset) with (Z.of_nat k) by lia.
  rewrite u64_small by (unfold MAX_SIZE in *; lia).
  destruct Hst as [[-> ->]|(-> & Hlt & Hr)]; [right|left; eauto 10].
  rewrite decide_True by done. rewrite firstn_all in W.
  set (f1 := set_metaDirty true (set_meta (written_meta (meta f)
              (offset + Z.of_nat (length buf)) clk) f)).
  destruct (flush_ok f1 kv1 (Datatypes.S (Datatypes.S clk))) as (b & kv' & Ep & Ef).
  { unfold f1, written_meta. cbn. destruct (_ <? _); apply I. }
  exists b, kv1, kv'. split; [|done].
  assert (∀ K : M (FState S) (Status * Z),
    ((if i64 (meta_fileTotalSize (meta f)) <? offset + Z.of_nat (length buf)
      then upd_meta (set_size (u64 (offset + Z.of_nat (length buf)))) else mret tt);;
     t ← time; UpdateMTime t;; t ← time; UpdateCTime t;; upd (set_metaDirty true);; K)
      (mkFS f kv1 clk) = K (mkFS f1 kv1 (Datatypes.S (Datatypes.S clk)))) as Hpre.
  { intros K. unfold f1, written_meta, time, UpdateMTime, UpdateCTime, upd_meta, upd.
    destruct (_ <? _); reflexivity. }
  rewrite Hpre, (bind_ok _ _ _ _ _ Ef). by destruct b.
Qed.

(** [read] is [HoldData], then the bytes of the store it leaves. *)
Lemma read_after_hold f kv clk f1 kv1 clk1 offset len :
  HoldData (mkFS f kv clk) = Ok (tt, mkFS f1 kv1 clk1) →
  file_inv f1 kv1 → meta_fileTotalSize (meta f1) = meta_fileTotalSize (meta f) →
  0 ≤ offset ≤ meta_fileTotalSize (meta f) → 0 ≤ len ≤ MAX_SIZE →
  let n := Z.min len (meta_fileTotalSize (meta f) - offset) in
  read offset len true (mkFS f kv clk) =
    Ok ((STATUS_OK, n,
         file_bytes kv1 (handle f1) (meta_fileChunkSize (meta f1)) offset (Z.to_nat n)),
        mkFS (set_hold (data_hold_count f1 - 1) f1) kv1 clk1).
Proof.
  intros Hh I Et Ho Hl n. set (total := meta_fileTotalSize (meta f)) in *.
  pose proof (fi_cs _ _ I) as Hcs. pose proof (wf_fileChunkSize _ (fi_wf _ _ I)) as Hcs2.
  pose proof (fi_total _ _ I) as Ht. rewrite Et in Ht.
  set (cs := meta_fileChunkSize (meta f1)) in *.
  unfold read. cbn [negb]. unfold this at 1. rewrite (bind_ok _ _ _ f (mkFS f kv clk)) by done.
  fold total. rewrite !i64_small by (unfold MAX_SIZE in *; lia).
  replace (if total <? offset + len then u64 (total - offset) else len) with n.
  2:{ unfold MAX_SIZE in *. destruct (Z.ltb_spec total (offset + len));
        [rewrite u64_small by lia|]; lia. }
  rewrite (bind_ok _ _ _ _ _ Hh). unfold this. rewrite (bind_ok _ _ _ f1 (mkFS f1 kv1 clk1)) by done.
  rewrite (fi_init _ _ I). fold cs.
  rewrite (bind_ok _ _ _ (0, file_bytes kv1 (handle f1) cs offset (Z.to_nat n)) (mkFS f1 kv1 clk1)).
  { unfold ReleaseData, upd. mrun. cbn [f_this f_kv f_clock]. do 4 f_equal.
    rewrite Z.sub_0_r, u64_small by (unfold MAX_SIZE in *; lia). done. }
  destruct (Z.ltb_spec 0 n) as [Hn|Hn].
  2:{ assert (n = 0) as -> by lia. done. }
  assert (∀ a, off_div a cs (mkFS f1 kv1 clk1) = Ok (Z.quot a cs, mkFS f1 kv1 clk1)) as Hdiv.
  { intros a. unfold off_div. by rewrite (proj2 (Z.eqb_neq _ _)) by lia. }
  rewrite !Z.sub_0_r, (bind_ok _ _ _ _ _ (Hdiv _)), (bind_ok _ _ _ _ _ (Hdiv _)).
  rewrite (bind_ok _ _ _ kv1 (mkFS f1 kv1 clk1)) by done.
  rewrite u64_small, i64_small by (unfold MAX_SIZE in *; lia).
  replace (offset + (n - 1)) with (offset + n - 1) by lia.
  destruct (read_bounds cs offset n) as (B1 & B2 & B3); [lia|lia|lia|lia|].
  by rewrite (read_loop_ok kv1 (handle f1) cs) by (done || apply I).
Qed.

Lemma set_hold_id f n :
  set_hold (data_hold_count (set_hold (n + 1) f) - 1) (set_hold (n + 1) f) = set_hold n f.
Proof. destruct f. unfold set_hold. cbn. f_equal. lia. Qed.

Lemma file_inv_hold f kv n : file_inv f kv → file_inv (set_hold n f) kv.
Proof. by intros []. Qed.

Lemma read_ok f kv clk offset len :
  file_inv f kv → meta_evictionState (meta f) = ES_RESIDENT →
  0 ≤ offset ≤ meta_fileTotalSize (meta f) → 0 ≤ len ≤ MAX_SIZE →
  let n := Z.min len (meta_fileTotalSize (meta f) - offset) in
  read offset len true (mkFS f kv clk) =
    Ok ((STATUS_OK, n,
         file_bytes kv (handle f) (meta_fileChunkSize (meta f)) offset (Z.to_nat n)),
        mkFS f kv clk).
Proof.
  intros I Hr Ho Hl n.
  rewrite (read_after_hold f kv clk (set_hold (data_hold_count f + 1) f) kv clk).
  - rewrite set_hold_id. by destruct f.
  - unfold HoldData, upd, this. mrun. cbn [f_this f_kv f_clock meta set_hold].
    by rewrite decide_True.
  - by apply file_inv_hold.
  - done.
  - done.
  - done.
Qed.

(** ** Lemmas: resizing *)

Lemma cut_trans h cs kv kv1 kv2 a b c :
  cut h cs kv kv1 a b → cut h cs kv1 kv2 b c → a ≤ b ≤ c → cut h cs kv kv2 a c.
Proof.
  intros C1 C2 Hbc. split.
  - intros i Hi. rewrite (cut_bytes _ _ _ _ _ _ C2), (cut_bytes _ _ _ _ _ _ C1) by done.
    repeat case_decide; try done; lia.
  - intros k Hk. by rewrite (cut_only _ _ _ _ _ _ C2), (cut_only _ _ _ _ _ _ C1).
  - intros x Hx Hl. destruct (decide (x * cs < b)); [|apply (cut_gone _ _ _ _ _ _ C2); [done|lia]].
    apply (cut_none _ _ _ _ _ _ C2), (cut_gone _ _ _ _ _ _ C1); [done|done|lia].
  - intros x Hx Hn. by apply (cut_none _ _ _ _ _ _ C2), (cut_none _ _ _ _ _ _ C1).
  - apply C2.
Qed.

Lemma cut_same h cs kv kv' lo hi :
  chunks_ok kv h cs → (∀ k, kv_get kv' k = kv_get kv k) →
  (∀ i, lo ≤ i < hi → 0 ≤ i < OFF_MAX → file_byte kv h cs i = Byte.x00) →
  (∀ c, 0 ≤ c < OFF_MAX → lo ≤ c * cs < hi → False) →
  cut h cs kv kv' lo hi.
Proof.
  intros Hok E Hz Hno. split.
  - intros i Hi. unfold file_byte at 1. rewrite E. fold (file_byte kv h cs i).
    case_decide; [by apply Hz|done].
  - intros k _. apply E.
  - intros c Hc Hl. by destruct (Hno c).
  - intros c _. by rewrite E.
  - intros c v Hc. rewrite E. by apply Hok.
Qed.

Lemma cut_chunk h cs kv kv' c lo w :
  0 < cs → chunks_ok kv h cs → 0 ≤ c → (c + 1) * cs ≤ OFF_MAX →
  c * cs ≤ lo ≤ (c + 1) * cs →
  (∀ k, kv_get kv' k = if decide (sub_key h c = k) then w else kv_get kv k) →
  Z.of_nat (length (default [] w)) ≤ cs →
  (lo ≤ c * cs ∨ kv_get kv (sub_key h c) = None → w = None) →
  (∀ j, 0 ≤ j < cs → chunk_byte w j =
     if decide (lo ≤ c * cs + j) then Byte.x00 else chunk_byte (kv_get kv (sub_key h c)) j) →
  cut h cs kv kv' lo ((c + 1) * cs).
Proof.
  intros Hcs Hok Hc Hm Hlo E Hw Hno Hb.
  assert (0 ≤ c * cs ∧ c < OFF_MAX) as [? ?] by (unfold OFF_MAX in *; nia).
  assert (∀ c', 0 ≤ c' < OFF_MAX → c' ≠ c →
    kv_get kv' (sub_key h c') = kv_get kv (sub_key h c')) as Hother.
  { intros c' Hr Hne. rewrite E, decide_False; [done|]. unfold OFF_MAX in *. apply sub_key_ne; lia. }
  split.
  - intros i Hi. pose proof (chunk_of_offset cs i Hcs Hi) as Hci.
    pose proof (Z.mod_pos_bound i cs Hcs) as Hj. pose proof (Z.div_mod i cs ltac:(lia)) as Ei.
    set (c' := i / cs) in *. set (j := i mod cs) in *. rewrite Z.mul_comm in Ei.
    rewrite Ei, !file_byte_at by lia. destruct (decide (c' = c)) as [->|Hne].
    + rewrite E, decide_True, Hb by (done || lia). repeat case_decide; done || lia.
    + rewrite Hother, decide_False by (done || nia). done.
  - intros k Hk. rewrite E, decide_False; [done|]. apply not_eq_sym, Hk. lia.
  - intros c' Hr Hl. assert (c' = c) as -> by nia. rewrite E, decide_True by done. apply Hno. left. lia.
  - intros c' Hr Hn. destruct (decide (c' = c)) as [->|Hne]; [|by rewrite Hother].
    rewrite E, decide_True by done. by apply Hno; right.
  - intros c' v Hr. destruct (decide (c' = c)) as [->|Hne].
    + rewrite E, decide_True by done. intros ->. done.
    + rewrite Hother by done. by apply Hok.
Qed.

Context `{!KVReliable S}.

Lemma kv_put_true kv k v : ∃ kv', kv_put kv k v = (true, kv').
Proof.
  pose proof (kv_put_succeeds kv k v) as E. destruct (kv_put kv k v) as [b kv'].
  cbn in E. subst b. eauto.
Qed.

Lemma kv_remove_true kv k : ∃ kv', kv_remove kv k = (true, kv').
Proof.
  pose proof (kv_remove_succeeds kv k) as E. destruct (kv_remove kv k) as [b kv'].
  cbn in E. subst b. eauto.
Qed.

Lemma no_chunk_between cs chunk c : 0 < cs → chunk * cs < c * cs → c * cs < (chunk + 1) * cs → False.
Proof. intros Hcs Ha%Z.mul_lt_mono_pos_r Hb%Z.mul_lt_mono_pos_r; lia. Qed.

(** One turn of the loop of [ResizeData]. *)
Lemma resize_step f clk h cs new_size first n chunk status kv :
  0 < cs → chunks_ok kv h cs → 0 ≤ first ≤ chunk → (chunk + 1) * cs ≤ OFF_MAX →
  first * cs ≤ new_size < (first + 1) * cs →
  ∃ kv1, resize_loop h new_size 0 cs first (Datatypes.S n) chunk status (mkFS f kv clk) =
      resize_loop h new_size 0 cs first n (chunk + 1) status (mkFS f kv1 clk)
    ∧ cut h cs kv kv1 (Z.max new_size (chunk * cs)) ((chunk + 1) * cs).
Proof.
  intros Hcs Hok Hfc Hm Hnew. cbn [resize_loop]. rewrite Z.add_0_l.
  assert (0 ≤ chunk * cs ∧ chunk < OFF_MAX ∧ (chunk = first ∨ new_size < chunk * cs)) as (? & ? & Hd)
    by (unfold OFF_MAX in *; split; [nia|]; split; [nia|]; destruct (decide (chunk = first)); [by left|right; nia]).
  destruct ((chunk =? first) && (0 <? new_size - chunk * cs) && (new_size - chunk * cs <? cs))
    eqn:Ec; zbool.
  - subst first. unfold fget. destruct (kv_get kv (sub_key h chunk)) as [v|] eqn:Ev.
    + destruct (Z.ltb_spec (new_size - chunk * cs) (Z.of_nat (length v))) as [Hlt|Hge].
      * destruct (kv_put_true kv (sub_key h chunk)
          (resize (Z.to_nat (new_size - chunk * cs)) Byte.x00 v)) as [kv1 Ep].
        exists kv1. split.
        { unfold fput. mrun. cbn [f_kv f_this f_clock]. rewrite Ev.
          rewrite (proj2 (Z.ltb_lt _ _)) by lia. cbn [f_kv f_this f_clock]. by rewrite Ep. }
        apply (cut_chunk h cs kv kv1 chunk (Z.max new_size (chunk * cs)) _ Hcs Hok
                 ltac:(lia) Hm ltac:(lia)
                 (kv_put_ok _ _ _ _ Ep)).
        { cbn. rewrite length_resize. lia. }
        { rewrite Ev. intros [?|?]; [lia|done]. }
        intros j Hj. rewrite Ev. unfold chunk_byte. cbn [default from_option id].
        case_decide.
        -- by rewrite lookup_resize_old by lia.
        -- by rewrite lookup_resize by lia.
      * exists kv. split.
        { mrun. cbn [f_kv f_this f_clock]. rewrite Ev. by rewrite (proj2 (Z.ltb_ge _ _)) by lia. }
        apply cut_same; [done|done| |intros c Hc Hl; by apply (no_chunk_between cs chunk c); lia]. intros i Hi _.
        assert (i = chunk * cs + (i - chunk * cs)) as -> by lia.
        rewrite file_byte_at, Ev by lia. unfold chunk_byte. cbn [default from_option id].
        by rewrite lookup_ge_None_2 by lia.
    + exists kv. split; [mrun; cbn [f_kv f_this f_clock]; by rewrite Ev|].
      apply cut_same; [done|done| |intros c Hc Hl; by apply (no_chunk_between cs chunk c); lia]. intros i Hi _.
      assert (i = chunk * cs + (i - chunk * cs)) as -> by lia.
      by rewrite file_byte_at, Ev by lia.
  - destruct (kv_remove_true kv (sub_key h chunk)) as [kv1 Er]. exists kv1.
    split; [unfold fremove; mrun; cbn [f_kv f_this f_clock]; by rewrite Er|].
    apply (cut_chunk h cs kv kv1 chunk (Z.max new_size (chunk * cs)) None Hcs Hok
             ltac:(lia) Hm ltac:(lia)
             (kv_remove_ok _ _ _ Er)); [cbn; lia|done|].
    intros j Hj. rewrite decide_True; [done|].
    rewrite !andb_false_iff in Ec. destruct Ec as [[Ec|Ec]|Ec]; zbool; lia.
Qed.

Lemma resize_loop_ok f clk h cs new_size first n chunk status kv :
  0 < cs → chunks_ok kv h cs → 0 ≤ first ≤ chunk → (chunk + Z.of_nat n) * cs ≤ OFF_MAX →
  first * cs ≤ new_size < (first + 1) * cs → new_size ≤ (chunk + Z.of_nat n) * cs →
  ∃ kv', resize_loop h new_size 0 cs first n chunk status (mkFS f kv clk) =
      Ok (status, mkFS f kv' clk)
    ∧ cut h cs kv kv' (Z.max new_size (chunk * cs)) ((chunk + Z.of_nat n) * cs).
Proof.
  intros Hcs. revert chunk kv. induction n as [|n IH]; intros chunk kv Hok Hfc Hm Hnew Hn.
  - exists kv. split; [done|]. apply cut_same; [done|done|intros; lia|intros; lia].
  - assert (0 ≤ Z.of_nat n * cs ∧ first * cs ≤ chunk * cs) as [? ?] by nia. unfold OFF_MAX in Hm.
    destruct (resize_step f clk h cs new_size first n chunk status kv) as (kv1 & E & C);
      [done|done|done|unfold OFF_MAX; lia|done|].
    destruct (IH (chunk + 1) kv1) as (kv' & E' & C'); [apply C|lia|unfold OFF_MAX; lia|done|lia|].
    exists kv'. rewrite E, E'. split; [done|].
    replace (Z.max new_size ((chunk + 1) * cs)) with ((chunk + 1) * cs) in C' by lia.
    replace ((chunk + Z.of_nat (Datatypes.S n)) * cs) with ((chunk + 1 + Z.of_nat n) * cs) by lia.
    apply (cut_trans _ _ _ kv1 _ _ ((chunk + 1) * cs)); [done|done|lia].
Qed.

Lemma off_div_ok a cs (s : FState S) : 0 < cs → off_div a cs s = Ok (Z.quot a cs, s).
Proof. intros. unfold off_div. by rewrite (proj2 (Z.eqb_neq _ _)) by lia. Qed.

(** Below [new_size] the data stays, from there on it is gone. *)
Record resized h cs kv kv' (new_size : Z) : Prop := {
  resized_bytes i : 0 ≤ i < OFF_MAX →
    file_byte kv' h cs i = if decide (i < new_size) then file_byte kv h cs i else Byte.x00;
  resized_only : only_chunks h kv kv';
  resized_chunks : chunks_ok kv' h cs;
}.

Lemma ResizeData_ok f kv clk cs new_size old_size :
  0 < cs < 4294967296 → 0 ≤ new_size → 0 ≤ old_size ≤ MAX_SIZE →
  chunks_ok kv (handle f) cs → eof_clean kv (handle f) cs old_size →
  ∃ kv', ResizeData new_size old_size cs 0 (mkFS f kv clk) = Ok (STATUS_OK, mkFS f kv' clk)
    ∧ resized (handle f) cs kv kv' new_size
    ∧ (no_tail kv (handle f) cs old_size → no_tail kv' (handle f) cs new_size).
Proof.
  intros Hcs Hn Ho Hok He. unfold ResizeData.
  destruct (Z.ltb_spec new_size old_size) as [Hlt|Hge].
  2:{ exists kv. split; [done|]. split; [split; [|done|done]|].
      - intros i Hi. case_decide; [done|]. apply He. lia.
      - intros Ht c Hc Hl. apply Ht; [done|lia]. }
  unfold this. rewrite (bind_ok _ _ _ f (mkFS f kv clk)) by done. rewrite !Z.sub_0_r.
  rewrite (bind_ok _ _ _ _ _ (off_div_ok _ cs _ ltac:(lia))).
  rewrite (bind_ok _ _ _ tt (mkFS f kv clk)) by (apply cassert_true, Z.leb_le; lia).
  rewrite (bind_ok _ _ _ _ _ (off_div_ok _ cs _ ltac:(lia))).
  destruct (read_bounds cs new_size (old_size - new_size)) as (B1 & B2 & B3); [lia|lia|lia|lia|].
  replace (new_size + (old_size - new_size) - 1) with (old_size - 1) in B2, B3 by lia.
  set (first := Z.quot new_size cs) in *. set (n := loop_count _ _) in *.
  destruct n as [|n]; [lia|]. assert (0 ≤ Z.of_nat n * cs) by nia.
  destruct (resize_loop_ok f clk (handle f) cs new_size first (Datatypes.S n) first STATUS_OK kv)
    as (kv' & E & C); [lia|done|lia|done|lia|lia|].
  rewrite Z.max_l in C by lia.
  exists kv'. split; [done|]. split; [split; [|apply C|apply C]|].
  - intros i Hi. rewrite (cut_bytes _ _ _ _ _ _ C) by done.
    destruct (decide (i < new_size)); [by rewrite decide_False by lia|].
    case_decide; [done|]. apply He. lia.
  - intros Ht c Hc Hl. destruct (decide (c * cs < old_size)); [apply (cut_gone _ _ _ _ _ _ C); [done|lia]|].
    apply (cut_none _ _ _ _ _ _ C); [done|]. apply Ht; [done|lia].
Qed.

(** The cached metadata is the stored one. *)
Definition synced f kv : Prop := kv_get kv (inode_key (handle f)) = Some (encode_meta (meta f)).

Lemma open_ok f kv clk m :
  kv_get kv (inode_key (handle f)) = Some (encode_meta m) → wf_meta m →
  meta_handle m = handle f → meta_fsId m = fsId f →
  open (mkFS f kv clk) = Ok (true, mkFS (set_meta m f) kv clk).
Proof.
  intros E W Hh Hf. unfold open, readFromLog, this, fget, as_meta, upd_meta, upd. mrun.
  cbn [f_this f_kv f_clock]. rewrite E, decode_encode by done.
  cbn [f_this f_kv f_clock]. by rewrite Hh, Hf, !Z.eqb_refl.
Qed.

(** The attributes of a stored record. *)
Definition stat_of (m : LogFSMetaData) : stat_t :=
  MkStat (meta_devId m) (meta_handle m) (ModeFromMeta (meta_type m) (meta_protection m)) (meta_nLink m)
    (meta_userId m) (meta_groupId m) (meta_rDev m) (i64 (meta_fileTotalSize m)) (meta_fileChunkSize m)
    (i64 (meta_fileTotalSize m / 512)) (meta_atime m) (meta_mtime m) (meta_ctime m).

Lemma stat_run f kv clk m st :
  kv_get kv (inode_key (handle f)) = Some (encode_meta m) → wf_meta m →
  meta_handle m = handle f → meta_fsId m = fsId f →
  stat st (mkFS f kv clk) = Ok ((STATUS_OK, stat_of m), mkFS (set_meta m f) kv clk).
Proof.
  intros E W Hh Hf. unfold stat, readFromLog, this, fget, as_meta, upd_meta, upd. mrun.
  cbn [f_this f_kv f_clock]. rewrite E, decode_encode by done.
  cbn [f_this f_kv f_clock]. unfold stat_of. by rewrite Hh, Hf, !Z.eqb_refl.
Qed.

Lemma stat_ok f kv clk m st :
  kv_get kv (inode_key (handle f)) = Some (encode_meta m) → wf_meta m →
  meta_handle m = handle f → meta_fsId m = fsId f →
  ∃ st', stat st (mkFS f kv clk) = Ok ((STATUS_OK, st'), mkFS (set_meta m f) kv clk)
    ∧ st_size st' = i64 (meta_fileTotalSize m) ∧ st_ino st' = meta_handle m
    ∧ st_nlink st' = meta_nLink m
    ∧ st_mode st' = ModeFromMeta (meta_type m) (meta_protection m).
Proof. intros E W Hh Hf. exists (stat_of m). by rewrite (stat_run f kv clk m st E W Hh Hf). Qed.

(** The metadata after [SetSize]. *)
Definition resized_meta (m : LogFSMetaData) (new_size : Z) (clk : nat) : LogFSMetaData :=
  set_mtime (u32 (env_time clk)) (set_ctime (u32 (env_time clk)) (set_size (u64 new_size) m)).

Lemma resized_meta_wf m n clk : wf_meta m → wf_meta (resized_meta m n clk).
Proof.
  intros W. unfold resized_meta. pose proof (u64_range n). pose proof (u32_range (env_time clk)).
  destruct W; by split.
Qed.

(** Writing back metadata [m'] for the same inode keeps the data as it is. *)
Lemma file_inv_flush f m' kv kv' b :
  wf_meta m' → meta_handle m' = handle f → meta_fsId m' = fsId f →
  meta_fileInitialSize m' = 0 → 0 < meta_fileChunkSize m' → meta_fileTotalSize m' ≤ MAX_SIZE →
  chunks_ok kv (handle f) (meta_fileChunkSize m') →
  eof_clean kv (handle f) (meta_fileChunkSize m') (meta_fileTotalSize m') →
  kv_put kv (inode_key (handle f)) (encode_meta m') = (b, kv') →
  ∀ d, file_inv (set_metaDirty d (set_meta m' f)) kv'.
Proof.
  intros W Hh Hf Hi Hc Ht Hok He E d. split; cbn; try done.
  - by eapply inode_put_chunks.
  - intros i Hir. by rewrite (inode_put_byte _ _ _ _ _ _ _ E), He.
Qed.

(** [SetSize] from what [ResizeData] does to the store. *)
Lemma SetSize_run f kv clk m new_size kv1 :
  kv_get kv (inode_key (handle f)) = Some (encode_meta m) → file_inv (set_meta m f) kv →
  ResizeData new_size (meta_fileTotalSize m) (meta_fileChunkSize m) 0 (mkFS (set_meta m f) kv clk)
    = Ok (STATUS_OK, mkFS (set_meta m f) kv1 clk) →
  ∃ kv', SetSize new_size (mkFS f kv clk) =
      Ok (STATUS_OK, mkFS (set_metaDirty false (set_meta (resized_meta m new_size clk) f)) kv'
                          (Datatypes.S clk))
    ∧ kv_put kv1 (inode_key (handle f)) (encode_meta (resized_meta m new_size clk)) = (true, kv').
Proof.
  intros E I Er. pose proof (fi_wf _ _ I) as W. pose proof (fi_handle _ _ I) as Hh.
  pose proof (fi_fs _ _ I) as Hf. pose proof (fi_total _ _ I) as Ht. pose proof (fi_init _ _ I) as Hi.
  cbn [set_meta meta handle fsId] in W, Hh, Hf, Ht, Hi.
  unfold SetSize. rewrite (bind_ok _ _ _ _ _ (open_ok f kv clk m E W Hh Hf)). cbn [negb].
  unfold this. rewrite (bind_ok _ _ _ (set_meta m f) (mkFS (set_meta m f) kv clk)) by done.
  cbn [meta set_meta]. rewrite Hi, i64_small
    by (pose proof (wf_fileTotalSize _ W); unfold MAX_SIZE in *; lia).
  rewrite (bind_ok _ _ _ _ _ Er), decide_True by done.
  destruct (kv_put_true kv1 (inode_key (handle f)) (encode_meta (resized_meta m new_size clk)))
    as [kv' Ep].
  exists kv'. split; [|done].
  unfold upd_meta, upd, time, flush, this, fput. mrun. cbn [f_this f_kv f_clock set_meta set_metaDirty
    meta handle meta_handle set_mtime set_ctime set_size fsId nameString fmode metaDirty
    data_hold_count partitions].
  rewrite Hh, Z.eqb_refl. cbn [negb f_this f_kv f_clock handle meta].
  change (set_mtime _ _) with (resized_meta m new_size clk). by rewrite Ep.
Qed.

Lemma SetSize_ok f kv clk m new_size :
  kv_get kv (inode_key (handle f)) = Some (encode_meta m) → file_inv (set_meta m f) kv →
  0 ≤ new_size ≤ MAX_SIZE →
  ∃ kv1 kv', SetSize new_size (mkFS f kv clk) =
      Ok (STATUS_OK, mkFS (set_metaDirty false (set_meta (resized_meta m new_size clk) f)) kv'
                          (Datatypes.S clk))
    ∧ resized (handle f) (meta_fileChunkSize m) kv kv1 new_size
    ∧ kv_put kv1 (inode_key (handle f)) (encode_meta (resized_meta m new_size clk)) = (true, kv')
    ∧ (no_tail kv (handle f) (meta_fileChunkSize m) (meta_fileTotalSize m) →
       no_tail kv1 (handle f) (meta_fileChunkSize m) new_size).
Proof.
  intros E I Hn. pose proof (fi_wf _ _ I) as W. pose proof (fi_total _ _ I) as Ht. pose proof (fi_cs _ _ I) as Hc.
  cbn [set_meta meta] in W, Ht, Hc.
  destruct (ResizeData_ok (set_meta m f) kv clk (meta_fileChunkSize m) new_size
    (meta_fileTotalSize m)) as (kv1 & Er & R & Htl);
    [pose proof (wf_fileChunkSize _ W); lia|lia|pose proof (wf_fileTotalSize _ W); lia
    |apply I|apply I|].
  destruct (SetSize_run f kv clk m new_size kv1 E I Er) as (kv' & Es & Ep). by exists kv1, kv'.
Qed.

Lemma SetSize_inv f kv kv1 kv' clk m new_size :
  file_inv (set_meta m f) kv → 0 ≤ new_size ≤ MAX_SIZE →
  resized (handle f) (meta_fileChunkSize m) kv kv1 new_size →
  kv_put kv1 (inode_key (handle f)) (encode_meta (resized_meta m new_size clk)) = (true, kv') →
  file_inv (set_metaDirty false (set_meta (resized_meta m new_size clk) f)) kv'.
Proof.
  intros I Hn R Ep.
  assert (u64 new_size = new_size) as Hu by (apply u64_small; unfold MAX_SIZE in *; lia).
  apply (file_inv_flush _ (resized_meta m new_size clk) kv1 kv' true); try done; try apply I.
  - apply resized_meta_wf, I.
  - cbn. lia.
  - apply R.
  - cbn. rewrite Hu. intros i Hi. rewrite (resized_bytes _ _ _ _ _ R) by lia.
    by rewrite decide_False by lia.
Qed.

(** ** Lemmas: eviction and restore *)

(** A tiered file with the given contents, opened for inode [h]: what fstat and
    pread on a regular file return. *)
Record tiered_contents (tf : TieredFile) (h : Z) (content : bytes) : Prop := {
  tc_fstat : tf_fstat tf = Some (Z.of_nat (length content));
  tc_ino : tf_ino tf = h;
  tc_pread off n : 0 ≤ off → 0 ≤ n →
    tf_pread tf off n = Some (slice (Z.to_nat off) (Z.to_nat n) content);
}.

Lemma reliable_kv : reliable.
Proof. intros kv k v. apply kv_put_succeeds. Qed.

(** [write] without the metadata update, inside the file. *)
Lemma write_inside f kv clk offset buf :
  file_inv f kv → 0 ≤ offset →
  offset + Z.of_nat (length buf) ≤ meta_fileTotalSize (meta f) →
  ∃ kv', write offset (Some buf) false (mkFS f kv clk) =
      Ok ((STATUS_OK, Z.of_nat (length buf)), mkFS f kv' clk)
    ∧ wrote (handle f) (meta_fileChunkSize (meta f)) kv kv' offset buf
    ∧ file_inv f kv'.
Proof.
  intros I Ho Hm. pose proof (fi_total _ _ I). pose proof (fi_cs _ _ I).
  pose proof (wf_fileTotalSize _ (fi_wf _ _ I)).
  destruct (write_data_ok f kv clk offset buf I Ho ltac:(lia)) as (st & k & kv1 & E & Hk & W & Hst).
  destruct Hst as [[-> ->]|(_ & _ & Hr)]; [|by destruct (Hr reliable_kv)].
  rewrite firstn_all in W. exists kv1. split; [|split; [done|]].
  - unfold write, this. rewrite (bind_ok _ _ _ f (mkFS f kv clk)) by done.
    rewrite (fi_init _ _ I), !Z.sub_0_r.
    rewrite !(bind_ok _ _ _ _ _ (off_div_ok _ (meta_fileChunkSize (meta f)) _ ltac:(lia))).
    rewrite (bind_ok _ _ _ _ _ E), decide_True by done.
    rewrite i64_small by (unfold MAX_SIZE in *; lia).
    rewrite (proj2 (Z.ltb_ge _ _)) by lia.
    replace (offset + _ - offset) with (Z.of_nat (length buf)) by lia.
    by rewrite u64_small by (unfold MAX_SIZE in *; lia).
  - split; try apply I; [apply W|]. intros i Hi.
    rewrite (wrote_bytes _ _ _ _ _ _ W), decide_False by lia. apply (fi_eof _ _ I). lia.
Qed.

Lemma take_drop_length {A} n (l : list A) : take n l ++ drop (length (take n l)) l = l.
Proof.
  rewrite length_take. destruct (decide (n ≤ length l)%nat).
  - rewrite Nat.min_l by done. apply take_drop.
  - rewrite Nat.min_r, take_ge, drop_all, app_nil_r by lia. done.
Qed.

Lemma unevict_loop_ok tf f clk content fuel offset kv :
  tiered_contents tf (handle f) content →
  Z.of_nat (length content) = meta_fileTotalSize (meta f) →
  file_inv f kv → (offset ≤ length content)%nat → (length content - offset < fuel)%nat →
  ∃ kv', unevict_loop fuel tf (Z.of_nat offset) (mkFS f kv clk) =
      Ok ((STATUS_OK, Z.of_nat (length content)), mkFS f kv' clk)
    ∧ wrote (handle f) (meta_fileChunkSize (meta f)) kv kv' (Z.of_nat offset) (drop offset content)
    ∧ file_inv f kv'.
Proof.
  intros T Hlen. revert offset kv. induction fuel as [|fuel IH]; intros offset kv I Ho Hf; [lia|].
  cbn [unevict_loop]. rewrite (tc_pread _ _ _ T) by lia. rewrite Nat2Z.id.
  destruct (slice offset (Z.to_nat 8192) content) as [|b0 buf0] eqn:Eb.
  - assert (offset = length content) as ->.
    { apply (f_equal length) in Eb. unfold slice in Eb. rewrite length_take, length_drop in Eb.
      cbn [length] in Eb. lia. }
    exists kv. split; [done|]. rewrite drop_all. split; [|done]. apply wrote_nil; [apply I|done].
  - rewrite <-Eb. set (buf := slice offset (Z.to_nat 8192) content) in *.
    assert (length buf = Nat.min (Z.to_nat 8192) (length content - offset)) as Hl.
    { unfold buf, slice. by rewrite length_take, length_drop. }
    assert (0 < length buf)%nat by (rewrite Eb; cbn; lia).
    destruct (write_inside f kv clk (Z.of_nat offset) buf I) as (kv1 & E & W & I1); [lia|lia|].
    rewrite (bind_ok _ _ _ _ _ E), decide_True by done.
    rewrite (bind_ok _ _ _ tt (mkFS f kv1 clk)) by (apply cassert_true, Z.eqb_refl).
    rewrite <-Nat2Z.inj_add.
    destruct (IH (offset + length buf)%nat kv1 I1) as (kv' & E' & W' & I'); [lia|lia|].
    exists kv'. split; [done|]. split; [|done].
    rewrite Nat2Z.inj_add in W'.
    replace (drop offset content) with (buf ++ drop (offset + length buf) content).
    { by apply (wrote_app _ _ _ kv1). }
    rewrite <-drop_drop. apply take_drop_length.
Qed.

Lemma wf_evictionState m e : wf_meta m → wf_meta (set_evictionState e m).
Proof. by intros []. Qed.

Lemma UnEvict_ok tf f kv clk content :
  tier_Open (handle f) XID_MAX = Some tf → tiered_contents tf (handle f) content →
  Z.of_nat (length content) = meta_fileTotalSize (meta f) → file_inv f kv →
  ∃ kv1 kv', UnEvict (mkFS f kv clk) =
      Ok (STATUS_OK, mkFS (set_metaDirty false
            (set_meta (set_evictionState ES_RESIDENT (meta f)) f)) kv' clk)
    ∧ wrote (handle f) (meta_fileChunkSize (meta f)) kv kv1 0 content
    ∧ kv_put kv1 (inode_key (handle f)) (encode_meta (set_evictionState ES_RESIDENT (meta f)))
        = (true, kv').
Proof.
  intros Hop T Hlen I. pose proof (fi_handle _ _ I) as Hh. pose proof (fi_total _ _ I).
  pose proof (wf_fileTotalSize _ (fi_wf _ _ I)).
  destruct (unevict_loop_ok tf f clk content (Datatypes.S (length content)) 0 kv T Hlen I)
    as (kv1 & E & W & I1); [lia|lia|].
  destruct (kv_put_true kv1 (inode_key (handle f))
    (encode_meta (set_evictionState ES_RESIDENT (meta f)))) as [kv' Ep].
  exists kv1, kv'. rewrite drop_0 in W. split; [|done].
  unfold UnEvict, this. rewrite (bind_ok _ _ _ f (mkFS f kv clk)) by done.
  rewrite Hh, Hop, (tc_fstat _ _ _ T), (tc_ino _ _ _ T).
  rewrite (bind_ok _ _ _ tt (mkFS f kv clk)) by (apply cassert_true, Z.eqb_refl).
  rewrite (bind_ok _ _ _ tt (mkFS f kv clk)).
  2:{ apply cassert_true. rewrite i64_small by (unfold MAX_SIZE in *; lia). apply Z.eqb_eq. lia. }
  rewrite Nat2Z.id. change 0 with (Z.of_nat 0). rewrite (bind_ok _ _ _ _ _ E), decide_True by done.
  rewrite (bind_ok _ _ _ tt (mkFS f kv1 clk)) by (apply cassert_true, Z.eqb_refl).
  destruct (flush_ok (set_meta (set_evictionState ES_RESIDENT (meta f)) f) kv1 clk)
    as (b & kv2 & Ep2 & Ef); [done|].
  cbn [handle set_meta meta] in Ep2. rewrite Ep in Ep2. injection Ep2 as <- <-.
  unfold upd_meta, upd. rewrite (bind_ok _ _ _ tt
    (mkFS (set_meta (set_evictionState ES_RESIDENT (meta f)) f) kv1 clk)) by done.
  by rewrite (bind_ok _ _ _ _ _ Ef).
Qed.

Lemma Evict_ok f kv clk :
  file_inv f kv → synced f kv →
  ∃ kv1 kv', Evict (mkFS f kv clk) =
      Ok (STATUS_OK, mkFS (set_metaDirty false
            (set_meta (set_evictionState ES_DATA_EVICTED (meta f)) f)) kv' clk)
    ∧ resized (handle f) (meta_fileChunkSize (meta f)) kv kv1 0
    ∧ kv_put kv1 (inode_key (handle f)) (encode_meta (set_evictionState ES_DATA_EVICTED (meta f)))
        = (true, kv').
Proof.
  intros I Hs. pose proof (fi_wf _ _ I) as W. pose proof (fi_handle _ _ I) as Hh.
  pose proof (fi_total _ _ I) as Ht. pose proof (wf_fileTotalSize _ W) as Ht'.
  assert (set_meta (meta f) f = f) as Hid by by destruct f.
  destruct (stat_ok f kv clk (meta f) stat_zero Hs W Hh (fi_fs _ _ I)) as (st & Est & Hsz & _).
  rewrite Hid in Est. rewrite i64_small in Hsz by (unfold MAX_SIZE in *; lia).
  destruct (ResizeData_ok f kv clk (meta_fileChunkSize (meta f)) 0 (meta_fileTotalSize (meta f)))
    as (kv1 & Er & R & _); [pose proof (fi_cs _ _ I); pose proof (wf_fileChunkSize _ W); lia|lia|lia
    |apply I|apply I|].
  set (f1 := set_meta (set_evictionState ES_DATA_EVICTED (meta f)) (set_metaDirty true f)).
  destruct (flush_ok f1 kv1 clk) as (b & kv' & Ep & Ef); [done|].
  destruct (kv_put_true kv1 (inode_key (handle f1)) (encode_meta (meta f1))) as [kv2 Ep2].
  rewrite Ep2 in Ep. injection Ep as <- <-. exists kv1, kv2. split; [|done].
  unfold Evict. rewrite (bind_ok _ _ _ _ _ Est). cbn beta iota. rewrite decide_True by done.
  unfold this. rewrite (bind_ok _ _ _ f (mkFS f kv clk)) by done. rewrite Hsz, (fi_init _ _ I).
  rewrite (bind_ok _ _ _ _ _ Er). unfold upd_meta, upd.
  rewrite (bind_ok _ _ _ tt (mkFS (set_metaDirty true f) kv1 clk)) by done.
  rewrite (bind_ok _ _ _ tt (mkFS f1 kv1 clk)) by done.
  by rewrite (bind_ok _ _ _ _ _ Ef).
Qed.

(** What no write, truncation or flush changes of a file object. *)
Record kept f f' : Prop := {
  kp_handle : handle f' = handle f;
  kp_fsId : fsId f' = fsId f;
  kp_type : meta_type (meta f') = meta_type (meta f);
  kp_nLink : meta_nLink (meta f') = meta_nLink (meta f);
  kp_cs : meta_fileChunkSize (meta f') = meta_fileChunkSize (meta f);
  kp_evicted : meta_evictionState (meta f') = meta_evictionState (meta f);
}.

(** No chunk is stored past the end of the file. *)
Definition no_chunks_past f kv : Prop :=
  no_tail kv (handle f) (meta_fileChunkSize (meta f)) (meta_fileTotalSize (meta f)).

Lemma kept_refl f : kept f f.
Proof. by split. Qed.
Lemma kept_trans f1 f2 f3 : kept f1 f2 → kept f2 f3 → kept f1 f3.
Proof. intros [] []. split; congruence. Qed.

Lemma only_file_refl h kv : only_file h kv kv.
Proof. by intros k. Qed.
Lemma only_file_trans h kv1 kv2 kv3 : only_file h kv1 kv2 → only_file h kv2 kv3 → only_file h kv1 kv3.
Proof. intros E1 E2 k Hk Hc. by rewrite E2, E1. Qed.
Lemma only_file_put h kv kv1 kv' v b :
  only_chunks h kv kv1 → kv_put kv1 (inode_key h) v = (b, kv') → only_file h kv kv'.
Proof. intros E1 Ep k Hk Hc. by rewrite (kv_put_ne _ _ _ _ _ _ Ep), E1 by done. Qed.

(** The state after a write that succeeds. *)
Lemma written_state f kv clk offset buf :
  file_inv f kv → 0 ≤ offset → offset + Z.of_nat (length buf) ≤ MAX_SIZE →
  ∃ f' kv', write offset (Some buf) true (mkFS f kv clk) =
      Ok ((STATUS_OK, Z.of_nat (length buf)), mkFS f' kv' (Datatypes.S (Datatypes.S clk)))
    ∧ file_inv f' kv' ∧ handle f' = handle f
    ∧ meta_fileChunkSize (meta f') = meta_fileChunkSize (meta f)
    ∧ meta_evictionState (meta f') = meta_evictionState (meta f)
    ∧ meta_fileTotalSize (meta f') =
        Z.max (meta_fileTotalSize (meta f)) (offset + Z.of_nat (length buf))
    ∧ synced f' kv' ∧ kept f f' ∧ only_file (handle f) kv kv'
    ∧ (no_chunks_past f kv → no_chunks_past f' kv')
    ∧ ∀ i, 0 ≤ i < OFF_MAX → fbyte f kv' i =
        if decide (offset ≤ i < offset + Z.of_nat (length buf))
        then default Byte.x00 (buf !! Z.to_nat (i - offset)) else fbyte f kv i.
Proof.
  intros I Ho Hm. pose proof (fi_total _ _ I) as Ht.
  pose proof (wf_fileTotalSize _ (fi_wf _ _ I)) as Ht'.
  destruct (write_ok f kv clk offset buf I Ho Hm)
    as [(k & kv' & E & Hk & W & Hr)|(b & kv1 & kv' & E & W & Ep)].
  { by destruct (Hr reliable_kv). }
  set (m' := written_meta (meta f) (offset + Z.of_nat (length buf)) clk) in *.
  destruct (kv_put_true kv1 (inode_key (handle f)) (encode_meta m')) as [kv2 Ep2].
  rewrite Ep2 in Ep. injection Ep as <- <-.
  destruct (written_meta_fields f kv clk (offset + Z.of_nat (length buf)) I ltac:(lia))
    as (Hh & Hf & Hi & Hc & He & Hsz). fold m' in Hh, Hf, Hi, Hc, He, Hsz.
  eexists _, kv2. split; [exact E|].
  split; [|split; [done|split; [done|split; [done|split; [done|split; [|split; [|split; [|split]]]]]]]].
  - apply (file_inv_flush _ m' kv1 kv2 true); try done.
    + apply written_meta_wf, I.
    + rewrite Hc. apply I.
    + lia.
    + rewrite Hc. apply W.
    + rewrite Hc, Hsz. apply (eof_clean_wrote _ _ kv _ _ _ _ W); [|lia].
      intros i Hi'. apply (fi_eof _ _ I). lia.
  - apply (kv_put_eq _ _ _ _ Ep2).
  - split; try done; cbn; unfold m', written_meta; by destruct (_ <? _).
  - apply (only_file_put _ _ kv1 _ _ _ (wrote_only _ _ _ _ _ _ W) Ep2).
  - intros Htl c Hcr Hl. change (handle _) with (handle f).
    change (meta (set_metaDirty _ (set_meta m' f))) with m' in Hl.
    rewrite Hc, Hsz in Hl.
    rewrite (kv_put_ne _ _ _ _ _ _ Ep2) by apply inode_sub_key.
    rewrite (wrote_tail _ _ _ _ _ _ W) by lia. apply Htl; [done|lia].
  - intros i Hi'. unfold fbyte. rewrite (inode_put_byte _ _ _ _ _ _ _ Ep2).
    by rewrite (wrote_bytes _ _ _ _ _ _ W).
Qed.

Lemma evicted_inv f kv kv0 kv1 :
  file_inv f kv → resized (handle f) (meta_fileChunkSize (meta f)) kv kv0 0 →
  kv_put kv0 (inode_key (handle f)) (encode_meta (set_evictionState ES_DATA_EVICTED (meta f)))
    = (true, kv1) →
  file_inv (set_metaDirty false (set_meta (set_evictionState ES_DATA_EVICTED (meta f)) f)) kv1.
Proof.
  intros I R Ep. pose proof (wf_fileTotalSize _ (fi_wf _ _ I)).
  eapply (file_inv_flush _ (set_evictionState ES_DATA_EVICTED _) kv0 kv1 true); [..|exact Ep];
    try apply I.
  - apply wf_evictionState, I.
  - apply R.
  - intros i Hi. cbn in *. rewrite (resized_bytes _ _ _ _ _ R) by lia.
    by rewrite decide_False by lia.
Qed.

(** Reading an evicted file: the data comes back first. *)
Lemma read_evicted f kv clk tf content offset len :
  tier_Open (handle f) XID_MAX = Some tf → tiered_contents tf (handle f) content →
  Z.of_nat (length content) = meta_fileTotalSize (meta f) →
  file_inv f kv → meta_evictionState (meta f) = ES_DATA_EVICTED →
  0 ≤ offset ≤ meta_fileTotalSize (meta f) → 0 ≤ len ≤ MAX_SIZE →
  let n := Z.min len (meta_fileTotalSize (meta f) - offset) in
  ∃ f2 kv2, read offset len true (mkFS f kv clk) =
      Ok ((STATUS_OK, n, slice (Z.to_nat offset) (Z.to_nat n) content), mkFS f2 kv2 clk)
    ∧ meta_evictionState (meta f2) = ES_RESIDENT ∧ synced f2 kv2 ∧ file_inv f2 kv2
    ∧ handle f2 = handle f
    ∧ file_bytes kv2 (handle f2) (meta_fileChunkSize (meta f2)) 0
        (Z.to_nat (meta_fileTotalSize (meta f2))) = content.
Proof.
  intros Hop T Hlen I He Ho Hl n. set (g := set_hold (data_hold_count f + 1) f).
  pose proof (fi_total _ _ I) as Ht. pose proof (wf_fileTotalSize _ (fi_wf _ _ I)) as Ht'.
  destruct (UnEvict_ok tf g kv clk content Hop T Hlen (file_inv_hold _ _ _ I))
    as (kv1 & kv' & E & W & Ep).
  set (g' := set_metaDirty false (set_meta (set_evictionState ES_RESIDENT (meta g)) g)) in E.
  assert (file_inv g' kv') as I'.
  { unfold g'.
    eapply (file_inv_flush _ (set_evictionState ES_RESIDENT _) kv1 kv' true); [..|exact Ep];
      try apply I.
    - apply wf_evictionState, I.
    - apply W.
    - intros i Hi. cbn in *. rewrite (wrote_bytes _ _ _ _ _ _ W), decide_False by lia.
      apply (fi_eof _ _ I). cbn. lia. }
  assert (HoldData (mkFS f kv clk) = Ok (tt, mkFS g' kv' clk)) as Hhold.
  { unfold HoldData, upd, this. rewrite (bind_ok _ _ _ tt (mkFS g kv clk)) by done.
    rewrite (bind_ok _ _ _ g (mkFS g kv clk)) by done. cbn [g meta set_hold].
    rewrite He. rewrite decide_False by done.
    rewrite (bind_ok _ _ _ tt (mkFS g kv clk)) by done.
    by rewrite (bind_ok _ _ _ _ _ E). }
  rewrite (read_after_hold f kv clk g' kv' clk offset len Hhold I' eq_refl Ho Hl).
  assert (∀ o m, 0 ≤ o → (Z.to_nat o + m ≤ length content)%nat →
    file_bytes kv' (handle f) (meta_fileChunkSize (meta f)) o m = slice (Z.to_nat o) m content) as Hb.
  { intros o m Ho' Hm. apply list_eq. intros k. rewrite slice_lookup.
    destruct (decide (k < m)%nat) as [Hk|Hk].
    2:{ apply lookup_ge_None_2. rewrite file_bytes_length. lia. }
    rewrite file_bytes_lookup by done. rewrite (inode_put_byte _ _ _ _ _ _ _ Ep).
    cbn [g handle meta set_hold] in W.
    rewrite (wrote_bytes _ _ _ _ _ _ W), decide_True by (unfold OFF_MAX, MAX_SIZE in *; lia).
    replace (Z.to_nat (o + Z.of_nat k - 0)) with (Z.to_nat o + k)%nat by lia.
    by destruct (lookup_lt_is_Some_2 content (Z.to_nat o + k)) as [x ->]; [lia|]. }
  exists (set_hold (data_hold_count g' - 1) g'), kv'.
  split; [|split; [done|split; [|split; [by apply file_inv_hold|split; [done|]]]]].
  - fold n. do 4 f_equal. apply Hb; unfold n; lia.
  - apply (kv_put_eq _ _ _ _ Ep).
  - cbn [g' g handle meta set_metaDirty set_meta set_hold meta_fileChunkSize meta_fileTotalSize set_evictionState].
    rewrite Hb by lia. unfold slice. rewrite drop_0, take_ge by lia. done.
Qed.

Lemma slice_file_bytes kv h cs offset n total :
  0 ≤ offset → (Z.to_nat offset + n ≤ total)%nat →
  slice (Z.to_nat offset) n (file_bytes kv h cs 0 total) = file_bytes kv h cs offset n.
Proof.
  intros Ho Hn. apply list_eq. intros k. rewrite slice_lookup.
  destruct (decide (k < n)%nat).
  - rewrite !file_bytes_lookup by lia. do 2 f_equal. lia.
  - symmetry. apply lookup_ge_None_2. rewrite file_bytes_length. lia.
Qed.

End Data.

(** ** Properties *)

Section Properties.
Context {S : Type} `{KVStoreLaws S} `{FsEnv}.


(** C12: [read] returns the file's bytes.  From any offset up to the end of the
    file it stores, and reports, the bytes from there to the end of the request or of
    the file, whichever comes first; it never stores more than was asked for, holes
    read as zeros, and neither the object nor the store changes. *)
Theorem read_correct f (kv : S) clk offset len :
  file_inv f kv → meta_evictionState (meta f) = ES_RESIDENT →
  0 ≤ offset ≤ meta_fileTotalSize (meta f) → 0 ≤ len ≤ MAX_SIZE →
  ∃ n out, read offset len true (mkFS f kv clk) = Ok ((STATUS_OK, n, out), mkFS f kv clk)
    ∧ n = Z.min len (meta_fileTotalSize (meta f) - offset)
    ∧ Z.of_nat (length out) = n ∧ n ≤ len
    ∧ ∀ i, offset ≤ i < offset + n → out !! Z.to_nat (i - offset) = Some (fbyte f kv i).
Proof.
  intros I Hr Ho Hl. eexists _, _. split; [by apply read_ok|]. split; [done|].
  rewrite file_bytes_length. split; [lia|]. split; [lia|].
  intros i Hi. rewrite file_bytes_lookup by lia. do 2 f_equal. lia.
Qed.

(** What was written is what is read.  On a store whose updates succeed, after
    any [write] below the size bound, a [read] of the same range returns the buffer
    that was written. *)
Theorem read_after_write `{!KVReliable S} f (kv : S) clk offset buf :
  file_inv f kv → meta_evictionState (meta f) = ES_RESIDENT →
  0 ≤ offset → offset + Z.of_nat (length buf) ≤ MAX_SIZE →
  ∃ s', write offset (Some buf) true (mkFS f kv clk) =
      Ok ((STATUS_OK, Z.of_nat (length buf)), s')
    ∧ read offset (Z.of_nat (length buf)) true s' =
      Ok ((STATUS_OK, Z.of_nat (length buf), buf), s').
Proof.
  intros I Hr Ho Hm.
  destruct (written_state f kv clk offset buf I Ho Hm) as (f' & kv' & E & I' & Hh & Hc & He & Hsz & _ & _ & _ & _ & Hb).
  eexists. split; [exact E|].
  rewrite read_ok; [|done|by rewrite He|lia|lia].
  rewrite Hsz, Z.min_l by lia. rewrite Nat2Z.id. do 3 f_equal. rewrite Hh, Hc.
  apply list_eq. intros k. destruct (decide (k < length buf)%nat) as [Hk|Hk].
  - rewrite file_bytes_lookup by done. unfold fbyte in Hb.
    rewrite Hb, decide_True by (unfold OFF_MAX, MAX_SIZE in *; lia).
    destruct (lookup_lt_is_Some_2 buf k Hk) as [x Ex].
    replace (Z.to_nat (offset + Z.of_nat k - offset)) with k by lia. by rewrite Ex.
  - rewrite !lookup_ge_None_2; [done|lia|rewrite file_bytes_length; lia].
Qed.

(** C13: [SetSize] truncates and extends.  It works from the stored metadata (the
    cached copy is replaced first); bytes below the new size keep their values, every
    byte from the new size on reads as zero, the invariant holds for the new size, and
    the new metadata is stored. *)
Theorem SetSize_correct `{!KVReliable S} f (kv : S) clk m new_size :
  kv_get kv (inode_key (handle f)) = Some (encode_meta m) → file_inv (set_meta m f) kv →
  0 ≤ new_size ≤ MAX_SIZE →
  ∃ f' kv' clk', SetSize new_size (mkFS f kv clk) = Ok (STATUS_OK, mkFS f' kv' clk')
    ∧ file_inv f' kv' ∧ synced f' kv' ∧ handle f' = handle f
    ∧ meta_fileTotalSize (meta f') = new_size
    ∧ (∀ i, 0 ≤ i < OFF_MAX → fbyte f' kv' i =
         if decide (i < new_size) then fbyte (set_meta m f) kv i else Byte.x00)
    ∧ (∀ k, k ≠ inode_key (handle f) → (∀ c, 0 ≤ c < OFF_MAX → k ≠ sub_key (handle f) c) →
         kv_get kv' k = kv_get kv k).
Proof.
  intros E I Hn. destruct (SetSize_ok f kv clk m new_size E I Hn) as (kv1 & kv' & Es & R & Ep & _).
  assert (u64 new_size = new_size) as Hu by (apply u64_small; unfold MAX_SIZE in *; lia).
  eexists _, kv', _. split; [exact Es|]. split; [|split; [|split; [done|split; [done|split]]]].
  - by apply (SetSize_inv f kv kv1).
  - apply (kv_put_eq _ _ _ _ Ep).
  - intros i Hi. unfold fbyte. cbn. rewrite (inode_put_byte _ _ _ _ _ _ _ Ep).
    by apply (resized_bytes _ _ _ _ _ R).
  - intros k Hk1 Hk2. rewrite (kv_put_ne _ _ _ _ _ _ Ep) by done.
    by apply (resized_only _ _ _ _ _ R).
Qed.

(** Eviction loses nothing that the tiered copy has.  [Evict] removes the data
    (every byte then reads as zero in the store) and marks the inode; if the tiering
    agent can open a copy whose contents are the file's contents, the next [read]
    brings the data back and returns what a [read] before the eviction would have
    returned, for every range. *)
Theorem evict_then_read_restores `{!KVReliable S} f (kv : S) clk tf :
  file_inv f kv → synced f kv →
  tier_Open (handle f) XID_MAX = Some tf →
  tiered_contents tf (handle f)
    (file_bytes kv (handle f) (meta_fileChunkSize (meta f)) 0
       (Z.to_nat (meta_fileTotalSize (meta f)))) →
  ∃ f1 kv1, Evict (mkFS f kv clk) = Ok (STATUS_OK, mkFS f1 kv1 clk)
    ∧ meta_evictionState (meta f1) = ES_DATA_EVICTED
    ∧ (∀ i, 0 ≤ i < OFF_MAX → fbyte f1 kv1 i = Byte.x00)
    ∧ ∀ offset len, 0 ≤ offset ≤ meta_fileTotalSize (meta f) → 0 ≤ len ≤ MAX_SIZE →
        let n := Z.min len (meta_fileTotalSize (meta f) - offset) in
        ∃ f2 kv2, read offset len true (mkFS f1 kv1 clk) =
            Ok ((STATUS_OK, n, file_bytes kv (handle f) (meta_fileChunkSize (meta f)) offset
                   (Z.to_nat n)), mkFS f2 kv2 clk)
          ∧ meta_evictionState (meta f2) = ES_RESIDENT ∧ synced f2 kv2 ∧ file_inv f2 kv2.
Proof.
  intros I Hs Hop T. destruct (Evict_ok f kv clk I Hs) as (kv0 & kv1 & E & R & Ep).
  pose proof (evicted_inv f kv kv0 kv1 I R Ep) as I1.
  eexists _, kv1. split; [exact E|]. split; [done|]. split.
  { intros i Hi. unfold fbyte. cbn. rewrite (inode_put_byte _ _ _ _ _ _ _ Ep).
    rewrite (resized_bytes _ _ _ _ _ R) by done. by rewrite decide_False by lia. }
  intros offset len Ho Hl n.
  destruct (read_evicted (set_metaDirty false
      (set_meta (set_evictionState ES_DATA_EVICTED (meta f)) f)) kv1 clk tf _ offset len
      Hop T ltac:(rewrite file_bytes_length; pose proof (wf_fileTotalSize _ (fi_wf _ _ I)); cbn; lia)
      I1 eq_refl Ho Hl) as (f2 & kv2 & E2 & He2 & Hs2 & I2 & _).
  exists f2, kv2. split; [|done]. rewrite E2. cbn [handle meta set_metaDirty set_meta].
  fold n. do 3 f_equal. apply slice_file_bytes; [lia|]. cbn. unfold n. lia.
Qed.

(** C35: a read that starts past the end of the file, in the chunk that holds the
    end, does not return 0 bytes: the length that is left underflows, and [read]
    stores zeros up to the end of the chunk, whatever length was asked for.  A request
    for fewer bytes than that overruns the caller's buffer. *)
Theorem read_past_eof_overruns f (kv : S) clk offset len :
  file_inv f kv → meta_evictionState (meta f) = ES_RESIDENT →
  let cs := meta_fileChunkSize (meta f) in
  let total := meta_fileTotalSize (meta f) in
  0 < total < offset → offset / cs = (total - 1) / cs → 0 < len ≤ MAX_SIZE →
  let z := cs - offset mod cs in
  0 < z ∧
  read offset len true (mkFS f kv clk) =
    Ok ((STATUS_OK, z, replicate (Z.to_nat z) Byte.x00), mkFS f kv clk).
Proof.
  intros I Hr cs total Ho Hq Hl z.
  pose proof (fi_cs _ _ I) as Hcs. pose proof (wf_fileChunkSize _ (fi_wf _ _ I)) as Hcs2.
  pose proof (fi_total _ _ I) as Ht. fold cs in Hcs, Hcs2. fold total in Ht.
  unfold MAX_SIZE in *. pose proof (Z.mod_pos_bound offset cs Hcs) as Hm.
  pose proof (Z.div_mod offset cs ltac:(lia)) as Ed. split; [unfold z; lia|].
  assert (offset < total + cs) as Hoff.
  { pose proof (Z.mod_pos_bound (total - 1) cs Hcs).
    pose proof (Z.div_mod (total - 1) cs ltac:(lia)). rewrite <-Hq in *. lia. }
  set (f1 := set_hold (data_hold_count f + 1) f).
  assert (HoldData (mkFS f kv clk) = Ok (tt, mkFS f1 kv clk)) as Hh.
  { unfold HoldData, upd, this. mrun. cbn [f_this f_kv f_clock meta set_hold].
    by rewrite decide_True. }
  unfold read. cbn [negb]. unfold this at 1. rewrite (bind_ok _ _ _ f (mkFS f kv clk)) by done.
  fold total. rewrite !i64_small by lia. rewrite (proj2 (Z.ltb_lt _ _)) by lia.
  rewrite (bind_ok _ _ _ _ _ Hh). unfold this. rewrite (bind_ok _ _ _ f1 (mkFS f1 kv clk)) by done.
  cbn [f1 meta set_hold handle]. rewrite (fi_init _ _ I). fold cs.
  assert (u64 (total - offset) = total - offset + 18446744073709551616) as Hu.
  { unfold u64. symmetry. apply (Z.mod_unique _ _ (-1)); lia. }
  rewrite Hu. rewrite (proj2 (Z.ltb_lt _ _)) by lia. rewrite !Z.sub_0_r.
  rewrite (u64_small (_ - 1)) by lia.
  replace (total - offset + 18446744073709551616 - 1)
    with (total - offset - 1 + 18446744073709551616) by lia.
  rewrite i64_plus_64, (i64_small (total - offset - 1)) by lia. unfold off_div. rewrite (proj2 (Z.eqb_neq cs 0)) by lia.
  replace (offset + (total - offset - 1)) with (total - 1) by lia.
  rewrite !Z.quot_div_nonneg by lia. rewrite <-Hq. set (c := offset / cs) in *.
  mrun. unfold loop_count. replace (Z.to_nat (c - c + 1)) with 1%nat by lia.
  cbn [f_kv read_loop]. rewrite Z.add_0_l. rewrite (proj2 (Z.ltb_ge offset (c * cs))) by lia.
  rewrite i64_plus_64, (i64_small (total - offset)) by lia. rewrite (proj2 (Z.ltb_ge 0 (Z.min _ _))) by lia.
  rewrite (proj2 (Z.ltb_lt 0 _)) by lia.
  rewrite (u64_small (c * cs + cs - offset)) by lia.
  replace (Z.min _ _) with z by (unfold z; lia).
  unfold ReleaseData, upd. mrun. cbn [f_this f_kv f_clock app].
  assert (u64 (total - offset + 18446744073709551616
    - u64 (total - offset + 18446744073709551616 - z)) = z) as ->.
  { rewrite (u64_small (_ - z)) by (unfold z; lia). rewrite u64_small by (unfold z; lia). lia. }
  unfold f1. rewrite set_hold_id. by destruct f.
Qed.

(** C36: [write] does not bring evicted data back, so a write to an evicted file is
    lost or fatal.  After a successful write that stays inside the file, the next read
    restores the tiered copy over it and returns the old bytes; after one that extends
    the file, the next read fails the size assertion in [UnEvict]. *)
Theorem write_to_evicted_lost `{!KVReliable S} f (kv : S) clk tf content offset buf :
  file_inv f kv → meta_evictionState (meta f) = ES_DATA_EVICTED →
  tier_Open (handle f) XID_MAX = Some tf → tiered_contents tf (handle f) content →
  Z.of_nat (length content) = meta_fileTotalSize (meta f) →
  0 ≤ offset → offset + Z.of_nat (length buf) ≤ MAX_SIZE →
  ∃ s', write offset (Some buf) true (mkFS f kv clk) =
      Ok ((STATUS_OK, Z.of_nat (length buf)), s')
    ∧ if decide (offset + Z.of_nat (length buf) ≤ meta_fileTotalSize (meta f))
      then ∃ s'', read offset (Z.of_nat (length buf)) true s' =
             Ok ((STATUS_OK, Z.of_nat (length buf),
                  slice (Z.to_nat offset) (length buf) content), s'')
      else ∀ o l, read o l true s' = Crash AssertFailed.
Proof.
  intros I He Hop T Hlen Ho Hm.
  destruct (written_state f kv clk offset buf I Ho Hm) as (f' & kv' & E & I' & Hh & Hc & He' & Hsz & _).
  eexists. split; [exact E|]. rewrite He in He'. rewrite <-Hh in Hop, T.
  destruct (decide _) as [Hin|Hout].
  - rewrite Z.max_l in Hsz by lia.
    destruct (read_evicted f' kv' (Datatypes.S (Datatypes.S clk)) tf content offset
      (Z.of_nat (length buf)) Hop T ltac:(lia) I' He' ltac:(lia) ltac:(lia)) as (f2 & kv2 & E2 & _).
    eexists. rewrite E2, Hsz, Z.min_l, Nat2Z.id by lia. done.
  - intros o l. unfold read. cbn [negb]. unfold HoldData, UnEvict, this, upd. mrun.
    cbn [f_this f_kv f_clock meta set_hold]. rewrite He', decide_False by done.
    cbn [bool_decide decide_rel]. rewrite bool_decide_true by done.
    cbn [f_this f_kv f_clock meta set_hold]. rewrite (fi_handle _ _ I'), Hop, (tc_fstat _ _ _ T).
    rewrite (tc_ino _ _ _ T), Z.eqb_refl. pose proof (fi_total _ _ I').
    rewrite i64_small by (pose proof (wf_fileTotalSize _ (fi_wf _ _ I')); unfold MAX_SIZE in *; lia).
    by rewrite (proj2 (Z.eqb_neq _ _)) by lia.
Qed.

End Properties.

(** ** Witnesses: a three-byte file in four-byte chunks *)

Definition demo_env (t : Z → Z → option TieredFile) : FsEnv := {|
  env_time n := 1000 + Z.of_nat n;
  env_uid := 0;
  env_gid := 0;
  CityHash64 b := Z.of_nat (length b);
  tier_Open := t;
|}.

Definition demo_tier (content : bytes) : Z → Z → option TieredFile := λ h _,
  Some (MkTiered (Some (Z.of_nat (length content))) h
          (λ off n, Some (slice (Z.to_nat off) (Z.to_nat n) content))).

Definition demo_meta (e : EvictionState) : LogFSMetaData :=
  set_evictionState e (set_size 3 (init_fields 1 5 0 0 (new_meta 0 4))).
Definition demo_file (e : EvictionState) : LogFSFile :=
  MkFile 1 5 (lit "x") (demo_meta e) 0 false 0 None.
Definition demo_kv (e : EvictionState) : MemStore :=
  <[inode_key 5 := encode_meta (demo_meta e)]> {[ sub_key 5 0 := lit "abc" ]}.

Lemma demo_tier_contents h content :
  ∃ tf, demo_tier content h XID_MAX = Some tf ∧ tiered_contents tf h content.
Proof. eexists. split; [done|]. by split. Qed.

(** The store of an inode with these bytes and one chunk. *)
Definition demo_small (v : bytes) : MemStore := <[inode_key 5 := v]> {[ sub_key 5 0 := lit "abc" ]}.

Lemma demo_chunk v c :
  0 ≤ c < OFF_MAX → kv_get (demo_small v) (sub_key 5 c) = if decide (c = 0) then Some (lit "abc") else None.
Proof.
  intros Hc. cbn. unfold demo_small. rewrite lookup_insert_ne by apply inode_sub_key.
  case_decide as E; [subst c; by rewrite lookup_singleton_eq|].
  apply lookup_singleton_ne. unfold OFF_MAX in *. apply sub_key_ne; lia.
Qed.

Lemma demo_small_inv f v :
  wf_meta (meta f) → handle f = 5 → meta_handle (meta f) = 5 → meta_fsId (meta f) = fsId f →
  meta_fileInitialSize (meta f) = 0 → meta_fileChunkSize (meta f) = 4 →
  meta_fileTotalSize (meta f) = 3 → file_inv f (demo_small v).
Proof.
  intros W Hh Hm Hf Hi Hc Ht. split; rewrite ?Hh, ?Hc, ?Ht; try done.
  - intros c w Hb. rewrite demo_chunk by done. case_decide; [intros [= <-]; cbn; lia|done].
  - intros i Hr. unfold file_byte. rewrite demo_chunk by (apply chunk_of_offset; lia).
    case_decide as E; [|done]. assert (i = 3) as -> by (apply Z.div_small_iff in E; lia). done.
Qed.

Lemma demo_inv e : file_inv (demo_file e) (demo_kv e).
Proof. by apply demo_small_inv. Qed.


Lemma read_correct_witness :
  ∃ n out, @read _ _ (demo_env (demo_tier [])) 1 10 true
      (mkFS (demo_file ES_RESIDENT) (demo_kv ES_RESIDENT) 0)
      = Ok ((STATUS_OK, n, out), mkFS (demo_file ES_RESIDENT) (demo_kv ES_RESIDENT) 0)
    ∧ n = Z.min 10 (3 - 1)
    ∧ Z.of_nat (length out) = n ∧ n ≤ 10
    ∧ ∀ i, 1 ≤ i < 1 + n →
        out !! Z.to_nat (i - 1) = Some (fbyte (demo_file ES_RESIDENT) (demo_kv ES_RESIDENT) i).
Proof.
  apply (@read_correct _ _ (demo_env (demo_tier [])) (demo_file ES_RESIDENT)
    (demo_kv ES_RESIDENT) 0 1 10); [apply demo_inv|done|cbn; lia|unfold MAX_SIZE; lia].
Defined.

Lemma read_after_write_witness :
  ∃ s', @write _ _ (demo_env (demo_tier [])) 2 (Some (lit "WXYZ")) true
      (mkFS (demo_file ES_RESIDENT) (demo_kv ES_RESIDENT) 0)
      = Ok ((STATUS_OK, Z.of_nat (length (lit "WXYZ"))), s')
    ∧ @read _ _ (demo_env (demo_tier [])) 2 (Z.of_nat (length (lit "WXYZ"))) true s' =
      Ok ((STATUS_OK, Z.of_nat (length (lit "WXYZ")), lit "WXYZ"), s').
Proof.
  apply (@read_after_write _ _ _ (demo_env (demo_tier [])) _ (demo_file ES_RESIDENT)
    (demo_kv ES_RESIDENT) 0 2 (lit "WXYZ")); [apply demo_inv|done|lia|cbn; unfold MAX_SIZE; lia].
Defined.

Lemma demo_synced e : synced (demo_file e) (demo_kv e).
Proof. unfold synced. cbn. apply lookup_insert_eq. Qed.

Lemma SetSize_correct_witness :
  ∃ f' kv' clk', @SetSize _ _ (demo_env (demo_tier [])) 2
      (mkFS (demo_file ES_RESIDENT) (demo_kv ES_RESIDENT) 0) = Ok (STATUS_OK, mkFS f' kv' clk')
    ∧ file_inv f' kv' ∧ synced f' kv' ∧ handle f' = 5
    ∧ meta_fileTotalSize (meta f') = 2
    ∧ (∀ i, 0 ≤ i < OFF_MAX → fbyte f' kv' i =
         if decide (i < 2)
         then fbyte (set_meta (demo_meta ES_RESIDENT) (demo_file ES_RESIDENT)) (demo_kv ES_RESIDENT) i
         else Byte.x00)
    ∧ (∀ k, k ≠ inode_key 5 → (∀ c, 0 ≤ c < OFF_MAX → k ≠ sub_key 5 c) →
         kv_get kv' k = kv_get (demo_kv ES_RESIDENT) k).
Proof.
  apply (@SetSize_correct _ _ _ (demo_env (demo_tier [])) _ (demo_file ES_RESIDENT)
    (demo_kv ES_RESIDENT) 0 (demo_meta ES_RESIDENT) 2);
    [apply demo_synced|apply demo_inv|unfold MAX_SIZE; lia].
Defined.

Lemma evict_then_read_restores_witness :
  ∃ f1 kv1, Evict
      (mkFS (demo_file ES_RESIDENT) (demo_kv ES_RESIDENT) 0) = Ok (STATUS_OK, mkFS f1 kv1 0)
    ∧ meta_evictionState (meta f1) = ES_DATA_EVICTED
    ∧ (∀ i, 0 ≤ i < OFF_MAX → fbyte f1 kv1 i = Byte.x00)
    ∧ ∀ offset len, 0 ≤ offset ≤ 3 → 0 ≤ len ≤ MAX_SIZE →
        let n := Z.min len (3 - offset) in
        ∃ f2 kv2, @read _ _ (demo_env (demo_tier (lit "abc"))) offset len true (mkFS f1 kv1 0) =
            Ok ((STATUS_OK, n, file_bytes (demo_kv ES_RESIDENT) 5 4 offset (Z.to_nat n)),
                mkFS f2 kv2 0)
          ∧ meta_evictionState (meta f2) = ES_RESIDENT ∧ synced f2 kv2 ∧ file_inv f2 kv2.
Proof.
  destruct (demo_tier_contents 5 (lit "abc")) as (tf & Hop & T).
  apply (@evict_then_read_restores _ _ _ (demo_env (demo_tier (lit "abc"))) _
    (demo_file ES_RESIDENT) (demo_kv ES_RESIDENT) 0 tf (demo_inv _) (demo_synced _) Hop).
  replace (file_bytes _ _ _ _ _) with (lit "abc") by (vm_compute; reflexivity). exact T.
Defined.

Lemma read_past_eof_overruns_witness :
  0 < 4 - 3 `mod` 4 ∧
  @read _ _ (demo_env (demo_tier [])) 3 1 true
    (mkFS (set_meta (set_size 2 (demo_meta ES_RESIDENT)) (demo_file ES_RESIDENT)) ∅ 0) =
  Ok ((STATUS_OK, 4 - 3 `mod` 4, replicate (Z.to_nat (4 - 3 `mod` 4)) Byte.x00),
      mkFS (set_meta (set_size 2 (demo_meta ES_RESIDENT)) (demo_file ES_RESIDENT))
        (∅ : MemStore) 0).
Proof.
  apply (@read_past_eof_overruns _ _ (demo_env (demo_tier []))
    (set_meta (set_size 2 (demo_meta ES_RESIDENT)) (demo_file ES_RESIDENT))
    (∅ : MemStore) 0 3 1); [|done|cbn; lia|done|unfold MAX_SIZE; lia].
  split; try done.
Defined.

Lemma write_to_evicted_lost_witness :
  ∃ s', @write _ _ (demo_env (demo_tier (lit "abc"))) 1 (Some (lit "Z")) true
      (mkFS (demo_file ES_DATA_EVICTED) (demo_kv ES_DATA_EVICTED) 0) =
      Ok ((STATUS_OK, Z.of_nat (length (lit "Z"))), s')
    ∧ if decide (1 + Z.of_nat (length (lit "Z")) ≤ 3)
      then ∃ s'', @read _ _ (demo_env (demo_tier (lit "abc"))) 1 (Z.of_nat (length (lit "Z"))) true s' =
             Ok ((STATUS_OK, Z.of_nat (length (lit "Z")),
                  slice (Z.to_nat 1) (length (lit "Z")) (lit "abc")), s'')
      else ∀ o l, @read _ _ (demo_env (demo_tier (lit "abc"))) o l true s' = Crash AssertFailed.
Proof.
  destruct (demo_tier_contents 5 (lit "abc")) as (tf & Hop & T).
  apply (@write_to_evicted_lost _ _ _ (demo_env (demo_tier (lit "abc"))) _
    (demo_file ES_DATA_EVICTED) (demo_kv ES_DATA_EVICTED) 0 tf (lit "abc") 1 (lit "Z"));
    [apply demo_inv|done|exact Hop|exact T|done|lia|cbn; unfold MAX_SIZE; lia].
Defined.
