(* ===== verification/Directory.v ===== *)
(** * Directory operations (the directory half of src/KVFSFile.cc)

    A directory spreads its entries over partitions by a hash of the name;
    [GetPartition] allocates the vector of partitions and its elements on first use.
    The last part models the methods that work on two objects, over a heap. *)

From Stdlib Require Import ZArith Lia Strings.String.
From stdpp Require Import base list gmap.
From S2P Require Import Prelude Status Mode SortedMap KVStore MetaData Partition File.

Definition DEFAULT_PARTITIONS_PER_DIRECTORY : nat := 2.
Definition MAX_ENTRIES_PER_PARTITION : Z := 1000000.

Definition get_num_partitions (f : LogFSFile) : nat :=
  match partitions f with
  | None => DEFAULT_PARTITIONS_PER_DIRECTORY
  | Some ps => length ps
  end.

(** The partition vector, allocated if it is null. *)
Definition parts_of (f : LogFSFile) : list (option LogFSDirectoryPartition) :=
  default (replicate DEFAULT_PARTITIONS_PER_DIRECTORY None) (partitions f).

Section Directory.
Context {S : Type} `{KVStore S} `{FsEnv}.

Abbreviation FM := (M (FState S)).

(** [GetPartition(i)]: [at] throws when [i] is out of range. *)
Definition GetPartition (i : nat) : FM LogFSDirectoryPartition :=
  f ← this;
  let ps := parts_of f in
  match ps !! i with
  | None => crash_with UncaughtException
  | Some (Some part) => upd (set_parts (Some ps));; mret part
  | Some None =>
      let part := new_partition (Z.of_nat i) (fsId f) (handle f) in
      upd (set_parts (Some (<[i := Some part]> ps)));;
      mret part
  end.

(** [GetPartition(name)]: which one. *)
Definition partition_index (f : LogFSFile) (name : bytes) : nat :=
  Z.to_nat (u64 (CityHash64 name) mod Z.of_nat (get_num_partitions f)).

(** A call on partition [i]. *)
Definition at_partition (i : nat) {A} (m : M (LogFSDirectoryPartition * S) A) : FM A :=
  p ← GetPartition i;
  (λ s, match m (p, f_kv s) with
       | Ok (a, (p', kv')) =>
           Ok (a, mkFS (set_parts (Some (<[i := Some p']> (parts_of (f_this s)))) (f_this s))
                       kv' (f_clock s))
       | Crash c => Crash c
       end) : FM A.

Definition findHandle (name : bytes) : FM Z :=
  f ← this; at_partition (partition_index f name) (part_findEntry name).

Definition insertEntry (h : Z) (name : bytes) : FM Status :=
  f ← this;
  err ← at_partition (partition_index f name) (part_insertEntry h name);
  mret (if negb (err =? 0) then STATUS_INTERNAL_ERROR else STATUS_OK).

Definition removeEntry (h : Z) (name : bytes) : FM Status :=
  f ← this;
  err ← at_partition (partition_index f name) (part_removeEntry h name);
  mret (if negb (err =? 0) then STATUS_INTERNAL_ERROR else STATUS_OK).

(** The loop of [isDirEmpty], [n] partitions left. *)
Fixpoint empty_loop (n i : nat) (isEmpty : bool) : FM bool :=
  match n with
  | O => mret isEmpty
  | Datatypes.S n =>
      if isEmpty then
        e ← at_partition i isPartitionEmpty; empty_loop n (Datatypes.S i) e
      else mret isEmpty
  end.

Definition isDirEmpty : FM bool :=
  f ← this; empty_loop (get_num_partitions f) 0 true.

(** The loop of [listDirectory], in a state [St] that has the directory in it
    ([at_file]) and the adder ([add] and [get_out_of_space]). *)
Fixpoint list_dir_loop {St} (at_file : ∀ A, FM A → M St A)
    (add : bytes → Z → Z → M St bool) (out_of_space : M St bool)
    (n i : nat) (cur_offset : Z) : M St unit :=
  match n with
  | O => mret tt
  | Datatypes.S n =>
      oos ← out_of_space;
      if (oos : bool) then mret tt
      else
        let part_base_offset := Z.of_nat i * MAX_ENTRIES_PER_PARTITION in
        let cur_offset := if cur_offset <? part_base_offset then part_base_offset else cur_offset in
        err ← listEntries (λ A m, at_file A (at_partition i m)) add cur_offset part_base_offset;
        EXPECT (err =? 0);;
        list_dir_loop at_file add out_of_space n (Datatypes.S i) cur_offset
  end.

(** [listDirectory]: start with the partition the offset falls in ([uint16_t i]). *)
Definition listDirectory {St} (at_file : ∀ A, FM A → M St A)
    (add : bytes → Z → Z → M St bool) (out_of_space : M St bool) (cur_offset : Z) : M St Status :=
  ex ← at_file _ exists_;
  if negb ex then mret STATUS_OBJECT_DOESNT_EXIST
  else
    f ← at_file _ this;
    let i := Z.to_nat (u16 (Z.quot cur_offset MAX_ENTRIES_PER_PARTITION)) in
    list_dir_loop at_file add out_of_space (get_num_partitions f - i) i cur_offset;;
    mret STATUS_OK.

(** ** Operations on two objects *)

(** A heap of LogFSFile objects, by address. *)
Record World := mkW { w_heap : gmap Z LogFSFile; w_kv : S; w_clock : nat }.

Abbreviation WM := (M World).

(** A method of the object at [p]; a dangling or null pointer is undefined. *)
Definition at_obj (p : Z) {A} (m : FM A) : WM A := λ w,
  match w_heap w !! p with
  | None => Crash UndefinedBehaviour
  | Some f =>
      match m (mkFS f (w_kv w) (w_clock w)) with
      | Ok (a, s) => Ok (a, mkW (<[p := f_this s]> (w_heap w)) (f_kv s) (f_clock s))
      | Crash c => Crash c
      end
  end.

(** [connectDots], called on [dot]. *)
Definition connectDots (dot dotdot : Z) : WM Status :=
  fd ← at_obj dot this; fdd ← at_obj dotdot this;
  status ← at_obj dot (insertEntry (handle fd) (lit "."));
  if decide (status = STATUS_OK) then
    at_obj dot (NLinkAdjust 1);;
    at_obj dot (upd (set_metaDirty true));;
    status ← at_obj dot (insertEntry (handle fdd) (lit ".."));
    if decide (status = STATUS_OK) then
      at_obj dotdot (NLinkAdjust 1);;
      at_obj dotdot (upd (set_metaDirty true));;
      mret status
    else mret status
  else mret status.

(** [create]: a new inode under [parent], with the dot entries for a directory. *)
Definition create (self parent : Z) : WM Status :=
  at_obj self initMeta;;
  f ← at_obj self this;
  err ← at_obj parent (insertEntry (handle f) (nameString f));
  if decide (err = STATUS_OK) then
    at_obj self (NLinkAdjust 1);;
    f ← at_obj self this;
    (if decide (meta_type (meta f) = LOGFS_IFDIR)
     then connectDots self parent;; at_obj parent writeToLog;; mret tt
     else mret tt);;
    at_obj self writeToLog
  else mret STATUS_INTERNAL_ERROR.

(** [link], called on the directory [self]. *)
Definition link (self file : Z) (name : bytes) : WM Status :=
  ff ← at_obj file this;
  err ← at_obj self (insertEntry (handle ff) name);
  if decide (err = STATUS_OK) then
    t ← at_obj self time; at_obj self (UpdateCTime t);;
    t ← at_obj self time; at_obj self (UpdateMTime t);;
    at_obj file (NLinkAdjust 1);;
    t ← at_obj file time; at_obj file (UpdateCTime t);;
    ff ← at_obj file this;
    EXPECT (bool_decide (meta_type (meta ff) = LOGFS_IFREG));;
    status ← at_obj self writeToLog;
    at_obj file writeToLog;;
    mret status
  else mret STATUS_INTERNAL_ERROR.

(** [remove]: takes [self] out of [parent]; the link count is not persisted here. *)
Definition remove (self parent : Z) (name : bytes) : WM Status :=
  f ← at_obj self this;
  err ← at_obj parent (removeEntry (handle f) name);
  if decide (err = STATUS_OK) then at_obj self (NLinkAdjust (-1));; mret STATUS_OK
  else mret STATUS_INTERNAL_ERROR.

Definition createRoot (self : Z) : WM Status :=
  at_obj self initMeta;;
  connectDots self self;;
  at_obj self writeToLog.

End Directory.

Arguments World S : clear implicits.
Arguments mkW {S} _ _ _.
