(* ===== verification/DirectoryProps.v ===== *)
(** * Directories as name maps

    The abstract view of a directory object is a finite map from names to inode
    numbers; a name lives in the partition its hash selects.  The lemmas lift the
    partition refinement through [GetPartition], and the theorems state what the
    directory methods and the two-object methods (create, link, remove, createRoot)
    do to the maps, the link counts and the stored inodes. *)

From Stdlib Require Import ZArith Lia Strings.String.
From stdpp Require Import base list gmap.
From S2P Require Import Prelude Status Mode SortedMap KVStore MetaData Partition File FileData.
From S2P Require Import Directory.

(** ** Specification *)

(** Partition [i] of a directory object: the cached one, or a new one. *)
Definition part_at (f : LogFSFile) (i : nat) : LogFSDirectoryPartition :=
  match parts_of f !! i with
  | Some (Some p) => p
  | _ => new_partition (Z.of_nat i) (fsId f) (handle f)
  end.

Definition with_part (i : nat) (p : LogFSDirectoryPartition) (f : LogFSFile) : LogFSFile :=
  set_parts (Some (<[i := Some p]> (parts_of f))) f.

(** What a name is bound to. *)
Definition dir_find {S} `{KVStore S} `{FsEnv} (f : LogFSFile) (kv : S) (name : bytes) : option Z :=
  sm_find name (part_abs (part_at f (partition_index f name)) kv).

(** The invariant of a directory object: its partitions belong to it and satisfy
    the partition invariant, and every name is in the partition of its hash. *)
Record dir_inv {S} `{KVStore S} `{FsEnv} (f : LogFSFile) (kv : S) : Prop := {
  di_count : 0 < Z.of_nat (length (parts_of f)) < 65536;
  di_fs : 0 ≤ fsId f < 18446744073709551616;
  di_ino : 0 ≤ handle f < 18446744073709551616;
  di_parts i : (i < length (parts_of f))%nat →
    part_inv (part_at f i) kv ∧ partitionNumber (part_at f i) = Z.of_nat i
    ∧ part_fsId (part_at f i) = fsId f ∧ dir_ino (part_at f i) = handle f;
  di_placed i name h : (i < length (parts_of f))%nat →
    sm_find name (part_abs (part_at f i) kv) = Some h → partition_index f name = i;
}.

(** Room for [name] in its partition. *)
Definition dir_fits {S} `{KVStore S} `{FsEnv} (f : LogFSFile) (kv : S) (name : bytes) : Prop :=
  fits (part_abs (part_at f (partition_index f name)) kv) name.

(** The new object differs from the old one only in its partitions. *)
Definition same_but_parts (f f' : LogFSFile) : Prop :=
  ∃ ps, f' = set_parts ps f ∧ length (parts_of f') = length (parts_of f).

(** ** Lemmas: partitions of an object *)

Section Lemmas.
Context {S : Type} `{KVStoreLaws S} `{FsEnv}.
Implicit Types (kv : S) (f : LogFSFile).

Lemma num_parts f : get_num_partitions f = length (parts_of f).
Proof. unfold get_num_partitions, parts_of. by destruct (partitions f). Qed.

Lemma partition_index_lt f name :
  0 < Z.of_nat (length (parts_of f)) → (partition_index f name < length (parts_of f))%nat.
Proof.
  intros Hn. unfold partition_index. rewrite num_parts.
  pose proof (Z.mod_pos_bound (u64 (CityHash64 name)) (Z.of_nat (length (parts_of f)))). lia.
Qed.

Lemma partition_index_with i p f name :
  partition_index (with_part i p f) name = partition_index f name.
Proof. unfold partition_index. rewrite !num_parts. cbn. by rewrite length_insert. Qed.

Lemma part_at_with i p f j :
  (i < length (parts_of f))%nat →
  part_at (with_part i p f) j = if decide (i = j) then p else part_at f j.
Proof.
  intros Hi. unfold part_at. cbn. case_decide as E.
  - subst j. by rewrite list_lookup_insert_eq.
  - by rewrite list_lookup_insert_ne.
Qed.

Lemma at_partition_run {A} i (m : M (LogFSDirectoryPartition * S) A) f kv clk :
  (i < length (parts_of f))%nat →
  at_partition i m (mkFS f kv clk) =
    match m (part_at f i, kv) with
    | Ok (a, (p', kv')) => Ok (a, mkFS (with_part i p' f) kv' clk)
    | Crash c => Crash c
    end.
Proof.
  intros Hi. unfold at_partition, GetPartition, this, upd, part_at, with_part. mrun.
  cbn [f_this f_kv f_clock].
  destruct (lookup_lt_is_Some_2 (parts_of f) i Hi) as [[p|] E]; rewrite E;
    cbn [f_this f_kv f_clock]; destruct (m _) as [[a [p' kv']]|c]; try done.
  unfold parts_of at 1. cbn. by rewrite list_insert_insert_eq.
Qed.

(** Changes of the store elsewhere do not touch a partition. *)
Lemma part_frame p kv kv' :
  kv_get kv' (partition_key p) = kv_get kv (partition_key p) → part_inv p kv →
  part_inv p kv' ∧ part_abs p kv' = part_abs p kv.
Proof.
  intros E I. assert (part_view kv' (dir_ino p) (partitionNumber p) =
    part_view kv (dir_ino p) (partitionNumber p)) as V.
  { unfold part_view. fold (partition_key p). by rewrite E. }
  split.
  - split; try apply I.
    + intros v. fold (partition_key p). rewrite E. apply (pi_stored _ _ I).
    + intros Hc. rewrite V. by apply (pi_clean _ _ I).
  - unfold part_abs. by rewrite V.
Qed.

Lemma partition_key_at f kv i :
  dir_inv f kv → (i < length (parts_of f))%nat →
  partition_key (part_at f i) = sub_key (handle f) (Z.of_nat i).
Proof.
  intros D Hi. unfold partition_key. by destruct (di_parts _ _ D i Hi) as (_ & -> & _ & ->).
Qed.

Lemma same_but_parts_with i p f : same_but_parts f (with_part i p f).
Proof.
  exists (Some (<[i := Some p]> (parts_of f))). split; [done|]. cbn. by rewrite length_insert.
Qed.

(** One partition changes, its store key and no other. *)
Lemma dir_inv_update f kv kv' i p' :
  dir_inv f kv → (i < length (parts_of f))%nat →
  part_inv p' kv' → same_part (part_at f i) p' →
  (∀ k, k ≠ sub_key (handle f) (Z.of_nat i) → kv_get kv' k = kv_get kv k) →
  (∀ name h, sm_find name (part_abs p' kv') = Some h → partition_index f name = i) →
  dir_inv (with_part i p' f) kv'
  ∧ (∀ j, (j < length (parts_of f))%nat → j ≠ i →
       part_abs (part_at (with_part i p' f) j) kv' = part_abs (part_at f j) kv).
Proof.
  intros D Hi I' (Hpn & Hfs & Hino) Hk Hpl.
  assert (∀ j, (j < length (parts_of f))%nat → j ≠ i →
    part_inv (part_at f j) kv' ∧ part_abs (part_at f j) kv' = part_abs (part_at f j) kv) as Hoth.
  { intros j Hj Hne. apply part_frame; [|apply D; done]. apply Hk.
    rewrite (partition_key_at f kv) by done. pose proof (di_count _ _ D). apply sub_key_ne; lia. }
  destruct (di_parts _ _ D i Hi) as (_ & E1 & E2 & E3).
  assert (length (parts_of (with_part i p' f)) = length (parts_of f)) as Hl
    by (cbn; apply length_insert).
  split.
  - split; rewrite ?Hl; try apply D.
    + intros j Hj. rewrite part_at_with by done. case_decide as E.
      * subst j. split; [done|]. cbn. by rewrite Hpn, Hfs, Hino.
      * split; [by apply Hoth|]. cbn. by apply (di_parts _ _ D j).
    + intros j name h Hj. rewrite part_at_with, partition_index_with by done.
      case_decide as E; [subst j; apply Hpl|].
      destruct (Hoth j Hj) as [_ ->]; [done|]. by apply (di_placed _ _ D).
  - intros j Hj Hne. rewrite part_at_with, decide_False by done. by apply Hoth.
Qed.

Lemma dir_find_update f kv kv' i p' :
  dir_inv f kv → (i < length (parts_of f))%nat →
  (∀ j, (j < length (parts_of f))%nat → j ≠ i →
     part_abs (part_at (with_part i p' f) j) kv' = part_abs (part_at f j) kv) →
  ∀ n, dir_find (with_part i p' f) kv' n =
    if decide (partition_index f n = i) then sm_find n (part_abs p' kv') else dir_find f kv n.
Proof.
  intros D Hi Ho n. unfold dir_find. rewrite partition_index_with.
  case_decide as E.
  - by rewrite part_at_with, decide_True by done.
  - rewrite Ho; [done| |done]. apply partition_index_lt, D.
Qed.

(** A method that leaves contents and store alone. *)
Lemma dir_inv_refresh f kv i p' :
  dir_inv f kv → (i < length (parts_of f))%nat → part_inv p' kv → same_part (part_at f i) p' →
  part_abs p' kv = part_abs (part_at f i) kv →
  dir_inv (with_part i p' f) kv ∧ ∀ n, dir_find (with_part i p' f) kv n = dir_find f kv n.
Proof.
  intros D Hi I' Hs Ha.
  destruct (dir_inv_update f kv kv i p' D Hi I' Hs) as [D' Ho]; [done|..].
  { intros name h. rewrite Ha. by apply (di_placed _ _ D). }
  split; [done|]. intros n. rewrite (dir_find_update f kv kv i p') by done.
  case_decide as E; [|done]. unfold dir_find. by rewrite E, Ha.
Qed.

(** ** Lemmas: the directory methods *)

Lemma findHandle_ok f kv clk name :
  dir_inv f kv →
  ∃ f', findHandle name (mkFS f kv clk) = Ok (default 0 (dir_find f kv name), mkFS f' kv clk)
    ∧ dir_inv f' kv ∧ same_but_parts f f' ∧ ∀ n, dir_find f' kv n = dir_find f kv n.
Proof.
  intros D. set (i := partition_index f name).
  assert (i < length (parts_of f))%nat as Hi by apply partition_index_lt, D.
  destruct (di_parts _ _ D i Hi) as (I & _).
  destruct (part_findEntry_ok (part_at f i) kv name I) as (p' & E & I' & Hs & Ha).
  exists (with_part i p' f).
  destruct (dir_inv_refresh f kv i p' D Hi I' Hs Ha) as [D' Hf].
  split; [|split; [done|split; [apply same_but_parts_with|done]]].
  unfold findHandle, this. rewrite (bind_ok _ _ _ f (mkFS f kv clk)) by done. fold i.
  by rewrite at_partition_run, E.
Qed.

Lemma insertEntry_exists f kv clk h name i0 :
  dir_inv f kv → dir_find f kv name = Some i0 →
  ∃ f', insertEntry h name (mkFS f kv clk) = Ok (STATUS_INTERNAL_ERROR, mkFS f' kv clk)
    ∧ dir_inv f' kv ∧ same_but_parts f f' ∧ ∀ n, dir_find f' kv n = dir_find f kv n.
Proof.
  intros D F. set (i := partition_index f name).
  assert (i < length (parts_of f))%nat as Hi by apply partition_index_lt, D.
  destruct (di_parts _ _ D i Hi) as (I & _).
  destruct (part_insertEntry_exists (part_at f i) kv h name i0 I F) as (p' & E & I' & Hs & Ha).
  exists (with_part i p' f).
  destruct (dir_inv_refresh f kv i p' D Hi I' Hs Ha) as [D' Hf].
  split; [|split; [done|split; [apply same_but_parts_with|done]]].
  unfold insertEntry, this. rewrite (bind_ok _ _ _ f (mkFS f kv clk)) by done. fold i.
  rewrite (bind_ok _ _ _ EEXIST (mkFS (with_part i p' f) kv clk));
    [done|by rewrite at_partition_run, E].
Qed.

Lemma insertEntry_new f kv clk h name :
  dir_inv f kv → wf_entry (name, h) → dir_fits f kv name → dir_find f kv name = None →
  ∃ f' kv', insertEntry h name (mkFS f kv clk) = Ok (STATUS_OK, mkFS f' kv' clk)
    ∧ dir_inv f' kv' ∧ same_but_parts f f'
    ∧ (∀ n, dir_find f' kv' n = if decide (n = name) then Some h else dir_find f kv n)
    ∧ (∀ k, (∀ i, 0 ≤ i < 65536 → k ≠ sub_key (handle f) i) → kv_get kv' k = kv_get kv k).
Proof.
  intros D We Hfit F. set (i := partition_index f name).
  assert (i < length (parts_of f))%nat as Hi by apply partition_index_lt, D.
  destruct (di_parts _ _ D i Hi) as (I & _). pose proof (di_count _ _ D) as Hc.
  destruct (part_insertEntry_new (part_at f i) kv h name I We Hfit F)
    as (b & kv' & p' & E & Ep & I' & Hs & Ha & _).
  rewrite (partition_key_at f kv) in Ep by done.
  assert (∀ k, k ≠ sub_key (handle f) (Z.of_nat i) → kv_get kv' k = kv_get kv k) as Hk.
  { intros k Hk. by eapply kv_put_ne. }
  exists (with_part i p' f), kv'.
  destruct (dir_inv_update f kv kv' i p' D Hi I' Hs Hk) as [D' Ho].
  { intros n h'. rewrite Ha. destruct (decide (name = n)) as [->|Hne]; [done|].
    rewrite sm_find_insert_ne by done. by apply (di_placed _ _ D). }
  split; [|split; [done|split; [apply same_but_parts_with|split]]].
  - unfold insertEntry, this. rewrite (bind_ok _ _ _ f (mkFS f kv clk)) by done. fold i.
    rewrite (bind_ok _ _ _ 0 (mkFS (with_part i p' f) kv' clk));
      [done|by rewrite at_partition_run, E].
  - intros n. rewrite (dir_find_update f kv kv' i p') by done. rewrite Ha.
    destruct (decide (n = name)) as [->|Hne].
    + by rewrite decide_True, sm_find_insert_eq.
    + case_decide as En; [|done]. rewrite sm_find_insert_ne by done.
      unfold dir_find. by rewrite En.
  - intros k Hk'. apply Hk, Hk'. lia.
Qed.

Lemma removeEntry_absent f kv clk h name :
  dir_inv f kv → dir_find f kv name = None →
  ∃ f', removeEntry h name (mkFS f kv clk) = Ok (STATUS_INTERNAL_ERROR, mkFS f' kv clk)
    ∧ dir_inv f' kv ∧ same_but_parts f f' ∧ ∀ n, dir_find f' kv n = dir_find f kv n.
Proof.
  intros D F. set (i := partition_index f name).
  assert (i < length (parts_of f))%nat as Hi by apply partition_index_lt, D.
  destruct (di_parts _ _ D i Hi) as (I & _).
  destruct (part_removeEntry_absent (part_at f i) kv h name I F) as (p' & E & I' & Hs & Ha).
  exists (with_part i p' f).
  destruct (dir_inv_refresh f kv i p' D Hi I' Hs Ha) as [D' Hf].
  split; [|split; [done|split; [apply same_but_parts_with|done]]].
  unfold removeEntry, this. rewrite (bind_ok _ _ _ f (mkFS f kv clk)) by done. fold i.
  rewrite (bind_ok _ _ _ ENOENT (mkFS (with_part i p' f) kv clk));
    [done|by rewrite at_partition_run, E].
Qed.

Lemma removeEntry_found f kv clk h name i0 :
  dir_inv f kv → dir_find f kv name = Some i0 →
  ∃ f' kv', removeEntry h name (mkFS f kv clk) = Ok (STATUS_OK, mkFS f' kv' clk)
    ∧ dir_inv f' kv' ∧ same_but_parts f f'
    ∧ (∀ n, dir_find f' kv' n = if decide (n = name) then None else dir_find f kv n)
    ∧ (∀ k, (∀ i, 0 ≤ i < 65536 → k ≠ sub_key (handle f) i) → kv_get kv' k = kv_get kv k).
Proof.
  intros D F. set (i := partition_index f name).
  assert (i < length (parts_of f))%nat as Hi by apply partition_index_lt, D.
  destruct (di_parts _ _ D i Hi) as (I & _). pose proof (di_count _ _ D) as Hc.
  destruct (part_removeEntry_found (part_at f i) kv h name i0 I F)
    as (b & kv' & p' & E & Ep & I' & Hs & Ha & _).
  rewrite (partition_key_at f kv) in Ep by done.
  assert (sm_sorted (part_abs (part_at f i) kv)) as Hso.
  { destruct (part_Refresh_ok _ kv I) as (p1 & _ & I1 & _ & _ & Hbn). rewrite <-Hbn. apply I1. }
  assert (∀ k, k ≠ sub_key (handle f) (Z.of_nat i) → kv_get kv' k = kv_get kv k) as Hk.
  { intros k Hk. by eapply kv_put_ne. }
  exists (with_part i p' f), kv'.
  destruct (dir_inv_update f kv kv' i p' D Hi I' Hs Hk) as [D' Ho].
  { intros n h'. rewrite Ha. destruct (decide (name = n)) as [->|Hne]; [done|].
    rewrite sm_find_erase_ne by done. by apply (di_placed _ _ D). }
  split; [|split; [done|split; [apply same_but_parts_with|split]]].
  - unfold removeEntry, this. rewrite (bind_ok _ _ _ f (mkFS f kv clk)) by done. fold i.
    rewrite (bind_ok _ _ _ 0 (mkFS (with_part i p' f) kv' clk));
      [done|by rewrite at_partition_run, E].
  - intros n. rewrite (dir_find_update f kv kv' i p') by done. rewrite Ha.
    destruct (decide (n = name)) as [->|Hne].
    + by rewrite decide_True, sm_find_erase_eq.
    + case_decide as En; [|done]. rewrite sm_find_erase_ne by done.
      unfold dir_find. by rewrite En.
  - intros k Hk'. apply Hk, Hk'. lia.
Qed.

(** ** Lemmas: the emptiness test *)

Lemma empty_loop_ok n i f kv clk :
  dir_inv f kv → (i + n = length (parts_of f))%nat →
  ∃ b f', empty_loop n i true (mkFS f kv clk) = Ok (b, mkFS f' kv clk)
    ∧ dir_inv f' kv ∧ (∀ m, dir_find f' kv m = dir_find f kv m)
    ∧ (b = true ↔ ∀ j, (i ≤ j < length (parts_of f))%nat → only_dots (part_abs (part_at f j) kv)).
Proof.
  revert i f. induction n as [|n IH]; intros i f D Hn.
  { exists true, f. split; [done|]. split; [done|]. split; [done|]. split; [lia|done]. }
  assert (i < length (parts_of f))%nat as Hi by lia.
  destruct (di_parts _ _ D i Hi) as (I & _).
  destruct (isPartitionEmpty_ok (part_at f i) kv I) as (b & p' & E & I' & Hs & Ha & Hb).
  destruct (dir_inv_refresh f kv i p' D Hi I' Hs Ha) as [D' Hf].
  assert (at_partition i isPartitionEmpty (mkFS f kv clk) = Ok (b, mkFS (with_part i p' f) kv clk))
    as Erun by by rewrite at_partition_run, E.
  assert (length (parts_of (with_part i p' f)) = length (parts_of f)) as Hl
    by (cbn; apply length_insert).
  cbn [empty_loop]. rewrite (bind_ok _ _ _ _ _ Erun). destruct b.
  - destruct (IH (Datatypes.S i) (with_part i p' f) D') as (b & f' & E' & D'' & Hf' & Hb'); [lia|].
    exists b, f'. split; [done|]. split; [done|]. split; [intros; by rewrite Hf', Hf|].
    rewrite Hb', Hl. split.
    + intros A j Hj. destruct (decide (i = j)) as [<-|Hne]; [by apply Hb|].
      specialize (A j ltac:(lia)). by rewrite part_at_with, decide_False in A.
    + intros A j Hj. rewrite part_at_with, decide_False by lia. apply A. lia.
  - exists false, (with_part i p' f). split; [by destruct n|]. split; [done|]. split; [done|].
    split; [done|]. intros A. apply Hb, A. lia.
Qed.

Lemma isDirEmpty_ok f kv clk :
  dir_inv f kv →
  ∃ b f', isDirEmpty (mkFS f kv clk) = Ok (b, mkFS f' kv clk)
    ∧ dir_inv f' kv ∧ (∀ m, dir_find f' kv m = dir_find f kv m)
    ∧ (b = true ↔ ∀ n h, dir_find f kv n = Some h → n = lit "." ∨ n = lit "..").
Proof.
  intros D. destruct (empty_loop_ok (length (parts_of f)) 0 f kv clk D eq_refl)
    as (b & f' & E & D' & Hf & Hb).
  exists b, f'. split; [|split; [done|split; [done|]]].
  { unfold isDirEmpty, this. rewrite (bind_ok _ _ _ f (mkFS f kv clk)) by done.
    by rewrite num_parts. }
  rewrite Hb. split.
  - intros A n h F. apply (A (partition_index f n)) in F; [done|].
    split; [lia|]. apply partition_index_lt, D.
  - intros A j Hj n h F. apply (A n h). unfold dir_find.
    by rewrite (di_placed _ _ D j n h ltac:(lia) F).
Qed.

(** ** Lemmas: new directories *)

Lemma dots_bytes m :
  sm_sorted m → only_dots m → (length (entries_bytes m) ≤ 22)%nat.
Proof.
  intros Hs A. pose proof (dots_length m Hs A) as Hl.
  assert (Forall (λ e, (length (fst e) ≤ 2)%nat) m) as Hn.
  { apply Forall_forall. intros [n i] Hin.
    destruct (A n i (sm_elem_find _ _ _ Hs Hin)) as [->| ->]; cbn; lia. }
  clear Hs A. destruct Hn as [|e1 ? ? [|e2 ? ? []]]; cbn [length] in Hl; [cbn; lia|..|lia];
    rewrite ?entries_bytes_cons, ?length_app, ?serialize_entry_length; cbn; lia.
Qed.

Lemma part_abs_sorted p kv : part_inv p kv → sm_sorted (part_abs p kv).
Proof. intros I. destruct (part_Refresh_ok p kv I) as (p1 & _ & I1 & _ & _ & <-). apply I1. Qed.

(** A directory that binds nothing but the dots has room for a short name. *)
Lemma dots_fit f kv name :
  dir_inv f kv → (∀ n h, dir_find f kv n = Some h → n = lit "." ∨ n = lit "..") →
  (length name ≤ 255)%nat → dir_fits f kv name.
Proof.
  intros D A Hl. set (i := partition_index f name).
  assert (i < length (parts_of f))%nat as Hi by apply partition_index_lt, D.
  destruct (di_parts _ _ D i Hi) as (I & _).
  assert (length (entries_bytes (part_abs (part_at f i) kv)) ≤ 22)%nat as Hb.
  { apply dots_bytes; [by apply part_abs_sorted|]. intros n h F. apply (A n h).
    unfold dir_find. by rewrite (di_placed _ _ D i n h Hi F). }
  unfold dir_fits, fits. fold i. lia.
Qed.

Lemma fresh_dir f kv :
  partitions f = None → 0 ≤ fsId f < 18446744073709551616 → 0 ≤ handle f < 18446744073709551616 →
  (∀ i, 0 ≤ i < OFF_MAX → kv_get kv (sub_key (handle f) i) = None) →
  dir_inv f kv ∧ ∀ n, dir_find f kv n = None.
Proof.
  intros Hp Hf Hh Hk.
  assert (∀ i, part_at f i = new_partition (Z.of_nat i) (fsId f) (handle f)) as Hat.
  { intros i. unfold part_at, parts_of. rewrite Hp. cbn [default].
    destruct (replicate _ None !! i) as [[q|]|] eqn:E; try done.
    by apply lookup_replicate_1 in E as [? _]. }
  assert (length (parts_of f) = 2%nat) as Hl by (unfold parts_of; by rewrite Hp).
  assert (∀ i, (i < 2)%nat → part_abs (part_at f i) kv = []) as Ha.
  { intros i Hi. rewrite Hat. unfold part_abs, part_view. cbn [new_partition part_state dir_ino
      partitionNumber]. rewrite decide_True, u16_small, Hk by (done || unfold OFF_MAX; lia). done. }
  split; [split|]; rewrite ?Hl; try done; try lia.
  - intros i Hi. rewrite Hat. split; [|cbn; rewrite u16_small by lia; done].
    apply new_partition_inv; [lia|done|done|]. intros v. rewrite Hk by (unfold OFF_MAX; lia). done.
  - intros i n h Hi. by rewrite Ha.
  - intros n. unfold dir_find. rewrite Ha; [done|]. rewrite <-Hl. apply partition_index_lt.
    rewrite Hl. lia.
Qed.

Lemma dot_entries h : 0 ≤ h < 18446744073709551616 → wf_entry (lit ".", h) ∧ wf_entry (lit "..", h).
Proof.
  intros Hh. split; (split; [|done]); split; by apply (bool_decide_unpack _); vm_compute.
Qed.

(** ** Lemmas: the heap *)

Lemma at_obj_run {A} p (m : M (FState S) A) hp kv clk f a f' kv' clk' :
  hp !! p = Some f → m (mkFS f kv clk) = Ok (a, mkFS f' kv' clk') →
  at_obj p m (mkW hp kv clk) = Ok (a, mkW (<[p := f']> hp) kv' clk').
Proof. intros E Em. unfold at_obj. cbn. by rewrite E, Em. Qed.

Lemma at_obj_this p hp kv clk f :
  hp !! p = Some f → at_obj p this (mkW hp kv clk) = Ok (f, mkW hp kv clk).
Proof.
  intros E. rewrite (at_obj_run p this hp kv clk f f f kv clk E) by done.
  by rewrite insert_id.
Qed.

(** The metadata of a new inode. *)
Definition init_meta f (clk : nat) : LogFSMetaData :=
  let t := u32 (env_time clk) in
  set_mtime t (set_atime t (set_ctime t (set_nLink 0
    (init_fields (fsId f) (handle f) env_uid env_gid
      (set_protection (SetProtectionFromMode (fmode f))
        (set_type (setTypeFromMode (fmode f) (meta_type (meta f))) (meta f))))))).

Lemma initMeta_run f kv clk :
  initMeta (mkFS f kv clk) =
    Ok (tt, mkFS (set_meta (init_meta f clk) f) kv (Datatypes.S clk)).
Proof. reflexivity. Qed.

Lemma NLinkAdjust_run f kv clk n :
  NLinkAdjust n (mkFS f kv clk) =
    Ok (tt, mkFS (set_meta (set_nLink (u32 (meta_nLink (meta f) + n)) (meta f)) f) kv clk).
Proof. reflexivity. Qed.

Lemma writeToLog_run f kv clk b kv' :
  kv_put kv (inode_key (handle f)) (encode_meta (meta f)) = (b, kv') →
  writeToLog (mkFS f kv clk) =
    Ok (if b then STATUS_OK else STATUS_INTERNAL_ERROR, mkFS f kv' clk).
Proof. intros E. unfold writeToLog, this, fput. mrun. cbn [f_this f_kv f_clock]. by rewrite E. Qed.

(** The directory view depends on three members of the object and on the keys of
    its partitions. *)
Lemma dir_inv_frame f f' kv kv' :
  fsId f' = fsId f → handle f' = handle f → partitions f' = partitions f →
  (∀ i, 0 ≤ i < 65536 → kv_get kv' (sub_key (handle f) i) = kv_get kv (sub_key (handle f) i)) →
  dir_inv f kv → dir_inv f' kv' ∧ ∀ n, dir_find f' kv' n = dir_find f kv n.
Proof.
  intros Ef Eh Ep Hk D.
  assert (parts_of f' = parts_of f) as Hps by (unfold parts_of; by rewrite Ep).
  assert (∀ i, part_at f' i = part_at f i) as Hat
    by (intros i; unfold part_at; by rewrite Hps, Ef, Eh).
  assert (∀ n, partition_index f' n = partition_index f n) as Hpi
    by (intros n; unfold partition_index; by rewrite !num_parts, Hps).
  assert (∀ i, (i < length (parts_of f))%nat → part_inv (part_at f i) kv' ∧
    part_abs (part_at f i) kv' = part_abs (part_at f i) kv) as Hfr.
  { intros i Hi. apply part_frame; [|by apply D]. rewrite (partition_key_at f kv) by done.
    apply Hk. pose proof (di_count _ _ D). lia. }
  split; [split|]; rewrite ?Hps, ?Ef, ?Eh; try apply D.
  - intros i Hi. rewrite Hat. split; [by apply Hfr|]. by apply D.
  - intros i n h Hi. rewrite Hat, Hpi. destruct (Hfr i Hi) as [_ ->]. by apply (di_placed _ _ D).
  - intros n. unfold dir_find. rewrite Hat, Hpi.
    by destruct (Hfr (partition_index f n) (partition_index_lt _ _ (proj1 (di_count _ _ D)))) as [_ ->].
Qed.

Lemma same_but_parts_fields f f' :
  same_but_parts f f' → fsId f' = fsId f ∧ handle f' = handle f ∧ meta f' = meta f ∧
    nameString f' = nameString f ∧ metaDirty f' = metaDirty f.
Proof. by intros (ps & -> & _). Qed.

(** An update that only touches the inode records and the directory entries of [hs]. *)
Definition confined (kv kv' : S) (hs : list Z) : Prop :=
  ∀ k, (∀ h, h ∈ hs → k ≠ inode_key h ∧ ∀ i, 0 ≤ i < 65536 → k ≠ sub_key h i) →
  kv_get kv' k = kv_get kv k.

Lemma confined_trans kv1 kv2 kv3 hs : confined kv1 kv2 hs → confined kv2 kv3 hs → confined kv1 kv3 hs.
Proof. intros C1 C2 k Hk. by rewrite C2, C1. Qed.
Lemma confined_weaken kv kv' hs hs' : Forall (.∈ hs') hs → confined kv kv' hs → confined kv kv' hs'.
Proof. intros Hs C k Hk. apply C. intros h Hh. apply Hk. by apply (proj1 (Forall_forall _ _) Hs). Qed.
Lemma confined_entries kv kv' h hs :
  (∀ k, (∀ i, 0 ≤ i < 65536 → k ≠ sub_key h i) → kv_get kv' k = kv_get kv k) → h ∈ hs →
  confined kv kv' hs.
Proof. intros C Hh k Hk. by apply C, Hk. Qed.
Lemma confined_put kv h v b kv' hs :
  kv_put kv (inode_key h) v = (b, kv') → h ∈ hs → confined kv kv' hs.
Proof. intros E Hh k Hk. by apply (kv_put_ne _ _ _ _ _ _ E), not_eq_sym, Hk. Qed.

(** The inode record and the chunks of an inode that is not one of them. *)
Lemma confined_inode kv kv' hs h :
  confined kv kv' hs → (∀ j, j ∈ hs → u64 h ≠ u64 j) →
  kv_get kv' (inode_key h) = kv_get kv (inode_key h)
  ∧ ∀ i, kv_get kv' (sub_key h i) = kv_get kv (sub_key h i).
Proof.
  intros C Hh. split; [|intros i]; apply C; intros j Hj; split.
  - by intros E%inode_key_inj; apply (Hh j).
  - intros i _. apply inode_sub_key.
  - apply not_eq_sym, inode_sub_key.
  - intros i' _. by apply sub_key_handle_ne, Hh.
Qed.

Lemma set_heap_ne {A} (hp : gmap Z A) p q x y :
  p ≠ q → hp !! q = Some y → <[p := x]> hp !! q = Some y.
Proof. intros. by rewrite lookup_insert_ne. Qed.

Context `{!KVReliable S}.

(** [insertEntry] on an object of the heap, for a new name. *)
Lemma heap_insertEntry hp kv clk p f h name :
  hp !! p = Some f → dir_inv f kv → wf_entry (name, h) → dir_fits f kv name →
  dir_find f kv name = None →
  ∃ f' kv', at_obj p (insertEntry h name) (mkW hp kv clk) =
      Ok (STATUS_OK, mkW (<[p := f']> hp) kv' clk)
    ∧ dir_inv f' kv' ∧ same_but_parts f f'
    ∧ (∀ n, dir_find f' kv' n = if decide (n = name) then Some h else dir_find f kv n)
    ∧ (∀ k, (∀ i, 0 ≤ i < 65536 → k ≠ sub_key (handle f) i) → kv_get kv' k = kv_get kv k).
Proof.
  intros Hp D We Hfit F.
  destruct (insertEntry_new f kv clk h name D We Hfit F) as (f' & kv' & E & R).
  exists f', kv'. split; [by apply (at_obj_run _ _ _ _ _ f)|done].
Qed.

Lemma heap_writeToLog hp kv clk p f :
  hp !! p = Some f →
  ∃ kv', at_obj p writeToLog (mkW hp kv clk) = Ok (STATUS_OK, mkW hp kv' clk)
    ∧ kv_put kv (inode_key (handle f)) (encode_meta (meta f)) = (true, kv').
Proof.
  intros Hp. destruct (kv_put_true kv (inode_key (handle f)) (encode_meta (meta f))) as [kv' E].
  exists kv'. split; [|done].
  rewrite (at_obj_run p _ hp kv clk f STATUS_OK f kv' clk Hp) by by apply writeToLog_run with (b:=true).
  by rewrite insert_id.
Qed.

(** Two inodes written one after the other are both stored, and no directory entry or
    data chunk changes. *)
Lemma heap_writeToLog2 hp (kv : S) clk p q fp fq :
  hp !! p = Some fp → hp !! q = Some fq → handle fp ≠ handle fq →
  0 ≤ handle fp < 18446744073709551616 → 0 ≤ handle fq < 18446744073709551616 →
  ∃ kv1 kv2,
    at_obj p writeToLog (mkW hp kv clk) = Ok (STATUS_OK, mkW hp kv1 clk)
    ∧ at_obj q writeToLog (mkW hp kv1 clk) = Ok (STATUS_OK, mkW hp kv2 clk)
    ∧ synced fp kv2 ∧ synced fq kv2 ∧ (∀ h i, kv_get kv2 (sub_key h i) = kv_get kv (sub_key h i))
    ∧ confined kv kv2 [handle fp; handle fq].
Proof.
  intros Hp Hq Hne Rp Rq.
  destruct (heap_writeToLog hp kv clk p fp Hp) as (kv1 & E1 & P1).
  destruct (heap_writeToLog hp kv1 clk q fq Hq) as (kv2 & E2 & P2).
  exists kv1, kv2. split; [done|]. split; [done|].
  split; [|split; [apply (kv_put_eq _ _ _ _ P2)|split]].
  - unfold synced. rewrite (kv_put_ne _ _ _ _ _ _ P2); [apply (kv_put_eq _ _ _ _ P1)|].
    intros E%inode_key_inj. by rewrite !u64_small in E by done.
  - intros h i. rewrite (kv_put_ne _ _ _ _ _ _ P2) by apply inode_sub_key.
    apply (kv_put_ne _ _ _ _ _ _ P1), inode_sub_key.
  - apply (confined_trans _ kv1); eapply confined_put; try done; by repeat constructor.
Qed.

(** An object with its link count adjusted and marked dirty. *)
Definition relinked f : LogFSFile :=
  set_metaDirty true (set_meta (set_nLink (u32 (meta_nLink (meta f) + 1)) (meta f)) f).

Lemma heap_relink {A} hp kv clk p f (K : M (World S) A) :
  hp !! p = Some f →
  (at_obj p (NLinkAdjust 1);; at_obj p (upd (set_metaDirty true));; K) (mkW hp kv clk) =
  K (mkW (<[p := relinked f]> hp) kv clk).
Proof.
  intros Hp. rewrite (bind_ok _ _ _ _ _ (at_obj_run p _ hp kv clk f _ _ _ _ Hp (NLinkAdjust_run f kv clk 1))).
  set (f1 := set_meta _ f).
  rewrite (bind_ok _ _ _ tt (mkW (<[p := set_metaDirty true f1]> (<[p := f1]> hp)) kv clk)).
  - by rewrite insert_insert_eq.
  - apply (at_obj_run p (upd (set_metaDirty true)) _ kv clk f1); [apply lookup_insert_eq|done].
Qed.

(** [p->UpdateCTime()] and [p->UpdateMTime()] with the current time. *)
Lemma heap_ctime {A} hp kv clk p f (K : M (World S) A) :
  hp !! p = Some f →
  (t ← at_obj p time; at_obj p (UpdateCTime t);; K) (mkW hp kv clk) =
  K (mkW (<[p := set_meta (set_ctime (u32 (env_time clk)) (meta f)) f]> hp) kv (Datatypes.S clk)).
Proof.
  intros Hp. rewrite (bind_ok _ _ _ (env_time clk) (mkW hp kv (Datatypes.S clk))).
  2:{ rewrite (at_obj_run p time hp kv clk f (env_time clk) f kv (Datatypes.S clk) Hp) by done.
      by rewrite insert_id. }
  by rewrite (bind_ok _ _ _ _ _ (at_obj_run p (UpdateCTime (env_time clk)) hp kv _ f _ _ _ _ Hp eq_refl)).
Qed.

Lemma heap_mtime {A} hp kv clk p f (K : M (World S) A) :
  hp !! p = Some f →
  (t ← at_obj p time; at_obj p (UpdateMTime t);; K) (mkW hp kv clk) =
  K (mkW (<[p := set_meta (set_mtime (u32 (env_time clk)) (meta f)) f]> hp) kv (Datatypes.S clk)).
Proof.
  intros Hp. rewrite (bind_ok _ _ _ (env_time clk) (mkW hp kv (Datatypes.S clk))).
  2:{ rewrite (at_obj_run p time hp kv clk f (env_time clk) f kv (Datatypes.S clk) Hp) by done.
      by rewrite insert_id. }
  by rewrite (bind_ok _ _ _ _ _ (at_obj_run p (UpdateMTime (env_time clk)) hp kv _ f _ _ _ _ Hp eq_refl)).
Qed.

(** The dot entries of a new directory, first "." then "..". *)
Lemma connectDots_first hp kv clk dot f h :
  hp !! dot = Some f → dir_inv f kv → (∀ n, dir_find f kv n = None) →
  0 ≤ handle f < 18446744073709551616 → 0 ≤ h < 18446744073709551616 →
  ∃ f' kv', (∀ K : Status → M (World S) Status,
      (status ← at_obj dot (insertEntry (handle f) (lit "."));
       if decide (status = STATUS_OK) then
         at_obj dot (NLinkAdjust 1);;
         at_obj dot (upd (set_metaDirty true));;
         status ← at_obj dot (insertEntry h (lit ".."));
         K status
       else mret status) (mkW hp kv clk) =
      K STATUS_OK (mkW (<[dot := f']> hp) kv' clk))
    ∧ dir_inv f' kv' ∧ fsId f' = fsId f ∧ handle f' = handle f
    ∧ meta f' = set_nLink (u32 (meta_nLink (meta f) + 1)) (meta f)
    ∧ (∀ n, dir_find f' kv' n =
         if decide (n = lit "..") then Some h
         else if decide (n = lit ".") then Some (handle f) else None)
    ∧ (∀ k, (∀ i, 0 ≤ i < 65536 → k ≠ sub_key (handle f) i) → kv_get kv' k = kv_get kv k).
Proof.
  intros Hp D Hempty Hh0 Hh.
  destruct (heap_insertEntry hp kv clk dot f (handle f) (lit ".") Hp D) as (f1 & kv1 & E1 & D1 & S1 & F1 & K1);
    [by apply dot_entries|apply dots_fit; [done|intros n i; by rewrite Hempty|cbn; lia]|done|].
  destruct (same_but_parts_fields _ _ S1) as (Ef1 & Eh1 & Em1 & _).
  set (f2 := relinked f1).
  destruct (dir_inv_frame f1 f2 kv1 kv1) as [D2 F2]; [done..|].
  destruct (heap_insertEntry (<[dot := f2]> hp) kv1 clk dot f2 h (lit ".."))
    as (f3 & kv3 & E3 & D3 & S3 & F3 & K3); [apply lookup_insert_eq|done|by apply dot_entries|..].
  { apply dots_fit; [done| |cbn; lia]. intros n i. rewrite F2, F1.
    case_decide; [by left|]. by rewrite Hempty. }
  { rewrite F2, F1, decide_False by done. apply Hempty. }
  destruct (same_but_parts_fields _ _ S3) as (Ef3 & Eh3 & Em3 & _).
  exists f3, kv3. split; [|split; [done|split; [|split; [|split; [|split]]]]].
  - intros K. rewrite (bind_ok _ _ _ _ _ E1), decide_True by done.
    rewrite heap_relink with (f := f1) by apply lookup_insert_eq.
    rewrite insert_insert_eq. fold f2. rewrite (bind_ok _ _ _ _ _ E3).
    by rewrite insert_insert_eq.
  - by rewrite Ef3.
  - by rewrite Eh3.
  - rewrite Em3. cbn. by rewrite Em1.
  - intros n. rewrite F3. case_decide; [done|]. rewrite F2, F1. case_decide; [done|]. apply Hempty.
  - intros k Hk. rewrite K3, K1 by (cbn; by rewrite ?Eh1). done.
Qed.

(** [connectDots] on a new directory and another object. *)
Lemma connectDots_ok hp kv clk dot dotdot f g :
  dot ≠ dotdot → hp !! dot = Some f → hp !! dotdot = Some g →
  dir_inv f kv → (∀ n, dir_find f kv n = None) →
  0 ≤ handle f < 18446744073709551616 → 0 ≤ handle g < 18446744073709551616 →
  ∃ f' kv', connectDots dot dotdot (mkW hp kv clk) =
      Ok (STATUS_OK, mkW (<[dotdot := relinked g]> (<[dot := f']> hp)) kv' clk)
    ∧ dir_inv f' kv' ∧ fsId f' = fsId f ∧ handle f' = handle f
    ∧ meta f' = set_nLink (u32 (meta_nLink (meta f) + 1)) (meta f)
    ∧ (∀ n, dir_find f' kv' n =
         if decide (n = lit "..") then Some (handle g)
         else if decide (n = lit ".") then Some (handle f) else None)
    ∧ (∀ k, (∀ i, 0 ≤ i < 65536 → k ≠ sub_key (handle f) i) → kv_get kv' k = kv_get kv k).
Proof.
  intros Hne Hf Hg D Hempty Hhf Hhg.
  destruct (connectDots_first hp kv clk dot f (handle g) Hf D Hempty Hhf Hhg)
    as (f' & kv' & Ec & D' & Ef & Eh & Em & F & K).
  exists f', kv'. split; [|done]. unfold connectDots.
  rewrite (bind_ok _ _ _ _ _ (at_obj_this dot hp kv clk f Hf)).
  rewrite (bind_ok _ _ _ _ _ (at_obj_this dotdot hp kv clk g Hg)).
  rewrite (Ec (λ status, if decide (status = STATUS_OK) then
    at_obj dotdot (NLinkAdjust 1);; at_obj dotdot (upd (set_metaDirty true));; mret status
    else mret status)). rewrite decide_True by done.
  rewrite heap_relink with (f := g); [done|]. by apply set_heap_ne.
Qed.

End Lemmas.

(** ** Properties: creating files *)

Section Create.
Context {S : Type} `{KVStoreLaws S} `{!KVReliable S} `{FsEnv}.

(** What [create] needs: two objects, the child new, the parent a directory with
    room for a name it does not bind, and an unused inode number. *)
Record create_pre (hp : gmap Z LogFSFile) (kv : S) (self parent : Z) (fs fp : LogFSFile) : Prop := {
  cp_ne : self ≠ parent;
  cp_self : hp !! self = Some fs;
  cp_parent : hp !! parent = Some fp;
  cp_fs : 0 ≤ fsId fs < 18446744073709551616;
  cp_h : 0 ≤ handle fs < 18446744073709551616;
  cp_hne : handle fs ≠ handle fp;
  cp_new : partitions fs = None;
  cp_unused i : 0 ≤ i < OFF_MAX → kv_get kv (sub_key (handle fs) i) = None;
  cp_dir : dir_inv fp kv;
  cp_name : wf_name (nameString fs);
  cp_fits : dir_fits fp kv (nameString fs);
  cp_free : dir_find fp kv (nameString fs) = None;
}.

(** The common first half of [create]: the new inode is initialised, the name is
    bound in the parent, and the first link is counted. *)
Lemma create_prefix hp (kv : S) clk self parent fs fp :
  create_pre hp kv self parent fs fp →
  let f1 := set_meta (init_meta fs clk) fs in
  let f2 := set_meta (set_nLink (u32 (meta_nLink (meta f1) + 1)) (meta f1)) f1 in
  ∃ fp' kv1 hp3,
    create self parent (mkW hp kv clk) =
      ((if decide (meta_type (meta f2) = LOGFS_IFDIR)
        then connectDots self parent;; at_obj parent writeToLog;; mret tt
        else mret tt);;
       at_obj self writeToLog) (mkW hp3 kv1 (Datatypes.S clk))
    ∧ hp3 = <[self := f2]> (<[parent := fp']> hp)
    ∧ hp3 !! self = Some f2 ∧ hp3 !! parent = Some fp'
    ∧ dir_inv fp' kv1 ∧ same_but_parts fp fp'
    ∧ (∀ n, dir_find fp' kv1 n =
         if decide (n = nameString fs) then Some (handle fs) else dir_find fp kv n)
    ∧ (∀ k, (∀ i, 0 ≤ i < 65536 → k ≠ sub_key (handle fp) i) → kv_get kv1 k = kv_get kv k).
Proof.
  intros P f1 f2. pose proof (cp_ne _ _ _ _ _ _ P) as Hne.
  assert (<[self := f1]> hp !! parent = Some fp) as Hp1
    by (apply set_heap_ne; [done|apply P]).
  destruct (heap_insertEntry (<[self := f1]> hp) kv (Datatypes.S clk) parent fp (handle fs)
    (nameString fs) Hp1 (cp_dir _ _ _ _ _ _ P)) as (fp' & kv1 & Ei & D1 & Hs1 & Hf1 & Hk1);
    [split; [apply P|apply P]|apply P|apply P|].
  set (hp2 := <[parent := fp']> (<[self := f1]> hp)) in Ei.
  assert (hp2 !! self = Some f1) as Hs2.
  { apply set_heap_ne; [by apply not_eq_sym|]. apply lookup_insert_eq. }
  assert (<[self := f2]> hp2 = <[self := f2]> (<[parent := fp']> hp)) as Ehp.
  { unfold hp2. rewrite (insert_insert_ne _ parent self) by (by apply not_eq_sym).
    by rewrite insert_insert_eq. }
  assert (<[self := f2]> hp2 !! self = Some f2) as Hs3 by apply lookup_insert_eq.
  exists fp', kv1, (<[self := f2]> hp2). split; [|split; [done|split; [done|split; [|done]]]].
  - unfold create. rewrite (bind_ok _ _ _ _ _ (at_obj_run self initMeta hp kv clk fs _ _ _ _
      (cp_self _ _ _ _ _ _ P) (initMeta_run fs kv clk))).
    fold f1. rewrite (bind_ok _ _ _ _ _ (at_obj_this self _ kv (Datatypes.S clk) f1
      (lookup_insert_eq _ _ _))).
    change (handle f1) with (handle fs). change (nameString f1) with (nameString fs).
    rewrite (bind_ok _ _ _ _ _ Ei). rewrite decide_True by done. fold hp2.
    rewrite (bind_ok _ _ _ _ _ (at_obj_run self _ hp2 kv1 _ f1 _ _ _ _ Hs2
      (NLinkAdjust_run f1 kv1 _ 1))). fold f2.
    by rewrite (bind_ok _ _ _ _ _ (at_obj_this self _ kv1 (Datatypes.S clk) f2 Hs3)).
  - apply set_heap_ne; [done|]. apply lookup_insert_eq.
Qed.

Lemma create_file_ok hp (kv : S) clk self parent fs fp :
  create_pre hp kv self parent fs fp → S_ISREG (fmode fs) = true →
  ∃ fs' fp' kv' clk',
    create self parent (mkW hp kv clk) =
      Ok (STATUS_OK, mkW (<[self := fs']> (<[parent := fp']> hp)) kv' clk')
    ∧ dir_inv fp' kv' ∧ same_but_parts fp fp'
    ∧ (∀ n, dir_find fp' kv' n =
         if decide (n = nameString fs) then Some (handle fs) else dir_find fp kv n)
    ∧ synced fs' kv' ∧ handle fs' = handle fs
    ∧ meta_handle (meta fs') = handle fs ∧ meta_type (meta fs') = LOGFS_IFREG
    ∧ meta_protection (meta fs') = SetProtectionFromMode (fmode fs)
    ∧ meta_nLink (meta fs') = 1
    ∧ meta_fileTotalSize (meta fs') = meta_fileTotalSize (meta fs)
    ∧ meta fs' = set_nLink 1 (init_meta fs clk) ∧ fsId fs' = fsId fs
    ∧ confined kv kv' [handle fs; handle fp]
    ∧ (∀ h, u64 h ≠ u64 (handle fs) → kv_get kv' (inode_key h) = kv_get kv (inode_key h))
    ∧ (∀ h j, u64 h ≠ u64 (handle fp) → kv_get kv' (sub_key h j) = kv_get kv (sub_key h j)).
Proof.
  intros P Hreg.
  destruct (create_prefix hp kv clk self parent fs fp P)
    as (fp' & kv1 & hp3 & Ec & Ehp & Hs3 & _ & D1 & Hs1 & Hf1 & Hk1).
  set (f2 := set_meta (set_nLink _ _) _) in *.
  assert (meta_type (meta f2) = LOGFS_IFREG) as Hty
    by (unfold f2, init_meta; cbn; by apply setTypeFromMode_reg).
  destruct (heap_writeToLog hp3 kv1 (Datatypes.S clk) self f2 Hs3) as (kv2 & Ew & Ep).
  destruct (dir_inv_frame fp' fp' kv1 kv2) as [D2 Hf2]; [done|done|done| |done|].
  { intros i Hi. eapply kv_put_ne; [done|]. apply inode_sub_key. }
  exists f2, fp', kv2, (Datatypes.S clk). split; [|split; [done|split; [done|split]]].
  - rewrite Ec, decide_False by (rewrite Hty; done). rewrite (bind_ok _ _ _ tt _) by done.
    by rewrite Ew, Ehp.
  - intros n. by rewrite Hf2, Hf1.
  - split; [apply (kv_put_eq _ _ _ _ Ep)|]. repeat (split; [done|]).
    split; [|split].
    + apply (confined_trans _ kv1); [apply (confined_entries _ _ _ _ Hk1)|apply (confined_put _ _ _ _ _ _ Ep)];
        by repeat constructor.
    + intros h Hh. rewrite (kv_put_ne _ _ _ _ _ _ Ep) by (intros E%inode_key_inj; by apply Hh).
      apply Hk1. intros i _. apply inode_sub_key.
    + intros h j Hh. rewrite (kv_put_ne _ _ _ _ _ _ Ep) by apply inode_sub_key.
      apply Hk1. intros i _. by apply sub_key_handle_ne.
Qed.

(** [create] makes a regular file: on a store whose updates succeed it
    returns STATUS_OK, binds the name in the parent to the new inode number and
    changes no other binding, and stores an inode that carries this inode number, the
    type and protection of the requested mode, one link and the size of the object's
    metadata (zero for a new one); no other object of the heap changes. *)
Theorem create_file_correct hp (kv : S) clk self parent fs fp :
  create_pre hp kv self parent fs fp → S_ISREG (fmode fs) = true →
  ∃ fs' fp' kv' clk',
    create self parent (mkW hp kv clk) =
      Ok (STATUS_OK, mkW (<[self := fs']> (<[parent := fp']> hp)) kv' clk')
    ∧ dir_inv fp' kv' ∧ same_but_parts fp fp'
    ∧ (∀ n, dir_find fp' kv' n =
         if decide (n = nameString fs) then Some (handle fs) else dir_find fp kv n)
    ∧ synced fs' kv' ∧ handle fs' = handle fs
    ∧ meta_handle (meta fs') = handle fs ∧ meta_type (meta fs') = LOGFS_IFREG
    ∧ meta_protection (meta fs') = SetProtectionFromMode (fmode fs)
    ∧ meta_nLink (meta fs') = 1
    ∧ meta_fileTotalSize (meta fs') = meta_fileTotalSize (meta fs).
Proof.
  intros P Hr. destruct (create_file_ok hp kv clk self parent fs fp P Hr)
    as (fs' & fp' & kv' & clk' & E). exists fs', fp', kv', clk'. repeat apply conj; apply E.
Qed.

(** The new directory and its parent after [create], with what changed in the store. *)
Lemma create_dir_ok hp (kv : S) clk self parent fs fp :
  create_pre hp kv self parent fs fp → S_ISDIR (fmode fs) = true →
  ∃ fs' fp' kv' clk',
    create self parent (mkW hp kv clk) =
      Ok (STATUS_OK, mkW (<[self := fs']> (<[parent := fp']> hp)) kv' clk')
    ∧ dir_inv fp' kv' ∧ dir_inv fs' kv'
    ∧ (∀ n, dir_find fp' kv' n =
         if decide (n = nameString fs) then Some (handle fs) else dir_find fp kv n)
    ∧ (∀ n, dir_find fs' kv' n =
         if decide (n = lit "..") then Some (handle fp)
         else if decide (n = lit ".") then Some (handle fs) else None)
    ∧ synced fs' kv' ∧ synced fp' kv'
    ∧ handle fs' = handle fs ∧ handle fp' = handle fp
    ∧ meta_type (meta fs') = LOGFS_IFDIR ∧ meta_nLink (meta fs') = 2
    ∧ meta_nLink (meta fp') = u32 (meta_nLink (meta fp) + 1)
    ∧ meta fs' = set_nLink 2 (init_meta fs clk) ∧ fsId fs' = fsId fs
    ∧ meta fp' = set_nLink (u32 (meta_nLink (meta fp) + 1)) (meta fp) ∧ fsId fp' = fsId fp
    ∧ confined kv kv' [handle fs; handle fp].
Proof.
  intros P Hdir. pose proof (cp_ne _ _ _ _ _ _ P) as Hne.
  pose proof (cp_hne _ _ _ _ _ _ P) as Hhne.
  pose proof (di_ino _ _ (cp_dir _ _ _ _ _ _ P)) as Hhp. pose proof (cp_h _ _ _ _ _ _ P) as Hhs.
  assert (∀ i j, sub_key (handle fs) i ≠ sub_key (handle fp) j) as Hsub.
  { intros i j. apply sub_key_handle_ne. by rewrite !u64_small. }
  destruct (create_prefix hp kv clk self parent fs fp P)
    as (fp1 & kv1 & hp3 & Ecr & Ehp & Hs3 & Hp3 & D1 & Hs1 & Hf1 & Hk1).
  set (f2 := set_meta (set_nLink _ _) _) in *.
  destruct (same_but_parts_fields _ _ Hs1) as (Ef1 & Eh1 & Em1 & _).
  assert (meta_type (meta f2) = LOGFS_IFDIR) as Hty
    by (unfold f2, init_meta; cbn; by apply setTypeFromMode_dir).
  destruct (fresh_dir f2 kv1) as [Df2 Hempty]; [apply P|apply P|apply P|..].
  { intros i Hi. rewrite Hk1; [by apply (cp_unused _ _ _ _ _ _ P)|]. intros j _. apply Hsub. }
  destruct (connectDots_ok hp3 kv1 (Datatypes.S clk) self parent f2 fp1 Hne Hs3 Hp3 Df2 Hempty)
    as (f3 & kv3 & Econn & D3 & Ef3 & Eh3 & Em3 & F3 & K3); [done|by rewrite Eh1|].
  set (fp3 := relinked fp1) in *. set (hp4 := <[parent := fp3]> (<[self := f3]> hp3)) in *.
  assert (hp4 !! parent = Some fp3) as Hp4 by apply lookup_insert_eq.
  assert (hp4 !! self = Some f3) as Hs4.
  { apply set_heap_ne; [by apply not_eq_sym|]. apply lookup_insert_eq. }
  destruct (heap_writeToLog2 hp4 kv3 (Datatypes.S clk) parent self fp3 f3 Hp4 Hs4)
    as (kv4 & kv5 & Ew4 & Ew5 & Sy4 & Sy5 & Hk5 & C5);
    [cbn; rewrite Eh3, Eh1; by apply not_eq_sym|cbn; by rewrite Eh1|by rewrite Eh3|].
  destruct (dir_inv_frame fp1 fp3 kv1 kv5) as [D5 F5]; [done|done|done| |done|].
  { intros i Hi. rewrite Hk5, K3; [done|]. intros j _. rewrite Eh1. apply not_eq_sym, Hsub. }
  destruct (dir_inv_frame f3 f3 kv3 kv5) as [D6 F6]; [done|done|done|by intros; apply Hk5|done|].
  exists f3, fp3, kv5, (Datatypes.S clk).
  split; [|split; [done|split; [done|split; [|split]]]].
  - rewrite Ecr, decide_True by done. rewrite (bind_ok _ _ _ tt (mkW hp4 kv4 (Datatypes.S clk)))
      by by rewrite (bind_ok _ _ _ _ _ Econn), (bind_ok _ _ _ _ _ Ew4).
    rewrite Ew5. do 3 f_equal. unfold hp4. rewrite Ehp.
    apply map_eq. intros p. destruct (decide (p = self)) as [->|]; [|destruct (decide (p = parent)) as [->|]];
      by rewrite ?lookup_insert_eq, ?lookup_insert_ne, ?lookup_insert_eq by done.
  - intros n. by rewrite F5, Hf1.
  - intros n. by rewrite F6, F3, Eh1.
  - split; [done|]. split; [done|].
    split; [done|]. split; [done|]. rewrite Em3. do 2 (split; [done|]).
    split; [cbn; by rewrite Em1|]. split; [done|]. split; [done|].
    split; [cbn; by rewrite Em1|]. split; [done|].
    apply (confined_trans _ kv1); [apply (confined_entries _ _ _ _ Hk1); by repeat constructor|].
    apply (confined_trans _ kv3); [apply (confined_entries _ _ _ _ K3); by repeat constructor|].
    apply (confined_weaken _ _ _ _) with (2 := C5). cbn. rewrite Eh1, Eh3. by repeat constructor.
Qed.

(** C16: [create] makes a directory: it returns STATUS_OK, binds the name in the
    parent, gives the new directory exactly the entries "." (itself) and ".." (the
    parent), stores the new inode with two links (its name and its "."), and raises
    the stored link count of the parent by one (for ".."), modulo 2^32. *)
Theorem create_dir_correct hp (kv : S) clk self parent fs fp :
  create_pre hp kv self parent fs fp → S_ISDIR (fmode fs) = true →
  ∃ fs' fp' kv' clk',
    create self parent (mkW hp kv clk) =
      Ok (STATUS_OK, mkW (<[self := fs']> (<[parent := fp']> hp)) kv' clk')
    ∧ dir_inv fp' kv' ∧ dir_inv fs' kv'
    ∧ (∀ n, dir_find fp' kv' n =
         if decide (n = nameString fs) then Some (handle fs) else dir_find fp kv n)
    ∧ (∀ n, dir_find fs' kv' n =
         if decide (n = lit "..") then Some (handle fp)
         else if decide (n = lit ".") then Some (handle fs) else None)
    ∧ synced fs' kv' ∧ synced fp' kv'
    ∧ handle fs' = handle fs ∧ handle fp' = handle fp
    ∧ meta_type (meta fs') = LOGFS_IFDIR ∧ meta_nLink (meta fs') = 2
    ∧ meta_nLink (meta fp') = u32 (meta_nLink (meta fp) + 1).
Proof.
  intros P Hd. destruct (create_dir_ok hp kv clk self parent fs fp P Hd)
    as (fs' & fp' & kv' & clk' & E). exists fs', fp', kv', clk'. repeat apply conj; apply E.
Qed.

(** [createRoot] makes a root directory: with the directory as its own parent
    (the two arguments of [connectDots] are the same object), it ends with exactly "."
    and ".." bound to itself and with a stored link count of two. *)
Theorem createRoot_correct hp (kv : S) clk self f :
  hp !! self = Some f → partitions f = None →
  0 ≤ fsId f < 18446744073709551616 → 0 ≤ handle f < 18446744073709551616 →
  (∀ i, 0 ≤ i < OFF_MAX → kv_get kv (sub_key (handle f) i) = None) →
  ∃ f' kv' clk', createRoot self (mkW hp kv clk) = Ok (STATUS_OK, mkW (<[self := f']> hp) kv' clk')
    ∧ dir_inv f' kv' ∧ synced f' kv' ∧ handle f' = handle f
    ∧ meta_type (meta f') = setTypeFromMode (fmode f) (meta_type (meta f))
    ∧ meta_nLink (meta f') = 2
    ∧ (∀ n, dir_find f' kv' n =
         if decide (n = lit "..") then Some (handle f)
         else if decide (n = lit ".") then Some (handle f) else None).
Proof.
  intros Hp Hnew Hfs Hh Hk. set (f1 := set_meta (init_meta f clk) f).
  assert (<[self := f1]> hp !! self = Some f1) as Hp1 by apply lookup_insert_eq.
  destruct (fresh_dir f1 kv) as [D1 Hempty]; [done..|].
  destruct (connectDots_first (<[self := f1]> hp) kv (Datatypes.S clk) self f1 (handle f1) Hp1 D1 Hempty)
    as (f3 & kv3 & Ec & D3 & Ef3 & Eh3 & Em3 & F3 & K3); [done|done|].
  set (f4 := relinked f3). set (hp4 := <[self := f4]> (<[self := f3]> (<[self := f1]> hp))).
  assert (hp4 !! self = Some f4) as Hp4 by apply lookup_insert_eq.
  destruct (heap_writeToLog hp4 kv3 (Datatypes.S clk) self f4 Hp4) as (kv5 & Ew & Ep).
  destruct (dir_inv_frame f3 f4 kv3 kv5) as [D5 F5]; [done|done|done| |done|].
  { intros i Hi. apply (kv_put_ne _ _ _ _ _ _ Ep), inode_sub_key. }
  exists f4, kv5, (Datatypes.S clk). split; [|split; [done|split; [|split; [done|split]]]].
  - unfold createRoot. rewrite (bind_ok _ _ _ _ _ (at_obj_run self initMeta hp kv clk f _ _ _ _
      Hp (initMeta_run f kv clk))). fold f1.
    rewrite (bind_ok _ _ _ STATUS_OK (mkW hp4 kv3 (Datatypes.S clk))).
    { rewrite Ew. do 3 f_equal. unfold hp4. by rewrite !insert_insert_eq. }
    unfold connectDots. rewrite !(bind_ok _ _ _ _ _ (at_obj_this self _ kv (Datatypes.S clk) f1 Hp1)).
    rewrite (Ec (λ status, if decide (status = STATUS_OK) then
      at_obj self (NLinkAdjust 1);; at_obj self (upd (set_metaDirty true));; mret status
      else mret status)). rewrite decide_True by done.
    rewrite heap_relink with (f := f3) by apply lookup_insert_eq. done.
  - apply (kv_put_eq _ _ _ _ Ep).
  - cbn. by rewrite Em3.
  - split; [cbn; by rewrite Em3|]. intros n. by rewrite F5, F3.
Qed.

(** [link] on a name that is bound. *)
Lemma link_exists hp (kv : S) clk dir file fd ff name i0 :
  dir ≠ file → hp !! dir = Some fd → hp !! file = Some ff →
  dir_inv fd kv → dir_find fd kv name = Some i0 →
  ∃ fd', link dir file name (mkW hp kv clk) =
      Ok (STATUS_INTERNAL_ERROR, mkW (<[file := ff]> (<[dir := fd']> hp)) kv clk)
    ∧ dir_inv fd' kv ∧ ∀ n, dir_find fd' kv n = dir_find fd kv n.
Proof.
  intros Hne Hd Hf D F.
  destruct (insertEntry_exists fd kv clk (handle ff) name i0 D F) as (fd' & E & D' & Hs & Hfd).
  exists fd'. split; [|done].
  unfold link. rewrite (bind_ok _ _ _ _ _ (at_obj_this file hp kv clk ff Hf)).
  rewrite (bind_ok _ _ _ _ _ (at_obj_run dir _ hp kv clk fd _ _ _ _ Hd E)).
  rewrite decide_False by done. mrun. do 3 f_equal.
  symmetry. apply insert_id. by apply set_heap_ne.
Qed.

(** [link] on a new name, with what changed in the store. *)
Lemma link_new hp (kv : S) clk dir file fd ff name :
  dir ≠ file → hp !! dir = Some fd → hp !! file = Some ff → handle fd ≠ handle ff →
  0 ≤ handle ff < 18446744073709551616 → meta_type (meta ff) = LOGFS_IFREG →
  dir_inv fd kv → wf_name name → dir_fits fd kv name → dir_find fd kv name = None →
  ∃ fd' ff' kv' clk' t1 t2 t3,
    link dir file name (mkW hp kv clk) =
      Ok (STATUS_OK, mkW (<[file := ff']> (<[dir := fd']> hp)) kv' clk')
    ∧ dir_inv fd' kv' ∧ synced fd' kv' ∧ synced ff' kv'
    ∧ (∀ n, dir_find fd' kv' n = if decide (n = name) then Some (handle ff) else dir_find fd kv n)
    ∧ meta fd' = set_mtime (u32 t1) (set_ctime (u32 t2) (meta fd))
    ∧ fsId fd' = fsId fd ∧ handle fd' = handle fd
    ∧ ff' = set_meta (set_ctime (u32 t3) (set_nLink (u32 (meta_nLink (meta ff) + 1)) (meta ff))) ff
    ∧ confined kv kv' [handle fd; handle ff].
Proof.
  intros Hne Hd Hf Hhne Hh Hty D Wn Hfit F. pose proof (di_ino _ _ D) as Hhd.
  unfold link. rewrite (bind_ok _ _ _ _ _ (at_obj_this file hp kv clk ff Hf)).
  destruct (heap_insertEntry hp kv clk dir fd (handle ff) name Hd D) as (fd1 & kv1 & E1 & D1 & S1 & F1 & K1);
    [done|done|done|].
  destruct (same_but_parts_fields _ _ S1) as (Ef1 & Eh1 & Em1 & _).
  set (c2 := Datatypes.S (Datatypes.S clk)).
  set (fd2 := set_meta (set_mtime (u32 (env_time (Datatypes.S clk)))
    (set_ctime (u32 (env_time clk)) (meta fd1))) fd1).
  set (ff2 := set_meta (set_ctime (u32 (env_time c2))
    (set_nLink (u32 (meta_nLink (meta ff) + 1)) (meta ff))) ff).
  set (hp2 := <[file := ff2]> (<[dir := fd2]> hp)).
  assert (hp2 !! dir = Some fd2) as Hd2.
  { apply set_heap_ne; [by apply not_eq_sym|]. apply lookup_insert_eq. }
  assert (hp2 !! file = Some ff2) as Hf2 by apply lookup_insert_eq.
  destruct (heap_writeToLog2 hp2 kv1 (Datatypes.S c2) dir file fd2 ff2 Hd2 Hf2)
    as (kv2 & kv3 & Ew2 & Ew3 & Sy2 & Sy3 & Hk & C3); [by cbn; rewrite Eh1|by cbn; rewrite Eh1|done|].
  destruct (dir_inv_frame fd1 fd2 kv1 kv3) as [D3 F3]; [done|done|done|by intros; apply Hk|done|].
  exists fd2, ff2, kv3, (Datatypes.S c2), (env_time (Datatypes.S clk)), (env_time clk), (env_time c2).
  fold hp2. split.
  - rewrite (bind_ok _ _ _ _ _ E1), decide_True by done.
    rewrite heap_ctime with (f := fd1) by apply lookup_insert_eq. rewrite insert_insert_eq.
    rewrite (heap_mtime _ _ _ dir _ _ (lookup_insert_eq _ _ _)). rewrite insert_insert_eq.
    cbn [meta set_meta]. change (set_meta (set_mtime _ _) _) with fd2.
    assert (<[dir := fd2]> hp !! file = Some ff) as Hf1 by by apply set_heap_ne.
    rewrite (bind_ok _ _ _ _ _ (at_obj_run file _ _ kv1 _ ff _ _ _ _ Hf1 (NLinkAdjust_run ff kv1 _ 1))).
    rewrite (heap_ctime _ _ _ file _ _ (lookup_insert_eq _ _ _)). rewrite insert_insert_eq.
    cbn [meta set_meta]. change (set_meta (set_ctime _ _) _) with ff2. fold hp2. fold c2.
    rewrite (bind_ok _ _ _ _ _ (at_obj_this file hp2 kv1 _ ff2 Hf2)).
    rewrite (bind_ok _ _ _ tt (mkW hp2 kv1 (Datatypes.S c2)))
      by (apply EXPECT_true, bool_decide_eq_true_2; done).
    by rewrite (bind_ok _ _ _ _ _ Ew2), (bind_ok _ _ _ _ _ Ew3).
  - do 3 (split; [done|]). split; [intros n; by rewrite F3, F1|].
    split; [cbn; by rewrite Em1|]. do 3 (split; [done|]). apply (confined_trans _ kv1).
    + apply (confined_entries _ _ _ _ K1). by repeat constructor.
    + apply (confined_weaken _ _ _ _) with (2 := C3). cbn. rewrite Eh1. by repeat constructor.
Qed.

(** [link] adds a name: for a regular file and a name the directory does not
    bind, it returns STATUS_OK, binds the name to the file's inode number, and both
    inodes are stored, the file with one more link (modulo 2^32); for a name that is
    bound it returns STATUS_INTERNAL_ERROR and the store and the link count stay. *)
Theorem link_correct hp (kv : S) clk dir file fd ff name :
  dir ≠ file → hp !! dir = Some fd → hp !! file = Some ff → handle fd ≠ handle ff →
  0 ≤ handle ff < 18446744073709551616 → meta_type (meta ff) = LOGFS_IFREG →
  dir_inv fd kv → wf_name name → dir_fits fd kv name →
  ∃ st fd' ff' kv' clk',
    link dir file name (mkW hp kv clk) =
      Ok (st, mkW (<[file := ff']> (<[dir := fd']> hp)) kv' clk')
    ∧ match dir_find fd kv name with
      | Some _ => st = STATUS_INTERNAL_ERROR ∧ ff' = ff ∧ kv' = kv ∧ dir_inv fd' kv
          ∧ (∀ n, dir_find fd' kv' n = dir_find fd kv n)
      | None => st = STATUS_OK ∧ dir_inv fd' kv' ∧ synced fd' kv' ∧ synced ff' kv'
          ∧ meta_nLink (meta ff') = u32 (meta_nLink (meta ff) + 1)
          ∧ (∀ n, dir_find fd' kv' n = if decide (n = name) then Some (handle ff) else dir_find fd kv n)
      end.
Proof.
  intros Hne Hd Hf Hhne Hh Hty D Wn Hfit. destruct (dir_find fd kv name) as [i0|] eqn:F.
  - destruct (link_exists hp kv clk dir file fd ff name i0 Hne Hd Hf D F) as (fd' & E & D' & Hfd).
    by exists STATUS_INTERNAL_ERROR, fd', ff, kv, clk.
  - destruct (link_new hp kv clk dir file fd ff name Hne Hd Hf Hhne Hh Hty D Wn Hfit F)
      as (fd' & ff' & kv' & clk' & t1 & t2 & t3 & E & D' & Sd & Sf & F' & _ & _ & _ & -> & _).
    by eexists STATUS_OK, fd', _, kv', clk'.
Qed.

(** [remove] of a name that is bound, with what changed in the store. *)
Lemma remove_found hp (kv : S) clk self parent fs fp name i0 :
  self ≠ parent → hp !! self = Some fs → hp !! parent = Some fp → dir_inv fp kv →
  dir_find fp kv name = Some i0 →
  ∃ fp' kv',
    remove self parent name (mkW hp kv clk) =
      Ok (STATUS_OK, mkW (<[self := set_meta (set_nLink (u32 (meta_nLink (meta fs) + -1)) (meta fs)) fs]>
                            (<[parent := fp']> hp)) kv' clk)
    ∧ dir_inv fp' kv' ∧ same_but_parts fp fp'
    ∧ (∀ n, dir_find fp' kv' n = if decide (n = name) then None else dir_find fp kv n)
    ∧ ∀ k, (∀ i, 0 ≤ i < 65536 → k ≠ sub_key (handle fp) i) → kv_get kv' k = kv_get kv k.
Proof.
  intros Hne Hs Hp D F. unfold remove.
  rewrite (bind_ok _ _ _ _ _ (at_obj_this self hp kv clk fs Hs)).
  destruct (removeEntry_found fp kv clk (handle fs) name i0 D F) as (fp' & kv' & E & D' & Hsb & Hf & Hk).
  exists fp', kv'. split; [|done].
  rewrite (bind_ok _ _ _ _ _ (at_obj_run parent _ hp kv clk fp _ _ _ _ Hp E)), decide_True by done.
  by rewrite (bind_ok _ _ _ _ _ (at_obj_run self _ _ kv' clk fs _ _ _ _
    (set_heap_ne hp parent self fp' fs (not_eq_sym Hne) Hs) (NLinkAdjust_run fs kv' clk (-1)))).
Qed.

(** C17: [remove] takes a name away: if the parent binds the name it returns
    STATUS_OK, exactly that binding goes, and the object in memory has one link less
    (modulo 2^32), but the stored inode record is not touched, so the stored link count
    is stale until something else writes the inode; if the name is not bound it returns
    STATUS_INTERNAL_ERROR and nothing changes. *)
Theorem remove_correct hp (kv : S) clk self parent fs fp name :
  self ≠ parent → hp !! self = Some fs → hp !! parent = Some fp → dir_inv fp kv →
  ∃ st fs' fp' kv',
    remove self parent name (mkW hp kv clk) =
      Ok (st, mkW (<[self := fs']> (<[parent := fp']> hp)) kv' clk)
    ∧ dir_inv fp' kv'
    ∧ (∀ n, dir_find fp' kv' n = if decide (n = name) then None else dir_find fp kv n)
    ∧ (∀ h, kv_get kv' (inode_key h) = kv_get kv (inode_key h))
    ∧ match dir_find fp kv name with
      | Some _ => st = STATUS_OK
          ∧ meta fs' = set_nLink (u32 (meta_nLink (meta fs) - 1)) (meta fs)
      | None => st = STATUS_INTERNAL_ERROR ∧ fs' = fs ∧ kv' = kv
      end.
Proof.
  intros Hne Hs Hp D. destruct (dir_find fp kv name) as [i0|] eqn:F.
  - destruct (remove_found hp kv clk self parent fs fp name i0 Hne Hs Hp D F)
      as (fp' & kv' & E & D' & Hsb & Hf & Hk).
    eexists STATUS_OK, _, fp', kv'. split; [done|]. repeat (split; [done|]). split; [|done].
    intros h. apply Hk. intros i _. apply inode_sub_key.
  - unfold remove. rewrite (bind_ok _ _ _ _ _ (at_obj_this self hp kv clk fs Hs)).
    assert (∀ fp', <[parent := fp']> hp !! self = Some fs) as Hs' by (intros; by apply set_heap_ne).
    destruct (removeEntry_absent fp kv clk (handle fs) name D F) as (fp' & E & D' & Hsb & Hf).
    rewrite (bind_ok _ _ _ _ _ (at_obj_run parent _ hp kv clk fp _ _ _ _ Hp E)), decide_False by done.
    exists STATUS_INTERNAL_ERROR, fs, fp', kv. split; [|split; [done|split; [|done]]].
    + mrun. by rewrite (insert_id _ self fs) by apply Hs'.
    + intros n. rewrite Hf. case_decide; [by subst|done].
Qed.

End Create.

(** ** Properties: the directory methods *)

Section Properties.
Context {S : Type} `{KVStoreLaws S} `{FsEnv}.

(** C10: [insertEntry] on a directory implements insertion into one name map,
    whatever the hash function: if the name is bound nothing changes and the status is
    STATUS_INTERNAL_ERROR; otherwise exactly this binding is added, in the partition
    its hash selects, and only partition keys of this directory may change in the
    store. *)
Theorem dir_insertEntry_refines f (kv : S) clk h name :
  dir_inv f kv → wf_entry (name, h) → dir_fits f kv name →
  ∃ st f' kv', insertEntry h name (mkFS f kv clk) = Ok (st, mkFS f' kv' clk)
    ∧ dir_inv f' kv' ∧ same_but_parts f f'
    ∧ (st = if dir_find f kv name is Some _ then STATUS_INTERNAL_ERROR else STATUS_OK)
    ∧ (∀ n, dir_find f' kv' n =
         if decide (n = name)
         then Some (default h (dir_find f kv name)) else dir_find f kv n)
    ∧ (∀ k, (∀ i, 0 ≤ i < 65536 → k ≠ sub_key (handle f) i) → kv_get kv' k = kv_get kv k).
Proof.
  intros D We Hfit. destruct (dir_find f kv name) as [i0|] eqn:F.
  - destruct (insertEntry_exists f kv clk h name i0 D F) as (f' & E & D' & Hs & Hf).
    exists STATUS_INTERNAL_ERROR, f', kv. repeat (split; [done|]). split; [|done].
    intros n. rewrite Hf. case_decide; [by subst|done].
  - destruct (insertEntry_new f kv clk h name D We Hfit F) as (f' & kv' & E & D' & Hs & Hf & Hk).
    by exists STATUS_OK, f', kv'.
Qed.

(** C14: [removeEntry] on a directory removes exactly the named binding, or
    returns STATUS_INTERNAL_ERROR and changes nothing when there is none. *)
Theorem dir_removeEntry_refines f (kv : S) clk h name :
  dir_inv f kv →
  ∃ st f' kv', removeEntry h name (mkFS f kv clk) = Ok (st, mkFS f' kv' clk)
    ∧ dir_inv f' kv' ∧ same_but_parts f f'
    ∧ (st = if dir_find f kv name is Some _ then STATUS_OK else STATUS_INTERNAL_ERROR)
    ∧ (∀ n, dir_find f' kv' n = if decide (n = name) then None else dir_find f kv n)
    ∧ (∀ k, (∀ i, 0 ≤ i < 65536 → k ≠ sub_key (handle f) i) → kv_get kv' k = kv_get kv k).
Proof.
  intros D. destruct (dir_find f kv name) as [i0|] eqn:F.
  - destruct (removeEntry_found f kv clk h name i0 D F) as (f' & kv' & E & D' & Hs & Hf & Hk).
    by exists STATUS_OK, f', kv'.
  - destruct (removeEntry_absent f kv clk h name D F) as (f' & E & D' & Hs & Hf).
    exists STATUS_INTERNAL_ERROR, f', kv. repeat (split; [done|]). split; [|done].
    intros n. rewrite Hf. case_decide; [by subst|done].
Qed.

(** [isDirEmpty] is true exactly when the directory binds nothing but "." and
    "..", looking at all of its partitions. *)
Theorem isDirEmpty_spec f (kv : S) clk :
  dir_inv f kv →
  ∃ b f', isDirEmpty (mkFS f kv clk) = Ok (b, mkFS f' kv clk)
    ∧ dir_inv f' kv ∧ (∀ m, dir_find f' kv m = dir_find f kv m)
    ∧ (b = true ↔ ∀ n h, dir_find f kv n = Some h → n = lit "." ∨ n = lit "..").
Proof. apply isDirEmpty_ok. Qed.

End Properties.

(** ** Witnesses: an empty directory, inode 2, over an empty store *)

#[local] Instance demo_dir_env : FsEnv := demo_env (demo_tier []).

Definition demo_dir : LogFSFile := new_LogFSFile 1 (lit "d") 2 (S_IFDIR + 493) 0 8192.
Definition demo_new (mode : Z) : LogFSFile := new_LogFSFile 1 (lit "a") 7 mode 0 8192.

Lemma demo_dir_inv : dir_inv demo_dir (∅ : MemStore) ∧ ∀ n, dir_find demo_dir (∅ : MemStore) n = None.
Proof. apply fresh_dir; [done|cbn; lia|cbn; lia|]. intros i _. apply lookup_empty. Qed.

Lemma demo_wf_name : wf_name (lit "a").
Proof. split; by apply (bool_decide_unpack _); vm_compute. Qed.

Lemma demo_fits name : (length name ≤ 255)%nat → dir_fits demo_dir (∅ : MemStore) name.
Proof.
  intros Hl. destruct demo_dir_inv as [D E]. apply dots_fit; [done| |done].
  intros n h. by rewrite E.
Qed.

Lemma dir_insertEntry_refines_witness :
  ∃ st f' kv', insertEntry 7 (lit "a") (mkFS demo_dir (∅ : MemStore) 0) = Ok (st, mkFS f' kv' 0)
    ∧ dir_inv f' kv' ∧ same_but_parts demo_dir f'
    ∧ (st = if dir_find demo_dir (∅ : MemStore) (lit "a") is Some _
            then STATUS_INTERNAL_ERROR else STATUS_OK)
    ∧ (∀ n, dir_find f' kv' n =
         if decide (n = lit "a")
         then Some (default 7 (dir_find demo_dir (∅ : MemStore) (lit "a")))
         else dir_find demo_dir (∅ : MemStore) n)
    ∧ (∀ k, (∀ i, 0 ≤ i < 65536 → k ≠ sub_key (handle demo_dir) i) →
         kv_get kv' k = kv_get (∅ : MemStore) k).
Proof.
  apply (dir_insertEntry_refines demo_dir (∅ : MemStore) 0 7 (lit "a")).
  - apply demo_dir_inv.
  - split; [apply demo_wf_name|cbn; lia].
  - apply demo_fits. cbn. lia.
Defined.

Lemma dir_removeEntry_refines_witness :
  ∃ st f' kv', removeEntry 7 (lit "a") (mkFS demo_dir (∅ : MemStore) 0) = Ok (st, mkFS f' kv' 0)
    ∧ dir_inv f' kv' ∧ same_but_parts demo_dir f'
    ∧ (st = if dir_find demo_dir (∅ : MemStore) (lit "a") is Some _
            then STATUS_OK else STATUS_INTERNAL_ERROR)
    ∧ (∀ n, dir_find f' kv' n =
         if decide (n = lit "a") then None else dir_find demo_dir (∅ : MemStore) n)
    ∧ (∀ k, (∀ i, 0 ≤ i < 65536 → k ≠ sub_key (handle demo_dir) i) →
         kv_get kv' k = kv_get (∅ : MemStore) k).
Proof.
  apply (dir_removeEntry_refines demo_dir (∅ : MemStore) 0 7 (lit "a")). apply demo_dir_inv.
Defined.

Lemma isDirEmpty_spec_witness :
  ∃ b f', isDirEmpty (mkFS demo_dir (∅ : MemStore) 0) = Ok (b, mkFS f' (∅ : MemStore) 0)
    ∧ dir_inv f' (∅ : MemStore)
    ∧ (∀ m, dir_find f' (∅ : MemStore) m = dir_find demo_dir (∅ : MemStore) m)
    ∧ (b = true ↔ ∀ n h, dir_find demo_dir (∅ : MemStore) n = Some h → n = lit "." ∨ n = lit "..").
Proof. apply (isDirEmpty_spec demo_dir (∅ : MemStore) 0). apply demo_dir_inv. Defined.

Lemma demo_create_pre mode :
  create_pre (<[1 := demo_new mode]> {[ 2 := demo_dir ]}) (∅ : MemStore) 1 2 (demo_new mode) demo_dir.
Proof.
  destruct demo_dir_inv as [D E]. split; try done.
  - apply demo_wf_name.
Qed.

Lemma create_file_correct_witness :
  ∃ fs' fp' kv' clk',
    create 1 2 (mkW (<[1 := demo_new 33188]> {[ 2 := demo_dir ]}) (∅ : MemStore) 0) =
      Ok (STATUS_OK, mkW (<[1 := fs']> (<[2 := fp']>
        (<[1 := demo_new 33188]> {[ 2 := demo_dir ]}))) kv' clk')
    ∧ dir_inv fp' kv' ∧ same_but_parts demo_dir fp'
    ∧ (∀ n, dir_find fp' kv' n =
         if decide (n = nameString (demo_new 33188)) then Some (handle (demo_new 33188))
         else dir_find demo_dir (∅ : MemStore) n)
    ∧ synced fs' kv' ∧ handle fs' = handle (demo_new 33188)
    ∧ meta_handle (meta fs') = handle (demo_new 33188) ∧ meta_type (meta fs') = LOGFS_IFREG
    ∧ meta_protection (meta fs') = SetProtectionFromMode (fmode (demo_new 33188))
    ∧ meta_nLink (meta fs') = 1
    ∧ meta_fileTotalSize (meta fs') = meta_fileTotalSize (meta (demo_new 33188)).
Proof.
  apply (create_file_correct _ (∅ : MemStore) 0 1 2 (demo_new 33188) demo_dir
    (demo_create_pre 33188) eq_refl).
Defined.

Lemma create_dir_correct_witness :
  ∃ fs' fp' kv' clk',
    create 1 2 (mkW (<[1 := demo_new 16877]> {[ 2 := demo_dir ]}) (∅ : MemStore) 0) =
      Ok (STATUS_OK, mkW (<[1 := fs']> (<[2 := fp']>
        (<[1 := demo_new 16877]> {[ 2 := demo_dir ]}))) kv' clk')
    ∧ dir_inv fp' kv' ∧ dir_inv fs' kv'
    ∧ (∀ n, dir_find fp' kv' n =
         if decide (n = nameString (demo_new 16877)) then Some (handle (demo_new 16877))
         else dir_find demo_dir (∅ : MemStore) n)
    ∧ (∀ n, dir_find fs' kv' n =
         if decide (n = lit "..") then Some (handle demo_dir)
         else if decide (n = lit ".") then Some (handle (demo_new 16877)) else None)
    ∧ synced fs' kv' ∧ synced fp' kv'
    ∧ handle fs' = handle (demo_new 16877) ∧ handle fp' = handle demo_dir
    ∧ meta_type (meta fs') = LOGFS_IFDIR ∧ meta_nLink (meta fs') = 2
    ∧ meta_nLink (meta fp') = u32 (meta_nLink (meta demo_dir) + 1).
Proof.
  apply (create_dir_correct _ (∅ : MemStore) 0 1 2 (demo_new 16877) demo_dir
    (demo_create_pre 16877) eq_refl).
Defined.

Lemma createRoot_correct_witness :
  ∃ f' kv' clk', createRoot 2 (mkW {[ 2 := demo_dir ]} (∅ : MemStore) 0)
      = Ok (STATUS_OK, mkW (<[2 := f']> {[ 2 := demo_dir ]}) kv' clk')
    ∧ dir_inv f' kv' ∧ synced f' kv' ∧ handle f' = handle demo_dir
    ∧ meta_type (meta f') = setTypeFromMode (fmode demo_dir) (meta_type (meta demo_dir))
    ∧ meta_nLink (meta f') = 2
    ∧ (∀ n, dir_find f' kv' n =
         if decide (n = lit "..") then Some (handle demo_dir)
         else if decide (n = lit ".") then Some (handle demo_dir) else None).
Proof.
  apply (createRoot_correct {[ 2 := demo_dir ]} (∅ : MemStore) 0 2 demo_dir);
    [done|done|cbn; lia|cbn; lia|intros i _; apply lookup_empty].
Defined.

Definition demo_reg : LogFSFile :=
  set_meta (set_nLink 1 (set_type LOGFS_IFREG (new_meta 0 8192))) (demo_new 33188).

Lemma link_correct_witness :
  ∃ st fd' ff' kv' clk',
    link 2 1 (lit "b") (mkW (<[1 := demo_reg]> {[ 2 := demo_dir ]}) (∅ : MemStore) 0) =
      Ok (st, mkW (<[1 := ff']> (<[2 := fd']> (<[1 := demo_reg]> {[ 2 := demo_dir ]}))) kv' clk')
    ∧ match dir_find demo_dir (∅ : MemStore) (lit "b") with
      | Some _ => st = STATUS_INTERNAL_ERROR ∧ ff' = demo_reg ∧ kv' = ∅
          ∧ dir_inv fd' (∅ : MemStore)
          ∧ (∀ n, dir_find fd' kv' n = dir_find demo_dir (∅ : MemStore) n)
      | None => st = STATUS_OK ∧ dir_inv fd' kv' ∧ synced fd' kv' ∧ synced ff' kv'
          ∧ meta_nLink (meta ff') = u32 (meta_nLink (meta demo_reg) + 1)
          ∧ (∀ n, dir_find fd' kv' n =
               if decide (n = lit "b") then Some (handle demo_reg)
               else dir_find demo_dir (∅ : MemStore) n)
      end.
Proof.
  apply (link_correct _ (∅ : MemStore) 0 2 1 demo_dir demo_reg (lit "b"));
    [done|done|done|done|cbn; lia|done|apply demo_dir_inv| |apply demo_fits; cbn; lia].
  split; by apply (bool_decide_unpack _); vm_compute.
Defined.

Lemma remove_correct_witness :
  ∃ st fs' fp' kv',
    remove 1 2 (lit "b") (mkW (<[1 := demo_reg]> {[ 2 := demo_dir ]}) (∅ : MemStore) 0) =
      Ok (st, mkW (<[1 := fs']> (<[2 := fp']> (<[1 := demo_reg]> {[ 2 := demo_dir ]}))) kv' 0)
    ∧ dir_inv fp' kv'
    ∧ (∀ n, dir_find fp' kv' n =
         if decide (n = lit "b") then None else dir_find demo_dir (∅ : MemStore) n)
    ∧ (∀ h, kv_get kv' (inode_key h) = kv_get (∅ : MemStore) (inode_key h))
    ∧ match dir_find demo_dir (∅ : MemStore) (lit "b") with
      | Some _ => st = STATUS_OK
          ∧ meta fs' = set_nLink (u32 (meta_nLink (meta demo_reg) - 1)) (meta demo_reg)
      | None => st = STATUS_INTERNAL_ERROR ∧ fs' = demo_reg ∧ kv' = ∅
      end.
Proof.
  apply (remove_correct _ (∅ : MemStore) 0 1 2 demo_reg demo_dir (lit "b"));
    [done|done|done|apply demo_dir_inv].
Defined.
