(* ===== verification/ChangeLog.v ===== *)
(** * The change log (src/tiering/fs_change_log.h, fs_change_log.cc)

    A numbered sequence of file system operations, kept in a deque and copied to a
    file.  The protobuf encoding of an entry is generated code: here it is an interface
    ([EntryCodec]) with its round trip as the law, which [Wire] discharges. *)

From Stdlib Require Import ZArith Lia Strings.String.
From stdpp Require Import base list gmap.
From S2P Require Import Prelude.

(** ** Data *)

(** The operations of proto::ChangeLogEntry. *)
Inductive Operation :=
  | OP_NONE | OP_ROOT | OP_MKDIR | OP_RMDIR | OP_CREAT | OP_LINK | OP_UNLINK | OP_SYMLINK
  | OP_RENAME | OP_SETATTR | OP_SETXATTR | OP_COMMIT | OP_TRUNCATE | OP_MKNOD | OP_NEWF
  | OP_DELFS | OP_INVALID.

(** Their numbers. *)
Definition op_val (o : Operation) : N :=
  match o with
  | OP_NONE => 0 | OP_ROOT => 1 | OP_MKDIR => 2 | OP_RMDIR => 3 | OP_CREAT => 4 | OP_LINK => 5
  | OP_UNLINK => 6 | OP_SYMLINK => 7 | OP_RENAME => 8 | OP_SETATTR => 9 | OP_SETXATTR => 10
  | OP_COMMIT => 11 | OP_TRUNCATE => 12 | OP_MKNOD => 13 | OP_NEWF => 14 | OP_DELFS => 15
  | OP_INVALID => 16
  end%N.
Definition op_of_val (n : N) : Operation :=
  match n with
  | 1 => OP_ROOT | 2 => OP_MKDIR | 3 => OP_RMDIR | 4 => OP_CREAT | 5 => OP_LINK
  | 6 => OP_UNLINK | 7 => OP_SYMLINK | 8 => OP_RENAME | 9 => OP_SETATTR | 10 => OP_SETXATTR
  | 11 => OP_COMMIT | 12 => OP_TRUNCATE | 13 => OP_MKNOD | 14 => OP_NEWF | 15 => OP_DELFS
  | 16 => OP_INVALID | _ => OP_NONE
  end%N.

(** The fields of proto::ChangeLogEntry that the file system sets; an unset field is
    [None]. *)
Record ChangeLogEntry := MkEntry {
  e_xid : option Z;
  e_operation : Operation;
  e_fs_id : option Z;
  e_inode_num : option Z;
  e_parent_inode_num : option Z;
  e_new_name : option bytes;
  e_begin_offset : option Z;
  e_end_offset : option Z;
}.

Definition has_xid (e : ChangeLogEntry) : bool := bool_decide (is_Some (e_xid e)).
(** [entry.xid()]: the default of an unset int64 is 0. *)
Definition xid (e : ChangeLogEntry) : Z := default 0 (e_xid e).
Definition with_xid (x : Z) (e : ChangeLogEntry) : ChangeLogEntry :=
  MkEntry (Some x) (e_operation e) (e_fs_id e) (e_inode_num e) (e_parent_inode_num e)
    (e_new_name e) (e_begin_offset e) (e_end_offset e).

Record FsChangeLog := MkLog {
  log_dir : bytes;
  next_xid : Z;
  eviction_next_xid : Z;
  tiered_out_xid : Z;
  log_deque : list ChangeLogEntry;
}.

Definition new_FsChangeLog (dir : bytes) (initial_xid : Z) : FsChangeLog :=
  MkLog dir initial_xid initial_xid initial_xid [].

Definition set_next_xid (x : Z) (l : FsChangeLog) : FsChangeLog :=
  MkLog (log_dir l) x (eviction_next_xid l) (tiered_out_xid l) (log_deque l).
Definition set_eviction_next_xid (x : Z) (l : FsChangeLog) : FsChangeLog :=
  MkLog (log_dir l) (next_xid l) x (tiered_out_xid l) (log_deque l).
Definition set_tiered_out_xid (x : Z) (l : FsChangeLog) : FsChangeLog :=
  MkLog (log_dir l) (next_xid l) (eviction_next_xid l) x (log_deque l).
Definition set_deque (d : list ChangeLogEntry) (l : FsChangeLog) : FsChangeLog :=
  MkLog (log_dir l) (next_xid l) (eviction_next_xid l) (tiered_out_xid l) d.

Definition get_first_xid (l : FsChangeLog) : Z :=
  match log_deque l with [] => 0 | e :: _ => xid e end.
Definition get_last_xid (l : FsChangeLog) : Z :=
  match last (log_deque l) with None => 0 | Some e => xid e end.
Definition get_size (l : FsChangeLog) : Z := Z.of_nat (length (log_deque l)).

(** ** Operations *)

Abbreviation CM := (M FsChangeLog).

Definition NextXid : CM Z := λ l, Ok (next_xid l, set_next_xid (next_xid l + 1) l).

Definition Append (entry : ChangeLogEntry) : CM Z :=
  entry ← (if has_xid entry then mret entry
           else x ← NextXid; mret (with_xid x entry));
  modify (λ l, set_deque (log_deque l ++ [entry]) l);;
  mret (xid entry).

(** [log_deque.at(i)] for [i] from [first_index] to [last_index]: [at] throws out of
    range. *)
Fixpoint deque_range (d : list ChangeLogEntry) (i : Z) (n : nat) : res (list ChangeLogEntry) :=
  match n with
  | O => Ok []
  | S n =>
      if i <? 0 then Crash UncaughtException
      else match d !! Z.to_nat i with
           | None => Crash UncaughtException
           | Some e => match deque_range d (i + 1) n with
                       | Ok es => Ok (e :: es)
                       | Crash c => Crash c
                       end
           end
  end.

(** [Read(log_entries, &first_xid, last_xid)]: the entries appended to [log_entries]
    and the new [*first_xid]. *)
Definition Read (l : FsChangeLog) (first_xid last_xid : Z) : res (list ChangeLogEntry * Z) :=
  let size := Z.of_nat (length (log_deque l)) in
  let zeroth_xid := i64 (u64 (next_xid l - size)) in
  let first_index := first_xid - zeroth_xid in
  let first_index := if first_index <? 0 then 0 else first_index in
  let last_index := last_xid - zeroth_xid in
  let last_index := if i32 size <=? last_index then size - 1 else last_index in
  let i0 := i32 first_index in
  match deque_range (log_deque l) i0 (Z.to_nat (last_index - i0 + 1)) with
  | Ok es => Ok (es, zeroth_xid + first_index)
  | Crash c => Crash c
  end.

(** ** The log file *)

(** The generated encoding of an entry.  Parsing gives its return value and the object,
    which keeps what was read before a failure. *)
Class EntryCodec := {
  SerializeToString : ChangeLogEntry → bytes;
  ParseFromIstream : bytes → bool * ChangeLogEntry;
}.

(** The values of the C++ types of the fields: int64, and strings of less than 2^31
    bytes. *)
Definition is_int64 (z : Z) : bool :=
  (-9223372036854775808 <=? z) && (z <? 9223372036854775808).
Definition is_string (s : bytes) : bool := Z.of_nat (length s) <? 2147483648.
Definition if_set {A} (p : A → bool) (o : option A) : bool :=
  match o with Some a => p a | None => true end.

Definition entry_typed (e : ChangeLogEntry) : bool :=
  if_set is_int64 (e_xid e) && if_set is_int64 (e_fs_id e) && if_set is_int64 (e_inode_num e)
  && if_set is_int64 (e_parent_inode_num e) && if_set is_string (e_new_name e)
  && if_set is_int64 (e_begin_offset e) && if_set is_int64 (e_end_offset e).

Class EntryCodecLaws `{EntryCodec} : Prop := {
  parse_serialize e :
    has_xid e = true → entry_typed e = true → ParseFromIstream (SerializeToString e) = (true, e);
}.

(** [std::ostream << int64_t]. *)
Definition fmt_ld (z : Z) : bytes := if z <? 0 then lit "-" ++ fmt_lu (- z) else fmt_lu z.

Definition log_file_name (l : FsChangeLog) : bytes :=
  log_dir l ++ lit "/" ++ fmt_ld (get_first_xid l) ++ lit "-" ++ fmt_ld (get_last_xid l)
  ++ lit ".pqfslog".

Section LogFile.
Context `{EntryCodec}.

(** One entry in the file: its size, then its bytes. *)
Definition log_record (e : ChangeLogEntry) : bytes :=
  le_bytes 8 (Z.of_nat (length (SerializeToString e))) ++ SerializeToString e.

(** [Flush]: the name and contents of the file written (an existing one is
    truncated); [last_log_file] remembers the name.  [front()] of an empty deque is
    undefined. *)
Definition Flush (l : FsChangeLog) (files : gmap bytes bytes)
    : res (gmap bytes bytes * bytes) :=
  match log_deque l with
  | [] => Crash UndefinedBehaviour
  | d => Ok (<[log_file_name l := concat (log_record <$> d)]> files, log_file_name l)
  end.

(** The read loop of [Refresh] on the rest of the file: the deque, [next_xid] and
    the number of entries read. *)
Fixpoint refresh_loop (fuel : nat) (ifs : bytes) (d : list ChangeLogEntry) (next n : Z)
    : res (list ChangeLogEntry * Z * Z) :=
  match fuel with
  | O => Crash OutOfFuel
  | S fuel =>
      if (length ifs <? 8)%nat then Ok (d, next, n)
      else
        let entry_size := le_val (take 8 ifs) in
        if 1024 <=? entry_size then Crash FatalLog
        else
          let rest := drop 8 ifs in
          if Z.of_nat (length rest) <? entry_size then Crash FatalLog
          else
            let log_entry := snd (ParseFromIstream (take (Z.to_nat entry_size) rest)) in
            let rest := drop (Z.to_nat entry_size) rest in
            if has_xid log_entry
            then refresh_loop fuel rest (d ++ [log_entry]) (xid log_entry + 1) (n + 1)
            else refresh_loop fuel rest d next n
  end.

(** [Refresh]: reads [last_log_file]; every turn consumes at least 8 bytes. *)
Definition Refresh (l : FsChangeLog) (files : gmap bytes bytes) (last_log_file : bytes)
    : res (Z * FsChangeLog) :=
  match files !! last_log_file with
  | None => Crash FatalLog
  | Some ifs =>
      match refresh_loop (S (length ifs)) ifs (log_deque l) (next_xid l) 0 with
      | Ok (d, next, n) => Ok (n, set_deque d (set_next_xid next l))
      | Crash c => Crash c
      end
  end.

End LogFile.

(** ** Lemmas *)

(** The log is dense: the deque holds consecutive xids that end just before
    [next_xid]. *)
Definition dense (l : FsChangeLog) : Prop :=
  ∀ i e, log_deque l !! i = Some e →
    e_xid e = Some (next_xid l - Z.of_nat (length (log_deque l)) + Z.of_nat i).

(** Values for which the index arithmetic does not overflow. *)
Record small_log (l : FsChangeLog) : Prop := {
  sl_size : Z.of_nat (length (log_deque l)) < 2147483648;
  sl_next : 0 ≤ next_xid l < 4611686018427387904;
  sl_first : Z.of_nat (length (log_deque l)) ≤ next_xid l;
}.

Lemma deque_range_ok d i n :
  0 ≤ i → (Z.to_nat i + n ≤ length d)%nat → deque_range d i n = Ok (slice (Z.to_nat i) n d).
Proof.
  revert i. induction n as [|n IH]; intros i Hi Hn; cbn [deque_range]; [done|].
  rewrite (proj2 (Z.ltb_ge _ _)) by lia.
  destruct (lookup_lt_is_Some_2 d (Z.to_nat i)) as [e E]; [lia|]. rewrite E.
  rewrite IH by lia. unfold slice. rewrite (drop_S d e (Z.to_nat i)) by done.
  cbn [take]. do 3 f_equal. f_equal. lia.
Qed.

Lemma i32_small z : -2147483648 ≤ z < 2147483648 → i32 z = z.
Proof. intros. unfold i32. rewrite Z.mod_small; lia. Qed.

Lemma dense_snoc l e x :
  dense l → e_xid e = Some (next_xid l) → x = next_xid l + 1 →
  dense (set_deque (log_deque l ++ [e]) (set_next_xid x l)).
Proof.
  intros D Hx -> i e'. cbn. rewrite length_app. cbn.
  destruct (decide (i < length (log_deque l))%nat) as [Hi|Hi].
  - rewrite lookup_app_l by done. intros E. rewrite (D i e' E). f_equal. lia.
  - rewrite lookup_app_r by lia. destruct (i - length (log_deque l))%nat eqn:Ei; [|done].
    intros [= <-]. rewrite Hx. f_equal. lia.
Qed.

(** Selecting xids from a run of consecutive ones is taking a slice. *)
Lemma filter_slice d z first last :
  (∀ i e, d !! i = Some e → xid e = z + Z.of_nat i) →
  filter (λ e, first ≤ xid e ≤ last) d =
  slice (Z.to_nat (first - z))
    (Z.to_nat (Z.min last (z + Z.of_nat (length d) - 1) - Z.max first z + 1)) d.
Proof.
  revert z. induction d as [|e d IH]; intros z Hx.
  { unfold slice. by rewrite drop_nil, take_nil. }
  assert (xid e = z) as Ez by (rewrite (Hx 0%nat e eq_refl); lia).
  specialize (IH (z + 1)). rewrite filter_cons, Ez. cbn [length].
  assert (∀ i e', d !! i = Some e' → xid e' = z + 1 + Z.of_nat i) as Hx'.
  { intros i e' E. rewrite (Hx (S i) e' E). lia. }
  specialize (IH Hx'). destruct (decide (first ≤ z)) as [Hf|Hf].
  - replace (Z.to_nat (first - z)) with 0%nat by lia.
    replace (Z.to_nat (first - (z + 1))) with 0%nat in IH by lia.
    destruct (decide (z ≤ last)) as [Hl|Hl].
    + rewrite decide_True by done. rewrite IH. unfold slice. rewrite !drop_0.
      replace (Z.to_nat (Z.min last (z + Z.of_nat (S (length d)) - 1) - Z.max first z + 1))
        with (S (Z.to_nat (Z.min last (z + 1 + Z.of_nat (length d) - 1) - Z.max first (z + 1) + 1)))
        by lia. done.
    + rewrite decide_False by lia. rewrite IH. unfold slice.
      replace (Z.to_nat (Z.min last (z + 1 + _ - 1) - _ + 1)) with 0%nat by lia.
      replace (Z.to_nat (Z.min last _ - _ + 1)) with 0%nat by lia. done.
  - rewrite decide_False by lia. rewrite IH. unfold slice.
    replace (Z.to_nat (first - z)) with (S (Z.to_nat (first - (z + 1)))) by lia. cbn [drop].
    f_equal. lia.
Qed.

Lemma dense_xid l i e :
  dense l → log_deque l !! i = Some e →
  xid e = next_xid l - Z.of_nat (length (log_deque l)) + Z.of_nat i.
Proof. intros D E. unfold xid. by rewrite (D i e E). Qed.

(** [Read] by index arithmetic, for any log. *)
Lemma Read_run l first last :
  small_log l → 0 ≤ first ≤ next_xid l → -4611686018427387904 ≤ last →
  let z := next_xid l - Z.of_nat (length (log_deque l)) in
  Read l first last =
    Ok (slice (Z.to_nat (first - z))
          (Z.to_nat (Z.min last (z + Z.of_nat (length (log_deque l)) - 1) - Z.max first z + 1))
          (log_deque l), Z.max first z).
Proof.
  intros [H1 H2 H3] Hf Hl z. unfold Read. set (size := Z.of_nat (length (log_deque l))) in *.
  rewrite u64_small, (i64_small (next_xid l - size)) by lia. fold z.
  rewrite (i32_small size) by lia.
  set (fi := if first - z <? 0 then 0 else first - z).
  assert (fi = Z.max 0 (first - z)) as Efi by (unfold fi; destruct (Z.ltb_spec (first - z) 0); lia).
  set (li := if size <=? last - z then size - 1 else last - z).
  assert (li = Z.min (last - z) (size - 1)) as Eli
    by (unfold li; destruct (Z.leb_spec size (last - z)); lia).
  rewrite i32_small by lia. rewrite deque_range_ok by lia.
  do 2 f_equal; [|lia]. f_equal; lia.
Qed.

(** ** Lemmas: the log file *)

Section LogFileLemmas.
Context `{EntryCodecLaws}.

Lemma log_record_length e : (8 ≤ length (log_record e))%nat.
Proof. unfold log_record. rewrite length_app, length_le_bytes. lia. Qed.

(** The entries [Refresh] accepts. *)
Definition readable (e : ChangeLogEntry) : Prop :=
  has_xid e = true ∧ entry_typed e = true ∧ Z.of_nat (length (SerializeToString e)) < 1024.

Lemma refresh_loop_step fuel e rest d next n :
  readable e →
  refresh_loop (S fuel) (log_record e ++ rest) d next n =
  refresh_loop fuel rest (d ++ [e]) (xid e + 1) (n + 1).
Proof.
  intros (Hx & Ht & Hl). cbn [refresh_loop].
  rewrite (proj2 (Nat.ltb_ge _ _)) by (rewrite length_app; pose proof (log_record_length e); lia).
  unfold log_record. rewrite <-app_assoc.
  rewrite take_app_length', drop_app_length' by by rewrite length_le_bytes.
  rewrite le_val_u64, u64_small by lia.
  rewrite (proj2 (Z.leb_gt _ _)) by lia.
  rewrite (proj2 (Z.ltb_ge _ _)) by (rewrite length_app; lia).
  rewrite Nat2Z.id, take_app_length, drop_app_length, parse_serialize by done.
  cbn [snd]. by rewrite Hx.
Qed.

Lemma refresh_loop_all es fuel d next n :
  Forall readable es → (length es < fuel)%nat →
  refresh_loop fuel (concat (log_record <$> es)) d next n =
    Ok (d ++ es, match last es with Some e => xid e + 1 | None => next end,
        n + Z.of_nat (length es)).
Proof.
  intros Hr. revert fuel d next n. induction Hr as [|e es He Hr IH]; intros fuel d next n Hf.
  - destruct fuel; [cbn in Hf; lia|]. cbn. by rewrite app_nil_r, Z.add_0_r.
  - destruct fuel as [|fuel]; [cbn in Hf; lia|]. cbn [fmap list_fmap concat].
    rewrite refresh_loop_step by done. rewrite IH by (cbn in Hf; lia).
    rewrite <-app_assoc. do 2 f_equal; [f_equal|cbn [length]; lia].
    rewrite last_cons. by destruct (last es).
Qed.

Lemma records_length es : (length es ≤ length (concat (log_record <$> es)))%nat.
Proof.
  induction es as [|e es IH]; cbn; [lia|]. rewrite length_app.
  pose proof (log_record_length e). lia.
Qed.

End LogFileLemmas.

(** ** Properties *)

(** [Read] on a dense log. *)
Lemma Read_dense l first last :
  dense l → small_log l → 0 ≤ first ≤ next_xid l → -4611686018427387904 ≤ last →
  Read l first last =
    Ok (filter (λ e, first ≤ xid e ≤ last) (log_deque l),
        Z.max first (next_xid l - Z.of_nat (length (log_deque l)))).
Proof.
  intros D Sm Hf Hl. rewrite Read_run by done.
  by rewrite (filter_slice _ (next_xid l - Z.of_nat (length (log_deque l))))
    by (intros; by apply dense_xid).
Qed.

(** C24: on a dense log (consecutive xids up to [next_xid]), [Read] returns exactly
    the entries whose xid is in the requested range, in order, for every first xid up
    to the next one and every last xid; the reported first xid is the request raised
    to the start of the log, and no access is out of range. *)
Theorem Read_exact l first last :
  dense l → small_log l → 0 ≤ first ≤ next_xid l → -4611686018427387904 ≤ last →
  Read l first last =
    Ok (filter (λ e, first ≤ xid e ≤ last) (log_deque l),
        Z.max first (next_xid l - Z.of_nat (length (log_deque l)))).
Proof. apply Read_dense. Qed.

Definition demo_entry (x : Z) : ChangeLogEntry :=
  MkEntry (Some x) OP_CREAT (Some 0) (Some 7) None None None None.
Definition demo_log : FsChangeLog := MkLog [] 3 1 1 [demo_entry 1; demo_entry 2].

Lemma demo_log_dense : dense demo_log.
Proof. by intros [|[|i]] e [= <-]. Qed.

Lemma Read_exact_witness :
  Read demo_log 2 100 =
    Ok (filter (λ e, 2 ≤ xid e ≤ 100) (log_deque demo_log), Z.max 2 (3 - 2)).
Proof.
  apply (Read_exact demo_log 2 100); [apply demo_log_dense|split; cbn; lia|cbn; lia|lia].
Defined.

(** C25: [Append] keeps the log dense and numbers entries consecutively, both for an
    entry without an xid and for one whose xid was reserved with [NextXid] just
    before. *)
Theorem Append_numbers_densely l e :
  dense l →
  (e_xid e = None →
     ∃ l', Append e l = Ok (next_xid l, l') ∧ dense l' ∧ next_xid l' = next_xid l + 1
       ∧ log_deque l' = log_deque l ++ [with_xid (next_xid l) e])
  ∧ (∃ l', (x ← NextXid; Append (with_xid x e)) l = Ok (next_xid l, l') ∧ dense l'
       ∧ next_xid l' = next_xid l + 1
       ∧ log_deque l' = log_deque l ++ [with_xid (next_xid l) e]).
Proof.
  intros D.
  set (l1 := set_deque (log_deque l ++ [with_xid (next_xid l) e]) (set_next_xid (next_xid l + 1) l)).
  assert (dense l1) as D1 by by apply dense_snoc.
  split.
  - intros Hn. exists l1. split; [|done]. unfold Append, NextXid, has_xid. mrun. rewrite Hn.
    rewrite bool_decide_false by (intros [? ?]; done). reflexivity.
  - exists l1. split; [|done]. unfold Append, NextXid, has_xid. mrun. reflexivity.
Qed.

Lemma Append_numbers_densely_witness :
  (e_xid (MkEntry None OP_UNLINK None None None None None None) = None →
     ∃ l', Append (MkEntry None OP_UNLINK None None None None None None) demo_log = Ok (3, l')
       ∧ dense l' ∧ next_xid l' = 3 + 1
       ∧ log_deque l' = log_deque demo_log ++
           [with_xid 3 (MkEntry None OP_UNLINK None None None None None None)])
  ∧ (∃ l', (x ← NextXid; Append (with_xid x (MkEntry None OP_UNLINK None None None None None None)))
         demo_log = Ok (3, l') ∧ dense l' ∧ next_xid l' = 3 + 1
       ∧ log_deque l' = log_deque demo_log ++
           [with_xid 3 (MkEntry None OP_UNLINK None None None None None None)]).
Proof.
  apply (Append_numbers_densely demo_log (MkEntry None OP_UNLINK None None None None None None)).
  apply demo_log_dense.
Defined.

(** One gap makes [Read] lose entries.  If an xid is taken with [NextXid] and
    not used (an operation that failed, or [Rmdir], which takes one and then appends
    an entry without an xid), the index arithmetic is off by one from then on: the
    first entry of the log is still there, but asking for its xid returns nothing. *)
Theorem gap_makes_Read_lose_entries l e0 d e :
  dense l → small_log l → next_xid l < 4611686018427387900 →
  Z.of_nat (length (log_deque l)) < 2147483640 →
  log_deque l = e0 :: d → e_xid e = None →
  ∃ l', (NextXid;; Append e) l = Ok (next_xid l + 1, l')
    ∧ e0 ∈ log_deque l'
    ∧ Read l' (xid e0) (xid e0) = Ok ([], xid e0 + 1).
Proof.
  intros D [H1 H2 H3] Hn Hs Hd He.
  assert (xid e0 = next_xid l - Z.of_nat (length (log_deque l))) as Hx.
  { rewrite (dense_xid l 0 e0 D) by by rewrite Hd. lia. }
  eexists. split.
  { unfold Append, NextXid, has_xid. mrun. rewrite He.
    rewrite bool_decide_false by (intros [? ?]; done). reflexivity. }
  split.
  { cbn. rewrite Hd. left. }
  rewrite Read_run; cbn [log_deque next_xid set_deque set_next_xid]; rewrite ?length_app;
    cbn [length]; [| |lia|lia].
  - do 2 f_equal; [|lia]. unfold slice.
    replace (Z.to_nat (Z.min _ _ - _ + 1)) with 0%nat by lia. done.
  - split; cbn [log_deque next_xid set_deque set_next_xid]; rewrite ?length_app; cbn [length]; lia.
Qed.

Lemma gap_makes_Read_lose_entries_witness :
  ∃ l', (NextXid;; Append (MkEntry None OP_RMDIR None None None None None None)) demo_log
      = Ok (3 + 1, l')
    ∧ demo_entry 1 ∈ log_deque l'
    ∧ Read l' (xid (demo_entry 1)) (xid (demo_entry 1)) = Ok ([], xid (demo_entry 1) + 1).
Proof.
  apply (gap_makes_Read_lose_entries demo_log (demo_entry 1) [demo_entry 2]
    (MkEntry None OP_RMDIR None None None None None None));
    [apply demo_log_dense|split; cbn; lia|cbn; lia|cbn; lia|done|done].
Defined.

(** The log survives a flush and a refresh: if every entry has an xid, values of the types
    of its fields and an encoding below the 1024 bytes that [Refresh] accepts, a new log
    that refreshes from the file [Flush] wrote has the same entries and continues after the
    last xid, whatever the contents of the other files. *)
Lemma flush_refresh `{EntryCodecLaws} l files x :
  log_deque l ≠ [] → Forall readable (log_deque l) →
  ∃ files' name l', Flush l files = Ok (files', name)
    ∧ Refresh (new_FsChangeLog (log_dir l) x) files' name =
        Ok (Z.of_nat (length (log_deque l)), l')
    ∧ log_deque l' = log_deque l ∧ next_xid l' = get_last_xid l + 1
    ∧ ∀ f, f ≠ name → files' !! f = files !! f.
Proof.
  intros Hne Hr.
  eexists (<[log_file_name l := concat (log_record <$> log_deque l)]> files), (log_file_name l), _.
  split; [unfold Flush; by destruct (log_deque l)|]. split.
  { unfold Refresh. rewrite lookup_insert_eq.
    rewrite refresh_loop_all by (done || (pose proof (records_length (log_deque l)); lia)).
    cbn [new_FsChangeLog log_deque next_xid app]. reflexivity. }
  split; [done|]. split.
  - cbn. unfold get_last_xid. destruct (last (log_deque l)) eqn:E; [done|].
    by apply last_None in E.
  - intros f Hf. by rewrite lookup_insert_ne.
Qed.

(** An encoding for the witness: the fields as one number, one bit per byte. *)
Fixpoint pos_bytes (p : positive) : bytes :=
  match p with
  | xH => []
  | xO p => Byte.x30 :: pos_bytes p
  | xI p => Byte.x31 :: pos_bytes p
  end.
Fixpoint bytes_pos (b : bytes) : positive :=
  match b with
  | [] => xH
  | c :: b => if decide (c = Byte.x30) then xO (bytes_pos b) else xI (bytes_pos b)
  end.

Lemma bytes_pos_bytes p : bytes_pos (pos_bytes p) = p.
Proof. induction p as [p IH|p IH|]; cbn; by rewrite ?IH. Qed.

Abbreviation entry_tuple :=
  (option Z * N * option Z * option Z * option Z * option bytes * option Z * option Z)%type.

Definition to_tuple (e : ChangeLogEntry) : entry_tuple :=
  (e_xid e, op_val (e_operation e), e_fs_id e, e_inode_num e, e_parent_inode_num e,
   e_new_name e, e_begin_offset e, e_end_offset e).
Definition of_tuple (t : entry_tuple) : ChangeLogEntry :=
  let '(a, b, c, d, e, f, g, h) := t in MkEntry a (op_of_val b) c d e f g h.

#[export] Instance demo_codec : EntryCodec := {|
  SerializeToString e := pos_bytes (encode (to_tuple e));
  ParseFromIstream b :=
    match decode (bytes_pos b) with
    | Some t => (true, of_tuple t)
    | None => (false, MkEntry None OP_NONE None None None None None None)
    end;
|}.

#[export] Instance demo_codec_laws : EntryCodecLaws.
Proof.
  split. intros e _ _. cbn. rewrite bytes_pos_bytes, decode_encode. cbn. f_equal.
  destruct e as [? [] ? ? ? ? ? ?]; done.
Qed.
