(* ===== verification/Wire.v ===== *)
(** * The wire format of the log entries (src/tiering/change_log.pb.h, change_log.pb.cc)

    The class that protoc generated for ChangeLogEntry, as it is kept in the source tree:
    its fields with their has-bits, serializing, the size computed beforehand, parsing
    with its jumps from one field to the next, and merging.  The protobuf runtime below it
    (tags, varints, strings, unknown fields) is third-party code: the class [WireRuntime]
    with the laws [WireLaws].  [doc_runtime] is the encoding that the protobuf
    documentation describes, as an instance.  The log is a client of this code through
    [EntryCodec], whose laws are proved here. *)

From Stdlib Require Import ZArith Lia Strings.String.
From stdpp Require Import base list gmap.
From S2P Require Import Prelude ChangeLog.

(** ** The protobuf runtime *)

(** What reading a tag gives: the tag (0 if there is none), whether it is within the
    cutoff, whether the input ended where a message may end, and the rest. *)
Record tag_read := MkTag { tr_tag : Z; tr_within : bool; tr_end : bool; tr_rest : bytes }.

(** The calls on CodedOutputStream, CodedInputStream, WireFormatLite, WireFormat and
    UnknownFieldSet.  A string or an unknown field that cannot be read may leave
    something behind. *)
Class WireRuntime (U : Type) := {
  ufs_new : U;
  ufs_empty : U → bool;
  AddVarint : Z → Z → U → U;
  ufs_MergeFrom : U → U → U;
  SerializeUnknownFields : U → bytes;
  ComputeUnknownFieldsSize : U → Z;
  WriteTag : Z → bytes;
  WriteInt64NoTag : Z → bytes;
  WriteEnumNoTag : Z → bytes;
  WriteStringNoTag : bytes → bytes;
  Int64Size : Z → Z;
  EnumSize : Z → Z;
  StringSize : bytes → Z;
  ReadTagWithCutoff : Z → bytes → tag_read;
  ExpectTag : Z → bytes → option bytes;
  ExpectAtEnd : bytes → bool;
  ReadInt64 : bytes → option (Z * bytes);
  ReadEnum : bytes → option (Z * bytes);
  ReadString : bytes → bool * bytes * bytes;
  SkipField : Z → bytes → U → bool * U * bytes;
}.

(** What the generated code relies on: a value that was written is read back and the rest
    of the input is left; the sizes are those of what is written; a tag up to 127 is one
    byte; [ExpectTag] consumes the tag that reading would give; reading consumes input. *)
Class WireLaws (U : Type) `{WireRuntime U} : Prop := {
  ufs_new_empty : ufs_empty ufs_new = true;
  ufs_empty_new u : ufs_empty u = true → u = ufs_new;
  ufs_merge_new : ufs_MergeFrom ufs_new ufs_new = ufs_new;
  tag_size t : 0 < t ≤ 127 → length (WriteTag t) = 1%nat;
  int64_size v : is_int64 v = true →
    Z.of_nat (length (WriteInt64NoTag v)) = Int64Size v ∧ Int64Size v ≤ 10;
  enum_size v : 0 ≤ v < 128 →
    Z.of_nat (length (WriteEnumNoTag v)) = EnumSize v ∧ EnumSize v ≤ 10;
  string_size s : is_string s = true →
    Z.of_nat (length (WriteStringNoTag s)) = StringSize s ∧ StringSize s ≤ Z.of_nat (length s) + 5;
  read_tag t rest : 0 < t ≤ 127 →
    ReadTagWithCutoff 127 (WriteTag t ++ rest) = MkTag t true false rest;
  read_tag_end : tr_tag (ReadTagWithCutoff 127 []) = 0 ∧ tr_end (ReadTagWithCutoff 127 []) = true;
  read_tag_consumes i : tr_tag (ReadTagWithCutoff 127 i) ≠ 0 →
    (length (tr_rest (ReadTagWithCutoff 127 i)) < length i)%nat;
  expect_tag t i r : 0 < t ≤ 127 → ExpectTag t i = Some r →
    ReadTagWithCutoff 127 i = MkTag t true false r;
  expect_at_end i : ExpectAtEnd i = true → i = [];
  read_int64 v rest : is_int64 v = true → ReadInt64 (WriteInt64NoTag v ++ rest) = Some (v, rest);
  read_enum v rest : 0 ≤ v < 128 → ReadEnum (WriteEnumNoTag v ++ rest) = Some (v, rest);
  read_string s rest : is_string s = true → ReadString (WriteStringNoTag s ++ rest) = (true, s, rest);
  read_int64_consumes i v r : ReadInt64 i = Some (v, r) → (length r ≤ length i)%nat;
  read_enum_consumes i v r : ReadEnum i = Some (v, r) → (length r ≤ length i)%nat;
  read_string_consumes i s r : ReadString i = (true, s, r) → (length r ≤ length i)%nat;
  skip_consumes t i u u' r : SkipField t i u = (true, u', r) → (length r ≤ length i)%nat;
}.

(** ** The message *)

(** A field whose has-bit is not set is [None]. *)
Record EntryMsg (U : Type) := MkMsg {
  p_xid : option Z;
  p_timestamp_micros : option Z;
  p_fs_id : option Z;
  p_inode_num : option Z;
  p_operation : option Operation;
  p_new_name : option bytes;
  p_old_name : option bytes;
  p_spared_xid : option Z;
  p_parent_inode_num : option Z;
  p_begin_offset : option Z;
  p_end_offset : option Z;
  p_unknown : U;
}.
Arguments MkMsg {U}.
Arguments p_xid {U} _.
Arguments p_timestamp_micros {U} _.
Arguments p_fs_id {U} _.
Arguments p_inode_num {U} _.
Arguments p_operation {U} _.
Arguments p_new_name {U} _.
Arguments p_old_name {U} _.
Arguments p_spared_xid {U} _.
Arguments p_parent_inode_num {U} _.
Arguments p_begin_offset {U} _.
Arguments p_end_offset {U} _.
Arguments p_unknown {U} _.

(** [ChangeLogEntry_Operation_IsValid]. *)
Definition Operation_IsValid (value : Z) : bool := (0 <=? value) && (value <=? 16).

Section Message.
Context {U : Type} `{WireRuntime U}.

Abbreviation msg := (EntryMsg U).

Definition msg_new : msg :=
  MkMsg None None None None None None None None None None None ufs_new.

Definition set_p_xid (v : Z) (m : msg) : msg :=
  let 'MkMsg _ b c d e f g h i j k u := m in MkMsg (Some v) b c d e f g h i j k u.
Definition set_p_timestamp_micros (v : Z) (m : msg) : msg :=
  let 'MkMsg a _ c d e f g h i j k u := m in MkMsg a (Some v) c d e f g h i j k u.
Definition set_p_fs_id (v : Z) (m : msg) : msg :=
  let 'MkMsg a b _ d e f g h i j k u := m in MkMsg a b (Some v) d e f g h i j k u.
Definition set_p_inode_num (v : Z) (m : msg) : msg :=
  let 'MkMsg a b c _ e f g h i j k u := m in MkMsg a b c (Some v) e f g h i j k u.
Definition set_p_operation (v : Operation) (m : msg) : msg :=
  let 'MkMsg a b c d _ f g h i j k u := m in MkMsg a b c d (Some v) f g h i j k u.
Definition set_p_new_name (v : bytes) (m : msg) : msg :=
  let 'MkMsg a b c d e _ g h i j k u := m in MkMsg a b c d e (Some v) g h i j k u.
Definition set_p_old_name (v : bytes) (m : msg) : msg :=
  let 'MkMsg a b c d e f _ h i j k u := m in MkMsg a b c d e f (Some v) h i j k u.
Definition set_p_spared_xid (v : Z) (m : msg) : msg :=
  let 'MkMsg a b c d e f g _ i j k u := m in MkMsg a b c d e f g (Some v) i j k u.
Definition set_p_parent_inode_num (v : Z) (m : msg) : msg :=
  let 'MkMsg a b c d e f g h _ j k u := m in MkMsg a b c d e f g h (Some v) j k u.
Definition set_p_begin_offset (v : Z) (m : msg) : msg :=
  let 'MkMsg a b c d e f g h i _ k u := m in MkMsg a b c d e f g h i (Some v) k u.
Definition set_p_end_offset (v : Z) (m : msg) : msg :=
  let 'MkMsg a b c d e f g h i j _ u := m in MkMsg a b c d e f g h i j (Some v) u.
Definition set_unknown (u : U) (m : msg) : msg :=
  let 'MkMsg a b c d e f g h i j k _ := m in MkMsg a b c d e f g h i j k u.

(** ** Serializing *)

(** [if (has_x()) ...]. *)
Definition if_has {A} (w : A → bytes) (o : option A) : bytes :=
  match o with Some a => w a | None => [] end.

(** A field: its tag (eight times its number, plus the wire type), then the value. *)
Definition WriteInt64 (field v : Z) : bytes := WriteTag (8 * field) ++ WriteInt64NoTag v.
Definition WriteEnum (field : Z) (o : Operation) : bytes :=
  WriteTag (8 * field) ++ WriteEnumNoTag (Z.of_N (op_val o)).
Definition WriteString (field : Z) (s : bytes) : bytes :=
  WriteTag (8 * field + 2) ++ WriteStringNoTag s.

Definition SerializeWithCachedSizes (m : msg) : bytes :=
  if_has (WriteInt64 1) (p_xid m)
  ++ if_has (WriteInt64 2) (p_timestamp_micros m)
  ++ if_has (WriteInt64 3) (p_fs_id m)
  ++ if_has (WriteInt64 4) (p_inode_num m)
  ++ if_has (WriteEnum 5) (p_operation m)
  ++ if_has (WriteString 6) (p_new_name m)
  ++ if_has (WriteString 7) (p_old_name m)
  ++ if_has (WriteInt64 8) (p_spared_xid m)
  ++ if_has (WriteInt64 9) (p_parent_inode_num m)
  ++ if_has (WriteInt64 10) (p_begin_offset m)
  ++ if_has (WriteInt64 11) (p_end_offset m)
  ++ if ufs_empty (p_unknown m) then [] else SerializeUnknownFields (p_unknown m).

Definition size_if {A} (size : A → Z) (o : option A) : Z :=
  match o with Some a => 1 + size a | None => 0 end.

(** [ByteSize].  (A group of fields whose has-bits are all clear is skipped as a whole.) *)
Definition ByteSize (m : msg) : Z :=
  size_if Int64Size (p_xid m)
  + size_if Int64Size (p_timestamp_micros m)
  + size_if Int64Size (p_fs_id m)
  + size_if Int64Size (p_inode_num m)
  + size_if (λ o, EnumSize (Z.of_N (op_val o))) (p_operation m)
  + size_if StringSize (p_new_name m)
  + size_if StringSize (p_old_name m)
  + size_if Int64Size (p_spared_xid m)
  + size_if Int64Size (p_parent_inode_num m)
  + size_if Int64Size (p_begin_offset m)
  + size_if Int64Size (p_end_offset m)
  + if ufs_empty (p_unknown m) then 0 else ComputeUnknownFieldsSize (p_unknown m).

(** ** Parsing *)

(** The cases of the switch: the value is read and the field set; a failed read ends the
    parse.  [mutable_new_name()] sets the has-bit before the string is read. *)
Definition int_case (set : Z → msg → msg) (input : bytes) (m : msg) : bool * msg * bytes :=
  match ReadInt64 input with
  | Some (v, rest) => (true, set v m, rest)
  | None => (false, m, input)
  end.
Definition enum_case (input : bytes) (m : msg) : bool * msg * bytes :=
  match ReadEnum input with
  | Some (value, rest) =>
      (true,
       if Operation_IsValid value then set_p_operation (op_of_val (Z.to_N value)) m
       else set_unknown (AddVarint 5 value (p_unknown m)) m,
       rest)
  | None => (false, m, input)
  end.
Definition string_case (set : bytes → msg → msg) (input : bytes) (m : msg) : bool * msg * bytes :=
  let '(ok, s, rest) := ReadString input in (ok, set s m, rest).

(** The switch on the field number of a tag; [None] is [goto handle_unusual]. *)
Definition parse_case (tag : Z) (input : bytes) (m : msg) : option (bool * msg * bytes) :=
  let on t (r : bytes → msg → bool * msg * bytes) := if tag =? t then Some (r input m) else None in
  match Z.shiftr tag 3 with
  | 1 => on 8 (int_case set_p_xid)
  | 2 => on 16 (int_case set_p_timestamp_micros)
  | 3 => on 24 (int_case set_p_fs_id)
  | 4 => on 32 (int_case set_p_inode_num)
  | 5 => on 40 enum_case
  | 6 => on 50 (string_case set_p_new_name)
  | 7 => on 58 (string_case set_p_old_name)
  | 8 => on 64 (int_case set_p_spared_xid)
  | 9 => on 72 (int_case set_p_parent_inode_num)
  | 10 => on 80 (int_case set_p_begin_offset)
  | 11 => on 88 (int_case set_p_end_offset)
  | _ => None
  end.

(** The tag that is expected after a field, where the code jumps if it is there. *)
Definition expected_after (tag : Z) : option Z :=
  match tag with
  | 8 => Some 16 | 16 => Some 24 | 24 => Some 32 | 32 => Some 40 | 40 => Some 50
  | 50 => Some 58 | 58 => Some 64 | 64 => Some 72 | 72 => Some 80 | 80 => Some 88
  | _ => None
  end.

(** [MergePartialFromCodedStream]: the return value, whether the input ended where a
    message may end, and the message.  [jump] is the tag of a [goto parse_x]. *)
Fixpoint merge_loop (fuel : nat) (jump : option Z) (input : bytes) (m : msg)
    : res (bool * bool * msg) :=
  match fuel with
  | O => Crash OutOfFuel
  | S fuel =>
      let p := match jump with
               | Some t => MkTag t true false input
               | None => ReadTagWithCutoff 127 input
               end in
      let tag := tr_tag p in
      match (if tr_within p then parse_case tag (tr_rest p) m else None) with
      | Some (false, m, _) => Ok (false, false, m)
      | Some (true, m, input) =>
          match expected_after tag with
          | Some t =>
              match ExpectTag t input with
              | Some input => merge_loop fuel (Some t) input m
              | None => merge_loop fuel None input m
              end
          | None => if ExpectAtEnd input then Ok (true, true, m) else merge_loop fuel None input m
          end
      | None =>
          if (tag =? 0) || (Z.land tag 7 =? 4) then Ok (true, tr_end p, m)
          else
            let '(ok, u, input) := SkipField tag (tr_rest p) (p_unknown m) in
            if ok then merge_loop fuel None input (set_unknown u m)
            else Ok (false, false, set_unknown u m)
      end
  end.

Definition MergePartialFromCodedStream (input : bytes) (m : msg) : res (bool * bool * msg) :=
  merge_loop (S (length input)) None input m.

Definition IsInitialized (m : msg) : bool := bool_decide (is_Some (p_xid m)).

(** Parsing into a new message: the result, false if the parse failed, a required field is
    missing or the input goes on after the message, and the object. *)
Definition ParseMsg (input : bytes) : res (bool * msg) :=
  match MergePartialFromCodedStream input msg_new with
  | Ok (ok, at_end, m) => Ok (ok && IsInitialized m && at_end, m)
  | Crash c => Crash c
  end.

(** ** Merging *)

Definition set_if {A} (set : A → msg → msg) (o : option A) (m : msg) : msg :=
  match o with Some a => set a m | None => m end.

(** [m.MergeFrom(from)]. *)
Definition MergeFrom (from m : msg) : msg :=
  let m := set_if set_p_xid (p_xid from) m in
  let m := set_if set_p_timestamp_micros (p_timestamp_micros from) m in
  let m := set_if set_p_fs_id (p_fs_id from) m in
  let m := set_if set_p_inode_num (p_inode_num from) m in
  let m := set_if set_p_operation (p_operation from) m in
  let m := set_if set_p_new_name (p_new_name from) m in
  let m := set_if set_p_old_name (p_old_name from) m in
  let m := set_if set_p_spared_xid (p_spared_xid from) m in
  let m := set_if set_p_parent_inode_num (p_parent_inode_num from) m in
  let m := set_if set_p_begin_offset (p_begin_offset from) m in
  let m := set_if set_p_end_offset (p_end_offset from) m in
  set_unknown (ufs_MergeFrom (p_unknown m) (p_unknown from)) m.

(** The values of the types of the fields, and no unknown fields. *)
Definition msg_typed (m : msg) : bool :=
  if_set is_int64 (p_xid m) && if_set is_int64 (p_timestamp_micros m)
  && if_set is_int64 (p_fs_id m) && if_set is_int64 (p_inode_num m)
  && if_set is_string (p_new_name m) && if_set is_string (p_old_name m)
  && if_set is_int64 (p_spared_xid m) && if_set is_int64 (p_parent_inode_num m)
  && if_set is_int64 (p_begin_offset m) && if_set is_int64 (p_end_offset m)
  && ufs_empty (p_unknown m).

(** ** The entries of the log as messages

    The file system sets the operation of every entry, and never a time, an old name or
    a spared xid; [operation()] of an unset field is NONE. *)
Definition to_msg (e : ChangeLogEntry) : msg :=
  MkMsg (e_xid e) None (e_fs_id e) (e_inode_num e) (Some (e_operation e)) (e_new_name e) None None
    (e_parent_inode_num e) (e_begin_offset e) (e_end_offset e) ufs_new.
Definition of_msg (m : msg) : ChangeLogEntry :=
  MkEntry (p_xid m) (default OP_NONE (p_operation m)) (p_fs_id m) (p_inode_num m)
    (p_parent_inode_num m) (p_new_name m) (p_begin_offset m) (p_end_offset m).

Definition wire_codec : EntryCodec := {|
  SerializeToString e := SerializeWithCachedSizes (to_msg e);
  ParseFromIstream b :=
    match ParseMsg b with
    | Ok (ok, m) => (ok, of_msg m)
    | Crash _ => (false, of_msg msg_new)
    end;
|}.

End Message.

(** ** Lemmas: the parse loop *)

Section Parsing.
Context {U : Type} `{WireLaws U}.

Abbreviation msg := (EntryMsg U).

Lemma parse_case_consumes tag i (m m' : msg) r :
  parse_case tag i m = Some (true, m', r) → (length r ≤ length i)%nat.
Proof.
  assert (∀ set, int_case set i m = (true, m', r) → (length r ≤ length i)%nat) as Hi.
  { unfold int_case. intros set. destruct (ReadInt64 i) as [[v r']|] eqn:E; [|done].
    intros [= _ ->]. by eapply read_int64_consumes. }
  assert (enum_case i m = (true, m', r) → (length r ≤ length i)%nat) as He.
  { unfold enum_case. destruct (ReadEnum i) as [[v r']|] eqn:E; [|done].
    intros [= _ ->]. by eapply read_enum_consumes. }
  assert (∀ set, string_case set i m = (true, m', r) → (length r ≤ length i)%nat) as Hs.
  { unfold string_case. intros set. destruct (ReadString i) as [[ok s] r'] eqn:E.
    intros [= -> _ ->]. by eapply read_string_consumes. }
  unfold parse_case. repeat case_match; try done; intros [= E]; eauto.
Qed.

Lemma parse_case_tag tag i (m : msg) x : parse_case tag i m = Some x → tag ≠ 0.
Proof. by intros E ->. Qed.

Lemma expected_small tag t : expected_after tag = Some t → 0 < t ≤ 127.
Proof. unfold expected_after. intros E. repeat case_match; simplify_eq; lia. Qed.

Lemma merge_end n (m : msg) : merge_loop (S n) None [] m = Ok (true, true, m).
Proof.
  cbn [merge_loop]. destruct read_tag_end as [Et Ee]. rewrite Et, Ee.
  by destruct (tr_within _).
Qed.

(** The jumps are an optimisation: after a field the loop goes on as if it read a tag. *)
Lemma merge_field n i tag e r0 (m m' : msg) r :
  ReadTagWithCutoff 127 i = MkTag tag true e r0 → parse_case tag r0 m = Some (true, m', r) →
  (0 < n)%nat → merge_loop (S n) None i m = merge_loop n None r m'.
Proof.
  intros Et Ep Hn. cbn [merge_loop]. rewrite Et. cbn [tr_tag tr_within tr_rest]. rewrite Ep.
  destruct n as [|n]; [lia|]. destruct (expected_after tag) as [t|] eqn:Ex.
  - destruct (ExpectTag t r) as [r'|] eqn:Ee; [|done].
    apply expect_tag in Ee; [|by eapply expected_small]. cbn [merge_loop]. by rewrite Ee.
  - destruct (ExpectAtEnd r) eqn:Ee; [|done]. apply expect_at_end in Ee as ->. by rewrite merge_end.
Qed.

(** One turn for each byte of the input and one to see the end are enough, and more make
    no difference. *)
Lemma merge_total i (m : msg) : ∃ x, ∀ n, (length i < n)%nat → merge_loop n None i m = Ok x.
Proof.
  remember (length i) as k eqn:Hk. revert i m Hk.
  induction (lt_wf k) as [k _ IH]. intros i m ->.
  destruct (ReadTagWithCutoff 127 i) as [tag w e r0] eqn:Et.
  pose proof (read_tag_consumes i) as Hc. rewrite Et in Hc. cbn [tr_tag tr_rest] in Hc.
  destruct (if w then parse_case tag r0 m else None) as [[[[|] m'] r]|] eqn:Ep.
  - destruct w; [|done]. pose proof (parse_case_consumes _ _ _ _ _ Ep) as Hr.
    specialize (Hc (parse_case_tag _ _ _ _ Ep)).
    destruct (IH (length r) ltac:(lia) r m' eq_refl) as [x Hx]. exists x. intros [|n] Hn; [lia|].
    rewrite (merge_field n i tag e r0 m m' r Et Ep) by lia. apply Hx. lia.
  - eexists. intros [|n] Hn; [lia|]. cbn [merge_loop]. rewrite Et. cbn [tr_tag tr_within tr_rest].
    by rewrite Ep.
  - destruct ((tag =? 0) || (Z.land tag 7 =? 4)) eqn:Eu.
    { eexists. intros [|n] Hn; [lia|]. cbn [merge_loop]. rewrite Et. cbn [tr_tag tr_within tr_rest].
      by rewrite Ep, Eu. }
    apply orb_false_iff in Eu as Et0. destruct Et0 as [Et0 _]. apply Z.eqb_neq in Et0. specialize (Hc Et0).
    destruct (SkipField tag r0 (p_unknown m)) as [[[|] u] r] eqn:Es.
    + apply skip_consumes in Es as Hr. destruct (IH (length r) ltac:(lia) r (set_unknown u m) eq_refl) as [x Hx].
      exists x. intros [|n] Hn; [lia|]. cbn [merge_loop]. rewrite Et. cbn [tr_tag tr_within tr_rest].
      rewrite Ep, Eu, Es. apply Hx. lia.
    + eexists. intros [|n] Hn; [lia|]. cbn [merge_loop]. rewrite Et. cbn [tr_tag tr_within tr_rest].
      by rewrite Ep, Eu, Es.
Qed.

(** ** Lemmas: parsing what was serialized *)

(** Parsing [p] in front of any input turns [m] into [m']. *)
Definition parses (p : bytes) (m m' : msg) : Prop :=
  ∀ rest, MergePartialFromCodedStream (p ++ rest) m = MergePartialFromCodedStream rest m'.

Lemma parses_nil m : parses [] m m.
Proof. done. Qed.

Lemma parses_app p q m1 m2 m3 : parses p m1 m2 → parses q m2 m3 → parses (p ++ q) m1 m3.
Proof. intros Hp Hq rest. by rewrite <-app_assoc, Hp, Hq. Qed.

Lemma parses_field tag v m m' :
  0 < tag ≤ 127 → (∀ rest, parse_case tag (v ++ rest) m = Some (true, m', rest)) →
  parses (WriteTag tag ++ v) m m'.
Proof.
  intros Ht Hv rest. rewrite <-app_assoc. unfold MergePartialFromCodedStream.
  destruct (merge_total rest m') as [x Hx].
  rewrite (merge_field _ _ tag false (v ++ rest) m m' rest) by
    (apply read_tag || apply Hv || (rewrite length_app, tag_size; lia); lia).
  rewrite !Hx; [done|lia|]. rewrite !length_app, tag_size by lia. lia.
Qed.

Lemma parses_if_has {A} (w : A → bytes) (set : A → msg → msg) (P : A → bool) o m :
  (∀ a, P a = true → parses (w a) m (set a m)) → if_set P o = true →
  parses (if_has w o) m (set_if set o m).
Proof. intros Hw. destruct o as [a|]; cbn; [apply Hw|]. intros _. apply parses_nil. Qed.

Lemma parses_int64 field set a m :
  1 ≤ field ≤ 11 → (∀ i, parse_case (8 * field) i m = Some (int_case set i m)) →
  is_int64 a = true → parses (WriteInt64 field a) m (set a m).
Proof.
  intros Hf Hc Ha. apply parses_field; [lia|]. intros rest. rewrite Hc. unfold int_case.
  by rewrite read_int64.
Qed.

Lemma parses_string field set a m :
  1 ≤ field ≤ 11 → (∀ i, parse_case (8 * field + 2) i m = Some (string_case set i m)) →
  is_string a = true → parses (WriteString field a) m (set a m).
Proof.
  intros Hf Hc Ha. apply parses_field; [lia|]. intros rest. rewrite Hc. unfold string_case.
  by rewrite read_string.
Qed.

Lemma parses_enum o m : parses (WriteEnum 5 o) m (set_p_operation o m).
Proof.
  apply parses_field; [lia|]. intros rest. change (parse_case (8 * 5) ?i m) with (Some (enum_case i m)).
  unfold enum_case. rewrite read_enum by (destruct o; cbn; lia). rewrite N2Z.id. by destruct o.
Qed.

Lemma set_if_unknown {A} (set : A → msg → msg) o m :
  (∀ a m, p_unknown (set a m) = p_unknown m) → p_unknown (set_if set o m) = p_unknown m.
Proof. intros Hs. destruct o; cbn; [apply Hs|done]. Qed.

Lemma msg_typed_unknown m : msg_typed m = true → p_unknown m = ufs_new.
Proof. unfold msg_typed. rewrite andb_true_iff. intros [_ E]. by apply ufs_empty_new. Qed.

Lemma MergeFrom_unknown a m :
  msg_typed a = true → p_unknown m = ufs_new → p_unknown (MergeFrom a m) = ufs_new.
Proof.
  intros Ha%msg_typed_unknown Hm. unfold MergeFrom. cbv zeta.
  rewrite !set_if_unknown, Ha, Hm, ufs_merge_new by (intros ? []; done).
  by match goal with |- p_unknown (set_unknown _ ?x) = _ => destruct x end.
Qed.

Lemma set_unknown_same (m : msg) : set_unknown (p_unknown m) m = m.
Proof. by destruct m. Qed.

(** Parsing a serialized message in front of any input merges it. *)
Lemma parses_serialized a m :
  msg_typed a = true → p_unknown m = ufs_new →
  parses (SerializeWithCachedSizes a) m (MergeFrom a m).
Proof.
  intros Ha Hm. pose proof (msg_typed_unknown a Ha) as Hu.
  unfold msg_typed in Ha. rewrite !andb_true_iff in Ha. destruct_and! Ha.
  unfold SerializeWithCachedSizes, MergeFrom. cbv zeta.
  repeat (eapply parses_app;
    [ first
        [ eapply parses_if_has; [intros ??; eapply parses_int64; [lia|done|done]|eassumption]
        | eapply parses_if_has; [intros ??; eapply parses_string; [lia|done|done]|eassumption]
        | eapply (parses_if_has _ _ (λ _, true)); [intros ??; apply parses_enum|by destruct (p_operation a)]] |]).
  rewrite Hu, ufs_new_empty. set (m' := set_if set_p_end_offset _ _).
  assert (p_unknown m' = ufs_new) as Em.
  { unfold m'. rewrite !set_if_unknown by (intros ? []; done). done. }
  rewrite Em, ufs_merge_new, <-Em, set_unknown_same. apply parses_nil.
Qed.

Lemma MergeFrom_new a : msg_typed a = true → MergeFrom a msg_new = a.
Proof.
  intros Ha%msg_typed_unknown.
  destruct a as [o1 o2 o3 o4 o5 o6 o7 o8 o9 o10 o11 u]. cbn in Ha. subst u. unfold MergeFrom, msg_new. cbn.
  destruct o1, o2, o3, o4, o5, o6, o7, o8, o9, o10, o11; cbn; by rewrite ufs_merge_new.
Qed.

Lemma MergeFrom_initialized a m : IsInitialized m = true → IsInitialized (MergeFrom a m) = true.
Proof.
  unfold IsInitialized. rewrite !bool_decide_eq_true. intros Hm. unfold MergeFrom. cbv zeta.
  assert (∀ {A} (set : A → msg → msg) o (m : msg), (∀ a m, is_Some (p_xid m) → is_Some (p_xid (set a m))) →
    is_Some (p_xid m) → is_Some (p_xid (set_if set o m))) as Hs.
  { intros A set [v|] m' Hset; cbn; auto. }
  match goal with |- is_Some (p_xid (set_unknown ?u ?x)) => assert (is_Some (p_xid x)); [|by destruct x] end.
  repeat (apply Hs; [by intros ? []|]). done.
Qed.

Lemma MergePartial_end (m : msg) : MergePartialFromCodedStream [] m = Ok (true, true, m).
Proof. apply merge_end. Qed.

(** ** Lemmas: sizes *)

Lemma size_if_has {A} (w : A → bytes) (size : A → Z) (P : A → bool) (bound : Z) o :
  (∀ a, P a = true → Z.of_nat (length (w a)) = 1 + size a ∧ 1 + size a ≤ bound) → if_set P o = true →
  0 ≤ bound → Z.of_nat (length (if_has w o)) = size_if size o ∧ size_if size o ≤ bound.
Proof. intros Hw. destruct o as [a|]; cbn; [|lia]. intros Ha _. by apply Hw. Qed.

Lemma int64_field_size field o :
  1 ≤ field ≤ 11 → if_set is_int64 o = true →
  Z.of_nat (length (if_has (WriteInt64 field) o)) = size_if Int64Size o ∧ size_if Int64Size o ≤ 11.
Proof.
  intros Hf Ho. eapply size_if_has; [|done|lia]. intros a Ha. unfold WriteInt64.
  rewrite length_app, tag_size by lia. pose proof (int64_size a Ha). lia.
Qed.

Lemma enum_field_size o :
  Z.of_nat (length (if_has (WriteEnum 5) o)) = size_if (λ o, EnumSize (Z.of_N (op_val o))) o
  ∧ size_if (λ o, EnumSize (Z.of_N (op_val o))) o ≤ 11.
Proof.
  eapply (size_if_has _ _ (λ _, true)); [|by destruct o|lia]. intros a _. unfold WriteEnum.
  rewrite length_app, tag_size by lia.
  destruct (enum_size (Z.of_N (op_val a))) as [E1 E2]; [destruct a; cbn; lia|]. lia.
Qed.

Lemma string_field_size field o bound :
  1 ≤ field ≤ 11 → if_set is_string o = true → if_set (λ s, Z.of_nat (length s) <=? bound) o = true →
  0 ≤ bound →
  Z.of_nat (length (if_has (WriteString field) o)) = size_if StringSize o ∧ size_if StringSize o ≤ bound + 6.
Proof.
  intros Hf Ho Hb Hb0. eapply (size_if_has _ _ (λ s, is_string s && (Z.of_nat (length s) <=? bound))).
  - intros a [Ha Hl]%andb_true_iff. apply Z.leb_le in Hl. unfold WriteString.
    rewrite length_app, tag_size by lia. pose proof (string_size a Ha). lia.
  - destruct o; cbn in *; [by rewrite Ho, Hb|done].
  - lia.
Qed.

Lemma ByteSize_exact m : msg_typed m = true → Z.of_nat (length (SerializeWithCachedSizes m)) = ByteSize m.
Proof.
  intros Hm. pose proof (msg_typed_unknown m Hm) as Hu.
  unfold msg_typed in Hm. rewrite !andb_true_iff in Hm. destruct_and! Hm.
  unfold SerializeWithCachedSizes, ByteSize. rewrite Hu, ufs_new_empty, !length_app, !Nat2Z.inj_add.
  rewrite (proj1 (enum_field_size _)).
  rewrite !(λ f o H1 H2, proj1 (int64_field_size f o H1 H2)) by (done || lia).
  assert (∀ f o, 1 ≤ f ≤ 11 → if_set is_string o = true →
    Z.of_nat (length (if_has (WriteString f) o)) = size_if StringSize o) as Hs.
  { intros f o Hf Ho. eapply (string_field_size f o (default 0 (Z.of_nat ∘ length <$> o))); [done|done| |].
    - destruct o; cbn; [apply Z.leb_refl|done].
    - destruct o; cbn; lia. }
  rewrite !Hs by (done || lia). cbn [length]. lia.
Qed.

(** ** The interface of the log *)

Lemma to_msg_typed e : entry_typed e = true → msg_typed (to_msg e) = true.
Proof.
  unfold entry_typed, msg_typed. cbn. rewrite ufs_new_empty, !andb_true_iff. intros He. destruct_and! He.
  by split_and!.
Qed.

Lemma of_to_msg e : of_msg (to_msg e) = e.
Proof. by destruct e. Qed.

Lemma ParseMsg_serialized a :
  msg_typed a = true → IsInitialized a = true → ParseMsg (SerializeWithCachedSizes a) = Ok (true, a).
Proof.
  intros Ha Hx. unfold ParseMsg. rewrite <-(app_nil_r (SerializeWithCachedSizes a)).
  rewrite parses_serialized, MergePartial_end, MergeFrom_new by done. by rewrite Hx.
Qed.

Lemma wire_codec_laws : @EntryCodecLaws wire_codec.
Proof.
  split. intros e Hx He. cbn. rewrite ParseMsg_serialized by (done || by apply to_msg_typed).
  by rewrite of_to_msg.
Qed.

(** An entry whose name is at most 900 bytes long is below the limit of [Refresh]. *)
Lemma wire_readable e :
  has_xid e = true → entry_typed e = true →
  if_set (λ s, Z.of_nat (length s) <=? 900) (e_new_name e) = true → @readable wire_codec e.
Proof.
  intros Hx He Hn. split; [done|]. split; [done|]. cbn. rewrite ByteSize_exact by by apply to_msg_typed.
  unfold entry_typed in He. rewrite !andb_true_iff in He. destruct_and! He.
  unfold ByteSize. cbn -[size_if]. rewrite ufs_new_empty.
  pose proof (proj2 (enum_field_size (Some (e_operation e)))).
  pose proof (proj2 (string_field_size 6 (e_new_name e) 900 ltac:(lia) ltac:(done) Hn ltac:(lia))).
  repeat match goal with E : if_set is_int64 ?o = true |- _ =>
    pose proof (proj2 (int64_field_size 1 o ltac:(lia) E)); clear E end.
  cbn [size_if] in *. lia.
Qed.

End Parsing.

(** ** The documented encoding *)

(** Varints: seven bits a byte, the lowest first, the top bit set on all but the last. *)
Fixpoint varint (k : nat) (n : Z) : bytes :=
  match k with
  | O => []
  | S k => if n <? 128 then [z2b n] else z2b (128 + n mod 128) :: varint k (n / 128)
  end.
Fixpoint read_varint (k : nat) (i : bytes) : option (Z * bytes) :=
  match k, i with
  | S k, b :: i =>
      if b2z b <? 128 then Some (b2z b, i)
      else match read_varint k i with
           | Some (n, r) => Some (b2z b - 128 + 128 * n, r)
           | None => None
           end
  | _, _ => None
  end.

Lemma varint_roundtrip k n rest :
  (0 < k)%nat → 0 ≤ n < 128 ^ Z.of_nat k → read_varint k (varint k n ++ rest) = Some (n, rest).
Proof.
  revert n. induction k as [|k IH]; intros n Hk Hn; [lia|]. cbn [varint].
  destruct (Z.ltb_spec n 128) as [Hs|Hs]; cbn [app read_varint]; rewrite b2z_z2b; unfold u8.
  - rewrite Z.mod_small by lia. by rewrite (proj2 (Z.ltb_lt _ _)).
  - pose proof (Z.mod_pos_bound n 128 ltac:(lia)). rewrite (Z.mod_small (128 + _)) by lia.
    rewrite (proj2 (Z.ltb_ge _ _)) by lia. rewrite Nat2Z.inj_succ, Z.pow_succ_r in Hn by lia.
    rewrite IH.
    + do 2 f_equal. pose proof (Z.div_mod n 128). lia.
    + destruct k; [cbn in Hn; lia|lia].
    + split; [apply Z.div_pos; lia|apply Z.div_lt_upper_bound; lia].
Qed.

Lemma varint_length k j n :
  0 ≤ n < 128 ^ Z.of_nat j → (0 < j)%nat → (length (varint k n) ≤ j)%nat.
Proof.
  revert j n. induction k as [|k IH]; intros j n Hn Hj; cbn [varint]; [cbn; lia|].
  destruct (Z.ltb_spec n 128); cbn [length]; [lia|]. destruct j as [|j]; [lia|].
  rewrite Nat2Z.inj_succ, Z.pow_succ_r in Hn by lia. destruct j; [cbn in Hn; lia|].
  assert (0 ≤ n / 128 < 128 ^ Z.of_nat (S j)) as Hd
    by (split; [apply Z.div_pos; lia|apply Z.div_lt_upper_bound; lia]).
  pose proof (IH (S j) (n / 128) Hd ltac:(lia)). lia.
Qed.

Lemma varint_small k n : 0 ≤ n < 128 → varint (S k) n = [z2b n].
Proof. intros Hn. cbn. by rewrite (proj2 (Z.ltb_lt _ _)) by lia. Qed.

Lemma read_varint_consumes k i n r : read_varint k i = Some (n, r) → (length r < length i)%nat.
Proof.
  revert i n. induction k as [|k IH]; intros [|b i] n; cbn; try done.
  destruct (_ <? _); [intros [= _ ->]; lia|].
  destruct (read_varint k i) as [[x r']|] eqn:E; [|done]. intros [= _ ->]. apply IH in E. lia.
Qed.

(** A field that is not known, with its tag, as the bytes it had.  Groups, which the
    format has dropped, are not accepted. *)
Abbreviation raw_fields := (list (Z * bytes)).

Definition skip_bytes (n : nat) (tag : Z) (i : bytes) (u : raw_fields) : bool * raw_fields * bytes :=
  if (length i <? n)%nat then (false, u, i) else (true, u ++ [(tag, take n i)], drop n i).

Definition doc_skip (tag : Z) (i : bytes) (u : raw_fields) : bool * raw_fields * bytes :=
  match Z.land tag 7 with
  | 0 => match read_varint 10 i with
         | Some (_, r) => (true, u ++ [(tag, take (length i - length r) i)], r)
         | None => (false, u, i)
         end
  | 1 => skip_bytes 8 tag i u
  | 2 => match read_varint 10 i with
         | Some (n, r) => skip_bytes (length i - length r + Z.to_nat (u32 n)) tag i u
         | None => (false, u, i)
         end
  | 5 => skip_bytes 4 tag i u
  | _ => (false, u, i)
  end.

Definition doc_read_tag (cutoff : Z) (i : bytes) : tag_read :=
  match i with
  | [] => MkTag 0 true true []
  | _ => match read_varint 10 i with
         | Some (n, r) => MkTag (u32 n) (u32 n <=? cutoff) false r
         | None => MkTag 0 false false i
         end
  end.

Definition doc_read_string (i : bytes) : bool * bytes * bytes :=
  match read_varint 10 i with
  | Some (n, r) =>
      let n := Z.to_nat (u32 n) in
      if (length r <? n)%nat then (false, r, []) else (true, take n r, drop n r)
  | None => (false, [], i)
  end.

#[export] Instance doc_runtime : WireRuntime raw_fields := {|
  ufs_new := [];
  ufs_empty u := match u with [] => true | _ => false end;
  AddVarint field v u := u ++ [(8 * field, varint 10 (u64 v))];
  ufs_MergeFrom u from := u ++ from;
  SerializeUnknownFields u := concat ((λ f, varint 10 (fst f) ++ snd f) <$> u);
  ComputeUnknownFieldsSize u := Z.of_nat (length (concat ((λ f, varint 10 (fst f) ++ snd f) <$> u)));
  WriteTag t := varint 10 t;
  WriteInt64NoTag v := varint 10 (u64 v);
  WriteEnumNoTag v := varint 10 (u64 v);
  WriteStringNoTag s := varint 10 (Z.of_nat (length s)) ++ s;
  Int64Size v := Z.of_nat (length (varint 10 (u64 v)));
  EnumSize v := Z.of_nat (length (varint 10 (u64 v)));
  StringSize s := Z.of_nat (length (varint 10 (Z.of_nat (length s)))) + Z.of_nat (length s);
  ReadTagWithCutoff := doc_read_tag;
  ExpectTag t i := match i with b :: r => if b2z b =? t then Some r else None | [] => None end;
  ExpectAtEnd i := match i with [] => true | _ => false end;
  ReadInt64 i := match read_varint 10 i with Some (n, r) => Some (i64 (u64 n), r) | None => None end;
  ReadEnum i := match read_varint 10 i with Some (n, r) => Some (i32 n, r) | None => None end;
  ReadString := doc_read_string;
  SkipField := doc_skip;
|}.

Lemma u64_varint v : 0 ≤ u64 v < 128 ^ Z.of_nat 10.
Proof.
  unfold u64. pose proof (Z.mod_pos_bound v 18446744073709551616 ltac:(lia)).
  change (128 ^ Z.of_nat 10) with 1180591620717411303424. lia.
Qed.

Lemma skip_bytes_consumes n tag i u u' r : skip_bytes n tag i u = (true, u', r) → (length r ≤ length i)%nat.
Proof. unfold skip_bytes. destruct (_ <? _)%nat; [done|]. intros [= _ <-]. rewrite length_drop. lia. Qed.

Lemma doc_skip_consumes tag i u u' r : doc_skip tag i u = (true, u', r) → (length r ≤ length i)%nat.
Proof.
  unfold doc_skip. destruct (read_varint 10 i) as [[n r']|] eqn:E.
  - apply read_varint_consumes in E. repeat case_match; try done;
      first [apply skip_bytes_consumes | intros [= _ <-]; lia].
  - repeat case_match; try done; apply skip_bytes_consumes.
Qed.

#[export] Instance doc_runtime_laws : WireLaws raw_fields.
Proof.
  split; cbn [ufs_new ufs_empty ufs_MergeFrom WriteTag WriteInt64NoTag WriteEnumNoTag WriteStringNoTag
    Int64Size EnumSize StringSize ReadTagWithCutoff ExpectTag ExpectAtEnd ReadInt64 ReadEnum ReadString
    SkipField doc_runtime].
  - done.
  - by intros [].
  - done.
  - intros t Ht. by rewrite varint_small by lia.
  - intros v _. split; [done|]. pose proof (varint_length 10 10 (u64 v) (u64_varint v)). lia.
  - intros v _. split; [done|]. pose proof (varint_length 10 10 (u64 v) (u64_varint v)). lia.
  - intros s Hs%Z.ltb_lt. rewrite length_app. split; [lia|].
    pose proof (varint_length 10 5 (Z.of_nat (length s))). change (128 ^ Z.of_nat 5) with 34359738368 in *. lia.
  - intros t rest Ht. rewrite varint_small by lia. cbn. rewrite b2z_z2b. unfold u8, u32.
    rewrite (Z.mod_small t 256) by lia. rewrite (proj2 (Z.ltb_lt t 128)) by lia.
    rewrite (Z.mod_small t) by lia. by rewrite (proj2 (Z.leb_le _ _)) by lia.
  - done.
  - intros [|b i]; [done|]. unfold doc_read_tag.
    destruct (read_varint 10 (b :: i)) as [[n r]|] eqn:E; [|done]. apply read_varint_consumes in E. done.
  - intros t [|b i] r Ht; [done|]. destruct (Z.eqb_spec (b2z b) t) as [<-|]; [|done]. intros [= <-].
    cbn. rewrite (proj2 (Z.ltb_lt (b2z b) 128)) by lia. unfold u32. rewrite Z.mod_small by lia.
    by rewrite (proj2 (Z.leb_le _ _)) by lia.
  - by intros [].
  - intros v rest Hv. rewrite varint_roundtrip by (apply u64_varint || lia). f_equal. f_equal.
    unfold is_int64 in Hv. rewrite andb_true_iff, Z.leb_le, Z.ltb_lt in Hv.
    rewrite !i64_u64. apply i64_small. lia.
  - intros v rest Hv. rewrite varint_roundtrip by (apply u64_varint || lia). f_equal. f_equal.
    rewrite u64_small by lia. unfold i32. rewrite Z.mod_small; lia.
  - intros s rest Hs%Z.ltb_lt. unfold doc_read_string. rewrite <-app_assoc.
    rewrite varint_roundtrip by (change (128 ^ Z.of_nat 10) with 1180591620717411303424; lia).
    unfold u32. rewrite Z.mod_small, Nat2Z.id by lia. rewrite length_app.
    rewrite (proj2 (Nat.ltb_ge _ _)) by lia. by rewrite take_app_length, drop_app_length.
  - intros i v r. destruct (read_varint 10 i) as [[n r']|] eqn:E; [|done]. apply read_varint_consumes in E.
    intros [= _ <-]. lia.
  - intros i v r. destruct (read_varint 10 i) as [[n r']|] eqn:E; [|done]. apply read_varint_consumes in E.
    intros [= _ <-]. lia.
  - intros i s r. unfold doc_read_string. destruct (read_varint 10 i) as [[n r']|] eqn:E; [|done].
    apply read_varint_consumes in E. destruct (_ <? _)%nat; [done|]. intros [= _ <-].
    rewrite length_drop. lia.
  - intros t i u u' r. apply doc_skip_consumes.
Qed.

(** ** Theorems *)

(** C26: the generated code for log entries, over every runtime that keeps the laws of the
    wire format.  Parsing what a message with its required field was serialized to gives
    the message back; two serialized messages one after the other parse as the first
    merged with the second by MergeFrom; ByteSize, which the buffer is allocated from, is
    the number of bytes written; and parsing ends on every input, valid or not. *)
Theorem entry_wire_format {U} `{WireLaws U} (a b : EntryMsg U) (input : bytes) :
  msg_typed a = true → msg_typed b = true → IsInitialized a = true →
  ParseMsg (SerializeWithCachedSizes a) = Ok (true, a)
  ∧ ParseMsg (SerializeWithCachedSizes a ++ SerializeWithCachedSizes b) = Ok (true, MergeFrom b a)
  ∧ Z.of_nat (length (SerializeWithCachedSizes a)) = ByteSize a
  ∧ ∃ ok m, ParseMsg (U := U) input = Ok (ok, m).
Proof.
  intros Ha Hb Hx. split; [by apply ParseMsg_serialized|]. split; [|split; [by apply ByteSize_exact|]].
  - unfold ParseMsg. rewrite parses_serialized, MergeFrom_new by done.
    rewrite <-(app_nil_r (SerializeWithCachedSizes b)).
    rewrite parses_serialized by (done || by apply msg_typed_unknown). rewrite MergePartial_end.
    by rewrite MergeFrom_initialized.
  - unfold ParseMsg, MergePartialFromCodedStream. destruct (merge_total input msg_new) as [[[ok e] m] Hm].
    rewrite Hm by lia. eauto.
Qed.

(** A message with every kind of field, and one that overrides some of them. *)
Definition demo_msg : EntryMsg raw_fields :=
  MkMsg (Some 300) None (Some (-1)) (Some 7) (Some OP_CREAT) (Some (lit "a")) None None (Some 1)
    None (Some 4096) [].
Definition demo_patch : EntryMsg raw_fields :=
  MkMsg None (Some 5) None (Some 8) (Some OP_LINK) None (Some (lit "b")) None None None None [].

(** 300 is the bytes ac 02 in the documentation of the format; -1 takes ten bytes. *)
Example demo_msg_bytes :
  SerializeWithCachedSizes demo_msg =
    z2b <$> [8; 172; 2; 24; 255; 255; 255; 255; 255; 255; 255; 255; 255; 1; 32; 7; 40; 4; 50; 1; 97;
             72; 1; 88; 128; 32].
Proof. by vm_compute. Qed.

(** A field that is not known is kept and written again. *)
Example unknown_field_kept :
  ParseMsg (SerializeWithCachedSizes demo_msg ++ (z2b <$> [96; 9]))
    = Ok (true, set_unknown [(96, [z2b 9])] demo_msg)
  ∧ SerializeWithCachedSizes (set_unknown [(96, [z2b 9])] demo_msg)
    = SerializeWithCachedSizes demo_msg ++ (z2b <$> [96; 9]).
Proof. by vm_compute. Qed.

Lemma entry_wire_format_witness :
  ParseMsg (SerializeWithCachedSizes demo_msg) = Ok (true, demo_msg)
  ∧ ParseMsg (SerializeWithCachedSizes demo_msg ++ SerializeWithCachedSizes demo_patch)
    = Ok (true, MergeFrom demo_patch demo_msg)
  ∧ Z.of_nat (length (SerializeWithCachedSizes demo_msg)) = ByteSize demo_msg
  ∧ ∃ ok m, ParseMsg (U := raw_fields) (lit "not a message") = Ok (ok, m).
Proof. apply (entry_wire_format demo_msg demo_patch (lit "not a message")); by vm_compute. Defined.

(** Entries that [Append] numbered, with values of the types of their fields and a name of
    at most 900 bytes (a name in a directory is shorter than 256). *)
Definition loggable (e : ChangeLogEntry) : bool :=
  has_xid e && entry_typed e && if_set (λ s, Z.of_nat (length s) <=? 900) (e_new_name e).

(** C27: the log survives a flush and a refresh in the generated encoding: whatever
    entries the file system has logged, [Refresh] takes none of them for too large or
    damaged, and a new log that refreshes from the file [Flush] wrote has the same entries
    and continues after the last xid; the other files are as they were. *)
Theorem flushed_log_reads_back {U} `{WireLaws U} l files x :
  log_deque l ≠ [] → Forall (λ e, loggable e = true) (log_deque l) →
  ∃ files' name l', Flush (H := wire_codec) l files = Ok (files', name)
    ∧ Refresh (H := wire_codec) (new_FsChangeLog (log_dir l) x) files' name =
        Ok (Z.of_nat (length (log_deque l)), l')
    ∧ log_deque l' = log_deque l ∧ next_xid l' = get_last_xid l + 1
    ∧ ∀ f, f ≠ name → files' !! f = files !! f.
Proof.
  intros Hne Hl. apply (flush_refresh (H0 := wire_codec_laws)); [done|].
  eapply Forall_impl; [done|]. intros e He. unfold loggable in He. rewrite !andb_true_iff in He.
  destruct_and! He. by apply wire_readable.
Qed.

Definition demo_wire_log : FsChangeLog :=
  MkLog (lit "log") 3 1 1
    [MkEntry (Some 1) OP_CREAT (Some 0) (Some 2) (Some 1) (Some (lit "a")) None None;
     MkEntry (Some 2) OP_COMMIT (Some 0) (Some 2) None None (Some 0) (Some 4096)].

Lemma flushed_log_reads_back_witness :
  ∃ files' name l', Flush (H := wire_codec (U := raw_fields)) demo_wire_log ∅ = Ok (files', name)
    ∧ Refresh (H := wire_codec (U := raw_fields)) (new_FsChangeLog (log_dir demo_wire_log) 1) files' name =
        Ok (Z.of_nat (length (log_deque demo_wire_log)), l')
    ∧ log_deque l' = log_deque demo_wire_log ∧ next_xid l' = get_last_xid demo_wire_log + 1
    ∧ ∀ f, f ≠ name → files' !! f = (∅ : gmap bytes bytes) !! f.
Proof.
  apply (flushed_log_reads_back (U := raw_fields) demo_wire_log ∅ 1); [done|].
  repeat constructor; by vm_compute.
Defined.

(** [Refresh] logs that an entry could not be parsed and keeps what was read of it: an
    entry cut off after its xid and its inode number enters the log without an
    operation. *)
Example damaged_entry_enters_log :
  refresh_loop (H := wire_codec (U := raw_fields)) 20
    (le_bytes 8 5 ++ (z2b <$> [8; 5; 32; 7; 50])) [] 1 0
  = Ok ([MkEntry (Some 5) OP_NONE None (Some 7) None (Some []) None None], 6, 1).
Proof. by vm_compute. Qed.
