(* ===== verification/FileSystemManager.v ===== *)
(** * The file system manager (src/FileSystemManager.h, src/FileSystemManager.cc) and the
    seconds clock (src/WallTime.h, src/WallTime.cc)

    FileSystemManager keeps the store, the change log (not owned, null in a snapshot)
    and the counter of inode numbers.  Its operations build a LogFSFile on the stack,
    call it and drop it: [on_stack] runs a method that way. *)

From Stdlib Require Import ZArith Lia Strings.String.
From stdpp Require Import base list gmap.
From S2P Require Import Prelude Status Mode Cycles KVStore MetaData Partition File Directory ChangeLog.

(** ** The clock *)

Definition RAMCLOUD_UNIX_OFFSET : Z := 41 * 365 * 86400.

(** The static members, and what the code reads from the machine: [time(NULL)], the
    two values of [rdtsc] and [Cycles::cyclesPerSec]. *)
Record WallTime := MkWall { baseTime : Z; baseTsc : Z }.
Record Machine := MkMachine {
  mach_time : Z;
  mach_tsc0 : Z;
  mach_tsc : Z;
  mach_cps : double;
}.

(** [downCast<uint32_t>]: its assertion is commented out. *)
Definition downCast (large : Z) : Z := u32 large.

(** [secondsTimestamp]: [None] is [exit(1)]. *)
Definition secondsTimestamp (m : Machine) (w : WallTime) : res (option (Z * WallTime)) :=
  let first := baseTime w =? 0 in
  let w := if first then MkWall (mach_time m) (mach_tsc0 m) else w in
  if first && ((baseTime w =? -1) || (baseTime w <? RAMCLOUD_UNIX_OFFSET)) then Ok None
  else
    match toNanoseconds (mach_cps m) (u64 (mach_tsc m - baseTsc w + 500000000)) d_zero with
    | Crash c => Crash c
    | Ok ns =>
        let tscSecondsOffset := downCast (ns / 1000000000) in
        Ok (Some (u32 (downCast (baseTime w) - RAMCLOUD_UNIX_OFFSET + tscSecondsOffset), w))
    end.

Definition secondsTimestampToUnix (timestamp : Z) : Z := timestamp + RAMCLOUD_UNIX_OFFSET.

(** The half second that is added for rounding is a number of cycles: 2.6 seconds after the
    first call the clock says 3 at 1 GHz, and 2 at 3 GHz. *)
Example rounding_depends_on_frequency :
  let at_hz hz := secondsTimestamp (MkMachine 0 0 (26 * hz / 10) (d_of hz)) (MkWall RAMCLOUD_UNIX_OFFSET 0) in
  at_hz 1000000000 = Ok (Some (3, MkWall RAMCLOUD_UNIX_OFFSET 0))
  ∧ at_hz 3000000000 = Ok (Some (2, MkWall RAMCLOUD_UNIX_OFFSET 0)).
Proof. by vm_compute. Qed.

(** ** The manager *)

Definition ROOT_HANDLE : Z := 1.
Definition DEFAULT_FILE_MODE : Z := 0.

Section Manager.
Context {S : Type} `{KVStore S} `{FsEnv}.

Record FileSystemManager := mkFSM {
  fm_kv : S;
  fm_clock : nat;
  fm_log : option FsChangeLog;
  fm_handleId : Z;
}.

Abbreviation SM := (M FileSystemManager).

(** The constructor. *)
Definition new_FileSystemManager (kv : S) (clk : nat) : FileSystemManager :=
  mkFSM kv clk None ROOT_HANDLE.

Definition mountFileSystem (log : option FsChangeLog) : SM bool :=
  modify (λ s, mkFSM (fm_kv s) (fm_clock s) log (fm_handleId s));; mret true.

(** [++handleId] of an Atomic<uint64_t>. *)
Definition getNextHandleId : SM Z :=
  modify (λ s, mkFSM (fm_kv s) (fm_clock s) (fm_log s) (u64 (fm_handleId s + 1)));;
  gets fm_handleId.
Definition SetNextInode (id : Z) : SM unit :=
  modify (λ s, mkFSM (fm_kv s) (fm_clock s) (fm_log s) (u64 id)).
Definition GetCurrentInode : SM Z := gets fm_handleId.

(** [new FileSystemManager(kvstore->Snapshot())]: [snap] is the store's snapshot. *)
Definition MountSnapshot (snap : S) : SM FileSystemManager :=
  s ← get_st; mret (new_FileSystemManager snap (fm_clock s)).

(** A method of a local LogFSFile. *)
Definition on_stack (f : LogFSFile) {A} (m : M (FState S) A) : SM A := λ s,
  match m (mkFS f (fm_kv s) (fm_clock s)) with
  | Ok (a, t) => Ok (a, mkFSM (f_kv t) (f_clock t) (fm_log s) (fm_handleId s))
  | Crash c => Crash c
  end.
(** A method over several local objects, at the addresses of [hp]. *)
Definition on_stack_heap (hp : gmap Z LogFSFile) {A} (m : M (World S) A) : SM A := λ s,
  match m (mkW hp (fm_kv s) (fm_clock s)) with
  | Ok (a, w) => Ok (a, mkFSM (w_kv w) (w_clock w) (fm_log s) (fm_handleId s))
  | Crash c => Crash c
  end.

(** [LogFSFile(fsId, name, handle, kvstore, agent, mode)]. *)
Definition local_file (fs : Z) (name : bytes) (h mode : Z) : LogFSFile :=
  new_LogFSFile fs name h mode DEFAULT_FILE_INITIAL_SIZE DEFAULT_FILE_CHUNK_SIZE.

(** [change_log->Append(entry)]: a call through a null pointer is undefined. *)
Definition log_append (e : ChangeLogEntry) : SM unit :=
  s ← get_st;
  match fm_log s with
  | None => crash_with UndefinedBehaviour
  | Some l =>
      match Append e l with
      | Ok (_, l') => put_st (mkFSM (fm_kv s) (fm_clock s) (Some l') (fm_handleId s))
      | Crash c => crash_with c
      end
  end.

Definition mkdir_entry (fs ino parent : Z) : ChangeLogEntry :=
  MkEntry None OP_MKDIR (Some fs) (Some ino) (Some parent) None None None.

Definition fm_createRoot (fs mode : Z) : SM Status :=
  status ← on_stack_heap {[ 0 := local_file fs [] ROOT_HANDLE (Z.lor S_IFDIR mode) ]}
             (createRoot 0);
  (if decide (status = STATUS_OK) then log_append (mkdir_entry fs ROOT_HANDLE ROOT_HANDLE)
   else mret tt);;
  mret status.

(** [CreateRoot] of src/tiering/file_test_util.cc, which main calls at every mount. *)
Definition CreateRoot (fs : Z) : SM unit := fm_createRoot fs 511;; mret tt.

(** [addPathInfo] on a file's metadata. *)
Definition file_addPathInfo (parent : Z) (name : bytes) : M (FState S) unit :=
  f ← this;
  match addPathInfo parent name (meta f) with
  | Ok m => upd_meta (λ _, m)
  | Crash c => crash_with c
  end.

(** [addDirectory]: the status and [handle]. *)
Definition addDirectory (fs parent_handle : Z) (dir_name : bytes) (mode : Z) : SM (Status * Z) :=
  dir_handle ← getNextHandleId;
  status ← on_stack_heap
    (<[ 0 := local_file fs [] parent_handle (Z.lor S_IFDIR mode) ]>
     {[ 1 := local_file fs dir_name dir_handle (Z.lor S_IFDIR mode) ]})
    (at_obj 1 (file_addPathInfo parent_handle dir_name);; create 1 0);
  (if decide (status = STATUS_OK) then log_append (mkdir_entry fs dir_handle parent_handle)
   else mret tt);;
  mret (status, dir_handle).

(** [readFile]: the status, [*actualLen] and the bytes stored in the buffer. *)
Definition readFile (fs h offset length_ : Z) (readBuffer : bool) : SM (Status * Z * bytes) :=
  on_stack (local_file fs [] h DEFAULT_FILE_MODE)
    (ok ← open;
     if (ok : bool) then read offset length_ readBuffer
     else mret (STATUS_OBJECT_DOESNT_EXIST, 0, [])).

(** [statFile]: [ts] is the result of [WallTime::secondsTimestamp]; the attributes of
    anything but a regular file are made up, also when there is no such file. *)
Definition statFile (fs h ts : Z) (statBuff : stat_t) : SM (Status * stat_t) :=
  '(st, buf) ← on_stack (local_file fs [] h DEFAULT_FILE_MODE) (stat statBuff);
  let status := if decide (st = STATUS_OK) then STATUS_OK else STATUS_OBJECT_DOESNT_EXIST in
  if negb (S_ISREG (st_mode buf)) then
    let t := u32 (secondsTimestampToUnix ts) in
    mret (status,
          {| st_dev := fs; st_ino := st_ino buf; st_mode := Z.lor S_IFDIR 511; st_nlink := 2;
             st_uid := env_uid; st_gid := env_gid; st_rdev := 0; st_size := st_size buf;
             st_blksize := st_blksize buf; st_blocks := st_blocks buf;
             st_atime := t; st_mtime := t; st_ctime := t |})
  else mret (status, buf).

(** [getPathInfo] (PATH_INFO_IN_META is defined): the status, the parent and the
    name. *)
Definition fm_getPathInfo (fs h : Z) : SM (Status * option (Z * bytes)) :=
  on_stack (local_file fs [] h DEFAULT_FILE_MODE)
    (ok ← open;
     if (ok : bool) then f ← this; mret (STATUS_OK, Some (getPathInfo (meta f)))
     else mret (STATUS_OBJECT_DOESNT_EXIST, None)).

Definition openFile (fs h : Z) : SM Status :=
  on_stack (local_file fs [] h DEFAULT_FILE_MODE)
    (ok ← open; mret (if (ok : bool) then STATUS_OK else STATUS_OBJECT_DOESNT_EXIST)).

Definition fm_Evict (fs h : Z) : SM Status :=
  on_stack (local_file fs [] h DEFAULT_FILE_MODE) Evict.

Definition releaseFile (fs h : Z) : SM Status := mret STATUS_OK.

End Manager.

Arguments FileSystemManager S : clear implicits.
Arguments mkFSM {S} _ _ _ _.
