(* ===== verification/Mount.v ===== *)
(** * The mount and its inodes (src/kvfs_mount.h, src/kvfs_mount.cc,
    src/dir_entry_adder.cc)

    [KvfsMount] keeps the table of active inodes, the superblock and the change log;
    [FuseKvfsInode] is one inode with its cached attributes, its lookup count and its
    LogFSFile.  An inode is addressed by its number: the table owns the objects, and a
    pointer to an erased one is dangling (undefined behaviour in the model too).

    FUSE is third-party code: a reply is recorded in the state, and the value the
    fuse_reply functions return is a parameter. *)

From Stdlib Require Import ZArith Lia Strings.String.
From stdpp Require Import base list gmap.
From S2P Require Import Prelude Status Mode KVStore MetaData Partition File Directory ChangeLog.
From S2P Require Import FileSystemManager.

(** ** Data *)

Inductive InodeState := I_INVALID | I_CLEAN | I_DIRTY.

#[export] Instance InodeState_eq_dec : EqDecision InodeState.
Proof. solve_decision. Defined.

(** The members of FuseKvfsInode; its [file] is in the heap under the same number. *)
Record FuseKvfsInode := MkInode {
  attr : stat_t;
  nlookup : Z;
  istate : InodeState;
}.

Definition set_attr (a : stat_t) (i : FuseKvfsInode) : FuseKvfsInode :=
  MkInode a (nlookup i) (istate i).
Definition set_nlookup (n : Z) (i : FuseKvfsInode) : FuseKvfsInode :=
  MkInode (attr i) n (istate i).
Definition set_istate (s : InodeState) (i : FuseKvfsInode) : FuseKvfsInode :=
  MkInode (attr i) (nlookup i) s.

(** Assignments to members of [struct stat]. *)
Definition stat_mode (v : Z) (a : stat_t) : stat_t :=
  MkStat (st_dev a) (st_ino a) v (st_nlink a) (st_uid a) (st_gid a) (st_rdev a) (st_size a)
    (st_blksize a) (st_blocks a) (st_atime a) (st_mtime a) (st_ctime a).
Definition stat_ids (u g : Z) (a : stat_t) : stat_t :=
  MkStat (st_dev a) (st_ino a) (st_mode a) (st_nlink a) u g (st_rdev a) (st_size a)
    (st_blksize a) (st_blocks a) (st_atime a) (st_mtime a) (st_ctime a).
Definition stat_size (v : Z) (a : stat_t) : stat_t :=
  MkStat (st_dev a) (st_ino a) (st_mode a) (st_nlink a) (st_uid a) (st_gid a) (st_rdev a) v
    (st_blksize a) (st_blocks a) (st_atime a) (st_mtime a) (st_ctime a).
Definition stat_times (at_ mt : Z) (a : stat_t) : stat_t :=
  MkStat (st_dev a) (st_ino a) (st_mode a) (st_nlink a) (st_uid a) (st_gid a) (st_rdev a)
    (st_size a) (st_blksize a) (st_blocks a) at_ mt (st_ctime a).
Definition stat_ino_dev (i d : Z) (a : stat_t) : stat_t :=
  MkStat d i (st_mode a) (st_nlink a) (st_uid a) (st_gid a) (st_rdev a) (st_size a)
    (st_blksize a) (st_blocks a) (st_atime a) (st_mtime a) (st_ctime a).

(** proto::Superblock. *)
Record Superblock := MkSuper {
  sb_magic : Z;
  sb_filesystem_name : bytes;
  sb_cloud_uri : bytes;
  sb_next_inode : Z;
  sb_next_xid : Z;
  sb_fs_id : Z;
  sb_dev : Z;
  sb_chunk_size : Z;
}.

Definition super_empty : Superblock := MkSuper 0 [] [] 0 0 0 0 0.
Definition set_next_inode (n : Z) (s : Superblock) : Superblock :=
  MkSuper (sb_magic s) (sb_filesystem_name s) (sb_cloud_uri s) n (sb_next_xid s) (sb_fs_id s)
    (sb_dev s) (sb_chunk_size s).

(** The fuse_reply functions; a create reply carries the handle and [keep_cache], an
    open reply [keep_cache] and [direct_io] where the handler sets them. *)
Inductive reply :=
  | ReplyErr (err : Z)
  | ReplyNone
  | ReplyAttr (a : stat_t)
  | ReplyEntry (ino : Z) (a : stat_t)
  | ReplyCreate (ino : Z) (a : stat_t) (fh : Z) (keep_cache : bool)
  | ReplyOpen (fh : Z) (cache : option (bool * bool))
  | ReplyWrite (n : Z)
  | ReplyBuf (b : bytes)
  | ReplyDirents (es : list (bytes * stat_t * Z)).

(** What the mount uses of third-party code and of the process: the value a reply
    returns (0 for success), the members of a [struct stat] nobody initialised, the
    protobuf text format, [errno] after it fails, the space fuse_add_direntry needs for
    a name, and CloudProxy::CloudUri(""). *)
Class MountEnv := {
  fuse_reply_ret : reply → Z;
  uninit_attr : stat_t;
  super_print : Superblock → option bytes;
  super_merge : bytes → Superblock → option Superblock;
  env_errno : Z;
  fuse_direntry_size : bytes → Z;
  cloud_uri0 : bytes;
}.

(** The flags of setattr (fuse_lowlevel.h). *)
Definition FUSE_SET_ATTR_MODE : Z := 1.
Definition FUSE_SET_ATTR_UID : Z := 2.
Definition FUSE_SET_ATTR_GID : Z := 4.
Definition FUSE_SET_ATTR_SIZE : Z := 8.
Definition FUSE_SET_ATTR_ATIME : Z := 16.
Definition FUSE_SET_ATTR_MTIME : Z := 32.
Definition FUSE_SET_ATTR_ATIME_NOW : Z := 128.
Definition FUSE_SET_ATTR_MTIME_NOW : Z := 256.

Definition FUSE_ROOT_ID : Z := 1.

(** The options of KvfsMount. *)
Record MountOptions := MkOptions {
  fuse_keep_cache : bool;
  fuse_direct_io : bool;
}.

Section Mount.
Context {S : Type} `{KVStore S} `{FsEnv} `{MountEnv} `{EntryCodec}.

(** The mount: the heap of files (by inode number), store and clock; the inode
    table; the change log; the superblock; FileSystemManager's [handleId]; the file
    system id; the options; the local files the log is flushed to and the global
    [last_log_file]; the replies sent. *)
Record MountState := mkM {
  m_world : World S;
  m_inodes : gmap Z FuseKvfsInode;
  m_log : FsChangeLog;
  m_super : Superblock;
  m_handleId : Z;
  m_fs_id : Z;
  m_options : MountOptions;
  m_files : gmap bytes bytes;
  m_last_log : bytes;
  m_replies : list reply;
}.

Abbreviation MM := (M MountState).

Definition set_world (w : World S) (s : MountState) : MountState :=
  mkM w (m_inodes s) (m_log s) (m_super s) (m_handleId s) (m_fs_id s)
    (m_options s) (m_files s) (m_last_log s) (m_replies s).
Definition set_inodes (t : gmap Z FuseKvfsInode) (s : MountState) : MountState :=
  mkM (m_world s) t (m_log s) (m_super s) (m_handleId s) (m_fs_id s)
    (m_options s) (m_files s) (m_last_log s) (m_replies s).
Definition set_log (l : FsChangeLog) (s : MountState) : MountState :=
  mkM (m_world s) (m_inodes s) l (m_super s) (m_handleId s) (m_fs_id s)
    (m_options s) (m_files s) (m_last_log s) (m_replies s).
Definition set_super (b : Superblock) (s : MountState) : MountState :=
  mkM (m_world s) (m_inodes s) (m_log s) b (m_handleId s) (m_fs_id s)
    (m_options s) (m_files s) (m_last_log s) (m_replies s).
Definition set_handleId (h : Z) (s : MountState) : MountState :=
  mkM (m_world s) (m_inodes s) (m_log s) (m_super s) h (m_fs_id s)
    (m_options s) (m_files s) (m_last_log s) (m_replies s).
Definition add_reply (r : reply) (s : MountState) : MountState :=
  mkM (m_world s) (m_inodes s) (m_log s) (m_super s) (m_handleId s) (m_fs_id s)
    (m_options s) (m_files s) (m_last_log s) (m_replies s ++ [r]).
Definition set_files (fs : gmap bytes bytes) (last : bytes) (s : MountState) : MountState :=
  mkM (m_world s) (m_inodes s) (m_log s) (m_super s) (m_handleId s) (m_fs_id s)
    (m_options s) fs last (m_replies s).

Definition at_world {A} (m : M (World S) A) : MM A := λ s,
  match m (m_world s) with
  | Ok (a, w) => Ok (a, set_world w s)
  | Crash c => Crash c
  end.
Definition at_log {A} (m : M FsChangeLog A) : MM A := λ s,
  match m (m_log s) with
  | Ok (a, l) => Ok (a, set_log l s)
  | Crash c => Crash c
  end.
(** A method of the file of inode [ino]. *)
Definition on_file (ino : Z) {A} (m : M (FState S) A) : MM A := at_world (at_obj ino m).
Definition inode (ino : Z) : MM FuseKvfsInode :=
  s ← get_st;
  match m_inodes s !! ino with
  | None => crash_with UndefinedBehaviour
  | Some i => mret i
  end.
Definition upd_inode (ino : Z) (g : FuseKvfsInode → FuseKvfsInode) : MM unit :=
  i ← inode ino; modify (λ s, set_inodes (<[ino := g i]> (m_inodes s)) s).
(** [fuse_reply_*]: send and return the result. *)
Definition fuse_reply (r : reply) : MM Z := modify (add_reply r);; mret (fuse_reply_ret r).

(** ** The superblock and inode numbers *)

Definition super_key (fs_id : Z) : bytes := lit "SUPER." ++ fmt_lu fs_id.

(** A call on [filesystem_manager], which shares the store and the change log. *)
Definition at_manager {A} (m : M (FileSystemManager S) A) : MM A := λ s,
  let w := m_world s in
  match m (mkFSM (w_kv w) (w_clock w) (Some (m_log s)) (m_handleId s)) with
  | Ok (a, fm) =>
      Ok (a, set_handleId (fm_handleId fm) (set_log (default (m_log s) (fm_log fm))
               (set_world (mkW (w_heap w) (fm_kv fm) (fm_clock fm)) s)))
  | Crash c => Crash c
  end.

Definition WriteSuperblock : MM Z :=
  cur ← at_manager GetCurrentInode;
  modify (λ s, set_super (set_next_inode (i64 (u64 (cur + 1000))) (m_super s)) s);;
  s ← get_st;
  match super_print (m_super s) with
  | None => mret (if env_errno =? 0 then EIO else env_errno)
  | Some v =>
      let w := m_world s in
      let '(ok, kv') := kv_put (w_kv w) (super_key (m_fs_id s)) v in
      put_st (set_world (mkW (w_heap w) kv' (w_clock w)) s);;
      mret (if ok : bool then 0 else EIO)
  end.

Definition ReadSuperblock : MM Z :=
  s ← get_st;
  match kv_get (w_kv (m_world s)) (super_key (m_fs_id s)) with
  | None =>
      put_st (set_super (MkSuper 17 (lit "PQFS_test") cloud_uri0 (FUSE_ROOT_ID + 1) 1
                (i64 (m_fs_id s)) 0 4096) s);;
      WriteSuperblock;;
      mret 0
  | Some v =>
      err ← (match super_merge v (m_super s) with
             | None => mret (if env_errno =? 0 then EIO else env_errno)
             | Some b => modify (set_super b);; mret 0
             end);
      s ← get_st;
      at_manager (SetNextInode (sb_next_inode (m_super s)));;
      mret err
  end.

(** [Init]: the new change log starts at the superblock's [next_xid].  [opened] is the
    result of [store->open] and [port] the environment variable WEB_SERVER_PORT;
    CloudProxy::Init and Sync run shell commands on the proxy directory, which is not
    part of this state.  The log is not read back. *)
Definition Init (opened : bool) (local_dir : bytes) (port : option bytes) : MM Z :=
  if negb opened then crash_with FatalLog
  else
    err ← ReadSuperblock;
    if negb (err =? 0) then crash_with FatalLog
    else
      s ← get_st;
      modify (set_log (set_next_xid (sb_next_xid (m_super s)) (new_FsChangeLog local_dir 0)));;
      match port with
      | None => crash_with FatalLog
      | Some p => if atoi p <=? 1024 then crash_with FatalLog else mret err
      end.

Definition FlushLog : MM unit :=
  s ← get_st;
  match Flush (m_log s) (m_files s) with
  | Ok (files, last) => put_st (set_files files last s)
  | Crash c => crash_with c
  end.

(** [Start], [Stop], [Wait] and [Join]: their bodies are commented out. *)
Definition mount_Start : MM unit := mret tt.
Definition mount_Stop : MM unit := mret tt.
Definition mount_Wait : MM Z := mret 0.
Definition mount_Join : MM unit := mret tt.

(** [Shutdown]: what it does to the state of the mount; the store is closed and the
    cloud directory synchronised by a shell command. *)
Definition Shutdown : MM unit := WriteSuperblock;; mount_Stop;; FlushLog;; mount_Join.

Definition GetNextIno : MM Z := at_manager getNextHandleId.

(** ** Inodes *)

(** The constructor: only [st_ino] and [st_dev] of [attr] are set. *)
Definition new_inode (ino : Z) : FuseKvfsInode :=
  MkInode (stat_ino_dev ino 0 uninit_attr) 0 I_INVALID.
Definition new_inode_file (fs_id ino : Z) : LogFSFile :=
  new_LogFSFile fs_id [] ino 0 DEFAULT_FILE_INITIAL_SIZE DEFAULT_FILE_CHUNK_SIZE.

Definition Hold (ino n : Z) : MM Z :=
  (if negb (n =? 0) then upd_inode ino (λ i, set_nlookup (nlookup i + n) i) else mret tt);;
  i ← inode ino; mret (nlookup i).

(** [Release]: closes the file when the count reaches zero. *)
Definition Release (ino n : Z) : MM Z :=
  i ← inode ino;
  upd_inode ino (set_nlookup (if nlookup i <? n then 0 else nlookup i - n));;
  i ← inode ino;
  (if nlookup i =? 0 then on_file ino close;; mret tt else mret tt);;
  mret (nlookup i).

(** [GetInode]: the inode, held; [None] is a null pointer. *)
Definition GetInode (ino : Z) (create_ : bool) : MM (option Z) :=
  s ← get_st;
  match m_inodes s !! ino with
  | Some _ => Hold ino 1;; mret (Some ino)
  | None =>
      if create_ then
        let w := m_world s in
        put_st (set_inodes (<[ino := new_inode ino]> (m_inodes s))
                 (set_world (mkW (<[ino := new_inode_file (m_fs_id s) ino]> (w_heap w))
                               (w_kv w) (w_clock w)) s));;
        Hold ino 1;; mret (Some ino)
      else mret None
  end.

(** [FreeInode] erases the entry of [inode->attr.st_ino]. *)
Definition FreeInode (ino : Z) : MM unit :=
  i ← inode ino;
  modify (λ s, let w := m_world s in
    set_inodes (delete (st_ino (attr i)) (m_inodes s))
      (set_world (mkW (delete (st_ino (attr i)) (w_heap w)) (w_kv w) (w_clock w)) s)).

Definition set_state (ino : Z) (st : InodeState) : MM unit := upd_inode ino (set_istate st).

(** [Refresh]: fill [attr] from the file if it is invalid. *)
Definition inode_Refresh (ino : Z) : MM Z :=
  i ← inode ino;
  if decide (istate i = I_INVALID) then
    '(status, a) ← on_file ino (stat (attr i));
    upd_inode ino (set_attr a);;
    let err := StatusToErrno status in
    (if err =? 0 then set_state ino I_CLEAN else mret tt);;
    mret err
  else mret 0.

(** ** Inode operations that answer one request *)

Definition Getattr (ino : Z) : MM unit :=
  err ← inode_Refresh ino;
  if negb (err =? 0) then fuse_reply (ReplyErr err);; mret tt
  else i ← inode ino; fuse_reply (ReplyAttr (attr i));; mret tt.

(** The overload the eviction agent uses: the attributes, zeroed first. *)
Definition Getattr_stat (ino : Z) : MM (Z * stat_t) :=
  err ← inode_Refresh ino;
  i ← inode ino;
  mret (err, if err =? 0 then attr i else stat_zero).

Definition inode_Evict (ino : Z) : MM Status :=
  inode_Refresh ino;; on_file ino Evict.

Definition Lookup (ino : Z) (name : bytes) : MM unit :=
  child ← on_file ino (findHandle name);
  let err := if child =? 0 then ENOENT else 0 in
  '(err, e) ←
    (if err =? 0 then
       GetInode child true;;
       err ← inode_Refresh child;
       c ← inode child;
       if negb (bool_decide (istate c = I_INVALID)) then
         set_state child I_CLEAN;;
         mret (err, (st_ino (attr c), attr c))
       else EXPECT (negb (err =? 0));; mret (err, (0, stat_zero))
     else mret (err, (0, stat_zero)));
  (if negb (err =? 0) then r ← fuse_reply (ReplyErr err); EXPECT (r =? 0)
   else r ← fuse_reply (ReplyEntry (fst e) (snd e)); EXPECT (r =? 0)).

Definition set_name_mode (name : bytes) (mode : Z) : M (FState S) unit :=
  upd (λ f, MkFile (fsId f) (handle f) name (meta f) mode (metaDirty f) (data_hold_count f)
              (partitions f)).

(** What Create and Mkdir do to the new inode before [LogFSFile::create]. *)
Definition prepare_child (ino child : Z) (name : bytes) (mode xid : Z) : MM unit :=
  on_file child (set_name_mode name mode);;
  upd_inode child (λ i, set_attr (stat_mode mode (attr i)) i);;
  set_state child I_INVALID;;
  i ← inode ino;
  on_file child (file_addPathInfo (st_ino (attr i)) name);;
  on_file child (upd_meta (set_xid xid));;
  on_file ino (upd_meta (set_xid xid)).

Definition log_entry (op : Operation) (x : option Z) (fs ino : Z) (parent : option Z)
    (name : option bytes) (b e : option Z) : ChangeLogEntry :=
  MkEntry x op (Some fs) (Some ino) parent name b e.

(** [Create]: on failure of [LogFSFile::create] the new inode stays held. *)
Definition Create (ino : Z) (name : bytes) (mode : Z) : MM unit :=
  child ← on_file ino (findHandle name);
  err ←
    (if negb (child =? 0) then mret EEXIST
     else
       x ← at_log NextXid;
       child ← GetNextIno;
       GetInode child true;;
       prepare_child ino child name mode x;;
       status ← at_world (create child ino);
       let err := StatusToErrno status in
       (if err =? 0 then
          s ← get_st; i ← inode ino;
          at_log (Append (log_entry OP_CREAT (Some x) (m_fs_id s) child
                            (Some (st_ino (attr i))) (Some name) None None));;
          e ← inode_Refresh child;
          EXPECT (e =? 0);;
          c ← inode child;
          s ← get_st;
          fuse_reply (ReplyCreate child (attr c) child (fuse_keep_cache (m_options s)));; mret tt
        else mret tt);;
       mret err);
  if negb (err =? 0) then fuse_reply (ReplyErr err);; mret tt else mret tt.

Definition Mkdir (ino : Z) (name : bytes) (mode : Z) : MM unit :=
  inode_Refresh ino;;
  child ← on_file ino (findHandle name);
  err ←
    (if negb (child =? 0) then mret EEXIST
     else
       x ← at_log NextXid;
       child ← GetNextIno;
       GetInode child true;;
       prepare_child ino child name (Z.lor S_IFDIR mode) x;;
       status ← at_world (create child ino);
       let err := StatusToErrno status in
       (if err =? 0 then
          set_state ino I_INVALID;;
          s ← get_st; i ← inode ino;
          at_log (Append (log_entry OP_CREAT (Some x) (m_fs_id s) child
                            (Some (st_ino (attr i))) (Some name) None None));;
          e ← inode_Refresh child;
          EXPECT (e =? 0);;
          c ← inode child;
          r ← fuse_reply (ReplyEntry child (attr c));
          EXPECT (r =? 0)
        else Release child 1;; mret tt);;
       mret err);
  if negb (err =? 0) then fuse_reply (ReplyErr err);; mret tt else mret tt.

(** [Rmdir]: the type test reads [attr] without a [Refresh]. *)
Definition Rmdir (ino : Z) (name : bytes) : MM unit :=
  child ← on_file ino (findHandle name);
  err ←
    (if child =? 0 then mret ENOENT
     else
       GetInode child true;;
       c ← inode child;
       err ←
         (if negb (S_ISDIR (st_mode (attr c))) then mret ENOTDIR
          else
            x ← at_log NextXid;
            on_file child (upd_meta (set_xid x));;
            on_file ino (upd_meta (set_xid x));;
            status ← at_world (remove child ino name);
            let err := StatusToErrno status in
            (if err =? 0 then
               s ← get_st; i ← inode ino;
               at_log (Append (log_entry OP_RMDIR None (m_fs_id s) child
                                 (Some (st_ino (attr i))) (Some name) None None));; mret tt
             else mret tt);;
            mret err);
       Release child 1;;
       mret err);
  fuse_reply (ReplyErr err);; mret tt.

Definition Unlink (ino : Z) (name : bytes) : MM unit :=
  child ← on_file ino (findHandle name);
  err ←
    (if child =? 0 then mret ENOENT
     else
       GetInode child true;;
       status ← at_world (remove child ino name);
       Release child 1;;
       mret (StatusToErrno status));
  (if err =? 0 then
     s ← get_st; i ← inode ino;
     at_log (Append (log_entry OP_UNLINK None (m_fs_id s) child (Some (st_ino (attr i)))
                       None None None));; mret tt
   else mret tt);;
  fuse_reply (ReplyErr err);; mret tt.

Definition Link (ino target : Z) (name : bytes) : MM unit :=
  inode_Refresh ino;;
  child ← on_file ino (findHandle name);
  '(err, e) ←
    (if negb (child =? 0) then mret (EEXIST, (0, stat_zero))
     else
       GetInode target true;;
       inode_Refresh target;;
       status ← at_world (link ino target name);
       Release target 1;;
       t ← inode target;
       mret (StatusToErrno status, (st_ino (attr t), attr t)));
  (if err =? 0 then
     set_state target I_INVALID;;
     set_state ino I_INVALID;;
     s ← get_st; i ← inode ino;
     at_log (Append (log_entry OP_LINK None (m_fs_id s) target (Some (st_ino (attr i)))
                       None None None));; mret tt
   else mret tt);;
  if negb (err =? 0) then fuse_reply (ReplyErr err);; mret tt
  else r ← fuse_reply (ReplyEntry (fst e) (snd e)); EXPECT (r =? 0).

(** [Read]: the buffer has [size] bytes ([malloc] is taken to succeed); storing more
    overruns it. *)
Definition inode_Read (ino size off : Z) : MM unit :=
  error ← inode_Refresh ino;
  error ←
    (if negb (error =? 0) then mret error
     else
       '(status, actual_len, out) ← on_file ino (read off size true);
       (if size <? Z.of_nat (length out) then crash_with UndefinedBehaviour else mret tt);;
       let error := StatusToErrno status in
       (if error =? 0
        then r ← fuse_reply (ReplyBuf (take (Z.to_nat actual_len) out)); EXPECT (r =? 0)
        else mret tt);;
       mret error);
  if negb (error =? 0) then fuse_reply (ReplyErr error);; mret tt else mret tt.

Definition inode_Write (ino : Z) (buf : bytes) (off : Z) : MM unit :=
  inode_Refresh ino;;
  '(status, actual_len) ← on_file ino (write off (Some buf) true);
  error ←
    (if decide (status = STATUS_OK) then
       t ← on_file ino time;
       upd_inode ino (λ i, set_attr (stat_times (st_atime (attr i)) t
         (stat_size (Z.max (st_size (attr i)) (i64 (u64 (off + actual_len)))) (attr i))) i);;
       set_state ino I_DIRTY;;
       s ← get_st; i ← inode ino;
       at_log (Append (log_entry OP_COMMIT None (m_fs_id s) (st_ino (attr i)) None None
                         (Some off) (Some (i64 (u64 (off + actual_len))))));;
       mret 0
     else mret (StatusToErrno status));
  (if error =? 0 then fuse_reply (ReplyWrite actual_len) else fuse_reply (ReplyErr error));;
  mret tt.

Definition inode_Flush (ino : Z) : MM unit :=
  i ← inode ino;
  EXPECT (bool_decide (istate i ≠ I_INVALID));;
  status ← on_file ino flush;
  fuse_reply (ReplyErr (StatusToErrno status));; mret tt.

(** [Setattr]: the attributes other than the size go through [SetAttr]. *)
Definition apply_flags (to_set : Z) (set_ : stat_t) (a : stat_t) : stat_t :=
  let has f := has_bit to_set f in
  let a := if has FUSE_SET_ATTR_MODE then stat_mode (st_mode set_) a else a in
  let a := if has FUSE_SET_ATTR_UID then stat_ids (st_uid set_) (st_gid a) a else a in
  let a := if has FUSE_SET_ATTR_GID then stat_ids (st_uid a) (st_gid set_) a else a in
  let a := if has FUSE_SET_ATTR_ATIME then stat_times (st_atime set_) (st_mtime a) a else a in
  if has FUSE_SET_ATTR_MTIME then stat_times (st_atime a) (st_mtime set_) a else a.

Definition Setattr (ino : Z) (set_ : stat_t) (to_set : Z) : MM unit :=
  x ← at_log NextXid;
  err ← inode_Refresh ino;
  '(status, err) ←
    (if has_bit to_set FUSE_SET_ATTR_SIZE then
       on_file ino (upd_meta (set_xid x));;
       status ← on_file ino (SetSize (st_size set_));
       i ← inode ino;
       (if negb (st_size (attr i) =? st_size set_)
        then upd_inode ino (set_attr (stat_size (st_size set_) (attr i)));; set_state ino I_DIRTY
        else mret tt);;
       mret (status, StatusToErrno status)
     else mret (STATUS_OK, err));
  i ← inode ino;
  new_attr ←
    (if (err =? 0) && negb (Z.land to_set (Z.lnot FUSE_SET_ATTR_SIZE) =? 0)
        && bool_decide (status = STATUS_OK) then
       let a := apply_flags to_set set_ (attr i) in
       a ← (if has_bit to_set FUSE_SET_ATTR_ATIME_NOW
            then t ← on_file ino time; mret (stat_times t (st_mtime a) a) else mret a);
       a ← (if has_bit to_set FUSE_SET_ATTR_MTIME_NOW
            then t ← on_file ino time; mret (stat_times (st_atime a) t a) else mret a);
       on_file ino (upd_meta (set_xid x));;
       on_file ino (SetAttr a);;
       upd_inode ino (set_attr a);;
       set_state ino I_CLEAN;;
       mret a
     else mret (attr i));
  if negb (err =? 0) then fuse_reply (ReplyErr err);; mret tt
  else
    s ← get_st; i ← inode ino; f ← on_file ino this;
    at_log (Append (log_entry OP_SETATTR (Some x) (m_fs_id s) (st_ino (attr i)) None None None
                      (Some (i64 (meta_fileTotalSize (meta f))))));;
    fuse_reply (ReplyAttr new_attr);; mret tt.

(** ** readdir *)

(** The members of DirEntryAdder: the space left, the bytes added, the flag, and what
    was put in the buffer. *)
Record DirEntryAdder := mkAdder {
  ad_size : Z;
  ad_total : Z;
  ad_out_of_space : bool;
  ad_entries : list (bytes * stat_t * Z);
}.

Definition at_mount {A} (m : MM A) : M (MountState * DirEntryAdder) A := λ '(s, a),
  match m s with
  | Ok (x, s') => Ok (x, (s', a))
  | Crash c => Crash c
  end.

Definition upd_adder (g : DirEntryAdder → DirEntryAdder) : M (MountState * DirEntryAdder) unit :=
  modify (λ p, (fst p, g (snd p))).

(** [DirEntryAdder::Add]: the mode is tested without a [Refresh], and the hold on the
    inode is released. *)
Definition Add (name : bytes) (ino next_offset : Z) : M (MountState * DirEntryAdder) bool :=
  at_mount (GetInode ino true);;
  i ← at_mount (inode ino);
  EXPECT (st_ino (attr i) =? ino);;
  EXPECT (S_ISREG (st_mode (attr i)) || S_ISDIR (st_mode (attr i)));;
  let bytes_needed := fuse_direntry_size name in
  at_mount (Release ino 1);;
  a ← gets snd;
  if ad_size a <? bytes_needed then
    upd_adder (λ a, mkAdder (ad_size a) (ad_total a) true (ad_entries a));; mret false
  else
    upd_adder (λ a, mkAdder (ad_size a - bytes_needed) (ad_total a + bytes_needed)
                      (ad_out_of_space a) (ad_entries a ++ [(name, attr i, next_offset)]));;
    mret true.

Definition Readdir (ino size offset : Z) : MM unit := λ s,
  match listDirectory (λ A m, at_mount (on_file ino m)) Add (gets (λ '(_, a), ad_out_of_space a))
          offset (s, mkAdder size 0 false []) with
  | Crash c => Crash c
  | Ok (status, (s', a)) =>
      let err := StatusToErrno status in
      (fuse_reply (if err =? 0 then ReplyDirents (ad_entries a) else ReplyErr err);; mret tt) s'
  end.

End Mount.

Arguments MountState S : clear implicits.
Arguments mkM {S} _ _ _ _ _ _ _ _ _ _.

(** A mount object before [Init], over a store. *)
Definition fresh_mount {S} (kv : S) (clk : nat) (fs_id : Z) (o : MountOptions)
    (files : gmap bytes bytes) : MountState S :=
  mkM (mkW ∅ kv clk) ∅ (new_FsChangeLog [] 0) super_empty 1 fs_id o files [] [].
