(* ===== verification/Fuse.v ===== *)
(** * The FUSE entry points (src/fuse_kvfs_ops.cc, src/fuse_err_ops.cc)

    One definition per entry of the operations table; [dispatch] is what the FUSE
    session loop does with one request.  [fi->fh] is the address of an inode: its
    number here, 0 for null. *)

From Stdlib Require Import ZArith Lia Strings.String.
From stdpp Require Import base list gmap.
From S2P Require Import Prelude Status Mode KVStore MetaData Partition File Directory ChangeLog.
From S2P Require Import FileSystemManager Mount.

Definition ENOTSUP : Z := 95.

(** ** The operations table *)

(** The members of struct fuse_lowlevel_ops that the sources name. *)
Inductive op :=
  | op_lookup | op_forget | op_getattr | op_setattr | op_readlink | op_mknod | op_mkdir
  | op_unlink | op_rmdir | op_symlink | op_rename | op_link | op_open | op_read | op_write
  | op_flush | op_release | op_fsync | op_opendir | op_readdir | op_releasedir | op_fsyncdir
  | op_statfs | op_setxattr | op_getxattr | op_listxattr | op_removexattr | op_access
  | op_create | op_getlk | op_setlk | op_bmap | op_ioctl | op_poll | op_flock | op_fallocate
  | op_readdirplus | op_write_buf | op_retrieve_reply | op_forget_multi.

#[export] Instance op_eq_dec : EqDecision op.
Proof. solve_decision. Defined.

(** The error each ERR_OP handler replies with. *)
Definition err_op (o : op) : Z :=
  match o with
  | op_release | op_releasedir => 0
  | _ => ENOSYS
  end.

(** [err_init_oper]: the members it sets. *)
Definition err_init_oper (o : op) : option Z :=
  match o with
  | op_readdirplus | op_write_buf | op_retrieve_reply | op_forget_multi => None
  | _ => Some (err_op o)
  end.

(** The members [fk_init_oper] assigns. *)
Definition fk_assigned (o : op) : bool :=
  match o with
  | op_create | op_forget | op_getattr | op_setattr | op_lookup | op_mkdir | op_rmdir
  | op_unlink | op_link | op_mknod | op_opendir | op_open | op_read | op_write | op_flush
  | op_readdir | op_readlink | op_releasedir | op_release => true
  | _ => false
  end.

(** A member of the table: null, an error handler, or the handler of this file. *)
Inductive handler := H_null | H_err (e : Z) | H_fk.

(** [fk_init_oper]: [err_ops] says whether FUSE_KVFS_ERR_OPS is in the environment. *)
Definition fk_init_oper (err_ops : bool) (o : op) : handler :=
  if fk_assigned o then H_fk
  else if err_ops then match err_init_oper o with Some e => H_err e | None => H_null end
  else H_null.

(** ** Requests *)

Inductive request :=
  | R_lookup (parent : Z) (name : bytes)
  | R_forget (ino nlookup : Z)
  | R_getattr (ino : Z)
  | R_setattr (ino : Z) (attr : stat_t) (to_set : Z)
  | R_readlink (ino : Z)
  | R_opendir (ino : Z)
  | R_readdir (ino size offset fh : Z)
  | R_releasedir (ino fh : Z)
  | R_open (ino : Z)
  | R_read (ino size off fh : Z)
  | R_write (ino : Z) (buf : bytes) (off fh : Z)
  | R_flush (ino fh : Z)
  | R_create (parent : Z) (name : bytes) (mode : Z)
  | R_mkdir (parent : Z) (name : bytes) (mode : Z)
  | R_rmdir (parent : Z) (name : bytes)
  | R_unlink (parent : Z) (name : bytes)
  | R_link (ino newparent : Z) (newname : bytes)
  | R_mknod (parent : Z) (name : bytes) (mode rdev : Z)
  | R_release (ino fh : Z)
  | R_other (o : op).

Definition request_op (r : request) : op :=
  match r with
  | R_lookup _ _ => op_lookup | R_forget _ _ => op_forget | R_getattr _ => op_getattr
  | R_setattr _ _ _ => op_setattr | R_readlink _ => op_readlink | R_opendir _ => op_opendir
  | R_readdir _ _ _ _ => op_readdir | R_releasedir _ _ => op_releasedir | R_open _ => op_open
  | R_read _ _ _ _ => op_read | R_write _ _ _ _ => op_write | R_flush _ _ => op_flush
  | R_create _ _ _ => op_create | R_mkdir _ _ _ => op_mkdir | R_rmdir _ _ => op_rmdir
  | R_unlink _ _ => op_unlink | R_link _ _ _ => op_link | R_mknod _ _ _ _ => op_mknod
  | R_release _ _ => op_release | R_other o => o
  end.

Section Fuse.
Context {S : Type} `{KVStore S} `{FsEnv} `{MountEnv}.

Abbreviation MM := (M (MountState S)).

(** A null pointer is dereferenced by every caller. *)
Definition fk_ino_to_inode (ino : Z) : MM Z :=
  r ← GetInode ino true;
  match r with Some i => mret i | None => crash_with UndefinedBehaviour end.

Definition fk_fi_to_inode (fh ino : Z) : MM Z :=
  if fh =? 0 then crash_with ExpectFailed
  else
    i ← inode fh;
    EXPECT (st_ino (attr i) =? ino);;
    mret fh.

Definition fk_getattr (ino : Z) : MM unit :=
  i ← fk_ino_to_inode ino; Getattr i;; Release i 1;; mret tt.

Definition fk_setattr (ino : Z) (a : stat_t) (to_set : Z) : MM unit :=
  i ← fk_ino_to_inode ino; Setattr i a to_set;; Release i 1;; mret tt.

Definition fk_lookup (parent : Z) (name : bytes) : MM unit :=
  p ← fk_ino_to_inode parent; Lookup p name;; Release p 1;; mret tt.

(** [nlookup] is unsigned 64-bit; a count over 1000 is ignored. *)
Definition fk_forget (ino n : Z) : MM unit :=
  i ← fk_ino_to_inode ino;
  let n := if 1000 <? n then 0 else n in
  left ← Release i (n + 1);
  (if left =? 0 then FreeInode i else mret tt);;
  fuse_reply ReplyNone;; mret tt.

Definition fk_readlink (ino : Z) : MM unit := fuse_reply (ReplyErr ENOTSUP);; mret tt.

Definition fk_opendir (ino : Z) : MM unit :=
  i ← fk_ino_to_inode ino; fuse_reply (ReplyOpen i None);; mret tt.

Definition fk_readdir (ino size offset fh : Z) : MM unit :=
  i ← fk_fi_to_inode fh ino; Readdir i size offset.

Definition fk_releasedir (ino fh : Z) : MM unit :=
  i ← fk_fi_to_inode fh ino; Release i 1;; fuse_reply (ReplyErr 0);; mret tt.

Definition fk_open (ino : Z) : MM unit :=
  i ← fk_ino_to_inode ino;
  o ← gets m_options;
  fuse_reply (ReplyOpen i (Some (fuse_keep_cache o, fuse_direct_io o)));; mret tt.

Definition fk_read (ino size off fh : Z) : MM unit :=
  i ← fk_fi_to_inode fh ino; inode_Read i size off.

Definition fk_write (ino : Z) (buf : bytes) (off fh : Z) : MM unit :=
  i ← fk_fi_to_inode fh ino; inode_Write i buf off.

Definition fk_flush (ino fh : Z) : MM unit :=
  i ← fk_fi_to_inode fh ino; inode_Flush i.

Definition fk_create (parent : Z) (name : bytes) (mode : Z) : MM unit :=
  p ← fk_ino_to_inode parent; Create p name mode;; Release p 1;; mret tt.

Definition fk_mkdir (parent : Z) (name : bytes) (mode : Z) : MM unit :=
  p ← fk_ino_to_inode parent; Mkdir p name mode;; Release p 1;; mret tt.

Definition fk_rmdir (parent : Z) (name : bytes) : MM unit :=
  p ← fk_ino_to_inode parent; Rmdir p name;; Release p 1;; mret tt.

Definition fk_unlink (parent : Z) (name : bytes) : MM unit :=
  p ← fk_ino_to_inode parent; Unlink p name;; Release p 1;; mret tt.

Definition fk_link (ino newparent : Z) (newname : bytes) : MM unit :=
  p ← fk_ino_to_inode newparent; Link p ino newname;; Release p 1;; mret tt.

Definition fk_mknod (parent : Z) (name : bytes) (mode rdev : Z) : MM unit :=
  fuse_reply (ReplyErr ENOTSUP);; mret tt.

Definition fk_release (ino fh : Z) : MM unit :=
  i ← fk_fi_to_inode fh ino; fuse_reply (ReplyErr 0);; Release i 1;; mret tt.

(** The handlers of this file. *)
Definition fk_handle (r : request) : MM unit :=
  match r with
  | R_lookup p n => fk_lookup p n
  | R_forget i n => fk_forget i n
  | R_getattr i => fk_getattr i
  | R_setattr i a t => fk_setattr i a t
  | R_readlink i => fk_readlink i
  | R_opendir i => fk_opendir i
  | R_readdir i s o fh => fk_readdir i s o fh
  | R_releasedir i fh => fk_releasedir i fh
  | R_open i => fk_open i
  | R_read i s o fh => fk_read i s o fh
  | R_write i b o fh => fk_write i b o fh
  | R_flush i fh => fk_flush i fh
  | R_create p n m => fk_create p n m
  | R_mkdir p n m => fk_mkdir p n m
  | R_rmdir p n => fk_rmdir p n
  | R_unlink p n => fk_unlink p n
  | R_link i p n => fk_link i p n
  | R_mknod p n m d => fk_mknod p n m d
  | R_release i fh => fk_release i fh
  | R_other _ => mret tt
  end.

(** One request through the table.  A null member is answered by the FUSE library
    itself (with ENOSYS), so the file system does nothing. *)
Definition dispatch (err_ops : bool) (r : request) : MM unit :=
  match fk_init_oper err_ops (request_op r) with
  | H_fk => fk_handle r
  | H_err e => fuse_reply (ReplyErr e);; mret tt
  | H_null => mret tt
  end.

End Fuse.
