(* ===== verification/Frame.v ===== *)
(** * Frame rules: what the operations never change

    [keeps R m]: every run of [m] that ends relates the states before and after by the
    preorder [R].  The rules follow the structure of a program, so one tactic proves
    the fact for every method.  It is used here for the identity of file objects (file
    system id and inode number), which no method of LogFSFile changes, through the
    two-object operations of a directory. *)

From Stdlib Require Import ZArith Lia Strings.String.
From stdpp Require Import base list gmap.
From S2P Require Import Prelude Status Mode SortedMap KVStore MetaData Partition File Directory.
From S2P Require Import FileSystemManager.

Create HintDb frame.

Definition keeps {St A} (R : relation St) (m : M St A) : Prop :=
  ∀ s a s', m s = Ok (a, s') → R s s'.

Section Rules.
Context {St : Type} (R : relation St) `{!PreOrder R}.

Lemma keeps_ret {A} (a : A) : keeps R (mret a : M St A).
Proof. by intros s b s' [= <- <-]. Qed.
Lemma keeps_bind {A B} (m : M St A) (k : A → M St B) :
  keeps R m → (∀ a, keeps R (k a)) → keeps R (m ≫= k).
Proof.
  intros Hm Hk s b s' E. apply bind_inv in E as (a & s1 & E1 & E2).
  transitivity s1; [by eapply Hm|by eapply Hk].
Qed.
Lemma keeps_crash {A} c : keeps R (crash_with c : M St A).
Proof. by intros s b s' E. Qed.
Lemma keeps_get : keeps R get_st.
Proof. by intros s b s' [= <- <-]. Qed.
Lemma keeps_gets {A} (f : St → A) : keeps R (gets f).
Proof. by intros s b s' [= <- <-]. Qed.
Lemma keeps_modify (f : St → St) : (∀ s, R s (f s)) → keeps R (modify f).
Proof. by intros Hf s b s' [= <- <-]. Qed.
Lemma keeps_EXPECT b : keeps R (EXPECT b).
Proof. destruct b; [apply keeps_ret|apply keeps_crash]. Qed.
Lemma keeps_cassert b : keeps R (cassert b).
Proof. destruct b; [apply keeps_ret|apply keeps_crash]. Qed.

End Rules.

#[export] Hint Resolve keeps_ret keeps_crash keeps_get keeps_gets keeps_EXPECT keeps_cassert
  : frame.

(** One rule, a case split, or a lemma of the database. *)
Ltac frame_step :=
  lazymatch goal with
  | |- keeps _ (mbind _ _) => apply keeps_bind; [try exact _| |intros]
  | |- keeps _ (if ?b then _ else _) => destruct b
  | |- keeps _ (match ?x with _ => _ end) => destruct x
  | |- keeps _ (let x := _ in _) => cbv zeta
  | |- keeps _ (modify _) => apply keeps_modify; intros
  | |- keeps _ _ => solve [auto with frame typeclass_instances]
  end.
Ltac frame := repeat frame_step; auto with frame typeclass_instances.

(** ** One object *)

Definition ident (f : LogFSFile) : Z * Z := (fsId f, handle f).

Section FileFrame.
Context {S : Type} `{KVStore S} `{FsEnv}.

Definition same_file (s s' : FState S) : Prop := ident (f_this s) = ident (f_this s').

#[global] Instance same_file_preorder : PreOrder same_file.
Proof. split; [by intros ?|]. intros ??? E1 E2. unfold same_file in *. congruence. Qed.

Lemma keeps_upd_meta (g : LogFSMetaData → LogFSMetaData) : keeps same_file (upd_meta g).
Proof. by intros s b s' [= <- <-]. Qed.
Lemma keeps_upd (g : LogFSFile → LogFSFile) :
  (∀ f, ident f = ident (g f)) → keeps same_file (upd g).
Proof. intros Hg s b s' [= <- <-]. apply Hg. Qed.
Lemma keeps_time : keeps same_file time.
Proof. by intros s b s' [= <- <-]. Qed.
Lemma keeps_fput k v : keeps same_file (fput k v).
Proof. intros s b s'. unfold fput. destruct (kv_put _ _ _). by intros [= <- <-]. Qed.
Lemma keeps_fremove k : keeps same_file (fremove k).
Proof. intros s b s'. unfold fremove. destruct (kv_remove _ _). by intros [= <- <-]. Qed.

#[local] Hint Resolve keeps_upd_meta keeps_time keeps_fput keeps_fremove : frame.
#[local] Hint Extern 3 (keeps _ (upd _)) => apply keeps_upd; done : frame.

Lemma keeps_this : keeps same_file this.
Proof. unfold this. frame. Qed.
Lemma keeps_fget k : keeps same_file (fget k).
Proof. unfold fget. frame. Qed.
#[local] Hint Resolve keeps_this keeps_fget : frame.

Lemma keeps_readFromLog : keeps same_file readFromLog.
Proof. unfold readFromLog. frame. Qed.
Lemma keeps_as_meta b : keeps same_file (as_meta b).
Proof. unfold as_meta. frame. Qed.
Lemma keeps_writeToLog : keeps same_file writeToLog.
Proof. unfold writeToLog. frame. Qed.
Lemma keeps_NLinkAdjust n : keeps same_file (NLinkAdjust n).
Proof. unfold NLinkAdjust. frame. Qed.
Lemma keeps_flush : keeps same_file flush.
Proof. unfold flush. frame. Qed.
Lemma keeps_off_div a b : keeps same_file (off_div a b).
Proof. unfold off_div. frame. Qed.
#[local] Hint Resolve keeps_readFromLog keeps_as_meta keeps_writeToLog keeps_NLinkAdjust
  keeps_flush keeps_off_div : frame.

Lemma keeps_UpdateMTime t : keeps same_file (UpdateMTime t).
Proof. unfold UpdateMTime. frame. Qed.
Lemma keeps_UpdateCTime t : keeps same_file (UpdateCTime t).
Proof. unfold UpdateCTime. frame. Qed.
Lemma keeps_initMeta : keeps same_file initMeta.
Proof. unfold initMeta, file_setProtectionFromMode. frame. Qed.
Lemma keeps_open : keeps same_file open.
Proof. unfold open. frame. Qed.
Lemma keeps_stat a : keeps same_file (stat a).
Proof. unfold stat. frame. Qed.
Lemma keeps_SetAttr a : keeps same_file (SetAttr a).
Proof. unfold SetAttr, file_setProtectionFromMode. frame. Qed.
Lemma keeps_exists : keeps same_file exists_.
Proof. unfold exists_. frame. Qed.
#[local] Hint Resolve keeps_UpdateMTime keeps_UpdateCTime keeps_open keeps_stat : frame.

Lemma keeps_write_loop h init cs total n chunk off buf :
  keeps same_file (write_loop h init cs total n chunk off buf).
Proof.
  revert chunk off buf. induction n as [|n IH]; intros chunk off buf; cbn [write_loop]; frame.
Qed.
#[local] Hint Resolve keeps_write_loop : frame.
Lemma keeps_write off buf b : keeps same_file (write off buf b).
Proof. unfold write. frame. Qed.
#[local] Hint Resolve keeps_write : frame.
Lemma keeps_unevict_loop fuel tf off : keeps same_file (unevict_loop fuel tf off).
Proof. revert off. induction fuel as [|fuel IH]; intros off; cbn [unevict_loop]; frame. Qed.
#[local] Hint Resolve keeps_unevict_loop : frame.
Lemma keeps_UnEvict : keeps same_file UnEvict.
Proof. unfold UnEvict. frame. Qed.
#[local] Hint Resolve keeps_UnEvict : frame.
Lemma keeps_HoldData : keeps same_file HoldData.
Proof. unfold HoldData. frame. Qed.
Lemma keeps_ReleaseData : keeps same_file ReleaseData.
Proof. unfold ReleaseData. frame. Qed.
#[local] Hint Resolve keeps_HoldData keeps_ReleaseData : frame.
Lemma keeps_read off len b : keeps same_file (read off len b).
Proof. unfold read. frame. Qed.
Lemma keeps_resize_loop h new init cs first n chunk st :
  keeps same_file (resize_loop h new init cs first n chunk st).
Proof. revert chunk st. induction n as [|n IH]; intros chunk st; cbn [resize_loop]; frame. Qed.
#[local] Hint Resolve keeps_resize_loop : frame.
Lemma keeps_ResizeData a b c d : keeps same_file (ResizeData a b c d).
Proof. unfold ResizeData. frame. Qed.
#[local] Hint Resolve keeps_ResizeData : frame.
Lemma keeps_SetSize n : keeps same_file (SetSize n).
Proof. unfold SetSize. frame. Qed.
#[local] Hint Resolve keeps_SetSize : frame.
Lemma keeps_close : keeps same_file close.
Proof. unfold close, RemoveInodeFromKvs. frame. Qed.
Lemma keeps_Evict : keeps same_file Evict.
Proof. unfold Evict. frame. Qed.
Lemma keeps_file_addPathInfo p n : keeps same_file (file_addPathInfo p n).
Proof. unfold file_addPathInfo. frame. Qed.

Lemma keeps_GetPartition i : keeps same_file (GetPartition i).
Proof. unfold GetPartition. frame. Qed.
#[local] Hint Resolve keeps_GetPartition : frame.
Lemma keeps_at_partition i {A} (m : M (LogFSDirectoryPartition * S) A) :
  keeps same_file (at_partition i m).
Proof.
  unfold at_partition. frame. intros s b s'. destruct (m _) as [[? [??]]|]; [|done].
  by intros [= <- <-].
Qed.
#[local] Hint Resolve keeps_at_partition : frame.
Lemma keeps_findHandle n : keeps same_file (findHandle n).
Proof. unfold findHandle. frame. Qed.
Lemma keeps_insertEntry h n : keeps same_file (insertEntry h n).
Proof. unfold insertEntry. frame. Qed.
Lemma keeps_removeEntry h n : keeps same_file (removeEntry h n).
Proof. unfold removeEntry. frame. Qed.

End FileFrame.

#[export] Hint Resolve keeps_this keeps_upd_meta keeps_time keeps_readFromLog keeps_writeToLog
  keeps_NLinkAdjust keeps_flush keeps_UpdateMTime keeps_UpdateCTime keeps_initMeta keeps_open
  keeps_stat keeps_SetAttr keeps_exists keeps_write keeps_read keeps_SetSize keeps_close
  keeps_Evict keeps_file_addPathInfo keeps_at_partition keeps_findHandle keeps_insertEntry
  keeps_removeEntry : frame.
#[export] Hint Extern 3 (keeps _ (upd _)) => apply keeps_upd; done : frame.

(** ** The heap *)

Section HeapFrame.
Context {S : Type} `{KVStore S} `{FsEnv}.

Definition same_objects (w w' : World S) : Prop := ident <$> w_heap w = ident <$> w_heap w'.

#[global] Instance same_objects_preorder : PreOrder same_objects.
Proof. split; [by intros ?|]. intros ??? E1 E2. unfold same_objects in *. congruence. Qed.

Lemma keeps_at_obj p {A} (m : M (FState S) A) :
  keeps same_file m → keeps same_objects (at_obj p m).
Proof.
  intros Hm [hp kv clk] a w'. unfold at_obj. cbn. destruct (hp !! p) as [f|] eqn:E; [|done].
  destruct (m _) as [[b s]|] eqn:Em; [|done]. intros [= <- <-].
  unfold same_objects. cbn. rewrite fmap_insert. symmetry. apply insert_id.
  rewrite lookup_fmap, E. cbn. f_equal. apply (Hm _ _ _ Em).
Qed.
#[local] Hint Resolve keeps_at_obj : frame.

Lemma keeps_connectDots d dd : keeps same_objects (connectDots d dd).
Proof. unfold connectDots. frame. Qed.
#[local] Hint Resolve keeps_connectDots : frame.
Lemma keeps_create c p : keeps same_objects (create c p).
Proof. unfold create. frame. Qed.
Lemma keeps_link d f n : keeps same_objects (link d f n).
Proof. unfold link. frame. Qed.
Lemma keeps_remove c p n : keeps same_objects (remove c p n).
Proof. unfold remove. frame. Qed.

End HeapFrame.

#[export] Hint Resolve keeps_at_obj keeps_create keeps_link keeps_remove : frame.
