(* ===== verification/MountProps.v ===== *)
(** * Properties of the mount: inode numbers and the life of an inode

    Inode numbers across a clean and an unclean remount; what closing an inode that was
    never loaded does to the stored one; what main's CreateRoot does to an existing root;
    shutting down with an empty log. *)

From Stdlib Require Import ZArith Lia Strings.String.
From stdpp Require Import base list gmap.
From S2P Require Import Prelude Status Mode SortedMap KVStore MetaData Partition File FileData.
From S2P Require Import Directory DirectoryProps ChangeLog FileSystemManager Mount Fuse.

#[local] Arguments super_key : simpl never.
#[local] Arguments inode_key : simpl never.
#[local] Arguments on_file : simpl never.

(** ** Inode numbers *)

(** The protobuf text format: printing a message and merging the text into an empty
    one gives the message back. *)
Class SuperLaws `{MountEnv} : Prop := {
  super_roundtrip b v : super_print b = Some v → super_merge v super_empty = Some b;
}.

Section Superblock.
Context {S : Type} `{KVStoreLaws S} `{!KVReliable S} `{SuperLaws}.

Abbreviation kv_of := (λ s : MountState S, w_kv (m_world s)).

Lemma WriteSuperblock_run (s : MountState S) v :
  super_print (set_next_inode (i64 (u64 (m_handleId s + 1000))) (m_super s)) = Some v →
  ∃ s', WriteSuperblock s = Ok (0, s')
    ∧ kv_put (kv_of s) (super_key (m_fs_id s)) v = (true, kv_of s')
    ∧ m_handleId s' = m_handleId s ∧ m_fs_id s' = m_fs_id s.
Proof.
  intros Hv. destruct (kv_put_true (kv_of s) (super_key (m_fs_id s)) v) as [kv' E].
  unfold WriteSuperblock, at_manager, GetCurrentInode. mrun. cbn. rewrite Hv.
  unfold set_handleId, set_log, set_world. cbn. rewrite E. eexists. by split.
Qed.

(** Mounting a store that has a superblock. *)
Lemma ReadSuperblock_run (kv : S) clk fs o files v b :
  kv_get kv (super_key fs) = Some v → super_merge v super_empty = Some b →
  ∃ s', ReadSuperblock (fresh_mount kv clk fs o files) = Ok (0, s')
    ∧ kv_of s' = kv ∧ m_handleId s' = u64 (sb_next_inode b).
Proof.
  intros E Hb. unfold ReadSuperblock, at_manager, SetNextInode. mrun. cbn. rewrite E, Hb. cbn.
  eexists. by split.
Qed.

Lemma GetNextIno_run (s : MountState S) :
  ∃ s', GetNextIno s = Ok (u64 (m_handleId s + 1), s')
    ∧ kv_of s' = kv_of s ∧ m_handleId s' = u64 (m_handleId s + 1).
Proof. unfold GetNextIno, at_manager, getNextHandleId. mrun. cbn. eexists. by split. Qed.

(** C29: inode numbers are not reused after a clean shutdown: when the superblock is
    written with the counter at [h], the next mount of that store hands out [h + 1001]
    first, above every number the earlier mount gave out. *)
Theorem clean_remount_numbers_fresh (s : MountState S) v clk o files :
  0 ≤ m_handleId s < 4611686018427387904 →
  super_print (set_next_inode (i64 (u64 (m_handleId s + 1000))) (m_super s)) = Some v →
  ∃ s1 s2 s3, WriteSuperblock s = Ok (0, s1)
    ∧ ReadSuperblock (fresh_mount (kv_of s1) clk (m_fs_id s) o files) = Ok (0, s2)
    ∧ GetNextIno s2 = Ok (m_handleId s + 1001, s3)
    ∧ m_handleId s3 = m_handleId s + 1001.
Proof.
  intros Hh Hv. destruct (WriteSuperblock_run s v Hv) as (s1 & E1 & Ep & _ & _).
  destruct (ReadSuperblock_run (kv_of s1) clk (m_fs_id s) o files v _
    (kv_put_eq _ _ _ _ Ep) (super_roundtrip _ _ Hv)) as (s2 & E2 & _ & Hn).
  destruct (GetNextIno_run s2) as (s3 & E3 & _ & Hn3). cbn [sb_next_inode set_next_inode] in Hn.
  assert (m_handleId s2 = m_handleId s + 1000) as Hs2.
  { rewrite Hn. rewrite (u64_small (_ + 1000)), i64_small, u64_small by lia. done. }
  exists s1, s2, s3. split; [done|]. split; [done|].
  rewrite E3, Hn3, Hs2, u64_small by lia. split; [do 2 f_equal|]; lia.
Qed.

(** A mount that ends without [Shutdown] makes the next one hand out the same
    inode numbers again: mounting leaves the store as it is, so if the first mount
    ([kv]) stops without writing the superblock, the second one ([kv2], the same
    superblock, anything else changed) gives the number of the first one's first new
    inode to its own first new inode. *)
Theorem unclean_remount_reuses_numbers (kv kv2 : S) clk clk2 fs o files v b :
  kv_get kv (super_key fs) = Some v → kv_get kv2 (super_key fs) = Some v →
  super_merge v super_empty = Some b →
  ∃ n s1 s2, (ReadSuperblock;; GetNextIno) (fresh_mount kv clk fs o files) = Ok (n, s1)
    ∧ kv_of s1 = kv
    ∧ (ReadSuperblock;; GetNextIno) (fresh_mount kv2 clk2 fs o files) = Ok (n, s2).
Proof.
  intros E E' Hb. destruct (ReadSuperblock_run kv clk fs o files v b E Hb) as (s & E1 & K1 & N1).
  destruct (GetNextIno_run s) as (s1 & E2 & K2 & _).
  destruct (ReadSuperblock_run kv2 clk2 fs o files v b E' Hb) as (t & E3 & K3 & N3).
  destruct (GetNextIno_run t) as (t1 & E4 & K4 & _).
  exists (u64 (m_handleId s + 1)), s1, t1.
  rewrite (bind_ok _ _ _ _ _ E1), E2, (bind_ok _ _ _ _ _ E3), E4.
  split; [done|]. split; [congruence|]. by rewrite N1, N3.
Qed.

(** The change log of the next mount starts again at the xid the superblock was made
    with, whatever the last mount logged: [WriteSuperblock] does not store the next
    xid, and [Init] does not read the log back. *)
Lemma remount_restarts_xids (s : MountState S) v clk o files dir port :
  super_print (set_next_inode (i64 (u64 (m_handleId s + 1000))) (m_super s)) = Some v →
  1024 < atoi port →
  ∃ s1 s2, WriteSuperblock s = Ok (0, s1)
    ∧ Init true dir (Some port) (fresh_mount (kv_of s1) clk (m_fs_id s) o files) = Ok (0, s2)
    ∧ m_log s2 = set_next_xid (sb_next_xid (m_super s)) (new_FsChangeLog dir 0).
Proof.
  intros Hv Hp. destruct (WriteSuperblock_run s v Hv) as (s1 & E1 & Ep & _ & _).
  exists s1. unfold Init, ReadSuperblock, at_manager, SetNextInode. mrun. cbn.
  rewrite (kv_put_eq _ _ _ _ Ep), (super_roundtrip _ _ Hv). cbn.
  rewrite (proj2 (Z.leb_gt _ _)) by done. eexists. by split.
Qed.

(** Shutting down a mount that logged nothing: the flush takes the first and last
    entry of an empty deque. *)
Lemma shutdown_with_empty_log `{EntryCodec} (s : MountState S) v :
  log_deque (m_log s) = [] →
  super_print (set_next_inode (i64 (u64 (m_handleId s + 1000))) (m_super s)) = Some v →
  Shutdown s = Crash UndefinedBehaviour.
Proof.
  intros Hl Hv. destruct (kv_put_true (kv_of s) (super_key (m_fs_id s)) v) as [kv' E].
  unfold Shutdown, FlushLog, Flush, WriteSuperblock, at_manager, GetCurrentInode. mrun. cbn.
  rewrite Hv. unfold set_handleId, set_log, set_world. cbn. rewrite E. cbn. by rewrite Hl.
Qed.

End Superblock.

(** ** Closing an inode without links *)

Section Close.
Context {S : Type} `{KVStoreLaws S} `{!KVReliable S} `{FsEnv}.

(** An inode record of size zero, as every directory has. *)
Record stored_inode (kv : S) (fs ino : Z) (m : LogFSMetaData) : Prop := {
  si_stored : kv_get kv (inode_key ino) = Some (encode_meta m);
  si_wf : wf_meta m;
  si_handle : meta_handle m = ino;
  si_fs : meta_fsId m = fs;
  si_size : meta_fileTotalSize m = 0;
}.

Lemma SetSize_zero f (kv : S) clk m :
  stored_inode kv (fsId f) (handle f) m →
  ∃ kv', SetSize 0 (mkFS f kv clk) =
      Ok (STATUS_OK, mkFS (set_metaDirty false (set_meta (resized_meta m 0 clk) f)) kv'
                          (Datatypes.S clk))
    ∧ ∀ k, k ≠ inode_key (handle f) → kv_get kv' k = kv_get kv k.
Proof.
  intros [E W Hh Hf Hs].
  destruct (kv_put_true kv (inode_key (handle f)) (encode_meta (resized_meta m 0 clk))) as [kv' Ep].
  exists kv'. split; [|intros k Hk; by apply (kv_put_ne _ _ _ _ _ _ Ep)].
  unfold SetSize. rewrite (bind_ok _ _ _ _ _ (open_ok f kv clk m E W Hh Hf)). cbn [negb].
  unfold this. rewrite (bind_ok _ _ _ (set_meta m f) (mkFS (set_meta m f) kv clk)) by done.
  cbn [meta set_meta]. rewrite Hs. change (i64 0) with 0.
  rewrite (bind_ok _ _ _ STATUS_OK (mkFS (set_meta m f) kv clk)) by done.
  rewrite decide_True by done.
  unfold upd_meta, upd, time, flush, this, fput. mrun. cbn [f_this f_kv f_clock set_meta set_metaDirty
    meta handle meta_handle set_mtime set_ctime set_size fsId nameString fmode metaDirty
    data_hold_count partitions].
  rewrite Hh, Z.eqb_refl. cbn [negb f_this f_kv f_clock handle meta].
  change (set_mtime _ _) with (resized_meta m 0 clk). by rewrite Ep.
Qed.

(** [close] on an object that counts no links deletes the stored inode, whatever its
    own link count. *)
Lemma close_unlinked f (kv : S) clk m :
  meta_nLink (meta f) = 0 → stored_inode kv (fsId f) (handle f) m →
  ∃ f' kv' clk', close (mkFS f kv clk) = Ok (STATUS_OK, mkFS f' kv' clk')
    ∧ kv_get kv' (inode_key (handle f)) = None
    ∧ ∀ k, k ≠ inode_key (handle f) → kv_get kv' k = kv_get kv k.
Proof.
  intros Hn I. destruct (SetSize_zero f kv clk m I) as (kv1 & E & K).
  destruct (kv_remove kv1 (inode_key (handle f))) as [b kv2] eqn:Er.
  pose proof (kv_remove_succeeds kv1 (inode_key (handle f))) as Hb. rewrite Er in Hb. cbn in Hb. subst b.
  eexists _, kv2, _. split; [|split].
  - unfold close, this. rewrite (bind_ok _ _ _ f (mkFS f kv clk)) by done. rewrite Hn. cbn [Z.leb Z.compare].
    unfold RemoveInodeFromKvs, this, fremove. unfold mbind, M_bind. rewrite E. cbn. by rewrite Er.
  - by apply (kv_remove_eq kv1).
  - intros k Hk. rewrite (kv_remove_ne _ _ _ _ _ Er) by done. by apply K.
Qed.

End Close.

(** ** Runs of the steps of a request *)

Section Steps.
Context {S : Type} `{KVStoreLaws S} `{!KVReliable S} `{FsEnv} `{MountEnv}.

Abbreviation kv_of := (λ s : MountState S, w_kv (m_world s)).

(** The mount with inode [p] just put in the table, held once. *)
Definition loaded (s : MountState S) (p : Z) : MountState S :=
  let w := m_world s in
  set_inodes (<[p := set_nlookup 1 (new_inode p)]> (m_inodes s))
    (set_world (mkW (<[p := new_inode_file (m_fs_id s) p]> (w_heap w)) (w_kv w) (w_clock w)) s).

Lemma GetInode_new (s : MountState S) p :
  m_inodes s !! p = None → GetInode p true s = Ok (Some p, loaded s p).
Proof.
  intros E. unfold GetInode, Hold, upd_inode, inode, loaded, set_inodes, set_world. mrun. rewrite E.
  cbn. rewrite !lookup_insert_eq. cbn. rewrite lookup_insert_eq, insert_insert_eq. done.
Qed.

Lemma on_file_run (s : MountState S) p {A} (m : M (FState S) A) f a f' kv' clk' :
  w_heap (m_world s) !! p = Some f →
  m (mkFS f (kv_of s) (w_clock (m_world s))) = Ok (a, mkFS f' kv' clk') →
  on_file p m s = Ok (a, set_world (mkW (<[p := f']> (w_heap (m_world s))) kv' clk') s).
Proof. intros Ef Em. unfold on_file, at_world, at_obj. by rewrite Ef, Em. Qed.

Lemma inode_run (s : MountState S) p i : m_inodes s !! p = Some i → inode p s = Ok (i, s).
Proof. intros E. unfold inode. mrun. by rewrite E. Qed.

Lemma upd_inode_run (s : MountState S) p i g :
  m_inodes s !! p = Some i →
  upd_inode p g s = Ok (tt, set_inodes (<[p := g i]> (m_inodes s)) s).
Proof. intros E. unfold upd_inode. by rewrite (bind_ok _ _ _ _ _ (inode_run s p i E)). Qed.

(** [Refresh] of an invalid inode whose file can be read. *)
Lemma Refresh_run (s : MountState S) p i f a f' kv' clk' :
  m_inodes s !! p = Some i → istate i = I_INVALID → w_heap (m_world s) !! p = Some f →
  stat (attr i) (mkFS f (kv_of s) (w_clock (m_world s))) = Ok ((STATUS_OK, a), mkFS f' kv' clk') →
  inode_Refresh p s =
    Ok (0, set_inodes (<[p := set_istate I_CLEAN (set_attr a i)]> (m_inodes s))
             (set_world (mkW (<[p := f']> (w_heap (m_world s))) kv' clk') s)).
Proof.
  intros Ei Hi Ef Es. unfold inode_Refresh. rewrite (bind_ok _ _ _ _ _ (inode_run s p i Ei)).
  rewrite decide_True by done. rewrite (bind_ok _ _ _ _ _ (on_file_run s p _ f _ _ _ _ Ef Es)).
  cbn iota. set (s1 := set_world _ s).
  rewrite (bind_ok _ _ _ _ _ (upd_inode_run s1 p i _ Ei)). cbn [StatusToErrno Z.eqb].
  unfold set_state. rewrite (bind_ok _ _ _ _ _ (upd_inode_run (set_inodes _ s1) p _ _ (lookup_insert_eq _ _ _))).
  cbn [m_inodes set_inodes]. rewrite insert_insert_eq. done.
Qed.

(** [GetInode] of an inode in the table holds it once more. *)
Lemma GetInode_held (s : MountState S) p i c :
  m_inodes s !! p = Some i →
  GetInode p c s =
    Ok (Some p, set_inodes (<[p := set_nlookup (nlookup i + 1) i]> (m_inodes s)) s).
Proof.
  intros Ei. unfold GetInode. rewrite (bind_ok _ _ s s s) by done. rewrite Ei.
  unfold Hold. cbn [negb Z.eqb].
  erewrite (bind_ok _ _ s _ _); [reflexivity|].
  rewrite (bind_ok _ _ _ _ _ (upd_inode_run s p i _ Ei)).
  by rewrite (bind_ok _ _ _ _ _ (inode_run _ p _ (lookup_insert_eq _ _ _))).
Qed.

(** [Release] of one of several holds. *)
Lemma Release_held (s : MountState S) p i :
  m_inodes s !! p = Some i → 1 < nlookup i →
  Release p 1 s = Ok (nlookup i - 1, set_inodes (<[p := set_nlookup (nlookup i - 1) i]> (m_inodes s)) s).
Proof.
  intros Ei Hn. unfold Release. rewrite (bind_ok _ _ _ _ _ (inode_run s p i Ei)).
  rewrite (proj2 (Z.ltb_ge _ _)) by lia. rewrite (bind_ok _ _ _ _ _ (upd_inode_run s p i _ Ei)).
  rewrite (bind_ok _ _ _ _ _ (inode_run _ p _ (lookup_insert_eq _ _ _))).
  cbn [nlookup set_nlookup]. by rewrite (proj2 (Z.eqb_neq _ _)) by lia.
Qed.

Lemma Release_last (s : MountState S) p i f st f' kv' clk' :
  m_inodes s !! p = Some i → nlookup i = 1 → w_heap (m_world s) !! p = Some f →
  close (mkFS f (kv_of s) (w_clock (m_world s))) = Ok (st, mkFS f' kv' clk') →
  ∃ s', Release p 1 s = Ok (0, s') ∧ kv_of s' = kv' ∧ m_replies s' = m_replies s.
Proof.
  intros Ei Hn Ef Ec. unfold Release, upd_inode, inode. mrun. rewrite Ei. cbn. rewrite Hn, Ei. cbn.
  rewrite lookup_insert_eq. cbn. change (1 - 1 =? 0) with true. cbv beta iota.
  rewrite (on_file_run _ p close f st f' kv' clk') by done. eexists. by split.
Qed.

Lemma fk_ino_to_inode_new (s : MountState S) p :
  m_inodes s !! p = None → fk_ino_to_inode p s = Ok (p, loaded s p).
Proof. intros E. unfold fk_ino_to_inode. by rewrite (bind_ok _ _ _ _ _ (GetInode_new s p E)). Qed.

(** C38: a lookup in a directory whose inode is not in the table deletes that inode:
    the new FuseKvfsInode is never refreshed, so its file object counts no links, and
    the release at the end of the request closes it; the stored inode goes, whatever its
    link count, while the request is answered with ENOENT as for any unbound name. *)
Theorem lookup_in_unloaded_directory_deletes_it (s : MountState S) p name m :
  m_inodes s !! p = None → stored_inode (kv_of s) (m_fs_id s) p m →
  dir_inv (new_inode_file (m_fs_id s) p) (kv_of s) →
  dir_find (new_inode_file (m_fs_id s) p) (kv_of s) name = None →
  fuse_reply_ret (ReplyErr ENOENT) = 0 →
  ∃ s', fk_lookup p name s = Ok (tt, s')
    ∧ m_replies s' = m_replies s ++ [ReplyErr ENOENT]
    ∧ kv_get (kv_of s') (inode_key p) = None
    ∧ ∀ k, k ≠ inode_key p → kv_get (kv_of s') k = kv_get (kv_of s) k.
Proof.
  intros Hp I D F Hr.
  destruct (findHandle_ok _ _ (w_clock (m_world s)) name D) as (f' & Ef & _ & Hs & _).
  destruct (same_but_parts_fields _ _ Hs) as (Efs & Eh & Em & _). rewrite F in Ef.
  destruct (close_unlinked f' (kv_of s) (w_clock (m_world s)) m) as (f2 & kv2 & clk2 & Ec & Hn & K).
  { by rewrite Em. }
  { by rewrite Efs, Eh. }
  unfold fk_lookup. rewrite (bind_ok _ _ _ _ _ (fk_ino_to_inode_new s p Hp)).
  set (s1 := loaded s p).
  set (s2 := set_world (mkW (<[p := f']> (w_heap (m_world s1))) (kv_of s) (w_clock (m_world s))) s1).
  rewrite (bind_ok _ _ s1 tt (add_reply (ReplyErr ENOENT) s2)).
  2:{ unfold Lookup. rewrite (bind_ok _ _ s1 0 s2).
      - unfold fuse_reply. mrun. cbn. by rewrite Hr.
      - apply (on_file_run s1 p _ (new_inode_file (m_fs_id s) p)); [apply lookup_insert_eq|done]. }
  destruct (Release_last (add_reply (ReplyErr ENOENT) s2) p (set_nlookup 1 (new_inode p)) f'
    STATUS_OK f2 kv2 clk2) as (s' & Er & Ek & Erep);
    [apply lookup_insert_eq|done|apply lookup_insert_eq|done|].
  rewrite (bind_ok _ _ _ _ _ Er). exists s'. rewrite Ek, Erep. split; [done|]. split; [done|].
  rewrite Eh in Hn, K. by split.
Qed.

(** [createRoot] on a root that has its dot entries: "." cannot be inserted again, so
    no link is counted, and the inode is written all the same. *)
Lemma createRoot_existing hp (kv : S) clk self f i0 :
  hp !! self = Some f → dir_inv f kv → dir_find f kv (lit ".") = Some i0 →
  ∃ hp' kv', createRoot self (mkW hp kv clk) = Ok (STATUS_OK, mkW hp' kv' (Datatypes.S clk))
    ∧ kv_put kv (inode_key (handle f)) (encode_meta (init_meta f clk)) = (true, kv').
Proof.
  intros Hp D F. set (f1 := set_meta (init_meta f clk) f).
  destruct (dir_inv_frame f f1 kv kv) as [D1 F1]; [done..|].
  assert (<[self := f1]> hp !! self = Some f1) as Hp1 by apply lookup_insert_eq.
  destruct (insertEntry_exists f1 kv (Datatypes.S clk) (handle f1) (lit ".") i0 D1)
    as (f2 & Ei & _ & Hs & _); [by rewrite F1|].
  destruct (same_but_parts_fields _ _ Hs) as (_ & Eh & Em & _).
  set (hp2 := <[self := f2]> (<[self := f1]> hp)).
  destruct (heap_writeToLog hp2 kv (Datatypes.S clk) self f2) as (kv' & Ew & Ep);
    [apply lookup_insert_eq|].
  exists hp2, kv'. split; [|by rewrite Eh, Em in Ep].
  unfold createRoot. rewrite (bind_ok _ _ _ _ _ (at_obj_run self initMeta hp kv clk f _ _ _ _
    Hp (initMeta_run f kv clk))). fold f1.
  rewrite (bind_ok _ _ _ STATUS_INTERNAL_ERROR (mkW hp2 kv (Datatypes.S clk))); [done|].
  unfold connectDots. rewrite !(bind_ok _ _ _ _ _ (at_obj_this self _ kv (Datatypes.S clk) f1 Hp1)).
  rewrite (bind_ok _ _ _ _ _ (at_obj_run self _ _ kv _ f1 _ _ _ _ Hp1 Ei)).
  by rewrite decide_False by done.
Qed.

(** The object [CreateRoot] puts on its stack for the root directory. *)
Definition root_object (fs : Z) : LogFSFile := local_file fs [] ROOT_HANDLE (Z.lor S_IFDIR 511).

(** The metadata [createRoot] writes for a local root object is well formed. *)
Lemma init_root_wf fs clk :
  0 ≤ fs < 18446744073709551616 → 0 ≤ env_uid < 4294967296 → 0 ≤ env_gid < 4294967296 →
  wf_meta (init_meta (root_object fs) clk).
Proof.
  intros Hfs Hu Hg. pose proof (u32_range (env_time clk)).
  split; cbn; try lia; try done.
Qed.

(** What main's [CreateRoot] leaves in the store when the root exists: an inode with
    no links. *)
Lemma CreateRoot_existing (s : MountState S) i0 :
  let root := root_object (m_fs_id s) in
  0 ≤ env_uid < 4294967296 → 0 ≤ env_gid < 4294967296 →
  dir_inv root (kv_of s) → dir_find root (kv_of s) (lit ".") = Some i0 →
  ∃ s' m, at_manager (CreateRoot (m_fs_id s)) s = Ok (tt, s')
    ∧ stored_inode (kv_of s') (m_fs_id s) ROOT_HANDLE m ∧ meta_nLink m = 0
    ∧ m_inodes s' = m_inodes s ∧ m_replies s' = m_replies s ∧ m_fs_id s' = m_fs_id s.
Proof.
  intros root Hu Hg D F.
  destruct (createRoot_existing {[ 0 := root ]} (kv_of s) (w_clock (m_world s)) 0 root i0)
    as (hp' & kv' & Ec & Ep); [by apply lookup_insert_eq|done|done|].
  unfold at_manager, CreateRoot, fm_createRoot, on_stack_heap, log_append. mrun.
  cbn [fm_kv fm_clock fm_log fm_handleId]. fold (root_object (m_fs_id s)). fold root. rewrite Ec.
  eexists _, (init_meta root (w_clock (m_world s))). split; [reflexivity|]. cbn. split; [|by split].
  split; [by apply (kv_put_eq _ _ _ _ Ep)|apply init_root_wf; [apply (di_fs _ _ D)|done|done]
         |done|done|done].
Qed.

(** C37: the second mount of a file system loses the root inode: main calls
    [CreateRoot] at every mount; on a store whose root directory exists this stores the
    root with no links, and the first getattr of the root answers with its attributes
    and then, releasing the only hold, deletes the inode from the store. *)
Theorem remount_deletes_root (s : MountState S) i0 :
  m_inodes s !! ROOT_HANDLE = None →
  0 ≤ env_uid < 4294967296 → 0 ≤ env_gid < 4294967296 →
  dir_inv (root_object (m_fs_id s)) (kv_of s) →
  dir_find (root_object (m_fs_id s)) (kv_of s) (lit ".") = Some i0 →
  ∃ s' a, (at_manager (CreateRoot (m_fs_id s));; fk_getattr ROOT_HANDLE) s = Ok (tt, s')
    ∧ m_replies s' = m_replies s ++ [ReplyAttr a] ∧ st_ino a = ROOT_HANDLE
    ∧ kv_get (kv_of s') (inode_key ROOT_HANDLE) = None.
Proof.
  intros Hp Hu Hg D F.
  destruct (CreateRoot_existing s i0 Hu Hg D F) as (s0 & m & E0 & I & Hn & Ei & Er & Efs).
  rewrite (bind_ok _ _ _ _ _ E0). rewrite <-Ei in Hp. rewrite <-Er. rewrite <-Efs in I. clear E0 D F.
  destruct I as [I1 I2 I3 I4 I5].
  unfold fk_getattr. rewrite (bind_ok _ _ _ _ _ (fk_ino_to_inode_new s0 ROOT_HANDLE Hp)).
  set (s1 := loaded s0 ROOT_HANDLE). set (f := new_inode_file (m_fs_id s0) ROOT_HANDLE).
  destruct (stat_ok f (kv_of s0) (w_clock (m_world s0)) m (attr (new_inode ROOT_HANDLE)) I1 I2 I3 I4)
    as (a & Es & _ & Hino & _ & _). rewrite I3 in Hino.
  set (s2 := set_world (mkW (<[ROOT_HANDLE := set_meta m f]> (w_heap (m_world s1))) (kv_of s0)
               (w_clock (m_world s0))) s1).
  set (i2 := set_istate I_CLEAN (set_attr a (set_nlookup 1 (new_inode ROOT_HANDLE)))).
  set (s3 := add_reply (ReplyAttr a) (set_inodes (<[ROOT_HANDLE := i2]> (m_inodes s0)) s2)).
  assert (Getattr ROOT_HANDLE s1 = Ok (tt, s3)) as Eg.
  { unfold Getattr. rewrite (bind_ok _ _ _ _ _ (Refresh_run s1 ROOT_HANDLE _ f a _ _ _
      (lookup_insert_eq _ _ _) eq_refl (lookup_insert_eq _ _ _) Es)). cbn [negb Z.eqb].
    rewrite (bind_ok _ _ _ _ _ (inode_run _ _ _ (lookup_insert_eq _ _ _))).
    unfold s3, i2, s2, s1, loaded. cbn. by rewrite insert_insert_eq. }
  rewrite (bind_ok _ _ _ _ _ Eg).
  destruct (close_unlinked (set_meta m f) (kv_of s0) (w_clock (m_world s0)) m)
    as (f4 & kv4 & clk4 & Ec & Hnone & _); [done|by split|].
  destruct (Release_last s3 ROOT_HANDLE i2 (set_meta m f) STATUS_OK f4 kv4 clk4)
    as (s4 & E4 & K4 & R4); [apply lookup_insert_eq|done|apply lookup_insert_eq|done|].
  rewrite (bind_ok _ _ _ _ _ E4). exists s4, a. by rewrite K4, R4.
Qed.

End Steps.

(** ** Witnesses *)

#[local] Instance demo_mount_fs : FsEnv := demo_env (demo_tier []).

#[local] Instance Superblock_eq_dec : EqDecision Superblock.
Proof. solve_decision. Defined.

(** A text format for one superblock, the one of a first mount. *)
Definition demo_super : Superblock := set_next_inode 1001 super_empty.
Definition demo_mount_env : MountEnv := {|
  fuse_reply_ret _ := 0;
  uninit_attr := stat_zero;
  super_print b := if decide (b = demo_super) then Some (lit "S") else None;
  super_merge v s := if decide (v = lit "S") then Some demo_super else None;
  env_errno := 0;
  fuse_direntry_size name := Z.of_nat (length name) + 24;
  cloud_uri0 := [];
|}.
#[local] Existing Instance demo_mount_env.

#[local] Instance demo_super_laws : SuperLaws.
Proof. split. intros b v. cbn. destruct (decide (b = demo_super)) as [->|]; [|done]. by intros [= <-]. Qed.

Definition demo_mount (kv : MemStore) : MountState MemStore :=
  fresh_mount kv 0 0 (MkOptions true false) ∅.

Lemma clean_remount_numbers_fresh_witness :
  ∃ s1 s2 s3, WriteSuperblock (demo_mount ∅) = Ok (0, s1)
    ∧ ReadSuperblock (fresh_mount (w_kv (m_world s1)) 0 0 (MkOptions true false) ∅) = Ok (0, s2)
    ∧ GetNextIno s2 = Ok (1002, s3) ∧ m_handleId s3 = 1002.
Proof.
  apply (clean_remount_numbers_fresh (demo_mount ∅) (lit "S") 0 (MkOptions true false) ∅);
    [cbn; lia|done].
Defined.

Lemma unclean_remount_reuses_numbers_witness :
  ∃ n s1 s2, (ReadSuperblock;; GetNextIno) (demo_mount {[ super_key 0 := lit "S" ]}) = Ok (n, s1)
    ∧ w_kv (m_world s1) = {[ super_key 0 := lit "S" ]}
    ∧ (ReadSuperblock;; GetNextIno)
        (demo_mount (<[inode_key 1002 := lit "new"]> {[ super_key 0 := lit "S" ]})) = Ok (n, s2).
Proof.
  apply (unclean_remount_reuses_numbers (S := MemStore) {[ super_key 0 := lit "S" ]}
    (<[inode_key 1002 := lit "new"]> {[ super_key 0 := lit "S" ]}) 0 0 0 (MkOptions true false) ∅
    (lit "S") demo_super); [by apply lookup_insert_eq| |done].
  vm_compute. reflexivity.
Defined.

(** A directory inode, number 5, with no partition stored. *)
Definition demo_dir_meta : LogFSMetaData :=
  set_nLink 2 (set_type LOGFS_IFDIR (init_fields 0 5 0 0 (new_meta 0 8192))).
Definition demo_dir_kv : MemStore := {[ inode_key 5 := encode_meta demo_dir_meta ]}.

Lemma lookup_in_unloaded_directory_deletes_it_witness :
  ∃ s', fk_lookup 5 (lit "a") (demo_mount demo_dir_kv) = Ok (tt, s')
    ∧ m_replies s' = [] ++ [ReplyErr ENOENT]
    ∧ kv_get (w_kv (m_world s')) (inode_key 5) = None
    ∧ ∀ k, k ≠ inode_key 5 →
        kv_get (w_kv (m_world s')) k = kv_get demo_dir_kv k.
Proof.
  destruct (fresh_dir (new_inode_file 0 5) demo_dir_kv)
    as [D F]; [done|cbn; lia|cbn; lia| |].
  { intros i Hi. apply lookup_singleton_ne, inode_sub_key. }
  apply (lookup_in_unloaded_directory_deletes_it
    (demo_mount demo_dir_kv) 5 (lit "a") demo_dir_meta); try done.
Defined.

(** The store of a file system whose root has its two entries (the demonstration hash
    is the length of the name). *)
Definition demo_root_kv : MemStore :=
  <[sub_key 1 1 := serialize_map 0 1 1 [(lit ".", 1)]]>
    {[ sub_key 1 0 := serialize_map 0 1 0 [(lit "..", 1)] ]}.

Lemma demo_dot_map i n : (n = lit "." ∨ n = lit "..") → i = [(n, 1)] → wf_map i.
Proof.
  intros Hn ->. split.
  - constructor; [|constructor]. intros k v Hk. by apply not_elem_of_nil in Hk.
  - apply Forall_singleton. split; [|cbn; lia].
    destruct Hn as [-> | ->]; split; by apply (bool_decide_unpack _); vm_compute.
  - destruct Hn as [-> | ->]; by vm_compute.
Qed.

Lemma demo_root_inv :
  let root := root_object 0 in
  dir_inv root demo_root_kv ∧ dir_find root demo_root_kv (lit ".") = Some 1.
Proof.
  intros root.
  assert (∀ i, (i < 2)%nat → ∃ n, (n = lit "." ∨ n = lit "..") ∧ partition_index root n = i
    ∧ demo_root_kv !! sub_key 1 (Z.of_nat i) = Some (serialize_map 0 1 (Z.of_nat i) [(n, 1)])) as Hkv.
  { intros [|[|i]] Hi; [exists (lit "..")|exists (lit ".")|lia]; (split; [auto|split; [done|]]).
    - unfold demo_root_kv. rewrite lookup_insert_ne by (intros E; by apply (sub_key_inj) in E as [_ ?]).
      apply lookup_insert_eq.
    - apply lookup_insert_eq. }
  assert (∀ i, (i < 2)%nat → part_at root i = new_partition (Z.of_nat i) 0 1) as Hat
    by (intros [|[|i]] Hi; [done|done|lia]).
  assert (∀ i, (i < 2)%nat → ∃ n, partition_index root n = i
    ∧ part_abs (part_at root i) demo_root_kv = [(n, 1)] ∧ part_inv (part_at root i) demo_root_kv) as Hp.
  { intros i Hi. destruct (Hkv i Hi) as (n & Hn & Hix & E). exists n. rewrite (Hat i Hi).
    split; [done|]. split.
    - unfold part_abs, part_view. cbn [new_partition part_state dir_ino partitionNumber].
      rewrite u16_small by lia. cbn [kv_get mem_kv]. rewrite E.
      apply decode_serialized. by apply (demo_dot_map _ n).
    - apply new_partition_inv; [lia..|]. intros v. cbn [kv_get mem_kv]. rewrite E. intros [= <-].
      exists [(n, 1)]. split; [by apply (demo_dot_map _ n)|done]. }
  split; [split|].
  - done.
  - done.
  - done.
  - intros i Hi. destruct (Hp i Hi) as (n & _ & _ & I). rewrite (Hat i Hi) in *.
    split; [done|]. cbn. rewrite u16_small by (cbn in Hi; lia). done.
  - intros i n h Hi. destruct (Hp i Hi) as (n' & Hix & -> & _). intros E%sm_find_elem.
    apply list_elem_of_singleton in E. by injection E as -> _.
  - unfold dir_find. destruct (Hkv 1%nat ltac:(lia)) as (n & Hn & Hix & _).
    vm_compute. reflexivity.
Qed.

Lemma remount_deletes_root_witness :
  ∃ s' a, (at_manager (CreateRoot 0);; fk_getattr ROOT_HANDLE) (demo_mount demo_root_kv) = Ok (tt, s')
    ∧ m_replies s' = [] ++ [ReplyAttr a] ∧ st_ino a = ROOT_HANDLE
    ∧ kv_get (w_kv (m_world s')) (inode_key ROOT_HANDLE) = None.
Proof.
  destruct demo_root_inv as [D F].
  apply (remount_deletes_root (demo_mount demo_root_kv) 1); try done; cbn; lia.
Defined.
