(* ===== verification/CreateProps.v ===== *)
(** * fk_create, from the request to the store *)

From Stdlib Require Import ZArith Lia Strings.String.
From stdpp Require Import base list gmap.
From S2P Require Import Prelude Status Mode SortedMap KVStore MetaData Partition File FileData.
From S2P Require Import Directory DirectoryProps ChangeLog FileSystemManager Mount Fuse MountProps.

#[local] Arguments inode_key : simpl never.
#[local] Arguments on_file : simpl never.

Section Create.
Context {S : Type} `{KVStoreLaws S} `{!KVReliable S} `{FsEnv} `{MountEnv}.

Abbreviation kv_of := (λ s : MountState S, w_kv (m_world s)).

(** The mount with its changing parts written out. *)
Definition mk (s : MountState S) (w : World S) (t : gmap Z FuseKvfsInode) (l : FsChangeLog) (h : Z)
    (r : list reply) : MountState S :=
  mkM w t l (m_super s) h (m_fs_id s) (m_options s) (m_files s) (m_last_log s) r.

Section Steps.
Context (s : MountState S).
Implicit Types (w : World S) (t : gmap Z FuseKvfsInode) (l : FsChangeLog).

Lemma mk_self : s = mk s (m_world s) (m_inodes s) (m_log s) (m_handleId s) (m_replies s).
Proof. by destruct s. Qed.

Lemma mk_on_file w t l h r p {A} (m : M (FState S) A) f a f' kv' clk' :
  w_heap w !! p = Some f → m (mkFS f (w_kv w) (w_clock w)) = Ok (a, mkFS f' kv' clk') →
  on_file p m (mk s w t l h r) = Ok (a, mk s (mkW (<[p := f']> (w_heap w)) kv' clk') t l h r).
Proof. intros Ef Em. by rewrite (on_file_run (mk s w t l h r) p m f a f' kv' clk' Ef Em). Qed.

Lemma mk_upd_inode w t l h r p i g :
  t !! p = Some i → upd_inode p g (mk s w t l h r) = Ok (tt, mk s w (<[p := g i]> t) l h r).
Proof. intros Ei. by rewrite (upd_inode_run (mk s w t l h r) p i g Ei). Qed.

Lemma mk_inode w t l h r p i :
  t !! p = Some i → inode p (mk s w t l h r) = Ok (i, mk s w t l h r).
Proof. intros Ei. by apply inode_run. Qed.

(** A hold on an inode of the table. *)
Lemma mk_hold w t l h r p i :
  t !! p = Some i →
  fk_ino_to_inode p (mk s w t l h r) =
    Ok (p, mk s w (<[p := set_nlookup (nlookup i + 1) i]> t) l h r).
Proof.
  intros Ei. set (s0 := mk s w t l h r). set (s1 := mk s w _ l h r).
  assert (Hold p 1 s0 = Ok (nlookup i + 1, s1)) as Eh.
  { unfold Hold. cbn [negb Z.eqb].
    rewrite (bind_ok _ _ _ _ _ (mk_upd_inode w t l h r p i _ Ei)).
    by rewrite (bind_ok _ _ _ _ _ (mk_inode _ _ _ _ _ p _ (lookup_insert_eq _ _ _))). }
  unfold fk_ino_to_inode. rewrite (bind_ok _ _ s0 (Some p) s1); [done|].
  unfold GetInode. rewrite (bind_ok _ _ s0 s0 s0) by done. cbn [m_inodes mk s0]. rewrite Ei.
  by rewrite (bind_ok _ _ _ _ _ Eh).
Qed.

(** A release that leaves other holds. *)
Lemma mk_release w t l h r p i :
  t !! p = Some i → 1 < nlookup i →
  Release p 1 (mk s w t l h r) =
    Ok (nlookup i - 1, mk s w (<[p := set_nlookup (nlookup i - 1) i]> t) l h r).
Proof.
  intros Ei Hn. unfold Release. rewrite (bind_ok _ _ _ _ _ (mk_inode w t l h r p i Ei)).
  rewrite (proj2 (Z.ltb_ge _ _)) by lia.
  rewrite (bind_ok _ _ _ _ _ (mk_upd_inode w t l h r p i _ Ei)).
  rewrite (bind_ok _ _ _ _ _ (mk_inode _ _ _ _ _ p _ (lookup_insert_eq _ _ _))). cbn [nlookup set_nlookup].
  rewrite (proj2 (Z.eqb_neq _ _)) by lia. done.
Qed.

Lemma mk_new_inode w t l h r c :
  t !! c = None →
  GetInode c true (mk s w t l h r) =
    Ok (Some c, mk s (mkW (<[c := new_inode_file (m_fs_id s) c]> (w_heap w)) (w_kv w) (w_clock w))
                  (<[c := set_nlookup 1 (new_inode c)]> t) l h r).
Proof. intros E. by rewrite (GetInode_new (mk s w t l h r) c E). Qed.

Lemma mk_next_ino w t l h r :
  GetNextIno (mk s w t l h r) = Ok (u64 (h + 1), mk s w t l (u64 (h + 1)) r).
Proof. unfold GetNextIno, at_manager, getNextHandleId. mrun. cbn. by destruct w. Qed.

Lemma mk_next_xid w t l h r :
  at_log NextXid (mk s w t l h r) =
    Ok (next_xid l, mk s w t (set_next_xid (next_xid l + 1) l) h r).
Proof. done. Qed.

Lemma mk_append w t l h r e x :
  e_xid e = Some x →
  at_log (Append e) (mk s w t l h r) = Ok (x, mk s w t (set_deque (log_deque l ++ [e]) l) h r).
Proof.
  intros E. assert (has_xid e = true) as Hx by (unfold has_xid; by rewrite E).
  assert (xid e = x) as Hv by (unfold xid; by rewrite E).
  unfold at_log, Append. rewrite Hx. mrun. by rewrite Hv.
Qed.

End Steps.

(** ** The request *)

(** What the request needs: the parent directory is in the table, held and loaded,
    with room for a name it does not bind; the next inode number is unused in the table,
    the heap and the store. *)
Record fk_create_pre (s : MountState S) (p : Z) (ip : FuseKvfsInode) (fp : LogFSFile) (name : bytes)
    (mode : Z) : Prop := {
  fcp_inode : m_inodes s !! p = Some ip;
  fcp_held : 1 ≤ nlookup ip;
  fcp_ino : st_ino (attr ip) = p;
  fcp_file : w_heap (m_world s) !! p = Some fp;
  fcp_handle : handle fp = p;
  fcp_dir : dir_inv fp (kv_of s);
  fcp_name : wf_name name;
  fcp_short : (length name < NAME_MAX)%nat;
  fcp_fits : dir_fits fp (kv_of s) name;
  fcp_free : dir_find fp (kv_of s) name = None;
  fcp_next : 0 ≤ m_handleId s < 18446744073709551615;
  fcp_xid : -9223372036854775808 ≤ next_xid (m_log s) < 9223372036854775807;
  fcp_ne : m_handleId s + 1 ≠ p;
  fcp_new : m_inodes s !! (m_handleId s + 1) = None;
  fcp_unused i : 0 ≤ i < OFF_MAX → kv_get (kv_of s) (sub_key (m_handleId s + 1) i) = None;
  fcp_fs : 0 ≤ m_fs_id s < 18446744073709551616;
  fcp_uid : 0 ≤ env_uid < 4294967296;
  fcp_gid : 0 ≤ env_gid < 4294967296;
  fcp_reg : S_ISREG mode = true;
}.

(** The new object when [LogFSFile::create] is called. *)
Definition child_object (s : MountState S) (p : Z) (name : bytes) (mode : Z) : LogFSFile :=
  let c := m_handleId s + 1 in
  let m := new_meta DEFAULT_FILE_INITIAL_SIZE DEFAULT_FILE_CHUNK_SIZE in
  MkFile (m_fs_id s) c name
    (set_xid (next_xid (m_log s)) (set_path p (strncpy (meta_name m) name (NAME_MAX - 1)) m))
    mode false 0 None.

Lemma prepare_child_run s w t l h r p c name mode x ip fp :
  c ≠ p → c = m_handleId s + 1 → x = next_xid (m_log s) → (length name < NAME_MAX)%nat →
  t !! p = Some ip → st_ino (attr ip) = p → t !! c = Some (set_nlookup 1 (new_inode c)) →
  w_heap w !! p = Some fp → w_heap w !! c = Some (new_inode_file (m_fs_id s) c) →
  prepare_child p c name mode x (mk s w t l h r) =
    Ok (tt, mk s (mkW (<[p := set_meta (set_xid x (meta fp)) fp]>
                         (<[c := child_object s p name mode]> (w_heap w))) (w_kv w) (w_clock w))
              (<[c := set_attr (stat_mode mode (attr (new_inode c))) (set_nlookup 1 (new_inode c))]> t)
              l h r).
Proof.
  intros Hne Hc Hx Hl Hip Hino Hic Hfp Hfc. unfold prepare_child.
  rewrite (bind_ok _ _ _ _ _ (mk_on_file s w t l h r c (set_name_mode name mode) _ _ _ _ _ Hfc eq_refl)).
  rewrite (bind_ok _ _ _ _ _ (mk_upd_inode s _ t l h r c _ _ Hic)).
  unfold set_state. rewrite (bind_ok _ _ _ _ _ (mk_upd_inode s _ _ l h r c _ _ (lookup_insert_eq _ _ _))).
  rewrite insert_insert_eq. set (t1 := <[c := _]> t).
  assert (t1 !! p = Some ip) as Hip1 by (unfold t1; by rewrite lookup_insert_ne).
  rewrite (bind_ok _ _ _ _ _ (mk_inode s _ t1 l h r p ip Hip1)).
  rewrite Hino. set (f1 := MkFile _ _ _ _ _ _ _ _).
  set (f2 := set_meta (set_path p (strncpy (meta_name (meta f1)) name (NAME_MAX - 1)) (meta f1)) f1).
  assert (∀ kv clk, file_addPathInfo p name (mkFS (S := S) f1 kv clk) = Ok (tt, mkFS f2 kv clk)) as Ea.
  { intros kv clk. unfold file_addPathInfo, this. mrun. cbn [f_this]. by rewrite addPathInfo_ok. }
  rewrite (bind_ok _ _ _ _ _ (mk_on_file s _ t1 l h r c _ f1 _ _ _ _ (lookup_insert_eq _ _ _) (Ea _ _))).
  rewrite (bind_ok _ _ _ _ _ (mk_on_file s _ t1 l h r c (upd_meta (set_xid x)) f2 tt
    (set_meta (set_xid x (meta f2)) f2) _ _ (lookup_insert_eq _ _ _) eq_refl)).
  cbn [w_heap w_kv w_clock f_kv f_clock].
  rewrite !insert_insert_eq. set (f3 := set_meta (set_xid x (meta f2)) f2).
  assert (<[c := f3]> (w_heap w) !! p = Some fp) as Hfp3 by by rewrite lookup_insert_ne.
  rewrite (mk_on_file s (mkW (<[c := f3]> (w_heap w)) (w_kv w) (w_clock w)) t1 l h r p
    (upd_meta (set_xid x)) fp _ _ _ _ Hfp3 eq_refl). by subst x c.
Qed.

Lemma child_meta_wf s p name mode clk :
  wf_meta (meta (child_object s p name mode)) → 0 ≤ m_handleId s < 18446744073709551615 →
  0 ≤ m_fs_id s < 18446744073709551616 → 0 ≤ env_uid < 4294967296 → 0 ≤ env_gid < 4294967296 →
  wf_meta (set_nLink 1 (init_meta (child_object s p name mode) clk)).
Proof.
  intros [] Hh Hf Hu Hg. pose proof (u32_range (env_time clk)). split; cbn in *; try lia; done.
Qed.

Lemma child_object_wf s p name mode :
  0 ≤ p < 18446744073709551616 →
  -9223372036854775808 ≤ next_xid (m_log s) < 9223372036854775807 →
  wf_meta (meta (child_object s p name mode)).
Proof.
  intros Hp Hx. unfold child_object. cbv zeta. cbn [meta].
  assert (length (strncpy (meta_name (new_meta DEFAULT_FILE_INITIAL_SIZE DEFAULT_FILE_CHUNK_SIZE))
    name (NAME_MAX - 1)) = NAME_MAX) as Hl.
  { unfold strncpy. rewrite length_app, length_resize, length_drop. done. }
  generalize dependent (strncpy (meta_name (new_meta DEFAULT_FILE_INITIAL_SIZE
    DEFAULT_FILE_CHUNK_SIZE)) name (NAME_MAX - 1)). intros nm Hl.
  split; cbn [meta_metaVersion meta_checkSum meta_fsId meta_handle meta_xid meta_userId meta_groupId
    meta_devId meta_rDev meta_fileTotalSize meta_fileInitialSize meta_fileChunkSize meta_nLink
    meta_atime meta_atimeNsec meta_mtime meta_mtimeNsec meta_ctime meta_ctimeNsec meta_parentHandle
    meta_name set_xid set_path new_meta]; try lia; done.
Qed.

Lemma mk_at_world s w t l h r {A} (m : M (World S) A) a w' :
  m w = Ok (a, w') → at_world m (mk s w t l h r) = Ok (a, mk s w' t l h r).
Proof. intros E. unfold at_world. cbn [m_world mk]. by rewrite E. Qed.

(** The log entry of a creation. *)
Definition creat_entry (s : MountState S) (p : Z) (name : bytes) : ChangeLogEntry :=
  log_entry OP_CREAT (Some (next_xid (m_log s))) (m_fs_id s) (m_handleId s + 1) (Some p) (Some name)
    None None.

(** The second half of [Create]: after [LogFSFile::create] succeeded. *)
Lemma Create_tail s w t l h r p c name ip ic f m a :
  c = m_handleId s + 1 → t !! p = Some ip → st_ino (attr ip) = p →
  t !! c = Some ic → istate ic = I_INVALID → w_heap w !! c = Some f →
  stat (attr ic) (mkFS f (w_kv w) (w_clock w)) =
    Ok ((STATUS_OK, a), mkFS (set_meta m f) (w_kv w) (w_clock w)) →
  (s' ← get_st; i ← inode p;
   at_log (Append (log_entry OP_CREAT (Some (next_xid (m_log s))) (m_fs_id s') c
                     (Some (st_ino (attr i))) (Some name) None None));;
   e ← inode_Refresh c;
   EXPECT (e =? 0);;
   c' ← inode c;
   s'' ← get_st;
   fuse_reply (ReplyCreate c (attr c') c (fuse_keep_cache (m_options s'')));; mret tt) (mk s w t l h r) =
  Ok (tt, mk s (mkW (<[c := set_meta m f]> (w_heap w)) (w_kv w) (w_clock w))
            (<[c := set_istate I_CLEAN (set_attr a ic)]> t)
            (set_deque (log_deque l ++ [creat_entry s p name]) l) h
            (r ++ [ReplyCreate c a c (fuse_keep_cache (m_options s))])).
Proof.
  intros Hc Hip Hino Hic Hst Hf Es. set (s0 := mk s w t l h r).
  rewrite (bind_ok _ _ s0 s0 s0) by done. cbn [m_fs_id mk s0].
  rewrite (bind_ok _ _ _ _ _ (mk_inode s w t l h r p ip Hip)). rewrite Hino.
  rewrite (bind_ok _ _ _ _ _ (mk_append s w t l h r
    (log_entry OP_CREAT (Some (next_xid (m_log s))) (m_fs_id s) c (Some p) (Some name) None None)
    (next_xid (m_log s)) eq_refl)).
  rewrite (bind_ok _ _ _ _ _ (Refresh_run (mk s w t _ h r) c ic f a _ _ _ Hic Hst Hf Es)).
  rewrite (bind_ok _ _ _ _ _ (EXPECT_true _ _ eq_refl)).
  rewrite (bind_ok _ _ _ _ _ (inode_run _ c _ (lookup_insert_eq _ _ _))). by subst c.
Qed.

(** Directories with the same bindings and the same number of partitions have the
    same room. *)
Lemma dir_fits_ext f f' (kv : S) name :
  dir_inv f kv → dir_inv f' kv → length (parts_of f') = length (parts_of f) →
  (∀ n, dir_find f' kv n = dir_find f kv n) → dir_fits f kv name → dir_fits f' kv name.
Proof.
  intros D D' Hl F. unfold dir_fits.
  assert (∀ n, partition_index f' n = partition_index f n) as Hi
    by (intros n; unfold partition_index; by rewrite !num_parts, Hl).
  rewrite Hi. set (i := partition_index f name).
  assert (i < length (parts_of f))%nat as Hlt by apply partition_index_lt, D.
  assert (∀ g, dir_inv g kv → length (parts_of g) = length (parts_of f) →
    (∀ n, partition_index g n = partition_index f n) → ∀ n,
    sm_find n (part_abs (part_at g i) kv) = if decide (partition_index f n = i) then dir_find g kv n else None)
    as Hfind.
  { intros g Dg Hlg Hig n. case_decide as Hn.
    - unfold dir_find. by rewrite Hig, Hn.
    - destruct (sm_find n _) as [h|] eqn:E; [|done]. destruct Hn. rewrite <-Hig.
      apply (di_placed _ _ Dg i n h); [by rewrite Hlg|done]. }
  rewrite (sm_eq (part_abs (part_at f i) kv) (part_abs (part_at f' i) kv)); [done|..].
  - apply part_abs_sorted, D. done.
  - apply part_abs_sorted, D'. by rewrite Hl.
  - intros n. rewrite !Hfind by done. case_decide; [|done]. by rewrite F.
Qed.

(** The precondition of [LogFSFile::create] holds when [Create] calls it. *)
Lemma create_pre_child s p ip fp fp2 name mode hp3 :
  let c := m_handleId s + 1 in
  fk_create_pre s p ip fp name mode → dir_inv fp2 (kv_of s) → handle fp2 = handle fp →
  c ≠ p → length (parts_of fp2) = length (parts_of fp) →
  (∀ n, dir_find fp2 (kv_of s) n = dir_find fp (kv_of s) n) →
  hp3 !! c = Some (child_object s p name mode) → hp3 !! p = Some fp2 →
  create_pre hp3 (kv_of s) c p (child_object s p name mode) fp2.
Proof.
  intros c P D2 Eh Hne Hl F2 Hc Hp. pose proof (fcp_next _ _ _ _ _ _ P).
  split; cbn [fsId handle nameString partitions child_object]; try done; try apply P; try lia.
  - by rewrite Eh, (fcp_handle _ _ _ _ _ _ P).
  - apply (dir_fits_ext fp); try done; apply P.
  - rewrite F2. apply P.
Qed.

(** A file object [f] of inode [c] that holds nothing. *)
Record empty_file (f : LogFSFile) (kv : S) (c : Z) : Prop := {
  ef_handle : handle f = c;
  ef_inv : file_inv f kv;
  ef_size : meta_fileTotalSize (meta f) = 0;
  ef_resident : meta_evictionState (meta f) = ES_RESIDENT;
  ef_tail : no_chunks_past f kv;
}.

Lemma empty_file_intro f (kv : S) c :
  wf_meta (meta f) → meta_handle (meta f) = c → handle f = c → meta_fsId (meta f) = fsId f →
  meta_fileInitialSize (meta f) = 0 → 0 < meta_fileChunkSize (meta f) → meta_fileTotalSize (meta f) = 0 →
  meta_evictionState (meta f) = ES_RESIDENT →
  (∀ j, 0 ≤ j < OFF_MAX → kv_get kv (sub_key c j) = None) → empty_file f kv c.
Proof.
  intros W Hm Hh Hf Hi Hc Ht He Hn. split; try done.
  - split; rewrite ?Hh; try done; [by rewrite Ht| |].
    + intros j v Hj. by rewrite Hn.
    + intros j Hj. unfold file_byte. rewrite Hn; [done|]. apply chunk_of_offset; [done|]. lia.
  - intros j Hj _. rewrite Hh. by apply Hn.
Qed.

(** [LogFSFile::create] and the [stat] after it, as [Create] calls them: [fp1] is the
    parent object after the name was looked up. *)
Lemma created_child s p ip fp fp1 name mode st0 :
  let c := m_handleId s + 1 in
  let fp2 := set_meta (set_xid (next_xid (m_log s)) (meta fp1)) fp1 in
  let hp3 := <[p := fp2]> (<[c := child_object s p name mode]>
               (<[p := fp1]> (w_heap (m_world s)))) in
  fk_create_pre s p ip fp name mode → dir_inv fp1 (kv_of s) → same_but_parts fp fp1 →
  (∀ n, dir_find fp1 (kv_of s) n = dir_find fp (kv_of s) n) →
  ∃ fc fp' kv' clk' a,
    create c p (mkW hp3 (kv_of s) (w_clock (m_world s))) =
      Ok (STATUS_OK, mkW (<[c := fc]> (<[p := fp']> hp3)) kv' clk')
    ∧ stat st0 (mkFS fc kv' clk') = Ok ((STATUS_OK, a), mkFS (set_meta (meta fc) fc) kv' clk')
    ∧ st_ino a = c ∧ st_nlink a = 1
    ∧ st_mode a = ModeFromMeta LOGFS_IFREG (SetProtectionFromMode mode)
    ∧ dir_inv fp' kv' ∧ synced fc kv' ∧ meta_nLink (meta fc) = 1
    ∧ (∀ n, dir_find fp' kv' n = if decide (n = name) then Some c else dir_find fp (kv_of s) n)
    ∧ st_size a = 0 ∧ empty_file fc kv' c ∧ handle fp' = p.
Proof.
  intros c fp2 hp3 P D1 Hs1 F1. pose proof (fcp_ne _ _ _ _ _ _ P) as Hne. fold c in Hne.
  set (child := child_object s p name mode) in *.
  destruct (same_but_parts_fields _ _ Hs1) as (_ & Eh1 & _). destruct Hs1 as (ps & Eps & Hlen).
  destruct (dir_inv_frame fp1 fp2 (kv_of s) (kv_of s)) as [D2 F2]; [done..|].
  assert (hp3 !! c = Some child) as Hc3
    by (unfold hp3; rewrite lookup_insert_ne by done; apply lookup_insert_eq).
  assert (create_pre hp3 (kv_of s) c p child fp2) as Hpre.
  { apply (create_pre_child s p ip fp fp2 name mode hp3); try done.
    apply lookup_insert_eq. }
  destruct (create_file_ok hp3 (kv_of s) (w_clock (m_world s)) c p child fp2 Hpre (fcp_reg _ _ _ _ _ _ P))
    as (fc & fp' & kv' & clk' & Ec & D' & Hs' & F' & Sy & Hh' & Hmh & Hty & Hpr' & Hl' & _ & Hm & Hfs' & _ & _ & Hsub).
  pose proof (di_ino _ _ (fcp_dir _ _ _ _ _ _ P)) as Hpr. rewrite (fcp_handle _ _ _ _ _ _ P) in Hpr.
  assert (wf_meta (meta fc)) as Wfc
    by (rewrite Hm; apply child_meta_wf; try apply P; apply child_object_wf; [done|apply P]).
  destruct (stat_ok fc kv' clk' (meta fc) st0) as (a & Es & Has & Hai & Han & Ham);
    [exact Sy|exact Wfc|by rewrite Hh'|by rewrite Hm, Hfs'|].
  exists fc, fp', kv', clk', a. split; [done|]. split; [done|].
  split; [by rewrite Hai, Hmh|]. split; [by rewrite Han|]. split; [by rewrite Ham, Hty, Hpr'|].
  split; [done|]. split; [exact Sy|]. split; [done|].
  split; [intros n; rewrite F'; change (nameString child) with name; case_decide; [done|]; by rewrite F2, F1|].
  split; [by rewrite Has, Hm|].
  destruct (same_but_parts_fields _ _ Hs') as (_ & Eh' & _). change (handle fp2) with (handle fp1) in Eh'.
  split; [|by rewrite Eh', Eh1, (fcp_handle _ _ _ _ _ _ P)]. apply empty_file_intro; try done; try by rewrite Hm.
  intros j Hj. pose proof (fcp_next _ _ _ _ _ _ P). rewrite (Hsub c); [by apply P|].
  change (handle fp2) with (handle fp1). rewrite Eh1, (fcp_handle _ _ _ _ _ _ P), !u64_small by lia. done.
Qed.

(** [Create] on a parent that is held: all steps up to the reply. *)
Lemma Create_run s p ip ip1 fp name mode :
  let c := m_handleId s + 1 in
  let x := next_xid (m_log s) in
  let t1 := <[p := ip1]> (m_inodes s) in
  fk_create_pre s p ip fp name mode → st_ino (attr ip1) = p →
  ∃ fc fp' hp kv' clk' t a,
    Create p name mode (mk s (m_world s) t1 (m_log s) (m_handleId s) (m_replies s)) =
      Ok (tt, mk s (mkW hp kv' clk') t
                (set_deque (log_deque (m_log s) ++ [creat_entry s p name])
                   (set_next_xid (x + 1) (m_log s))) c
                (m_replies s ++ [ReplyCreate c a c (fuse_keep_cache (m_options s))]))
    ∧ t !! p = Some ip1 ∧ (∃ i, t !! c = Some i ∧ nlookup i = 1 ∧ attr i = a ∧ istate i = I_CLEAN)
    ∧ hp !! p = Some fp' ∧ hp !! c = Some (set_meta (meta fc) fc)
    ∧ st_ino a = c ∧ st_nlink a = 1
    ∧ st_mode a = ModeFromMeta LOGFS_IFREG (SetProtectionFromMode mode)
    ∧ dir_inv fp' kv' ∧ synced fc kv' ∧ meta_nLink (meta fc) = 1
    ∧ (∀ n, dir_find fp' kv' n = if decide (n = name) then Some c else dir_find fp (kv_of s) n)
    ∧ st_size a = 0 ∧ empty_file fc kv' c ∧ handle fp' = p.
Proof.
  intros c x t1 P Hino. pose proof (fcp_next _ _ _ _ _ _ P) as Hnext.
  assert (u64 (m_handleId s + 1) = c) as Hc by (apply u64_small; lia).
  pose proof (fcp_ne _ _ _ _ _ _ P) as Hne. fold c in Hne.
  destruct (findHandle_ok fp (kv_of s) (w_clock (m_world s)) name (fcp_dir _ _ _ _ _ _ P))
    as (fp1 & Ef & D1 & Hs1 & F1). rewrite (fcp_free _ _ _ _ _ _ P) in Ef. cbn [default] in Ef.
  set (ic := set_attr (stat_mode mode (attr (new_inode c))) (set_nlookup 1 (new_inode c))).
  destruct (created_child s p ip fp fp1 name mode (attr ic) P D1 Hs1 F1)
    as (fc & fp' & kv' & clk' & a & Ec & Es & R). fold c x in Ec. set (hp3 := <[p := _]> _) in Ec.
  set (l1 := set_next_xid (x + 1) (m_log s)). set (clk := w_clock (m_world s)).
  set (w1 := mkW (<[p := fp1]> (w_heap (m_world s))) (kv_of s) clk).
  assert (t1 !! c = None) as Hc1 by (unfold t1; rewrite lookup_insert_ne by done; apply P).
  set (t2 := <[c := set_nlookup 1 (new_inode c)]> t1).
  set (w2 := mkW (<[c := new_inode_file (m_fs_id s) c]> (w_heap w1)) (kv_of s) clk).
  assert (t2 !! p = Some ip1) as Hp2
    by (unfold t2, t1; rewrite lookup_insert_ne by done; apply lookup_insert_eq).
  assert (w_heap w2 !! p = Some fp1) as Hfp2
    by (cbn; rewrite lookup_insert_ne by done; apply lookup_insert_eq).
  assert (<[c := ic]> t2 !! p = Some ip1) as Hp3 by by rewrite lookup_insert_ne.
  set (w4 := mkW (<[c := fc]> (<[p := fp']> hp3)) kv' clk') in Ec.
  exists fc, fp', (<[c := set_meta (meta fc) fc]> (w_heap w4)), kv', clk',
    (<[c := set_istate I_CLEAN (set_attr a ic)]> (<[c := ic]> t2)), a. split.
  - unfold Create. rewrite (bind_ok _ _ _ _ _ (mk_on_file s _ t1 _ _ _ p _ fp _ _ _ _
      (fcp_file _ _ _ _ _ _ P) Ef)). fold clk w1.
    rewrite (bind_ok _ _ _ 0 (mk s (mkW (<[c := set_meta (meta fc) fc]> (w_heap w4)) kv' clk')
      (<[c := set_istate I_CLEAN (set_attr a ic)]> (<[c := ic]> t2))
      (set_deque (log_deque l1 ++ [creat_entry s p name]) l1) c
      (m_replies s ++ [ReplyCreate c a c (fuse_keep_cache (m_options s))]))); [done|]. cbn [negb Z.eqb].
    rewrite (bind_ok _ _ _ _ _ (mk_next_xid s w1 t1 _ _ _)). fold x l1.
    rewrite (bind_ok _ _ _ _ _ (mk_next_ino s w1 t1 l1 _ _)). rewrite Hc.
    rewrite (bind_ok _ _ _ _ _ (mk_new_inode s w1 t1 l1 c _ c Hc1)).
    rewrite (bind_ok _ _ _ _ _ (prepare_child_run s w2 t2 l1 c _ p c name mode x ip1 fp1 Hne eq_refl
      eq_refl (fcp_short _ _ _ _ _ _ P) Hp2 Hino (lookup_insert_eq _ _ _) Hfp2
      (lookup_insert_eq _ _ _))).
    assert (create c p (mkW (<[p := set_meta (set_xid x (meta fp1)) fp1]>
      (<[c := child_object s p name mode]> (w_heap w2))) (kv_of s) clk) = Ok (STATUS_OK, w4)) as Ec2.
    { unfold w2. cbn [w_heap]. rewrite insert_insert_eq. exact Ec. }
    rewrite (bind_ok _ _ _ _ _ (mk_at_world s _ (<[c := ic]> t2) l1 c (m_replies s) _ _ _ Ec2)).
    cbn [StatusToErrno Z.eqb].
    by rewrite (bind_ok _ _ _ tt _ (Create_tail s w4 (<[c := ic]> t2) l1 c (m_replies s) p c name ip1 ic
      fc (meta fc) a eq_refl Hp3 Hino (lookup_insert_eq _ _ _) eq_refl (lookup_insert_eq _ _ _) Es)).
  - split; [by rewrite lookup_insert_ne|]. split; [by rewrite lookup_insert_eq; eexists|].
    split; [unfold w4; cbn [w_heap]; rewrite !lookup_insert_ne by done; apply lookup_insert_eq|].
    split; [apply lookup_insert_eq|]. exact R.
Qed.

Lemma fk_create_run s p ip fp name mode :
  fk_create_pre s p ip fp name mode →
  let c := m_handleId s + 1 in
  ∃ s' a fp' fc, fk_create p name mode s = Ok (tt, s')
    ∧ m_replies s' = m_replies s ++ [ReplyCreate c a c (fuse_keep_cache (m_options s))]
    ∧ st_ino a = c ∧ st_nlink a = 1
    ∧ st_mode a = ModeFromMeta LOGFS_IFREG (SetProtectionFromMode mode)
    ∧ w_heap (m_world s') !! p = Some fp' ∧ dir_inv fp' (kv_of s')
    ∧ (∀ n, dir_find fp' (kv_of s') n =
         if decide (n = name) then Some c else dir_find fp (kv_of s) n)
    ∧ w_heap (m_world s') !! c = Some fc ∧ synced fc (kv_of s') ∧ meta_nLink (meta fc) = 1
    ∧ log_deque (m_log s') = log_deque (m_log s) ++ [creat_entry s p name]
    ∧ next_xid (m_log s') = next_xid (m_log s) + 1
    ∧ (nlookup <$> m_inodes s' !! p) = Some (nlookup ip)
    ∧ (∃ i, m_inodes s' !! c = Some i ∧ nlookup i = 1 ∧ attr i = a ∧ istate i = I_CLEAN)
    ∧ st_size a = 0 ∧ empty_file fc (kv_of s') c ∧ handle fp' = p.
Proof.
  intros P c. pose proof (fcp_held _ _ _ _ _ _ P) as Hheld.
  set (ip1 := set_nlookup (nlookup ip + 1) ip).
  destruct (Create_run s p ip ip1 fp name mode P (fcp_ino _ _ _ _ _ _ P))
    as (fc & fp' & hp & kv' & clk' & t & a & E & Hp & Hcn & Hfp & Hfc & Ha & Hn & Hmo & D & Sy & Hl & F & Hsz & Hem & Hhp).
  fold c in Hcn, Hfc, Ha, F, Hem. eexists _, a, fp', (set_meta (meta fc) fc). split.
  { rewrite (mk_self s) at 1. unfold fk_create.
    rewrite (bind_ok _ _ _ _ _ (mk_hold s _ _ _ _ _ p ip (fcp_inode _ _ _ _ _ _ P))). fold ip1.
    rewrite (bind_ok _ _ _ _ _ E).
    by rewrite (bind_ok _ _ _ _ _ (mk_release s _ t _ _ _ p ip1 Hp ltac:(cbn; lia))). }
  cbn [mk m_replies m_world m_log m_inodes w_heap w_kv].
  do 11 (split; [done|]). split; [done|]. split; [|split].
  - rewrite lookup_insert_eq. cbn. f_equal. lia.
  - rewrite lookup_insert_ne; [done|]. intros Hcp. by destruct (fcp_ne _ _ _ _ _ _ P).
  - split; [done|]. split; [|done]. by replace (set_meta (meta fc) fc) with fc by by destruct fc.
Qed.

(** [fk_create] on a loaded directory creates a regular file: it answers with
    the new inode number and the attributes of the new file (that number, one link, the
    requested mode), the directory binds the name to the number and nothing else changes
    in it, the new inode is in the store, the change log ends with a CREAT entry under
    the next xid, the new inode is in the table with one hold, and the parent is held as
    often as before. *)
Theorem fk_create_correct s p ip fp name mode :
  fk_create_pre s p ip fp name mode →
  let c := m_handleId s + 1 in
  ∃ s' a fp' fc, fk_create p name mode s = Ok (tt, s')
    ∧ m_replies s' = m_replies s ++ [ReplyCreate c a c (fuse_keep_cache (m_options s))]
    ∧ st_ino a = c ∧ st_nlink a = 1
    ∧ st_mode a = ModeFromMeta LOGFS_IFREG (SetProtectionFromMode mode)
    ∧ w_heap (m_world s') !! p = Some fp' ∧ dir_inv fp' (kv_of s')
    ∧ (∀ n, dir_find fp' (kv_of s') n =
         if decide (n = name) then Some c else dir_find fp (kv_of s) n)
    ∧ w_heap (m_world s') !! c = Some fc ∧ synced fc (kv_of s') ∧ meta_nLink (meta fc) = 1
    ∧ log_deque (m_log s') = log_deque (m_log s) ++ [creat_entry s p name]
    ∧ next_xid (m_log s') = next_xid (m_log s) + 1
    ∧ (nlookup <$> m_inodes s' !! p) = Some (nlookup ip)
    ∧ (nlookup <$> m_inodes s' !! c) = Some 1.
Proof.
  intros P c. destruct (fk_create_run s p ip fp name mode P) as (s' & a & fp' & fc & E).
  exists s', a, fp', fc. repeat apply conj; try apply E.
  destruct E as (_ & _ & _ & _ & _ & _ & _ & _ & _ & _ & _ & _ & _ & _ & (i & Ei & Hn & _) & _).
  unfold c. by rewrite Ei, <-Hn.
Qed.

End Create.

(** ** Witness: inode 7 in the empty directory 2 *)

#[local] Instance demo_create_fs : FsEnv := demo_env (demo_tier []).
#[local] Existing Instance demo_mount_env.

Definition demo_parent : FuseKvfsInode := MkInode (stat_mode (S_IFDIR + 493) (stat_ino_dev 2 0 stat_zero)) 1 I_CLEAN.
Definition demo_loaded : MountState MemStore :=
  mkM (mkW {[ 2 := demo_dir ]} ∅ 0) {[ 2 := demo_parent ]} (new_FsChangeLog [] 0) super_empty 6 1
    (MkOptions true false) ∅ [] [].

Lemma demo_fk_create_pre : fk_create_pre demo_loaded 2 demo_parent demo_dir (lit "a") (S_IFREG + 420).
Proof.
  split; try (cbn; lia); try done.
  - apply demo_dir_inv.
  - apply demo_wf_name.
  - vm_compute. lia.
Qed.

Lemma fk_create_correct_witness :
  ∃ s' a fp' fc, fk_create 2 (lit "a") (S_IFREG + 420) demo_loaded = Ok (tt, s')
    ∧ m_replies s' = [] ++ [ReplyCreate 7 a 7 true]
    ∧ st_ino a = 7 ∧ st_nlink a = 1
    ∧ st_mode a = ModeFromMeta LOGFS_IFREG (SetProtectionFromMode (S_IFREG + 420))
    ∧ w_heap (m_world s') !! 2 = Some fp' ∧ dir_inv fp' (w_kv (m_world s'))
    ∧ (∀ n, dir_find fp' (w_kv (m_world s')) n =
         if decide (n = lit "a") then Some 7 else dir_find demo_dir (∅ : MemStore) n)
    ∧ w_heap (m_world s') !! 7 = Some fc ∧ synced fc (w_kv (m_world s'))
    ∧ meta_nLink (meta fc) = 1
    ∧ log_deque (m_log s') = [] ++ [creat_entry demo_loaded 2 (lit "a")]
    ∧ next_xid (m_log s') = 0 + 1
    ∧ (nlookup <$> m_inodes s' !! 2) = Some 1
    ∧ (nlookup <$> m_inodes s' !! 7) = Some 1.
Proof.
  apply (fk_create_correct demo_loaded 2 demo_parent demo_dir (lit "a") (S_IFREG + 420)), demo_fk_create_pre.
Defined.
