(* ===== verification/IOProps.v ===== *)
(** * Requests on an open file refine a byte array

    The abstract file is its contents, a list of bytes, with the read, write, truncate,
    getattr and flush of POSIX.  A session of such requests through the FUSE entry points
    gives the answers of the abstract file and keeps representing it. *)

From Stdlib Require Import ZArith Lia Strings.String.
From stdpp Require Import base list gmap.
From S2P Require Import Prelude Status Mode SortedMap KVStore MetaData Partition File FileData.
From S2P Require Import Directory DirectoryProps ChangeLog FileSystemManager Mount Fuse MountProps CreateProps.

#[local] Arguments inode_key : simpl never.
#[local] Arguments on_file : simpl never.

(** ** The abstract file *)

Inductive io_req :=
  | IORead (size off : Z)
  | IOWrite (buf : bytes) (off : Z)
  | IOTruncate (a : stat_t)
  | IOGetattr
  | IOFlush.

Inductive io_reply :=
  | IOData (b : bytes)
  | IOWrote (n : Z)
  | IOSize (n : Z)
  | IODone.

(** [buf] at [pos] of [c], which grows with zeros if it is too short. *)
Definition overwrite (pos : nat) (buf c : bytes) : bytes :=
  splice pos buf (resize (Nat.max (length c) (pos + length buf)) Byte.x00 c).

Definition io_step (c : bytes) (r : io_req) : bytes * io_reply :=
  match r with
  | IORead size off => (c, IOData (slice (Z.to_nat off) (Z.to_nat size) c))
  | IOWrite buf off => (overwrite (Z.to_nat off) buf c, IOWrote (Z.of_nat (length buf)))
  | IOTruncate a => (resize (Z.to_nat (st_size a)) Byte.x00 c, IOSize (st_size a))
  | IOGetattr => (c, IOSize (Z.of_nat (length c)))
  | IOFlush => (c, IODone)
  end.

(** The requests the kernel sends: offsets and sizes in range, no read past the end. *)
Definition io_ok (c : bytes) (r : io_req) : Prop :=
  match r with
  | IORead size off => 0 ≤ off ≤ Z.of_nat (length c) ∧ 0 ≤ size ≤ MAX_SIZE
  | IOWrite buf off => 0 ≤ off ∧ off + Z.of_nat (length buf) ≤ MAX_SIZE
  | IOTruncate a => 0 ≤ st_size a ≤ MAX_SIZE
  | IOGetattr | IOFlush => True
  end.

Fixpoint io_run (c : bytes) (rs : list io_req) : bytes * list io_reply :=
  match rs with
  | [] => (c, [])
  | r :: rs =>
      let '(c1, a) := io_step c r in
      let '(c2, l) := io_run c1 rs in (c2, a :: l)
  end.

Fixpoint io_all_ok (c : bytes) (rs : list io_req) : Prop :=
  match rs with
  | [] => True
  | r :: rs => io_ok c r ∧ io_all_ok (fst (io_step c r)) rs
  end.

(** What a reply of the file system tells. *)
Definition shows (a : io_reply) (r : reply) : Prop :=
  match a, r with
  | IOData b, ReplyBuf b' => b' = b
  | IOWrote n, ReplyWrite n' => n' = n
  | IOSize n, ReplyAttr st => st_size st = n
  | IODone, ReplyErr 0 => True
  | _, _ => False
  end.

(** A request changes the file, and has to be logged. *)
Definition io_changes (r : io_req) : bool :=
  match r with IOWrite _ _ | IOTruncate _ => true | _ => false end.

Lemma changes_cons r rs :
  length (filter io_changes (r :: rs)) = ((if io_changes r then 1 else 0) + length (filter io_changes rs))%nat.
Proof. rewrite filter_cons. by destruct (io_changes r). Qed.

(** The FUSE request: an open file's handle is its inode. *)
Definition io_request (ino : Z) (r : io_req) : request :=
  match r with
  | IORead size off => R_read ino size off ino
  | IOWrite buf off => R_write ino buf off ino
  | IOTruncate a => R_setattr ino a FUSE_SET_ATTR_SIZE
  | IOGetattr => R_getattr ino
  | IOFlush => R_flush ino ino
  end.

(** ** Lemmas: contents *)

Lemma overwrite_length pos buf c :
  length (overwrite pos buf c) = Nat.max (length c) (pos + length buf).
Proof. unfold overwrite. rewrite splice_length; rewrite length_resize; lia. Qed.

Lemma overwrite_lookup pos buf c i :
  (i < length (overwrite pos buf c))%nat →
  overwrite pos buf c !! i =
    Some (if decide (pos ≤ i < pos + length buf)%nat then default Byte.x00 (buf !! (i - pos)%nat)
          else default Byte.x00 (c !! i)).
Proof.
  rewrite overwrite_length. intros Hi. unfold overwrite.
  rewrite splice_lookup by (rewrite length_resize; lia).
  assert (resize (Nat.max (length c) (pos + length buf)) Byte.x00 c !! i =
    Some (default Byte.x00 (c !! i))) as Hr.
  { destruct (lookup_lt_is_Some_2 (resize (Nat.max (length c) (pos + length buf)) Byte.x00 c) i) as [b Hb];
      [by rewrite length_resize|].
    rewrite Hb. destruct (decide (i < length c)%nat) as [Hc|Hc].
    - rewrite lookup_resize in Hb by lia. by rewrite Hb.
    - rewrite lookup_resize_new in Hb by lia. injection Hb as <-. by rewrite lookup_ge_None_2 by lia. }
  destruct (decide (i < pos)%nat); [by rewrite decide_False by lia|].
  destruct (decide (i < pos + length buf)%nat).
  - rewrite decide_True by lia.
    destruct (lookup_lt_is_Some_2 buf (i - pos)) as [b ->]; [lia|done].
  - by rewrite decide_False by lia.
Qed.

Section Contents.
Context {S : Type} `{KVStoreLaws S} `{FsEnv}.

(** What a file object holds. *)
Definition contents (f : LogFSFile) (kv : S) : bytes :=
  file_bytes kv (handle f) (meta_fileChunkSize (meta f)) 0
    (Z.to_nat (meta_fileTotalSize (meta f))).

Lemma contents_length f (kv : S) :
  file_inv f kv → Z.of_nat (length (contents f kv)) = meta_fileTotalSize (meta f).
Proof.
  intros I. unfold contents. rewrite file_bytes_length.
  pose proof (wf_fileTotalSize _ (fi_wf _ _ I)). lia.
Qed.

Lemma contents_lookup f (kv : S) i :
  (i < length (contents f kv))%nat → contents f kv !! i = Some (fbyte f kv (Z.of_nat i)).
Proof.
  unfold contents. rewrite file_bytes_length. intros Hi. rewrite file_bytes_lookup by done.
  done.
Qed.

(** A byte of the file in terms of its contents. *)
Lemma contents_default f (kv : S) i :
  file_inv f kv → 0 ≤ i < OFF_MAX →
  fbyte f kv i = default Byte.x00 (contents f kv !! Z.to_nat i).
Proof.
  intros I Hi. pose proof (contents_length f kv I) as Hl.
  destruct (decide (i < meta_fileTotalSize (meta f))) as [Hin|Hout].
  - rewrite contents_lookup by lia. cbn. f_equal. lia.
  - rewrite lookup_ge_None_2 by lia. apply (fi_eof _ _ I). lia.
Qed.

(** Contents are determined by the size and the bytes. *)
Lemma contents_eq f (kv : S) c :
  file_inv f kv → Z.of_nat (length c) = meta_fileTotalSize (meta f) →
  (∀ i, (i < length c)%nat → c !! i = Some (fbyte f kv (Z.of_nat i))) →
  contents f kv = c.
Proof.
  intros I Hl Hc. pose proof (contents_length f kv I). apply list_eq. intros i.
  destruct (decide (i < length c)%nat).
  - rewrite Hc by done. apply contents_lookup. lia.
  - rewrite !lookup_ge_None_2 by lia. done.
Qed.

Lemma read_contents f (kv : S) clk off size :
  file_inv f kv → meta_evictionState (meta f) = ES_RESIDENT →
  0 ≤ off ≤ Z.of_nat (length (contents f kv)) → 0 ≤ size ≤ MAX_SIZE →
  let out := slice (Z.to_nat off) (Z.to_nat size) (contents f kv) in
  read off size true (mkFS f kv clk) =
    Ok ((STATUS_OK, Z.of_nat (length out), out), mkFS f kv clk).
Proof.
  intros I Hr Ho Hs out. rewrite (contents_length f kv I) in Ho.
  rewrite (read_ok f kv clk off size) by done.
  set (n := Z.min size (meta_fileTotalSize (meta f) - off)).
  assert (out = file_bytes kv (handle f) (meta_fileChunkSize (meta f)) off (Z.to_nat n)) as ->.
  { unfold out. rewrite <-(slice_file_bytes kv _ _ off (Z.to_nat n)
      (Z.to_nat (meta_fileTotalSize (meta f)))) by lia.
    fold (contents f kv). pose proof (contents_length f kv I). unfold slice.
    destruct (decide (size ≤ meta_fileTotalSize (meta f) - off)).
    - by replace n with size by lia.
    - rewrite !take_ge; rewrite ?length_drop; [done|lia|lia]. }
  rewrite file_bytes_length. by replace (Z.of_nat (Z.to_nat n)) with n by lia.
Qed.

Lemma write_contents `{!KVReliable S} f (kv : S) clk off buf :
  file_inv f kv → 0 ≤ off → off + Z.of_nat (length buf) ≤ MAX_SIZE →
  ∃ f' kv', write off (Some buf) true (mkFS f kv clk) =
      Ok ((STATUS_OK, Z.of_nat (length buf)), mkFS f' kv' (Datatypes.S (Datatypes.S clk)))
    ∧ file_inv f' kv' ∧ synced f' kv' ∧ kept f f' ∧ only_file (handle f) kv kv'
    ∧ (no_chunks_past f kv → no_chunks_past f' kv')
    ∧ contents f' kv' = overwrite (Z.to_nat off) buf (contents f kv).
Proof.
  intros I Ho Hm. destruct (written_state f kv clk off buf I Ho Hm)
    as (f' & kv' & E & I' & Hh & Hc & He & Hsz & Sy & Hk & Ho' & Htl & Hb).
  exists f', kv'. do 6 (split; [done|]). pose proof (contents_length f kv I) as Hl.
  apply contents_eq; [done|rewrite overwrite_length; lia|].
  intros i Hi. rewrite overwrite_lookup by done. rewrite overwrite_length in Hi.
  pose proof (fi_total _ _ I). unfold MAX_SIZE, OFF_MAX in *. unfold fbyte. rewrite Hh, Hc.
  fold (fbyte f kv' (Z.of_nat i)). rewrite Hb by lia. f_equal.
  destruct (decide (off ≤ Z.of_nat i < off + Z.of_nat (length buf))).
  - rewrite decide_True by lia. do 2 f_equal. lia.
  - rewrite decide_False by lia. rewrite contents_default by (done || unfold OFF_MAX; lia).
    by rewrite Nat2Z.id.
Qed.

Lemma SetSize_contents `{!KVReliable S} f (kv : S) clk m n :
  kv_get kv (inode_key (handle f)) = Some (encode_meta m) → file_inv (set_meta m f) kv →
  0 ≤ n ≤ MAX_SIZE →
  ∃ f' kv', SetSize n (mkFS f kv clk) = Ok (STATUS_OK, mkFS f' kv' (Datatypes.S clk))
    ∧ file_inv f' kv' ∧ synced f' kv' ∧ kept (set_meta m f) f' ∧ only_file (handle f) kv kv'
    ∧ (no_chunks_past (set_meta m f) kv → no_chunks_past f' kv')
    ∧ contents f' kv' = resize (Z.to_nat n) Byte.x00 (contents (set_meta m f) kv).
Proof.
  intros E I Hn. destruct (SetSize_ok f kv clk m n E I Hn) as (kv1 & kv' & Es & R & Ep & Htl).
  pose proof (SetSize_inv f kv kv1 kv' clk m n I Hn R Ep) as I'.
  eexists _, kv'. split; [exact Es|]. split; [exact I'|].
  split; [apply (kv_put_eq _ _ _ _ Ep)|]. split; [done|].
  split; [apply (only_file_put _ _ kv1 _ _ _ (resized_only _ _ _ _ _ R) Ep)|].
  assert (u64 n = n) as Hu by (apply u64_small; unfold MAX_SIZE in *; lia).
  split.
  { intros Hp x Hx Hl. cbn in Hl |- *. rewrite Hu in Hl. rewrite (kv_put_ne _ _ _ _ _ _ Ep) by apply inode_sub_key.
    by apply (Htl Hp). }
  apply contents_eq; [exact I'|rewrite length_resize; cbn; lia|].
  rewrite length_resize. intros i Hi. unfold fbyte. cbn. rewrite (inode_put_byte _ _ _ _ _ _ _ Ep).
  unfold MAX_SIZE, OFF_MAX in *. rewrite (resized_bytes _ _ _ _ _ R) by (unfold OFF_MAX; lia).
  rewrite decide_True by lia.
  change (file_byte _ _ _ _) with (fbyte (set_meta m f) kv (Z.of_nat i)).
  rewrite contents_default by (done || unfold OFF_MAX; lia). rewrite Nat2Z.id.
  destruct (decide (i < length (contents (set_meta m f) kv))%nat) as [Hin|Hout].
  - rewrite lookup_resize by lia. by destruct (lookup_lt_is_Some_2 _ _ Hin) as [b ->].
  - rewrite lookup_resize_new by lia. by rewrite (lookup_ge_None_2 (contents _ _)) by lia.
Qed.

(** A store with the same chunks holds the same file. *)
Lemma file_inv_chunks f (kv kv' : S) :
  file_inv f kv → (∀ j, kv_get kv' (sub_key (handle f) j) = kv_get kv (sub_key (handle f) j)) →
  file_inv f kv' ∧ contents f kv' = contents f kv.
Proof.
  intros [W Hh Hf Hi Hc Ht Hok He] E.
  assert (∀ cs i, file_byte kv' (handle f) cs i = file_byte kv (handle f) cs i) as Hb
    by (intros cs i; unfold file_byte; by rewrite E).
  split; [split; try done|unfold contents; apply file_bytes_ext; by intros].
  - intros j v Hj. rewrite E. by apply Hok.
  - intros i Hir. rewrite Hb. by apply He.
Qed.

(** A change of one file leaves the keys of another. *)
Lemma only_file_other (kv kv' : S) h j :
  only_file h kv kv' → 0 ≤ h < 18446744073709551616 → 0 ≤ j < 18446744073709551616 → j ≠ h →
  kv_get kv' (inode_key j) = kv_get kv (inode_key j)
  ∧ ∀ c, kv_get kv' (sub_key j c) = kv_get kv (sub_key j c).
Proof.
  intros Ho Hh Hj Hne. assert (u64 j ≠ u64 h) as Hu by by rewrite !u64_small.
  split; [|intros c]; apply Ho.
  - by intros E%inode_key_inj.
  - intros c _. apply inode_sub_key.
  - apply not_eq_sym, inode_sub_key.
  - intros c' _. by apply sub_key_handle_ne.
Qed.

End Contents.

(** ** The file system represents the abstract file *)

Section Session.
Context {S : Type} `{KVStoreLaws S} `{!KVReliable S} `{FsEnv} `{MountEnv}.

Abbreviation kv_of := (λ s : MountState S, w_kv (m_world s)).

(** Inode [ino] is open, its data resident, and its object in memory holds [c]: the inode
    is in the table, held and with valid attributes. *)
Record cached (s : MountState S) (ino : Z) (c : bytes) (i : FuseKvfsInode) (f : LogFSFile) : Prop := {
  rp_inode : m_inodes s !! ino = Some i;
  rp_held : 1 ≤ nlookup i;
  rp_ino : st_ino (attr i) = ino;
  rp_valid : istate i ≠ I_INVALID;
  rp_size : st_size (attr i) = Z.of_nat (length c);
  rp_file : w_heap (m_world s) !! ino = Some f;
  rp_handle : handle f = ino;
  rp_inv : file_inv f (kv_of s);
  rp_resident : meta_evictionState (meta f) = ES_RESIDENT;
  rp_contents : contents f (kv_of s) = c;
}.

(** The same, and the metadata is stored as it is cached. *)
Definition represents (s : MountState S) (ino : Z) (c : bytes) (i : FuseKvfsInode) (f : LogFSFile) : Prop :=
  cached s ino c i f ∧ synced f (kv_of s).

Definition open_file (s : MountState S) (ino : Z) (c : bytes) : Prop :=
  ∃ i f, represents s ino c i f.

(** FUSE replies are delivered. *)
Definition replies_delivered : Prop := ∀ r, fuse_reply_ret r = 0.

(** The session loop: one request after the other. *)
Fixpoint serve (err_ops : bool) (rs : list request) : M (MountState S) unit :=
  match rs with
  | [] => mret tt
  | r :: rs => dispatch err_ops r;; serve err_ops rs
  end.

(** What a request on inode [ino] leaves alone: the other inodes and objects, and the keys
    of the store that are not of [ino]. *)
Record io_frame (ino : Z) (s s' : MountState S) : Prop := {
  fr_inodes j : j ≠ ino → m_inodes s' !! j = m_inodes s !! j;
  fr_heap j : j ≠ ino → w_heap (m_world s') !! j = w_heap (m_world s) !! j;
  fr_kv : only_file ino (kv_of s) (kv_of s');
  fr_fs_id : m_fs_id s' = m_fs_id s;
  fr_handleId : m_handleId s' = m_handleId s;
}.

Lemma io_frame_refl ino s : io_frame ino s s.
Proof. by split. Qed.
Lemma io_frame_trans ino s1 s2 s3 : io_frame ino s1 s2 → io_frame ino s2 s3 → io_frame ino s1 s3.
Proof.
  intros F1 F2. split.
  - intros j Hj. by rewrite (fr_inodes _ _ _ F2), (fr_inodes _ _ _ F1).
  - intros j Hj. by rewrite (fr_heap _ _ _ F2), (fr_heap _ _ _ F1).
  - apply (only_file_trans _ _ (kv_of s2)); [apply F1|apply F2].
  - by rewrite (fr_fs_id _ _ _ F2), (fr_fs_id _ _ _ F1).
  - by rewrite (fr_handleId _ _ _ F2), (fr_handleId _ _ _ F1).
Qed.

(** The file is still open in [s'], with as many holds and links, and holds [c]. *)
Definition still_open (s s' : MountState S) (ino : Z) (c : bytes) (i : FuseKvfsInode) (f : LogFSFile) : Prop :=
  ∃ i' f', represents s' ino c i' f' ∧ nlookup i' = nlookup i ∧ kept f f'
    ∧ (no_chunks_past f (kv_of s) → no_chunks_past f' (kv_of s')).

(** One request does what the abstract file does: answer, new contents, log. *)
Definition refines_step (s : MountState S) (ino : Z) (c : bytes) (r : io_req) (e : bool)
    (i : FuseKvfsInode) (f : LogFSFile) : Prop :=
  ∃ s' rep es, dispatch e (io_request ino r) s = Ok (tt, s')
    ∧ m_replies s' = m_replies s ++ [rep] ∧ shows (snd (io_step c r)) rep
    ∧ still_open s s' ino (fst (io_step c r)) i f ∧ io_frame ino s s'
    ∧ log_deque (m_log s') = log_deque (m_log s) ++ es
    ∧ length es = (if io_changes r then 1 else 0)%nat
    ∧ Forall (λ e, e_inode_num e = Some ino) es.

Lemma fi_inode_run (s : MountState S) ino i :
  m_inodes s !! ino = Some i → st_ino (attr i) = ino → ino ≠ 0 →
  fk_fi_to_inode ino ino s = Ok (ino, s).
Proof.
  intros Ei Hi Hz. unfold fk_fi_to_inode. rewrite (proj2 (Z.eqb_neq _ _)) by done.
  rewrite (bind_ok _ _ _ _ _ (inode_run s ino i Ei)). rewrite Hi, Z.eqb_refl.
  by rewrite (bind_ok _ _ _ _ _ (EXPECT_true _ _ eq_refl)).
Qed.

Lemma Refresh_valid (s : MountState S) ino i :
  m_inodes s !! ino = Some i → istate i ≠ I_INVALID → inode_Refresh ino s = Ok (0, s).
Proof.
  intros Ei Hst. unfold inode_Refresh. rewrite (bind_ok _ _ _ _ _ (inode_run s ino i Ei)).
  by rewrite decide_False.
Qed.

(** An update of log and replies leaves the file open. *)
Lemma represents_ext s s' ino c i f :
  represents s ino c i f → m_world s' = m_world s → m_inodes s' !! ino = m_inodes s !! ino →
  represents s' ino c i f.
Proof. intros [[] Sy] Hw Hi. split; [split|]; rewrite ?Hw, ?Hi; done. Qed.

(** A read request, whatever the stored metadata. *)
Lemma read_run s ino i f size off e :
  replies_delivered → ino ≠ 0 → m_inodes s !! ino = Some i → st_ino (attr i) = ino → istate i ≠ I_INVALID →
  w_heap (m_world s) !! ino = Some f → file_inv f (kv_of s) → meta_evictionState (meta f) = ES_RESIDENT →
  io_ok (contents f (kv_of s)) (IORead size off) →
  dispatch e (R_read ino size off ino) s =
    Ok (tt, add_reply (ReplyBuf (slice (Z.to_nat off) (Z.to_nat size) (contents f (kv_of s)))) s).
Proof.
  intros Hr Hz Ei Hi Hv Ef I Hres [Ho Hs].
  set (out := slice (Z.to_nat off) (Z.to_nat size) (contents f (kv_of s))).
  assert (Z.of_nat (length out) ≤ size) as Hlen.
  { unfold out, slice. rewrite length_take. lia. }
  change (dispatch e (R_read ino size off ino) s) with (fk_read ino size off ino s).
  unfold fk_read. rewrite (bind_ok _ _ _ _ _ (fi_inode_run s ino i Ei Hi Hz)).
  unfold inode_Read. rewrite (bind_ok _ _ _ _ _ (Refresh_valid s ino i Ei Hv)).
  rewrite (bind_ok _ _ s 0 (add_reply (ReplyBuf out) s)); [done|]. cbn [negb Z.eqb].
  rewrite (bind_ok _ _ _ _ _ (on_file_run s ino _ f _ f (kv_of s) (w_clock (m_world s)) Ef
    (read_contents f (kv_of s) (w_clock (m_world s)) off size I Hres Ho Hs))). fold out.
  rewrite insert_id by done. replace (set_world _ s) with s by (by destruct s as [[]]).
  rewrite (proj2 (Z.ltb_ge _ _)) by done. rewrite (bind_ok _ _ s tt s) by done.
  cbn [StatusToErrno Z.eqb]. rewrite Nat2Z.id, firstn_all.
  rewrite (bind_ok _ _ s tt (add_reply (ReplyBuf out) s)); [done|].
  unfold fuse_reply. mrun. by rewrite Hr.
Qed.

Lemma read_refines s ino c size off e i f :
  replies_delivered → ino ≠ 0 → represents s ino c i f → io_ok c (IORead size off) →
  refines_step s ino c (IORead size off) e i f.
Proof.
  intros Hr Hz R Hok. pose proof R as [[Ei Hh Hi Hv Hsz Ef Hfh I Hres Hc] Sy]. subst c.
  eexists _, _, []. split; [by apply (read_run s ino i f)|].
  split; [done|split; [done|split; [|split; [by split|split; [by rewrite app_nil_r|done]]]]].
  exists i, f. split; [by apply (represents_ext s)|]. split; [done|]. split; [apply kept_refl|done].
Qed.

(** An entry without an xid gets the next one. *)
Lemma append_new (s : MountState S) ent :
  e_xid ent = None →
  at_log (Append ent) s =
    Ok (next_xid (m_log s),
        set_log (set_deque (log_deque (m_log s) ++ [with_xid (next_xid (m_log s)) ent])
                   (set_next_xid (next_xid (m_log s) + 1) (m_log s))) s).
Proof.
  intros E. unfold at_log, Append. replace (has_xid ent) with false; [done|].
  unfold has_xid. by rewrite E.
Qed.

Lemma write_refines s ino c buf off e i f :
  ino ≠ 0 → cached s ino c i f → io_ok c (IOWrite buf off) → refines_step s ino c (IOWrite buf off) e i f.
Proof.
  intros Hz R [Ho Hm]. pose proof R as [Ei Hh Hi Hv Hsz Ef Hfh I Hres Hc].
  destruct (write_contents f (kv_of s) (w_clock (m_world s)) off buf I Ho Hm)
    as (f' & kv' & Ew & I' & Sy' & Hk & Hof & Htl & Hc').
  set (clk := Datatypes.S (Datatypes.S (w_clock (m_world s)))) in Ew.
  set (s1 := set_world (mkW (<[ino := f']> (w_heap (m_world s))) kv' clk) s).
  set (t := env_time clk).
  set (s2 := set_world (mkW (<[ino := f']> (<[ino := f']> (w_heap (m_world s)))) kv' (Datatypes.S clk)) s1).
  set (len := Z.of_nat (length buf)) in *.
  assert (i64 (u64 (off + len)) = off + len) as Hconv.
  { unfold MAX_SIZE in Hm. rewrite u64_small, i64_small by lia. done. }
  set (a := stat_times (st_atime (attr i)) t
         (stat_size (Z.max (st_size (attr i)) (i64 (u64 (off + len)))) (attr i))).
  set (i2 := set_istate I_DIRTY (set_attr a i)).
  set (s3 := set_inodes (<[ino := i2]> (m_inodes s)) s2).
  set (ent := log_entry OP_COMMIT None (m_fs_id s) ino None None (Some off) (Some (i64 (u64 (off + len))))).
  set (s4 := set_log (set_deque (log_deque (m_log s) ++ [with_xid (next_xid (m_log s)) ent])
               (set_next_xid (next_xid (m_log s) + 1) (m_log s))) s3).
  exists (add_reply (ReplyWrite len) s4), (ReplyWrite len), [with_xid (next_xid (m_log s)) ent].
  split; [|split; [|split; [done|split; [|split; [|split; [done|by repeat constructor]]]]]].
  - change (dispatch e (io_request ino (IOWrite buf off)) s) with (fk_write ino buf off ino s).
    unfold fk_write. rewrite (bind_ok _ _ _ _ _ (fi_inode_run s ino i Ei Hi Hz)).
    unfold inode_Write. rewrite (bind_ok _ _ _ _ _ (Refresh_valid s ino i Ei Hv)).
    rewrite (bind_ok _ _ _ _ _ (on_file_run s ino _ f _ _ _ _ Ef Ew)). fold s1 len. cbn iota beta.
    rewrite (bind_ok _ _ s1 0 s4); [reflexivity|].
    rewrite decide_True by done.
    rewrite (bind_ok _ _ _ t s2)
      by (apply (on_file_run s1 ino time f' t f' kv' (Datatypes.S clk)); [apply lookup_insert_eq|done]).
    rewrite (bind_ok _ _ _ _ _ (upd_inode_run s2 ino i _ Ei)). fold a.
    unfold set_state. rewrite (bind_ok _ _ _ _ _ (upd_inode_run _ ino _ _ (lookup_insert_eq _ _ _))).
    cbn [m_inodes set_inodes s2 s1 set_world]. rewrite insert_insert_eq. fold i2.
    change (set_inodes _ (set_inodes _ _)) with s3.
    rewrite (bind_ok _ _ s3 s3 s3) by reflexivity.
    rewrite (bind_ok _ _ _ _ _ (inode_run s3 ino i2 (lookup_insert_eq _ _ _))).
    change (st_ino (attr i2)) with (st_ino (attr i)). rewrite Hi.
    by rewrite (bind_ok _ _ _ _ _ (append_new s3 ent eq_refl)).
  - done.
  - exists i2, f'. split; [|done]. split; [split|done]; cbn; try done.
    + apply lookup_insert_eq.
    + rewrite overwrite_length. rewrite Hconv. unfold len. lia.
    + apply lookup_insert_eq.
    + by rewrite (kp_handle _ _ Hk).
    + by rewrite (kp_evicted _ _ Hk).
    + by subst c.
  - rewrite Hfh in Hof. split; cbn; try done; intros j Hj; by rewrite !lookup_insert_ne.
Qed.

Lemma flush_refines s ino c e i f :
  ino ≠ 0 → cached s ino c i f → refines_step s ino c IOFlush e i f.
Proof.
  intros Hz R. pose proof R as [Ei Hh Hi Hv Hsz Ef Hfh I Hres Hc].
  destruct (kv_put_true (kv_of s) (inode_key (handle f)) (encode_meta (meta f))) as [kv' Ep].
  set (f' := set_metaDirty false f).
  set (s1 := set_world (mkW (<[ino := f']> (w_heap (m_world s))) kv' (w_clock (m_world s))) s).
  assert (flush (mkFS f (kv_of s) (w_clock (m_world s))) =
    Ok (STATUS_OK, mkFS f' kv' (w_clock (m_world s)))) as Efl.
  { unfold flush, this, fput, upd. mrun. cbn [f_this f_kv f_clock].
    rewrite (fi_handle _ _ I), Z.eqb_refl. cbn [negb f_this f_kv]. by rewrite Ep. }
  exists (add_reply (ReplyErr 0) s1), (ReplyErr 0), [].
  split; [|split; [done|split; [done|split; [|split; [|split; [by rewrite app_nil_r|done]]]]]].
  - change (dispatch e (io_request ino IOFlush) s) with (fk_flush ino ino s).
    unfold fk_flush. rewrite (bind_ok _ _ _ _ _ (fi_inode_run s ino i Ei Hi Hz)).
    unfold inode_Flush. rewrite (bind_ok _ _ _ _ _ (inode_run s ino i Ei)).
    rewrite (bind_ok _ _ s tt s) by (apply EXPECT_true, bool_decide_eq_true_2; done).
    by rewrite (bind_ok _ _ _ _ _ (on_file_run s ino _ f _ _ _ _ Ef Efl)).
  - assert (file_inv f' kv') as I'.
    { replace f' with (set_metaDirty false (set_meta (meta f) f)) by (by destruct f).
      apply (file_inv_flush f (meta f) (kv_of s) kv' true); try apply I; done. }
    exists i, f'. split; [|split; [done|split; [by split|]]].
    2:{ intros Htl j Hj Hl. rewrite (kv_put_ne _ _ _ _ _ _ Ep) by apply inode_sub_key. by apply Htl. }
    split; [split|apply (kv_put_eq _ _ _ _ Ep)]; cbn; try done.
    + apply lookup_insert_eq.
    + rewrite <-Hc. apply contents_eq; [done|by rewrite contents_length|].
      intros k Hk. rewrite contents_lookup by done. unfold fbyte. cbn.
      by rewrite (inode_put_byte _ _ _ _ _ _ _ Ep).
  - split; cbn; try done; [intros j Hj; by rewrite lookup_insert_ne|].
    rewrite Hfh in Ep. by apply (only_file_put _ _ (kv_of s) _ _ _ (λ k _, eq_refl) Ep).
Qed.

(** A request that holds the inode, runs [m] and releases it. *)
Lemma held_run s ino i (m : Z → M (MountState S) unit) s' i' :
  m_inodes s !! ino = Some i → 1 ≤ nlookup i →
  m ino (set_inodes (<[ino := set_nlookup (nlookup i + 1) i]> (m_inodes s)) s) = Ok (tt, s') →
  m_inodes s' !! ino = Some i' → nlookup i' = nlookup i + 1 →
  (j ← fk_ino_to_inode ino; m j;; Release j 1;; mret tt) s =
    Ok (tt, set_inodes (<[ino := set_nlookup (nlookup i) i']> (m_inodes s')) s').
Proof.
  intros Ei Hh Em Ei' Hn. rewrite (mk_self s) at 1.
  rewrite (bind_ok _ _ _ _ _ (mk_hold s _ _ _ _ _ ino i Ei)).
  change (mk s _ _ _ _ _) with (set_inodes (<[ino := set_nlookup (nlookup i + 1) i]> (m_inodes s)) s).
  rewrite (bind_ok _ _ _ _ _ Em). rewrite (mk_self s') at 1.
  rewrite (bind_ok _ _ _ _ _ (mk_release s' _ _ _ _ _ ino i' Ei' ltac:(lia))).
  replace (nlookup i' - 1) with (nlookup i) by lia. done.
Qed.

(** A getattr request on valid attributes. *)
Lemma getattr_run s ino i e :
  m_inodes s !! ino = Some i → 1 ≤ nlookup i → istate i ≠ I_INVALID →
  dispatch e (R_getattr ino) s = Ok (tt, add_reply (ReplyAttr (attr i)) s).
Proof.
  intros Ei Hh Hv. set (i1 := set_nlookup (nlookup i + 1) i).
  set (s1 := set_inodes (<[ino := i1]> (m_inodes s)) s). set (s2 := add_reply (ReplyAttr (attr i)) s1).
  assert (Getattr ino s1 = Ok (tt, s2)) as Eg.
  { unfold Getattr.
    rewrite (bind_ok _ _ _ _ _ (Refresh_valid s1 ino i1 (lookup_insert_eq _ _ _) Hv)). cbn [negb Z.eqb].
    by rewrite (bind_ok _ _ _ _ _ (inode_run s1 ino i1 (lookup_insert_eq _ _ _))). }
  change (dispatch e (R_getattr ino) s) with (fk_getattr ino s).
  unfold fk_getattr. rewrite (held_run s ino i Getattr s2 i1 Ei Hh Eg (lookup_insert_eq _ _ _) eq_refl).
  unfold set_inodes, add_reply. cbn. rewrite insert_insert_eq.
  replace (set_nlookup (nlookup i) i1) with i by by destruct i. rewrite insert_id by done. by destruct s.
Qed.

Lemma getattr_refines s ino c e i f : represents s ino c i f → refines_step s ino c IOGetattr e i f.
Proof.
  intros R. pose proof R as [[Ei Hh Hi Hv Hsz Ef Hfh I Hres Hc] Sy].
  eexists _, _, []. split; [by apply (getattr_run s ino i)|].
  split; [done|split; [done|split; [|split; [by split|split; [by rewrite app_nil_r|done]]]]].
  exists i, f. split; [by apply (represents_ext s)|]. split; [done|]. split; [apply kept_refl|done].
Qed.

(** [SetSize] after the xid was set in memory: it starts from the stored metadata. *)
Lemma truncate_file s ino f x n :
  w_heap (m_world s) !! ino = Some f → file_inv f (kv_of s) → synced f (kv_of s) → 0 ≤ n ≤ MAX_SIZE →
  ∃ f' kv', (on_file ino (upd_meta (set_xid x));; on_file ino (SetSize n)) s =
      Ok (STATUS_OK, set_world (mkW (<[ino := f']> (w_heap (m_world s))) kv'
                                  (Datatypes.S (w_clock (m_world s)))) s)
    ∧ file_inv f' kv' ∧ synced f' kv' ∧ kept f f' ∧ only_file (handle f) (kv_of s) kv'
    ∧ (no_chunks_past f (kv_of s) → no_chunks_past f' kv')
    ∧ contents f' kv' = resize (Z.to_nat n) Byte.x00 (contents f (kv_of s)).
Proof.
  intros Ef I Sy Hn. set (f1 := set_meta (set_xid x (meta f)) f).
  assert (set_meta (meta f) f1 = f) as Hf1 by (by destruct f).
  destruct (SetSize_contents f1 (kv_of s) (w_clock (m_world s)) (meta f) n)
    as (f' & kv' & E & I' & Sy' & Hk & Hof & Htl & Hc); [done|by rewrite Hf1|done|].
  rewrite Hf1 in Hc, Hk, Htl. exists f', kv'. split; [|done].
  rewrite (bind_ok _ _ _ _ _ (on_file_run s ino (upd_meta (set_xid x)) f tt f1 _ _ Ef eq_refl)).
  set (s1 := set_world _ s). rewrite (on_file_run s1 ino (SetSize n) f1 STATUS_OK f' kv'
    (Datatypes.S (w_clock (m_world s))) (lookup_insert_eq _ _ _) E).
  unfold s1. cbn [w_heap m_world set_world]. by rewrite insert_insert_eq.
Qed.

(** The attributes an inode caches after its size was set. *)
Definition sized (n : Z) (i : FuseKvfsInode) : FuseKvfsInode :=
  if negb (st_size (attr i) =? n) then set_istate I_DIRTY (set_attr (stat_size n (attr i)) i) else i.

Lemma sized_size n i : st_size (attr (sized n i)) = n.
Proof. unfold sized. by destruct (Z.eqb_spec (st_size (attr i)) n). Qed.

Lemma sized_rest n i :
  istate i ≠ I_INVALID →
  nlookup (sized n i) = nlookup i ∧ st_ino (attr (sized n i)) = st_ino (attr i) ∧ istate (sized n i) ≠ I_INVALID.
Proof. unfold sized. by destruct (negb _). Qed.

Lemma set_size_run (s : MountState S) ino i n :
  m_inodes s !! ino = Some i →
  (i ← inode ino; (if negb (st_size (attr i) =? n)
    then upd_inode ino (set_attr (stat_size n (attr i)));; set_state ino I_DIRTY
    else mret tt)) s = Ok (tt, set_inodes (<[ino := sized n i]> (m_inodes s)) s).
Proof.
  intros Ei. rewrite (bind_ok _ _ _ _ _ (inode_run s ino i Ei)). unfold sized. destruct (negb _).
  - rewrite (bind_ok _ _ _ _ _ (upd_inode_run s ino i _ Ei)). unfold set_state.
    rewrite (upd_inode_run _ ino _ _ (lookup_insert_eq _ _ _)).
    cbn [m_inodes set_inodes]. by rewrite insert_insert_eq.
  - rewrite insert_id by done. by destruct s as [[]].
Qed.

Lemma Setattr_truncates s ino c i f a :
  represents s ino c i f → 0 ≤ st_size a ≤ MAX_SIZE →
  ∃ s' i' rep ent, Setattr ino a FUSE_SET_ATTR_SIZE s = Ok (tt, s')
    ∧ m_replies s' = m_replies s ++ [ReplyAttr rep] ∧ st_size rep = st_size a
    ∧ nlookup i' = nlookup i ∧ e_inode_num ent = Some ino ∧ io_frame ino s s'
    ∧ (∃ f', represents s' ino (resize (Z.to_nat (st_size a)) Byte.x00 c) i' f' ∧ kept f f'
         ∧ (no_chunks_past f (kv_of s) → no_chunks_past f' (kv_of s')))
    ∧ log_deque (m_log s') = log_deque (m_log s) ++ [ent].
Proof.
  intros [[Ei Hh Hi Hv Hsz Ef Hfh I Hres Hc] Sy] Hn.
  set (x := next_xid (m_log s)). set (s0 := set_log (set_next_xid (x + 1) (m_log s)) s).
  destruct (truncate_file s0 ino f x (st_size a) Ef I Sy Hn) as (f' & kv' & E & I' & Sy' & Hk & Hof & Htl & Hc').
  set (s1 := set_world _ s0) in E.
  set (i' := sized (st_size a) i). set (s2 := set_inodes (<[ino := i']> (m_inodes s)) s1).
  pose proof (set_size_run s1 ino i (st_size a) Ei) as Ea. fold i' s2 in Ea.
  assert (st_size (attr i') = st_size a) as Hs' by apply sized_size.
  destruct (sized_rest (st_size a) i Hv) as (Hl & Hi' & Hv'). fold i' in Hl, Hi', Hv'. rewrite Hi in Hi'.
  set (ent := log_entry OP_SETATTR (Some x) (m_fs_id s) ino None None None
                (Some (i64 (meta_fileTotalSize (meta f'))))).
  set (s3 := set_log (set_deque (log_deque (m_log s) ++ [ent]) (set_next_xid (x + 1) (m_log s))) s2).
  assert (m_inodes s2 !! ino = Some i') as Ei2 by apply lookup_insert_eq.
  exists (add_reply (ReplyAttr (attr i')) s3), i', (attr i'), ent.
  split; [|split; [done|split; [done|split; [done|split; [done|split; [|split; [|done]]]]]]].
  - unfold Setattr. rewrite (bind_ok _ _ s x s0) by done.
    rewrite (bind_ok _ _ _ _ _ (Refresh_valid s0 ino i Ei Hv)).
    change (has_bit FUSE_SET_ATTR_SIZE FUSE_SET_ATTR_SIZE) with true. cbv iota beta.
    rewrite (bind_ok _ _ s0 (STATUS_OK, 0) s2).
    2:{ revert E Ea. unfold mbind, M_bind.
        destruct (on_file ino (upd_meta (set_xid x)) s0) as [[[] sa]|]; [|done].
        intros ->. destruct (inode ino s1) as [[j sb]|]; [|done]. cbn [StatusToErrno].
        by intros ->. }
    cbv iota beta. rewrite (bind_ok _ _ _ _ _ (inode_run s2 ino i' Ei2)).
    rewrite (bind_ok _ _ s2 (attr i') s2) by done. cbn [negb Z.eqb].
    rewrite (bind_ok _ _ s2 s2 s2) by reflexivity.
    rewrite (bind_ok _ _ _ _ _ (inode_run s2 ino i' Ei2)). rewrite Hi'.
    assert (on_file ino this s2 = Ok (f', s2)) as Et.
    { rewrite (on_file_run s2 ino this f' f' f' kv' (w_clock (m_world s2))) by
        (done || apply lookup_insert_eq).
      unfold s2, s1. cbn [m_world set_inodes set_world w_heap w_clock]. by rewrite insert_insert_eq. }
    by rewrite (bind_ok _ _ _ _ _ Et).
  - rewrite Hfh in Hof. split; cbn; try done; intros j Hj; by rewrite lookup_insert_ne.
  - exists f'. split; [|done]. split; [split|done]; try done; cbn.
    + by rewrite Hl.
    + rewrite length_resize. lia.
    + apply lookup_insert_eq.
    + by rewrite (kp_handle _ _ Hk).
    + by rewrite (kp_evicted _ _ Hk).
    + rewrite <-Hc. exact Hc'.
Qed.

Lemma truncate_refines s ino c a e i f :
  represents s ino c i f → io_ok c (IOTruncate a) → refines_step s ino c (IOTruncate a) e i f.
Proof.
  intros R Hn. set (i1 := set_nlookup (nlookup i + 1) i).
  set (s1 := set_inodes (<[ino := i1]> (m_inodes s)) s).
  assert (represents s1 ino c i1 f) as R1.
  { destruct R as [[] Sy]. split; [split|done]; cbn; try done; [apply lookup_insert_eq|lia]. }
  destruct (Setattr_truncates s1 ino c i1 f a R1 Hn)
    as (s2 & i2 & rep & ent & E & Er & Hsz & Hnl & Hent & Fr & (f2 & R2 & Hk & Htl) & El).
  eexists (set_inodes (<[ino := set_nlookup (nlookup i) i2]> (m_inodes s2)) s2), (ReplyAttr rep), [ent].
  split; [|split; [done|split; [done|split; [|split; [|split; [done|split; [done|by repeat constructor]]]]]]].
  - apply (held_run s ino i (λ j, Setattr j a FUSE_SET_ATTR_SIZE) s2 i2); try done; [apply R|apply R|apply R2].
  - exists (set_nlookup (nlookup i) i2), f2. split; [|done]. destruct R2 as [[] Sy2].
    split; [split|done]; cbn; try done; [apply lookup_insert_eq|apply R].
  - destruct Fr as [Fi Fh Fk Ff Fn]. split; try done. intros j Hj. cbn. rewrite lookup_insert_ne by done.
    rewrite Fi by done. cbn. by rewrite lookup_insert_ne.
Qed.

(** A request of any kind. *)
Lemma io_step_refines s ino c r e i f :
  replies_delivered → ino ≠ 0 → represents s ino c i f → io_ok c r → refines_step s ino c r e i f.
Proof.
  intros Hr Hz R. pose proof (proj1 R).
  destruct r; auto using read_refines, write_refines, truncate_refines, getattr_refines, flush_refines.
Qed.

End Session.

(** ** Sessions *)

(** Several files: the abstract state is a map from open inodes to contents, and a request
    names its inode. *)
Abbreviation file_req := (Z * io_req)%type.

Definition files_step (F : gmap Z bytes) (q : file_req) : gmap Z bytes * io_reply :=
  let '(c, a) := io_step (default [] (F !! fst q)) (snd q) in (<[fst q := c]> F, a).
Definition files_ok (F : gmap Z bytes) (q : file_req) : Prop :=
  match F !! fst q with Some c => io_ok c (snd q) | None => False end.

Fixpoint files_run (F : gmap Z bytes) (qs : list file_req) : gmap Z bytes * list io_reply :=
  match qs with
  | [] => (F, [])
  | q :: qs =>
      let '(F1, a) := files_step F q in
      let '(F2, l) := files_run F1 qs in (F2, a :: l)
  end.
Fixpoint files_all_ok (F : gmap Z bytes) (qs : list file_req) : Prop :=
  match qs with
  | [] => True
  | q :: qs => files_ok F q ∧ files_all_ok (fst (files_step F q)) qs
  end.

(** The inodes that are changed, in the order of the requests. *)
Definition changed_inodes (qs : list file_req) : list Z :=
  fst <$> filter (λ q, io_changes (snd q)) qs.

Definition file_request (q : file_req) : request := io_request (fst q) (snd q).

Section Sessions.
Context {S : Type} `{KVStoreLaws S} `{!KVReliable S} `{FsEnv} `{MountEnv}.
Implicit Types (s : MountState S).

Definition files_open s (F : gmap Z bytes) : Prop := ∀ ino c, F !! ino = Some c → ino ≠ 0 ∧ open_file s ino c.

(** What a session on the files [F] leaves alone. *)
Record files_frame (F : gmap Z bytes) s s' : Prop := {
  ff_objects j : F !! j = None →
    m_inodes s' !! j = m_inodes s !! j ∧ w_heap (m_world s') !! j = w_heap (m_world s) !! j;
  ff_kv k : (∀ ino, is_Some (F !! ino) → k ≠ inode_key ino ∧ ∀ c, 0 ≤ c < OFF_MAX → k ≠ sub_key ino c) →
    kv_get (w_kv (m_world s')) k = kv_get (w_kv (m_world s)) k;
}.

Lemma cached_range s ino c i f : cached s ino c i f → 0 ≤ ino < 18446744073709551616.
Proof. intros R. rewrite <-(rp_handle _ _ _ _ _ R), <-(fi_handle _ _ (rp_inv _ _ _ _ _ R)). apply (rp_inv _ _ _ _ _ R). Qed.

(** A request on another file. *)
Lemma represents_frame s s' j ino c i f :
  io_frame j s s' → 0 ≤ j < 18446744073709551616 → ino ≠ j → represents s ino c i f → represents s' ino c i f.
Proof.
  intros [Fi Fh Fk _ _] Hj Hne R. pose proof (cached_range s ino c i f (proj1 R)) as Hr.
  destruct (only_file_other _ _ j ino Fk Hj Hr Hne) as [Ek Ec]. destruct R as [[] Sy].
  destruct (file_inv_chunks f (w_kv (m_world s)) (w_kv (m_world s'))) as [I' C']; [done|by rewrite rp_handle0|].
  split; [split; try done; by rewrite ?Fi, ?Fh, ?C'|].
  unfold synced in *. by rewrite rp_handle0, Ek, <-rp_handle0.
Qed.

Lemma files_step_lookup F q c :
  F !! fst q = Some c → files_step F q = (<[fst q := fst (io_step c (snd q))]> F, snd (io_step c (snd q))).
Proof. intros E. unfold files_step. rewrite E. cbn. by destruct (io_step c (snd q)). Qed.

(** One request on one of the files. *)
Lemma files_step_refines s F q e :
  replies_delivered → files_open s F → files_ok F q →
  ∃ s' rep es, dispatch e (file_request q) s = Ok (tt, s')
    ∧ m_replies s' = m_replies s ++ [rep] ∧ shows (snd (files_step F q)) rep
    ∧ files_open s' (fst (files_step F q)) ∧ files_frame F s s'
    ∧ log_deque (m_log s') = log_deque (m_log s) ++ es
    ∧ e_inode_num <$> es = Some <$> changed_inodes [q].
Proof.
  intros Hr O Hok. destruct q as [ino r]. unfold files_ok in Hok. cbn [fst snd] in *.
  destruct (F !! ino) as [c|] eqn:Ec; [|done]. rewrite (files_step_lookup F (ino, r) c Ec). cbn [fst snd].
  destruct (O ino c Ec) as (Hz & i & f & R). pose proof (cached_range s ino c i f (proj1 R)) as Hino.
  destruct (io_step_refines s ino c r e i f Hr Hz R Hok)
    as (s' & rep & es & E & Er & Sh & (i' & f' & R' & _) & Fr & El & Hn & Hf).
  exists s', rep, es. do 3 (split; [done|]). split; [|split; [|split; [done|]]].
  - intros j cj. destruct (decide (j = ino)) as [->|Hj].
    + rewrite lookup_insert_eq. intros [= <-]. split; [done|]. by exists i', f'.
    + rewrite lookup_insert_ne by done. intros Ej. destruct (O j cj Ej) as (Hjz & ij & fj & Rj).
      split; [done|]. exists ij, fj. by apply (represents_frame s s' ino).
  - split.
    + intros j Hj. assert (j ≠ ino) by congruence. split; [by apply Fr|by apply Fr].
    + intros k Hk. destruct (Hk ino (mk_is_Some _ _ Ec)). by apply Fr.
  - unfold changed_inodes. rewrite filter_cons. cbn [snd]. destruct (io_changes r); case_decide; try done.
    + destruct es as [|ent [|]]; try done. apply Forall_inv in Hf. cbn. by rewrite Hf.
    + by destruct es.
Qed.

Lemma changed_inodes_cons q qs : changed_inodes (q :: qs) = changed_inodes [q] ++ changed_inodes qs.
Proof. unfold changed_inodes. rewrite !filter_cons. by destruct (decide _). Qed.

(** The map keeps its domain. *)
Lemma files_step_none F q j : files_ok F q → fst (files_step F q) !! j = None ↔ F !! j = None.
Proof.
  unfold files_ok. destruct (F !! fst q) eqn:E; [|done]. intros _. rewrite (files_step_lookup F q _ E). cbn [fst].
  rewrite lookup_insert_None. split; [by intros []|]. intros Hj. split; [done|]. intros <-. congruence.
Qed.

Lemma files_frame_trans F q s s1 s2 :
  files_ok F q → files_frame F s s1 → files_frame (fst (files_step F q)) s1 s2 → files_frame F s s2.
Proof.
  intros Hq [O1 K1] [O2 K2].
  assert (∀ ino, is_Some (fst (files_step F q) !! ino) → is_Some (F !! ino)) as Hd.
  { intros ino. rewrite <-!not_eq_None_Some. intros Hn Hf. by apply Hn, files_step_none. }
  split.
  - intros j Hj. destruct (O1 j Hj) as [<- <-]. apply O2. by apply files_step_none.
  - intros k Hk. rewrite K2, K1; [done|done|]. intros ino Hi. by apply Hk, Hd.
Qed.

(** C1: a session on the open files refines a map of byte arrays: any sequence of read,
    write, truncate, getattr and flush requests, on any of the files in any order, that
    stays in range (no read past the end of a file) is served; the replies are those of
    plain arrays of bytes, one for each file, so that no request on one file changes what
    another holds; each file holds the bytes of its array afterwards, in the store and in
    the cache; the change log has grown by exactly one entry for each write and each
    truncation, in order, naming its inode; and no other inode, object or key of the store
    has changed. *)
Theorem files_session_refines s F qs e :
  replies_delivered → files_open s F → files_all_ok F qs →
  ∃ s' reps es, serve e (file_request <$> qs) s = Ok (tt, s')
    ∧ m_replies s' = m_replies s ++ reps ∧ Forall2 shows (snd (files_run F qs)) reps
    ∧ files_open s' (fst (files_run F qs)) ∧ files_frame F s s'
    ∧ log_deque (m_log s') = log_deque (m_log s) ++ es
    ∧ e_inode_num <$> es = Some <$> changed_inodes qs.
Proof.
  intros Hr. revert s F. induction qs as [|q qs IH]; intros s F O Hok.
  { exists s, [], []. cbn. rewrite !app_nil_r. by repeat (split; [done || constructor|]). }
  destruct Hok as [Hq Hok].
  destruct (files_step_refines s F q e Hr O Hq) as (s1 & rep & es1 & E1 & R1 & Sh & O1 & Fr1 & L1 & N1).
  destruct (IH s1 _ O1 Hok) as (s2 & reps & es2 & E2 & R2 & Sh2 & O2 & Fr2 & L2 & N2).
  exists s2, (rep :: reps), (es1 ++ es2). rewrite changed_inodes_cons, !fmap_app, N1, N2.
  pose proof (files_frame_trans F q s s1 s2 Hq Fr1 Fr2). cbn [fmap list_fmap serve files_run].
  destruct (files_step F q) as [F1 a]. cbn in *. destruct (files_run F1 qs) as [F2 l]. cbn in *.
  split; [by rewrite (bind_ok _ _ _ _ _ E1)|]. split; [by rewrite R2, R1, <-app_assoc|].
  split; [by constructor|]. do 2 (split; [done|]). split; [by rewrite L2, L1, app_assoc|done].
Qed.

(** A session on one file keeps its holds and its links. *)
Lemma io_session_run s ino c rs e i f :
  replies_delivered → ino ≠ 0 → represents s ino c i f → io_all_ok c rs →
  ∃ s' reps es, serve e (io_request ino <$> rs) s = Ok (tt, s')
    ∧ m_replies s' = m_replies s ++ reps ∧ Forall2 shows (snd (io_run c rs)) reps
    ∧ still_open s s' ino (fst (io_run c rs)) i f ∧ io_frame ino s s'
    ∧ log_deque (m_log s') = log_deque (m_log s) ++ es
    ∧ length es = length (filter io_changes rs)
    ∧ Forall (λ e, e_inode_num e = Some ino) es.
Proof.
  intros Hr Hz. revert s c i f. induction rs as [|r rs IH]; intros s c i f R Hok.
  { exists s, [], []. cbn. rewrite !app_nil_r. repeat (split; [done || constructor|]).
    split; [exists i, f; split; [done|]; split; [done|]; split; [apply kept_refl|done]|]. split; [apply io_frame_refl|done]. }
  destruct Hok as [Hr1 Hok].
  pose proof (changes_cons r rs) as Hf.
  destruct (io_step_refines s ino c r e i f Hr Hz R Hr1)
    as (s1 & rep & es1 & E1 & R1 & Sh & (i1 & f1 & O1 & Hn1 & K1 & T1) & Fr1 & L1 & N1 & F1).
  destruct (IH s1 (fst (io_step c r)) i1 f1 O1 Hok)
    as (s2 & reps & es2 & E2 & R2 & Sh2 & (i2 & f2 & O2 & Hn2 & K2 & T2) & Fr2 & L2 & N2 & F2).
  exists s2, (rep :: reps), (es1 ++ es2). cbn [fmap list_fmap serve io_run].
  destruct (io_step c r) as [c1 a]. cbn in *. destruct (io_run c1 rs) as [c2 l]. cbn in *.
  split; [by rewrite (bind_ok _ _ _ _ _ E1)|]. split; [by rewrite R2, R1, <-app_assoc|].
  split; [by constructor|].
  split; [exists i2, f2; split; [done|]; split; [congruence|]; split; [by apply (kept_trans _ f1)|auto]|].
  split; [by apply (io_frame_trans _ _ s1)|]. split; [by rewrite L2, L1, app_assoc|].
  split; [by rewrite length_app, N1, N2, Hf|by apply Forall_app].
Qed.

End Sessions.

(** ** Witness: five requests on the file "abc" and an empty one *)

#[local] Instance demo_io_fs : FsEnv := demo_env (demo_tier []).
#[local] Existing Instance demo_mount_env.

Definition demo_io_inode (ino size : Z) : FuseKvfsInode :=
  MkInode (stat_size size (stat_ino_dev ino 0 stat_zero)) 1 I_CLEAN.
Definition demo_empty : LogFSFile :=
  let m := set_evictionState ES_RESIDENT (init_fields 1 6 0 0 (new_meta 0 4)) in
  MkFile 1 6 (lit "e") m 0 false 0 None.
Definition demo_io_kv : MemStore := <[inode_key 6 := encode_meta (meta demo_empty)]> (demo_kv ES_RESIDENT).
Definition demo_io : MountState MemStore :=
  mkM (mkW {[ 5 := demo_file ES_RESIDENT; 6 := demo_empty ]} demo_io_kv 0)
    {[ 5 := demo_io_inode 5 3; 6 := demo_io_inode 6 0 ]}
    (new_FsChangeLog [] 0) super_empty 6 1 (MkOptions true false) ∅ [] [].
Definition demo_files : gmap Z bytes := {[ 5 := lit "abc"; 6 := [] ]}.
Definition demo_reqs : list file_req :=
  [(5, IOWrite (lit "XYZ") 2); (6, IOWrite (lit "q") 1); (5, IORead 9 1);
   (5, IOTruncate (stat_size 2 stat_zero)); (6, IOGetattr)].

Lemma demo_io_other k : k ≠ inode_key 6 → kv_get demo_io_kv k = kv_get (demo_kv ES_RESIDENT) k.
Proof. intros Hk. apply (lookup_insert_ne (M:=gmap bytes)). by apply not_eq_sym. Qed.

Lemma demo_open : files_open demo_io demo_files.
Proof.
  assert (∀ j c, kv_get demo_io_kv (sub_key j c) = kv_get (demo_kv ES_RESIDENT) (sub_key j c)) as Hc
    by (intros j c; apply demo_io_other, not_eq_sym, inode_sub_key).
  intros ino c. unfold demo_files.
  intros [[<- [= <-]]|[Hne [<- [= <-]]%lookup_singleton_Some]]%lookup_insert_Some; (split; [done|]).
  - destruct (file_inv_chunks (demo_file ES_RESIDENT) (demo_kv ES_RESIDENT) demo_io_kv) as [I C];
      [apply demo_inv|apply Hc|].
    exists (demo_io_inode 5 3), (demo_file ES_RESIDENT). by split; [split|].
  - exists (demo_io_inode 6 0), demo_empty.
    assert (∀ c, kv_get demo_io_kv (sub_key 6 c) = None) as Hn.
    { intros c. rewrite Hc. cbn. unfold demo_kv. rewrite lookup_insert_ne by apply inode_sub_key.
      apply lookup_singleton_None. by apply sub_key_handle_ne. }
    split; [split|]; try done. split; try done; cbn; [intros j v _; by rewrite Hn|].
    intros j _. unfold file_byte. by rewrite Hn.
Qed.

Lemma files_session_refines_witness :
  ∃ s' reps es, serve false (file_request <$> demo_reqs) demo_io = Ok (tt, s')
    ∧ m_replies s' = [] ++ reps
    ∧ Forall2 shows [IOWrote 3; IOWrote 1; IOData (lit "bXYZ"); IOSize 2; IOSize 2] reps
    ∧ files_open s' {[ 5 := lit "ab"; 6 := [Byte.x00; Byte.x71] ]} ∧ files_frame demo_files demo_io s'
    ∧ log_deque (m_log s') = [] ++ es ∧ e_inode_num <$> es = [Some 5; Some 6; Some 5].
Proof.
  apply (files_session_refines demo_io demo_files demo_reqs false); [done|apply demo_open|].
  unfold MAX_SIZE. vm_compute. repeat split; congruence.
Defined.
