(* ===== verification/NameProps.v ===== *)
(** * Requests on a directory refine a finite map of names

    The abstract directory is a map from names to inode numbers, each with its kind, the
    inodes the kernel holds, and the last inode number given out.  A session of lookup,
    create, mkdir, unlink, rmdir and link requests through the FUSE entry points gives the
    answers of the abstract directory and keeps representing it. *)

From Stdlib Require Import ZArith Lia Strings.String.
From stdpp Require Import base list gmap list_numbers.
From S2P Require Import Prelude Status Mode SortedMap KVStore MetaData Partition File FileData.
From S2P Require Import Directory DirectoryProps ChangeLog FileSystemManager Mount Fuse MountProps CreateProps IOProps.

#[local] Arguments inode_key : simpl never.
#[local] Arguments on_file : simpl never.
#[local] Arguments at_world : simpl never.

(** ** The abstract directory *)

(** [true] is a directory, [false] a regular file. *)
Abbreviation kind := bool.

Record NS := MkNS {
  ns_names : gmap bytes (Z * kind);
  ns_known : gmap Z kind;
  ns_next : Z;
}.

Inductive ns_req :=
  | NLookup (name : bytes)
  | NCreate (name : bytes) (mode : Z)
  | NMkdir (name : bytes) (mode : Z)
  | NUnlink (name : bytes)
  | NRmdir (name : bytes)
  | NLink (ino : Z) (name : bytes).

Inductive ns_reply :=
  | NEntry (ino : Z) (d : kind)
  | NErr (e : Z).

Definition set_names (m : gmap bytes (Z * kind)) (A : NS) : NS := MkNS m (ns_known A) (ns_next A).
Definition ns_learn (c : Z) (d : kind) (A : NS) : NS :=
  MkNS (ns_names A) (<[c := d]> (ns_known A)) (ns_next A).
(** A new inode under [name]. *)
Definition ns_add (name : bytes) (d : kind) (A : NS) : NS :=
  let c := ns_next A + 1 in
  MkNS (<[name := (c, d)]> (ns_names A)) (<[c := d]> (ns_known A)) c.

(** [rmdir] does not look whether the directory is empty. *)
Definition ns_step (A : NS) (r : ns_req) : NS * ns_reply :=
  match r with
  | NLookup n =>
      match ns_names A !! n with
      | Some (c, d) => (ns_learn c d A, NEntry c d)
      | None => (A, NErr ENOENT)
      end
  | NCreate n _ =>
      match ns_names A !! n with
      | Some _ => (A, NErr EEXIST)
      | None => (ns_add n false A, NEntry (ns_next A + 1) false)
      end
  | NMkdir n _ =>
      match ns_names A !! n with
      | Some _ => (A, NErr EEXIST)
      | None => (ns_add n true A, NEntry (ns_next A + 1) true)
      end
  | NUnlink n =>
      match ns_names A !! n with
      | Some _ => (set_names (delete n (ns_names A)) A, NErr 0)
      | None => (A, NErr ENOENT)
      end
  | NRmdir n =>
      match ns_names A !! n with
      | Some (_, true) => (set_names (delete n (ns_names A)) A, NErr 0)
      | Some (_, false) => (A, NErr ENOTDIR)
      | None => (A, NErr ENOENT)
      end
  | NLink c n =>
      match ns_names A !! n with
      | Some _ => (A, NErr EEXIST)
      | None => (set_names (<[n := (c, false)]> (ns_names A)) A, NEntry c false)
      end
  end.

(** The stored bytes of the names leave room for one more. *)
Definition ns_room (A : NS) (name : bytes) : Prop :=
  Z.of_nat (sum_list_with (λ e, length (fst e) + 9)%nat (map_to_list (ns_names A)) + length name + 9)
  < 4294967296.

(** The requests the kernel sends: it does not send "." and "..", it creates under names
    a directory can hold, and it has looked up what it removes or links. *)
Definition ns_ok (A : NS) (r : ns_req) : Prop :=
  match r with
  | NLookup n => is_dot_name n = false
  | NCreate n mode =>
      is_dot_name n = false ∧ wf_name n ∧ (length n < NAME_MAX)%nat ∧ ns_room A n
      ∧ S_ISREG mode = true
  | NMkdir n mode =>
      is_dot_name n = false ∧ wf_name n ∧ (length n < NAME_MAX)%nat ∧ ns_room A n
      ∧ 0 ≤ mode < 4096
  | NUnlink n | NRmdir n =>
      is_dot_name n = false
      ∧ (∀ c d, ns_names A !! n = Some (c, d) → ns_known A !! c = Some d)
  | NLink c n => is_dot_name n = false ∧ wf_name n ∧ ns_room A n ∧ ns_known A !! c = Some false
  end.

Fixpoint ns_run (A : NS) (rs : list ns_req) : NS * list ns_reply :=
  match rs with
  | [] => (A, [])
  | r :: rs =>
      let '(A1, a) := ns_step A r in
      let '(A2, l) := ns_run A1 rs in (A2, a :: l)
  end.
Fixpoint ns_all_ok (A : NS) (rs : list ns_req) : Prop :=
  match rs with
  | [] => True
  | r :: rs => ns_ok A r ∧ ns_all_ok (fst (ns_step A r)) rs
  end.

(** A request that changed the names, and has to be logged. *)
Definition ns_changed (r : ns_req) (a : ns_reply) : bool :=
  match r, a with
  | NLookup _, _ => false
  | _, NEntry _ _ => true
  | _, NErr e => e =? 0
  end.

(** What a reply of the file system tells. *)
Definition ns_shows (a : ns_reply) (r : reply) : Prop :=
  match a, r with
  | NEntry c d, ReplyEntry c' st => c' = c ∧ st_ino st = c ∧ S_ISDIR (st_mode st) = d
  | NEntry c d, ReplyCreate c' st fh _ =>
      c' = c ∧ fh = c ∧ st_ino st = c ∧ S_ISDIR (st_mode st) = d
  | NErr e, ReplyErr e' => e' = e
  | _, _ => False
  end.

Definition ns_request (p : Z) (r : ns_req) : request :=
  match r with
  | NLookup n => R_lookup p n
  | NCreate n mode => R_create p n mode
  | NMkdir n mode => R_mkdir p n mode
  | NUnlink n => R_unlink p n
  | NRmdir n => R_rmdir p n
  | NLink c n => R_link c p n
  end.

(** ** The file system represents the abstract directory *)

Section Names.
Context {S : Type} `{KVStoreLaws S} `{!KVReliable S} `{FsEnv} `{MountEnv}.

Definition kind_type (d : kind) : meta_type_t := if d then LOGFS_IFDIR else LOGFS_IFREG.

(** Metadata of inode [h] of file system [fs]. *)
Record meta_is (fs h : Z) (d : kind) (m : LogFSMetaData) : Prop := {
  mi_wf : wf_meta m;
  mi_fs : meta_fsId m = fs;
  mi_handle : meta_handle m = h;
  mi_type : meta_type m = kind_type d;
}.

Definition stored (kv : S) (fs h : Z) (d : kind) : Prop :=
  ∃ m, kv_get kv (inode_key h) = Some (encode_meta m) ∧ meta_is fs h d m.

(** A file object of inode [h]. *)
Record object (fs h : Z) (d : kind) (f : LogFSFile) : Prop := {
  ob_fs : fsId f = fs;
  ob_handle : handle f = h;
  ob_meta : meta_is fs h d (meta f);
}.

(** A mode of the kind. *)
Definition shows_kind (d : kind) (mode : Z) : Prop := S_ISDIR mode = d ∧ S_ISREG mode = negb d.

(** Inode [c] is in the table, held, with the attributes of its kind. *)
Record known (fs : Z) (w : World S) (t : gmap Z FuseKvfsInode) (c : Z) (d : kind)
    (i : FuseKvfsInode) (f : LogFSFile) : Prop := {
  kn_inode : t !! c = Some i;
  kn_file : w_heap w !! c = Some f;
  kn_held : 1 ≤ nlookup i;
  kn_ino : st_ino (attr i) = c;
  kn_kind : shows_kind d (st_mode (attr i));
  kn_obj : object fs c d f;
}.

Record names (fs : Z) (w : World S) (t : gmap Z FuseKvfsInode) (p : Z) (A : NS)
    (ip : FuseKvfsInode) (fp : LogFSFile) : Prop := {
  nm_fs : 0 ≤ fs < 18446744073709551616;
  nm_p : 0 < p ≤ ns_next A;
  nm_next : ns_next A < 18446744073709551616;
  nm_inode : t !! p = Some ip;
  nm_held : 1 ≤ nlookup ip;
  nm_ino : st_ino (attr ip) = p;
  nm_kind : shows_kind true (st_mode (attr ip));
  nm_file : w_heap w !! p = Some fp;
  nm_obj : object fs p true fp;
  nm_dir : dir_inv fp (w_kv w);
  nm_find n : dir_find fp (w_kv w) n = fst <$> ns_names A !! n;
  nm_stored : stored (w_kv w) fs p true;
  nm_known c d : ns_known A !! c = Some d →
    c ≠ p ∧ 0 < c ≤ ns_next A ∧ stored (w_kv w) fs c d ∧ ∃ i f, known fs w t c d i f;
  nm_child n c d : ns_names A !! n = Some (c, d) → is_dot_name n = false →
    c ≠ p ∧ 0 < c ≤ ns_next A ∧ stored (w_kv w) fs c d
    ∧ (ns_known A !! c = Some d ∨ (ns_known A !! c = None ∧ t !! c = None));
  nm_above j : ns_next A < j < 18446744073709551616 →
    t !! j = None ∧ ∀ i, 0 ≤ i < OFF_MAX → kv_get (w_kv w) (sub_key j i) = None;
}.

(** ** Lemmas: the representation *)

Lemma u64_ne x y :
  0 ≤ x < 18446744073709551616 → 0 ≤ y < 18446744073709551616 → x ≠ y → u64 x ≠ u64 y.
Proof. intros Hx Hy Hne. by rewrite !u64_small. Qed.

Lemma meta_is_xid fs h d m x :
  -9223372036854775808 ≤ x < 9223372036854775808 → meta_is fs h d m → meta_is fs h d (set_xid x m).
Proof. intros Hx [[] ???]. split; [by split|done..]. Qed.
Lemma meta_is_nLink fs h d m n : meta_is fs h d m → meta_is fs h d (set_nLink (u32 n) m).
Proof. pose proof (u32_range n). intros [[] ???]. split; [by split|done..]. Qed.
Lemma meta_is_ctime fs h d m n : meta_is fs h d m → meta_is fs h d (set_ctime (u32 n) m).
Proof. pose proof (u32_range n). intros [[] ???]. split; [by split|done..]. Qed.
Lemma meta_is_mtime fs h d m n : meta_is fs h d m → meta_is fs h d (set_mtime (u32 n) m).
Proof. pose proof (u32_range n). intros [[] ???]. split; [by split|done..]. Qed.

Lemma object_meta fs h d f m : object fs h d f → meta_is fs h d m → object fs h d (set_meta m f).
Proof. by intros []. Qed.
Lemma object_parts fs h d f f' : same_but_parts f f' → object fs h d f → object fs h d f'.
Proof. intros (ps & -> & _) []. by split. Qed.
Lemma object_synced (kv : S) fs h d f : object fs h d f → synced f kv → stored kv fs h d.
Proof. intros [Hf Hh Hm] Sy. exists (meta f). by rewrite <-Hh at 1. Qed.

Lemma stored_det (kv : S) fs h d d' : stored kv fs h d → stored kv fs h d' → d = d'.
Proof.
  intros (m & E & M) (m' & E' & M'). rewrite E in E'.
  apply (f_equal (λ o, o ≫= decode_meta)) in E'. cbn [mbind option_bind] in E'.
  rewrite !decode_encode in E' by (apply M || apply M'). injection E' as <-. pose proof (mi_type _ _ _ _ M) as T. rewrite (mi_type _ _ _ _ M') in T.
  by destruct d, d'.
Qed.

Lemma stored_ext (kv kv' : S) fs h d :
  kv_get kv' (inode_key h) = kv_get kv (inode_key h) → stored kv fs h d → stored kv' fs h d.
Proof. intros E (m & Em & M). exists m. by rewrite E. Qed.

(** The kind the stored inode shows. *)
Lemma kind_mode d m : meta_type m = kind_type d → shows_kind d (ModeFromMeta (meta_type m) (meta_protection m)).
Proof. intros ->. unfold shows_kind. rewrite S_ISDIR_meta, S_ISREG_meta. by destruct d. Qed.

Lemma shows_kind_mode (d : kind) mode : (if d then S_ISDIR else S_ISREG) mode = true → shows_kind d mode.
Proof. unfold shows_kind, S_ISREG, S_ISDIR, is_type. by destruct d; intros ->%Z.eqb_eq. Qed.

(** Names that fit the whole directory fit its partition. *)
Lemma names_fits fs w t p A ip fp n :
  names fs w t p A ip fp → ns_room A n → dir_fits fp (w_kv w) n.
Proof.
  intros N. unfold ns_room, dir_fits, fits. set (i := partition_index fp n).
  pose proof (nm_dir _ _ _ _ _ _ _ N) as D.
  assert (i < length (parts_of fp))%nat as Hi by apply partition_index_lt, D.
  set (l := part_abs (part_at fp i) (w_kv w)).
  assert (sm_sorted l) as Hs by (apply part_abs_sorted, D; done).
  assert (length (entries_bytes l) = sum_list_with (λ e : bytes * Z, length (fst e) + 9)%nat l) as ->.
  { clear. induction l as [|[k v] l IH]; [done|]. rewrite entries_bytes_cons, length_app, IH.
    unfold serialize_entry. cbn [fst snd sum_list_with]. rewrite !length_app, length_le_bytes. cbn [length]. lia. }
  assert (l.*1 ⊆+ (map_to_list (ns_names A)).*1) as Hsub.
  { apply NoDup_submseteq; [by apply sm_sorted_NoDup|]. intros k [[k' v] [-> Hin]]%list_elem_of_fmap.
    assert (dir_find fp (w_kv w) k' = Some v) as Hf.
    { unfold dir_find. rewrite (di_placed _ _ D i k' v Hi); by apply sm_elem_find. }
    rewrite (nm_find _ _ _ _ _ _ _ N) in Hf. destruct (ns_names A !! k') as [[c d]|] eqn:Ek; [|done].
    apply list_elem_of_fmap. exists (k', (c, d)). split; [done|]. by apply elem_of_map_to_list. }
  assert (∀ {B} (l : list (bytes * B)), sum_list_with (λ e, length (fst e) + 9)%nat l =
    sum_list_with (λ k, length k + 9)%nat l.*1) as Hmap.
  { intros B l0. induction l0 as [|e l0 IH]; [done|]. cbn. by rewrite IH. }
  rewrite !Hmap. apply submseteq_Permutation in Hsub as [k ->]. rewrite sum_list_with_app. lia.
Qed.

Lemma not_in_one (j c : Z) : j ∉ [c] → c ≠ j.
Proof. intros Hj <-. apply Hj. constructor. Qed.
#[local] Hint Resolve not_in_one not_eq_sym : core.

(** A step that touches the directory and the children [cs]. *)
Lemma names_step fs w t p A ip fp w' t' A' ip' fp' cs :
  names fs w t p A ip fp →
  ns_next A ≤ ns_next A' < 18446744073709551616 →
  (∀ c, c ∈ cs → c ≠ p ∧ 0 < c ≤ ns_next A') →
  confined (w_kv w) (w_kv w') (p :: cs) →
  (∀ j, j ≠ p → j ∉ cs → t' !! j = t !! j ∧ w_heap w' !! j = w_heap w !! j) →
  t' !! p = Some ip' → 1 ≤ nlookup ip' → st_ino (attr ip') = p → shows_kind true (st_mode (attr ip')) →
  w_heap w' !! p = Some fp' → object fs p true fp' → dir_inv fp' (w_kv w') →
  (∀ n, dir_find fp' (w_kv w') n = fst <$> ns_names A' !! n) →
  stored (w_kv w') fs p true →
  (∀ c d, c ∈ cs → ns_known A' !! c = Some d →
     stored (w_kv w') fs c d ∧ ∃ i f, known fs w' t' c d i f) →
  (∀ c, c ∉ cs → ns_known A' !! c = ns_known A !! c) →
  (∀ n c d, ns_names A' !! n = Some (c, d) → is_dot_name n = false →
     if decide (c ∈ cs) then ns_known A' !! c = Some d else ns_names A !! n = Some (c, d)) →
  names fs w' t' p A' ip' fp'.
Proof.
  intros N Hn Hcs C Hsame Hip Hheld Hino Hkd Hfp Hob D F Hst Hk Hk' Hd. destruct N.
  assert (∀ c, c ≠ p → c ∉ cs → 0 < c < 18446744073709551616 →
    kv_get (w_kv w') (inode_key c) = kv_get (w_kv w) (inode_key c)
    ∧ ∀ i, kv_get (w_kv w') (sub_key c i) = kv_get (w_kv w) (sub_key c i)) as Hkey.
  { intros c Hp Hc Hr. apply (confined_inode _ _ _ _ C). intros j [->|Hj]%elem_of_cons.
    - apply u64_ne; lia.
    - pose proof (Hcs j Hj). apply u64_ne; [lia|lia|congruence]. }
  split; try done; try lia.
  - intros c d Ec. destruct (decide (c ∈ cs)) as [Hin|Hin].
    + destruct (Hcs c Hin). by destruct (Hk c d Hin Ec).
    + rewrite Hk' in Ec by done. destruct (nm_known0 c d Ec) as (? & ? & ? & i & f & []).
      destruct (Hsame c) as [Ht Hh]; [done..|]. do 2 (split; [done || lia|]).
      split; [apply (stored_ext (w_kv w)); [apply Hkey; [done..|lia]|done]|].
      exists i, f. split; rewrite ?Ht, ?Hh; done.
  - intros n c d Ec Hdot. specialize (Hd n c d Ec Hdot). case_decide as Hin.
    + destruct (Hcs c Hin). destruct (Hk c d Hin Hd). auto.
    + destruct (nm_child0 n c d Hd Hdot) as (? & ? & ? & Hor).
      destruct (Hsame c) as [Ht _]; [done..|]. do 2 (split; [done || lia|]).
      split; [apply (stored_ext (w_kv w)); [apply Hkey; [done..|lia]|done]|].
      by rewrite Hk', Ht.
  - intros j Hj. destruct (nm_above0 j) as [Ht Hs]; [lia|].
    assert (j ∉ cs) as Hin by (intros Hin; destruct (Hcs j Hin); lia).
    destruct (Hsame j) as [-> _]; [lia|done|]. split; [done|]. intros i Hi.
    rewrite (proj2 (Hkey j ltac:(lia) Hin ltac:(lia))). by apply Hs.
Qed.

(** Nothing changed but the directory's own inode and object. *)
Lemma names_self fs w t p A ip fp hp' clk' ip' fp' :
  names fs w t p A ip fp → hp' = <[p := fp']> (w_heap w) →
  1 ≤ nlookup ip' → st_ino (attr ip') = p → shows_kind true (st_mode (attr ip')) →
  object fs p true fp' → dir_inv fp' (w_kv w) →
  (∀ n, dir_find fp' (w_kv w) n = dir_find fp (w_kv w) n) →
  names fs (mkW hp' (w_kv w) clk') (<[p := ip']> t) p A ip' fp'.
Proof.
  intros N -> Hh Hi Hkd Hob D F. apply (names_step fs w t p A ip fp _ _ _ _ _ [] N); try done.
  - pose proof (nm_next _ _ _ _ _ _ _ N). lia.
  - by intros c ?%not_elem_of_nil.
  - intros j Hj _. cbn. by rewrite !lookup_insert_ne.
  - apply lookup_insert_eq.
  - apply lookup_insert_eq.
  - intros n. rewrite F. apply N.
  - apply N.
  - by intros c d ?%not_elem_of_nil.
Qed.

(** A child that is known and stays so, or becomes known. *)
Lemma names_child fs w t p A ip fp c d i f clk' :
  names fs w t p A ip fp → c ≠ p → 0 < c ≤ ns_next A → stored (w_kv w) fs c d →
  known fs (mkW (<[c := f]> (w_heap w)) (w_kv w) clk') (<[c := i]> t) c d i f →
  names fs (mkW (<[c := f]> (w_heap w)) (w_kv w) clk') (<[c := i]> t) p (ns_learn c d A) ip fp.
Proof.
  intros N Hc Hr Hs K. apply (names_step fs w t p A ip fp _ _ _ _ _ [c] N); cbn; try apply N.
  - pose proof (nm_next _ _ _ _ _ _ _ N). lia.
  - by intros c' ->%list_elem_of_singleton.
  - done.
  - intros j Hj Hj'. rewrite !lookup_insert_ne; [done|auto..].
  - rewrite lookup_insert_ne by done. apply N.
  - rewrite lookup_insert_ne by done. apply N.
  - intros c' d' ->%list_elem_of_singleton. rewrite lookup_insert_eq. intros [= <-]. eauto.
  - intros c' Hc'. rewrite lookup_insert_ne; [done|auto].
  - intros n c' d' En Hdot. case_decide as Hin; [|done]. apply list_elem_of_singleton in Hin as ->.
    rewrite lookup_insert_eq. f_equal.
    destruct (nm_child _ _ _ _ _ _ _ N n c d' En Hdot) as (_ & _ & Hs' & _).
    by apply (stored_det (w_kv w) fs c).
Qed.

(** ** Steps of a request *)

Section Phases.
Context (s : MountState S).
Implicit Types (w : World S) (t : gmap Z FuseKvfsInode) (l : FsChangeLog) (r : list reply).

Abbreviation fs := (m_fs_id s).

Lemma ns_learn_known A c d : ns_known A !! c = Some d → ns_learn c d A = A.
Proof. intros E. unfold ns_learn. rewrite insert_id by done. by destruct A. Qed.

Lemma world_id w c f : w_heap w !! c = Some f → mkW (<[c := f]> (w_heap w)) (w_kv w) (w_clock w) = w.
Proof. intros E. rewrite insert_id by done. by destruct w. Qed.

Lemma names_find w t l h r p A ip fp n :
  names fs w t p A ip fp →
  ∃ fp' w', on_file p (findHandle n) (mk s w t l h r) =
      Ok (default 0 (fst <$> ns_names A !! n), mk s w' t l h r)
    ∧ names fs w' t p A ip fp'.
Proof.
  intros N. destruct (findHandle_ok fp (w_kv w) (w_clock w) n) as (fp' & E & D & Hs & F); [apply N|].
  rewrite (nm_find _ _ _ _ _ _ _ N) in E. eexists fp', _. split.
  { apply (mk_on_file s w t l h r p _ fp); [apply N|done]. }
  rewrite <-(insert_id t p ip) by apply N. eapply names_self; try done; try apply N.
  apply (object_parts _ _ _ fp); [done|apply N].
Qed.

(** [Refresh] of an inode that is stored. *)
Lemma refresh_obj w t l h r c d i f :
  t !! c = Some i → w_heap w !! c = Some f → fsId f = fs → handle f = c →
  stored (w_kv w) fs c d → st_ino (attr i) = c →
  ∃ i' f', inode_Refresh c (mk s w t l h r) =
      Ok (0, mk s (mkW (<[c := f']> (w_heap w)) (w_kv w) (w_clock w)) (<[c := i']> t) l h r)
    ∧ nlookup i' = nlookup i ∧ st_ino (attr i') = c ∧ istate i' ≠ I_INVALID
    ∧ ((i' = i ∧ f' = f ∧ istate i ≠ I_INVALID)
       ∨ shows_kind d (st_mode (attr i')) ∧ ∃ m, f' = set_meta m f ∧ meta_is fs c d m).
Proof.
  intros Ei Ef Hfs Hh (m & Em & M) Hi. destruct (decide (istate i = I_INVALID)) as [Hst|Hst].
  - destruct (stat_ok f (w_kv w) (w_clock w) m (attr i)) as (a & Es & _ & Ha & _ & Hm);
      [by rewrite Hh|apply M|by rewrite Hh; apply M|by rewrite Hfs; apply M|].
    exists (set_istate I_CLEAN (set_attr a i)), (set_meta m f).
    split; [by rewrite (Refresh_run (mk s w t l h r) c i f a _ _ _ Ei Hst Ef Es)|].
    split; [done|]. split; [by rewrite <-(mi_handle _ _ _ _ M)|]. split; [done|].
    right. split; [|by exists m]. cbn. rewrite Hm. apply kind_mode, M.
  - exists i, f. rewrite (Refresh_valid (mk s w t l h r) c i Ei Hst), world_id, insert_id by done. by auto 8.
Qed.

Lemma names_refresh w t l h r p A ip fp :
  names fs w t p A ip fp →
  ∃ ip' fp' w', inode_Refresh p (mk s w t l h r) = Ok (0, mk s w' (<[p := ip']> t) l h r)
    ∧ names fs w' (<[p := ip']> t) p A ip' fp' ∧ nlookup ip' = nlookup ip.
Proof.
  intros N. destruct (nm_obj _ _ _ _ _ _ _ N) as [O1 O2 O3].
  destruct (refresh_obj w t l h r p true ip fp) as (ip' & fp' & E & Hn & Hi & _ & Hor); try apply N; try done.
  exists ip', fp'. eexists. split; [exact E|]. split; [|done].
  assert (object fs p true fp' ∧ partitions fp' = partitions fp) as [Ho Hps].
  { destruct Hor as [(-> & -> & _)|(_ & m & -> & M)]; [by split; [apply N|]|].
    split; [by apply object_meta; [apply N|]|done]. }
  destruct Ho as [O1' O2' O3'].
  destruct (dir_inv_frame fp fp' (w_kv w) (w_kv w)) as [D F]; [congruence|congruence|done|done|apply N|].
  apply (names_self _ w t _ _ ip fp); try done; [rewrite Hn; apply N|].
  destruct Hor as [(-> & _)|[? _]]; [apply N|done].
Qed.

(** [GetInode] on an inode of the table. *)
Lemma mk_get w t l h r c i :
  t !! c = Some i →
  GetInode c true (mk s w t l h r) =
    Ok (Some c, mk s w (<[c := set_nlookup (nlookup i + 1) i]> t) l h r).
Proof.
  intros Ei. pose proof (mk_hold s w t l h r c i Ei) as E. unfold fk_ino_to_inode in E.
  apply bind_inv in E as ([j|] & s1 & E1 & E2); [|done]. injection E2 as -> <-. done.
Qed.

Lemma known_upd w t c d i f i' :
  known fs w t c d i f → attr i' = attr i → 1 ≤ nlookup i' → known fs w (<[c := i']> t) c d i' f.
Proof. intros [] Ha Hn. split; rewrite ?Ha; try done. apply lookup_insert_eq. Qed.

(** A change of the holds or of the state of a known child. *)
Lemma names_upd w t p A ip fp c d i f i' :
  names fs w t p A ip fp → ns_known A !! c = Some d → known fs w t c d i f →
  attr i' = attr i → 1 ≤ nlookup i' → names fs w (<[c := i']> t) p A ip fp.
Proof.
  intros N Ek K Ha Hn. destruct (nm_known _ _ _ _ _ _ _ N c d Ek) as (Hc & Hr & Hs & _).
  rewrite <-(ns_learn_known A c d Ek), <-(world_id w c f) by apply K.
  apply (names_child fs w t p A ip fp c d); try done.
  rewrite world_id by apply K. by apply (known_upd w t c d i).
Qed.

(** The same for the directory. *)
Lemma names_upd_self w t p A ip fp ip' :
  names fs w t p A ip fp → attr ip' = attr ip → 1 ≤ nlookup ip' →
  names fs w (<[p := ip']> t) p A ip' fp.
Proof.
  intros N Ha Hn. rewrite <-(world_id w p fp) by apply N.
  apply (names_self fs w t p A ip fp); try done; try apply N; rewrite Ha; apply N.
Qed.

Lemma names_get w t l h r p A ip fp c d :
  names fs w t p A ip fp → ns_known A !! c = Some d →
  ∃ i f, GetInode c true (mk s w t l h r) = Ok (Some c, mk s w (<[c := i]> t) l h r)
    ∧ names fs w (<[c := i]> t) p A ip fp ∧ known fs w (<[c := i]> t) c d i f ∧ 1 < nlookup i.
Proof.
  intros N Ek. destruct (nm_known _ _ _ _ _ _ _ N c d Ek) as (_ & _ & _ & i & f & K).
  pose proof (kn_held _ _ _ _ _ _ _ K). eexists _, f. split; [apply mk_get, K|].
  split; [by apply (names_upd w t p A ip fp c d i f); [..|cbn; lia]|].
  split; [apply (known_upd w t c d i); [done|done|cbn; lia]|cbn; lia].
Qed.

Lemma names_release w t l h r p A ip fp c d i f :
  names fs w t p A ip fp → ns_known A !! c = Some d → known fs w t c d i f → 1 < nlookup i →
  ∃ n t', Release c 1 (mk s w t l h r) = Ok (n, mk s w t' l h r)
    ∧ t' = <[c := set_nlookup n i]> t ∧ names fs w t' p A ip fp ∧ 1 ≤ n.
Proof.
  intros N Ek K Hn. eexists _, _. split; [apply mk_release; [apply K|done]|]. split; [done|].
  split; [apply (names_upd w t p A ip fp c d i f); try done; cbn; lia|lia].
Qed.

(** [Refresh] of a known child. *)
Lemma names_refresh_child w t l h r p A ip fp c d i f :
  names fs w t p A ip fp → ns_known A !! c = Some d → known fs w t c d i f →
  ∃ i' f' w', inode_Refresh c (mk s w t l h r) = Ok (0, mk s w' (<[c := i']> t) l h r)
    ∧ istate i' ≠ I_INVALID ∧ nlookup i' = nlookup i
    ∧ known fs w' (<[c := i']> t) c d i' f' ∧ names fs w' (<[c := i']> t) p A ip fp.
Proof.
  intros N Ek K. destruct (nm_known _ _ _ _ _ _ _ N c d Ek) as (Hc & Hr & Hs & _).
  destruct (kn_obj _ _ _ _ _ _ _ K) as [O1 O2 O3].
  destruct (refresh_obj w t l h r c d i f) as (i' & f' & E' & Hl & Hi & Hv & Hor); try apply K; try done.
  assert (known fs (mkW (<[c := f']> (w_heap w)) (w_kv w) (w_clock w)) (<[c := i']> t) c d i' f') as K'.
  { pose proof (kn_held _ _ _ _ _ _ _ K).
    split; try done; [apply lookup_insert_eq..|by lia| |];
      destruct Hor as [(-> & -> & _)|(Hd & m & -> & M)]; try done; try apply K. }
  exists i', f'. eexists. split; [exact E'|]. do 2 (split; [done|]). split; [exact K'|].
  rewrite <-(ns_learn_known A c d Ek). by apply (names_child fs w t p A ip fp c d).
Qed.

(** [GetInode] and [Refresh] of a bound child. *)
Lemma names_load w t l h r p A ip fp n c d :
  names fs w t p A ip fp → ns_names A !! n = Some (c, d) → is_dot_name n = false →
  ∃ i f w' t', (GetInode c true;; inode_Refresh c) (mk s w t l h r) = Ok (0, mk s w' t' l h r)
    ∧ istate i ≠ I_INVALID ∧ known fs w' t' c d i f ∧ names fs w' t' p (ns_learn c d A) ip fp.
Proof.
  intros N En Hdot. destruct (nm_child _ _ _ _ _ _ _ N n c d En Hdot) as (Hc & Hr & Hs & Hor).
  destruct Hor as [Ek|[Ek Et]].
  - destruct (names_get w t l h r p A ip fp c d N Ek) as (i & f & E & N1 & K & Hn).
    destruct (names_refresh_child w (<[c := i]> t) l h r p A ip fp c d i f N1 Ek K)
      as (i' & f' & w' & E' & Hv & _ & K' & N').
    exists i', f', w'. eexists. rewrite ns_learn_known by done.
    split; [by rewrite (bind_ok _ _ _ _ _ E)|done].
  - pose proof (mk_new_inode s w t l h r c Et) as E. set (w1 := mkW _ _ _) in E. set (t1 := <[c := _]> t) in E.
    destruct (refresh_obj w1 t1 l h r c d (set_nlookup 1 (new_inode c)) (new_inode_file fs c))
      as (i' & f' & E' & Hl & Hi & Hv & Hor); try done; [apply lookup_insert_eq..|].
    destruct Hor as [(_ & _ & Hst)|(Hd & m & -> & M)]; [done|]. unfold w1, t1 in E'.
    cbn [w_heap w_kv w_clock] in E'. rewrite !insert_insert_eq in E'.
    exists i', (set_meta m (new_inode_file fs c)). eexists _, _.
    split; [rewrite (bind_ok _ _ _ _ _ E); exact E'|]. split; [done|].
    assert (∀ x, known fs (mkW (<[c := set_meta m (new_inode_file fs c)]> (w_heap w)) (w_kv w) x)
      (<[c := i']> t) c d i' (set_meta m (new_inode_file fs c))) as K.
    { intros x. split; try done; [apply lookup_insert_eq..|by rewrite Hl]. }
    split; [apply K|]. by apply (names_child fs w t p A ip fp c d).
Qed.

(** [LogFSFile::remove] of a known child. *)
Lemma names_remove w t l h r p A ip fp n c d i f :
  names fs w t p A ip fp → ns_known A !! c = Some d → known fs w t c d i f →
  ns_names A !! n = Some (c, d) →
  ∃ w' f' fp', at_world (remove c p n) (mk s w t l h r) = Ok (STATUS_OK, mk s w' t l h r)
    ∧ known fs w' t c d i f' ∧ names fs w' t p (set_names (delete n (ns_names A)) A) ip fp'.
Proof.
  intros N Ek K En. destruct (nm_known _ _ _ _ _ _ _ N c d Ek) as (Hc & Hr & Hs & _).
  destruct (nm_obj _ _ _ _ _ _ _ N) as [O1 O2 O3].
  destruct (remove_found (w_heap w) (w_kv w) (w_clock w) c p f fp n c Hc)
    as (fp' & kv' & E & D & Hsb & F & Hk); [apply K|apply N|apply N|by rewrite (nm_find _ _ _ _ _ _ _ N), En|].
  set (f' := set_meta _ f) in E. set (w' := mkW (<[c := f']> _) _ _) in E.
  assert (known fs w' t c d i f') as K'.
  { destruct K as [K1 K2 K3 K4 K5 [K6 K7 K8]]. split; try done; [apply lookup_insert_eq|].
    by apply object_meta, meta_is_nLink. }
  assert (∀ j, kv_get kv' (inode_key j) = kv_get (w_kv w) (inode_key j)) as Hino
    by (intros j; apply Hk; intros x _; apply inode_sub_key).
  exists w', f', fp'. split; [apply mk_at_world; by destruct w|]. split; [done|].
  apply (names_step fs w t p A ip fp _ _ _ _ _ [c] N); cbn; try apply N; try done.
  - pose proof (nm_next _ _ _ _ _ _ _ N). lia.
  - by intros x ->%list_elem_of_singleton.
  - apply (confined_entries _ _ _ _ Hk). rewrite O2. constructor.
  - intros j Hj Hj'. rewrite !lookup_insert_ne; [done|auto..].
  - rewrite lookup_insert_ne by done. apply lookup_insert_eq.
  - apply (object_parts _ _ _ fp); [done|apply N].
  - intros x. rewrite F, (nm_find _ _ _ _ _ _ _ N). case_decide as Hx; [subst; by rewrite lookup_delete_eq|].
    by rewrite lookup_delete_ne.
  - apply (stored_ext (w_kv w)); [done|apply N].
  - intros x y ->%list_elem_of_singleton. rewrite Ek. intros [= <-]. split; [|by eauto].
    by apply (stored_ext (w_kv w)).
  - intros x y z [_ Ex]%lookup_delete_Some Hdot. case_decide as Hin; [|done].
    apply list_elem_of_singleton in Hin as ->.
    destruct (nm_child _ _ _ _ _ _ _ N x c z Ex Hdot) as (_ & _ & Hs' & _).
    rewrite Ek. f_equal. by apply (stored_det (w_kv w) fs c).
Qed.

(** [LogFSFile::link] of a known file under a new name. *)
Lemma names_link w t l h r p A ip fp n c i f :
  names fs w t p A ip fp → ns_known A !! c = Some false → known fs w t c false i f →
  ns_names A !! n = None → wf_name n → ns_room A n →
  ∃ w' f' fp', at_world (link p c n) (mk s w t l h r) = Ok (STATUS_OK, mk s w' t l h r)
    ∧ known fs w' t c false i f'
    ∧ names fs w' t p (set_names (<[n := (c, false)]> (ns_names A)) A) ip fp'.
Proof.
  intros N Ek K En Wn Hroom. destruct (nm_known _ _ _ _ _ _ _ N c _ Ek) as (Hc & Hr & Hs & _).
  destruct (nm_obj _ _ _ _ _ _ _ N) as [O1 O2 O3]. pose proof (nm_next _ _ _ _ _ _ _ N) as Hnx.
  destruct K as [K1 K2 K3 K4 K5 [K6 K7 K8]].
  destruct (link_new (w_heap w) (w_kv w) (w_clock w) p c fp f n) as
    (fp' & f' & kv' & clk' & t1 & t2 & t3 & E & D & Sp & Sf & F & Em & Efs & Eh & Ef & C);
    try done; try apply N; try congruence; try lia.
  { apply K8. }
  { by apply (names_fits fs w t p A ip). }
  { by rewrite (nm_find _ _ _ _ _ _ _ N), En. }
  assert (object fs c false f') as Of.
  { rewrite Ef. split; try done. by apply meta_is_ctime, meta_is_nLink. }
  assert (object fs p true fp') as Op.
  { split; [congruence..|]. rewrite Em. by apply meta_is_mtime, meta_is_ctime. }
  set (w' := mkW (<[c := f']> _) _ _) in E.
  assert (known fs w' t c false i f') as K' by (split; try done; apply lookup_insert_eq).
  exists w', f', fp'. split; [apply mk_at_world; by destruct w|]. split; [done|].
  apply (names_step fs w t p A ip fp _ _ _ _ _ [c] N); cbn; try apply N; try done.
  - by intros x ->%list_elem_of_singleton.
  - by rewrite <-O2, <-K7.
  - intros j Hj Hj'. rewrite !lookup_insert_ne; [done|auto..].
  - rewrite lookup_insert_ne by done. apply lookup_insert_eq.
  - intros x. rewrite F, (nm_find _ _ _ _ _ _ _ N), K7. case_decide as Hx;
      [subst; by rewrite lookup_insert_eq|by rewrite lookup_insert_ne].
  - by apply (object_synced _ _ _ _ fp').
  - intros x y ->%list_elem_of_singleton. rewrite Ek. intros [= <-]. split; [|by eauto].
    by apply (object_synced _ _ _ _ f').
  - intros x y z [[_ [= <- <-]]|[_ Ex]]%lookup_insert_Some Hdot; [by rewrite decide_True by constructor|].
    case_decide as Hin; [|done]. apply list_elem_of_singleton in Hin as ->.
    destruct (nm_child _ _ _ _ _ _ _ N x c z Ex Hdot) as (_ & _ & Hs' & _).
    rewrite Ek. f_equal. by apply (stored_det (w_kv w) fs c).
Qed.

(** [LogFSFile::create] of either kind. *)
Lemma create_kind hp (kv : S) clk self parent f fp (d : kind) :
  create_pre hp kv self parent f fp → (if d then S_ISDIR else S_ISREG) (fmode f) = true →
  ∃ fc fp' kv' clk' k,
    create self parent (mkW hp kv clk) =
      Ok (STATUS_OK, mkW (<[self := fc]> (<[parent := fp']> hp)) kv' clk')
    ∧ dir_inv fp' kv' ∧ synced fc kv'
    ∧ (∀ n, dir_find fp' kv' n = if decide (n = nameString f) then Some (handle f) else dir_find fp kv n)
    ∧ handle fc = handle f ∧ fsId fc = fsId f ∧ meta fc = set_nLink (u32 k) (init_meta f clk)
    ∧ meta_type (meta fc) = kind_type d ∧ handle fp' = handle fp ∧ fsId fp' = fsId fp
    ∧ confined kv kv' [handle f; handle fp]
    ∧ ((meta fp' = meta fp ∧ kv_get kv' (inode_key (handle fp)) = kv_get kv (inode_key (handle fp)))
       ∨ synced fp' kv' ∧ ∃ k, meta fp' = set_nLink (u32 k) (meta fp)).
Proof.
  intros P Hmode. destruct d.
  - destruct (create_dir_ok hp kv clk self parent f fp P Hmode) as (fc & fp' & kv' & clk' & E & D & _ & F
      & _ & Sc & Sp & Hc & Hp & Ht & _ & _ & Hm & Hf & Hmp & Hfp & C).
    exists fc, fp', kv', clk', 2. repeat (split; [done|]). right. eauto.
  - destruct (create_file_ok hp kv clk self parent f fp P Hmode) as (fc & fp' & kv' & clk' & E & D & Hs & F
      & Sc & Hc & _ & Ht & _ & _ & _ & Hm & Hf & C & Hk & _).
    destruct (same_but_parts_fields _ _ Hs) as (Efs & Eh & Em & _).
    exists fc, fp', kv', clk', 1. repeat (split; [done|]). left. split; [done|]. apply Hk.
    pose proof (di_ino _ _ (cp_dir _ _ _ _ _ _ P)). pose proof (cp_h _ _ _ _ _ _ P).
    pose proof (cp_hne _ _ _ _ _ _ P). by apply u64_ne, not_eq_sym.
Qed.

Lemma wf_nLink n k m : wf_meta (set_nLink n m) → wf_meta (set_nLink (u32 k) m).
Proof. pose proof (u32_range k). intros []. by split. Qed.

(** The number of the next inode. *)
Lemma names_next w t p A ip fp c :
  names fs w t p A ip fp → c = ns_next A + 1 → c < 18446744073709551616 →
  0 < c ∧ c ≠ p ∧ t !! c = None ∧ ∀ i, 0 ≤ i < OFF_MAX → kv_get (w_kv w) (sub_key c i) = None.
Proof.
  intros N -> Hc. pose proof (nm_p _ _ _ _ _ _ _ N).
  destruct (nm_above _ _ _ _ _ _ _ N (ns_next A + 1)); [lia|]. split; [lia|]. split; [lia|done].
Qed.

(** The object of the new inode after [LogFSFile::create]. *)
Lemma child_created p n mode clk fc d k :
  0 < p < 18446744073709551616 → 0 ≤ m_handleId s < 18446744073709551615 → 0 ≤ fs < 18446744073709551616 →
  -9223372036854775808 ≤ next_xid (m_log s) < 9223372036854775807 →
  0 ≤ env_uid < 4294967296 → 0 ≤ env_gid < 4294967296 →
  handle fc = handle (child_object s p n mode) → fsId fc = fs →
  meta fc = set_nLink (u32 k) (init_meta (child_object s p n mode) clk) →
  meta_type (meta fc) = kind_type d → object fs (m_handleId s + 1) d fc.
Proof.
  intros Hp Hh Hf Hx Hu Hg Eh Ef Em Ht. split; [done|done|]. split; [|by rewrite Em..|done].
  rewrite Em. apply (wf_nLink 1), child_meta_wf; try done. apply child_object_wf; [lia|done].
Qed.

(** The precondition of [LogFSFile::create] when a handler calls it. *)
Lemma names_create_pre w t p A ip fp n mode c :
  let fp2 := set_meta (set_xid (next_xid (m_log s)) (meta fp)) fp in
  let hp := <[p := fp2]> (<[c := child_object s p n mode]>
              (<[c := new_inode_file fs c]> (w_heap w))) in
  names fs w t p A ip fp → m_handleId s = ns_next A → c = ns_next A + 1 → c < 18446744073709551616 →
  ns_names A !! n = None → wf_name n → ns_room A n →
  create_pre hp (w_kv w) c p (child_object s p n mode) fp2.
Proof.
  intros fp2 hp N Hh Hc Hlt En Wn Hroom.
  destruct (names_next w t p A ip fp c N Hc Hlt) as (Hc0 & Hcp & _ & Hun).
  destruct (nm_obj _ _ _ _ _ _ _ N) as [O1 O2 O3].
  destruct (dir_inv_frame fp fp2 (w_kv w) (w_kv w)) as [D2 F2]; [done..|apply N|].
  assert (handle (child_object s p n mode) = c) as Hhc by (cbn; lia).
  split; rewrite ?Hhc; try done; try lia.
  - unfold hp. rewrite lookup_insert_ne by done. apply lookup_insert_eq.
  - apply lookup_insert_eq.
  - apply N.
  - unfold fp2. cbn. congruence.
  - exact (names_fits fs w t p A ip fp n N Hroom).
  - rewrite F2, (nm_find _ _ _ _ _ _ _ N). change (nameString _) with n. by rewrite En.
Qed.

(** The directory with a new name for a new inode. *)
Lemma names_add w t p A ip fp c d n w' t' ic fc fp' :
  names fs w t p A ip fp → c = ns_next A + 1 → c < 18446744073709551616 →
  known fs w' t' c d ic fc → stored (w_kv w') fs c d → confined (w_kv w) (w_kv w') [c; p] →
  t' !! p = t !! p → w_heap w' !! p = Some fp' →
  (∀ j, j ≠ p → j ≠ c → t' !! j = t !! j ∧ w_heap w' !! j = w_heap w !! j) →
  object fs p true fp' → stored (w_kv w') fs p true → dir_inv fp' (w_kv w') →
  (∀ y, dir_find fp' (w_kv w') y = if decide (y = n) then Some c else dir_find fp (w_kv w) y) →
  names fs w' t' p (ns_add n d A) ip fp'.
Proof.
  intros N Hc Hlt Kc Sc C Ep Efp Hsame Op Sp D F.
  destruct (names_next w t p A ip fp c N Hc Hlt) as (Hc0 & Hcp & _).
  apply (names_step fs w t p A ip fp _ _ _ _ _ [c] N); try apply N; try done; cbn; rewrite <-?Hc.
  - lia.
  - intros j ->%list_elem_of_singleton. lia.
  - apply (confined_weaken _ _ [c; p]); [by repeat constructor|done].
  - intros j Hj Hj'. apply Hsame; [done|]. by apply not_eq_sym, not_in_one.
  - rewrite Ep. apply N.
  - intros y. rewrite F. case_decide as Hy; [subst; by rewrite lookup_insert_eq|].
    rewrite lookup_insert_ne by done. apply N.
  - intros j y ->%list_elem_of_singleton. rewrite lookup_insert_eq. intros [= <-]. eauto.
  - intros j Hj. rewrite lookup_insert_ne; [done|auto].
  - intros y j z [[_ [= <- <-]]|[_ Ey]]%lookup_insert_Some Hdot.
    + rewrite decide_True by constructor. apply lookup_insert_eq.
    + destruct (nm_child _ _ _ _ _ _ _ N y j z Ey Hdot) as (_ & Hr & _).
      by rewrite decide_False by (intros ->%list_elem_of_singleton; lia).
Qed.

(** The middle of [Create] and [Mkdir]: a new inode, prepared and created. *)
Lemma names_make w t r p A ip fp n mode (d : kind) {B} (K : Z → Z → Status → M (MountState S) B) :
  let c := ns_next A + 1 in
  let x := next_xid (m_log s) in
  names fs w t p A ip fp → m_handleId s = ns_next A → c < 18446744073709551616 →
  -9223372036854775808 ≤ x < 9223372036854775807 →
  0 ≤ env_uid < 4294967296 → 0 ≤ env_gid < 4294967296 →
  ns_names A !! n = None → wf_name n → (length n < NAME_MAX)%nat → ns_room A n →
  (if d then S_ISDIR else S_ISREG) mode = true →
  ∃ w' t' ic fc fp',
    (x ← at_log NextXid; child ← GetNextIno; GetInode child true;; prepare_child p child n mode x;;
     status ← at_world (create child p); K x child status) (mk s w t (m_log s) (m_handleId s) r) =
    K x c STATUS_OK (mk s w' t' (set_next_xid (x + 1) (m_log s)) c r)
    ∧ known fs w' t' c d ic fc ∧ names fs w' t' p (ns_add n d A) ip fp'.
Proof.
  intros c x N Hh Hlt Hx Hu Hg En Wn Hlen Hroom Hmode.
  destruct (names_next w t p A ip fp c N eq_refl Hlt) as (Hc0 & Hcp & Et & _).
  destruct (nm_obj _ _ _ _ _ _ _ N) as [O1 O2 O3]. pose proof (nm_p _ _ _ _ _ _ _ N) as Hp.
  destruct (create_kind _ (w_kv w) (w_clock w) c p _ _ d
    (names_create_pre w t p A ip fp n mode c N Hh eq_refl Hlt En Wn Hroom) Hmode)
    as (fc & fp' & kv' & clk' & k & E & D & Sc & F & Hhc & Hfc & Hmc & Htc & Hhp & Hfp & C & Hor).
  change (handle (set_meta _ fp)) with (handle fp) in *. change (fsId (set_meta _ fp)) with (fsId fp) in *.
  assert (object fs c d fc) as Oc.
  { unfold c. rewrite <-Hh. apply (child_created p n mode (w_clock w) fc d k); try done; try lia. apply N. }
  assert (object fs p true fp' ∧ stored kv' fs p true) as [Op Sp].
  { assert (meta_is fs p true (set_xid x (meta fp))) as Mx by (apply meta_is_xid; [lia|done]).
    destruct Hor as [[Hm Hk]|[Sy [k' Hm]]].
    - split; [by split; [congruence..|rewrite Hm]|]. apply (stored_ext (w_kv w)); [by rewrite <-O2|apply N].
    - assert (object fs p true fp') by (split; [congruence..|]; rewrite Hm; by apply meta_is_nLink).
      split; [done|]. by apply (object_synced _ _ _ _ fp'). }
  set (ic := set_attr (stat_mode mode (attr (new_inode c))) (set_nlookup 1 (new_inode c))).
  set (t2 := <[c := set_nlookup 1 (new_inode c)]> t).
  set (w' := mkW (<[c := fc]> _) kv' clk') in E.
  exists w', (<[c := ic]> t2), ic, fc, fp'.
  assert (known fs w' (<[c := ic]> t2) c d ic fc) as Kc.
  { split; try done; [apply lookup_insert_eq..|]. cbn. clear -Hmode. by apply shows_kind_mode. }
  split; [|split; [done|]].
  - rewrite (bind_ok _ _ _ _ _ (mk_next_xid s w t _ _ _)). fold x.
    rewrite (bind_ok _ _ _ _ _ (mk_next_ino s w t _ _ _)). rewrite Hh, u64_small by lia. fold c.
    rewrite (bind_ok _ _ _ _ _ (mk_new_inode s w t _ c _ c Et)). fold t2.
    set (w2 := mkW (<[c := new_inode_file fs c]> (w_heap w)) (w_kv w) (w_clock w)).
    assert (t2 !! p = Some ip) as Ep by (unfold t2; rewrite lookup_insert_ne by done; apply N).
    assert (w_heap w2 !! p = Some fp) as Efp by (cbn; rewrite lookup_insert_ne by done; apply N).
    rewrite (bind_ok _ _ _ _ _ (prepare_child_run s w2 t2 _ c r p c n mode x ip fp Hcp
      ltac:(unfold c; lia) eq_refl Hlen Ep (nm_ino _ _ _ _ _ _ _ N) (lookup_insert_eq _ _ _) Efp
      (lookup_insert_eq _ _ _))).
    by rewrite (bind_ok _ _ _ _ _ (mk_at_world s _ _ _ c r _ _ _ E)).
  - apply (names_add w t p A ip fp c d n w' _ ic fc fp' N eq_refl Hlt Kc); try done.
    + by apply (object_synced _ _ _ _ fc).
    + replace [c; p] with [handle (child_object s p n mode); handle fp]; [done|]. cbn. by rewrite O2, Hh.
    + cbn. unfold t2. by rewrite !lookup_insert_ne by done.
    + cbn. rewrite lookup_insert_ne by done. apply lookup_insert_eq.
    + intros j Hj Hj'. cbn. unfold t2. by rewrite !lookup_insert_ne by done.
    + intros y. rewrite F. cbn [handle child_object]. by rewrite Hh.
Qed.

(** ** Whole requests *)

Lemma bind_seq {A B C} (m1 : M (MountState S) A) (m2 : M (MountState S) B) (K : B → M (MountState S) C)
    s0 b s1 :
  (m1;; m2) s0 = Ok (b, s1) → (m1;; x ← m2; K x) s0 = K b s1.
Proof. unfold mbind, M_bind. destruct (m1 s0) as [[u s2]|]; [|done]. by intros ->. Qed.

Lemma mk_reply w t l h r rep :
  fuse_reply rep (mk s w t l h r) = Ok (fuse_reply_ret rep, mk s w t l h (r ++ [rep])).
Proof. done. Qed.

(** An entry without an xid gets the next one. *)
Lemma mk_append_new w t l h r e :
  e_xid e = None →
  at_log (Append e) (mk s w t l h r) =
    Ok (next_xid l, mk s w t (set_deque (log_deque l ++ [with_xid (next_xid l) e])
                                (set_next_xid (next_xid l + 1) l)) h r).
Proof. intros E. by rewrite (append_new (mk s w t l h r) e E). Qed.

(** What a handler leaves: one reply, the logged changes, and the directory in its new
    state, held as often as before. *)
Record ns_done (p : Z) (A : NS) (a : ns_reply) (changed : bool) (n : Z) (s' : MountState S) : Prop := {
  nd_reply : ∃ rep, m_replies s' = m_replies s ++ [rep] ∧ ns_shows a rep;
  nd_log : ∃ es, log_deque (m_log s') = log_deque (m_log s) ++ es
    ∧ length es = (if changed then 1 else 0)%nat ∧ Forall (λ e, e_parent_inode_num e = Some p) es;
  nd_xid : next_xid (m_log s) ≤ next_xid (m_log s') ≤ next_xid (m_log s) + 2;
  nd_next : m_handleId s' = ns_next A;
  nd_fs : m_fs_id s' = fs;
  nd_names : ∃ ip fp, names fs (m_world s') (m_inodes s') p A ip fp ∧ nlookup ip = n;
}.

Lemma ns_done_quiet p A a n w t h rep ip fp x :
  names fs w t p A ip fp → nlookup ip = n → ns_shows a rep → h = ns_next A →
  next_xid (m_log s) ≤ x ≤ next_xid (m_log s) + 2 →
  ns_done p A a false n (mk s w t (set_next_xid x (m_log s)) h (m_replies s ++ [rep])).
Proof.
  intros N Hn Hs Hh Hx. split; cbn; eauto. exists []. by rewrite app_nil_r.
Qed.

Lemma ns_done_logged p A a n w t h rep ip fp x e :
  names fs w t p A ip fp → nlookup ip = n → ns_shows a rep → h = ns_next A →
  next_xid (m_log s) ≤ x ≤ next_xid (m_log s) + 2 → e_parent_inode_num e = Some p →
  ns_done p A a true n (mk s w t (set_deque (log_deque (m_log s) ++ [e]) (set_next_xid x (m_log s))) h
                          (m_replies s ++ [rep])).
Proof.
  intros N Hn Hs Hh Hx He. split; cbn; eauto 6.
Qed.

Lemma log_id : set_next_xid (next_xid (m_log s)) (m_log s) = m_log s.
Proof. by destruct (m_log s). Qed.

Lemma child_number w t p A ip fp n c d :
  names fs w t p A ip fp → ns_names A !! n = Some (c, d) → is_dot_name n = false → (c =? 0) = false.
Proof.
  intros N En Hdot. destruct (nm_child _ _ _ _ _ _ _ N n c d En Hdot) as (_ & ? & _).
  apply Z.eqb_neq. lia.
Qed.

(** The mount in the form of the lemmas above. *)
Abbreviation here := (mk s (m_world s) (m_inodes s) (m_log s) (m_handleId s) (m_replies s)).

Lemma Lookup_names p A ip fp n :
  replies_delivered → names fs (m_world s) (m_inodes s) p A ip fp → m_handleId s = ns_next A →
  is_dot_name n = false →
  ∃ s', Lookup p n here = Ok (tt, s')
    ∧ ns_done p (fst (ns_step A (NLookup n))) (snd (ns_step A (NLookup n))) false (nlookup ip) s'.
Proof.
  intros Hr N Hh Hdot. unfold Lookup.
  destruct (names_find _ _ (m_log s) (m_handleId s) (m_replies s) p A ip fp n N) as (fp1 & w1 & E1 & N1).
  rewrite (bind_ok _ _ _ _ _ E1). cbn [ns_step]. destruct (ns_names A !! n) as [[c d]|] eqn:En.
  - change (default 0 _) with c. rewrite (child_number w1 _ p A ip fp1 n c d N1 En Hdot). cbn [Z.eqb].
    destruct (names_load w1 _ (m_log s) (m_handleId s) (m_replies s) p A ip fp1 n c d N1 En Hdot)
      as (i & f & w2 & t2 & E2 & Hv & K & N2).
    set (i2 := set_istate I_CLEAN i).
    rewrite (bind_ok _ _ _ (0, (st_ino (attr i), attr i))
      (mk s w2 (<[c := i2]> t2) (m_log s) (m_handleId s) (m_replies s))).
    2:{ rewrite (bind_seq _ _ _ _ _ _ E2). rewrite (bind_ok _ _ _ _ _ (mk_inode s _ _ _ _ _ c i (kn_inode _ _ _ _ _ _ _ K))).
        rewrite bool_decide_eq_false_2 by done. cbn [negb]. unfold set_state.
        by rewrite (bind_ok _ _ _ _ _ (mk_upd_inode s _ _ _ _ _ c i _ (kn_inode _ _ _ _ _ _ _ K))). }
    cbn [negb Z.eqb fst snd]. rewrite (bind_ok _ _ _ _ _ (mk_reply _ _ _ _ _ _)). rewrite Hr.
    eexists. split; [done|]. rewrite <-log_id at 1.
    eapply ns_done_quiet; [|done|by cbn; split_and!; apply K|done|lia].
    apply (names_upd w2 t2 p _ ip fp1 c d i f); try done; [|apply K].
    apply lookup_insert_eq.
  - change (default 0 _) with 0. cbn [Z.eqb].
    rewrite (bind_ok _ _ _ (ENOENT, (0, stat_zero)) (mk s w1 (m_inodes s) (m_log s) (m_handleId s) (m_replies s)))
      by done.
    cbn [negb]. change (ENOENT =? 0) with false. cbn [negb].
    rewrite (bind_ok _ _ _ _ _ (mk_reply _ _ _ _ _ _)). rewrite Hr.
    eexists. split; [done|]. rewrite <-log_id at 1. by eapply ns_done_quiet; [..|lia].
Qed.

(** The log entry of a change, numbered by the log. *)
Lemma log_change w t l h r p A ip fp op c nm :
  names fs w t p A ip fp →
  (s' ← get_st; i ← inode p;
   at_log (Append (log_entry op None (m_fs_id s') c (Some (st_ino (attr i))) nm None None));; mret tt)
    (mk s w t l h r) =
  Ok (tt, mk s w t (set_deque (log_deque l ++ [with_xid (next_xid l) (log_entry op None fs c (Some p) nm None None)])
                      (set_next_xid (next_xid l + 1) l)) h r).
Proof.
  intros N. set (s0 := mk s w t l h r). rewrite (bind_ok _ _ s0 s0 s0) by done.
  rewrite (bind_ok _ _ _ _ _ (mk_inode s w t l h r p ip (nm_inode _ _ _ _ _ _ _ N))).
  rewrite (nm_ino _ _ _ _ _ _ _ N). change (m_fs_id s0) with fs.
  set (e := log_entry op None fs c (Some p) nm None None).
  by rewrite (bind_ok _ _ _ _ _ (mk_append_new w t l h r e eq_refl)).
Qed.

Lemma Unlink_names p A ip fp n :
  names fs (m_world s) (m_inodes s) p A ip fp → m_handleId s = ns_next A → ns_ok A (NUnlink n) →
  ∃ s', Unlink p n here = Ok (tt, s')
    ∧ ns_done p (fst (ns_step A (NUnlink n))) (snd (ns_step A (NUnlink n)))
        (ns_changed (NUnlink n) (snd (ns_step A (NUnlink n)))) (nlookup ip) s'.
Proof.
  intros N Hh [Hdot Hk]. unfold Unlink.
  destruct (names_find _ _ (m_log s) (m_handleId s) (m_replies s) p A ip fp n N) as (fp1 & w1 & E1 & N1).
  rewrite (bind_ok _ _ _ _ _ E1). cbn [ns_step]. destruct (ns_names A !! n) as [[c d]|] eqn:En.
  - specialize (Hk c d eq_refl). change (default 0 _) with c.
    rewrite (child_number w1 _ p A ip fp1 n c d N1 En Hdot).
    destruct (names_get w1 _ (m_log s) (m_handleId s) (m_replies s) p A ip fp1 c d N1 Hk)
      as (i & f & E2 & N2 & K2 & Hn).
    destruct (names_remove w1 _ (m_log s) (m_handleId s) (m_replies s) p A ip fp1 n c d i f N2 Hk K2 En)
      as (w3 & f3 & fp3 & E3 & K3 & N3).
    destruct (names_release w3 _ (m_log s) (m_handleId s) (m_replies s) p _ ip fp3 c d i f3 N3 Hk K3 Hn)
      as (k & t4 & E4 & _ & N4 & _).
    rewrite (bind_ok _ _ _ 0 (mk s w3 t4 (m_log s) (m_handleId s) (m_replies s)))
      by by rewrite (bind_ok _ _ _ _ _ E2), (bind_ok _ _ _ _ _ E3), (bind_ok _ _ _ _ _ E4).
    cbn [Z.eqb]. rewrite (bind_ok _ _ _ _ _ (log_change w3 t4 _ _ _ p _ ip fp3 OP_UNLINK c None N4)).
    rewrite (bind_ok _ _ _ _ _ (mk_reply _ _ _ _ _ _)).
    eexists. split; [done|]. by eapply ns_done_logged; [done..|lia|].
  - change (default 0 _) with 0.
    rewrite (bind_ok _ _ _ ENOENT (mk s w1 (m_inodes s) (m_log s) (m_handleId s) (m_replies s))) by done.
    change (ENOENT =? 0) with false. rewrite (bind_ok _ _ _ tt _) by done.
    rewrite (bind_ok _ _ _ _ _ (mk_reply _ _ _ _ _ _)).
    eexists. split; [done|]. rewrite <-log_id at 1. by eapply ns_done_quiet; [..|lia].
Qed.

(** Setting the xid of an object in memory. *)
Lemma names_xid_child w t l h r p A ip fp c d i f x :
  names fs w t p A ip fp → ns_known A !! c = Some d → known fs w t c d i f →
  -9223372036854775808 ≤ x < 9223372036854775808 →
  ∃ w' f', on_file c (upd_meta (set_xid x)) (mk s w t l h r) = Ok (tt, mk s w' t l h r)
    ∧ known fs w' t c d i f' ∧ names fs w' t p A ip fp.
Proof.
  intros N Ek K Hx. destruct (nm_known _ _ _ _ _ _ _ N c d Ek) as (Hc & Hr & Hs & _).
  set (f' := set_meta (set_xid x (meta f)) f).
  set (w' := mkW (<[c := f']> (w_heap w)) (w_kv w) (w_clock w)).
  assert (∀ u, known fs w' (<[c := i]> u) c d i f') as K'.
  { intros u. destruct K as [? ? ? ? ? [? ? ?]]. split; try done; [apply lookup_insert_eq..|].
    by apply object_meta, meta_is_xid. }
  exists w', f'. split; [by apply (mk_on_file s w t l h r c _ f); [apply K|]|].
  specialize (K' t). rewrite <-(insert_id t c i) by apply K. split; [done|].
  rewrite <-(ns_learn_known A c d Ek). by apply (names_child fs w t p A ip fp c d).
Qed.

Lemma names_xid_self w t l h r p A ip fp x :
  names fs w t p A ip fp → -9223372036854775808 ≤ x < 9223372036854775808 →
  ∃ fp', on_file p (upd_meta (set_xid x)) (mk s w t l h r) =
      Ok (tt, mk s (mkW (<[p := fp']> (w_heap w)) (w_kv w) (w_clock w)) t l h r)
    ∧ names fs (mkW (<[p := fp']> (w_heap w)) (w_kv w) (w_clock w)) t p A ip fp'.
Proof.
  intros N Hx. set (fp' := set_meta (set_xid x (meta fp)) fp). exists fp'.
  split; [by apply (mk_on_file s w t l h r p _ fp); [apply N|]|].
  destruct (nm_obj _ _ _ _ _ _ _ N) as [O1 O2 O3].
  destruct (dir_inv_frame fp fp' (w_kv w) (w_kv w)) as [D F]; [done..|apply N|].
  rewrite <-(insert_id t p ip) by apply N.
  apply (names_self fs w t p A ip fp); try done; try apply N. by apply object_meta, meta_is_xid.
Qed.

Lemma known_other w t p c d i f fp' : 
  c ≠ p → known fs w t c d i f →
  known fs (mkW (<[p := fp']> (w_heap w)) (w_kv w) (w_clock w)) t c d i f.
Proof. intros Hc []. split; try done. cbn. by rewrite lookup_insert_ne. Qed.

(** The removal in [Rmdir], on a known directory. *)
Lemma Rmdir_remove w t p A ip fp n c i f :
  let x := next_xid (m_log s) in
  names fs w t p A ip fp → ns_known A !! c = Some true → known fs w t c true i f →
  ns_names A !! n = Some (c, true) → -9223372036854775808 ≤ x < 9223372036854775806 →
  ∃ w' f' fp' e,
    (x ← at_log NextXid;
     on_file c (upd_meta (set_xid x));;
     on_file p (upd_meta (set_xid x));;
     status ← at_world (remove c p n);
     let err := StatusToErrno status in
     (if err =? 0 then
        s' ← get_st; i ← inode p;
        at_log (Append (log_entry OP_RMDIR None (m_fs_id s') c
                          (Some (st_ino (attr i))) (Some n) None None));; mret tt
      else mret tt);;
     mret err) (mk s w t (m_log s) (m_handleId s) (m_replies s)) =
    Ok (0, mk s w' t (set_deque (log_deque (m_log s) ++ [e]) (set_next_xid (x + 2) (m_log s)))
             (m_handleId s) (m_replies s))
    ∧ known fs w' t c true i f' ∧ names fs w' t p (set_names (delete n (ns_names A)) A) ip fp'
    ∧ e_parent_inode_num e = Some p.
Proof.
  intros x N Ek K En Hx. destruct (nm_known _ _ _ _ _ _ _ N c _ Ek) as (Hc & _).
  set (l1 := set_next_xid (x + 1) (m_log s)).
  destruct (names_xid_child w t l1 (m_handleId s) (m_replies s) p A ip fp c true i f x N Ek K)
    as (w1 & f1 & E1 & K1 & N1); [lia|].
  destruct (names_xid_self w1 t l1 (m_handleId s) (m_replies s) p A ip fp x N1) as (fp2 & E2 & N2); [lia|].
  set (w2 := mkW _ _ _) in E2, N2. assert (known fs w2 t c true i f1) as K2 by by apply known_other.
  destruct (names_remove w2 t l1 (m_handleId s) (m_replies s) p A ip fp2 n c true i f1 N2 Ek K2 En)
    as (w3 & f3 & fp3 & E3 & K3 & N3).
  exists w3, f3, fp3, (with_xid (x + 1) (log_entry OP_RMDIR None fs c (Some p) (Some n) None None)).
  split; [|done].
  rewrite (bind_ok _ _ _ _ _ (mk_next_xid s w t _ _ _)). fold x l1.
  rewrite (bind_ok _ _ _ _ _ E1), (bind_ok _ _ _ _ _ E2), (bind_ok _ _ _ _ _ E3).
  cbn [StatusToErrno Z.eqb].
  rewrite (bind_ok _ _ _ _ _ (log_change w3 t l1 _ _ p _ ip fp3 OP_RMDIR c (Some n) N3)).
  cbn [next_xid l1 set_next_xid]. by replace (x + 1 + 1) with (x + 2) by lia.
Qed.

Lemma Rmdir_names p A ip fp n :
  names fs (m_world s) (m_inodes s) p A ip fp → m_handleId s = ns_next A → ns_ok A (NRmdir n) →
  -9223372036854775808 ≤ next_xid (m_log s) < 9223372036854775806 →
  ∃ s', Rmdir p n here = Ok (tt, s')
    ∧ ns_done p (fst (ns_step A (NRmdir n))) (snd (ns_step A (NRmdir n)))
        (ns_changed (NRmdir n) (snd (ns_step A (NRmdir n)))) (nlookup ip) s'.
Proof.
  intros N Hh [Hdot Hk] Hx. unfold Rmdir.
  destruct (names_find _ _ (m_log s) (m_handleId s) (m_replies s) p A ip fp n N) as (fp1 & w1 & E1 & N1).
  rewrite (bind_ok _ _ _ _ _ E1). cbn [ns_step]. destruct (ns_names A !! n) as [[c d]|] eqn:En.
  2:{ change (default 0 _) with 0.
      rewrite (bind_ok _ _ _ ENOENT (mk s w1 (m_inodes s) (m_log s) (m_handleId s) (m_replies s))) by done.
      rewrite (bind_ok _ _ _ _ _ (mk_reply _ _ _ _ _ _)).
      eexists. split; [done|]. rewrite <-log_id at 1. by eapply ns_done_quiet; [..|lia]. }
  specialize (Hk c d eq_refl). change (default 0 _) with c.
  rewrite (child_number w1 _ p A ip fp1 n c d N1 En Hdot).
  destruct (names_get w1 _ (m_log s) (m_handleId s) (m_replies s) p A ip fp1 c d N1 Hk)
    as (i & f & E2 & N2 & K2 & Hn). set (t2 := <[c := i]> (m_inodes s)) in *.
  assert (S_ISDIR (st_mode (attr i)) = d) as Hd by apply K2. destruct d.
  - destruct (Rmdir_remove w1 t2 p A ip fp1 n c i f N2 Hk K2 En Hx) as (w3 & f3 & fp3 & e & E3 & K3 & N3 & He).
    set (l3 := set_deque _ _) in E3.
    destruct (names_release w3 t2 l3 (m_handleId s) (m_replies s) p _ ip fp3 c true i f3 N3 Hk K3 Hn)
      as (k & t4 & E4 & _ & N4 & _).
    rewrite (bind_ok _ _ _ 0 (mk s w3 t4 l3 (m_handleId s) (m_replies s))).
    2:{ rewrite (bind_ok _ _ _ _ _ E2), (bind_ok _ _ _ _ _ (mk_inode s _ t2 _ _ _ c i (lookup_insert_eq _ _ _))).
        rewrite Hd. cbn [negb]. by rewrite (bind_ok _ _ _ _ _ E3), (bind_ok _ _ _ _ _ E4). }
    rewrite (bind_ok _ _ _ _ _ (mk_reply _ _ _ _ _ _)).
    eexists. split; [done|]. by eapply ns_done_logged; [done..|lia|].
  - destruct (names_release w1 t2 (m_log s) (m_handleId s) (m_replies s) p _ ip fp1 c false i f N2 Hk K2 Hn)
      as (k & t4 & E4 & _ & N4 & _).
    rewrite (bind_ok _ _ _ ENOTDIR (mk s w1 t4 (m_log s) (m_handleId s) (m_replies s))).
    2:{ rewrite (bind_ok _ _ _ _ _ E2), (bind_ok _ _ _ _ _ (mk_inode s _ t2 _ _ _ c i (lookup_insert_eq _ _ _))).
        rewrite Hd. cbn [negb]. rewrite (bind_ok _ _ _ ENOTDIR _) by done. by rewrite (bind_ok _ _ _ _ _ E4). }
    rewrite (bind_ok _ _ _ _ _ (mk_reply _ _ _ _ _ _)).
    eexists. split; [done|]. rewrite <-log_id at 1. by eapply ns_done_quiet; [..|lia].
Qed.

(** A name that is bound already. *)
Lemma bound_nonzero w t p A ip fp n c d :
  names fs w t p A ip fp → ns_names A !! n = Some (c, d) → is_dot_name n = false →
  negb (c =? 0) = true.
Proof. intros N En Hdot. by rewrite (child_number w t p A ip fp n c d N En Hdot). Qed.

(** The end of [Create] and [Mkdir]: the log entry and the attributes of the new inode. *)
Lemma names_logged {B} w t l h r p A ip fp n c d ic fc x (K : FuseKvfsInode → M (MountState S) B) :
  names fs w t p A ip fp → ns_known A !! c = Some d → known fs w t c d ic fc →
  ∃ i f w' ent,
    (s' ← get_st; j ← inode p;
     at_log (Append (log_entry OP_CREAT (Some x) (m_fs_id s') c (Some (st_ino (attr j))) (Some n) None None));;
     e ← inode_Refresh c; EXPECT (e =? 0);; i ← inode c; K i) (mk s w t l h r) =
    K i (mk s w' (<[c := i]> t) (set_deque (log_deque l ++ [ent]) l) h r)
    ∧ known fs w' (<[c := i]> t) c d i f ∧ names fs w' (<[c := i]> t) p A ip fp
    ∧ e_parent_inode_num ent = Some p.
Proof.
  intros N Ek Kc. set (ent := log_entry OP_CREAT (Some x) fs c (Some p) (Some n) None None).
  set (l' := set_deque (log_deque l ++ [ent]) l).
  destruct (names_refresh_child w t l' h r p A ip fp c d ic fc N Ek Kc) as (i & f & w' & E & _ & _ & K' & N').
  exists i, f, w', ent. split; [|done]. set (s0 := mk s w t l h r).
  rewrite (bind_ok _ _ s0 s0 s0) by done.
  rewrite (bind_ok _ _ s0 ip s0) by apply inode_run, (nm_inode _ _ _ _ _ _ _ N).
  rewrite (nm_ino _ _ _ _ _ _ _ N). change (m_fs_id s0) with fs.
  rewrite (bind_ok _ _ _ _ _ (mk_append s w t l h r ent x eq_refl)), (bind_ok _ _ _ _ _ E).
  rewrite (bind_ok _ _ _ _ _ (EXPECT_true _ _ eq_refl)).
  by rewrite (bind_ok _ _ _ _ _ (mk_inode s w' _ l' h r c i (lookup_insert_eq _ _ _))).
Qed.

Lemma Create_names p A ip fp n mode :
  0 ≤ env_uid < 4294967296 → 0 ≤ env_gid < 4294967296 →
  names fs (m_world s) (m_inodes s) p A ip fp → m_handleId s = ns_next A → ns_ok A (NCreate n mode) →
  ns_next A < 18446744073709551615 → -9223372036854775808 ≤ next_xid (m_log s) < 9223372036854775806 →
  ∃ s', Create p n mode here = Ok (tt, s')
    ∧ ns_done p (fst (ns_step A (NCreate n mode))) (snd (ns_step A (NCreate n mode)))
        (ns_changed (NCreate n mode) (snd (ns_step A (NCreate n mode)))) (nlookup ip) s'.
Proof.
  intros Hu Hg N Hh (Hdot & Wn & Hlen & Hroom & Hreg) Hnx Hx. unfold Create.
  destruct (names_find _ _ (m_log s) (m_handleId s) (m_replies s) p A ip fp n N) as (fp1 & w1 & E1 & N1).
  rewrite (bind_ok _ _ _ _ _ E1). cbn [ns_step]. destruct (ns_names A !! n) as [[c d]|] eqn:En.
  - change (default 0 _) with c. rewrite (bound_nonzero w1 _ p A ip fp1 n c d N1 En Hdot).
    rewrite (bind_ok _ _ _ EEXIST (mk s w1 (m_inodes s) (m_log s) (m_handleId s) (m_replies s))) by done.
    change (negb (EEXIST =? 0)) with true. cbv iota.
    rewrite (bind_ok _ _ _ _ _ (mk_reply _ _ _ _ _ _)).
    eexists. split; [done|]. rewrite <-log_id at 1. by eapply ns_done_quiet; [..|lia].
  - change (default 0 _) with 0. cbn [Z.eqb negb]. set (x := next_xid (m_log s)).
    destruct (names_make w1 (m_inodes s) (m_replies s) p A ip fp1 n mode false (B := Z)) with
      (K := λ x child status, let err := StatusToErrno status in
       (if err =? 0 then
          s ← get_st; i ← inode p;
          at_log (Append (log_entry OP_CREAT (Some x) (m_fs_id s) child
                            (Some (st_ino (attr i))) (Some n) None None));;
          e ← inode_Refresh child;
          EXPECT (e =? 0);;
          c ← inode child;
          s ← get_st;
          fuse_reply (ReplyCreate child (attr c) child (fuse_keep_cache (m_options s)));; mret tt
        else mret tt : M (MountState S) unit);;
       mret err)
      as (w2 & t2 & ic & fc & fp2 & E2 & K2 & N2); [done|done|lia|lia|done|done|done|done|done|done|done|].
    set (c := ns_next A + 1) in *. set (l2 := set_next_xid _ _) in E2.
    destruct (names_logged w2 t2 l2 c (m_replies s) p _ ip fp2 n c false ic fc x
      (λ i, s ← get_st; fuse_reply (ReplyCreate c (attr i) c (fuse_keep_cache (m_options s)));; mret tt)
      N2 (lookup_insert_eq _ _ _) K2) as (i3 & f3 & w3 & ent & E3 & K3 & N3 & He).
    set (l3 := set_deque _ l2) in E3.
    set (rep := ReplyCreate c (attr i3) c (fuse_keep_cache (m_options s))).
    rewrite (bind_ok _ _ _ 0 (mk s w3 (<[c := i3]> t2) l3 c (m_replies s ++ [rep]))).
    2:{ etransitivity; [exact E2|]. cbn [StatusToErrno Z.eqb].
        rewrite (bind_ok _ _ _ tt (mk s w3 (<[c := i3]> t2) l3 c (m_replies s ++ [rep]))); [done|].
        etransitivity; [exact E3|done]. }
    cbn [negb Z.eqb]. eexists. split; [done|].
    eapply ns_done_logged; [done|done| |done|lia|done]. cbn. by split_and!; try apply K3.
Qed.

Lemma Mkdir_names p A ip fp n mode :
  replies_delivered → 0 ≤ env_uid < 4294967296 → 0 ≤ env_gid < 4294967296 →
  names fs (m_world s) (m_inodes s) p A ip fp → m_handleId s = ns_next A → ns_ok A (NMkdir n mode) →
  ns_next A < 18446744073709551615 → -9223372036854775808 ≤ next_xid (m_log s) < 9223372036854775806 →
  ∃ s', Mkdir p n mode here = Ok (tt, s')
    ∧ ns_done p (fst (ns_step A (NMkdir n mode))) (snd (ns_step A (NMkdir n mode)))
        (ns_changed (NMkdir n mode) (snd (ns_step A (NMkdir n mode)))) (nlookup ip) s'.
Proof.
  intros Hr Hu Hg N Hh (Hdot & Wn & Hlen & Hroom & Hm) Hnx Hx. unfold Mkdir.
  destruct (names_refresh _ _ (m_log s) (m_handleId s) (m_replies s) p A ip fp N)
    as (ip0 & fp0 & w0 & E0 & N0 & Hn0). rewrite (bind_ok _ _ _ _ _ E0). set (t0 := <[p := ip0]> _) in *.
  destruct (names_find _ _ (m_log s) (m_handleId s) (m_replies s) p A ip0 fp0 n N0) as (fp1 & w1 & E1 & N1).
  rewrite (bind_ok _ _ _ _ _ E1). cbn [ns_step]. destruct (ns_names A !! n) as [[c d]|] eqn:En.
  - change (default 0 _) with c. rewrite (bound_nonzero w1 _ p A ip0 fp1 n c d N1 En Hdot).
    rewrite (bind_ok _ _ _ EEXIST (mk s w1 t0 (m_log s) (m_handleId s) (m_replies s))) by done.
    change (negb (EEXIST =? 0)) with true. cbv iota.
    rewrite (bind_ok _ _ _ _ _ (mk_reply _ _ _ _ _ _)).
    eexists. split; [done|]. rewrite <-log_id at 1. by eapply ns_done_quiet; [..|lia].
  - change (default 0 _) with 0. cbn [Z.eqb negb]. set (x := next_xid (m_log s)).
    destruct (names_make w1 t0 (m_replies s) p A ip0 fp1 n (Z.lor S_IFDIR mode) true (B := Z)) with
      (K := λ x child status, let err := StatusToErrno status in
       (if err =? 0 then
          set_state p I_INVALID;;
          s ← get_st; i ← inode p;
          at_log (Append (log_entry OP_CREAT (Some x) (m_fs_id s) child
                            (Some (st_ino (attr i))) (Some n) None None));;
          e ← inode_Refresh child;
          EXPECT (e =? 0);;
          c ← inode child;
          r ← fuse_reply (ReplyEntry child (attr c));
          EXPECT (r =? 0)
        else Release child 1;; mret tt : M (MountState S) unit);;
       mret err)
      as (w2 & t2 & ic & fc & fp2 & E2 & K2 & N2);
      [done|done|lia|lia|done|done|done|done|done|done|by apply S_ISDIR_or|].
    set (c := ns_next A + 1) in *. set (l2 := set_next_xid _ _) in E2. set (ip2 := set_istate I_INVALID ip0).
    assert (c ≠ p) as Hcp by (pose proof (nm_p _ _ _ _ _ _ _ N); unfold c; lia).
    assert (known fs w2 (<[p := ip2]> t2) c true ic fc) as K2'
      by (destruct K2; split; try done; by rewrite lookup_insert_ne).
    destruct (names_logged w2 (<[p := ip2]> t2) l2 c (m_replies s) p (ns_add n true A) ip2 fp2 n c true ic fc x
      (λ i, r ← fuse_reply (ReplyEntry c (attr i)); EXPECT (r =? 0))) as (i3 & f3 & w3 & ent & E3 & K3 & N3 & He);
      [apply (names_upd_self _ _ _ _ ip0); [done|done|apply N0]|apply lookup_insert_eq|done|].
    set (l3 := set_deque _ l2) in E3. set (t3 := <[c := i3]> _) in *. set (rep := ReplyEntry c (attr i3)).
    rewrite (bind_ok _ _ _ 0 (mk s w3 t3 l3 c (m_replies s ++ [rep]))).
    2:{ etransitivity; [exact E2|]. cbn [StatusToErrno Z.eqb].
        rewrite (bind_ok _ _ _ tt (mk s w3 t3 l3 c (m_replies s ++ [rep]))); [done|].
        unfold set_state.
        rewrite (bind_ok _ _ _ _ _ (mk_upd_inode s w2 t2 l2 c _ p ip0 _ (nm_inode _ _ _ _ _ _ _ N2))).
        etransitivity; [exact E3|]. rewrite (bind_ok _ _ _ _ _ (mk_reply _ _ _ _ _ _)). by rewrite Hr. }
    cbn [negb Z.eqb]. eexists. split; [done|].
    eapply ns_done_logged; [done|done| |done|lia|done]. cbn. by split_and!; try apply K3.
Qed.

Lemma Link_names p A ip fp c n :
  replies_delivered → names fs (m_world s) (m_inodes s) p A ip fp → m_handleId s = ns_next A →
  ns_ok A (NLink c n) →
  ∃ s', Link p c n here = Ok (tt, s')
    ∧ ns_done p (fst (ns_step A (NLink c n))) (snd (ns_step A (NLink c n)))
        (ns_changed (NLink c n) (snd (ns_step A (NLink c n)))) (nlookup ip) s'.
Proof.
  intros Hr N Hh (Hdot & Wn & Hroom & Hk). unfold Link.
  destruct (names_refresh _ _ (m_log s) (m_handleId s) (m_replies s) p A ip fp N)
    as (ip0 & fp0 & w0 & E0 & N0 & Hn0). rewrite (bind_ok _ _ _ _ _ E0). set (t0 := <[p := ip0]> _) in *.
  destruct (names_find _ _ (m_log s) (m_handleId s) (m_replies s) p A ip0 fp0 n N0) as (fp1 & w1 & E1 & N1).
  rewrite (bind_ok _ _ _ _ _ E1). cbn [ns_step]. destruct (ns_names A !! n) as [[c0 d]|] eqn:En.
  - change (default 0 _) with c0. rewrite (bound_nonzero w1 _ p A ip0 fp1 n c0 d N1 En Hdot).
    rewrite (bind_ok _ _ _ (EEXIST, (0, stat_zero)) (mk s w1 t0 (m_log s) (m_handleId s) (m_replies s))) by done.
    change (EEXIST =? 0) with false. cbv iota. rewrite (bind_ok _ _ _ tt _) by done. cbn [negb].
    rewrite (bind_ok _ _ _ _ _ (mk_reply _ _ _ _ _ _)).
    eexists. split; [done|]. rewrite <-log_id at 1. by eapply ns_done_quiet; [..|lia].
  - change (default 0 _) with 0. cbn [Z.eqb negb].
    destruct (nm_known _ _ _ _ _ _ _ N c _ Hk) as (Hcp & _).
    destruct (names_get w1 t0 (m_log s) (m_handleId s) (m_replies s) p A ip0 fp1 c false N1 Hk)
      as (i2 & f2 & E2 & N2 & K2 & Hn2). set (t2 := <[c := i2]> t0) in *.
    destruct (names_refresh_child w1 t2 (m_log s) (m_handleId s) (m_replies s) p A ip0 fp1 c false i2 f2 N2 Hk K2)
      as (i3 & f3 & w3 & E3 & _ & Hn3 & K3 & N3). set (t3 := <[c := i3]> t2) in *.
    destruct (names_link w3 t3 (m_log s) (m_handleId s) (m_replies s) p A ip0 fp1 n c i3 f3 N3 Hk K3 En Wn Hroom)
      as (w4 & f4 & fp4 & E4 & K4 & N4).
    destruct (names_release w4 t3 (m_log s) (m_handleId s) (m_replies s) p _ ip0 fp4 c false i3 f4 N4 Hk K4)
      as (k & t5 & E5 & Ht5 & N5 & Hk5); [lia|]. set (i5 := set_nlookup k i3) in *.
    assert (t5 !! c = Some i5) as Ei5 by (rewrite Ht5; apply lookup_insert_eq).
    rewrite (bind_ok _ _ _ (0, (st_ino (attr i5), attr i5)) (mk s w4 t5 (m_log s) (m_handleId s) (m_replies s))).
    2:{ by rewrite (bind_ok _ _ _ _ _ E2), (bind_ok _ _ _ _ _ E3), (bind_ok _ _ _ _ _ E4), (bind_ok _ _ _ _ _ E5),
          (bind_ok _ _ _ _ _ (mk_inode s w4 t5 _ _ _ c i5 Ei5)). }
    assert (known fs w4 t5 c false i5 f4) as K5 by (rewrite Ht5; by apply (known_upd w4 t3 c false i3)).
    set (i6 := set_istate I_INVALID i5). set (ip6 := set_istate I_INVALID ip0).
    set (t6 := <[c := i6]> t5).
    assert (names fs w4 (<[p := ip6]> t6) p (set_names (<[n := (c, false)]> (ns_names A)) A) ip6 fp4) as N6.
    { apply (names_upd_self _ _ _ _ ip0); [|done|apply N0].
      by apply (names_upd w4 t5 p _ ip0 fp4 c false i5 f4). }
    set (e := log_entry OP_LINK None fs c (Some p) None None None).
    set (l6 := set_deque (log_deque (m_log s) ++ [with_xid (next_xid (m_log s)) e])
                 (set_next_xid (next_xid (m_log s) + 1) (m_log s))).
    rewrite (bind_ok _ _ _ tt (mk s w4 (<[p := ip6]> t6) l6 (m_handleId s) (m_replies s))).
    2:{ cbn [Z.eqb]. unfold set_state. rewrite (bind_ok _ _ _ _ _ (mk_upd_inode s w4 t5 _ _ _ c i5 _ Ei5)). fold i6 t6.
        assert (t6 !! p = Some ip0) as Ep by (unfold t6; rewrite lookup_insert_ne by done; apply N5).
        rewrite (bind_ok _ _ _ _ _ (mk_upd_inode s w4 t6 _ _ _ p ip0 _ Ep)).
        apply (log_change w4 _ _ _ _ p _ ip6 fp4 OP_LINK c None N6). }
    cbn [negb Z.eqb fst snd]. rewrite (bind_ok _ _ _ _ _ (mk_reply _ _ _ _ _ _)). rewrite Hr.
    eexists. split; [done|]. eapply ns_done_logged; [done|done| |done|lia|done].
    cbn. split_and!; [apply K5..].
Qed.

End Phases.

(** ** Sessions *)

(** Directory [p] is open and represents [A]. *)
Definition dir_open (s : MountState S) (p : Z) (A : NS) : Prop :=
  m_handleId s = ns_next A ∧ ∃ ip fp, names (m_fs_id s) (m_world s) (m_inodes s) p A ip fp.

(** The handler of a request, on the directory it holds. *)
Definition ns_handler (r : ns_req) (p : Z) : M (MountState S) unit :=
  match r with
  | NLookup n => Lookup p n
  | NCreate n mode => Create p n mode
  | NMkdir n mode => Mkdir p n mode
  | NUnlink n => Unlink p n
  | NRmdir n => Rmdir p n
  | NLink c n => Link p c n
  end.

(** The numbers a request may take are there. *)
Definition numbers_left (s : MountState S) (k : Z) : Prop :=
  m_handleId s + k < 18446744073709551616
  ∧ -9223372036854775808 ≤ next_xid (m_log s) ∧ next_xid (m_log s) + 2 * k < 9223372036854775808.

Definition ids_ok : Prop := 0 ≤ env_uid < 4294967296 ∧ 0 ≤ env_gid < 4294967296.

Lemma ns_handler_names s p A ip fp r :
  replies_delivered → ids_ok → names (m_fs_id s) (m_world s) (m_inodes s) p A ip fp →
  m_handleId s = ns_next A → ns_ok A r → numbers_left s 1 →
  ∃ s', ns_handler r p s = Ok (tt, s')
    ∧ ns_done s p (fst (ns_step A r)) (snd (ns_step A r)) (ns_changed r (snd (ns_step A r))) (nlookup ip) s'.
Proof.
  intros Hr [Hu Hg] N Hh Hok (L1 & L2 & L3).
  enough (∃ s', ns_handler r p (mk s (m_world s) (m_inodes s) (m_log s) (m_handleId s) (m_replies s)) = Ok (tt, s')
    ∧ ns_done s p (fst (ns_step A r)) (snd (ns_step A r)) (ns_changed r (snd (ns_step A r))) (nlookup ip) s')
    as G by by rewrite <-mk_self in G.
  destruct r as [n|n mode|n mode|n|n|c n]; cbn [ns_handler].
  - by apply (Lookup_names s p A ip fp n).
  - apply (Create_names s p A ip fp n mode); try done; lia.
  - apply (Mkdir_names s p A ip fp n mode); try done; lia.
  - by apply (Unlink_names s p A ip fp n).
  - apply (Rmdir_names s p A ip fp n); try done; lia.
  - by apply (Link_names s p A ip fp c n).
Qed.

(** The entry point: the directory is held and released around the handler. *)
Lemma ns_step_refines s p A r e :
  replies_delivered → ids_ok → dir_open s p A → ns_ok A r → numbers_left s 1 →
  ∃ n s', dispatch e (ns_request p r) s = Ok (tt, s')
    ∧ ns_done s p (fst (ns_step A r)) (snd (ns_step A r)) (ns_changed r (snd (ns_step A r))) n s'.
Proof.
  intros Hr Hid (Hh & ip & fp & N) Hok Hl. pose proof (nm_held _ _ _ _ _ _ _ N) as Hheld.
  set (ip1 := set_nlookup (nlookup ip + 1) ip). set (s1 := set_inodes (<[p := ip1]> (m_inodes s)) s).
  assert (names (m_fs_id s1) (m_world s1) (m_inodes s1) p A ip1 fp) as N1
    by (apply (names_upd_self s _ _ p A ip); [done|done|cbn; lia]).
  destruct (ns_handler_names s1 p A ip1 fp r Hr Hid N1 Hh Hok Hl) as (s2 & E & []).
  destruct nd_names0 as (ip2 & fp2 & N2 & Hn2).
  exists (nlookup ip), (set_inodes (<[p := set_nlookup (nlookup ip) ip2]> (m_inodes s2)) s2). split.
  - pose proof (held_run s p ip (ns_handler r) s2 ip2 (nm_inode _ _ _ _ _ _ _ N) Hheld E
      (nm_inode _ _ _ _ _ _ _ N2) Hn2) as Ed. by destruct r.
  - split; try done. exists (set_nlookup (nlookup ip) ip2), fp2. split; [|done].
    by apply (names_upd_self s _ _ p _ ip2).
Qed.

Fixpoint ns_changes (A : NS) (rs : list ns_req) : nat :=
  match rs with
  | [] => 0
  | r :: rs => (if ns_changed r (snd (ns_step A r)) then 1 else 0) + ns_changes (fst (ns_step A r)) rs
  end.

Lemma ns_next_step A r : ns_next (fst (ns_step A r)) ≤ ns_next A + 1.
Proof. destruct r; cbn; repeat case_match; cbn; lia. Qed.

End Names.

Section Sessions.
Context {S : Type} `{KVStoreLaws S} `{!KVReliable S} `{FsEnv} `{MountEnv}.

Lemma name_session_run (s : MountState S) p A rs e :
  replies_delivered → ids_ok → dir_open s p A → ns_all_ok A rs →
  numbers_left s (Z.of_nat (length rs)) →
  ∃ s' reps es, serve e (ns_request p <$> rs) s = Ok (tt, s')
    ∧ m_replies s' = m_replies s ++ reps ∧ Forall2 ns_shows (snd (ns_run A rs)) reps
    ∧ dir_open s' p (fst (ns_run A rs))
    ∧ log_deque (m_log s') = log_deque (m_log s) ++ es ∧ length es = ns_changes A rs
    ∧ Forall (λ e, e_parent_inode_num e = Some p) es.
Proof.
  intros Hr Hid. revert s A. induction rs as [|r rs IH]; intros s A O Hok Hl.
  { exists s, [], []. cbn. rewrite !app_nil_r. by repeat (split; [done || constructor|]). }
  destruct Hok as [Hr1 Hok]. pose proof Hl as (L1 & L2 & L3). cbn [length] in L1, L2, L3.
  destruct (ns_step_refines s p A r e Hr Hid O Hr1) as (n & s1 & E1 & Dn); [split; lia|].
  destruct Dn as [(rep & R1 & Sh) (es1 & G1 & N1 & F1) X1 Hn Hf (ip & fp & N & _)].
  pose proof (ns_next_step A r) as Hnext. pose proof (proj1 O) as Hh.
  destruct (IH s1 (fst (ns_step A r))) as (s2 & reps & es2 & E2 & R2 & Sh2 & O2 & G2 & N2 & F2);
    [split; [done|exists ip, fp; by rewrite Hf]|done|split; lia|].
  exists s2, (rep :: reps), (es1 ++ es2). cbn [fmap list_fmap serve ns_run ns_changes].
  destruct (ns_step A r) as [A1 a]. cbn [fst snd] in *. destruct (ns_run A1 rs) as [A2 l]. cbn [fst snd] in *.
  split; [by rewrite (bind_ok _ _ _ _ _ E1)|]. split; [by rewrite R2, R1, <-app_assoc|].
  split; [by constructor|]. split; [done|]. split; [by rewrite G2, G1, app_assoc|].
  split; [by rewrite length_app, N1, N2|by apply Forall_app].
Qed.


End Sessions.

(** ** Witness: eight requests on the empty directory 2 *)

#[local] Instance demo_names_fs : FsEnv := demo_env (demo_tier []).
#[local] Existing Instance demo_mount_env.

Definition demo_dir_meta : LogFSMetaData :=
  set_nLink 2 (set_type LOGFS_IFDIR (init_fields 1 2 0 0 (new_meta 0 8192))).
Definition demo_names_dir : LogFSFile := MkFile 1 2 (lit "d") demo_dir_meta 0 false 0 None.
Definition demo_names_kv : MemStore := {[ inode_key 2 := encode_meta demo_dir_meta ]}.
Definition demo_names : MountState MemStore :=
  mkM (mkW {[ 2 := demo_names_dir ]} demo_names_kv 0) {[ 2 := demo_parent ]} (new_FsChangeLog [] 0)
    super_empty 6 1 (MkOptions true false) ∅ [] [].
Definition demo_names_reqs : list ns_req :=
  [NCreate (lit "a") (S_IFREG + 420); NMkdir (lit "d") 493; NLookup (lit "a"); NLink 7 (lit "b");
   NUnlink (lit "a"); NRmdir (lit "d"); NRmdir (lit "b"); NLookup (lit "a")].

Lemma demo_names_open : dir_open demo_names 2 (MkNS ∅ ∅ 6).
Proof.
  assert (∀ j i, kv_get demo_names_kv (sub_key j i) = None) as Hno.
  { intros j i. apply lookup_singleton_None. apply inode_sub_key. }
  assert (meta_is 1 2 true demo_dir_meta) as M by (split; [by split|done..]).
  split; [done|]. exists demo_parent, demo_names_dir.
  destruct (fresh_dir demo_names_dir demo_names_kv) as [D F]; [done|cbn; lia|cbn; lia|by intros|].
  split; try done; try (cbn; lia).
  - exists demo_dir_meta. split; [apply lookup_singleton_eq|done].
  - intros j Hj. split; [|by intros]. apply lookup_singleton_None. cbn in Hj. lia.
Qed.

Lemma ns_all_cons A r rs A' a :
  ns_step A r = (A', a) → ns_ok A r → ns_all_ok A' rs → ns_all_ok A (r :: rs).
Proof. intros E Hr Hrs. cbn. by rewrite E. Qed.

Lemma demo_names_ok : ns_all_ok (MkNS ∅ ∅ 6) demo_names_reqs.
Proof.
  assert (wf_name (lit "a") ∧ wf_name (lit "b") ∧ wf_name (lit "d")) as (Wa & Wb & Wd)
    by (repeat split; by apply (bool_decide_unpack _); vm_compute).
  unfold demo_names_reqs. set (A0 := MkNS ∅ ∅ 6).
  set (A1 := ns_add (lit "a") false A0). set (A2 := ns_add (lit "d") true A1).
  set (A3 := ns_learn 7 false A2). set (A4 := set_names (<[lit "b" := (7, false)]> (ns_names A3)) A3).
  set (A5 := set_names (delete (lit "a") (ns_names A4)) A4).
  set (A6 := set_names (delete (lit "d") (ns_names A5)) A5).
  assert (∀ A n, bool_decide (map_Forall (λ k e, k = n → ns_known A !! fst e = Some (snd e)) (ns_names A)) = true →
    ∀ c d, ns_names A !! n = Some (c, d) → ns_known A !! c = Some d) as Hk
    by (intros A n Hb%bool_decide_eq_true c d E; by apply (Hb n (c, d) E)).
  apply (ns_all_cons _ _ _ A1 (NEntry 7 false)); [vm_compute; reflexivity
    |refine (conj eq_refl (conj Wa (conj _ (conj _ eq_refl)))); [vm_compute; lia|vm_compute; reflexivity]|].
  apply (ns_all_cons _ _ _ A2 (NEntry 8 true)); [vm_compute; reflexivity
    |refine (conj eq_refl (conj Wd (conj _ (conj _ _)))); [vm_compute; lia|vm_compute; reflexivity|lia]|].
  apply (ns_all_cons _ _ _ A3 (NEntry 7 false)); [vm_compute; reflexivity|done|].
  apply (ns_all_cons _ _ _ A4 (NEntry 7 false)); [vm_compute; reflexivity
    |refine (conj eq_refl (conj Wb (conj _ eq_refl))); vm_compute; reflexivity|].
  apply (ns_all_cons _ _ _ A5 (NErr 0)); [vm_compute; reflexivity|split; [done|apply Hk; vm_compute; reflexivity]|].
  apply (ns_all_cons _ _ _ A6 (NErr 0)); [vm_compute; reflexivity|split; [done|apply Hk; vm_compute; reflexivity]|].
  apply (ns_all_cons _ _ _ A6 (NErr ENOTDIR)); [vm_compute; reflexivity|split; [done|apply Hk; vm_compute; reflexivity]|].
  by apply (ns_all_cons _ _ _ A6 (NErr ENOENT)); [vm_compute; reflexivity|..].
Qed.

