(* ===== verification/ListProps.v ===== *)
(** * Listing a directory

    The kernel reads a directory by a sequence of readdir requests, each from the offset
    of the last entry it got.  The entries are those of the partitions, one after the
    other, as far as the buffer of each request has room. *)

From Stdlib Require Import ZArith Lia Strings.String.
From stdpp Require Import base list gmap sorting.
From S2P Require Import Prelude Status Mode SortedMap KVStore MetaData Partition File FileData.
From S2P Require Import Directory DirectoryProps ChangeLog FileSystemManager Mount Fuse MountProps IOProps.

#[local] Arguments inode_key : simpl never.
#[local] Arguments sub_key : simpl never.
#[local] Arguments on_file : simpl never.

(** ** The buffer of a request *)

Section Buffer.
Context {S : Type} `{KVStoreLaws S} `{FsEnv} `{MountEnv}.

(** An inode that can be listed: in the table and held, with the type of its mode set. *)
Definition listable (t : gmap Z FuseKvfsInode) (ino : Z) : Prop :=
  ∃ i, t !! ino = Some i ∧ 1 ≤ nlookup i ∧ st_ino (attr i) = ino
    ∧ (S_ISREG (st_mode (attr i)) || S_ISDIR (st_mode (attr i))) = true.

(** What the buffer holds for an entry: the name, the attributes of the inode and the
    offset of the next entry. *)
Definition attrs (t : gmap Z FuseKvfsInode) (ino : Z) : stat_t :=
  match t !! ino with Some i => attr i | None => stat_zero end.
Definition dirent (t : gmap Z FuseKvfsInode) (e : bytes * Z * Z) : bytes * stat_t * Z :=
  (fst (fst e), attrs t (snd (fst e)), snd e).

Definition no_space (a : DirEntryAdder) : DirEntryAdder :=
  mkAdder (ad_size a) (ad_total a) true (ad_entries a).
Definition push (t : gmap Z FuseKvfsInode) (e : bytes * Z * Z) (a : DirEntryAdder) : DirEntryAdder :=
  let n := fuse_direntry_size (fst (fst e)) in
  mkAdder (ad_size a - n) (ad_total a + n) (ad_out_of_space a) (ad_entries a ++ [dirent t e]).

(** The entries are added until one does not fit. *)
Fixpoint fill (t : gmap Z FuseKvfsInode) (a : DirEntryAdder) (l : list (bytes * Z * Z)) : DirEntryAdder :=
  match l with
  | [] => a
  | e :: l => if ad_size a <? fuse_direntry_size (fst (fst e)) then no_space a else fill t (push t e a) l
  end.

(** How many of them fit. *)
Fixpoint room (size : Z) (l : list (bytes * Z * Z)) : nat :=
  match l with
  | [] => 0
  | e :: l =>
      let n := fuse_direntry_size (fst (fst e)) in
      if size <? n then 0 else Datatypes.S (room (size - n) l)
  end.

Lemma fill_entries t a l : ad_entries (fill t a l) = ad_entries a ++ (dirent t <$> take (room (ad_size a) l) l).
Proof.
  revert a. induction l as [|e l IH]; intros a; cbn; [by rewrite app_nil_r|].
  destruct (_ <? _); cbn; [by rewrite app_nil_r|]. rewrite IH. cbn. by rewrite <-app_assoc.
Qed.

Lemma fill_app t a l1 l2 :
  ad_out_of_space a = false →
  fill t a (l1 ++ l2) = if ad_out_of_space (fill t a l1) then fill t a l1 else fill t (fill t a l1) l2.
Proof.
  revert a. induction l1 as [|e l1 IH]; intros a Ha; cbn; [by rewrite Ha|].
  destruct (_ <? _); [done|]. by apply IH.
Qed.

(** [Add] leaves the mount as it is: the hold is released. *)
Lemma Add_run (s : MountState S) a name ino o :
  listable (m_inodes s) ino →
  Add name ino o (s, a) =
    if ad_size a <? fuse_direntry_size name then Ok (false, (s, no_space a))
    else Ok (true, (s, push (m_inodes s) (name, ino, o) a)).
Proof.
  intros (i & Ei & Hn & Hi & Hm). unfold Add.
  set (s1 := set_inodes (<[ino := set_nlookup (nlookup i + 1) i]> (m_inodes s)) s).
  rewrite (bind_ok _ _ _ (Some ino) (s1, a)) by (unfold at_mount; by rewrite (GetInode_held s ino i true Ei)).
  assert (m_inodes s1 !! ino = Some (set_nlookup (nlookup i + 1) i)) as Ei1 by apply lookup_insert_eq.
  rewrite (bind_ok _ _ _ (set_nlookup (nlookup i + 1) i) (s1, a))
    by (unfold at_mount; by rewrite (inode_run s1 ino _ Ei1)).
  cbn [attr set_nlookup]. rewrite Hi, Z.eqb_refl, Hm.
  rewrite !(bind_ok _ _ _ tt (s1, a)) by done.
  rewrite (bind_ok _ _ _ (nlookup i) (s, a)).
  2:{ unfold at_mount. rewrite (Release_held s1 ino _ Ei1) by (cbn; lia). cbn [nlookup set_nlookup].
      replace (nlookup i + 1 - 1) with (nlookup i) by lia.
      unfold s1. cbn [m_inodes set_inodes]. rewrite insert_insert_eq.
      replace (set_nlookup (nlookup i) _) with i by (by destruct i). rewrite insert_id by done.
      by destruct s. }
  rewrite (bind_ok _ _ _ a (s, a)) by done.
  unfold push, dirent, attrs. cbn [fst snd]. rewrite Ei. by destruct (_ <? _).
Qed.

(** An entry whose inode is not in the table: the mode of the new inode is whatever the
    memory held, and unless it happens to be one of a file the process stops. *)
Lemma unloaded_child_stops_listing (s : MountState S) a name ino o :
  m_inodes s !! ino = None → (S_ISREG (st_mode uninit_attr) || S_ISDIR (st_mode uninit_attr)) = false →
  Add name ino o (s, a) = Crash ExpectFailed.
Proof.
  intros Ei Hm. unfold Add.
  rewrite (bind_ok _ _ _ (Some ino) (loaded s ino, a)) by (unfold at_mount; by rewrite (GetInode_new s ino Ei)).
  rewrite (bind_ok _ _ _ (set_nlookup 1 (new_inode ino)) (loaded s ino, a))
    by (unfold at_mount; by rewrite (inode_run (loaded s ino) ino _ (lookup_insert_eq _ _ _))).
  cbn [attr set_nlookup new_inode st_ino st_mode stat_ino_dev]. rewrite Z.eqb_refl, Hm. done.
Qed.

(** The loop over the entries of one partition. *)
Lemma list_loop_fill (s : MountState S) a bn es i base :
  (∀ n ino o, (n, ino, o) ∈ live_from bn es i base → listable (m_inodes s) ino) →
  list_loop Add bn es i base (s, a) = Ok (tt, (s, fill (m_inodes s) a (live_from bn es i base))).
Proof.
  revert i a. induction es as [|e es IH]; intros i a Hl; cbn [list_loop live_from]; [done|].
  cbn [live_from] in Hl. destruct (entry_live bn e); [|by apply IH].
  unfold mbind, M_bind. rewrite Add_run by (eapply Hl; left). cbn [fill fst snd].
  destruct (_ <? _); [done|]. apply IH. intros n ino o Hin. eapply Hl. by right.
Qed.

End Buffer.

(** ** The partitions, one after the other *)

Section Partitions.
Context {S : Type} `{KVStoreLaws S} `{FsEnv} `{MountEnv}.
Implicit Types (kv : S) (f : LogFSFile).

(** The partition once it is read. *)
Definition read_part (p : LogFSDirectoryPartition) kv : LogFSDirectoryPartition :=
  match part_Refresh (p, kv) with Ok (_, (p', _)) => p' | Crash _ => p end.

Definition base_of (i : nat) : Z := Z.of_nat i * MAX_ENTRIES_PER_PARTITION.

(** The entries of partition [i] from an offset on, and those of [n] partitions. *)
Definition part_rest f kv (i : nat) (cur : Z) : list (bytes * Z * Z) :=
  live_from (part_abs (part_at f i) kv)
    (drop (Z.to_nat (cur - base_of i)) (entries (read_part (part_at f i) kv))) (cur - base_of i) (base_of i).
Fixpoint dir_rest f kv (n i : nat) (cur : Z) : list (bytes * Z * Z) :=
  match n with
  | O => []
  | Datatypes.S n =>
      let cur := Z.max (base_of i) cur in
      part_rest f kv i cur ++ dir_rest f kv n (Datatypes.S i) cur
  end.

(** The two objects have the same partitions, some of them read in one only. *)
Definition same_listing kv f f' : Prop :=
  dir_inv f' kv ∧ same_but_parts f f'
  ∧ ∀ i, (i < length (parts_of f))%nat →
      part_abs (part_at f' i) kv = part_abs (part_at f i) kv
      ∧ read_part (part_at f' i) kv = read_part (part_at f i) kv.

Lemma same_but_parts_refl f : same_but_parts f f.
Proof. exists (partitions f). split; [by destruct f|done]. Qed.
Lemma same_but_parts_trans f1 f2 f3 : same_but_parts f1 f2 → same_but_parts f2 f3 → same_but_parts f1 f3.
Proof. intros (p1 & -> & E1) (p2 & -> & E2). exists p2. split; [done|]. by rewrite E2, E1. Qed.

Lemma same_listing_refl kv f : dir_inv f kv → same_listing kv f f.
Proof. intros D. split; [done|]. split; [apply same_but_parts_refl|done]. Qed.
Lemma same_listing_trans kv f1 f2 f3 : same_listing kv f1 f2 → same_listing kv f2 f3 → same_listing kv f1 f3.
Proof.
  intros (_ & B1 & E1) (D3 & B2 & E2). split; [done|]. split; [by eapply same_but_parts_trans|].
  intros i Hi. destruct (E1 i Hi) as [<- <-]. apply E2. destruct B1 as (? & -> & Hl). lia.
Qed.

Lemma same_listing_rest kv f f' n i cur :
  same_listing kv f f' → (i + n ≤ length (parts_of f))%nat → dir_rest f' kv n i cur = dir_rest f kv n i cur.
Proof.
  intros (_ & _ & E). revert i cur. induction n as [|n IH]; intros i cur Hn; cbn; [done|].
  rewrite IH by lia. f_equal. unfold part_rest. by destruct (E i ltac:(lia)) as [-> ->].
Qed.

Lemma read_part_idem p kv : part_inv p kv → read_part (read_part p kv) kv = read_part p kv.
Proof.
  intros I. unfold read_part. destruct (part_Refresh_ok p kv I) as (p' & -> & _ & _ & Hst & _).
  unfold part_Refresh, this_part. mrun. cbn [fst]. by rewrite decide_False.
Qed.

(** The names of a partition have no NUL, so that what the buffer gets is the name. *)
Lemma part_abs_cstr p kv n v : part_inv p kv → sm_find n (part_abs p kv) = Some v → cstr n = n.
Proof.
  intros I F%sm_find_elem. destruct (part_Refresh_ok p kv I) as (p' & _ & I' & _ & _ & E).
  pose proof (wfm_entries _ (pi_wf _ _ I')) as W. rewrite E, Forall_forall in W.
  apply cstr_id, (W _ F).
Qed.

(** Reading partition [i]. *)
Lemma part_read f kv i :
  dir_inv f kv → (i < length (parts_of f))%nat →
  let p' := read_part (part_at f i) kv in
  part_Refresh (part_at f i, kv) = Ok (0, (p', kv)) ∧ entries_by_name p' = part_abs (part_at f i) kv
  ∧ part_state p' ≠ P_INVALID ∧ same_listing kv f (with_part i p' f).
Proof.
  intros D Hi p'. destruct (di_parts _ _ D i Hi) as (I & _). pose proof (read_part_idem _ _ I) as Hid.
  fold p' in Hid.
  destruct (part_Refresh_ok (part_at f i) kv I) as (p1 & E & I1 & Hs & Hst & Hbn).
  assert (p' = p1) as Hp by (unfold p', read_part; by rewrite E). clearbody p'. subst p'. do 2 (split; [done|]). split; [done|].
  pose proof (part_abs_read p1 kv Hst) as Ha. rewrite Hbn in Ha.
  destruct (dir_inv_refresh f kv i p1 D Hi I1 Hs Ha) as [D' _].
  split; [done|]. split; [apply same_but_parts_with|]. intros j Hj. rewrite part_at_with by done.
  case_decide as Ej; [subst j|done]. rewrite Ha, Hid. split; [done|]. unfold read_part. by rewrite E.
Qed.

(** [listEntries] of partition [i] of the directory [p]. *)
Lemma listEntries_run (s : MountState S) a p f i cur :
  let kv := w_kv (m_world s) in
  w_heap (m_world s) !! p = Some f → dir_inv f kv → (i < length (parts_of f))%nat → base_of i ≤ cur →
  (∀ n ino o, (n, ino, o) ∈ part_rest f kv i cur → listable (m_inodes s) ino) →
  listEntries (λ A m, at_mount (on_file p (at_partition i m))) Add cur (base_of i) (s, a) =
    Ok (0, (set_world (mkW (<[p := with_part i (read_part (part_at f i) kv) f]> (w_heap (m_world s))) kv
              (w_clock (m_world s))) s,
            fill (m_inodes s) a (part_rest f kv i cur))).
Proof.
  intros kv Ef D Hi Hc Hl. destruct (part_read f kv i D Hi) as (E & Hbn & Hst & Hs).
  set (p' := read_part (part_at f i) kv) in *. set (f' := with_part i p' f) in *.
  set (s' := set_world _ s).
  assert (∀ {A} (m : M (LogFSDirectoryPartition * S) A) x,
    m (part_at f i, kv) = Ok (x, (p', kv)) →
    at_mount (on_file p (at_partition i m)) (s, a) = Ok (x, (s', a))) as Hat.
  { intros A m x Em. unfold at_mount.
    rewrite (on_file_run s p _ f x f' kv (w_clock (m_world s))); [done|done|].
    rewrite at_partition_run by done. fold kv. by rewrite Em. }
  unfold listEntries. rewrite (bind_ok _ _ _ 0 (s', a)) by (by apply Hat). cbn [Z.eqb].
  rewrite (bind_ok _ _ _ tt (s', a)) by (rewrite (proj2 (Z.leb_le _ _)) by done; done).
  rewrite (bind_ok _ _ _ p' (s', a)).
  2:{ unfold at_mount. rewrite (on_file_run s' p _ f' p' f' kv (w_clock (m_world s))).
      - unfold s'. cbn [m_world set_world w_heap w_kv w_clock]. rewrite insert_insert_eq. by destruct s.
      - apply lookup_insert_eq.
      - rewrite at_partition_run by (cbn; by rewrite length_insert).
        unfold f' at 1. rewrite part_at_with, decide_True by done. cbn.
        unfold f', with_part. cbn. by rewrite list_insert_insert_eq. }
  rewrite Hbn. fold (part_rest f kv i cur).
  rewrite (bind_ok _ _ _ _ _ (list_loop_fill s' a _ _ _ _ Hl)). done.
Qed.

(** The loop over the partitions. *)
Lemma list_dir_loop_run n i cur p f (s : MountState S) a :
  let kv := w_kv (m_world s) in
  w_heap (m_world s) !! p = Some f → dir_inv f kv → (i + n ≤ length (parts_of f))%nat →
  ad_out_of_space a = false →
  (∀ nm ino o, (nm, ino, o) ∈ dir_rest f kv n i cur → listable (m_inodes s) ino) →
  ∃ f', list_dir_loop (λ A m, at_mount (on_file p m)) Add (gets (λ '(_, a), ad_out_of_space a)) n i cur (s, a)
      = Ok (tt, (set_world (mkW (<[p := f']> (w_heap (m_world s))) kv (w_clock (m_world s))) s,
                 fill (m_inodes s) a (dir_rest f kv n i cur)))
    ∧ same_listing kv f f'.
Proof.
  revert i cur f s a. induction n as [|n IH]; intros i cur f s a kv Ef D Hn Ha Hl.
  { exists f. split; [|by apply same_listing_refl]. cbn. rewrite insert_id by done. by destruct s as [[]]. }
  cbn [list_dir_loop dir_rest] in *. rewrite (bind_ok _ _ _ false (s, a)) by (by rewrite <-Ha).
  fold (base_of i). replace (if cur <? base_of i then base_of i else cur) with (Z.max (base_of i) cur)
    by (destruct (Z.ltb_spec cur (base_of i)); lia).
  set (c := Z.max (base_of i) cur) in *. destruct (part_read f kv i D ltac:(lia)) as (_ & _ & _ & Hs).
  rewrite (bind_ok _ _ _ _ _ (listEntries_run s a p f i c Ef D ltac:(lia) ltac:(unfold c; lia)
    (λ nm ino o Hin, Hl nm ino o (proj2 (elem_of_app _ _ _) (or_introl Hin))))).
  rewrite (bind_ok _ _ _ tt _ (EXPECT_true _ _ eq_refl)). fold kv.
  set (f1 := with_part i _ f) in *. set (s1 := set_world _ s). set (a1 := fill (m_inodes s) a _).
  rewrite fill_app by done. fold a1. destruct (ad_out_of_space a1) eqn:E1.
  - exists f1. split; [|done]. destruct n; [done|]. cbn [list_dir_loop].
    rewrite (bind_ok _ _ _ true (s1, a1)) by (by rewrite <-E1). done.
  - destruct Hs as (D1 & (ps & Ep & Hlen) & Hsame).
    assert (same_listing kv f f1) as Hs by (split; [done|]; split; [by exists ps|done]).
    assert (dir_rest f1 kv n (Datatypes.S i) c = dir_rest f kv n (Datatypes.S i) c) as Er
      by (apply same_listing_rest; [done|lia]).
    destruct (IH (Datatypes.S i) c f1 s1 a1) as (f2 & E2 & Hs2).
    + apply lookup_insert_eq.
    + done.
    + lia.
    + done.
    + cbn [s1 m_world set_world w_kv]. fold kv. rewrite Er. intros nm ino o Hin. apply (Hl nm ino o).
      apply elem_of_app. by right.
    + exists f2. rewrite E2. cbn [s1 m_world set_world w_kv w_heap w_clock m_inodes]. fold kv.
      rewrite insert_insert_eq, Er. split; [done|]. by eapply same_listing_trans.
Qed.

End Partitions.

(** ** Offsets *)

Section Offsets.
Context {S : Type} `{KVStoreLaws S} `{FsEnv} `{MountEnv}.
Implicit Types (kv : S) (f : LogFSFile).

(** No partition has as many entries, removed ones included, as an offset can tell apart. *)
Definition vectors_small f kv : Prop :=
  ∀ i, (i < length (parts_of f))%nat →
    Z.of_nat (length (entries (read_part (part_at f i) kv))) < MAX_ENTRIES_PER_PARTITION.

Definition rest_at f kv (o : Z) : list (bytes * Z * Z) :=
  let i := Z.to_nat (u16 (Z.quot o MAX_ENTRIES_PER_PARTITION)) in
  dir_rest f kv (length (parts_of f) - i) i o.

Lemma base_of_S i : base_of (Datatypes.S i) = base_of i + MAX_ENTRIES_PER_PARTITION.
Proof. unfold base_of, MAX_ENTRIES_PER_PARTITION. lia. Qed.

Lemma dir_rest_low f kv n i c c' :
  c ≤ base_of i → c' ≤ base_of i → dir_rest f kv n i c = dir_rest f kv n i c'.
Proof. intros C1 C2. destruct n; cbn; [done|]. by rewrite !Z.max_l. Qed.

(** The entries after entry [k] are those from its offset on. *)
Lemma dir_rest_resume f kv n i cur k nm ino o :
  vectors_small f kv → (i + n ≤ length (parts_of f))%nat →
  dir_rest f kv n i cur !! k = Some (nm, ino, o) →
  ∃ j, (i ≤ j < i + n)%nat ∧ base_of j < o < base_of j + MAX_ENTRIES_PER_PARTITION
    ∧ dir_rest f kv (i + n - j) j o = drop (Datatypes.S k) (dir_rest f kv n i cur).
Proof.
  intros Hv. revert i cur k. induction n as [|n IH]; intros i cur k Hn Hk; cbn [dir_rest] in *; [done|].
  set (c := Z.max (base_of i) cur) in *. assert (base_of i ≤ c) as Hbc by (unfold c; lia).
  destruct (decide (k < length (part_rest f kv i c))%nat) as [Hlt|Hge].
  - rewrite lookup_app_l in Hk by done. pose proof (Hv i ltac:(lia)) as Hvi. unfold part_rest in Hk.
    destruct (live_from_resume _ _ (c - base_of i) (base_of i) k nm ino o ltac:(lia) Hk) as (R1 & R2 & R3).
    rewrite length_drop in R2. assert (o < base_of i + MAX_ENTRIES_PER_PARTITION) as Ho by lia.
    exists i. split; [lia|]. split; [lia|]. replace (i + Datatypes.S n - i)%nat with (Datatypes.S n) by lia.
    cbn [dir_rest]. rewrite Z.max_r by lia.
    rewrite (dir_rest_low f kv n _ o c) by (rewrite base_of_S; lia).
    rewrite drop_app_le by lia. f_equal. unfold part_rest. rewrite <-R3, drop_drop.
    do 2 f_equal. lia.
  - rewrite lookup_app_r in Hk by lia. destruct (IH (Datatypes.S i) c _ ltac:(lia) Hk) as (j & Hj & Ho & E).
    exists j. split; [lia|]. split; [done|]. replace (i + Datatypes.S n - j)%nat with (Datatypes.S i + n - j)%nat by lia.
    rewrite E, drop_app_ge by lia. f_equal. lia.
Qed.

Lemma offset_partition j o :
  Z.of_nat j < 65536 → base_of j ≤ o < base_of j + MAX_ENTRIES_PER_PARTITION →
  Z.to_nat (u16 (Z.quot o MAX_ENTRIES_PER_PARTITION)) = j.
Proof.
  unfold base_of, MAX_ENTRIES_PER_PARTITION. intros Hj Ho. rewrite Z.quot_div_nonneg by lia.
  rewrite <-(Z.div_unique o 1000000 (Z.of_nat j) (o - Z.of_nat j * 1000000)) by lia.
  unfold u16. rewrite Z.mod_small; lia.
Qed.

(** The listing goes on where it stopped. *)
Lemma rest_at_resume f kv o k nm ino o' :
  dir_inv f kv → vectors_small f kv → rest_at f kv o !! k = Some (nm, ino, o') →
  rest_at f kv o' = drop (Datatypes.S k) (rest_at f kv o).
Proof.
  intros D Hv. pose proof (di_count _ _ D) as Hc. unfold rest_at at 1.
  set (i := Z.to_nat (u16 (Z.quot o MAX_ENTRIES_PER_PARTITION))). intros Hk.
  destruct (decide (i ≤ length (parts_of f))%nat) as [Hi|Hi].
  2:{ replace (length (parts_of f) - i)%nat with 0%nat in Hk by lia. done. }
  destruct (dir_rest_resume f kv (length (parts_of f) - i) i o k nm ino o' Hv ltac:(lia) Hk) as (j & Hj & Ho & E).
  unfold rest_at at 1. rewrite (offset_partition j o') by lia.
  replace (length (parts_of f) - j)%nat with (i + (length (parts_of f) - i) - j)%nat by lia. done.
Qed.

(** What is listed is bound. *)
Lemma part_rest_sound f kv i cur nm ino o :
  dir_inv f kv → (i < length (parts_of f))%nat → (nm, ino, o) ∈ part_rest f kv i cur →
  partition_index f nm = i ∧ dir_find f kv nm = Some ino.
Proof.
  intros D Hi (n' & -> & F & _)%live_from_sound. destruct (di_parts _ _ D i Hi) as (I & _).
  rewrite (part_abs_cstr _ _ _ _ I F). pose proof (di_placed _ _ D i n' ino Hi F) as E.
  split; [done|]. unfold dir_find. by rewrite E.
Qed.

Lemma dir_rest_sound f kv n i cur nm ino o :
  dir_inv f kv → (i + n ≤ length (parts_of f))%nat → (nm, ino, o) ∈ dir_rest f kv n i cur →
  (i ≤ partition_index f nm)%nat ∧ dir_find f kv nm = Some ino.
Proof.
  intros D. revert i cur. induction n as [|n IH]; intros i cur Hn Hin; [by apply not_elem_of_nil in Hin|].
  apply elem_of_app in Hin as [Hin|Hin].
  - apply part_rest_sound in Hin as [? ?]; [split; [lia|done]|done|lia].
  - apply IH in Hin as [? ?]; [split; [lia|done]|lia].
Qed.

(** What is bound is listed. *)
Lemma part_rest_complete f kv nm ino :
  dir_inv f kv → dir_find f kv nm = Some ino →
  ∃ o, (nm, ino, o) ∈ part_rest f kv (partition_index f nm) (base_of (partition_index f nm)).
Proof.
  intros D F. pose proof (partition_index_lt f nm (proj1 (di_count _ _ D))) as Hi. unfold dir_find in F.
  set (i := partition_index f nm) in *. destruct (di_parts _ _ D i Hi) as (I & _).
  unfold part_rest. rewrite Z.sub_diag. change (Z.to_nat 0) with 0%nat. rewrite drop_0.
  destruct (part_read f kv i D Hi) as (_ & Hbn & _ & D' & _ & _).
  destruct (di_parts _ _ D' i) as (I' & _); [cbn; by rewrite length_insert|].
  rewrite part_at_with, decide_True in I' by done.
  rewrite <-(part_abs_cstr _ _ _ _ I F).
  apply live_from_complete; [done|]. apply (pi_vector _ _ I'). rewrite Hbn. by apply sm_find_elem.
Qed.

Lemma dir_rest_complete f kv n i nm ino :
  dir_inv f kv → (i ≤ partition_index f nm < i + n)%nat → dir_find f kv nm = Some ino →
  ∃ o, (nm, ino, o) ∈ dir_rest f kv n i (base_of i).
Proof.
  intros D. revert i. induction n as [|n IH]; intros i Hi F; [lia|].
  cbn [dir_rest]. rewrite Z.max_id, (dir_rest_low f kv n _ _ (base_of (Datatypes.S i)))
    by (rewrite ?base_of_S; unfold MAX_ENTRIES_PER_PARTITION; lia).
  setoid_rewrite elem_of_app. destruct (decide (partition_index f nm = i)) as [<-|He].
  - destruct (part_rest_complete f kv nm ino D F) as [o Ho]. eauto.
  - destruct (IH (Datatypes.S i) ltac:(lia) F) as [o Ho]. eauto.
Qed.

(** The whole listing: the names that are bound, with their inodes. *)
Lemma rest_at_elem f kv nm ino :
  dir_inv f kv → dir_find f kv nm = Some ino ↔ ∃ o, (nm, ino, o) ∈ rest_at f kv 0.
Proof.
  intros D. unfold rest_at. change (Z.to_nat _) with 0%nat. rewrite Nat.sub_0_r. split.
  - intros F. apply (dir_rest_complete f kv (length (parts_of f)) 0); [done| |done].
    pose proof (partition_index_lt f nm (proj1 (di_count _ _ D))). lia.
  - intros [o Ho]. by apply (dir_rest_sound f kv _ 0 0 nm ino o) in Ho as [_ F].
Qed.

(** Offsets grow along the listing. *)
Definition ascending (l : list (bytes * Z * Z)) : Prop := StronglySorted Z.lt l.*2.

Lemma live_from_above bn es i base : Forall (λ o, base + i < o) (live_from bn es i base).*2.
Proof.
  revert i. induction es as [|e es IH]; intros i; cbn; [done|].
  assert (Forall (λ o, base + i < o) (live_from bn es (i + 1) base).*2)
    by (eapply Forall_impl; [apply IH|cbn; lia]).
  destruct (entry_live bn e); [constructor; [cbn; lia|]|]; done.
Qed.
Lemma live_from_ascending bn es i base : ascending (live_from bn es i base).
Proof.
  unfold ascending. revert i. induction es as [|e es IH]; intros i; cbn; [constructor|].
  destruct (entry_live bn e); [|apply IH]. constructor; [apply IH|].
  eapply Forall_impl; [apply live_from_above|cbn; lia].
Qed.

Lemma part_rest_between f kv i cur o :
  vectors_small f kv → (i < length (parts_of f))%nat → base_of i ≤ cur →
  o ∈ (part_rest f kv i cur).*2 → cur < o < base_of (Datatypes.S i).
Proof.
  intros Hv Hi Hc ([[nm ino] o'] & -> & Hin)%list_elem_of_fmap. cbn [snd].
  apply list_elem_of_lookup_1 in Hin as [k Hk]. pose proof (Hv i Hi).
  apply live_from_resume in Hk as (R1 & R2 & _); [|lia].
  rewrite length_drop in R2. rewrite base_of_S. lia.
Qed.

Lemma dir_rest_ascending f kv n i cur :
  vectors_small f kv → (i + n ≤ length (parts_of f))%nat →
  ascending (dir_rest f kv n i cur) ∧ Forall (λ o, Z.max (base_of i) cur < o) (dir_rest f kv n i cur).*2.
Proof.
  intros Hv. revert i cur. induction n as [|n IH]; intros i cur Hn; cbn [dir_rest]; [by repeat constructor|].
  set (c := Z.max (base_of i) cur). assert (base_of i ≤ c) as Hc by (unfold c; lia).
  destruct (IH (Datatypes.S i) c ltac:(lia)) as [IH1 IH2]. rewrite Forall_forall in IH2.
  unfold ascending. rewrite fmap_app. split.
  - apply StronglySorted_app_2; [|apply live_from_ascending|done].
    intros x y Hx%part_rest_between Hy%IH2; [lia|done|lia|done].
  - apply Forall_app. split; apply Forall_forall.
    + intros x Hx%part_rest_between; [lia|done|lia|done].
    + intros x Hx%IH2. lia.
Qed.

(** No name is listed twice if no partition has an entry twice. *)
Definition vectors_unique f kv : Prop :=
  ∀ i, (i < length (parts_of f))%nat → NoDup (entries (read_part (part_at f i) kv)).

Lemma elem_of_names (l : list (bytes * Z * Z)) n : n ∈ l.*1.*1 ↔ ∃ ino o, (n, ino, o) ∈ l.
Proof.
  rewrite list_elem_of_fmap. setoid_rewrite list_elem_of_fmap. split.
  - intros ([n' j] & -> & [[n2 j2] o] & [= -> ->] & Hin). eauto.
  - intros (ino & o & Hin). exists (n, ino). split; [done|]. by exists (n, ino, o).
Qed.

Lemma live_from_names bn es i base :
  (∀ n v, sm_find n bn = Some v → cstr n = n) → NoDup es → NoDup (live_from bn es i base).*1.
Proof.
  intros Hc. revert i. induction es as [|[nm ino] es IH]; intros i Hu; cbn; [constructor|].
  apply NoDup_cons in Hu as [Hni Hu]. destruct (entry_live bn (nm, ino)) eqn:El; [|by apply IH].
  constructor; [|by apply IH]. intros ([[n' j'] o'] & E & Hin)%list_elem_of_fmap.
  injection E as <- <-. apply Hni. apply live_from_sound in Hin as (n2 & E2 & F2 & Hin2).
  unfold entry_live in El. cbn in El. destruct (sm_find nm bn) as [v|] eqn:F; [|done].
  rewrite (Hc _ _ F), (Hc _ _ F2) in E2. by subst.
Qed.

Lemma dir_rest_names f kv n i cur :
  dir_inv f kv → vectors_unique f kv → (i + n ≤ length (parts_of f))%nat →
  NoDup (dir_rest f kv n i cur).*1.*1.
Proof.
  intros D Hu. revert i cur. induction n as [|n IH]; intros i cur Hn; cbn [dir_rest]; [constructor|].
  set (c := Z.max (base_of i) cur). rewrite !fmap_app. apply NoDup_app. split; [|split; [|apply IH; lia]].
  - destruct (di_parts _ _ D i ltac:(lia)) as (I & _). apply NoDup_fmap_2_strong.
    + intros [n1 j1] [n2 j2] ([[? ?] o1] & [= -> ->] & L1)%list_elem_of_fmap
        ([[? ?] o2] & [= -> ->] & L2)%list_elem_of_fmap [= ->].
      apply part_rest_sound in L1 as [_ F1], L2 as [_ F2]; [congruence|done|lia|done|lia].
    + apply live_from_names; [by intros nm v; apply part_abs_cstr|].
      eapply sublist_NoDup; [apply (Hu i); lia|apply sublist_drop].
  - intros nm (j1 & o1 & L1)%elem_of_names (j2 & o2 & L2)%elem_of_names.
    apply part_rest_sound in L1 as [F1 _]; [|done|lia]. apply dir_rest_sound in L2 as [F2 _]; [|done|lia].
    lia.
Qed.

End Offsets.

(** ** The requests *)

Section Requests.
Context {S : Type} `{KVStoreLaws S} `{!KVReliable S} `{FsEnv} `{MountEnv}.
Implicit Types (s : MountState S) (f : LogFSFile).

Abbreviation kvs s := (w_kv (m_world s)).

(** A directory that can be listed: open under [p], in the store, and every inode
    bound in it can be listed. *)
Record listing_ok s (p : Z) f : Prop := {
  lo_p : p ≠ 0;
  lo_inode : ∃ ip, m_inodes s !! p = Some ip ∧ st_ino (attr ip) = p;
  lo_file : w_heap (m_world s) !! p = Some f;
  lo_dir : dir_inv f (kvs s);
  lo_stored : ∃ m, kv_get (kvs s) (inode_key (handle f)) = Some (encode_meta m)
    ∧ wf_meta m ∧ meta_handle m = handle f ∧ meta_fsId m = fsId f;
  lo_small : vectors_small f (kvs s);
  lo_children n ino : dir_find f (kvs s) n = Some ino → listable (m_inodes s) ino;
}.

Definition with_file (p : Z) f s : MountState S :=
  set_world (mkW (<[p := f]> (w_heap (m_world s))) (kvs s) (w_clock (m_world s))) s.

(** What a request with room for [size] bytes gets. *)
Definition page s f (size o : Z) : list (bytes * stat_t * Z) :=
  let l := rest_at f (kvs s) o in dirent (m_inodes s) <$> take (room size l) l.

Lemma exists_ok f (kv : S) clk m :
  kv_get kv (inode_key (handle f)) = Some (encode_meta m) → wf_meta m →
  meta_handle m = handle f → meta_fsId m = fsId f →
  exists_ (mkFS f kv clk) = Ok (true, mkFS f kv clk).
Proof.
  intros E W Hh Hf. unfold exists_, readFromLog, this, fget, as_meta. mrun.
  cbn [f_this f_kv f_clock]. rewrite E, decode_encode by done.
  cbn [f_this f_kv f_clock]. by rewrite Hh, Hf, !Z.eqb_refl.
Qed.

Lemma rest_at_sound f (kv : S) o nm ino o' :
  dir_inv f kv → (nm, ino, o') ∈ rest_at f kv o → dir_find f kv nm = Some ino.
Proof.
  intros D. unfold rest_at. set (i := Z.to_nat _). intros Hin.
  destruct (decide (i ≤ length (parts_of f))%nat) as [Hi|Hi].
  - apply dir_rest_sound in Hin as [_ F]; [done|done|lia].
  - replace (length (parts_of f) - i)%nat with 0%nat in Hin by lia. by apply not_elem_of_nil in Hin.
Qed.

(** One request. *)
Lemma readdir_run e s p f size o :
  listing_ok s p f →
  ∃ f', dispatch e (R_readdir p size o p) s =
      Ok (tt, add_reply (ReplyDirents (page s f size o)) (with_file p f' s))
    ∧ same_listing (kvs s) f f'.
Proof.
  intros [Hp (ip & Ei & Hi) Ef D (m & Em & Wm & Hh & Hfs) Hv Hl].
  pose proof (di_count _ _ D) as Hc.
  set (i := Z.to_nat (u16 (Z.quot o MAX_ENTRIES_PER_PARTITION))).
  assert (∃ f', list_dir_loop (λ A m, at_mount (on_file p m)) Add (gets (λ '(_, a), ad_out_of_space a))
      (length (parts_of f) - i) i o (s, mkAdder size 0 false [])
      = Ok (tt, (with_file p f' s, fill (m_inodes s) (mkAdder size 0 false []) (rest_at f (kvs s) o)))
    ∧ same_listing (kvs s) f f') as (f' & El & Hs).
  { unfold rest_at. fold i. destruct (decide (i ≤ length (parts_of f))%nat) as [Hle|Hgt].
    - apply list_dir_loop_run; [done|done|lia|done|].
      intros nm ino o' Hin. apply (Hl nm). apply dir_rest_sound in Hin as [_ F]; [done|done|lia].
    - replace (length (parts_of f) - i)%nat with 0%nat by lia. exists f.
      split; [|by apply same_listing_refl]. unfold with_file. rewrite insert_id by done. cbn. by destruct s as [[]]. }
  exists f'. split; [|done].
  change (dispatch e (R_readdir p size o p) s) with (fk_readdir p size o p s).
  unfold fk_readdir. rewrite (bind_ok _ _ _ _ _ (fi_inode_run s p ip Ei Hi Hp)).
  unfold Readdir, listDirectory.
  assert (∀ {A} (m : M (FState S) A) x, m (mkFS f (kvs s) (w_clock (m_world s))) =
    Ok (x, mkFS f (kvs s) (w_clock (m_world s))) →
    at_mount (on_file p m) (s, mkAdder size 0 false []) = Ok (x, (s, mkAdder size 0 false []))) as Hat.
  { intros A mm x Emm. unfold at_mount. rewrite (on_file_run s p _ f _ _ _ _ Ef Emm).
    rewrite insert_id by done. by destruct s as [[]]. }
  rewrite (bind_ok _ _ _ _ _ (Hat _ _ _ (exists_ok f (kvs s) _ m Em Wm Hh Hfs))). cbn [negb].
  rewrite (bind_ok _ _ _ _ _ (Hat _ this f eq_refl)). rewrite num_parts. fold i.
  rewrite (bind_ok _ _ _ _ _ El). cbn [StatusToErrno Z.eqb mret].
  unfold fuse_reply. mrun. unfold page. rewrite fill_entries. done.
Qed.

(** The request leaves a directory that can be listed, with the same listing. *)
Lemma same_listing_find (kv : S) f f' n : same_listing kv f f' → dir_inv f kv → dir_find f' kv n = dir_find f kv n.
Proof.
  intros (_ & (ps & -> & Hl) & E) D. pose proof (partition_index_lt f n (proj1 (di_count _ _ D))) as Hi.
  unfold dir_find. replace (partition_index (set_parts ps f) n) with (partition_index f n)
    by (unfold partition_index; by rewrite !num_parts, Hl).
  by rewrite (proj1 (E _ Hi)).
Qed.

Lemma same_listing_length (kv : S) f f' : same_listing kv f f' → length (parts_of f') = length (parts_of f).
Proof. by intros (_ & (ps & -> & Hl) & _). Qed.

Lemma same_listing_rest_at (kv : S) f f' o : same_listing kv f f' → rest_at f' kv o = rest_at f kv o.
Proof.
  intros Hs. unfold rest_at. rewrite (same_listing_length _ _ _ Hs). set (i := Z.to_nat _).
  destruct (decide (i ≤ length (parts_of f))%nat); [apply same_listing_rest; [done|lia]|].
  by replace (length (parts_of f) - i)%nat with 0%nat by lia.
Qed.

Lemma listing_ok_next s p f f' r :
  listing_ok s p f → same_listing (kvs s) f f' → listing_ok (add_reply r (with_file p f' s)) p f'.
Proof.
  intros [Hp Hi Ef D Hm Hv Hl] Hs. pose proof (same_listing_length _ _ _ Hs) as Hlen.
  split; cbn; try done.
  - apply lookup_insert_eq.
  - apply Hs.
  - destruct Hs as (_ & (ps & -> & _) & _). done.
  - intros i Hlt. rewrite Hlen in Hlt. destruct Hs as (_ & _ & E). rewrite (proj2 (E i Hlt)). by apply Hv.
  - intros n ino. rewrite (same_listing_find (kvs s) f f') by done. apply Hl.
Qed.

(** ** Reading the whole directory *)

(** The bytes an answer takes in the buffer. *)
Definition page_bytes (es : list (bytes * stat_t * Z)) : Z :=
  foldr (λ e n, fuse_direntry_size (fst (fst e)) + n) 0 es.

Lemma page_fits t size l : 0 ≤ size → page_bytes (dirent t <$> take (room size l) l) ≤ size.
Proof.
  revert size. induction l as [|e l IH]; intros size Hs; cbn; [done|].
  destruct (Z.ltb_spec size (fuse_direntry_size (fst (fst e)))); cbn; [done|].
  specialize (IH (size - fuse_direntry_size (fst (fst e)))). unfold page_bytes in IH. lia.
Qed.

Lemma room_le size l : (room size l ≤ length l)%nat.
Proof.
  revert size. induction l as [|e l IH]; intros size; cbn [room length]; [done|].
  specialize (IH (size - fuse_direntry_size (fst (fst e)))). destruct (_ <? _); lia.
Qed.

(** The kernel asks on from the offset of the last entry it got, until it gets none. *)
Fixpoint readdir_all (fuel : nat) (e : bool) (p size o : Z) : M (MountState S) (option (list (bytes * stat_t * Z))) :=
  match fuel with
  | O => mret None
  | Datatypes.S fuel =>
      dispatch e (R_readdir p size o p);;
      rs ← gets m_replies;
      match last rs with
      | Some (ReplyDirents es) =>
          match last es with
          | None => mret (Some [])
          | Some (_, _, o') => r ← readdir_all fuel e p size o'; mret (app es <$> r)
          end
      | _ => mret None
      end
  end.

Definition answered (pgs : list (list (bytes * stat_t * Z))) s : MountState S :=
  foldl (λ s es, add_reply (ReplyDirents es) s) s pgs.

Lemma with_file_twice p f f' s : with_file p f' (with_file p f s) = with_file p f' s.
Proof. unfold with_file. cbn. by rewrite insert_insert_eq. Qed.

Lemma readdir_all_run e p size fuel s f o :
  listing_ok s p f → 0 ≤ size →
  (∀ n ino, dir_find f (kvs s) n = Some ino → fuse_direntry_size n ≤ size) →
  (length (rest_at f (kvs s) o) < fuel)%nat →
  ∃ f' pgs, readdir_all fuel e p size o s =
      Ok (Some (dirent (m_inodes s) <$> rest_at f (kvs s) o), answered pgs (with_file p f' s))
    ∧ same_listing (kvs s) f f' ∧ concat pgs = dirent (m_inodes s) <$> rest_at f (kvs s) o
    ∧ Forall (λ es, page_bytes es ≤ size) pgs.
Proof.
  revert s f o. induction fuel as [|fuel IH]; intros s f o L Hs Hfit Hfuel; [lia|].
  destruct (readdir_run e s p f size o L) as (f1 & E1 & S1). pose proof (lo_dir _ _ _ L) as D.
  cbn [readdir_all]. rewrite (bind_ok _ _ _ _ _ E1). set (es := page s f size o). set (s1 := add_reply _ _).
  rewrite (bind_ok _ _ _ (m_replies s1) s1) by done. cbn [s1 add_reply m_replies]. rewrite last_snoc.
  assert (page_bytes es ≤ size) as Hpg by (by apply page_fits).
  unfold es, page in *. set (l := rest_at f (kvs s) o) in *. set (k := room size l) in *.
  destruct (decide (l = [])) as [Hn|Hn].
  { exists f1, [[]]. unfold s1. rewrite Hn, take_nil. do 3 (split; [done|]). by repeat constructor. }
  pose proof (room_le size l) as Hk. fold k in Hk.
  assert (0 < k)%nat as Hk0.
  { unfold k. destruct l as [|[[nm ino] o1] l'] eqn:El; [done|]. cbn [room fst snd].
    rewrite (proj2 (Z.ltb_ge _ _)); [lia|]. apply (Hfit nm ino).
    apply (rest_at_sound f (kvs s) o nm ino o1); [done|]. fold l. rewrite El. left. }
  destruct (l !! (k - 1)%nat) as [[[nm ino] o']|] eqn:Ek.
  2:{ apply lookup_ge_None in Ek. lia. }
  rewrite fmap_last, last_lookup, length_take, Nat.min_l, lookup_take_lt by lia.
  replace (Init.Nat.pred k) with (k - 1)%nat by lia. rewrite Ek. cbn [fmap option_fmap option_map dirent fst snd].
  pose proof (rest_at_resume f (kvs s) o (k - 1) nm ino o' D (lo_small _ _ _ L) Ek) as Er.
  fold l in Er. replace (Datatypes.S (k - 1)) with k in Er by lia.
  pose proof (listing_ok_next s p f f1 (ReplyDirents es) L S1) as L1.
  destruct (IH s1 f1 o' L1 Hs) as (f2 & pgs & E2 & S2 & Hcat & Hall).
  - intros n j. cbn. rewrite (same_listing_find (kvs s) f f1) by done. apply Hfit.
  - cbn. rewrite (same_listing_rest_at (kvs s) f f1), Er, length_drop by done. lia.
  - cbn in S2, Hcat. cbn [s1 add_reply m_inodes m_world with_file set_world w_kv] in E2.
    rewrite (same_listing_rest_at (kvs s) f f1) in E2, Hcat by done. rewrite Er in E2, Hcat.
    exists f2, ((dirent (m_inodes s) <$> take k l) :: pgs).
    split; [|split; [by eapply same_listing_trans|split; [|by constructor]]].
    + rewrite (bind_ok _ _ _ _ _ E2). cbn. rewrite <-fmap_app, take_drop.
      do 2 f_equal. unfold s1. change (with_file p f2 (add_reply ?r ?s)) with (add_reply r (with_file p f2 s)).
      by rewrite with_file_twice.
    + cbn. rewrite Hcat, <-fmap_app, take_drop. done.
Qed.

End Requests.

(** ** The listing is complete *)

Section Listing.
Context {S : Type} `{KVStoreLaws S} `{!KVReliable S} `{FsEnv} `{MountEnv}.

Lemma dirent_elem t (l : list (bytes * Z * Z)) n st o :
  (n, st, o) ∈ dirent t <$> l ↔ ∃ ino, (n, ino, o) ∈ l ∧ st = attrs t ino.
Proof.
  rewrite list_elem_of_fmap. split.
  - intros ([[n' ino] o'] & [= -> -> ->] & Hin). eauto.
  - intros (ino & Hin & ->). by exists (n, ino, o).
Qed.

Lemma listable_attrs t ino : listable t ino → ∃ i, t !! ino = Some i ∧ attrs t ino = attr i ∧ st_ino (attr i) = ino.
Proof. intros (i & E & _ & Hi & _). exists i. unfold attrs. by rewrite E. Qed.

Lemma readdir_all_complete e p size fuel (s : MountState S) f :
  let kv := w_kv (m_world s) in
  listing_ok s p f → 0 ≤ size →
  (∀ n ino, dir_find f kv n = Some ino → fuse_direntry_size n ≤ size) →
  (length (rest_at f kv 0) < fuel)%nat →
  ∃ l f' pgs, readdir_all fuel e p size 0 s = Ok (Some l, answered pgs (with_file p f' s))
    ∧ (∀ n ino, dir_find f kv n = Some ino ↔ ∃ st o, (n, st, o) ∈ l ∧ st_ino st = ino)
    ∧ (∀ n st o, (n, st, o) ∈ l → ∃ i, m_inodes s !! st_ino st = Some i ∧ attr i = st)
    ∧ StronglySorted Z.lt l.*2
    ∧ (vectors_unique f kv → NoDup l.*1.*1)
    ∧ concat pgs = l ∧ Forall (λ es, page_bytes es ≤ size) pgs
    ∧ same_listing kv f f'.
Proof.
  intros kv L Hs Hfit Hfuel.
  destruct (readdir_all_run e p size fuel s f 0 L Hs Hfit Hfuel) as (f' & pgs & E & Sl & Hcat & Hall).
  pose proof (lo_dir _ _ _ L) as D. pose proof (lo_small _ _ _ L) as Hv.
  assert (∀ n ino o, (n, ino, o) ∈ rest_at f kv 0 → dir_find f kv n = Some ino
    ∧ ∃ i, m_inodes s !! ino = Some i ∧ attrs (m_inodes s) ino = attr i ∧ st_ino (attr i) = ino) as Hl.
  { intros n ino o Hin. assert (dir_find f kv n = Some ino) as F by (apply rest_at_elem; eauto).
    split; [done|]. by apply listable_attrs, (lo_children _ _ _ L n). }
  eexists _, f', pgs. split; [exact E|]. split; [|split; [|split; [|split; [|done]]]].
  - intros n ino. split.
    + intros [o Hin]%rest_at_elem; [|done]. destruct (Hl _ _ _ Hin) as (_ & i & _ & Ha & Hi).
      exists (attrs (m_inodes s) ino), o. rewrite dirent_elem, Ha. split; [|done]. by exists ino.
    + intros (st & o & (ino' & Hin & ->)%dirent_elem & <-).
      destruct (Hl _ _ _ Hin) as (F & i & _ & -> & ->). done.
  - intros n st o (ino & Hin & ->)%dirent_elem. destruct (Hl _ _ _ Hin) as (_ & i & Ei & -> & ->). eauto.
  - rewrite <-list_fmap_compose. apply (dir_rest_ascending f kv _ 0 0 Hv). cbn. lia.
  - intros Hu. rewrite <-!list_fmap_compose.
    pose proof (dir_rest_names f kv (length (parts_of f) - 0) 0 0 D Hu ltac:(lia)) as Hd.
    by rewrite <-list_fmap_compose in Hd.
Qed.


End Listing.

(** ** Witness: a directory of three names over two partitions, and a removed entry *)

#[local] Instance demo_list_fs : FsEnv := demo_env (demo_tier []).
#[local] Existing Instance demo_mount_env.

Definition demo_part (i : Z) (es bn : list (bytes * Z)) : LogFSDirectoryPartition := MkPart i 1 2 es bn P_DIRTY.
Definition demo_list_meta : LogFSMetaData :=
  set_nLink 2 (set_type LOGFS_IFDIR (init_fields 1 2 0 0 (new_meta 0 8192))).
Definition demo_list_dir : LogFSFile :=
  MkFile 1 2 (lit "d") demo_list_meta 0 false 0
    (Some [Some (demo_part 0 [(lit "cc", 7)] [(lit "cc", 7)]);
           Some (demo_part 1 [(lit "b", 5); (lit "x", 9); (lit "a", 4)] [(lit "a", 4); (lit "b", 5)])]).
Definition demo_child (ino : Z) : FuseKvfsInode := MkInode (stat_mode (S_IFREG + 420) (stat_ino_dev ino 0 stat_zero)) 1 I_CLEAN.
Definition demo_list : MountState MemStore :=
  mkM (mkW {[ 2 := demo_list_dir ]} {[ inode_key 2 := encode_meta demo_list_meta ]} 0)
    {[ 2 := demo_child 2; 4 := demo_child 4; 5 := demo_child 5; 7 := demo_child 7 ]} (new_FsChangeLog [] 0)
    super_empty 6 1 (MkOptions true false) ∅ [] [].

Abbreviation demo_list_kv := (w_kv (m_world demo_list)).

Lemma demo_part_inv (i : Z) (es bn : list (bytes * Z)) (kv : MemStore) :
  0 ≤ i < 65536 → wf_map bn → (∀ e, e ∈ bn → e ∈ es) → kv_get kv (sub_key 2 i) = None →
  part_inv (demo_part i es bn) kv.
Proof.
  intros Hi W Hsub Hk.
  split; cbn [demo_part partitionNumber part_fsId dir_ino entries entries_by_name part_state]; try done; try lia.
  intros v. by rewrite Hk.
Qed.

Lemma demo_list_none i : kv_get demo_list_kv (sub_key 2 i) = None.
Proof. apply lookup_singleton_None, inode_sub_key. Qed.

Lemma demo_list_bound i n ino :
  (i < 2)%nat → sm_find n (part_abs (part_at demo_list_dir i) demo_list_kv) = Some ino →
  (n, ino) ∈ [(lit "cc", 7); (lit "a", 4); (lit "b", 5)] ∧ partition_index demo_list_dir n = i.
Proof.
  intros Hi F%sm_find_elem. destruct i as [|[|]]; [| |lia].
  - change (part_abs _ _) with [(lit "cc", 7)] in F. apply list_elem_of_singleton in F as [= -> ->].
    split; [set_solver|reflexivity].
  - change (part_abs _ _) with [(lit "a", 4); (lit "b", 5)] in F.
    apply elem_of_cons in F as [[= -> ->]|[= -> ->]%list_elem_of_singleton]; (split; [set_solver|reflexivity]).
Qed.

Lemma demo_one_wf (n : bytes) (ino : Z) :
  bool_decide (null_termination ∉ n) = true → bool_decide (Byte.x00 ∉ n) = true →
  0 ≤ ino < 18446744073709551616 → Z.of_nat (length n) < 256 → wf_map [(n, ino)].
Proof.
  intros B1%bool_decide_eq_true B2%bool_decide_eq_true Hi Hl. split.
  - constructor; [|constructor]. intros k v E. by apply not_elem_of_nil in E.
  - by apply Forall_singleton.
  - rewrite entries_bytes_cons, length_app. unfold serialize_entry. rewrite !length_app, length_le_bytes. cbn. lia.
Qed.

Lemma demo_list_inv : dir_inv demo_list_dir demo_list_kv.
Proof.
  split; try (cbn; lia).
  - intros i Hi. destruct i as [|[|]]; [| |cbn in Hi; lia].
    + split; [|done]. apply demo_part_inv; [lia|by apply demo_one_wf|done|apply demo_list_none].
    + split; [|done]. apply demo_part_inv; [lia|apply (pi_wf _ _ part_ab_inv)| |apply demo_list_none].
      intros e. rewrite !elem_of_cons. tauto.
  - intros i n h Hi F. by apply (demo_list_bound i n h) in F as [_ F].
Qed.

Lemma demo_list_find n ino :
  dir_find demo_list_dir demo_list_kv n = Some ino → (n, ino) ∈ [(lit "cc", 7); (lit "a", 4); (lit "b", 5)].
Proof.
  intros F. apply (demo_list_bound (partition_index demo_list_dir n)) in F as [F _]; [done|].
  apply (partition_index_lt demo_list_dir). cbn. lia.
Qed.

Lemma demo_list_ok : listing_ok demo_list 2 demo_list_dir.
Proof.
  split; [done| |done|apply demo_list_inv| | |].
  - by exists (demo_child 2).
  - exists demo_list_meta. by repeat split.
  - intros i Hi. destruct i as [|[|]]; [done|done|cbn in Hi; lia].
  - intros n ino F%demo_list_find. exists (demo_child ino).
    rewrite !elem_of_cons, elem_of_nil in F. destruct F as [[= -> ->]|[[= -> ->]|[[= -> ->]|[]]]]; done.
Qed.


(** The three entries in two answers of at most 50 bytes and an empty one, the removed entry
    skipped. *)
Example demo_list_pages :
  (λ r, match r with Ok (Some l, s') => ((λ e, (fst (fst e), snd e)) <$> l, length (m_replies s')) | _ => ([], 0%nat) end)
    (readdir_all 4 false 2 50 0 demo_list)
  = ([(lit "cc", 1); (lit "b", 1000001); (lit "a", 1000003)], 3%nat).
Proof. vm_compute. reflexivity. Qed.
