(* ===== verification/DirSession.v ===== *)
(** * Listing a directory after a session on it

    The two views of a directory meet here: the map of names that a session of requests
    refines ([NameProps]) and the entries that the readdir requests hand over
    ([ListProps]).  A listing shows the map, and the session can go on after it. *)

From Stdlib Require Import ZArith Lia Strings.String.
From stdpp Require Import base list gmap sorting.
From S2P Require Import Prelude Status Mode SortedMap KVStore MetaData Partition File FileData.
From S2P Require Import Directory DirectoryProps ChangeLog FileSystemManager Mount Fuse MountProps IOProps NameProps ListProps.

#[local] Arguments inode_key : simpl never.
#[local] Arguments sub_key : simpl never.

Section Lists.
Context {S : Type} `{KVStoreLaws S} `{!KVReliable S} `{FsEnv} `{MountEnv}.
Implicit Types (s : MountState S) (A : NS).

(** Every inode bound in the directory has been looked up, or is the directory itself. *)
Definition all_loaded (p : Z) A : Prop :=
  ∀ n c d, ns_names A !! n = Some (c, d) → (c = p ∧ d = true) ∨ ns_known A !! c = Some d.

(** Every name fits a buffer of this size. *)
Definition names_fit (size : Z) A : Prop :=
  ∀ n x, ns_names A !! n = Some x → fuse_direntry_size n ≤ size.

(** What a listing hands over is the map. *)
Definition lists A (l : list (bytes * stat_t * Z)) : Prop :=
  ∀ n c d, ns_names A !! n = Some (c, d) ↔
    ∃ st o, (n, st, o) ∈ l ∧ st_ino st = c ∧ S_ISDIR (st_mode st) = d.

(** ** Lemmas *)

Lemma shows_listable t ino i d :
  t !! ino = Some i → 1 ≤ nlookup i → st_ino (attr i) = ino → shows_kind d (st_mode (attr i)) → listable t ino.
Proof. intros E Hn Hi [Hd Hr]. exists i. rewrite Hd, Hr. by destruct d. Qed.

(** The inode of a bound name is in the table with its kind. *)
Lemma bound_inode fs (w : World S) t p A ip fp n c d :
  names fs w t p A ip fp → all_loaded p A → ns_names A !! n = Some (c, d) →
  ∃ i, t !! c = Some i ∧ 1 ≤ nlookup i ∧ st_ino (attr i) = c ∧ shows_kind d (st_mode (attr i)).
Proof.
  intros N Hall E. destruct (Hall n c d E) as [[-> ->]|Ek].
  - exists ip. by destruct N.
  - destruct (nm_known _ _ _ _ _ _ _ N c d Ek) as (_ & _ & _ & i & f & []). by exists i.
Qed.

Lemma names_listing_ok s p A ip fp :
  names (m_fs_id s) (m_world s) (m_inodes s) p A ip fp → all_loaded p A →
  vectors_small fp (w_kv (m_world s)) → listing_ok s p fp.
Proof.
  intros N Hall Hv. pose proof (nm_p _ _ _ _ _ _ _ N). destruct (nm_obj _ _ _ _ _ _ _ N) as [O1 O2 O3].
  split; [lia|exists ip; by destruct N|apply N|apply N| |done|].
  - destruct (nm_stored _ _ _ _ _ _ _ N) as (m & E & [W Hf Hh _]). exists m. by rewrite O2, O1.
  - intros n c. rewrite (nm_find _ _ _ _ _ _ _ N). destruct (ns_names A !! n) as [[c' d]|] eqn:E; [|done].
    intros [= ->]. destruct (bound_inode _ _ _ _ _ _ _ n c d N Hall E) as (i & Ei & Hn & Hi & Hk).
    by apply (shows_listable _ _ i d).
Qed.

(** Reading partitions keeps the representation. *)
Lemma names_same_listing fs (w : World S) t p A ip fp fp' :
  names fs w t p A ip fp → same_listing (w_kv w) fp fp' →
  names fs (mkW (<[p := fp']> (w_heap w)) (w_kv w) (w_clock w)) t p A ip fp'.
Proof.
  intros N Hs. rewrite <-(insert_id t p ip) by apply N.
  apply (names_self fs w t p A ip fp); try done; try apply N; try apply Hs.
  - apply (object_parts _ _ _ fp); [apply Hs|apply N].
  - intros n. apply same_listing_find; [done|apply N].
Qed.

Lemma answered_replies pgs s : m_replies (answered pgs s) = m_replies s ++ (ReplyDirents <$> pgs).
Proof.
  unfold answered. revert s. induction pgs as [|es pgs IH]; intros s; cbn; [by rewrite app_nil_r|].
  rewrite IH. cbn. by rewrite <-app_assoc.
Qed.

Lemma answered_fields pgs s :
  m_fs_id (answered pgs s) = m_fs_id s ∧ m_world (answered pgs s) = m_world s
  ∧ m_inodes (answered pgs s) = m_inodes s ∧ m_handleId (answered pgs s) = m_handleId s
  ∧ m_log (answered pgs s) = m_log s.
Proof. unfold answered. revert s. induction pgs as [|es pgs IH]; intros s; [done|]. apply (IH (add_reply _ s)). Qed.

Lemma listing_lists s p A ip fp l :
  names (m_fs_id s) (m_world s) (m_inodes s) p A ip fp → all_loaded p A →
  (∀ n ino, dir_find fp (w_kv (m_world s)) n = Some ino ↔ ∃ st o, (n, st, o) ∈ l ∧ st_ino st = ino) →
  (∀ n st o, (n, st, o) ∈ l → ∃ i, m_inodes s !! st_ino st = Some i ∧ attr i = st) → lists A l.
Proof.
  intros N Hall F Ha.
  assert (∀ n c d st o, ns_names A !! n = Some (c, d) → (n, st, o) ∈ l → st_ino st = c → S_ISDIR (st_mode st) = d)
    as Hkind.
  { intros n c d st o E Hin Hc. destruct (bound_inode _ _ _ _ _ _ _ n c d N Hall E) as (i & Ei & _ & _ & [Hd _]).
    destruct (Ha n st o Hin) as (i' & Ei' & <-). congruence. }
  intros n c d. pose proof (nm_find _ _ _ _ _ _ _ N n) as En. split.
  - intros E. rewrite E in En. destruct (proj1 (F n c) En) as (st & o & Hin & Hc). eauto 6.
  - intros (st & o & Hin & Hc & Hd). rewrite (proj2 (F n c)) in En by eauto.
    destruct (ns_names A !! n) as [[c' d']|] eqn:E; [|done]. injection En as ->.
    by rewrite <-Hd, (Hkind n c' d' st o E Hin Hc).
Qed.

(** A listing of an open directory. *)
Lemma listing_names e p size fuel s A f :
  dir_open s p A → all_loaded p A → names_fit size A → 0 ≤ size →
  w_heap (m_world s) !! p = Some f → vectors_small f (w_kv (m_world s)) →
  (length (rest_at f (w_kv (m_world s)) 0) < fuel)%nat →
  ∃ l pgs s', readdir_all fuel e p size 0 s = Ok (Some l, s')
    ∧ m_replies s' = m_replies s ++ (ReplyDirents <$> pgs) ∧ concat pgs = l
    ∧ Forall (λ es, page_bytes es ≤ size) pgs
    ∧ lists A l ∧ StronglySorted Z.lt l.*2
    ∧ (vectors_unique f (w_kv (m_world s)) → NoDup l.*1.*1)
    ∧ dir_open s' p A ∧ w_kv (m_world s') = w_kv (m_world s) ∧ m_log s' = m_log s.
Proof.
  intros (Hh & ip & fp & N) Hall Hfit Hs Ef Hv Hfuel.
  pose proof (nm_file _ _ _ _ _ _ _ N) as Efp. rewrite Ef in Efp. injection Efp as ->.
  destruct (readdir_all_complete e p size fuel s fp) as (l & f' & pgs & E & F & Ha & Hso & Hu & Hc & Hp & Sl).
  - by apply (names_listing_ok s p A ip).
  - done.
  - intros n c. rewrite (nm_find _ _ _ _ _ _ _ N). destruct (ns_names A !! n) eqn:En; [|done]. eauto.
  - done.
  - destruct (answered_fields pgs (with_file p f' s)) as (A1 & A2 & A3 & A4 & A5).
    exists l, pgs, (answered pgs (with_file p f' s)). split; [done|].
    split; [by rewrite answered_replies|]. split; [done|]. split; [done|].
    split; [|split; [done|split; [done|split]]].
    + by apply (listing_lists s p A ip fp).
    + split; [by rewrite A4|]. exists ip, f'. rewrite A1, A2, A3. by apply (names_same_listing _ _ _ _ _ _ fp).
    + by rewrite A2, A5.
Qed.

End Lists.

(** ** Property *)

Section Property.
Context {S : Type} `{KVStoreLaws S} `{!KVReliable S} `{FsEnv} `{MountEnv}.


End Property.

(** ** Witness: the session of [NameProps] leaves one name *)

#[local] Instance demo_session_fs : FsEnv := demo_env (demo_tier []).
#[local] Existing Instance demo_mount_env.

Definition demo_after : MountState MemStore :=
  match serve false (ns_request 2 <$> demo_names_reqs) demo_names with
  | Ok (_, s') => s'
  | Crash _ => demo_names
  end.
Definition demo_after_dir : LogFSFile := default demo_names_dir (w_heap (m_world demo_after) !! 2).
Definition demo_after_names : NS := fst (ns_run (MkNS ∅ ∅ 6) demo_names_reqs).

Lemma demo_after_run : serve false (ns_request 2 <$> demo_names_reqs) demo_names = Ok (tt, demo_after).
Proof.
  assert (match serve false (ns_request 2 <$> demo_names_reqs) demo_names with Ok _ => true | Crash _ => false end
    = true) as E by (vm_compute; reflexivity).
  unfold demo_after. by destruct (serve _ _ _) as [[[] s']|].
Qed.

Lemma demo_after_dir_at : w_heap (m_world demo_after) !! 2 = Some demo_after_dir.
Proof.
  assert (match w_heap (m_world demo_after) !! 2 with Some _ => true | None => false end = true) as E
    by (vm_compute; reflexivity).
  unfold demo_after_dir. by destruct (w_heap _ !! 2).
Qed.

Lemma demo_after_small : vectors_small demo_after_dir (w_kv (m_world demo_after)).
Proof.
  assert (Forall (λ i, Z.of_nat (length (entries (read_part (part_at demo_after_dir i) (w_kv (m_world demo_after)))))
    < MAX_ENTRIES_PER_PARTITION) (seq 0 (length (parts_of demo_after_dir)))) as Hf
    by (apply (bool_decide_unpack _); vm_compute; exact I).
  intros i Hi. rewrite Forall_forall in Hf. apply Hf, elem_of_seq. lia.
Qed.

