(* ===== verification/FileSession.v ===== *)
(** * Using a file that was just created

    The reply to a create request carries a handle that the kernel goes on using without
    another lookup or open.  Here the handler that makes the file ([CreateProps]) meets the
    requests that use it ([IOProps]): the object that [LogFSFile::create] leaves in the
    cache and in the store is an open file of no bytes, and a session on it leaves the
    directory as the create request made it. *)

From Stdlib Require Import ZArith Lia Strings.String.
From stdpp Require Import base list gmap.
From S2P Require Import Prelude Status Mode SortedMap KVStore MetaData Partition File FileData.
From S2P Require Import Directory DirectoryProps ChangeLog FileSystemManager Mount Fuse MountProps CreateProps IOProps.

#[local] Arguments inode_key : simpl never.
#[local] Arguments sub_key : simpl never.

Section Created.
Context {S : Type} `{KVStoreLaws S} `{!KVReliable S} `{FsEnv} `{MountEnv}.
Implicit Types (s : MountState S).

Abbreviation kv_of := (λ s : MountState S, w_kv (m_world s)).

Lemma contents_nil f (kv : S) : meta_fileTotalSize (meta f) = 0 → contents f kv = [].
Proof. intros E. unfold contents. by rewrite E. Qed.

(** An inode with clean attributes and an empty object is an open file of no bytes. *)
Lemma empty_file_represents s c i f :
  m_inodes s !! c = Some i → nlookup i = 1 → istate i = I_CLEAN → st_ino (attr i) = c → st_size (attr i) = 0 →
  w_heap (m_world s) !! c = Some f → synced f (kv_of s) → empty_file f (kv_of s) c → represents s c [] i f.
Proof.
  intros Ei Hn Hc Ha Hs Ef Sy []. split; [|done].
  split; try done; [by rewrite Hn|by rewrite Hc|by apply contents_nil].
Qed.

(** A directory does not see the requests on another inode. *)
Lemma dir_io_frame s s' p c fp :
  io_frame c s s' → handle fp = p → c ≠ p → 0 ≤ c < 18446744073709551616 →
  w_heap (m_world s) !! p = Some fp → dir_inv fp (kv_of s) →
  w_heap (m_world s') !! p = Some fp ∧ dir_inv fp (kv_of s')
  ∧ ∀ n, dir_find fp (kv_of s') n = dir_find fp (kv_of s) n.
Proof.
  intros Fr Hh Hne Hc Ef D. pose proof (di_ino _ _ D) as Hp. rewrite Hh in Hp.
  split; [rewrite (fr_heap _ _ _ Fr); [done|by apply not_eq_sym]|].
  apply (dir_inv_frame fp fp (kv_of s)); try done.
  intros j _. rewrite Hh.
  apply (only_file_other _ _ c p (fr_kv _ _ _ Fr) Hc Hp). by apply not_eq_sym.
Qed.

(** C7: a file that was just created is a usable empty file: a create request on a loaded
    directory, followed by any session of read, write, truncate, getattr and flush requests
    on the inode that it answered with, is served; the first reply names the new inode with
    one link, the requested mode and size 0, the replies after it are those of an array of
    bytes that starts empty; at the end the file holds the bytes of that array, in the store
    and in the cache, with one link and one hold; the directory binds the name to the
    inode, and its other names as before; and the change log has grown by the CREAT entry
    and by one entry for each write and each truncation. *)
Theorem created_file_session s p ip fp name mode rs e :
  replies_delivered → fk_create_pre s p ip fp name mode → io_all_ok [] rs →
  let c := m_handleId s + 1 in
  ∃ s' a reps es i f fp', serve e (R_create p name mode :: (io_request c <$> rs)) s = Ok (tt, s')
    ∧ m_replies s' = m_replies s ++ ReplyCreate c a c (fuse_keep_cache (m_options s)) :: reps
    ∧ st_ino a = c ∧ st_nlink a = 1 ∧ st_mode a = ModeFromMeta LOGFS_IFREG (SetProtectionFromMode mode)
    ∧ st_size a = 0 ∧ Forall2 shows (snd (io_run [] rs)) reps
    ∧ represents s' c (fst (io_run [] rs)) i f ∧ nlookup i = 1 ∧ meta_nLink (meta f) = 1
    ∧ w_heap (m_world s') !! p = Some fp' ∧ dir_inv fp' (kv_of s')
    ∧ (∀ n, dir_find fp' (kv_of s') n = if decide (n = name) then Some c else dir_find fp (kv_of s) n)
    ∧ log_deque (m_log s') = log_deque (m_log s) ++ creat_entry s p name :: es
    ∧ length es = length (filter io_changes rs) ∧ Forall (λ e, e_inode_num e = Some c) es.
Proof.
  intros Hr P Hok c. pose proof (fcp_next _ _ _ _ _ _ P) as Hnext. pose proof (fcp_ne _ _ _ _ _ _ P) as Hne.
  destruct (fk_create_run s p ip fp name mode P) as (s1 & a & fp' & fc & E1 & R1 & Ha & Hl & Hm & Hp & D1 & F1
    & Hc & Sy & Hn & L1 & _ & _ & (i & Ei & Hi & Hat & His) & Hsz & Hem & Hhp).
  fold c in R1, Ha, F1, Hc, Ei, Hem, Hne.
  assert (represents s1 c [] i fc) as R by (apply empty_file_represents; congruence).
  destruct (io_session_run s1 c [] rs e i fc Hr ltac:(lia) R Hok)
    as (s2 & reps & es & E2 & R2 & Sh & (i2 & f2 & O2 & Hi2 & K2 & _) & Fr & L2 & Nes & Fes).
  destruct (dir_io_frame s1 s2 p c fp' Fr Hhp Hne ltac:(lia) Hp D1) as (Hp2 & D2 & F2).
  exists s2, a, reps, es, i2, f2, fp'. cbn [serve].
  split; [by rewrite (bind_ok _ _ _ _ _ E1)|]. split; [by rewrite R2, R1, <-app_assoc|].
  do 6 (split; [done|]). split; [congruence|]. split; [by rewrite (kp_nLink _ _ K2)|].
  do 2 (split; [done|]). split; [intros n; by rewrite F2, F1|].
  split; [by rewrite L2, L1, <-app_assoc|done].
Qed.

End Created.

(** ** Witness: inode 7 in the empty directory 2, written, cut and read *)

#[local] Instance demo_created_fs : FsEnv := demo_env (demo_tier []).
#[local] Existing Instance demo_mount_env.

Definition demo_created_reqs : list io_req :=
  [IOWrite (lit "hello") 2; IOTruncate (stat_size 5 stat_zero); IORead 4 1; IOGetattr; IOFlush].

Lemma created_file_session_witness :
  ∃ s' a reps es i f fp',
    serve false (R_create 2 (lit "a") (S_IFREG + 420) :: (io_request 7 <$> demo_created_reqs)) demo_loaded = Ok (tt, s')
    ∧ m_replies s' = [] ++ ReplyCreate 7 a 7 true :: reps
    ∧ st_ino a = 7 ∧ st_nlink a = 1
    ∧ st_mode a = ModeFromMeta LOGFS_IFREG (SetProtectionFromMode (S_IFREG + 420)) ∧ st_size a = 0
    ∧ Forall2 shows [IOWrote 5; IOSize 5; IOData (Byte.x00 :: lit "hel"); IOSize 5; IODone] reps
    ∧ represents s' 7 (Byte.x00 :: Byte.x00 :: lit "hel") i f ∧ nlookup i = 1 ∧ meta_nLink (meta f) = 1
    ∧ w_heap (m_world s') !! 2 = Some fp' ∧ dir_inv fp' (w_kv (m_world s'))
    ∧ (∀ n, dir_find fp' (w_kv (m_world s')) n =
         if decide (n = lit "a") then Some 7 else dir_find demo_dir (∅ : MemStore) n)
    ∧ log_deque (m_log s') = [] ++ creat_entry demo_loaded 2 (lit "a") :: es
    ∧ length es = 2%nat ∧ Forall (λ e, e_inode_num e = Some 7) es.
Proof.
  apply (created_file_session demo_loaded 2 demo_parent demo_dir (lit "a") (S_IFREG + 420) demo_created_reqs false).
  - by intros r.
  - apply demo_fk_create_pre.
  - unfold demo_created_reqs, MAX_SIZE. vm_compute. repeat split; congruence.
Defined.
