(* ===== verification/DeleteProps.v ===== *)
(** * Deleting a file

    [unlink] takes the name away and one link of the object in memory; the inode and its data
    stay, for those who have the file open, until the kernel forgets the inode.  The last
    release then closes the file, and [close] of a file without links drops its data chunks
    and its inode record. *)

From Stdlib Require Import ZArith Lia Strings.String.
From stdpp Require Import base list gmap.
From S2P Require Import Prelude Status Mode SortedMap KVStore MetaData Partition File FileData.
From S2P Require Import Directory DirectoryProps ChangeLog FileSystemManager Mount Fuse MountProps CreateProps IOProps ListProps.

#[local] Arguments inode_key : simpl never.
#[local] Arguments sub_key : simpl never.
#[local] Arguments on_file : simpl never.

(** ** The data and the inode record *)

Section Drop.
Context {S : Type} `{KVStoreLaws S} `{!KVReliable S} `{FsEnv}.
Implicit Types (kv : S) (f : LogFSFile).

(** The keys of the chunks from [chunk] on. *)
Definition chunk_keys (h chunk : Z) (n : Z) : list bytes := sub_key h <$> seqZ chunk n.

(** [kv'] is [kv] without some keys. *)
Definition without (ks : list bytes) kv kv' : Prop :=
  ∀ k, kv_get kv' k = if decide (k ∈ ks) then None else kv_get kv k.

Lemma without_cons k ks kv kv1 kv' :
  (∀ k', k' ≠ k → kv_get kv1 k' = kv_get kv k') → kv_get kv' k = None →
  (∀ k', k' ≠ k → kv_get kv' k' = if decide (k' ∈ ks) then None else kv_get kv1 k') → without (k :: ks) kv kv'.
Proof.
  intros E1 E0 E2 k'. destruct (decide (k' = k)) as [->|Hne]; [by rewrite decide_True by left|].
  rewrite E2, E1 by done. apply decide_ext. rewrite elem_of_cons. tauto.
Qed.

(** The loop of [ResizeData] for the size 0 removes every chunk it comes to. *)
Lemma drop_loop f clk h cs n chunk st kv :
  0 < cs → 0 ≤ chunk →
  ∃ kv', resize_loop h 0 0 cs 0 n chunk st (mkFS f kv clk) = Ok (st, mkFS f kv' clk)
    ∧ without (chunk_keys h chunk (Z.of_nat n)) kv kv'.
Proof.
  intros Hcs. revert chunk kv. induction n as [|n IH]; intros chunk kv Hc; [by exists kv|].
  destruct (kv_remove_true kv (sub_key h chunk)) as [kv1 Er].
  destruct (IH (chunk + 1) kv1 ltac:(lia)) as (kv' & E & Hw). exists kv'. split.
  - cbn [resize_loop]. rewrite (proj2 (Z.ltb_ge 0 (0 - (0 + chunk * cs)))) by nia.
    rewrite andb_false_r. cbn [andb]. unfold fremove. mrun. cbn [f_kv f_this f_clock]. by rewrite Er.
  - unfold chunk_keys in *. rewrite (seqZ_cons chunk (Z.of_nat (Datatypes.S n))) by lia.
    replace (Z.pred (Z.of_nat (Datatypes.S n))) with (Z.of_nat n) by lia. rewrite fmap_cons.
    replace (Z.succ chunk) with (chunk + 1) by lia. apply (without_cons _ _ kv kv1); [|rewrite Hw|by intros].
    + intros k Hk. by rewrite (kv_remove_ne _ _ _ _ _ Er).
    + rewrite (kv_remove_eq _ _ _ Er). by case_decide.
Qed.

Lemma drop_data f kv clk cs size :
  0 < cs → 0 ≤ size →
  ∃ kv', ResizeData 0 size cs 0 (mkFS f kv clk) = Ok (STATUS_OK, mkFS f kv' clk)
    ∧ without (chunk_keys (handle f) 0 ((size + cs - 1) / cs)) kv kv'.
Proof.
  intros Hcs Hs. unfold ResizeData. destruct (Z.ltb_spec 0 size) as [Hlt|Hge].
  2:{ exists kv. split; [done|]. replace size with 0 by lia. by rewrite Z.div_small by lia. }
  unfold this. rewrite (bind_ok _ _ _ f (mkFS f kv clk)) by done.
  rewrite (bind_ok _ _ _ _ _ (off_div_ok _ cs _ Hcs)).
  rewrite (bind_ok _ _ _ tt (mkFS f kv clk)) by (apply cassert_true, Z.leb_le; lia).
  rewrite (bind_ok _ _ _ _ _ (off_div_ok _ cs _ Hcs)). rewrite Z.sub_0_r, Z.quot_0_l by lia.
  destruct (drop_loop f clk (handle f) cs (loop_count 0 (Z.quot (size - 1 - 0) cs)) 0 STATUS_OK kv Hcs
    ltac:(lia)) as (kv' & E & Hw). exists kv'. split; [done|].
  replace ((size + cs - 1) / cs) with (Z.of_nat (loop_count 0 (Z.quot (size - 1 - 0) cs))); [done|].
  unfold loop_count. rewrite Z.quot_div_nonneg by lia.
  replace (size + cs - 1) with (size - 1 - 0 + 1 * cs) by lia. rewrite Z.div_add by lia.
  pose proof (Z.div_pos (size - 1 - 0) cs). lia.
Qed.

Lemma chunk_keys_elem h cs size j :
  0 < cs → 0 ≤ j → j * cs < size → sub_key h j ∈ chunk_keys h 0 ((size + cs - 1) / cs).
Proof.
  intros Hcs Hj Hs. apply list_elem_of_fmap. exists j. split; [done|]. apply elem_of_seqZ.
  split; [lia|]. apply Z.lt_le_trans with (j + 1); [lia|]. apply Z.div_le_lower_bound; lia.
Qed.

(** [close] of a file that counts no links. *)
Lemma close_deletes f kv clk m :
  meta_nLink (meta f) = 0 → kv_get kv (inode_key (handle f)) = Some (encode_meta m) →
  file_inv (set_meta m f) kv →
  ∃ f' kv' clk', close (mkFS f kv clk) = Ok (STATUS_OK, mkFS f' kv' clk')
    ∧ without (inode_key (handle f) :: chunk_keys (handle f) 0
         ((meta_fileTotalSize m + meta_fileChunkSize m - 1) / meta_fileChunkSize m)) kv kv'.
Proof.
  intros Hn E I. pose proof (fi_cs _ _ I) as Hc. pose proof (wf_fileTotalSize _ (fi_wf _ _ I)) as Ht.
  cbn [set_meta meta] in Hc, Ht.
  destruct (drop_data (set_meta m f) kv clk (meta_fileChunkSize m) (meta_fileTotalSize m))
    as (kv1 & Er & W); [lia|lia|].
  destruct (SetSize_run f kv clk m 0 kv1 E I Er) as (kv2 & Es & Ep).
  destruct (kv_remove_true kv2 (inode_key (handle f))) as [kv3 Ek].
  eexists _, kv3, _. split.
  - unfold close, this. rewrite (bind_ok _ _ _ f (mkFS f kv clk)) by done. rewrite Hn. cbn [Z.leb Z.compare].
    unfold RemoveInodeFromKvs, this, fremove. unfold mbind, M_bind. rewrite Es. cbn. by rewrite Ek.
  - apply (without_cons _ _ kv kv); [done|apply (kv_remove_eq _ _ _ Ek)|].
    intros k Hk. rewrite (kv_remove_ne _ _ _ _ _ Ek), (kv_put_ne _ _ _ _ _ _ Ep) by done. apply W.
Qed.

End Drop.

(** ** The requests *)

Section Requests.
Context {S : Type} `{KVStoreLaws S} `{!KVReliable S} `{FsEnv} `{MountEnv}.
Implicit Types (s : MountState S) (f : LogFSFile).

Abbreviation kvs s := (w_kv (m_world s)).

(** Name [n] of the directory [p] is the only link of the open file [c], with contents
    [content]. *)
Record last_link s (p : Z) (n : bytes) (c : Z) (content : bytes) (i : FuseKvfsInode) f
    (ip : FuseKvfsInode) fp : Prop := {
  ll_file : represents s c content i f;
  ll_tail : no_chunks_past f (kvs s);
  ll_links : meta_nLink (meta f) = 1;
  ll_c : c ≠ 0;
  ll_ne : p ≠ c;
  ll_inode : m_inodes s !! p = Some ip;
  ll_held : 1 ≤ nlookup ip;
  ll_ino : st_ino (attr ip) = p;
  ll_dir : w_heap (m_world s) !! p = Some fp;
  ll_dhandle : handle fp = p;
  ll_inv : dir_inv fp (kvs s);
  ll_bound : dir_find fp (kvs s) n = Some c;
}.

(** The file object after [unlink]. *)
Definition no_links f : LogFSFile := set_meta (set_nLink 0 (meta f)) f.

(** The release of a hold that was just taken. *)
Lemma mk_unhold s w t l h r p i :
  t !! p = Some i → 1 ≤ nlookup i →
  Release p 1 (mk s w (<[p := set_nlookup (nlookup i + 1) i]> t) l h r) = Ok (nlookup i, mk s w t l h r).
Proof.
  intros Ei Hn. set (i1 := set_nlookup (nlookup i + 1) i).
  rewrite (mk_release s w _ l h r p i1 (lookup_insert_eq _ _ _) ltac:(cbn; lia)).
  rewrite insert_insert_eq. cbn [nlookup i1 set_nlookup]. replace (nlookup i + 1 - 1) with (nlookup i) by lia.
  replace (set_nlookup (nlookup i) i1) with i by (by destruct i). by rewrite insert_id.
Qed.

(** What [unlink] leaves: the name is gone, the object has no links, the change is logged,
    and the store differs in the directory's partitions only. *)
Lemma unlink_run s p n c content i f ip fp e :
  last_link s p n c content i f ip fp →
  ∃ fp' kv', dispatch e (R_unlink p n) s =
      Ok (tt, mk s (mkW (<[c := no_links f]> (<[p := fp']> (w_heap (m_world s)))) kv' (w_clock (m_world s)))
                (m_inodes s)
                (set_deque (log_deque (m_log s) ++ [with_xid (next_xid (m_log s))
                    (log_entry OP_UNLINK None (m_fs_id s) c (Some p) None None None)])
                   (set_next_xid (next_xid (m_log s) + 1) (m_log s)))
                (m_handleId s) (m_replies s ++ [ReplyErr 0]))
    ∧ handle fp' = p ∧ dir_inv fp' kv'
    ∧ (∀ n', dir_find fp' kv' n' = if decide (n' = n) then None else dir_find fp (kvs s) n')
    ∧ ∀ k, (∀ j, 0 ≤ j < 65536 → k ≠ sub_key p j) → kv_get kv' k = kv_get (kvs s) k.
Proof.
  intros [R Htl Hl Hc Hne Ep Hp Hip Ed Hdh D F]. pose proof R as [[Ei Hi Hino Hv Hsz Ef Hh I Hres Hct] Sy].
  set (w := m_world s) in *. set (kv := w_kv w) in *.
  destruct (findHandle_ok fp kv (w_clock w) n D) as (fp1 & E1 & D1 & S1 & F1). rewrite F in E1. cbn in E1.
  set (ip1 := set_nlookup (nlookup ip + 1) ip). set (t1 := <[p := ip1]> (m_inodes s)).
  set (i1 := set_nlookup (nlookup i + 1) i). set (t2 := <[c := i1]> t1).
  assert (<[p := fp1]> (w_heap w) !! c = Some f) as Ef1 by (by rewrite lookup_insert_ne).
  destruct (remove_found (<[p := fp1]> (w_heap w)) kv (w_clock w) c p f fp1 n c
    (not_eq_sym Hne) Ef1 (lookup_insert_eq _ _ _) D1) as (fp' & kv' & E2 & D2 & S2 & F2 & K2).
  { by rewrite F1. }
  rewrite Hl in E2. change (set_nLink (u32 (1 + -1)) (meta f)) with (set_nLink 0 (meta f)) in E2. fold (no_links f) in E2.
  rewrite insert_insert_eq in E2. set (w2 := mkW _ kv' _) in E2.
  assert (t1 !! c = Some i) as Et1 by (unfold t1; by rewrite lookup_insert_ne).
  exists fp', kv'. split; [|split; [|split; [done|split; [by intros n'; rewrite F2, F1|]]]].
  2:{ destruct S1 as (ps & -> & _), S2 as (ps' & -> & _). done. }
  2:{ intros k Hk. apply K2. destruct S1 as (ps & -> & _). cbn. by rewrite Hdh. }
  change (dispatch e (R_unlink p n) s) with (fk_unlink p n s). rewrite (mk_self s) at 1. fold w.
  unfold fk_unlink. rewrite (bind_ok _ _ _ _ _ (mk_hold s _ _ _ _ _ p ip Ep)). fold ip1 t1.
  set (l := m_log s). set (h := m_handleId s). set (r := m_replies s).
  set (l' := set_deque _ _).
  rewrite (bind_ok _ _ _ tt (mk s w2 t1 l' h (r ++ [ReplyErr 0]))).
  - by rewrite (bind_ok _ _ _ _ _ (mk_unhold s w2 _ _ _ _ p ip Ep Hp)).
  - unfold Unlink.
    rewrite (bind_ok _ _ _ _ _ (mk_on_file s w t1 l h r p _ fp _ _ _ _ Ed E1)).
    rewrite (proj2 (Z.eqb_neq _ _)) by done. set (w1 := mkW _ kv (w_clock w)).
    rewrite (bind_ok _ _ _ 0 (mk s w2 t1 l h r)).
    2:{ rewrite (bind_ok _ _ _ _ _ (GetInode_held (mk s w1 t1 l h r) c i true Et1)).
        change (set_inodes _ _) with (mk s w1 t2 l h r).
        rewrite (bind_ok _ _ _ _ _ (mk_at_world s w1 t2 l h r _ _ _ E2)).
        by rewrite (bind_ok _ _ _ _ _ (mk_unhold s w2 t1 l h r c i Et1 Hi)). }
    cbn [Z.eqb]. set (s2 := mk s w2 t1 l h r).
    rewrite (bind_ok _ _ s2 tt (mk s w2 t1 l' h r)); [done|].
    rewrite (bind_ok _ _ s2 s2 s2) by done.
    rewrite (bind_ok _ _ _ _ _ (mk_inode s w2 t1 l h r p ip1 (lookup_insert_eq _ _ _))).
    cbn [attr ip1 set_nlookup]. rewrite Hip.
    set (ent := log_entry OP_UNLINK None (m_fs_id s) c (Some p) None None None).
    by rewrite (bind_ok _ _ _ _ _ (append_new s2 ent eq_refl)).
Qed.

(** The same data with another link count, in a store with the same chunks. *)
Lemma no_links_data f (kv kv' : S) :
  file_inv f kv → (∀ j, kv_get kv' (sub_key (handle f) j) = kv_get kv (sub_key (handle f) j)) →
  file_inv (no_links f) kv' ∧ file_inv f kv' ∧ contents (no_links f) kv' = contents f kv.
Proof.
  intros I E. destruct (file_inv_chunks f kv kv' I E) as [I' C]. split; [|done].
  destruct I' as [[] ???????]. by split; try done; split.
Qed.

Lemma other_inode_key p c j j' :
  0 ≤ p < 18446744073709551616 → 0 ≤ c < 18446744073709551616 → p ≠ c → sub_key c j ≠ sub_key p j'.
Proof. intros Hp Hc Hne [E _]%sub_key_inj. rewrite !u64_small in E by lia. congruence. Qed.

(** A file without links in memory, whose stored metadata [m] may still count one. *)
Record unlinked s (c : Z) (content : bytes) (i : FuseKvfsInode) f (m : LogFSMetaData) : Prop := {
  ul_cached : cached s c content i f;
  ul_links : meta_nLink (meta f) = 0;
  ul_stored : kv_get (kvs s) (inode_key c) = Some (encode_meta m);
  ul_inv : file_inv (set_meta m f) (kvs s);
  ul_size : meta_fileTotalSize m = meta_fileTotalSize (meta f);
  ul_cs : meta_fileChunkSize m = meta_fileChunkSize (meta f);
  ul_tail : no_chunks_past f (kvs s);
}.

(** No truncation comes before the first write or flush, which store the link count. *)
Fixpoint no_early_truncate (rs : list io_req) : bool :=
  match rs with
  | [] => true
  | (IORead _ _ | IOGetattr) :: rs => no_early_truncate rs
  | IOTruncate _ :: _ => false
  | (IOWrite _ _ | IOFlush) :: _ => true
  end.

(** What a session leaves. *)
Definition session_done s (c : Z) (content : bytes) (i : FuseKvfsInode) (rs : list io_req) (e : bool) : Prop :=
  ∃ s' reps es i' f' m', serve e (io_request c <$> rs) s = Ok (tt, s')
    ∧ m_replies s' = m_replies s ++ reps ∧ Forall2 shows (snd (io_run content rs)) reps
    ∧ unlinked s' c (fst (io_run content rs)) i' f' m' ∧ nlookup i' = nlookup i
    ∧ io_frame c s s' ∧ log_deque (m_log s') = log_deque (m_log s) ++ es
    ∧ length es = length (filter io_changes rs) ∧ Forall (λ e, e_inode_num e = Some c) es.

Lemma unlinked_reply s c content i f m r : unlinked s c content i f m → unlinked (add_reply r s) c content i f m.
Proof. by intros [[]]. Qed.

(** A request that only reads. *)
Lemma session_quiet s c content i f m r rs e rep :
  (∀ s, unlinked s c content i f m → session_done s c content i rs e) →
  dispatch e (io_request c r) s = Ok (tt, add_reply rep s) → shows (snd (io_step content r)) rep →
  fst (io_step content r) = content → io_changes r = false →
  unlinked s c content i f m → session_done s c content i (r :: rs) e.
Proof.
  intros IH E Sh Hc Hq U. destruct (IH _ (unlinked_reply _ _ _ _ _ _ rep U))
    as (s' & reps & es & i' & f' & m' & E' & R' & Sh' & U' & Hn & Fr & L & N & F).
  pose proof (changes_cons r rs) as Hf. rewrite Hq in Hf.
  exists s', (rep :: reps), es, i', f', m'. cbn [fmap list_fmap serve io_run].
  destruct (io_step content r) as [c1 a]. cbn in Sh, Hc. subst c1.
  destruct (io_run content rs) as [c2 l]. cbn in *.
  split; [by rewrite (bind_ok _ _ _ _ _ E)|]. split; [by rewrite R', <-app_assoc|].
  split; [by constructor|]. do 2 (split; [done|]). split; [by destruct Fr; split|]. split; [done|].
  split; [by rewrite N, Hf|done].
Qed.

(** A write or a flush stores the metadata, and any session may follow. *)
Lemma session_stores s c content i f m r rs e :
  replies_delivered → c ≠ 0 → unlinked s c content i f m → refines_step s c content r e i f →
  io_all_ok (fst (io_step content r)) rs → session_done s c content i (r :: rs) e.
Proof.
  intros Hr Hc U (s1 & rep & es1 & E1 & R1 & Sh1 & (i1 & f1 & O1 & Hn1 & K1 & T1) & Fr1 & L1 & N1 & F1) Hok.
  destruct (io_session_run s1 c _ rs e i1 f1 Hr Hc O1 Hok)
    as (s2 & reps & es2 & E2 & R2 & Sh2 & (i2 & f2 & O2 & Hn2 & K2 & T2) & Fr2 & L2 & N2 & F2).
  pose proof (changes_cons r rs) as Hf.
  exists s2, (rep :: reps), (es1 ++ es2), i2, f2, (meta f2). cbn [fmap list_fmap serve io_run].
  destruct (io_step content r) as [c1 a]. cbn in *. destruct (io_run c1 rs) as [c2 l]. cbn in *.
  split; [by rewrite (bind_ok _ _ _ _ _ E1)|]. split; [by rewrite R2, R1, <-app_assoc|].
  split; [by constructor|]. split; [|split; [congruence|]].
  - destruct O2 as [O2 Sy]. unfold synced in Sy. rewrite (rp_handle _ _ _ _ _ O2) in Sy. split; try done.
    + by rewrite (kp_nLink _ _ K2), (kp_nLink _ _ K1), (ul_links _ _ _ _ _ _ U).
    + replace (set_meta (meta f2) f2) with f2 by by destruct f2. apply O2.
    + apply T2, T1, U.
  - split; [by apply (io_frame_trans _ _ s1)|]. split; [by rewrite L2, L1, app_assoc|].
    split; [by rewrite length_app, N1, N2, Hf|by apply Forall_app].
Qed.

Lemma unlinked_session s c content i f m rs e :
  replies_delivered → c ≠ 0 → unlinked s c content i f m → io_all_ok content rs → no_early_truncate rs = true →
  session_done s c content i rs e.
Proof.
  intros Hr Hc. revert s. induction rs as [|r rs IH]; intros s U Hok Hnt.
  { exists s, [], [], i, f, m. cbn. rewrite !app_nil_r. do 2 (split; [done|]). split; [constructor|].
    do 2 (split; [done|]). split; [apply io_frame_refl|done]. }
  destruct Hok as [Hok1 Hok]. pose proof (ul_cached _ _ _ _ _ _ U) as C.
  pose proof C as [Ei Hh Hi Hv Hsz Ef Hfh I Hres Hct]. destruct r as [size off|buf off|a| |]; try done.
  - eapply (session_quiet s c content i f m); try done; [intros; by apply IH| |].
    + apply (read_run s c i f); try done. by rewrite Hct.
    + by rewrite Hct.
  - apply (session_stores s c content i f m); try done. by apply write_refines.
  - eapply (session_quiet s c content i f m); try done; [intros; by apply IH|by apply getattr_run|done].
  - apply (session_stores s c content i f m); try done. by apply flush_refines.
Qed.

(** [Release] of all holds closes the file. *)
Lemma Release_all s c i f st f' kv' clk' n :
  m_inodes s !! c = Some i → nlookup i ≤ n → 0 ≤ nlookup i → w_heap (m_world s) !! c = Some f →
  close (mkFS f (kvs s) (w_clock (m_world s))) = Ok (st, mkFS f' kv' clk') →
  Release c n s = Ok (0, set_world (mkW (<[c := f']> (w_heap (m_world s))) kv' clk')
                           (set_inodes (<[c := set_nlookup 0 i]> (m_inodes s)) s)).
Proof.
  intros Ei Hn H0' Ef Ec. unfold Release. rewrite (bind_ok _ _ _ _ _ (inode_run s c i Ei)).
  replace (if nlookup i <? n then 0 else nlookup i - n) with 0 by (destruct (Z.ltb_spec (nlookup i) n); lia).
  rewrite (bind_ok _ _ _ _ _ (upd_inode_run s c i _ Ei)).
  rewrite (bind_ok _ _ _ _ _ (inode_run _ c _ (lookup_insert_eq _ _ _))). cbn [nlookup set_nlookup Z.eqb].
  set (s1 := set_inodes _ s).
  by rewrite (bind_ok _ _ s1 tt _) by by rewrite (bind_ok _ _ _ _ _ (on_file_run s1 c _ f _ _ _ _ Ef Ec)).
Qed.

(** The forget of the last lookups of an inode closes its file and frees it. *)
Lemma forget_closed s c i f st f' kv' clk' k e :
  m_inodes s !! c = Some i → 0 ≤ nlookup i ≤ k → k ≤ 1000 → st_ino (attr i) = c →
  w_heap (m_world s) !! c = Some f →
  close (mkFS f (kvs s) (w_clock (m_world s))) = Ok (st, mkFS f' kv' clk') →
  dispatch e (R_forget c k) s =
    Ok (tt, mk s (mkW (delete c (w_heap (m_world s))) kv' clk') (delete c (m_inodes s)) (m_log s)
              (m_handleId s) (m_replies s ++ [ReplyNone])).
Proof.
  intros Ei Hn Hk Hi Ef Ec.
  change (dispatch e (R_forget c k) s) with (fk_forget c k s). rewrite (mk_self s) at 1.
  unfold fk_forget. rewrite (bind_ok _ _ _ _ _ (mk_hold s _ _ _ _ _ c i Ei)).
  rewrite (proj2 (Z.ltb_ge _ _)) by lia. set (i1 := set_nlookup (nlookup i + 1) i). set (s1 := mk s _ _ _ _ _).
  assert (m_inodes s1 !! c = Some i1) as Ei1 by apply lookup_insert_eq.
  rewrite (bind_ok _ _ _ _ _ (Release_all s1 c i1 f _ _ _ _ (k + 1) Ei1 ltac:(cbn; lia) ltac:(cbn; lia) Ef Ec)).
  cbn [Z.eqb]. set (s2 := set_world _ _).
  assert (m_inodes s2 !! c = Some (set_nlookup 0 i1)) as Ei2 by apply lookup_insert_eq.
  rewrite (bind_ok _ _ s2 tt (mk s (mkW (delete c (w_heap (m_world s))) kv' clk') (delete c (m_inodes s))
    (m_log s) (m_handleId s) (m_replies s))); [done|].
  unfold FreeInode. rewrite (bind_ok _ _ _ _ _ (inode_run s2 c _ Ei2)). cbn [attr set_nlookup i1]. rewrite Hi.
  unfold modify, s2, s1, mk. cbn. by rewrite insert_insert_eq, !delete_insert_eq.
Qed.

(** Without links, the inode and its data leave the store too. *)
Lemma forget_run s c i f m k e :
  m_inodes s !! c = Some i → 0 ≤ nlookup i ≤ k → k ≤ 1000 → st_ino (attr i) = c →
  w_heap (m_world s) !! c = Some f → handle f = c → meta_nLink (meta f) = 0 →
  kv_get (kvs s) (inode_key c) = Some (encode_meta m) → file_inv (set_meta m f) (kvs s) →
  ∃ kv' clk', dispatch e (R_forget c k) s =
      Ok (tt, mk s (mkW (delete c (w_heap (m_world s))) kv' clk') (delete c (m_inodes s)) (m_log s)
                (m_handleId s) (m_replies s ++ [ReplyNone]))
    ∧ without (inode_key c :: chunk_keys c 0
         ((meta_fileTotalSize m + meta_fileChunkSize m - 1) / meta_fileChunkSize m)) (kvs s) kv'.
Proof.
  intros Ei Hn Hk Hi Ef Hh Hl Em I.
  destruct (close_deletes f (kvs s) (w_clock (m_world s)) m Hl) as (f' & kv' & clk' & Ec & W);
    [by rewrite Hh|done|]. rewrite Hh in W. exists kv', clk'. split; [|done].
  by apply (forget_closed s c i f _ _ _ _ k e Ei Hn Hk Hi Ef Ec).
Qed.

(** The forget of more than 1000 lookups only answers: the inode stays held. *)
Lemma large_forget_keeps_inode s c i k e :
  m_inodes s !! c = Some i → 1 ≤ nlookup i → 1000 < k →
  dispatch e (R_forget c k) s = Ok (tt, add_reply ReplyNone s).
Proof.
  intros Ei Hn Hk. change (dispatch e (R_forget c k) s) with (fk_forget c k s). rewrite (mk_self s) at 1.
  unfold fk_forget. rewrite (bind_ok _ _ _ _ _ (mk_hold s _ _ _ _ _ c i Ei)).
  rewrite (proj2 (Z.ltb_lt _ _)) by lia. change (0 + 1) with 1.
  rewrite (bind_ok _ _ _ _ _ (mk_unhold s _ _ _ _ _ c i Ei Hn)).
  rewrite (proj2 (Z.eqb_neq _ _)) by lia. by rewrite <-mk_self.
Qed.

Lemma serve_app e rs1 rs2 s s1 :
  serve e rs1 s = Ok (tt, s1) → serve e (rs1 ++ rs2) s = serve e rs2 s1.
Proof.
  revert s. induction rs1 as [|r rs1 IH]; intros s E; cbn in *; [by injection E as ->|].
  apply bind_inv in E as ([] & s2 & E1 & E2). by rewrite (bind_ok _ _ _ _ _ E1), (IH s2).
Qed.

(** The state after [unlink] of the last link. *)
Lemma last_link_unlinked s s1 p n c content i f ip fp fp' kv1 :
  last_link s p n c content i f ip fp → m_inodes s1 = m_inodes s →
  w_heap (m_world s1) = <[c := no_links f]> (<[p := fp']> (w_heap (m_world s))) → kvs s1 = kv1 →
  (∀ k, (∀ j, 0 ≤ j < 65536 → k ≠ sub_key p j) → kv_get kv1 k = kv_get (kvs s) k) →
  unlinked s1 c content i (no_links f) (meta f).
Proof.
  intros L Hin Hw Hkv K1. pose proof L as [[C Sy] Htl Hl Hc Hne Ep Hp Hip Ed Hdh D F].
  pose proof (cached_range _ _ _ _ _ C) as Hcr. pose proof C as [Ei Hi Hino Hv Hsz Ef Hh I Hres Hct].
  assert (0 ≤ p < 18446744073709551616) as Hpr by (rewrite <-Hdh; apply D).
  assert (∀ j, kv_get kv1 (sub_key (handle f) j) = kv_get (kvs s) (sub_key (handle f) j)) as Hch
    by (intros j; rewrite Hh; apply K1; intros j' _; by apply other_inode_key).
  destruct (no_links_data f (kvs s) kv1 I Hch) as (I1 & I2 & C1).
  split; rewrite ?Hkv; try done.
  - split; rewrite ?Hin, ?Hw, ?Hkv; try done; [apply lookup_insert_eq|by rewrite C1].
  - rewrite K1 by (intros; apply inode_sub_key). unfold synced in Sy. by rewrite Hh in Sy.
  - by replace (set_meta (meta f) (no_links f)) with f by by destruct f.
  - intros j Hj Hlt. change (handle (no_links f)) with (handle f). rewrite Hch. by apply Htl.
Qed.

(** The chunks of a file that was deleted. *)
Lemma deleted_chunks s c content i f m (kv' : S) :
  unlinked s c content i f m →
  without (inode_key c :: chunk_keys c 0
    ((meta_fileTotalSize m + meta_fileChunkSize m - 1) / meta_fileChunkSize m)) (kvs s) kv' →
  kv_get kv' (inode_key c) = None ∧ ∀ j, 0 ≤ j < OFF_MAX → kv_get kv' (sub_key c j) = None.
Proof.
  intros [C _ _ I Hs Hcs Ht] W. split; [by rewrite W, decide_True by left|]. intros j Hj. rewrite W.
  case_decide as Hin; [done|]. rewrite <-(rp_handle _ _ _ _ _ C). apply Ht; [done|]. rewrite <-Hs, <-Hcs.
  destruct (decide (j * meta_fileChunkSize m < meta_fileTotalSize m)); [|lia].
  destruct Hin. right. apply chunk_keys_elem; [apply I|lia|done].
Qed.


End Requests.

(** ** Witness: the file 5 with the contents abc, name a of directory 2 *)

#[local] Instance demo_del_fs : FsEnv := demo_env (demo_tier []).
#[local] Existing Instance demo_mount_env.

Definition demo_del_meta : LogFSMetaData :=
  set_nLink 1 (set_type LOGFS_IFREG (set_evictionState ES_RESIDENT (set_size 3 (init_fields 1 5 0 0 (new_meta 0 4))))).
Definition demo_del_file : LogFSFile := MkFile 1 5 (lit "a") demo_del_meta 0 false 0 None.
Definition demo_del_dir : LogFSFile :=
  MkFile 1 2 (lit "d") demo_list_meta 0 false 0
    (Some [Some (demo_part 0 [] []); Some (demo_part 1 [(lit "a", 5)] [(lit "a", 5)])]).
Definition demo_del_inode (st : InodeState) : FuseKvfsInode :=
  MkInode (stat_size 3 (stat_mode (S_IFREG + 420) (stat_ino_dev 5 0 stat_zero))) 2 st.
Definition demo_del (st : InodeState) : MountState MemStore :=
  mkM (mkW {[ 2 := demo_del_dir; 5 := demo_del_file ]} (demo_small (encode_meta demo_del_meta)) 0)
    {[ 2 := demo_child 2; 5 := demo_del_inode st ]} (new_FsChangeLog [] 0) super_empty 6 1
    (MkOptions true false) ∅ [] [].

Lemma demo_del_inv : dir_inv demo_del_dir (demo_small (encode_meta demo_del_meta)).
Proof.
  assert (∀ i, kv_get (demo_small (encode_meta demo_del_meta)) (sub_key 2 i) = None) as Hno.
  { intros i. unfold demo_small. cbn. rewrite lookup_insert_ne by apply inode_sub_key.
    apply lookup_singleton_None. apply (other_inode_key 2 5); lia. }
  split; try (cbn; lia).
  - intros i Hi. destruct i as [|[|]]; [| |cbn in Hi; lia]; (split; [|done]).
    + by apply demo_part_inv; [lia|apply wf_map_nil|..].
    + by apply demo_part_inv; [lia|by apply demo_one_wf|..].
  - intros i n h Hi F%sm_find_elem. destruct i as [|[|]]; [| |cbn in Hi; lia].
    + change (part_abs _ _) with (@nil (bytes * Z)) in F. by apply not_elem_of_nil in F.
    + change (part_abs _ _) with [(lit "a", 5)] in F. by apply list_elem_of_singleton in F as [= -> ->].
Qed.

Lemma demo_del_link :
  last_link (demo_del I_CLEAN) 2 (lit "a") 5 (lit "abc") (demo_del_inode I_CLEAN) demo_del_file (demo_child 2) demo_del_dir.
Proof.
  split; try done; [split; [split|]; try done; by apply demo_small_inv| |apply demo_del_inv].
  intros c Hc Hl. cbn in Hl. pose proof (demo_chunk (encode_meta demo_del_meta) c Hc) as E.
  rewrite decide_False in E by lia. exact E.
Qed.

Definition demo_del_reqs : list io_req :=
  [IORead 2 1; IOWrite (lit "WXYZ") 2; IOTruncate (stat_size 5 stat_zero); IOGetattr].


(** If the attributes are invalid, as [Link] leaves them, the getattr between the two
    requests loads the metadata again, with the link count that [unlink] did not write: the
    inode is freed, but its record and its data stay in the store for good. *)
Example unlinked_file_leaks :
  (λ r, match r with
        | Ok (_, s') => (m_inodes s' !! 5, meta_nLink <$> (kv_get (w_kv (m_world s')) (inode_key 5) ≫= decode_meta),
                         kv_get (w_kv (m_world s')) (sub_key 5 0))
        | Crash _ => (None, None, None)
        end)
    (serve false [R_unlink 2 (lit "a"); R_getattr 5; R_forget 5 2] (demo_del I_INVALID))
  = (None, Some 1, Some (lit "abc")).
Proof. vm_compute. reflexivity. Qed.

(** So does a truncation, whatever the state of the attributes: [SetSize] starts from the
    stored metadata, and writes its link count back. *)
Example truncated_file_leaks :
  (λ r, match r with
        | Ok (_, s') => (m_inodes s' !! 5, meta_nLink <$> (kv_get (w_kv (m_world s')) (inode_key 5) ≫= decode_meta))
        | Crash _ => (None, None)
        end)
    (serve false [R_unlink 2 (lit "a"); R_setattr 5 stat_zero FUSE_SET_ATTR_SIZE; R_forget 5 2] (demo_del I_CLEAN))
  = (None, Some 1).
Proof. vm_compute. reflexivity. Qed.
