(* ===== verification/AttrProps.v ===== *)
(** * Attributes

    A setattr request for the mode, the owner or the times changes the attributes in the inode
    table and the metadata of the object, and logs the change; the getattr requests that follow
    see it.  Nothing is written to the store: once the inode is forgotten, the attributes are
    those of the stored record again. *)

From Stdlib Require Import ZArith Lia Strings.String.
From stdpp Require Import base list gmap.
From S2P Require Import Prelude Status Mode SortedMap KVStore MetaData Partition File FileData.
From S2P Require Import Directory DirectoryProps ChangeLog FileSystemManager Mount Fuse MountProps CreateProps IOProps DeleteProps.

#[local] Arguments inode_key : simpl never.
#[local] Arguments sub_key : simpl never.
#[local] Arguments on_file : simpl never.

Section Attr.
Context {S : Type} `{KVStoreLaws S} `{!KVReliable S} `{FsEnv} `{MountEnv}.
Implicit Types (s : MountState S) (f : LogFSFile).

Abbreviation kvs s := (w_kv (m_world s)).

(** ** What the request asks for *)

(** The attributes [new] are [old] with the members that the flags name taken from [set_], or
    read from the clock between the readings [clk] and [clk']. *)
Record attrs_set (to_set : Z) (set_ old : stat_t) (clk clk' : nat) (new : stat_t) : Prop := {
  as_ino : st_ino new = st_ino old;
  as_size : st_size new = st_size old;
  as_nlink : st_nlink new = st_nlink old;
  as_ctime : st_ctime new = st_ctime old;
  as_mode : st_mode new = if has_bit to_set FUSE_SET_ATTR_MODE then st_mode set_ else st_mode old;
  as_uid : st_uid new = if has_bit to_set FUSE_SET_ATTR_UID then st_uid set_ else st_uid old;
  as_gid : st_gid new = if has_bit to_set FUSE_SET_ATTR_GID then st_gid set_ else st_gid old;
  as_atime : if has_bit to_set FUSE_SET_ATTR_ATIME_NOW
    then ∃ n, (clk ≤ n < clk')%nat ∧ st_atime new = env_time n
    else st_atime new = if has_bit to_set FUSE_SET_ATTR_ATIME then st_atime set_ else st_atime old;
  as_mtime : if has_bit to_set FUSE_SET_ATTR_MTIME_NOW
    then ∃ n, (clk ≤ n < clk')%nat ∧ st_mtime new = env_time n
    else st_mtime new = if has_bit to_set FUSE_SET_ATTR_MTIME then st_mtime set_ else st_mtime old;
}.

(** The two readings of the clock. *)
Definition now_times (to_set : Z) (clk : nat) (a : stat_t) : stat_t * nat :=
  let '(a, clk) := if has_bit to_set FUSE_SET_ATTR_ATIME_NOW
                   then (stat_times (env_time clk) (st_mtime a) a, Datatypes.S clk) else (a, clk) in
  if has_bit to_set FUSE_SET_ATTR_MTIME_NOW
  then (stat_times (st_atime a) (env_time clk) a, Datatypes.S clk) else (a, clk).

Lemma now_times_set to_set set_ old clk :
  let '(new, clk') := now_times to_set clk (apply_flags to_set set_ old) in attrs_set to_set set_ old clk clk' new.
Proof.
  unfold now_times, apply_flags.
  destruct (has_bit to_set FUSE_SET_ATTR_ATIME_NOW) eqn:E1, (has_bit to_set FUSE_SET_ATTR_MTIME_NOW) eqn:E2;
    split; rewrite ?E1, ?E2; repeat case_match; try done; cbn; eexists; (split; [|done]); lia.
Qed.

(** ** The request *)

(** [SetAttr] of the object works on the stored metadata and stores nothing. *)
Lemma SetAttr_ok f (kv : S) clk m a :
  kv_get kv (inode_key (handle f)) = Some (encode_meta m) → wf_meta m →
  meta_handle m = handle f → meta_fsId m = fsId f → st_ino a = handle f →
  ∃ f', SetAttr a (mkFS f kv clk) = Ok (STATUS_OK, mkFS f' kv clk)
    ∧ handle f' = handle f ∧ fsId f' = fsId f ∧ meta_nLink (meta f') = u32 (st_nlink a).
Proof.
  intros E W Hh Hf Hi. unfold SetAttr, readFromLog, this, fget, as_meta, upd_meta, upd. mrun.
  cbn [f_this f_kv f_clock]. rewrite E, decode_encode by done.
  cbn [f_this f_kv f_clock]. rewrite Hh, Hf, Hi, !Z.eqb_refl. cbn [negb orb]. mrun.
  cbn [f_this f_kv f_clock fmode set_meta]. destruct (negb _); by eexists.
Qed.

(** An inode whose attributes can be set: in the table with valid attributes, linked, and with
    a stored record. *)
Record settable s (ino : Z) (i : FuseKvfsInode) f (m : LogFSMetaData) : Prop := {
  sa_inode : m_inodes s !! ino = Some i;
  sa_held : 1 ≤ nlookup i;
  sa_ino : st_ino (attr i) = ino;
  sa_valid : istate i ≠ I_INVALID;
  sa_links : 0 < st_nlink (attr i) < 4294967296;
  sa_file : w_heap (m_world s) !! ino = Some f;
  sa_handle : handle f = ino;
  sa_fs : fsId f = m_fs_id s;
  sa_stored : kv_get (kvs s) (inode_key ino) = Some (encode_meta m);
  sa_wf : wf_meta m;
  sa_mhandle : meta_handle m = ino;
  sa_mfs : meta_fsId m = m_fs_id s;
  sa_mlinks : 0 < meta_nLink m;
}.

(** A flag other than the size, and not the size. *)
Definition attr_flags (to_set : Z) : Prop :=
  has_bit to_set FUSE_SET_ATTR_SIZE = false ∧ Z.land to_set (Z.lnot FUSE_SET_ATTR_SIZE) ≠ 0.

(** The clock reading of one flag. *)
Lemma clock_read s w t l h r ino f (b : bool) (g : Z → stat_t) a :
  w_heap w !! ino = Some f →
  (if b then t' ← on_file ino time; mret (g t') else mret a) (mk s w t l h r) =
    Ok (if b then g (env_time (w_clock w)) else a,
        mk s (if b then mkW (w_heap w) (w_kv w) (Datatypes.S (w_clock w)) else w) t l h r).
Proof.
  intros Ef. destruct b; [|done].
  rewrite (bind_ok _ _ _ _ _ (mk_on_file s w t l h r ino time f _ f _ _ Ef eq_refl)).
  by rewrite insert_id.
Qed.

(** The inode with new attributes. *)
Definition new_attr (a : stat_t) (i : FuseKvfsInode) : FuseKvfsInode := set_istate I_CLEAN (set_attr a i).

(** The part of [Setattr] that sets the attributes. *)
Lemma set_attrs_run s w t l h r ino i f f' to_set a0 x new clk' :
  t !! ino = Some i → w_heap w !! ino = Some f → now_times to_set (w_clock w) a0 = (new, clk') →
  SetAttr new (mkFS (set_meta (set_xid x (meta f)) f) (w_kv w) clk') = Ok (STATUS_OK, mkFS f' (w_kv w) clk') →
  (a ← (if has_bit to_set FUSE_SET_ATTR_ATIME_NOW
        then t ← on_file ino time; mret (stat_times t (st_mtime a0) a0) else mret a0);
   a ← (if has_bit to_set FUSE_SET_ATTR_MTIME_NOW
        then t ← on_file ino time; mret (stat_times (st_atime a) t a) else mret a);
   on_file ino (upd_meta (set_xid x));;
   on_file ino (SetAttr a);;
   upd_inode ino (set_attr a);;
   set_state ino I_CLEAN;;
   mret a) (mk s w t l h r) =
  Ok (new, mk s (mkW (<[ino := f']> (w_heap w)) (w_kv w) clk') (<[ino := new_attr new i]> t) l h r).
Proof.
  intros Ei Ef Hn Es. set (f1 := set_meta (set_xid x (meta f)) f) in Es.
  rewrite (bind_ok _ _ _ _ _ (clock_read s w t l h r ino f _ (λ t', stat_times t' _ _) _ Ef)).
  set (w1 := if has_bit to_set FUSE_SET_ATTR_ATIME_NOW then _ else w).
  set (a1 := if has_bit to_set FUSE_SET_ATTR_ATIME_NOW then _ else _).
  assert (w_heap w1 !! ino = Some f) as Hw1 by (unfold w1; by case_match).
  rewrite (bind_ok _ _ _ _ _ (clock_read s w1 t l h r ino f _ (λ t', stat_times (st_atime a1) t' a1) _ Hw1)).
  set (a2 := if has_bit to_set FUSE_SET_ATTR_MTIME_NOW then _ else a1).
  set (w2 := if has_bit to_set FUSE_SET_ATTR_MTIME_NOW then _ else w1).
  assert (a2 = new ∧ w2 = mkW (w_heap w) (w_kv w) clk') as [-> ->].
  { revert Hn. unfold now_times, a2, w2, w1, a1.
    destruct (has_bit to_set FUSE_SET_ATTR_ATIME_NOW), (has_bit to_set FUSE_SET_ATTR_MTIME_NOW);
      intros [= <- <-]; split; try done. by destruct w. }
  set (w3 := mkW (w_heap w) (w_kv w) clk'). set (w4 := mkW (<[ino := f']> (w_heap w)) (w_kv w) clk').
  rewrite (bind_ok _ _ _ _ _ (mk_on_file s w3 t l h r ino _ f tt f1 (w_kv w) clk' Ef eq_refl)).
  rewrite (bind_ok _ _ _ _ _ (mk_on_file s (mkW _ _ _) t l h r ino _ f1 _ _ _ _ (lookup_insert_eq _ _ _) Es)).
  cbn [w_heap w3]. rewrite insert_insert_eq. fold w4.
  rewrite (bind_ok _ _ _ _ _ (mk_upd_inode s w4 t l h r ino i _ Ei)).
  unfold set_state. rewrite (bind_ok _ _ _ _ _ (mk_upd_inode s w4 _ l h r ino _ _ (lookup_insert_eq _ _ _))).
  by rewrite insert_insert_eq.
Qed.

Lemma setattr_run s ino i f m a to_set e new clk' :
  settable s ino i f m → attr_flags to_set →
  now_times to_set (w_clock (m_world s)) (apply_flags to_set a (attr i)) = (new, clk') →
  ∃ f' ent, dispatch e (R_setattr ino a to_set) s =
      Ok (tt, mk s (mkW (<[ino := f']> (w_heap (m_world s))) (kvs s) clk') (<[ino := new_attr new i]> (m_inodes s))
                (set_deque (log_deque (m_log s) ++ [ent]) (set_next_xid (next_xid (m_log s) + 1) (m_log s)))
                (m_handleId s) (m_replies s ++ [ReplyAttr new]))
    ∧ handle f' = ino ∧ fsId f' = m_fs_id s ∧ meta_nLink (meta f') = u32 (st_nlink new)
    ∧ e_operation ent = OP_SETATTR ∧ e_inode_num ent = Some ino ∧ e_xid ent = Some (next_xid (m_log s)).
Proof.
  intros [Ei Hh Hi Hv Hl Ef Hfh Hfs Em Wm Hmh Hmf Hml] [Hsz Hfl] Hn.
  pose proof (now_times_set to_set a (attr i) (w_clock (m_world s))) as A. rewrite Hn in A.
  set (w := m_world s) in *. set (l := m_log s). set (h := m_handleId s). set (r := m_replies s).
  set (x := next_xid l). set (l1 := set_next_xid (x + 1) l).
  set (i1 := set_nlookup (nlookup i + 1) i). set (t1 := <[ino := i1]> (m_inodes s)).
  assert (t1 !! ino = Some i1) as Ei1 by apply lookup_insert_eq.
  set (f1 := set_meta (set_xid x (meta f)) f).
  destruct (SetAttr_ok f1 (w_kv w) clk' m new) as (f' & Es & Hh' & Hf' & Hn'); try done;
    [cbn; by rewrite Hfh|cbn; by rewrite Hfh|cbn; by rewrite Hfs|cbn; by rewrite (as_ino _ _ _ _ _ _ A), Hi, Hfh|].
  set (w4 := mkW (<[ino := f']> (w_heap w)) (w_kv w) clk').
  set (i2 := new_attr new i1). set (t2 := <[ino := i2]> (m_inodes s)).
  set (ent := log_entry OP_SETATTR (Some x) (m_fs_id s) ino None None None (Some (i64 (meta_fileTotalSize (meta f'))))).
  set (l2 := set_deque (log_deque l ++ [ent]) l1).
  exists f', ent. split; [|cbn in Hh', Hf'; split_and!; congruence || done].
  assert (Setattr ino a to_set (mk s w t1 l h r) = Ok (tt, mk s w4 t2 l2 h (r ++ [ReplyAttr new]))) as E.
  2:{ change (dispatch e (R_setattr ino a to_set) s) with (fk_setattr ino a to_set s).
      unfold fk_setattr. change (mk s w t1 l h r) with (set_inodes t1 s) in E.
      erewrite (held_run s ino i (λ j, Setattr j a to_set) _ i2 Ei Hh E); [|apply lookup_insert_eq|done].
      unfold set_inodes. cbn. unfold t2. rewrite insert_insert_eq.
      by replace (set_nlookup (nlookup i) i2) with (new_attr new i) by by destruct i. }
  unfold Setattr. rewrite (bind_ok _ _ _ _ _ (mk_next_xid s w t1 l h r)). fold x l1.
  rewrite (bind_ok _ _ _ _ _ (Refresh_valid (mk s w t1 l1 h r) ino i1 Ei1 Hv)). rewrite Hsz.
  rewrite (bind_ok _ _ _ (STATUS_OK, 0) (mk s w t1 l1 h r)) by done. cbv iota beta.
  rewrite (bind_ok _ _ _ _ _ (mk_inode s w t1 l1 h r ino i1 Ei1)).
  rewrite (proj2 (Z.eqb_neq (Z.land to_set (Z.lnot FUSE_SET_ATTR_SIZE)) 0) Hfl), bool_decide_eq_true_2 by done.
  cbn [Z.eqb andb negb].
  change (attr i1) with (attr i).
  rewrite (bind_ok _ _ _ new (mk s w4 t2 l1 h r)).
  - set (s4 := mk s w4 t2 l1 h r). assert (t2 !! ino = Some i2) as Ei2 by apply lookup_insert_eq.
    rewrite (bind_ok _ _ s4 s4 s4) by done. rewrite (bind_ok _ _ _ _ _ (mk_inode s w4 t2 l1 h r ino i2 Ei2)).
    rewrite (bind_ok _ _ s4 f' s4).
    2:{ unfold s4. rewrite (mk_on_file s w4 t2 l1 h r ino this f' f' f' (w_kv w) clk' (lookup_insert_eq _ _ _) eq_refl).
        unfold w4. cbn. by rewrite insert_insert_eq. }
    change (st_ino (attr i2)) with (st_ino new). rewrite (as_ino _ _ _ _ _ _ A), Hi.
    by rewrite (bind_ok _ _ _ _ _ (mk_append s w4 t2 l1 h r ent x eq_refl)).
  - rewrite (set_attrs_run s w t1 l1 h r ino i1 f f' to_set _ x new clk' Ei1 Ef Hn Es).
    unfold t1. by rewrite insert_insert_eq.
Qed.

Lemma close_linked f (kv : S) clk : 0 < meta_nLink (meta f) → close (mkFS f kv clk) = Ok (STATUS_OK, mkFS f kv clk).
Proof. intros Hn. unfold close, this. mrun. cbn [f_this]. rewrite (proj2 (Z.leb_gt _ _)) by done. done. Qed.

(** The forget of all lookups of a linked inode frees it and leaves the store alone. *)
Lemma forget_linked s ino i f k e :
  m_inodes s !! ino = Some i → 0 ≤ nlookup i ≤ k → k ≤ 1000 → st_ino (attr i) = ino →
  w_heap (m_world s) !! ino = Some f → 0 < meta_nLink (meta f) →
  dispatch e (R_forget ino k) s =
    Ok (tt, mk s (mkW (delete ino (w_heap (m_world s))) (kvs s) (w_clock (m_world s))) (delete ino (m_inodes s))
              (m_log s) (m_handleId s) (m_replies s ++ [ReplyNone])).
Proof. intros Ei Hn Hk Hi Ef Hl. by apply (forget_closed s ino i f _ _ _ _ k e Ei Hn Hk Hi Ef (close_linked _ _ _ Hl)). Qed.

(** A getattr request on an inode that is not in the table. *)
Lemma getattr_unloaded s ino m e :
  m_inodes s !! ino = None → kv_get (kvs s) (inode_key ino) = Some (encode_meta m) → wf_meta m →
  meta_handle m = ino → meta_fsId m = m_fs_id s → 0 < meta_nLink m →
  ∃ s', dispatch e (R_getattr ino) s = Ok (tt, s') ∧ m_replies s' = m_replies s ++ [ReplyAttr (stat_of m)].
Proof.
  intros Ei Em Wm Hh Hf Hl. change (dispatch e (R_getattr ino) s) with (fk_getattr ino s).
  unfold fk_getattr, fk_ino_to_inode. set (i0 := set_nlookup 1 (new_inode ino)). set (s1 := loaded s ino).
  assert (m_inodes s1 !! ino = Some i0) as Ei0 by apply lookup_insert_eq.
  assert (w_heap (m_world s1) !! ino = Some (new_inode_file (m_fs_id s) ino)) as Ef0 by apply lookup_insert_eq.
  rewrite (bind_ok _ _ _ ino s1) by by rewrite (bind_ok _ _ _ _ _ (GetInode_new s ino Ei)).
  unfold Getattr. set (f0 := new_inode_file (m_fs_id s) ino) in *.
  pose proof (stat_run f0 (kvs s1) (w_clock (m_world s1)) m (attr i0) Em Wm Hh Hf) as Est.
  set (i1 := set_istate I_CLEAN (set_attr (stat_of m) i0)).
  pose proof (Refresh_run s1 ino i0 f0 _ _ _ _ Ei0 eq_refl Ef0 Est) as Er. set (s2 := set_inodes _ _) in Er.
  assert (m_inodes s2 !! ino = Some i1) as Ei1 by apply lookup_insert_eq.
  set (s3 := add_reply (ReplyAttr (stat_of m)) s2).
  rewrite (bind_ok _ _ s1 tt s3).
  2:{ rewrite (bind_ok _ _ _ _ _ Er). cbn [negb Z.eqb]. by rewrite (bind_ok _ _ _ _ _ (inode_run s2 ino i1 Ei1)). }
  destruct (Release_last s3 ino i1 (set_meta m f0) STATUS_OK (set_meta m f0) (kvs s3) (w_clock (m_world s3)))
    as (s' & Ee & _ & Hr); [done|done|apply lookup_insert_eq|by apply close_linked|].
  exists s'. by rewrite (bind_ok _ _ _ _ _ Ee), Hr.
Qed.


End Attr.

(** ** Witness: the mode and the owner of the file 5 *)

#[local] Instance demo_attr_fs : FsEnv := demo_env (demo_tier []).
#[local] Existing Instance demo_mount_env.

Definition demo_attr_inode : FuseKvfsInode := MkInode (stat_of demo_del_meta) 2 I_CLEAN.
Definition demo_attr : MountState MemStore :=
  mkM (mkW {[ 5 := demo_del_file ]} (demo_small (encode_meta demo_del_meta)) 0) {[ 5 := demo_attr_inode ]}
    (new_FsChangeLog [] 0) super_empty 6 1 (MkOptions true false) ∅ [] [].
Definition demo_set : stat_t := stat_ids 7 8 (stat_mode (S_IFREG + 256) stat_zero).

Lemma demo_settable : settable demo_attr 5 demo_attr_inode demo_del_file demo_del_meta.
Proof. by split. Qed.

