(* ===== verification/FuseProps.v ===== *)
(** * Properties of the request loop

    Two facts about every request, by one traversal of the handlers: a request that
    ends has sent exactly one reply, and the inode table stays well formed.  The second
    is then an invariant of every state reachable from an empty table. *)

From Stdlib Require Import ZArith Lia Strings.String.
From stdpp Require Import base list gmap.
From S2P Require Import Prelude Status Mode SortedMap KVStore MetaData Partition File Directory.
From S2P Require Import FileData DirectoryProps ChangeLog FileSystemManager Mount Fuse Frame MountProps.

Create HintDb serves.

Section Serves.
Context {S : Type} `{KVStore S} `{FsEnv} `{MountEnv} `{EntryCodec}.

(** ** The inode table *)

(** The table and the heap have the same addresses; an inode knows its own number,
    and its file object is the one of that number in this file system; no lookup count
    is negative. *)
Record table_ok (s : MountState S) : Prop := {
  to_dom : dom (m_inodes s) = dom (w_heap (m_world s));
  to_inode ino i : m_inodes s !! ino = Some i → st_ino (attr i) = ino ∧ 0 ≤ nlookup i;
  to_file ino f : w_heap (m_world s) !! ino = Some f → ident f = (m_fs_id s, ino);
}.

(** What no request changes: the superblock, the file system id and the options. *)
Definition static (s : MountState S) : Superblock * Z * MountOptions :=
  (m_super s, m_fs_id s, m_options s).
Definition goes (s s' : MountState S) : Prop := table_ok s' ∧ static s' = static s.

(** [serves π m P]: from a well-formed table, [m] ends in one, having sent [n]
    replies for which [P] holds, and leaves the static part alone.  [π] finds the mount
    in the state. *)
Definition serves {St A} (π : St → MountState S) (m : M St A) (P : A → nat → Prop) : Prop :=
  ∀ s a s', table_ok (π s) → m s = Ok (a, s') →
    goes (π s) (π s') ∧ ∃ l, m_replies (π s') = m_replies (π s) ++ l ∧ P a (length l).

Definition quiet {St A} (π : St → MountState S) (m : M St A) : Prop :=
  serves π m (λ _ n, n = 0%nat).

Section Rules.
Context {St : Type} (π : St → MountState S).

Lemma serves_weaken {A} (m : M St A) (P Q : A → nat → Prop) :
  serves π m P → (∀ a n, P a n → Q a n) → serves π m Q.
Proof.
  intros Hm HPQ s a s' T E. destruct (Hm s a s' T E) as (T' & l & El & HP). eauto 6.
Qed.
Lemma serves_ret {A} (a : A) (P : A → nat → Prop) : P a 0%nat → serves π (mret a) P.
Proof. intros HP s b s' T [= <- <-]. split; [done|]. exists []. by rewrite app_nil_r. Qed.
Lemma serves_crash {A} c (P : A → nat → Prop) : serves π (crash_with c) P.
Proof. by intros s b s' T E. Qed.
Lemma serves_bind {A B} (m : M St A) (k : A → M St B) P Q :
  serves π m P → (∀ a n, P a n → serves π (k a) (λ b n', Q b (n + n')%nat)) →
  serves π (m ≫= k) Q.
Proof.
  intros Hm Hk s b s' T E. apply bind_inv in E as (a & s1 & E1 & E2).
  destruct (Hm _ _ _ T E1) as ([T1 S1] & l1 & El1 & HP).
  destruct (Hk a _ HP _ _ _ T1 E2) as ([T2 S2] & l2 & El2 & HQ).
  split; [by split; [|rewrite S2]|]. exists (l1 ++ l2). by rewrite El2, El1, length_app, (assoc_L (++)).
Qed.
Lemma quiet_bind {A B} (m : M St A) (k : A → M St B) Q :
  quiet π m → (∀ a, serves π (k a) Q) → serves π (m ≫= k) Q.
Proof. intros Hm Hk. eapply serves_bind; [exact Hm|]. intros a n ->. apply Hk. Qed.
Lemma quiet_end {A} (m : M St A) (Q : A → nat → Prop) :
  quiet π m → (∀ a, Q a 0%nat) → serves π m Q.
Proof. intros Hm HQ. eapply serves_weaken; [exact Hm|]. by intros a n ->. Qed.
Lemma serves_assoc {A B C} (m : M St A) (k : A → M St B) (k' : B → M St C) Q :
  serves π (m ≫= λ a, k a ≫= k') Q → serves π ((m ≫= k) ≫= k') Q.
Proof.
  intros Hm s c s' T E. apply (Hm s c s' T). revert E. unfold mbind, M_bind.
  by destruct (m s) as [[??]|].
Qed.
Lemma serves_bind_ret {A B} (a : A) (k : A → M St B) Q :
  serves π (k a) Q → serves π (mret a ≫= k) Q.
Proof. exact id. Qed.
Lemma quiet_get : quiet π get_st.
Proof. intros s b s' T [= <- <-]. split; [done|]. exists []. by rewrite app_nil_r. Qed.
Lemma quiet_gets {A} (f : St → A) : quiet π (gets f).
Proof. intros s b s' T [= <- <-]. split; [done|]. exists []. by rewrite app_nil_r. Qed.
Lemma quiet_EXPECT b : quiet π (EXPECT b).
Proof. destruct b; [by apply serves_ret|apply serves_crash]. Qed.

(** Steps that touch neither the table nor the replies. *)
Lemma quiet_same {A} (m : M St A) :
  (∀ s a s', m s = Ok (a, s') → table_ok (π s) →
     goes (π s) (π s') ∧ m_replies (π s') = m_replies (π s)) → quiet π m.
Proof.
  intros Hm s a s' T E. destruct (Hm s a s' E T) as [T' Er]. split; [done|].
  exists []. by rewrite app_nil_r.
Qed.
End Rules.

Abbreviation MM := (M (MountState S)).
Abbreviation srv := (serves (λ s : MountState S, s)).
Abbreviation qt := (quiet (λ s : MountState S, s)).

(** ** Steps of the mount *)

Lemma table_world (s : MountState S) w :
  table_ok s → same_objects (m_world s) w → table_ok (set_world w s).
Proof.
  intros [T1 T2 T3] Hw. unfold same_objects in Hw. split; cbn; [|done|].
  - rewrite T1. by rewrite <-(dom_fmap_L ident), Hw, dom_fmap_L.
  - intros ino f E. assert ((ident <$> w_heap w) !! ino = Some (ident f)) as E'
      by by rewrite lookup_fmap, E.
    rewrite <-Hw, lookup_fmap in E'. destruct (w_heap (m_world s) !! ino) as [g|] eqn:Eg; [|done].
    apply (inj Some) in E'. rewrite <-E'. by apply T3.
Qed.

Lemma quiet_at_world {A} (m : M (World S) A) : keeps same_objects m → qt (at_world m).
Proof.
  intros Hm. apply quiet_same. intros s a s'. unfold at_world.
  destruct (m _) as [[b w]|] eqn:E; [|done]. intros [= <- <-] T. split; [split; [|done]|done].
  apply table_world; [done|]. by eapply Hm.
Qed.
Lemma quiet_on_file ino {A} (m : M (FState S) A) : keeps same_file m → qt (on_file ino m).
Proof. intros Hm. apply quiet_at_world. by apply keeps_at_obj. Qed.
Lemma quiet_at_log {A} (m : M FsChangeLog A) : qt (at_log m).
Proof.
  apply quiet_same. intros s a s'. unfold at_log. destruct (m _) as [[b w]|]; [|done].
  intros [= <- <-] [T1 T2 T3]. done.
Qed.
Lemma quiet_at_manager {A} (m : M (FileSystemManager S) A) : qt (at_manager m).
Proof.
  apply quiet_same. intros s a s'. unfold at_manager. destruct (m _) as [[b w]|]; [|done].
  intros [= <- <-] [T1 T2 T3]. done.
Qed.
Lemma serves_inode ino : srv (inode ino) (λ i n, n = 0%nat ∧ st_ino (attr i) = ino ∧ 0 ≤ nlookup i).
Proof.
  intros s a s' T. unfold inode, mbind, M_bind, get_st. destruct (_ !! ino) as [i|] eqn:E; [|done].
  intros [= <- <-]. split; [done|]. exists []. rewrite app_nil_r. split; [done|].
  split; [done|]. by apply (to_inode _ T).
Qed.

(** An update of an inode that keeps its number. *)
Definition inode_safe (ino : Z) (g : FuseKvfsInode → FuseKvfsInode) : Prop :=
  ∀ i, st_ino (attr i) = ino → 0 ≤ nlookup i → st_ino (attr (g i)) = ino ∧ 0 ≤ nlookup (g i).

Lemma quiet_upd_inode ino g : inode_safe ino g → qt (upd_inode ino g).
Proof.
  intros Hg. apply quiet_same. intros s a s'. unfold upd_inode, inode, mbind, M_bind, get_st.
  destruct (_ !! ino) as [i|] eqn:E; [|done]. intros [= <- <-] [T1 T2 T3]. split; [split; [|done]|done].
  split; cbn; [|intros ino' i'|done].
  - rewrite dom_insert_L, <-T1. apply elem_of_dom_2 in E. set_solver.
  - destruct (decide (ino = ino')) as [<-|].
    + rewrite lookup_insert_eq. intros [= <-]. destruct (T2 _ _ E). by apply Hg.
    + rewrite lookup_insert_ne by done. apply T2.
Qed.

Lemma serves_reply r : srv (fuse_reply r) (λ _ n, n = 1%nat).
Proof.
  intros s a s' [T1 T2 T3] [= <- <-]. split; [done|]. by exists [r].
Qed.

End Serves.

#[export] Hint Resolve quiet_at_world quiet_on_file quiet_at_log quiet_at_manager quiet_get
  quiet_gets quiet_EXPECT : serves.

(** One step along a path of a handler: flatten binds, split conditions, use the rule
    of the step. *)
Ltac serves_step :=
  cbv beta zeta;
  lazymatch goal with
  | |- serves _ (mbind _ (mbind _ _)) _ => apply serves_assoc
  | |- serves _ (mbind _ (mret _)) _ => apply serves_bind_ret
  | |- serves _ (mbind _ (crash_with _)) _ => eapply serves_bind; [apply serves_crash|done]
  | |- serves _ (mbind _ (if ?b then _ else _)) _ => destruct b eqn:?; try done
  | |- serves _ (mbind _ (match ?x with _ => _ end)) _ => destruct x eqn:?; try done
  | |- serves _ (mbind _ (fuse_reply _)) _ =>
      eapply serves_bind; [apply serves_reply|intros ? ? ->]
  | |- serves _ (mbind _ (inode _)) _ =>
      eapply serves_bind; [apply serves_inode|intros ? ? (-> & ? & ?)]
  | |- serves _ (mbind _ (upd_inode _ _)) _ =>
      apply quiet_bind; [apply quiet_upd_inode; try (by intros ???)|intros]
  | |- serves _ (mbind _ _) _ =>
      apply quiet_bind; [solve [auto 6 with serves frame]|intros]
  | |- serves _ (mret _) _ => apply serves_ret
  | |- serves _ (crash_with _) _ => apply serves_crash
  | |- serves _ (if ?b then _ else _) _ => destruct b eqn:?; try done
  | |- serves _ (match ?x with _ => _ end) _ => destruct x eqn:?; try done
  | |- quiet _ _ => unfold quiet
  | |- serves _ _ _ => apply quiet_end; [solve [auto 6 with serves frame]|done]
  end.
Ltac serves := repeat serves_step; try done; try (exfalso; zbool; first [lia|congruence]).

Section Handlers.
Context {S : Type} `{KVStore S} `{FsEnv} `{MountEnv} `{EntryCodec}.

Abbreviation srv := (serves (λ s : MountState S, s)).
Abbreviation qt := (quiet (λ s : MountState S, s)).

Lemma quiet_Hold ino n : 0 ≤ n → qt (Hold ino n).
Proof. intros Hn. unfold Hold. serves. intros i Hi Hl. cbn. lia. Qed.
Lemma quiet_Release ino n : qt (Release ino n).
Proof.
  unfold Release. serves; intros i Hi Hl; cbn; destruct (Z.ltb_spec (nlookup a) n); lia.
Qed.

Lemma table_new_inode (s : MountState S) ino :
  table_ok s → m_inodes s !! ino = None →
  table_ok (set_inodes (<[ino := new_inode ino]> (m_inodes s))
    (set_world (mkW (<[ino := new_inode_file (m_fs_id s) ino]> (w_heap (m_world s)))
                  (w_kv (m_world s)) (w_clock (m_world s))) s)).
Proof.
  intros [T1 T2 T3] E. split; cbn; [by rewrite !dom_insert_L, T1| |].
  - intros ino' i. destruct (decide (ino = ino')) as [<-|].
    + rewrite lookup_insert_eq. by intros [= <-].
    + rewrite lookup_insert_ne by done. apply T2.
  - intros ino' f. destruct (decide (ino = ino')) as [<-|].
    + rewrite lookup_insert_eq. by intros [= <-].
    + rewrite lookup_insert_ne by done. apply T3.
Qed.

Lemma quiet_GetInode ino c : qt (GetInode ino c).
Proof.
  intros s a s' T. unfold GetInode. cbn [mbind M_bind get_st]. unfold mbind at 1, M_bind at 1, get_st.
  destruct (m_inodes s !! ino) as [i|] eqn:E; [|destruct c].
  - revert s a s' T E. intros s a s' T _ Er. revert s a s' T Er.
    change (qt (Hold ino 1;; mret (Some ino))). apply quiet_bind; [by apply quiet_Hold|].
    intros _. by apply serves_ret.
  - intros Er. apply bind_inv in Er as (u & s1 & E1 & E2). injection E1 as <- <-.
    pose proof (table_new_inode s ino T E) as T1.
    assert (qt (Hold ino 1;; mret (Some ino))) as Hq.
    { apply quiet_bind; [by apply quiet_Hold|]. intros _. by apply serves_ret. }
    destruct (Hq _ _ _ T1 E2) as (T2 & l & El & Hl). by eauto.
  - intros [= <- <-]. split; [done|]. exists []. by rewrite app_nil_r.
Qed.

Lemma quiet_FreeInode ino : qt (FreeInode ino).
Proof.
  unfold FreeInode. do 2 serves_step. apply (quiet_same (λ s, s)). intros s a0 s' [= <- <-] [T1 T2 T3].
  split; [split; [|done]|done]. split; cbn; [by rewrite !dom_delete_L, T1| |].
  - intros ino' i. rewrite lookup_delete_Some. intros [_ E]. by apply T2.
  - intros ino' f. rewrite lookup_delete_Some. intros [_ E]. by apply T3.
Qed.
#[local] Hint Resolve quiet_Release quiet_GetInode quiet_FreeInode : serves.

Lemma quiet_set_state ino st : qt (set_state ino st).
Proof. apply quiet_upd_inode. by intros i. Qed.
#[local] Hint Resolve quiet_set_state : serves.

(** [stat] fills in the number of the inode it was called on. *)
Lemma serves_stat ino a :
  srv (on_file ino (stat a)) (λ r n, n = 0%nat ∧ (st_ino a = ino → st_ino (snd r) = ino)).
Proof.
  intros s [st a'] s' T E. destruct (quiet_on_file ino (stat a) (keeps_stat a) s _ s' T E)
    as (T' & l & El & ->%nil_length_inv).
  split; [done|]. exists []. split; [done|]. split; [done|]. intros Ha. cbn.
  unfold on_file, at_world, at_obj in E.
  destruct (w_heap (m_world s) !! ino) as [f|] eqn:Ef; [|done].
  destruct (stat a _) as [[[st1 a1] t]|] eqn:Es; [|done]. injection E as <- <- _.
  pose proof (to_file _ T _ _ Ef) as Hid. injection Hid as _ Hh.
  unfold stat in Es. apply bind_inv in Es as (r & t1 & E1 & E2).
  injection E1 as <- <-. destruct (kv_get _ _) as [b|]; [|by injection E2 as <- <- <-].
  apply bind_inv in E2 as (m & t2 & E3 & E4). unfold as_meta in E3.
  destruct (decode_meta b); [|done]. injection E3 as <- <-.
  apply bind_inv in E4 as (g & t3 & E5 & E6). injection E5 as <- <-. cbn in E6.
  destruct (_ || _) eqn:Eb in E6; zbool; [by injection E6 as <- <- <-|].
  injection E6 as <- <- _. cbn. congruence.
Qed.

Lemma quiet_Refresh ino : qt (inode_Refresh ino).
Proof.
  unfold inode_Refresh. do 2 serves_step. destruct (decide _); [|by apply serves_ret].
  eapply serves_bind; [apply serves_stat|]. intros [st a'] n [-> Ha]. serves.
  intros i Hi Hl. split; [by apply Ha|done].
Qed.
#[local] Hint Resolve quiet_Refresh : serves.

Lemma keeps_set_name_mode n m : keeps same_file (set_name_mode (S := S) n m).
Proof. unfold set_name_mode. frame. Qed.
#[local] Hint Resolve keeps_set_name_mode : frame.

Lemma quiet_prepare_child ino child name mode x : qt (prepare_child ino child name mode x).
Proof.
  unfold prepare_child. serves.
Qed.
#[local] Hint Resolve quiet_prepare_child : serves.

Lemma quiet_GetNextIno : qt GetNextIno.
Proof. apply quiet_at_manager. Qed.
#[local] Hint Resolve quiet_GetNextIno : serves.

Abbreviation one := (λ _ n, n = 1%nat).

Lemma one_Getattr ino : srv (Getattr ino) one.
Proof. unfold Getattr. serves. Qed.
Lemma one_Lookup ino name : srv (Lookup ino name) one.
Proof. unfold Lookup. serves. Qed.
Lemma one_Create ino name mode : srv (Create ino name mode) one.
Proof. unfold Create. serves. Qed.
Lemma one_Mkdir ino name mode : srv (Mkdir ino name mode) one.
Proof. unfold Mkdir. serves. Qed.
Lemma one_Rmdir ino name : srv (Rmdir ino name) one.
Proof. unfold Rmdir. serves. Qed.
Lemma one_Unlink ino name : srv (Unlink ino name) one.
Proof. unfold Unlink. serves. Qed.
Lemma one_Link ino t name : srv (Link ino t name) one.
Proof. unfold Link. serves. Qed.
Lemma one_Read ino size off : srv (inode_Read ino size off) one.
Proof. unfold inode_Read. serves. Qed.
Lemma one_Write ino buf off : srv (inode_Write ino buf off) one.
Proof. unfold inode_Write. serves. Qed.
Lemma one_Flush ino : srv (inode_Flush ino) one.
Proof. unfold inode_Flush. serves. Qed.

(** The attributes [Setattr] computes keep the inode number. *)
Lemma apply_flags_ino to_set a b : st_ino (apply_flags to_set a b) = st_ino b.
Proof. unfold apply_flags. by repeat case_match. Qed.

Lemma one_Setattr ino a to_set : srv (Setattr ino a to_set) one.
Proof.
  unfold Setattr. serves; intros i Hi Hl; (split; [|done]); cbn; by rewrite ?apply_flags_ino.
Qed.

(** *** readdir *)

Abbreviation π2 := (fst : MountState S * DirEntryAdder → MountState S).

Lemma quiet_at_mount {A} (m : M (MountState S) A) : qt m → quiet π2 (at_mount m).
Proof.
  intros Hm [s ad] a [s' ad'] T. unfold at_mount. destruct (m s) as [[b t]|] eqn:E; [|done].
  intros [= <- <- <-]. cbn in *. apply (Hm _ _ _ T E).
Qed.
Lemma quiet_inode ino : qt (inode ino).
Proof. eapply serves_weaken; [apply serves_inode|]. by intros i n [-> _]. Qed.
#[local] Hint Resolve quiet_at_mount quiet_inode : serves.

Lemma quiet_upd_adder g : quiet π2 (upd_adder g).
Proof. apply quiet_same. by intros s a s' [= <- <-]. Qed.
#[local] Hint Resolve quiet_upd_adder : serves.

Lemma quiet_Add name ino off : quiet π2 (Add name ino off).
Proof. unfold Add. serves. Qed.
#[local] Hint Resolve quiet_Add : serves.

Lemma quiet_list_loop bn es i base : quiet π2 (list_loop Add bn es i base).
Proof. revert i. induction es as [|e es IH]; intros i; cbn [list_loop]; serves. Qed.
#[local] Hint Resolve quiet_list_loop : serves.

Lemma quiet_list_dir_loop ino n i off :
  quiet π2 (list_dir_loop (λ A m, at_mount (on_file ino m)) Add
              (gets (λ '(_, a), ad_out_of_space a)) n i off).
Proof.
  revert i off. induction n as [|n IH]; intros i off; cbn [list_dir_loop]; [serves|].
  unfold listEntries. serves.
Qed.
#[local] Hint Resolve quiet_list_dir_loop : serves.

Lemma one_Readdir ino size off : srv (Readdir ino size off) one.
Proof.
  intros s a s' T. unfold Readdir. destruct (listDirectory _ _ _ _ _) as [[st [s1 ad]]|] eqn:E; [|done].
  assert (quiet π2 (listDirectory (λ A m, at_mount (on_file ino m)) Add
    (gets (λ '(_, a), ad_out_of_space a)) off)) as Hq by (unfold listDirectory; serves).
  destruct (Hq (s, _) _ _ T E) as (T1 & l & El & ->%nil_length_inv). rewrite app_nil_r in El.
  cbn in T1, El. rewrite <-El. destruct T1 as [T1 S1].
  assert (∀ r, srv (fuse_reply r;; mret tt) one) as Hr by (intros; serves).
  intros Er. destruct (Hr _ s1 a s' T1 Er) as [[T2 S2] HR]. split; [|done].
  split; [done|by rewrite S2].
Qed.

(** *** The entry points *)

Lemma quiet_fk_ino_to_inode ino : qt (fk_ino_to_inode ino).
Proof. unfold fk_ino_to_inode. serves. Qed.
Lemma quiet_fk_fi_to_inode fh ino : qt (fk_fi_to_inode fh ino).
Proof. unfold fk_fi_to_inode. serves. Qed.
#[local] Hint Resolve quiet_fk_ino_to_inode quiet_fk_fi_to_inode : serves.

(** One operation on a held inode, then the release. *)
Lemma one_held ino (op : Z → M (MountState S) unit) :
  (∀ i, srv (op i) one) → srv (i ← fk_ino_to_inode ino; op i;; Release i 1;; mret tt) one.
Proof.
  intros Hop. serves_step. eapply serves_bind; [apply Hop|]. intros _ n ->. serves.
Qed.

Lemma one_fk_handle r :
  (∀ o, r ≠ R_other o) → srv (fk_handle r) one.
Proof.
  intros Hr. destruct r; cbn [fk_handle];
    first [ by destruct (Hr o)
          | apply (one_held _ (λ i, _)); intros i;
            first [ apply one_Getattr | apply one_Setattr | apply one_Lookup | apply one_Create
                  | apply one_Mkdir | apply one_Rmdir | apply one_Unlink | apply one_Link ]
          | unfold fk_readdir, fk_read, fk_write, fk_flush; serves_step;
            first [ apply one_Readdir | apply one_Read | apply one_Write | apply one_Flush ]
          | unfold fk_forget, fk_readlink, fk_opendir, fk_releasedir, fk_open, fk_mknod,
              fk_release; serves ].
Qed.

End Handlers.

(** ** Reachable states *)

Section Reachable.
Context {S : Type} `{KVStore S} `{FsEnv} `{MountEnv}.

(** A request names an operation the file system handles, or one it leaves to the
    FUSE library or to the error table. *)
Definition request_ok (r : request) : Prop :=
  match r with R_other o => fk_assigned o = false | _ => True end.

(** The states of a mounted file system: it starts with an empty table, and goes on
    by requests and by calls on the manager (main's CreateRoot). *)
Inductive reachable (err_ops : bool) : MountState S → Prop :=
  | reach_init s : m_inodes s = ∅ → w_heap (m_world s) = ∅ → reachable err_ops s
  | reach_request s r u s' :
      reachable err_ops s → request_ok r → dispatch err_ops r s = Ok (u, s') →
      reachable err_ops s'
  | reach_manager s {A} (m : M (FileSystemManager S) A) a s' :
      reachable err_ops s → at_manager m s = Ok (a, s') → reachable err_ops s'.

(** The number of replies one request gets from the file system. *)
Definition replies_expected (err_ops : bool) (r : request) : nat :=
  match fk_init_oper err_ops (request_op r) with H_null => 0 | _ => 1 end.

Lemma dispatch_serves err_ops r :
  request_ok r →
  serves (λ s : MountState S, s) (dispatch err_ops r) (λ _ n, n = replies_expected err_ops r).
Proof.
  intros Hr. unfold dispatch, replies_expected.
  destruct (fk_init_oper err_ops (request_op r)) eqn:E.
  - by apply serves_ret.
  - serves.
  - apply one_fk_handle. intros o ->. cbn in Hr, E. unfold fk_init_oper in E. rewrite Hr in E.
    destruct err_ops; [by destruct (err_init_oper o)|done].
Qed.

Lemma reachable_table err_ops s : reachable err_ops s → table_ok s.
Proof.
  induction 1 as [s E1 E2|s r u s' Hs IH Hr E|s A m a s' Hs IH E].
  - split; rewrite ?E1, ?E2; [done|intros ??; by rewrite lookup_empty..].
  - apply (dispatch_serves err_ops r Hr s u s' IH E).
  - apply (quiet_at_manager m s a s' IH E).
Qed.

(** In every reachable state the inode table is well formed: it has the same
    inode numbers as the heap of file objects, every inode carries its own number and a
    lookup count that is not negative, and its file object belongs to this file system
    and has the same number.  Every request keeps this, on every path. *)
Theorem reachable_table_ok err_ops s : reachable err_ops s → table_ok s.
Proof. apply reachable_table. Qed.

(** C19: every request that the file system finishes gets exactly one reply, on every
    path of its handler, errors included, and earlier replies stay as they are; an
    operation with no handler gets none from the file system. *)
Theorem every_request_answered_once err_ops s r u s' :
  reachable err_ops s → request_ok r → dispatch err_ops r s = Ok (u, s') →
  ∃ l, m_replies s' = m_replies s ++ l ∧ length l = replies_expected err_ops r.
Proof.
  intros Hs Hr E. by apply (dispatch_serves err_ops r Hr s u s' (reachable_table _ _ Hs) E).
Qed.

End Reachable.

(** ** Witnesses *)

#[local] Instance demo_fuse_fs : FsEnv := demo_env (demo_tier []).
#[local] Existing Instance demo_mount_env.

(** A getattr of the missing root of an empty store ends. *)
Lemma demo_after_reached :
  ∃ s, dispatch false (R_getattr 1) (demo_mount ∅) = Ok (tt, s).
Proof.
  assert (match dispatch false (R_getattr 1) (demo_mount ∅) with Ok _ => true | _ => false end = true)
    as Hok by (vm_compute; reflexivity).
  destruct (dispatch _ _ _) as [[[] s]|c]; [by exists s|done].
Qed.

Lemma reachable_table_ok_witness :
  ∃ s, dispatch false (R_getattr 1) (demo_mount ∅) = Ok (tt, s) ∧ table_ok s.
Proof.
  destruct demo_after_reached as [s E]. exists s. split; [done|].
  apply (reachable_table_ok false). apply (reach_request _ (demo_mount ∅) (R_getattr 1) tt); [|done|done].
  by apply reach_init.
Defined.

Lemma every_request_answered_once_witness :
  ∃ s l, dispatch false (R_getattr 1) (demo_mount ∅) = Ok (tt, s)
    ∧ m_replies s = [] ++ l ∧ length l = 1%nat.
Proof.
  destruct demo_after_reached as [s E]. exists s.
  destruct (every_request_answered_once false (demo_mount ∅) (R_getattr 1) tt s) as (l & El & Hl);
    [by apply reach_init|done|done|].
  by exists l.
Defined.
