(* ===== verification/Tiering.v ===== *)
(** * Tiering: index, segments, snapshots and eviction (src/tiering/)

    The tiering-out agent reads the change log, copies the changed files into a staging
    directory, packs it as a tarball and records its contents in the index; the
    tiering-in agent finds an inode in the index and opens the unpacked copy; the
    eviction agent drops the data of files whose changes were tiered out.

    Shell commands (mkdir, tar, rclone), file descriptors and the protobuf formats of
    the index are parameters ([TierEnv]); the staging area is a map from path names to
    contents. *)

From Stdlib Require Import ZArith Lia Strings.String.
From stdpp Require Import base list gmap.
From S2P Require Import Prelude Status Mode SortedMap KVStore MetaData Partition File Directory.
From S2P Require Import ChangeLog FileSystemManager Mount.

Abbreviation disk := (gmap bytes bytes).

(** ** CloudProxy *)

Record CloudProxy := MkProxy { local_dir : bytes; s3_base_uri : bytes }.
Inductive SyncDirection := SYNC_OUT | SYNC_IN.

Definition new_CloudProxy (dir uri : bytes) : CloudProxy :=
  MkProxy (dir ++ lit "/") (uri ++ lit "/").
Definition LocalPath (p : CloudProxy) (sub_path : bytes) : bytes := local_dir p ++ sub_path.
Definition CloudUri (p : CloudProxy) (sub_path : bytes) : bytes := s3_base_uri p ++ sub_path.
Definition sync_command (p : CloudProxy) (d : SyncDirection) : bytes :=
  lit "rclone -v sync " ++
  match d with
  | SYNC_OUT => local_dir p ++ lit " " ++ s3_base_uri p
  | SYNC_IN => s3_base_uri p ++ lit " " ++ local_dir p
  end.

(** ** The index *)

(** The messages of index.proto. *)
Record InodeOffset := MkOffset { io_inode : Z; io_pathname : bytes; io_offset : Z }.
Record ProtoSegment := MkPSeg {
  ps_name : bytes;
  ps_first_xid : Z;
  ps_last_xid : Z;
  ps_inode_offset : list InodeOffset;
}.
Record ProtoIndex := MkIndex { ix_magic : Z; ix_version : Z; ix_segment : list ProtoSegment }.
Definition index_clear : ProtoIndex := MkIndex 0 0 [].

Inductive IndexFormat := INVALID_FORMAT | TEXT_FORMAT | BINARY_FORMAT.

(** What tiering uses of the system: [system()] (the exit code and the effect on the
    staging area), the error of [creat] and [open] on a path, the formats of the index
    (writing it gives the bytes that reached the file and whether that was all),
    uninitialised memory, and the clock. *)
Class TierEnv := {
  sh_system : bytes → disk → Z * disk;
  open_error : bytes → option Z;
  index_print : ProtoIndex → bytes * bool;
  index_merge : bytes → ProtoIndex → option ProtoIndex;
  index_serialize : ProtoIndex → bytes * bool;
  index_parse : bytes → option ProtoIndex;
  io_errno : Z;
  uninit_bytes : nat → bytes;
  uninit_stat : stat_t;
  wall_timestamp : Z;
}.

Record IndexManager := MkIM { im_proxy : CloudProxy; im_format : IndexFormat; im_index : ProtoIndex }.

Definition new_IndexManager (p : CloudProxy) (fmt : IndexFormat) : IndexManager :=
  MkIM p fmt (MkIndex 17 1 []).
Definition set_index (ix : ProtoIndex) (im : IndexManager) : IndexManager :=
  MkIM (im_proxy im) (im_format im) ix.

Definition index_path (im : IndexManager) : bytes :=
  LocalPath (im_proxy im)
    (match im_format im with TEXT_FORMAT => lit "index_new.ix.txt" | _ => lit "index_new.ix.bin" end).

(** The first offset entry of [inode_num] in a segment. *)
Fixpoint find_offset (offs : list InodeOffset) (inode_num : Z) : option InodeOffset :=
  match offs with
  | [] => None
  | o :: offs => if io_inode o =? inode_num then Some o else find_offset offs inode_num
  end.

(** The scan of [GetSegment], on the segments from the last to the first. *)
Fixpoint scan_segments (segs : list ProtoSegment) (inode_num before_xid : Z)
    : option (ProtoSegment * InodeOffset) :=
  match segs with
  | [] => None
  | seg :: segs =>
      if before_xid <? ps_last_xid seg then scan_segments segs inode_num before_xid
      else match find_offset (ps_inode_offset seg) inode_num with
           | Some o => Some (seg, o)
           | None => scan_segments segs inode_num before_xid
           end
  end.

Definition GetSegment (im : IndexManager) (inode_num before_xid : Z)
    : option (ProtoSegment * InodeOffset) :=
  scan_segments (rev (ix_segment (im_index im))) inode_num before_xid.

(** [AddSegment]: a new empty message at the end. *)
Definition im_AddSegment (im : IndexManager) : IndexManager :=
  let ix := im_index im in
  set_index (MkIndex (ix_magic ix) (ix_version ix) (ix_segment ix ++ [MkPSeg [] 0 0 []])) im.

(** ** Segments *)

(** A segment: [inode_paths] is a std::map. *)
Record Segment := MkSegment {
  temp_dir : bytes;
  tarball_path : bytes;
  seg_fs_id : Z;
  inode_paths : list (Z * bytes);
  committed : bool;
  seg_first_xid : Z;
  seg_last_xid : Z;
}.

Definition new_Segment (dir tarball : bytes) (fs : Z) : Segment :=
  MkSegment dir tarball fs [] false 0 0.
Definition set_xids (first last : Z) (s : Segment) : Segment :=
  MkSegment (temp_dir s) (tarball_path s) (seg_fs_id s) (inode_paths s) (committed s) first last.
Definition set_paths (ps : list (Z * bytes)) (s : Segment) : Segment :=
  MkSegment (temp_dir s) (tarball_path s) (seg_fs_id s) ps (committed s) (seg_first_xid s)
    (seg_last_xid s).
Definition set_committed (s : Segment) : Segment :=
  MkSegment (temp_dir s) (tarball_path s) (seg_fs_id s) (inode_paths s) true (seg_first_xid s)
    (seg_last_xid s).

(** [Update]: a new message with the inodes of the segment, in key order. *)
Definition Update (im : IndexManager) (seg : Segment) : IndexManager :=
  let ix := im_index im in
  set_index (MkIndex (ix_magic ix) (ix_version ix)
    (ix_segment ix ++ [MkPSeg (tarball_path seg) (seg_first_xid seg) (seg_last_xid seg)
       ((λ '(i, p), MkOffset i p 0) <$> inode_paths seg)])) im.

Section Staging.
Context `{TierEnv}.

(** [IndexManager::Flush]. *)
Definition im_Flush (im : IndexManager) (d : disk) : Z * disk :=
  match open_error (index_path im) with
  | Some e => (if e =? 0 then EIO else e, d)
  | None =>
      let failed := if io_errno =? 0 then EIO else io_errno in
      match im_format im with
      | TEXT_FORMAT =>
          let '(v, ok) := index_print (im_index im) in
          (if ok : bool then 0 else failed, <[index_path im := v]> d)
      | BINARY_FORMAT =>
          let '(v, ok) := index_serialize (im_index im) in
          (if ok : bool then 0 else failed, <[index_path im := v]> d)
      | INVALID_FORMAT => (EINVAL, <[index_path im := []]> d)
      end
  end.

(** [IndexManager::Refresh]. *)
Definition im_Refresh (merge : bool) (im : IndexManager) (d : disk) : res (Z * IndexManager) :=
  match d !! index_path im with
  | None => Ok (if io_errno =? 0 then EIO else io_errno, im)
  | Some v =>
      let failed := if io_errno =? 0 then EIO else io_errno in
      let ix := if merge then im_index im else index_clear in
      match im_format im with
      | TEXT_FORMAT =>
          match index_merge v ix with
          | Some ix' => Ok (0, set_index ix' im)
          | None => Ok (failed, set_index ix im)
          end
      | BINARY_FORMAT =>
          if merge then Crash FatalLog
          else match index_parse v with
               | Some ix' => Ok (0, set_index ix' im)
               | None => Ok (failed, set_index ix im)
               end
      | INVALID_FORMAT => Ok (EINVAL, set_index ix im)
      end
  end.

Definition MkdirPath (dir_path : bytes) (d : disk) : Z * disk :=
  sh_system (lit "mkdir --parents  --verbose '" ++ dir_path ++ lit "'") d.

(** The methods of the proxy that run a command. *)
Definition proxy_Init (p : CloudProxy) (d : disk) : Z * disk :=
  sh_system (lit "mkdir --parents  --verbose '" ++ local_dir p ++ lit "'") d.
Definition Sync (p : CloudProxy) (dir : SyncDirection) (d : disk) : Z * disk :=
  sh_system (sync_command p dir) d.
Definition PinFile (p : CloudProxy) (file_path : bytes) (d : disk) : Z * disk := Sync p SYNC_IN d.

(** [MakeWorkingDir]: the empty string on failure; the name must fit 128 bytes.  The
    format string is [template] followed by two numbers; [template] itself has no
    conversion in it (main passes "./seg_"). *)
Definition MakeWorkingDir (template : bytes) (first last : Z) (d : disk) : bytes * disk :=
  let working_dir := template ++ fmt_ld first ++ lit "-" ++ fmt_ld last in
  if (128 <=? length working_dir)%nat then ([], d)
  else let '(ret, d') := MkdirPath working_dir d in
       if negb (ret =? 0) then ([], d') else (working_dir, d').

(** [SegmentFactory::AddSegment]: [None] is null. *)
Definition AddSegment (template : bytes) (p : CloudProxy) (fs first last : Z) (d : disk)
    : option Segment * disk :=
  let '(working_dir, d') := MakeWorkingDir template first last d in
  match working_dir with
  | [] => (None, d')
  | _ =>
      let tarball := local_dir p ++ lit "/tb_" ++ fmt_ld first ++ lit "-" ++ fmt_ld last ++ lit ".tgz" in
      (Some (set_xids first last (new_Segment working_dir tarball fs)), d')
  end.

(** [SegmentFactory::OpenSegment] (fs id TEST_FSID): the proxy synchronises first.  The
    xids of the segment are not set, and not read. *)
Definition OpenSegment (template : bytes) (p : CloudProxy) (ps : ProtoSegment) (d : disk)
    : Segment * disk :=
  let '(working_dir, d1) := MakeWorkingDir template (ps_first_xid ps) (ps_last_xid ps) d in
  let '(_, d2) := PinFile p (ps_name ps) d1 in
  (new_Segment working_dir (ps_name ps) 0, d2).

(** [Commit]. *)
Definition Commit (seg : Segment) (d : disk) : Z * Segment * disk :=
  let '(ret, d') := sh_system (lit "tar --verbose -z --create --file=" ++ tarball_path seg
                       ++ lit " --directory " ++ temp_dir seg ++ lit " .") d in
  (ret, if ret =? 0 then set_committed seg else seg, d').

(** A TieredInFile on a descriptor of a file with these contents ([pread], [fstat]). *)
Definition tiered_on (inode_num : Z) (contents : bytes) : TieredFile :=
  MkTiered (Some (Z.of_nat (length contents))) inode_num
    (λ off n, if off <? 0 then None else Some (slice (Z.to_nat off) (Z.to_nat n) contents)).

(** [Segment::OpenFile]: the unpacked copy if it is there, otherwise unpack first. *)
Definition OpenFile (seg : Segment) (o : InodeOffset) (d : disk) : option TieredFile * disk :=
  let path := temp_dir seg ++ lit "/" ++ io_pathname o in
  match d !! path with
  | Some c => (Some (tiered_on (u64 (io_inode o)) c), d)
  | None =>
      let '(ret, d') := sh_system (lit "tar --verbose --extract --file=" ++ tarball_path seg
                           ++ lit " --directory " ++ temp_dir seg) d in
      if negb (ret =? 0) then (None, d')
      else match d' !! path with
           | Some c => (Some (tiered_on (u64 (io_inode o)) c), d')
           | None => (None, d')
           end
  end.

(** [TieringInAgent::Open]: the inode number is unsigned here and signed in the index. *)
Definition agent_Open (template : bytes) (im : IndexManager) (inode_num min_xid : Z) (d : disk)
    : option TieredFile * disk :=
  match GetSegment im (i64 inode_num) min_xid with
  | None => (None, d)
  | Some (ps, o) =>
      let '(seg, d1) := OpenSegment template (im_proxy im) ps d in
      OpenFile seg o d1
  end.

End Staging.

(** [GetInodes]: the unique inode numbers of the entries, in increasing order. *)
Definition GetInodes (es : list ChangeLogEntry) : list Z :=
  ss_elems (foldl (λ s e, match e_inode_num e with
                          | Some i => ss_insert (u64 i) s
                          | None => s
                          end) [] es).

(** ** Snapshots *)

Section Persist.
Context {S : Type} `{KVStore S} `{FsEnv} `{TierEnv}.

(** The state the tiering-out thread works on: the file system manager whose files are
    copied, the manager of the store snapshot, the index and the staging area. *)
Record TierState := mkT {
  t_live : FileSystemManager S;
  t_snap : FileSystemManager S;
  t_index : IndexManager;
  t_disk : disk;
}.

Abbreviation TM := (M TierState).

Definition at_live {A} (m : M (FileSystemManager S) A) : TM A := λ t,
  match m (t_live t) with
  | Ok (a, fm) => Ok (a, mkT fm (t_snap t) (t_index t) (t_disk t))
  | Crash c => Crash c
  end.
Definition at_snap {A} (m : M (FileSystemManager S) A) : TM A := λ t,
  match m (t_snap t) with
  | Ok (a, fm) => Ok (a, mkT (t_live t) fm (t_index t) (t_disk t))
  | Crash c => Crash c
  end.
Definition at_disk {A} (f : disk → A * disk) : TM A := λ t,
  let '(a, d) := f (t_disk t) in Ok (a, mkT (t_live t) (t_snap t) (t_index t) d).

(** The prefix of a path before its last slash. *)
Fixpoint dirname (path : bytes) : bytes :=
  match path with
  | [] => []
  | b :: rest => if bool_decide (Byte.x2f ∈ rest) then b :: dirname rest
                 else if bool_decide (b = Byte.x2f) then [] else path
  end.

(** [CopyFile]: reading more than the buffer holds overruns it; bytes that were not
    read are whatever malloc returned.  The write to the local file is taken to
    succeed. *)
Definition CopyFile (seg : Segment) (h : Z) (path : bytes) (offset : Z) (st : stat_t) : TM Z :=
  cassert (offset =? 0);;
  let length_ := st_size st - offset in
  '(_, _, out) ← at_live (readFile (u64 (seg_fs_id seg)) (u64 h) offset (u64 length_) true);
  (if length_ <? Z.of_nat (length out) then crash_with UndefinedBehaviour else mret tt);;
  let full_path := temp_dir seg ++ lit "/" ++ path in
  ret ← at_disk (MkdirPath (dirname full_path));
  if negb (ret =? 0) then mret ret
  else match open_error full_path with
       | Some e => mret e
       | None =>
           at_disk (λ d, (0, <[full_path := take (Z.to_nat length_)
                                (out ++ uninit_bytes (Z.to_nat length_))]> d))
       end.

Definition CopyDir (seg : Segment) (path : bytes) : TM Z :=
  at_disk (MkdirPath (temp_dir seg ++ lit "/" ++ path)).

(** [Segment::Add] of a whole file. *)
Definition seg_Add (inode_num : Z) (path : bytes) (seg : Segment) : TM (Z * Segment) :=
  '(status, st) ← at_live (statFile (u64 (seg_fs_id seg)) (u64 inode_num) wall_timestamp uninit_stat);
  err ←
    (if negb (bool_decide (status = STATUS_OK)) then mret (StatusToErrno status)
     else if S_ISREG (st_mode st) then CopyFile seg inode_num path 0 st
     else if S_ISDIR (st_mode st) then CopyDir seg path
     else mret EINVAL);
  mret (err, if err =? 0 then set_paths (sm_insert inode_num path (inode_paths seg)) seg else seg).

(** The loop of [GetPath]: the path parts from the inode up to the root. *)
Fixpoint path_loop (fuel : nat) (inode : Z) (parts : list bytes) : TM (Status * Z * list bytes) :=
  match fuel with
  | O => crash_with OutOfFuel
  | Datatypes.S fuel =>
      if ROOT_HANDLE <? inode then
        '(status, info) ← at_snap (fm_getPathInfo 0 inode);
        match info with
        | Some (parent, name) => path_loop fuel parent (name :: parts)
        | None => mret (status, inode, parts)
        end
      else mret (STATUS_OK, inode, parts)
  end.

(** The parts joined by slashes. *)
Fixpoint join (parts : list bytes) : bytes :=
  match parts with
  | [] => []
  | [p] => p
  | p :: parts => p ++ lit "/" ++ join parts
  end.

(** [GetPath]: the source loops without a bound; [fuel] bounds the depth. *)
Definition GetPath (fuel : nat) (inode : Z) : TM (Status * bytes) :=
  '(status, inode, parts) ← path_loop fuel inode [];
  let path := join parts in
  cassert ((0 <? Z.of_nat (length path)) || (inode =? ROOT_HANDLE)
           || negb (bool_decide (status = STATUS_OK)));;
  mret (status, path).

(** [GetPaths] into an unordered_map. *)
Fixpoint GetPaths (fuel : nat) (inodes : list Z) (paths : gmap Z bytes) : TM (gmap Z bytes) :=
  match inodes with
  | [] => mret paths
  | i :: inodes =>
      '(status, path) ← GetPath fuel i;
      GetPaths fuel inodes (if decide (status = STATUS_OK) then <[i := path]> paths else paths)
  end.

(** [std::sort] by path; comparing looks up [paths[i]], which adds an empty path for an
    inode that has none (nothing is compared when there is one inode).  The order of
    inodes with equal paths is not specified; the model keeps one. *)
Definition path_of (paths : gmap Z bytes) (i : Z) : bytes := default [] (paths !! i).
Fixpoint insert_by_path (paths : gmap Z bytes) (i : Z) (l : list Z) : list Z :=
  match l with
  | [] => [i]
  | j :: l' => if bytes_ltb (path_of paths j) (path_of paths i)
               then j :: insert_by_path paths i l' else i :: l
  end.
Definition sort_by_path (paths : gmap Z bytes) (l : list Z) : list Z :=
  foldr (insert_by_path paths) [] l.
Definition touched_paths (paths : gmap Z bytes) (l : list Z) : gmap Z bytes :=
  if (length l <=? 1)%nat then paths
  else foldl (λ m i, <[i := path_of paths i]> m) paths l.

(** The loop that adds the inodes to the segment. *)
Definition add_one (paths : gmap Z bytes) (i : Z) (seg : Segment) : TM Segment :=
  match paths !! i with
  | Some path => '(_, seg) ← seg_Add (i64 i) path seg; mret seg
  | None => mret seg
  end.
Fixpoint add_loop (paths : gmap Z bytes) (inodes : list Z) (seg : Segment) : TM Segment :=
  match inodes with
  | [] => mret seg
  | i :: inodes => seg ← add_one paths i seg; add_loop paths inodes seg
  end.

(** [SnapshotPersister::Snapshot]; calling through a null segment is undefined. *)
Definition persist (fuel : nat) (template : bytes) (fs : Z) (inodes : list Z) (first last : Z) : TM Z :=
  paths ← GetPaths fuel inodes ∅;
  if bool_decide (paths = ∅) then mret ENOENT
  else
    let inodes := sort_by_path paths inodes in
    let paths := touched_paths paths inodes in
    t ← get_st;
    r ← at_disk (AddSegment template (im_proxy (t_index t)) fs first last);
    match r with
    | None => crash_with UndefinedBehaviour
    | Some seg =>
        seg ← add_loop paths inodes seg;
        '(ret, seg) ← at_disk (λ d, let '(ret, seg', d') := Commit seg d in ((ret, seg'), d'));
        (if ret =? 0 then
           modify (λ t, mkT (t_live t) (t_snap t) (Update (t_index t) seg) (t_disk t));;
           t ← get_st;
           at_disk (im_Flush (t_index t));;
           at_disk (Sync (im_proxy (t_index t)) SYNC_OUT);; mret tt
         else mret tt);;
        mret 0
    end.

End Persist.

Arguments TierState S : clear implicits.
Arguments mkT {S} _ _ _ _.

(** ** The tiering-out agent *)

Definition MAX_XID_PER_SEGMENT : Z := 1000.

(** [TieringOutAgent::Snapshot], in a state that has the change log in it; [persister]
    mounts a snapshot and persists one batch of inodes.  [back()] of an empty vector is
    undefined.  The source bounds the do loop by nothing but progress through the log. *)
Fixpoint snapshot_loop {St} (at_log : ∀ A, M FsChangeLog A → M St A)
    (persister : list Z → Z → Z → M St unit) (snapshot_end_xid : Z) (fuel : nat) : M St unit :=
  match fuel with
  | O => crash_with OutOfFuel
  | S fuel =>
      l ← at_log _ get_st;
      let first_xid := tiered_out_xid l + 1 in
      let last_xid := Z.min (first_xid + MAX_XID_PER_SEGMENT) snapshot_end_xid in
      match Read l first_xid last_xid with
      | Crash c => crash_with c
      | Ok (log_entries, first_xid) =>
          let inode_nums := GetInodes log_entries in
          match last log_entries with
          | None => crash_with UndefinedBehaviour
          | Some e =>
              cassert (has_xid e);;
              persister inode_nums first_xid (xid e);;
              at_log _ (modify (set_tiered_out_xid (xid e)));;
              l ← at_log _ get_st;
              if tiered_out_xid l <? snapshot_end_xid
              then snapshot_loop at_log persister snapshot_end_xid fuel
              else mret tt
          end
      end
  end.

Definition out_Snapshot {St} (at_log : ∀ A, M FsChangeLog A → M St A)
    (persister : list Z → Z → Z → M St unit) (fuel : nat) : M St unit :=
  l ← at_log _ get_st;
  snapshot_loop at_log persister (get_last_xid l) fuel.

(** ** The eviction agent *)

Section Evict.
Context {S : Type} `{KVStore S} `{FsEnv} `{MountEnv}.

Abbreviation MM := (M (MountState S)).

Definition eviction_age : Z := 2.

(** The loop of [ProcessEvictions]; [now i] is the clock when inode [i] is considered.
    The hold on each inode is not released. *)
Fixpoint evict_loop (now : Z → Z) (inodes : list Z) : MM unit :=
  match inodes with
  | [] => mret tt
  | i :: inodes =>
      GetInode i true;;
      '(err, st) ← Getattr_stat i;
      (if negb (err =? 0) then mret tt
       else if S_ISDIR (st_mode st) then mret tt
       else if S_ISREG (st_mode st) then
         if eviction_age <=? now i - st_mtime st then inode_Evict i;; mret tt else mret tt
       else mret tt);;
      evict_loop now inodes
  end.

(** [ProcessEvictions]; compacting the database does not change its contents. *)
Definition ProcessEvictions (now : Z → Z) : MM unit :=
  s ← get_st;
  let l := m_log s in
  match Read l (eviction_next_xid l) (tiered_out_xid l) with
  | Crash c => crash_with c
  | Ok (log_entries, _) =>
      let last_xid := match last log_entries with Some e => xid e | None => tiered_out_xid l end in
      evict_loop now (GetInodes log_entries);;
      at_log (modify (set_eviction_next_xid (last_xid + 1)))
  end.

End Evict.
