(* ===== verification/Lifecycle.v ===== *)
(** * Base objects, and what is built and torn down around the store

    - LogFSObject (src/KVFSObject.h, src/KVFSObject.cc), the base class of LogFSFile, with
      the enumeration of the log entry types (src/KVFSMetaData.h).
    - FileSystemManager as the owner of a store object: mounting and unmounting a snapshot
      and the live store (src/FileSystemManager.cc), and the callers that close, print or
      compact it (src/tiering/).
    - SegmentFactory (src/tiering/segment.cc): its format string of directory names. *)

From Stdlib Require Import ZArith Lia Strings.String.
From stdpp Require Import base gmap list.
From S2P Require Import Prelude Status KVStore Backends MetaData Partition File ChangeLog Tiering.

(** ** LogFSObject *)

Inductive LogEntryType :=
  | LOG_ENTRY_TYPE_INVALID | LOG_ENTRY_TYPE_SEGHEADER | LOG_ENTRY_TYPE_OBJ | LOG_ENTRY_TYPE_OBJTOMB
  | LOG_ENTRY_TYPE_LOGDIGEST | LOG_ENTRY_TYPE_SAFEVERSION | LOG_ENTRY_TYPE_TABLESTATS
  | LOG_ENTRY_TYPE_DIR | LOG_ENTRY_TYPE_DIR_METADATA | LOG_ENTRY_TYPE_DIR_DIGEST
  | LOG_ENTRY_TYPE_FILE | LOG_ENTRY_TYPE_FILE_CHUNK | LOG_ENTRY_TYPE_FILE_ATTR
  | LOG_ENTRY_TYPE_FILE_DIGEST | LOG_ENTRY_TYPE_FILE_SNAPSHOT | LOG_ENTRY_TYPE_DIR_SNAPSHOT
  | LOG_ENTRY_TYPE_FILE_CLONE | LOG_ENTRY_TYPE_DIR_CLONE | LOG_ENTRY_TYPE_OBJ_HANDLE
  | LOG_ENTRY_TYPE_DIR_PARTITION | TOTAL_LOG_ENTRY_TYPES.

#[export] Instance log_entry_type_eq_dec : EqDecision LogEntryType.
Proof. solve_decision. Defined.

(** The members, with [parentString], which nothing sets. *)
Record LogFSObject := MkObject {
  obj_fsId : Z;
  obj_handle : Z;
  obj_type : LogEntryType;
  obj_parentString : bytes;
  obj_nameString : bytes;
}.

(** The two constructors: a handle of -1 is the largest uint64_t, and a null name leaves the
    string empty. *)
Definition default_LogFSObject : LogFSObject := MkObject 0 (u64 (-1)) LOG_ENTRY_TYPE_OBJ [] [].
Definition new_LogFSObject (fs h : Z) (type : LogEntryType) (name : option bytes) : LogFSObject :=
  MkObject fs h type [] (match name with Some n => n | None => [] end).

Definition setHandle (h : Z) (o : LogFSObject) : LogFSObject :=
  MkObject (obj_fsId o) h (obj_type o) (obj_parentString o) (obj_nameString o).
(** [setName] warns when there was a name, and replaces it. *)
Definition setName (name : bytes) (o : LogFSObject) : LogFSObject :=
  MkObject (obj_fsId o) (obj_handle o) (obj_type o) (obj_parentString o) name.
Definition getFSId (o : LogFSObject) : Z := obj_fsId o.
Definition getHandle (o : LogFSObject) : Z := obj_handle o.
Definition getType (o : LogFSObject) : LogEntryType := obj_type o.
Definition getName (o : LogFSObject) : bytes := obj_nameString o.

(** The base of a LogFSFile: all of them are made with the type of a file. *)
Definition base_object (f : LogFSFile) : LogFSObject :=
  MkObject (fsId f) (handle f) LOG_ENTRY_TYPE_FILE [] (nameString f).

Lemma new_file_base fs name h mode size cs :
  base_object (new_LogFSFile fs name h mode size cs) = new_LogFSObject fs h LOG_ENTRY_TYPE_FILE (Some name).
Proof. done. Qed.

(** [hex] of src/KVFSFile.cc: a negative offset prints as its two's complement. *)
Definition hex (off : Z) : bytes := lit "0x" ++ hex_fuel 16 (u64 off) [].

Example hex_minus_one : hex 4096 = lit "0x1000" ∧ hex (-1) = lit "0xffffffffffffffff".
Proof. by vm_compute. Qed.

(** ** The manager and its store object *)

Section Owner.
Context {O W : Type} (be : Backend O W).

(** [kvstore], which may be null, and the database behind the store objects. *)
Record Owner := MkOwner { kvstore : option O }.
Abbreviation OM := (M (Owner * W)).

(** A call through [kvstore]. *)
Definition on_store {A} (m : M (O * W) A) : OM A := λ '(g, w),
  match kvstore g with
  | None => Crash UndefinedBehaviour
  | Some o =>
      match m (o, w) with
      | Ok (a, (o', w')) => Ok (a, (MkOwner (Some o'), w'))
      | Crash c => Crash c
      end
  end.

(** [MountSnapshot]: a manager for what [Snapshot] of the store returns. *)
Definition owner_MountSnapshot : OM Owner := s ← on_store (be_Snapshot be); mret (MkOwner s).

(** [UnmountSnapshot]: [delete] of a null pointer does nothing. *)
Definition UnmountSnapshot : OM unit := λ '(g, w),
  match kvstore g with
  | None => Ok (tt, (g, w))
  | Some o =>
      match be_delete be (o, w) with
      | Ok (_, (_, w')) => Ok (tt, (MkOwner None, w'))
      | Crash c => Crash c
      end
  end.

Definition umountFileSystem : OM bool := on_store (be_close be).

(** [SnapshotPersister::Close]. *)
Definition persister_Close : OM Z := UnmountSnapshot;; mret 0.

(** [EvictionAgent::CompactDatabase]. *)
Definition CompactDatabase : OM unit := on_store (be_Compact be).

(** [DumpKVStore] and [DBStats] of the tiering-out agent, with what the store prints. *)
Definition DumpKVStore (dump : O → W → res bytes) : OM bytes := λ '(g, w),
  match kvstore g with
  | None => Ok ([], (g, w))
  | Some o => match dump o w with Ok b => Ok (b, (g, w)) | Crash c => Crash c end
  end.
Definition DBStats (dbstats : O → W → res bytes) : OM bytes := DumpKVStore dbstats.

(** A pass of the tiering-out agent: a snapshot is mounted, the persister works on it, and
    closes it. *)
Definition with_snapshot {A} (work : M (Owner * W) A) : OM A := λ '(g, w),
  match owner_MountSnapshot (g, w) with
  | Crash c => Crash c
  | Ok (snap, (g', w1)) =>
      match (a ← work; persister_Close;; mret a) (snap, w1) with
      | Crash c => Crash c
      | Ok (a, (_, w2)) => Ok (a, (g', w2))
      end
  end.

End Owner.
Arguments Owner O : clear implicits.

Section OwnerLaws.
Context {O W : Type} (be : Backend O W) {usable reads} `{!BackendLaws be usable reads}.

(** Closing the snapshot leaves a null pointer and the contents of the database; closing it
    again does nothing, and a call through it is undefined. *)
Lemma persister_Close_spec o w :
  usable true o →
  ∃ w', persister_Close be (MkOwner (Some o), w) = Ok (0, (MkOwner None, w')) ∧ (∀ k, reads w' k = reads w k)
    ∧ persister_Close be (MkOwner None, w') = Ok (0, (MkOwner None, w'))
    ∧ CompactDatabase be (MkOwner None, w') = Crash UndefinedBehaviour.
Proof.
  intros Ho. destruct (be_delete_spec o w Ho) as (o' & w' & E & Hr). exists w'. split; [|done].
  unfold persister_Close, UnmountSnapshot, mbind, M_bind. cbn [kvstore]. by rewrite E.
Qed.

(** A pass that reads [keys] through the snapshot leaves the live store as it was. *)
Lemma snapshot_pass o w keys :
  usable false o →
  ∃ w', with_snapshot be (mapM (λ k, on_store (be_get be k)) keys) (MkOwner (Some o), w) =
      Ok (reads w <$> keys, (MkOwner (Some o), w')) ∧ ∀ k, reads w' k = reads w k.
Proof.
  intros Ho. destruct (be_snapshot_spec o w Ho) as (s & Es & Hs).
  assert (∀ ks, mapM (λ k, on_store (be_get be k)) ks (MkOwner (Some s), w) =
    Ok (reads w <$> ks, (MkOwner (Some s), w))) as Hg.
  { induction ks as [|k ks IH]; [done|]. cbn [mapM].
    rewrite (bind_ok _ _ _ (reads w k) (MkOwner (Some s), w))
      by (unfold on_store; cbn; by rewrite (be_get_spec true s w k Hs)).
    by rewrite (bind_ok _ _ _ _ _ IH). }
  destruct (persister_Close_spec s w Hs) as (w' & Ec & Hr & _). exists w'. split; [|done].
  assert (owner_MountSnapshot be (MkOwner (Some o), w) = Ok (MkOwner (Some s), (MkOwner (Some o), w))) as Em
    by (unfold owner_MountSnapshot, mbind, M_bind, on_store; cbn; by rewrite Es).
  unfold with_snapshot. by rewrite Em, (bind_ok _ _ _ _ _ (Hg keys)), (bind_ok _ _ _ _ _ Ec).
Qed.

End OwnerLaws.

(** ** SegmentFactory *)

(** A format string of snprintf with [%ld] conversions only; any other conversion, or one
    argument too few, has no defined result. *)
Fixpoint printf_ld (fmt : bytes) (args : list Z) : option bytes :=
  match fmt with
  | [] => Some []
  | Byte.x25 :: Byte.x6c :: Byte.x64 :: fmt =>
      match args with
      | a :: args => app (fmt_ld a) <$> printf_ld fmt args
      | [] => None
      end
  | Byte.x25 :: Byte.x25 :: fmt => cons Byte.x25 <$> printf_ld fmt args
  | Byte.x25 :: _ => None
  | b :: fmt => cons b <$> printf_ld fmt args
  end.

Record SegmentFactory := MkFactory {
  working_dir_template : bytes;
  sf_proxy : CloudProxy;
  sf_fs_id : Z;
}.

(** The constructor appends the conversions of the two xids. *)
Definition new_SegmentFactory (template : bytes) (p : CloudProxy) (fs : Z) : SegmentFactory :=
  MkFactory (template ++ lit "%ld-%ld") p fs.

(** [UnpinFile] is not implemented, so that nothing is removed. *)
Definition UnpinFile (p : CloudProxy) (file_path : bytes) (d : disk) : disk := d.
Definition DeleteSegment (sf : SegmentFactory) (seg : Segment) (d : disk) : disk :=
  UnpinFile (sf_proxy sf) (tarball_path seg) d.

(** [Segment::Close] leaves the unpacked files. *)
Definition seg_Close (seg : Segment) : Z := 0.

Lemma printf_ld_plain (pre fmt : bytes) args :
  Byte.x25 ∉ pre → printf_ld (pre ++ fmt) args = app pre <$> printf_ld fmt args.
Proof.
  induction pre as [|b pre IH]; intros Hn; [cbn [app]; by destruct (printf_ld fmt args)|].
  apply not_elem_of_cons in Hn as [Hb Hn]. specialize (IH Hn). cbn [app].
  assert (printf_ld (b :: pre ++ fmt) args = cons b <$> printf_ld (pre ++ fmt) args) as ->
    by (clear -Hb; destruct b; first [reflexivity|by destruct Hb]).
  rewrite IH. by destruct (printf_ld fmt args).
Qed.

(** The name of a working directory is what [MakeWorkingDir] of [Tiering] builds, for a
    template without a percent sign. *)
Lemma working_dir_name template p fs first last :
  Byte.x25 ∉ template →
  printf_ld (working_dir_template (new_SegmentFactory template p fs)) [first; last] =
    Some (template ++ fmt_ld first ++ lit "-" ++ fmt_ld last).
Proof.
  intros Hn. cbn [working_dir_template new_SegmentFactory]. rewrite printf_ld_plain by done.
  cbn. by rewrite app_nil_r.
Qed.

(** A percent sign in the template takes the first xid, and then there is one argument too
    few: the template must not hold one. *)
Example percent_in_template :
  printf_ld (working_dir_template (new_SegmentFactory (lit "seg%ld_") (new_CloudProxy [] []) 1)) [1; 2] = None.
Proof. by vm_compute. Qed.

(** ** Files that are tiered in, and the agents *)

(** [TieredInFile::Close]: [close] on the descriptor, with the set of open ones. *)
Definition tiered_Close (file_desc : Z) (fds : gset Z) : Z * gset Z :=
  if decide (file_desc ∈ fds) then (0, fds ∖ {[ file_desc ]}) else (-1, fds).
(** [TieringInAgent::Close] closes the file and frees it; the result of [close] is dropped. *)
Definition agent_Close (file_desc : Z) (fds : gset Z) : gset Z := snd (tiered_Close file_desc fds).

(** [SetOptions] of the two agents and [Compress] do nothing yet. *)
Definition in_SetOptions (options : bytes) : Z := 0.
Definition out_SetOptions (options : bytes) : Z := 0.
Definition Compress (log_entries : list ChangeLogEntry) : list ChangeLogEntry := log_entries.

(** A descriptor is closed once: a second [Close] fails and closes nothing else. *)
Lemma tiered_Close_once fd fds :
  fd ∈ fds → fst (tiered_Close fd fds) = 0 ∧ fd ∉ agent_Close fd fds
  ∧ tiered_Close fd (agent_Close fd fds) = (-1, agent_Close fd fds)
  ∧ ∀ fd', fd' ≠ fd → fd' ∈ agent_Close fd fds ↔ fd' ∈ fds.
Proof.
  intros Hin. unfold agent_Close, tiered_Close. rewrite !(decide_True _ _ Hin). cbn [fst snd].
  assert (fd ∉ fds ∖ {[ fd ]}) as Hout by set_solver. rewrite decide_False by done.
  split_and!; [done|done|done|set_solver].
Qed.
