(* ===== verification/TieringProps.v ===== *)
(** * Properties of tiering

    The index returns the newest copy; what was recorded is found again by the
    tiering-in agent, as the file layer needs it; a snapshot walks the log to its end; an
    eviction pass does not look at whether the file changed since. *)

From Stdlib Require Import ZArith Lia Strings.String.
From stdpp Require Import base list gmap.
From S2P Require Import Prelude Status Mode SortedMap KVStore MetaData Partition File FileData.
From S2P Require Import Directory DirectoryProps ChangeLog FileSystemManager Mount MountProps CreateProps Tiering.

(** ** The index *)

(** A segment can serve the version of [inode_num] asked for. *)
Definition serves_inode (inode_num before_xid : Z) (seg : ProtoSegment) : Prop :=
  ps_last_xid seg ≤ before_xid ∧ ∃ o, o ∈ ps_inode_offset seg ∧ io_inode o = inode_num.

Lemma find_offset_spec offs i :
  match find_offset offs i with
  | Some o => o ∈ offs ∧ io_inode o = i
  | None => ∀ o, o ∈ offs → io_inode o ≠ i
  end.
Proof.
  induction offs as [|o offs IH]; cbn; [intros o Ho; by apply not_elem_of_nil in Ho|].
  destruct (io_inode o =? i) eqn:E; zbool; [by split; [left|]|].
  destruct (find_offset offs i).
  - split; [right|]; apply IH.
  - intros o' [->|Ho]%elem_of_cons; [done|]. by apply IH.
Qed.

Lemma scan_segments_spec segs i x :
  match scan_segments segs i x with
  | Some (seg, o) => ∃ l1 l2, segs = l1 ++ seg :: l2 ∧ ps_last_xid seg ≤ x
      ∧ find_offset (ps_inode_offset seg) i = Some o ∧ ∀ s, s ∈ l1 → ¬ serves_inode i x s
  | None => ∀ s, s ∈ segs → ¬ serves_inode i x s
  end.
Proof.
  induction segs as [|seg segs IH]; cbn; [intros s Hs; by apply not_elem_of_nil in Hs|].
  pose proof (find_offset_spec (ps_inode_offset seg) i) as Hf.
  assert (x < ps_last_xid seg ∨ find_offset (ps_inode_offset seg) i = None →
    ¬ serves_inode i x seg) as Hno.
  { intros [Hx|Hn] [Hl (o & Ho & Hi)]; [lia|]. rewrite Hn in Hf. by apply (Hf o). }
  assert ((¬ serves_inode i x seg) →
    match scan_segments segs i x with
    | Some (s, o) => ∃ l1 l2, seg :: segs = l1 ++ s :: l2 ∧ ps_last_xid s ≤ x
        ∧ find_offset (ps_inode_offset s) i = Some o ∧ ∀ s', s' ∈ l1 → ¬ serves_inode i x s'
    | None => ∀ s, s ∈ seg :: segs → ¬ serves_inode i x s
    end) as Hskip.
  { intros Hs. destruct (scan_segments segs i x) as [[s o]|].
    - destruct IH as (l1 & l2 & -> & Hl & Ho & Hn). exists (seg :: l1), l2.
      split; [done|]. split; [done|]. split; [done|]. intros s' [->|Hin]%elem_of_cons; auto.
    - intros s [->|Hin]%elem_of_cons; auto. }
  destruct (x <? ps_last_xid seg) eqn:E; zbool; [apply Hskip; auto|].
  destruct (find_offset (ps_inode_offset seg) i) as [o|] eqn:Eo; [|apply Hskip; auto].
  exists [], segs. split; [done|]. split; [done|]. split; [done|].
  intros s Hs. by apply not_elem_of_nil in Hs.
Qed.

(** C28: [GetSegment] returns the newest copy: the segment it returns has a last xid
    up to the one asked for and holds the inode at the offset entry returned, and no
    segment recorded after it would do; it returns null exactly when no segment of the
    index would do. *)
Theorem GetSegment_newest im i x :
  match GetSegment im i x with
  | Some (seg, o) => ∃ older newer, ix_segment (im_index im) = older ++ seg :: newer
      ∧ ps_last_xid seg ≤ x ∧ o ∈ ps_inode_offset seg ∧ io_inode o = i
      ∧ ∀ s, s ∈ newer → ¬ serves_inode i x s
  | None => ∀ s, s ∈ ix_segment (im_index im) → ¬ serves_inode i x s
  end.
Proof.
  unfold GetSegment. pose proof (scan_segments_spec (rev (ix_segment (im_index im))) i x) as Hs.
  destruct (scan_segments _ i x) as [[seg o]|].
  - destruct Hs as (l1 & l2 & E & Hl & Ho & Hn). exists (rev l2), (rev l1).
    pose proof (find_offset_spec (ps_inode_offset seg) i) as Hf. rewrite Ho in Hf.
    split; [|split; [done|split; [apply Hf|split; [apply Hf|]]]].
    + rewrite <-(rev_involutive (ix_segment (im_index im))), E, rev_app_distr. cbn.
      by rewrite <-app_assoc.
    + intros s Hin. apply Hn. by apply list_elem_of_In, in_rev, list_elem_of_In.
  - intros s Hin. apply Hs. apply list_elem_of_In. rewrite <-in_rev. by apply list_elem_of_In.
Qed.

(** ** Tiering in *)

Lemma find_offset_paths (m : list (Z * bytes)) i p :
  sm_sorted m → sm_find i m = Some p →
  find_offset ((λ '(i, p), MkOffset i p 0) <$> m) i = Some (MkOffset i p 0).
Proof.
  induction 1 as [|k v m Hlt Hs IH]; cbn; [done|].
  destruct (Z.ltb_spec i k); [done|]. destruct (Z.ltb_spec k i) as [Hk|Hk].
  - intros E. rewrite (proj2 (Z.eqb_neq _ _)) by lia. by apply IH.
  - intros [= <-]. by rewrite (proj2 (Z.eqb_eq _ _)) by lia; replace k with i by lia.
Qed.

Lemma GetSegment_updated im seg i p x :
  sm_sorted (inode_paths seg) → sm_find i (inode_paths seg) = Some p → seg_last_xid seg ≤ x →
  GetSegment (Update im seg) i x =
    Some (MkPSeg (tarball_path seg) (seg_first_xid seg) (seg_last_xid seg)
            ((λ '(i, p), MkOffset i p 0) <$> inode_paths seg), MkOffset i p 0).
Proof.
  intros Hs Hf Hx. unfold GetSegment, Update. cbn. rewrite rev_app_distr. cbn.
  rewrite (proj2 (Z.ltb_ge _ _)) by done. by rewrite (find_offset_paths _ i p).
Qed.

Lemma tiered_on_contents i c : tiered_contents (tiered_on i c) i c.
Proof.
  split; [done|done|]. intros off n Ho Hn. cbn. by rewrite (proj2 (Z.ltb_ge _ _)) by done.
Qed.

Section TierIn.
Context `{TierEnv}.

(** What opening a segment asks of the shell: making the working directory succeeds,
    and neither that nor synchronising the proxy directory touches this file. *)
Definition shell_keeps (p : CloudProxy) (wd path : bytes) : Prop :=
  (∀ d, (MkdirPath wd d).1 = 0)
  ∧ (∀ d, (MkdirPath wd d).2 !! path = d !! path)
  ∧ (∀ d, (Sync p SYNC_IN d).2 !! path = d !! path).

(** The working directory of a range of xids. *)
Definition working_dir (template : bytes) (first last : Z) : bytes :=
  template ++ fmt_ld first ++ lit "-" ++ fmt_ld last.

Lemma MakeWorkingDir_ok template first last d :
  (length (working_dir template first last) < 128)%nat →
  (∀ d, (MkdirPath (working_dir template first last) d).1 = 0) →
  MakeWorkingDir template first last d =
    (working_dir template first last, (MkdirPath (working_dir template first last) d).2).
Proof.
  intros Hl Hm. unfold MakeWorkingDir. fold (working_dir template first last).
  rewrite (proj2 (Nat.leb_gt _ _)) by done. specialize (Hm d).
  destruct (MkdirPath _ d) as [ret d']. cbn in Hm. by subst ret.
Qed.

(** What tiering out recorded is what tiering in opens: once a segment is in the
    index and its copy of the inode is in the working directory of its xids, [Open] for
    that inode returns a file whose size, inode number and contents are those of the
    copy, which is what restoring an evicted file relies on. *)
Theorem tiered_copy_opens template im seg i p x c d :
  let wd := working_dir template (seg_first_xid seg) (seg_last_xid seg) in
  let path := wd ++ lit "/" ++ p in
  0 ≤ i < 9223372036854775808 →
  sm_sorted (inode_paths seg) → sm_find i (inode_paths seg) = Some p → seg_last_xid seg ≤ x →
  (length wd < 128)%nat → shell_keeps (im_proxy im) wd path → d !! path = Some c →
  ∃ tf d', agent_Open template (Update im seg) i x d = (Some tf, d') ∧ tiered_contents tf i c.
Proof.
  intros wd path Hi Hs Hf Hx Hl (K1 & K2 & K3) Hd. unfold agent_Open. rewrite i64_small by lia.
  rewrite (GetSegment_updated im seg i p x Hs Hf Hx). unfold OpenSegment.
  cbn [ps_first_xid ps_last_xid ps_name im_proxy Update set_index].
  rewrite MakeWorkingDir_ok by done. fold wd. unfold PinFile. set (d1 := (MkdirPath wd d).2).
  pose proof (K3 d1) as K3'. destruct (Sync (im_proxy im) SYNC_IN d1) as [ret d2] eqn:E2.
  cbn in K3'. unfold OpenFile. cbn [temp_dir new_Segment io_pathname io_inode].
  assert (d2 !! (wd ++ lit "/" ++ p) = Some c) as Hd2
    by (fold path; rewrite K3'; unfold d1; by rewrite K2).
  rewrite Hd2. eexists _, d2. split; [done|]. rewrite u64_small by lia. apply tiered_on_contents.
Qed.

End TierIn.

(** ** Snapshots *)

Section Snapshots.

(** The state for a run of [Snapshot]: the log, and the batches persisted so far (the
    inodes and the range of xids). *)
Abbreviation OutState := (FsChangeLog * list (list Z * Z * Z))%type.

Definition out_at_log A (m : M FsChangeLog A) : M OutState A := λ '(l, tr),
  match m l with Ok (a, l') => Ok (a, (l', tr)) | Crash c => Crash c end.
Definition out_persist (inodes : list Z) (first last : Z) : M OutState unit := λ '(l, tr),
  Ok (tt, (l, tr ++ [(inodes, first, last)])).

(** The batches cover the entries with xids in (from, to], in order, without gap or
    overlap, each with the inodes of its entries. *)
Fixpoint covers (d : list ChangeLogEntry) (from to : Z) (tr : list (list Z * Z * Z)) : Prop :=
  match tr with
  | [] => from = to
  | (inodes, first, last) :: tr =>
      first = from + 1 ∧ from < last ≤ from + 1 + MAX_XID_PER_SEGMENT
      ∧ inodes = GetInodes (filter (λ e, first ≤ xid e ≤ last) d) ∧ covers d last to tr
  end.

(** Where a snapshot can start: the log is dense and not trimmed past the last
    snapshot, and something was logged since. *)
Record snapshot_pre (l : FsChangeLog) : Prop := {
  sp_dense : dense l;
  sp_small : small_log l;
  sp_start : next_xid l - Z.of_nat (length (log_deque l)) - 1 ≤ tiered_out_xid l;
  sp_low : 0 ≤ tiered_out_xid l;
  sp_new : tiered_out_xid l < get_last_xid l;
}.

Lemma dense_last l : dense l → log_deque l ≠ [] → get_last_xid l = next_xid l - 1.
Proof.
  intros D Hne. unfold get_last_xid. destruct (last (log_deque l)) as [e|] eqn:E.
  - rewrite last_lookup in E. rewrite (dense_xid l _ e D E).
    destruct (log_deque l); [done|]. cbn. lia.
  - by apply last_None in E.
Qed.

Lemma sp_end l : snapshot_pre l → get_last_xid l = next_xid l - 1.
Proof.
  intros P. apply dense_last; [apply P|]. intros E. pose proof (sp_new _ P) as Hn.
  pose proof (sp_low _ P). unfold get_last_xid in Hn. rewrite E in Hn. cbn in Hn. lia.
Qed.

(** The last entry of a range of a dense log. *)
Lemma last_in_range l first last_ :
  dense l → next_xid l - Z.of_nat (length (log_deque l)) ≤ first → first ≤ last_ < next_xid l →
  ∃ e, last (filter (λ e, first ≤ xid e ≤ last_) (log_deque l)) = Some e ∧ e_xid e = Some last_.
Proof.
  intros D Hf Hl. set (z := next_xid l - Z.of_nat (length (log_deque l))) in *.
  rewrite (filter_slice (log_deque l) z) by (intros; by apply dense_xid).
  replace (Z.min last_ _ - Z.max first z + 1) with (last_ - first + 1) by lia.
  set (n := Z.to_nat (last_ - first + 1)). set (p := Z.to_nat (first - z)).
  destruct (lookup_lt_is_Some_2 (log_deque l) (p + (n - 1))) as [e E]; [lia|].
  exists e. split.
  - rewrite last_lookup, slice_length by lia. rewrite slice_lookup, decide_True by lia.
    replace (p + pred n)%nat with (p + (n - 1))%nat by lia. done.
  - rewrite (D _ _ E). f_equal. lia.
Qed.

Lemma snapshot_loop_run fuel l tr :
  snapshot_pre l → (Z.to_nat (get_last_xid l - tiered_out_xid l) ≤ fuel)%nat →
  ∃ tr', snapshot_loop out_at_log out_persist (get_last_xid l) fuel (l, tr) =
      Ok (tt, (set_tiered_out_xid (get_last_xid l) l, tr ++ tr'))
    ∧ covers (log_deque l) (tiered_out_xid l) (get_last_xid l) tr'.
Proof.
  revert l tr. induction fuel as [|fuel IH]; intros l tr P Hfuel.
  { pose proof (sp_new _ P). lia. }
  pose proof (sp_end l P) as Hend. destruct P as [D Sm Hst Hlow Hnew].
  set (first := tiered_out_xid l + 1).
  set (last_ := Z.min (first + MAX_XID_PER_SEGMENT) (get_last_xid l)).
  assert (first ≤ last_ < next_xid l) as Hr by (unfold last_, first, MAX_XID_PER_SEGMENT; lia).
  destruct (last_in_range l first last_ D ltac:(lia) Hr) as (e & El & Ex).
  assert (Read l first last_ = Ok (filter (λ e, first ≤ xid e ≤ last_) (log_deque l), first)) as ER.
  { rewrite Read_dense by (done || unfold first; lia). do 2 f_equal. unfold first. lia. }
  set (l' := set_tiered_out_xid last_ l).
  set (tr1 := tr ++ [(GetInodes (filter (λ e, first ≤ xid e ≤ last_) (log_deque l)), first, last_)]).
  assert (snapshot_loop out_at_log out_persist (get_last_xid l) (S fuel) (l, tr) =
    (if last_ <? get_last_xid l then snapshot_loop out_at_log out_persist (get_last_xid l) fuel
     else mret tt) (l', tr1)) as Estep.
  { cbn [snapshot_loop]. rewrite (bind_ok _ _ _ l (l, tr)) by done. fold first last_. rewrite ER, El.
    rewrite (bind_ok _ _ _ tt (l, tr)) by (apply cassert_true; unfold has_xid; by rewrite Ex).
    assert (xid e = last_) as -> by (unfold xid; by rewrite Ex).
    rewrite (bind_ok _ _ _ tt (l, tr1)) by done. rewrite (bind_ok _ _ _ tt (l', tr1)) by done.
    by rewrite (bind_ok _ _ _ l' (l', tr1)) by done. }
  rewrite Estep. assert (from_ok : tiered_out_xid l < last_ ≤ tiered_out_xid l + 1 + MAX_XID_PER_SEGMENT)
    by (unfold last_, first in *; lia).
  destruct (last_ <? get_last_xid l) eqn:E; zbool.
  - destruct (IH l' tr1) as (tr' & Er & Hc).
    + split; [done|by destruct Sm|cbn; lia|cbn; lia|done].
    + cbn. change (get_last_xid l') with (get_last_xid l). lia.
    + change (get_last_xid l') with (get_last_xid l) in *. rewrite Er.
      eexists (_ :: tr'). unfold tr1. rewrite <-app_assoc. split; [done|]. by cbn.
  - assert (last_ = get_last_xid l) as <- by (unfold last_; lia).
    eexists [_]. split; [done|]. by cbn.
Qed.

(** C23: a snapshot tiers out the whole log: on a dense log with entries after the
    last snapshot, [Snapshot] ends (one turn per pending xid is enough), having persisted
    batches of at most 1001 xids that cover exactly the entries after the last snapshot,
    in order, without gap or overlap, each with the inodes of its entries; the log is as
    before but for the tiered-out mark, which is the last xid. *)
Theorem snapshot_covers_log l fuel :
  snapshot_pre l → (Z.to_nat (get_last_xid l - tiered_out_xid l) ≤ fuel)%nat →
  ∃ tr, out_Snapshot out_at_log out_persist fuel (l, []) =
      Ok (tt, (set_tiered_out_xid (get_last_xid l) l, tr))
    ∧ covers (log_deque l) (tiered_out_xid l) (get_last_xid l) tr.
Proof.
  intros P Hf. destruct (snapshot_loop_run fuel l [] P Hf) as (tr & E & Hc). by exists tr.
Qed.

(** A second snapshot request with nothing logged in between: [back()] of an empty
    vector. *)
Lemma snapshot_without_changes l fuel tr :
  dense l → small_log l → log_deque l ≠ [] → tiered_out_xid l = get_last_xid l →
  out_Snapshot out_at_log out_persist (S fuel) (l, tr) = Crash UndefinedBehaviour.
Proof.
  intros D Sm Hne Ht. pose proof (dense_last l D Hne) as He.
  pose proof (sl_size _ Sm). pose proof (sl_first _ Sm). pose proof (sl_next _ Sm).
  unfold out_Snapshot. rewrite (bind_ok _ _ _ l (l, tr)) by done. cbn [snapshot_loop].
  rewrite (bind_ok _ _ _ l (l, tr)) by done. rewrite Read_dense; [|done|done|lia|].
  2:{ unfold MAX_XID_PER_SEGMENT. destruct (log_deque l); [done|]. cbn in *. lia. }
  rewrite Z.min_r by (unfold MAX_XID_PER_SEGMENT; lia).
  assert (filter (λ e, tiered_out_xid l + 1 ≤ xid e ≤ get_last_xid l) (log_deque l) = []) as ->.
  { rewrite Ht. generalize (get_last_xid l), (log_deque l). intros x d.
    induction d as [|e d IH]; [done|]. by rewrite filter_cons_False by lia. }
  done.
Qed.

End Snapshots.

(** ** Eviction *)

Section Eviction.
Context {S : Type} `{KVStoreLaws S} `{!KVReliable S} `{FsEnv} `{MountEnv}.

Abbreviation kv_of := (λ s : MountState S, w_kv (m_world s)).

(** A regular file in the table, its attributes and metadata loaded and stored. *)
Record loaded_file (s : MountState S) (ino : Z) (i : FuseKvfsInode) (f : LogFSFile) : Prop := {
  lf_inode : m_inodes s !! ino = Some i;
  lf_state : istate i ≠ I_INVALID;
  lf_reg : S_ISREG (st_mode (attr i)) = true;
  lf_file : w_heap (m_world s) !! ino = Some f;
  lf_inv : file_inv f (kv_of s);
  lf_synced : synced f (kv_of s);
}.

Lemma reg_not_dir m : S_ISREG m = true → S_ISDIR m = false.
Proof. unfold S_ISREG, S_ISDIR, is_type. intros E. zbool. by rewrite E. Qed.

Lemma Refresh_loaded (s : MountState S) ino i :
  m_inodes s !! ino = Some i → istate i ≠ I_INVALID → inode_Refresh ino s = Ok (0, s).
Proof.
  intros Ei Hst. unfold inode_Refresh. rewrite (bind_ok _ _ _ _ _ (inode_run s ino i Ei)).
  by rewrite decide_False.
Qed.

(** The file object after [Evict]. *)
Definition evicted (f : LogFSFile) : LogFSFile :=
  set_metaDirty false (set_meta (set_evictionState ES_DATA_EVICTED (meta f)) f).

(** [kv'] is [kv] after the eviction of [f]. *)
Definition dropped (f : LogFSFile) (kv kv' : S) : Prop :=
  ∃ kv1, resized (handle f) (meta_fileChunkSize (meta f)) kv kv1 0
    ∧ kv_put kv1 (inode_key (handle f)) (encode_meta (meta (evicted f))) = (true, kv').

Lemma dropped_synced f kv kv' : dropped f kv kv' → synced (evicted f) kv'.
Proof. intros (kv1 & _ & Ep). apply (kv_put_eq _ _ _ _ Ep). Qed.

Lemma dropped_zero f kv kv' j : dropped f kv kv' → 0 ≤ j < OFF_MAX → fbyte (evicted f) kv' j = Byte.x00.
Proof.
  intros (kv1 & R & Ep) Hj. unfold fbyte. cbn. rewrite (inode_put_byte _ _ _ _ _ _ _ Ep).
  rewrite (resized_bytes _ _ _ _ _ R) by done. by rewrite decide_False by lia.
Qed.

(** One turn of the loop on a file that is old enough. *)
Lemma evict_one (s : MountState S) now ino i f :
  loaded_file s ino i f → 2 ≤ now ino - st_mtime (attr i) →
  ∃ kv', evict_loop now [ino] s =
      Ok (tt, set_world (mkW (<[ino := evicted f]> (w_heap (m_world s))) kv' (w_clock (m_world s)))
                (set_inodes (<[ino := set_nlookup (nlookup i + 1) i]> (m_inodes s)) s))
    ∧ dropped f (kv_of s) kv'.
Proof.
  intros [Ei Hst Hreg Ef I Sy] Hold.
  destruct (Evict_ok f (kv_of s) (w_clock (m_world s)) I Sy) as (kv1 & kv' & E & R & Ep).
  exists kv'. split; [|by exists kv1].
  cbn [evict_loop]. rewrite (bind_ok _ _ _ _ _ (GetInode_held s ino i true Ei)).
    set (i1 := set_nlookup (nlookup i + 1) i). set (s1 := set_inodes _ s).
    assert (m_inodes s1 !! ino = Some i1) as Ei1 by apply lookup_insert_eq.
    rewrite (bind_ok _ _ s1 (0, attr i) s1).
    2:{ unfold Getattr_stat. rewrite (bind_ok _ _ _ _ _ (Refresh_loaded s1 ino i1 Ei1 Hst)).
        by rewrite (bind_ok _ _ _ _ _ (inode_run s1 ino i1 Ei1)). }
    cbn [negb Z.eqb]. rewrite (reg_not_dir _ Hreg), Hreg.
    rewrite (proj2 (Z.leb_le _ _)) by (unfold eviction_age; lia).
    erewrite (bind_ok _ _ s1 tt); [reflexivity|].
    unfold inode_Evict. erewrite (bind_ok _ _ s1); [reflexivity|].
    rewrite (bind_ok _ _ _ _ _ (Refresh_loaded s1 ino i1 Ei1 Hst)).
    apply (on_file_run s1 ino Evict f STATUS_OK (evicted f) kv' (w_clock (m_world s))); [done|exact E].
Qed.

(** C39: an eviction pass drops data that was never tiered out: when the tiered-out
    part of the log since the last pass names a regular file, older than two seconds,
    the pass deletes all its data, also if the log has a later entry for the file that is
    not tiered out yet; the file stays marked as evicted, and one more hold on the inode
    is left behind. *)
Theorem eviction_drops_untiered_data (s : MountState S) now ino i f es first e :
  let l := m_log s in
  loaded_file s ino i f → 2 ≤ now ino - st_mtime (attr i) →
  Read l (eviction_next_xid l) (tiered_out_xid l) = Ok (es, first) → GetInodes es = [ino] →
  e ∈ log_deque l → e_inode_num e = Some ino → tiered_out_xid l < xid e →
  ∃ s' f', ProcessEvictions now s = Ok (tt, s')
    ∧ w_heap (m_world s') !! ino = Some f'
    ∧ meta_evictionState (meta f') = ES_DATA_EVICTED ∧ synced f' (kv_of s')
    ∧ (∀ j, 0 ≤ j < OFF_MAX → fbyte f' (kv_of s') j = Byte.x00)
    ∧ (nlookup <$> m_inodes s' !! ino) = Some (nlookup i + 1).
Proof.
  intros l L Hold ER HG _ _ _. destruct (evict_one s now ino i f L Hold) as (kv' & E & Dr).
  eexists _, (evicted f). split.
  - unfold ProcessEvictions. rewrite (bind_ok _ _ s s s) by done. fold l. rewrite ER, HG.
    by rewrite (bind_ok _ _ _ _ _ E).
  - cbn. rewrite !lookup_insert_eq. split; [done|]. split; [done|].
    split; [by apply (dropped_synced _ _ _ Dr)|]. split; [|done]. intros j. by apply (dropped_zero _ _ _ _ Dr).
Qed.

End Eviction.

(** ** Witnesses *)

(** A shell whose commands succeed and change nothing. *)
Definition demo_tier_env : TierEnv := {|
  sh_system _ d := (0, d);
  open_error _ := None;
  index_print _ := ([], false);
  index_merge _ _ := None;
  index_serialize _ := ([], false);
  index_parse _ := None;
  io_errno := 0;
  uninit_bytes n := replicate n Byte.x00;
  uninit_stat := stat_zero;
  wall_timestamp := 0;
|}.
#[local] Existing Instance demo_tier_env.

Definition demo_segment : Segment :=
  set_paths [(7, lit "a")] (set_xids 1 2 (new_Segment (lit "seg_1-2") (lit "tb_1-2.tgz") 0)).
Definition demo_index : IndexManager := new_IndexManager (new_CloudProxy (lit "p") (lit "c")) TEXT_FORMAT.

Lemma tiered_copy_opens_witness :
  ∃ tf d', agent_Open (lit "seg_") (Update demo_index demo_segment) 7 XID_MAX
      {[ lit "seg_1-2/a" := lit "abc" ]} = (Some tf, d') ∧ tiered_contents tf 7 (lit "abc").
Proof.
  apply (tiered_copy_opens (lit "seg_") demo_index demo_segment 7 (lit "a") XID_MAX (lit "abc")
    {[ lit "seg_1-2/a" := lit "abc" ]}); try done.
  - constructor; [|constructor]. intros k v Hk. by apply not_elem_of_nil in Hk.
  - vm_compute. lia.
Defined.

Definition demo_pending : FsChangeLog := MkLog [] 3 0 0 [demo_entry 1; demo_entry 2].

Lemma snapshot_covers_log_witness :
  ∃ tr, out_Snapshot out_at_log out_persist 2 (demo_pending, []) =
      Ok (tt, (set_tiered_out_xid 2 demo_pending, tr))
    ∧ covers (log_deque demo_pending) 0 2 tr.
Proof.
  apply (snapshot_covers_log demo_pending 2); [|done].
  split; [by intros [|[|j]] e [= <-]|split; cbn; lia|cbn; lia|cbn; lia|done].
Defined.

#[local] Instance demo_evict_fs : FsEnv := demo_env (demo_tier []).
#[local] Existing Instance demo_mount_env.

(** A file with two log entries, the first tiered out. *)
Definition demo_touched (x : Z) : ChangeLogEntry :=
  MkEntry (Some x) OP_COMMIT (Some 1) (Some 5) None None None None.
Definition demo_evict_inode : FuseKvfsInode :=
  MkInode (stat_mode (S_IFREG + 420) (stat_ino_dev 5 0 stat_zero)) 1 I_CLEAN.
Definition demo_evict : MountState MemStore :=
  mkM (mkW {[ 5 := demo_file ES_RESIDENT ]} (demo_kv ES_RESIDENT) 0) {[ 5 := demo_evict_inode ]}
    (MkLog [] 3 1 1 [demo_touched 1; demo_touched 2]) super_empty 6 1 (MkOptions true false) ∅ [] [].

Lemma eviction_drops_untiered_data_witness :
  ∃ s' f', ProcessEvictions (λ _, 100) demo_evict = Ok (tt, s')
    ∧ w_heap (m_world s') !! 5 = Some f'
    ∧ meta_evictionState (meta f') = ES_DATA_EVICTED ∧ synced f' (w_kv (m_world s'))
    ∧ (∀ j, 0 ≤ j < OFF_MAX → fbyte f' (w_kv (m_world s')) j = Byte.x00)
    ∧ (nlookup <$> m_inodes s' !! 5) = Some 2.
Proof.
  apply (eviction_drops_untiered_data demo_evict (λ _, 100) 5 demo_evict_inode (demo_file ES_RESIDENT)
    [demo_touched 1] 1 (demo_touched 2)); try done.
  - split; [done|done|done|done|apply demo_inv|apply demo_synced].
  - right. left.
Defined.
