(* ===== verification/PersistProps.v ===== *)
(** * Persisting a batch of inodes (src/tiering/snapshot_persister.cc, segment.cc)

    The walk from an inode up to the root, which ends on every chain of parents; and
    persisting a batch of inodes followed by opening one of them through the tiering-in
    agent, which gives back the contents the file had. *)

From Stdlib Require Import ZArith Lia Strings.String.
From stdpp Require Import base list gmap sorting.
From S2P Require Import Prelude Status Mode SortedMap KVStore MetaData Partition File FileData.
From S2P Require Import Directory ChangeLog FileSystemManager Mount IOProps Tiering TieringProps.

#[local] Arguments inode_key : simpl never.
#[local] Arguments encode_meta : simpl never.

Section Persisting.
Context {S : Type} `{KVStoreLaws S} `{FsEnv} `{TierEnv}.

(** ** Paths *)

(** The metadata stored for an inode. *)
Record stored (kv : S) (i : Z) (m : LogFSMetaData) : Prop := {
  st_get : kv_get kv (inode_key i) = Some (encode_meta m);
  st_wf : wf_meta m;
  st_handle : meta_handle m = i;
  st_fs : meta_fsId m = 0;
}.

(** The names from the root down to an inode, by the parents in the stored metadata. *)
Inductive chain (kv : S) : Z → list bytes → Prop :=
  | chain_root : chain kv ROOT_HANDLE []
  | chain_up i m parts : ROOT_HANDLE < i → stored kv i m →
      chain kv (fst (getPathInfo m)) parts → chain kv i (parts ++ [snd (getPathInfo m)]).

(** The walk of [n] steps ends at an inode that is not stored: a file or a directory
    above it was deleted. *)
Inductive lost (kv : S) : nat → Z → Prop :=
  | lost_here i : ROOT_HANDLE < i → kv_get kv (inode_key i) = None → lost kv 0 i
  | lost_up n i m : ROOT_HANDLE < i → stored kv i m →
      lost kv n (fst (getPathInfo m)) → lost kv (Datatypes.S n) i.

(** Where the walk from an inode leads, in fewer steps than [fuel]. *)
Definition walks (kv : S) (fuel : nat) (i : Z) (p : option bytes) : Prop :=
  match p with
  | Some p => ∃ parts, chain kv i parts ∧ p = join parts ∧ (length parts < fuel)%nat
  | None => ∃ n, lost kv n i ∧ (n < fuel)%nat
  end.

Lemma getPathInfo_stored (t : TierState S) i m :
  stored (fm_kv (t_snap t)) i m →
  at_snap (fm_getPathInfo 0 i) t = Ok ((STATUS_OK, Some (getPathInfo m)), t).
Proof.
  intros [Hg Hw Hh Hf]. unfold at_snap, fm_getPathInfo, on_stack.
  destruct t as [live [kv clk l hid] ix d]. cbn [t_snap fm_kv fm_clock] in *. mrun.
  rewrite (open_ok (local_file 0 [] i DEFAULT_FILE_MODE) kv clk m) by done. done.
Qed.

Lemma getPathInfo_missing (t : TierState S) i :
  kv_get (fm_kv (t_snap t)) (inode_key i) = None →
  at_snap (fm_getPathInfo 0 i) t = Ok ((STATUS_OBJECT_DOESNT_EXIST, None), t).
Proof.
  intros Hg. unfold at_snap, fm_getPathInfo, on_stack. destruct t as [live [kv clk l hid] ix d].
  cbn [t_snap fm_kv fm_clock] in *. unfold open, readFromLog, this, fget. mrun. cbn. by rewrite Hg.
Qed.

Lemma path_loop_chain (t : TierState S) i parts fuel acc :
  chain (fm_kv (t_snap t)) i parts → (length parts < fuel)%nat →
  path_loop fuel i acc t = Ok ((STATUS_OK, ROOT_HANDLE, parts ++ acc), t).
Proof.
  intros Hc. revert fuel acc.
  induction Hc as [|i m parts Hi Hs Hc IH]; intros [|fuel] acc Hf; try (cbn in Hf; lia); cbn [path_loop].
  - done.
  - rewrite length_app in Hf. cbn in Hf. rewrite (proj2 (Z.ltb_lt _ _)) by done. mrun.
    rewrite (getPathInfo_stored t i m Hs). destruct (getPathInfo m) as [parent name]. cbn in *.
    rewrite IH by lia. by rewrite <-app_assoc.
Qed.

Lemma path_loop_lost (t : TierState S) n i fuel acc :
  lost (fm_kv (t_snap t)) n i → (n < fuel)%nat →
  ∃ j parts, path_loop fuel i acc t = Ok ((STATUS_OBJECT_DOESNT_EXIST, j, parts), t).
Proof.
  intros Hc. revert fuel acc.
  induction Hc as [i Hi Hg|n i m Hi Hs Hc IH]; intros [|fuel] acc Hf; try lia; cbn [path_loop];
    rewrite (proj2 (Z.ltb_lt _ _)) by done; mrun.
  - rewrite (getPathInfo_missing t i Hg). eauto.
  - rewrite (getPathInfo_stored t i m Hs). destruct (getPathInfo m) as [parent name]. cbn in *.
    apply IH. lia.
Qed.

(** [GetPath] on a walk: the path, or an error; the state is not changed. *)
Lemma GetPath_walks (t : TierState S) fuel i p :
  walks (fm_kv (t_snap t)) fuel i p →
  ∃ status path, GetPath fuel i t = Ok ((status, path), t)
    ∧ match p with Some p => status = STATUS_OK ∧ path = p | None => status ≠ STATUS_OK end.
Proof.
  unfold GetPath. destruct p as [p|].
  - intros (parts & Hc & -> & Hl). mrun. rewrite (path_loop_chain t i parts fuel [] Hc Hl).
    rewrite Z.eqb_refl, orb_true_r. cbn. rewrite app_nil_r. eauto.
  - intros (n & Hc & Hl). mrun. destruct (path_loop_lost t n i fuel [] Hc Hl) as (j & parts & ->).
    rewrite bool_decide_eq_false_2, orb_true_r by done. cbn. eauto 6.
Qed.

(** The paths of a batch: [path] gives the outcome of the walk of each inode. *)
Lemma GetPaths_walks (t : TierState S) fuel (path : Z → option bytes) l acc :
  (∀ i, i ∈ l → walks (fm_kv (t_snap t)) fuel i (path i)) →
  ∃ paths, GetPaths fuel l acc t = Ok (paths, t)
    ∧ ∀ i, paths !! i = if decide (i ∈ l) then path i ∪ acc !! i else acc !! i.
Proof.
  revert acc. induction l as [|j l IH]; intros acc Hw; cbn [GetPaths].
  { exists acc. split; [done|]. intros i. by rewrite decide_False by (by intros ?%elem_of_nil). }
  destruct (GetPath_walks t fuel j (path j)) as (status & p & E & Hp); [apply Hw; left|].
  mrun. rewrite E.
  destruct (IH (if decide (status = STATUS_OK) then <[j := p]> acc else acc)) as (paths & E' & Hl).
  { intros i Hi. apply Hw. by right. }
  exists paths. split; [done|]. intros i. rewrite Hl. clear Hl E E' IH Hw.
  destruct (decide (j = i)) as [->|Hne].
  - rewrite (decide_True (P := i ∈ i :: l)) by (by left). destruct (path i) as [p'|].
    + destruct Hp as [-> ->]. rewrite (decide_True (P := STATUS_OK = STATUS_OK)) by done.
      rewrite lookup_insert_eq. by destruct (decide (i ∈ l)), (acc !! i).
    + rewrite (decide_False (P := status = STATUS_OK)) by done.
      by destruct (decide (i ∈ l)), (acc !! i).
  - rewrite (decide_ext (i ∈ j :: l) (i ∈ l)) by set_solver.
    by destruct (decide (status = STATUS_OK)); [rewrite lookup_insert_ne|].
Qed.

(** ** Sorting *)

Lemma insert_by_path_perm paths i l : insert_by_path paths i l ≡ₚ i :: l.
Proof.
  induction l as [|j l IH]; cbn; [done|]. destruct (bytes_ltb _ _); [|done].
  rewrite IH. apply Permutation_swap.
Qed.

Lemma sort_by_path_perm paths l : sort_by_path paths l ≡ₚ l.
Proof. induction l as [|i l IH]; cbn; [done|]. by rewrite insert_by_path_perm, IH. Qed.

Lemma foldl_insert_lookup (f : Z → bytes) l (m : gmap Z bytes) i :
  foldl (λ m i, <[i := f i]> m) m l !! i = if decide (i ∈ l) then Some (f i) else m !! i.
Proof.
  revert m. induction l as [|j l IH]; intros m; cbn; [by rewrite decide_False by (by intros ?%elem_of_nil)|].
  rewrite IH. destruct (decide (i = j)) as [->|Hne].
  - rewrite (decide_True (P := j ∈ j :: l)) by (by left). rewrite lookup_insert_eq.
    by destruct (decide (j ∈ l)).
  - rewrite (decide_ext (i ∈ j :: l) (i ∈ l)) by set_solver. by rewrite lookup_insert_ne.
Qed.

(** After the sort an inode of the batch has its path, or none or an empty one. *)
Lemma touched_lookup paths l i :
  i ∈ l → touched_paths paths l !! i = paths !! i ∨ touched_paths paths l !! i = Some (path_of paths i).
Proof.
  intros Hi. unfold touched_paths. destruct (length l <=? 1)%nat; [by left|].
  rewrite foldl_insert_lookup, decide_True by done. by right.
Qed.

(** ** Copying *)

(** What the manager has for an inode: nothing, a resident regular file, or something
    else that is stored. *)
Definition loaded (i : Z) (m : LogFSMetaData) : LogFSFile :=
  set_meta m (local_file 0 [] i DEFAULT_FILE_MODE).
Inductive copyable (kv : S) (i : Z) : Prop :=
  | copy_missing : kv_get kv (inode_key i) = None → copyable kv i
  | copy_file m : stored kv i m → S_ISREG (ModeFromMeta (meta_type m) (meta_protection m)) = true →
      file_inv (loaded i m) kv → meta_evictionState m = ES_RESIDENT → copyable kv i
  | copy_other m : stored kv i m → S_ISREG (ModeFromMeta (meta_type m) (meta_protection m)) = false →
      copyable kv i.

Lemma statFile_missing (t : TierState S) i :
  kv_get (fm_kv (t_live t)) (inode_key i) = None →
  ∃ st, at_live (statFile 0 i wall_timestamp uninit_stat) t = Ok ((STATUS_OBJECT_DOESNT_EXIST, st), t).
Proof.
  intros Hg. unfold at_live, statFile, on_stack. destruct t as [[kv clk l hid] snap ix d].
  cbn [t_live fm_kv fm_clock] in *. unfold stat, readFromLog, this, fget. mrun. cbn. rewrite Hg.
  cbn. destruct (S_ISREG _); cbn; eauto.
Qed.

Lemma statFile_stored (t : TierState S) i m :
  stored (fm_kv (t_live t)) i m →
  ∃ st, at_live (statFile 0 i wall_timestamp uninit_stat) t = Ok ((STATUS_OK, st), t)
    ∧ (if S_ISREG (ModeFromMeta (meta_type m) (meta_protection m))
       then st_mode st = ModeFromMeta (meta_type m) (meta_protection m)
            ∧ st_size st = i64 (meta_fileTotalSize m)
       else st_mode st = Z.lor S_IFDIR 511).
Proof.
  intros [Hg Hw Hh Hf]. unfold at_live, statFile, on_stack. destruct t as [[kv clk l hid] snap ix d].
  mrun. cbn [t_live fm_kv fm_clock] in *.
  destruct (stat_ok (local_file 0 [] i DEFAULT_FILE_MODE) kv clk m uninit_stat) as (st & -> & Hsz & _ & _ & Hm);
    [done..|].
  cbn. rewrite Hm. destruct (S_ISREG (ModeFromMeta _ _)); cbn; eauto.
Qed.

Lemma readFile_whole (t : TierState S) i m :
  stored (fm_kv (t_live t)) i m → file_inv (loaded i m) (fm_kv (t_live t)) →
  meta_evictionState m = ES_RESIDENT →
  let c := contents (loaded i m) (fm_kv (t_live t)) in
  at_live (readFile 0 i 0 (Z.of_nat (length c)) true) t = Ok ((STATUS_OK, Z.of_nat (length c), c), t).
Proof.
  intros [Hg Hw Hh Hf] I He c. unfold at_live, readFile, on_stack.
  destruct t as [[kv clk l hid] snap ix d]. mrun. cbn [t_live fm_kv fm_clock] in *.
  rewrite (open_ok (local_file 0 [] i DEFAULT_FILE_MODE) kv clk m) by done.
  fold (loaded i m). pose proof (fi_total _ _ I) as Ht. pose proof (contents_length _ _ I) as Hl.
  rewrite (read_contents (loaded i m) kv clk 0 (Z.of_nat (length c))); try done; [|lia|].
  - fold c. assert (slice (Z.to_nat 0) (Z.to_nat (Z.of_nat (length c))) c = c) as ->
      by (unfold slice; rewrite take_ge; [done|rewrite length_drop; lia]). done.
  - unfold c. rewrite Hl. pose proof (wf_fileTotalSize _ (fi_wf _ _ I)). lia.
Qed.

(** ** One file through the staging area *)

(** The file [i0] with path [p0] in the working directory [wd]. *)
Section OneFile.
Context (i0 : Z) (p0 wd : bytes) (proxy : CloudProxy).

Definition staged : bytes := wd ++ lit "/" ++ p0.

(** What is asked of the shell: directories can be made, and neither that, nor tar, nor
    synchronising touches the staged file, which can be created. *)
Record shell_stages (tarball : bytes) : Prop := {
  ss_mkdir dir d : (MkdirPath dir d).1 = 0 ∧ (MkdirPath dir d).2 !! staged = d !! staged;
  ss_open : open_error staged = None;
  ss_tar d : let r := sh_system (lit "tar --verbose -z --create --file=" ++ tarball
                        ++ lit " --directory " ++ wd ++ lit " .") d in
             r.1 = 0 ∧ r.2 !! staged = d !! staged;
  ss_sync dir d : (Sync proxy dir d).2 !! staged = d !! staged;
}.
Context (tarball : bytes) (Hsh : shell_stages tarball).

(** The state but for the staging area. *)
Definition same_store (t t' : TierState S) : Prop :=
  t_live t' = t_live t ∧ t_snap t' = t_snap t ∧ t_index t' = t_index t.

Lemma same_store_disk (t : TierState S) d : same_store t (mkT (t_live t) (t_snap t) (t_index t) d).
Proof. done. Qed.

Lemma MkdirPath_ok dir (t : TierState S) :
  ∃ t', at_disk (MkdirPath dir) t = Ok (0, t') ∧ same_store t t'
        ∧ t_disk t' !! staged = t_disk t !! staged.
Proof.
  unfold at_disk. destruct (ss_mkdir _ Hsh dir (t_disk t)) as [E1 E2].
  destruct (MkdirPath dir (t_disk t)) as [r d']. cbn in *. subst r. eauto using same_store_disk.
Qed.

(** [CopyFile] of a resident file: the staged file is replaced when it is this one. *)
Lemma CopyFile_ok seg (t : TierState S) j pj m st :
  temp_dir seg = wd → seg_fs_id seg = 0 → 0 ≤ j < 9223372036854775808 →
  stored (fm_kv (t_live t)) j m → file_inv (loaded j m) (fm_kv (t_live t)) →
  meta_evictionState m = ES_RESIDENT → st_size st = i64 (meta_fileTotalSize m) →
  ∃ ret t', CopyFile seg j pj 0 st t = Ok (ret, t') ∧ same_store t t'
    ∧ if decide (pj = p0)
      then ret = 0 ∧ t_disk t' !! staged = Some (contents (loaded j m) (fm_kv (t_live t)))
      else t_disk t' !! staged = t_disk t !! staged.
Proof.
  intros Hwd Hfs Hj Hst I He Hsz. unfold CopyFile. mrun. cbn [Z.eqb]. rewrite Hfs.
  pose proof (contents_length _ _ I) as Hl. pose proof (fi_total _ _ I) as Ht.
  assert (0 ≤ meta_fileTotalSize m) by (pose proof (wf_fileTotalSize _ (fi_wf _ _ I)); cbn in *; lia).
  change (meta (loaded j m)) with m in *. set (c := contents (loaded j m) (fm_kv (t_live t))) in *.
  unfold MAX_SIZE in Ht. rewrite Hsz, i64_small by lia. rewrite Z.sub_0_r, <-Hl.
  rewrite !u64_small by lia.
  pose proof (readFile_whole t j m Hst I He) as Hr. fold c in Hr. rewrite Hr.
  rewrite Z.ltb_irrefl, Hwd, Nat2Z.id, take_app_length.
  destruct (MkdirPath_ok (dirname (wd ++ lit "/" ++ pj)) t) as (t1 & -> & Hs1 & Hd1).
  cbn [negb Z.eqb]. case_decide as Hp.
  - subst pj. fold staged. rewrite (ss_open _ Hsh). unfold at_disk. do 2 eexists. split; [done|].
    split; [done|]. cbn. by rewrite lookup_insert_eq.
  - destruct (open_error _); [by eauto|]. unfold at_disk. do 2 eexists. split; [done|].
    split; [done|]. cbn. rewrite lookup_insert_ne; [done|].
    unfold staged. intros E%app_inv_head. apply (f_equal tail) in E. done.
Qed.

(** The segment during the loop: only its list of paths changes. *)
Definition same_segment (seg seg' : Segment) : Prop :=
  temp_dir seg' = temp_dir seg ∧ tarball_path seg' = tarball_path seg ∧ seg_fs_id seg' = seg_fs_id seg
  ∧ seg_first_xid seg' = seg_first_xid seg ∧ seg_last_xid seg' = seg_last_xid seg.

(** The file is in the segment and its copy is staged. *)
Definition has_copy (c : bytes) (seg : Segment) (t : TierState S) : Prop :=
  sm_find i0 (inode_paths seg) = Some p0 ∧ t_disk t !! staged = Some c.

(** [Segment::Add] never loses the copy of the file, and makes it when it is the file. *)
Lemma seg_Add_ok c seg (t : TierState S) j pj :
  temp_dir seg = wd → seg_fs_id seg = 0 → sm_sorted (inode_paths seg) → 0 ≤ j < 9223372036854775808 →
  copyable (fm_kv (t_live t)) j → (j ≠ i0 → pj ≠ p0) →
  (j = i0 → pj = p0 ∧ ∃ m, stored (fm_kv (t_live t)) j m
     ∧ S_ISREG (ModeFromMeta (meta_type m) (meta_protection m)) = true
     ∧ contents (loaded j m) (fm_kv (t_live t)) = c) →
  ∃ err seg' t', seg_Add j pj seg t = Ok ((err, seg'), t') ∧ same_store t t' ∧ same_segment seg seg'
    ∧ sm_sorted (inode_paths seg') ∧ (j = i0 ∨ has_copy c seg t → has_copy c seg' t').
Proof.
  intros Hwd Hfs Hso Hj Hco Hne Heq. unfold seg_Add. mrun. rewrite Hfs, !u64_small by lia.
  destruct Hco as [Hg|m Hm Hreg I He|m Hm Hreg].
  - destruct (statFile_missing t j Hg) as [st ->]. rewrite bool_decide_eq_false_2 by done. cbn.
    do 3 eexists. split; [done|]. do 3 (split; [done|]). intros [->|?]; [|done].
    destruct (Heq eq_refl) as (_ & m & Hm & _). destruct Hm. congruence.
  - destruct (statFile_stored t j m Hm) as (st & -> & Hst). rewrite Hreg in Hst.
    destruct Hst as [Hmode Hsize]. rewrite bool_decide_eq_true_2 by done. cbn [negb]. rewrite Hmode, Hreg.
    destruct (CopyFile_ok seg t j pj m st Hwd Hfs Hj Hm I He Hsize) as (ret & t' & -> & Hs & Hd).
    do 3 eexists. split; [done|]. split; [done|]. split; [by destruct (ret =? 0)|].
    split; [destruct (ret =? 0); [by apply sm_insert_sorted|done]|].
    destruct (decide (j = i0)) as [->|Hj0].
    + destruct (Heq eq_refl) as (-> & m' & Hm' & _ & Hc). rewrite decide_True in Hd by done.
      destruct Hd as [-> Hd]. intros _. split; [apply sm_find_insert_eq|].
      assert (m' = m) as -> by (destruct Hm as [G1 W1 _ _], Hm' as [G2 W2 _ _];
        apply decode_encode in W1, W2; congruence).
      by rewrite Hd, Hc.
    + rewrite decide_False in Hd by auto. intros [?|[Hf Hd']]; [done|]. split; [|by rewrite Hd].
      destruct (ret =? 0); [|done]. cbn. by rewrite sm_find_insert_ne.
  - destruct (statFile_stored t j m Hm) as (st & -> & Hst). rewrite Hreg in Hst.
    rewrite bool_decide_eq_true_2 by done. cbn [negb]. rewrite Hst.
    change (S_ISREG (Z.lor S_IFDIR 511)) with false. change (S_ISDIR (Z.lor S_IFDIR 511)) with true.
    unfold CopyDir. destruct (MkdirPath_ok (temp_dir seg ++ lit "/" ++ pj) t) as (t' & -> & Hs & Hd).
    do 3 eexists. split; [done|]. do 2 (split; [done|]). split; [by apply sm_insert_sorted|].
    assert (j ≠ i0) as Hj0.
    { intros ->. destruct (Heq eq_refl) as (_ & m' & Hm' & Hreg' & _).
      destruct Hm as [G1 W1 _ _], Hm' as [G2 W2 _ _]. apply decode_encode in W1, W2.
      assert (m' = m) as -> by congruence. congruence. }
    intros [?|[Hf Hd']]; [done|]. split; [cbn; by rewrite sm_find_insert_ne|by rewrite Hd].
Qed.

(** The loop over the batch. *)
Lemma add_loop_ok c m0 paths l seg (t : TierState S) :
  stored (fm_kv (t_live t)) i0 m0 → S_ISREG (ModeFromMeta (meta_type m0) (meta_protection m0)) = true →
  contents (loaded i0 m0) (fm_kv (t_live t)) = c →
  temp_dir seg = wd → seg_fs_id seg = 0 → sm_sorted (inode_paths seg) →
  (∀ j, j ∈ l → 0 ≤ j < 9223372036854775808 ∧ copyable (fm_kv (t_live t)) j
     ∧ (j ≠ i0 → paths !! j ≠ Some p0)) →
  (i0 ∈ l → paths !! i0 = Some p0) →
  ∃ seg' t', add_loop paths l seg t = Ok (seg', t') ∧ same_store t t' ∧ same_segment seg seg'
    ∧ sm_sorted (inode_paths seg') ∧ (i0 ∈ l ∨ has_copy c seg t → has_copy c seg' t').
Proof.
  intros Hm0 Hreg Hc. revert seg t Hm0 Hc. induction l as [|j l IH]; intros seg t Hm0 Hc Hwd Hfs Hso Hl Hi; cbn [add_loop].
  { do 2 eexists. do 4 (split; [done|]). by intros [?%elem_of_nil|?]. }
  destruct (Hl j) as (Hj & Hco & Hne); [left|].
  assert (∃ seg1 t1, add_one paths j seg t = Ok (seg1, t1) ∧ same_store t t1 ∧ same_segment seg seg1
      ∧ sm_sorted (inode_paths seg1) ∧ (j = i0 ∨ has_copy c seg t → has_copy c seg1 t1))
    as (seg1 & t1 & E1 & S1 & G1 & O1 & C1).
  { unfold add_one. destruct (paths !! j) as [pj|] eqn:Ep.
    - rewrite i64_small by lia. destruct (seg_Add_ok c seg t j pj) as (err & seg1 & t1 & E1 & ?); try done.
      + intros Hj0 ->. by destruct (Hne Hj0).
      + intros ->. rewrite Hi in Ep by left. injection Ep as <-. eauto.
      + mrun. rewrite E1. eauto.
    - do 2 eexists. do 4 (split; [done|]). intros [->|?]; [|done]. by rewrite Hi in Ep by left. }
  mrun. rewrite E1. destruct S1 as (L1 & N1 & X1), G1 as (A1 & A2 & A3 & A4 & A5).
  destruct (IH seg1 t1) as (seg2 & t2 & E2 & S2 & G2 & O2 & C2); rewrite ?L1, ?A1, ?A3; try done.
  { intros k Hk. apply Hl. by right. }
  { intros Hk. apply Hi. by right. }
  exists seg2, t2. split; [done|]. unfold same_store, same_segment in *.
  split; [destruct_and!; split_and!; congruence|]. split; [destruct_and!; split_and!; congruence|]. split; [done|].
  intros Hor. apply C2. destruct Hor as [[->|?]%elem_of_cons|?]; auto.
Qed.

End OneFile.

(** [Commit] keeps the staged file. *)
Lemma Commit_ok p0 wd proxy tarball seg d :
  shell_stages p0 wd proxy tarball → temp_dir seg = wd → tarball_path seg = tarball →
  ∃ d', Commit seg d = (0, set_committed seg, d') ∧ d' !! staged p0 wd = d !! staged p0 wd.
Proof.
  intros Hsh <- <-. unfold Commit. destruct (ss_tar _ _ _ _ Hsh d) as [E1 E2].
  destruct (sh_system _ d) as [r d']. cbn in *. subst r. eauto.
Qed.

Lemma im_Flush_keeps im d k : index_path im ≠ k → (im_Flush im d).2 !! k = d !! k.
Proof.
  intros Hk. unfold im_Flush. destruct (open_error _); [done|].
  destruct (index_print (im_index im)), (index_serialize (im_index im)), (im_format im); cbn;
    by rewrite lookup_insert_ne.
Qed.

(** The tail of [persist]: the segment is committed and indexed, and the index is written
    and synchronised. *)
Definition commit_and_index (seg : Segment) : M (TierState S) Z :=
  '(ret, seg) ← at_disk (λ d, let '(ret, seg', d') := Commit seg d in ((ret, seg'), d'));
  (if ret =? 0 then
     modify (λ t, mkT (t_live t) (t_snap t) (Update (t_index t) seg) (t_disk t));;
     t ← get_st;
     at_disk (im_Flush (t_index t));;
     at_disk (Sync (im_proxy (t_index t)) SYNC_OUT);; mret tt
   else mret tt);;
  mret 0.

Lemma commit_and_index_ok p0 wd tarball seg (t : TierState S) :
  shell_stages p0 wd (im_proxy (t_index t)) tarball → temp_dir seg = wd → tarball_path seg = tarball →
  index_path (t_index t) ≠ staged p0 wd →
  ∃ t', commit_and_index seg t = Ok (0, t') ∧ t_live t' = t_live t ∧ t_snap t' = t_snap t
    ∧ t_index t' = Update (t_index t) (set_committed seg)
    ∧ t_disk t' !! staged p0 wd = t_disk t !! staged p0 wd.
Proof.
  intros Hsh Hwd Htb Hix. unfold commit_and_index, at_disk. mrun.
  destruct (Commit_ok p0 wd _ tarball seg (t_disk t) Hsh Hwd Htb) as (d1 & -> & Hd1).
  cbn [Z.eqb t_index t_disk t_live t_snap].
  pose proof (im_Flush_keeps (Update (t_index t) (set_committed seg)) d1 _ Hix) as Hd2.
  destruct (im_Flush _ d1) as [r2 d2]. cbn [t_index t_disk t_live t_snap].
  pose proof (ss_sync _ _ _ _ Hsh SYNC_OUT d2) as Hd3.
  change (im_proxy (Update (t_index t) (set_committed seg))) with (im_proxy (t_index t)).
  destruct (Sync _ SYNC_OUT d2) as [r3 d3]. eexists. split; [done|]. cbn in *. split_and!; try done.
  by rewrite Hd3, Hd2.
Qed.

Lemma persist_unfold fuel template fs inodes first last :
  persist fuel template fs inodes first last =
    (paths ← GetPaths fuel inodes ∅;
     if bool_decide (paths = ∅) then mret ENOENT
     else
       t ← get_st;
       r ← at_disk (AddSegment template (im_proxy (t_index t)) fs first last);
       match r with
       | None => crash_with UndefinedBehaviour
       | Some seg =>
           seg ← add_loop (touched_paths paths (sort_by_path paths inodes)) (sort_by_path paths inodes) seg;
           commit_and_index seg
       end).
Proof. done. Qed.

(** The working directory and the tarball of a range of xids. *)
Definition tarball_of (p : CloudProxy) (first last : Z) : bytes :=
  local_dir p ++ lit "/tb_" ++ fmt_ld first ++ lit "-" ++ fmt_ld last ++ lit ".tgz".

Lemma AddSegment_ok template p first last (t : TierState S) p0 :
  let wd := working_dir template first last in
  (length wd < 128)%nat → shell_stages p0 wd p (tarball_of p first last) →
  ∃ t', at_disk (AddSegment template p 0 first last) t =
      Ok (Some (set_xids first last (new_Segment wd (tarball_of p first last) 0)), t')
    ∧ same_store t t'.
Proof.
  intros wd Hl Hsh. unfold at_disk, AddSegment.
  rewrite MakeWorkingDir_ok by (done || intros d; apply (ss_mkdir _ _ _ _ Hsh)). fold wd.
  destruct wd as [|b wd'] eqn:Hwd.
  { exfalso. apply (f_equal length) in Hwd. unfold wd, working_dir in Hwd.
    rewrite !length_app in Hwd. cbn in Hwd. lia. }
  eexists. split; [done|]. apply same_store_disk.
Qed.

(** A batch with a file in it: every inode of the batch has a path or is deleted, and can
    be copied; [i] is a regular file with contents [c], and no other inode of the batch
    has its path [p]. *)
Record batch (t : TierState S) (fuel : nat) (template : bytes) (first last : Z) (inodes : list Z)
    (path : Z → option bytes) (i : Z) (p c : bytes) : Prop := {
  b_walks j : j ∈ inodes → walks (fm_kv (t_snap t)) fuel j (path j);
  b_copy j : j ∈ inodes → 0 ≤ j < 9223372036854775808 ∧ copyable (fm_kv (t_live t)) j;
  b_in : i ∈ inodes;
  b_path : path i = Some p;
  b_alone j : j ∈ inodes → j ≠ i → default [] (path j) ≠ p;
  b_file : ∃ m, stored (fm_kv (t_live t)) i m
     ∧ S_ISREG (ModeFromMeta (meta_type m) (meta_protection m)) = true
     ∧ contents (loaded i m) (fm_kv (t_live t)) = c;
  b_dir : (length (working_dir template first last) < 128)%nat;
  b_index : index_path (t_index t) ≠ staged p (working_dir template first last);
  b_shell : shell_stages p (working_dir template first last) (im_proxy (t_index t))
              (tarball_of (im_proxy (t_index t)) first last);
}.

(** What is found in the touched paths of the sorted batch. *)
Lemma batch_paths t fuel template first last inodes path i p c paths j :
  batch t fuel template first last inodes path i p c →
  (∀ j, paths !! j = if decide (j ∈ inodes) then path j ∪ (∅ : gmap Z bytes) !! j else (∅ : gmap Z bytes) !! j) →
  let l := sort_by_path paths inodes in
  j ∈ l → (j ≠ i → touched_paths paths l !! j ≠ Some p) ∧ (j = i → touched_paths paths l !! j = Some p).
Proof.
  intros B Hp l Hj. assert (j ∈ inodes) as Hin by (unfold l in Hj; by rewrite sort_by_path_perm in Hj).
  specialize (Hp j). rewrite decide_True, lookup_empty in Hp by done.
  assert (paths !! j = path j) as Hpj by (rewrite Hp; by destruct (path j)). clear Hp. rename Hpj into Hp.
  pose proof (b_alone _ _ _ _ _ _ _ _ _ _ B j Hin) as Hal. pose proof (b_path _ _ _ _ _ _ _ _ _ _ B) as Hb.
  split.
  - intros Hne E. specialize (Hal Hne). destruct (touched_lookup paths l j Hj) as [E'|E']; rewrite E' in E.
    + rewrite Hp in E. by rewrite E in Hal.
    + unfold path_of in E. rewrite Hp in E. congruence.
  - intros ->. destruct (touched_lookup paths l i Hj) as [->| ->]; [by rewrite Hp|].
    unfold path_of. by rewrite Hp, Hb.
Qed.

Lemma persist_ok (t : TierState S) fuel template first last inodes path i p c :
  batch t fuel template first last inodes path i p c →
  ∃ t' seg, persist fuel template 0 inodes first last t = Ok (0, t')
    ∧ t_live t' = t_live t ∧ t_snap t' = t_snap t ∧ t_index t' = Update (t_index t) seg
    ∧ seg_first_xid seg = first ∧ seg_last_xid seg = last ∧ sm_sorted (inode_paths seg)
    ∧ sm_find i (inode_paths seg) = Some p
    ∧ t_disk t' !! staged p (working_dir template first last) = Some c.
Proof.
  intros B. rewrite persist_unfold.
  destruct (GetPaths_walks t fuel path inodes ∅ (b_walks _ _ _ _ _ _ _ _ _ _ B)) as (paths & E & Hp).
  pose proof (λ j, batch_paths _ _ _ _ _ _ _ _ _ _ paths j B Hp) as Ht. mrun. rewrite E.
  rewrite bool_decide_eq_false_2; cycle 1.
  { intros ->. specialize (Hp i). rewrite decide_True in Hp by apply B.
    rewrite (b_path _ _ _ _ _ _ _ _ _ _ B) in Hp. done. }
  destruct (AddSegment_ok template (im_proxy (t_index t)) first last t p (b_dir _ _ _ _ _ _ _ _ _ _ B)
              (b_shell _ _ _ _ _ _ _ _ _ _ B)) as (t1 & -> & L1 & N1 & X1).
  destruct (b_file _ _ _ _ _ _ _ _ _ _ B) as (m & Hm & Hreg & Hc).
  set (l := sort_by_path paths inodes) in *.
  destruct (add_loop_ok i p _ _ _ (b_shell _ _ _ _ _ _ _ _ _ _ B) c m (touched_paths paths l) l
    (set_xids first last (new_Segment (working_dir template first last) (tarball_of (im_proxy (t_index t)) first last) 0)) t1)
    as (seg & t2 & -> & (L2 & N2 & X2) & (G1 & G2 & _ & G4 & G5) & Hso & Hcopy); rewrite ?L1; try done.
  { constructor. }
  { intros j Hj. assert (j ∈ inodes) as Hin by (unfold l in Hj; by rewrite sort_by_path_perm in Hj).
    destruct (b_copy _ _ _ _ _ _ _ _ _ _ B j Hin). split_and!; try done; try lia. by apply Ht. }
  { intros Hj. by apply Ht. }
  destruct Hcopy as [Hfind Hdisk].
  { left. unfold l. rewrite sort_by_path_perm. apply B. }
  destruct (commit_and_index_ok p (working_dir template first last) (tarball_of (im_proxy (t_index t)) first last) seg t2)
    as (t3 & -> & L3 & N3 & X3 & D3); rewrite ?X2, ?X1; try done; [apply B|apply B|].
  exists t3, (set_committed seg). rewrite L3, L2, L1, N3, N2, N1, X3, X2, X1, D3. done.
Qed.

(** Persisting the batch, then opening the file. *)
Lemma persist_then_open (t : TierState S) fuel template first last inodes path i p c :
  batch t fuel template first last inodes path i p c →
  ∃ t', persist fuel template 0 inodes first last t = Ok (0, t')
    ∧ t_live t' = t_live t ∧ t_snap t' = t_snap t
    ∧ ∀ x, last ≤ x → ∃ tf d', agent_Open template (t_index t') i x (t_disk t') = (Some tf, d')
                                ∧ tiered_contents tf i c.
Proof.
  intros B. destruct (persist_ok t fuel template first last inodes path i p c B)
    as (t' & seg & E & L & N & X & F1 & F2 & Hso & Hfind & Hd).
  exists t'. do 3 (split; [done|]). intros x Hx. rewrite X.
  destruct (b_copy _ _ _ _ _ _ _ _ _ _ B i) as [Hi _]; [apply B|].
  pose proof (b_shell _ _ _ _ _ _ _ _ _ _ B) as Hsh.
  apply (tiered_copy_opens template (t_index t) seg i p x c (t_disk t')); rewrite ?F1, ?F2; try done.
  - apply B.
  - split_and!; intros d; [apply (ss_mkdir _ _ _ _ Hsh)|apply (ss_mkdir _ _ _ _ Hsh)|apply (ss_sync _ _ _ _ Hsh)].
Qed.

End Persisting.

(** ** Properties *)


(** ** Witness: a file of three bytes in the root, and a deleted one *)

#[local] Instance demo_persist_fs : FsEnv := demo_env (demo_tier []).
#[local] Existing Instance demo_tier_env.

Definition demo_named : LogFSMetaData :=
  set_path 1 (strncpy (meta_name (new_meta 0 4)) (lit "a") (NAME_MAX - 1))
    (set_type LOGFS_IFREG (set_size 3 (init_fields 0 5 0 0 (new_meta 0 4)))).
Definition demo_tiering : TierState MemStore :=
  mkT (mkFSM (demo_small (encode_meta demo_named)) 0 None 6)
      (mkFSM (demo_small (encode_meta demo_named)) 0 None 1) demo_index ∅.

Lemma demo_named_stored : stored (demo_small (encode_meta demo_named)) 5 demo_named.
Proof. by split. Qed.

(** The paths of the batch: inode 9 is not stored. *)
Definition demo_path (i : Z) : option bytes := if i =? 5 then Some (lit "a") else None.

Lemma demo_batch : batch demo_tiering 4 (lit "./seg_") 1 2 [5; 9] demo_path 5 (lit "a") (lit "abc").
Proof.
  assert (kv_get (demo_small (encode_meta demo_named)) (inode_key 9) = None) as H9 by done.
  split; try done.
  - intros j Hj. set_unfold in Hj. destruct Hj as [->|[->|[]]]; cbn.
    + exists [lit "a"]. split_and!; [|done|cbn; lia].
      apply (chain_up _ 5 demo_named []); [done|apply demo_named_stored|constructor].
    + exists 0%nat. split; [by constructor|lia].
  - intros j Hj. set_unfold in Hj. destruct Hj as [->|[->|[]]]; (split; [lia|]).
    + eapply copy_file; [apply demo_named_stored|done| |done]. by apply demo_small_inv.
    + by apply copy_missing.
  - left.
  - intros j Hj Hne. set_unfold in Hj. destruct Hj as [->|[->|[]]]; done.
  - exists demo_named. split_and!; [apply demo_named_stored|done|done].
  - vm_compute. lia.
Qed.

