(* ===== verification/Agents.v ===== *)
(** * Agent threads and the web controller (src/tiering: the agents, web_controller and
    restful_web_server)

    An agent is a thread that wakes up once a second, does its work if a flag asks for
    it, clears the flag, and ends when another flag asks it to stop.  Other threads set
    the flags at any time: the thread is a program counter, and a schedule is a list of
    actions, one atomic access to the shared flags at a time.  The web controller turns
    HTTP requests into these flags.  Mongoose is third-party code: what is sent to it is
    recorded. *)

From Stdlib Require Import ZArith Lia Strings.String.
From stdpp Require Import base list.
From S2P Require Import Prelude Status MetaData ChangeLog.

(** ** Agents *)

(** Where the thread is in [RunInternal]: in the sleep, before the test of the request
    flag, before the work, before the flag is cleared, before the test of the stop flag,
    or returned. *)
Inductive pc := P_sleep | P_check | P_work | P_clear | P_test | P_done.

#[export] Instance pc_eq_dec : EqDecision pc.
Proof. solve_decision. Defined.

(** The members of an agent that its threads share ([run_thread] is null before
    [Start] and after [Join]). *)
Record Agent := MkAgent {
  run_thread : option pc;
  stop_requested : bool;
  work_requested : bool;
}.

Definition new_Agent : Agent := MkAgent None false false.
Definition set_thread (t : option pc) (a : Agent) : Agent :=
  MkAgent t (stop_requested a) (work_requested a).

(** [Start]. *)
Definition Start (a : Agent) : Z * Agent :=
  match run_thread a with
  | Some _ => (EINVAL, a)
  | None => (0, MkAgent (Some P_sleep) false (work_requested a))
  end.

Definition RequestStop (a : Agent) : Agent := MkAgent (run_thread a) true (work_requested a).
(** [RequestSnapshot] and [RequestEviction]. *)
Definition RequestWork (a : Agent) : Agent := MkAgent (run_thread a) (stop_requested a) true.

(** [Join]: [None] while the thread has not returned (the caller blocks). *)
Definition Join (a : Agent) : option (res Agent) :=
  match run_thread a with
  | None => Some (Crash AssertFailed)
  | Some P_done => Some (Ok (set_thread None a))
  | Some _ => None
  end.

(** [AddFsId] of the tiering-out agent: its list of file systems, which nothing reads. *)
Definition AddFsId (fs_id : Z) (fs_ids : list Z) : list Z := fs_ids ++ [fs_id].

Section RunInternal.
Context {St : Type} (work : M St unit).

(** One step of the thread in [RunInternal] of the tiering-out and the eviction agent;
    the work runs as one step. *)
Definition thread_step (a : Agent) (s : St) : res (Agent * St) :=
  match run_thread a with
  | None | Some P_done => Ok (a, s)
  | Some P_sleep => Ok (set_thread (Some P_check) a, s)
  | Some P_check =>
      Ok (set_thread (Some (if work_requested a then P_work else P_test)) a, s)
  | Some P_work =>
      match work s with
      | Ok (_, s') => Ok (set_thread (Some P_clear) a, s')
      | Crash c => Crash c
      end
  | Some P_clear => Ok (MkAgent (Some P_test) (stop_requested a) false, s)
  | Some P_test => Ok (set_thread (Some (if stop_requested a then P_done else P_sleep)) a, s)
  end.

(** What can happen next: a step of the thread, or another thread sets a flag. *)
Inductive action := A_thread | A_request | A_stop.

Definition act (x : action) (a : Agent) (s : St) : res (Agent * St) :=
  match x with
  | A_thread => thread_step a s
  | A_request => Ok (RequestWork a, s)
  | A_stop => Ok (RequestStop a, s)
  end.

Fixpoint run_schedule (xs : list action) (a : Agent) (s : St) : res (Agent * St) :=
  match xs with
  | [] => Ok (a, s)
  | x :: xs =>
      match act x a s with
      | Ok (a', s') => run_schedule xs a' s'
      | Crash c => Crash c
      end
  end.

End RunInternal.

(** The thread of the tiering-in agent only sleeps: its [RunInternal] has no work. *)
Definition in_thread_step (a : Agent) : Agent :=
  match run_thread a with
  | Some P_sleep => set_thread (Some P_test) a
  | Some P_test => set_thread (Some (if stop_requested a then P_done else P_sleep)) a
  | _ => a
  end.

(** The eviction agent and the tiering-in agent repeat the code of the tiering-out agent, the
    first with its own request flag and its own work. *)
Definition evict_Start (a : Agent) : Z * Agent := Start a.
Definition evict_RequestStop (a : Agent) : Agent := RequestStop a.
Definition evict_Join (a : Agent) : option (res Agent) := Join a.
Definition evict_step {St} (ProcessEvictions : M St unit) (a : Agent) (s : St) : res (Agent * St) :=
  thread_step ProcessEvictions a s.
Definition in_Start (a : Agent) : Z * Agent := Start a.
Definition in_RequestStop (a : Agent) : Agent := RequestStop a.
Definition in_Join (a : Agent) : option (res Agent) := Join a.

(** [TieringOutAgent::Wait]: [xid_at n] is the tiered-out xid at the n-th look at it;
    the fuel is the number of seconds in [millis], and one. *)
Fixpoint wait_loop (fuel : nat) (xid_at : nat → Z) (n : nat) (flushed_to_xid millis : Z) : Z :=
  match fuel with
  | O => xid_at (S n)
  | S fuel =>
      if xid_at n <? flushed_to_xid
      then if millis <=? 0 then xid_at (S n)
           else wait_loop fuel xid_at (S n) flushed_to_xid (millis - 1000)
      else xid_at (S n)
  end.
Definition Wait (xid_at : nat → Z) (flushed_to_xid millis : Z) : Z :=
  wait_loop (S (Z.to_nat ((millis + 999) / 1000))) xid_at 0 flushed_to_xid millis.

(** ** The web controller *)

(** The agents the controller controls. *)
Record Agents := MkAgents { out_agent : Agent; evict_agent : Agent }.

(** [SetXidsInResult]. *)
Definition SetXidsInResult (l : FsChangeLog) : bytes :=
  lit " tiered_out_xid=" ++ fmt_ld (tiered_out_xid l)
    ++ lit " log_last_xid=" ++ fmt_ld (get_last_xid l)
    ++ lit " log_next_xid=" ++ fmt_ld (next_xid l)
    ++ lit " eviction_next_xid=" ++ fmt_ld (eviction_next_xid l).

(** [HandleWebEvent], with the change log, and what [dump] and [dbstats] of the store
    print ([None] when there is no store). *)
Definition HandleWebEvent (l : FsChangeLog) (dump dbstats : option bytes) (event_string : bytes)
    (g : Agents) : bytes * Agents :=
  let result := lit "event_string=" ++ event_string in
  if decide (event_string = lit "/STOP") then
    (result ++ lit "Stop requested", MkAgents (RequestStop (out_agent g)) (evict_agent g))
  else if decide (event_string = lit "/SNAP") then
    (result ++ SetXidsInResult l, MkAgents (RequestWork (out_agent g)) (evict_agent g))
  else if decide (event_string = lit "/STAT") then (result ++ SetXidsInResult l, g)
  else if decide (event_string = lit "/EVICT") then
    (result ++ SetXidsInResult l, MkAgents (out_agent g) (RequestWork (evict_agent g)))
  else if decide (event_string = lit "/DUMP") then (result ++ default [] dump, g)
  else if decide (event_string = lit "/DBSTATS") then (result ++ default [] dbstats, g)
  else (result ++ lit "Unknown command: '" ++ event_string ++ lit "'", g).

(** [Handler], the static member that the server calls: the argument is the controller. *)
Definition Handler (l : FsChangeLog) (dump dbstats : option bytes) (event_string : bytes) (g : Agents)
    : bytes * Agents := HandleWebEvent l dump dbstats event_string g.

(** The members of RESTfulWebServer; its thread runs [RunLoop]: before the test of the
    stop flag, in the poll, or returned. *)
Inductive web_pc := W_test | W_poll | W_done.
Record RESTfulWebServer := MkServer {
  http_port : bytes;
  handler_set : bool;
  initialized : bool;
  web_stop : bool;
  polling_thread : option web_pc;
}.

Definition new_RESTfulWebServer (port : bytes) : RESTfulWebServer :=
  MkServer port false false false None.
Definition set_handler (w : RESTfulWebServer) : RESTfulWebServer :=
  MkServer (http_port w) true (initialized w) (web_stop w) (polling_thread w).
(** [Init]: [bound] says whether mg_bind succeeded. *)
Definition web_Init (bound : bool) (w : RESTfulWebServer) : bool * RESTfulWebServer :=
  (bound, MkServer (http_port w) (handler_set w) (initialized w || bound) (web_stop w)
            (polling_thread w)).
Definition StartPollingThread (w : RESTfulWebServer) : Z * RESTfulWebServer :=
  match polling_thread w with
  | Some _ => (EINVAL, w)
  | None => (0, MkServer (http_port w) (handler_set w) (initialized w) false (Some W_test))
  end.
Definition web_RequestStop (w : RESTfulWebServer) : RESTfulWebServer :=
  MkServer (http_port w) (handler_set w) (initialized w) true (polling_thread w).

(** [RESTfulWebServer::Join]: [None] blocks.  A std::thread that is gone stays in the
    unique_ptr, so the model keeps it. *)
Definition server_Join (w : RESTfulWebServer) : option (res unit) :=
  match polling_thread w with
  | None => Some (Crash AssertFailed)
  | Some W_done => Some (Ok tt)
  | Some _ => None
  end.

(** What the handler sends through mongoose. *)
Inductive sent := SentRaw (b : bytes) | SentChunk (b : bytes).

Definition CRLF : bytes := [Byte.x0d; Byte.x0a].
Definition QUOTE : bytes := [Byte.x22].

(** [StaticHandleEvent] of an HTTP request: [%s] stops at a NUL. *)
Definition StaticHandleEvent (w : RESTfulWebServer) (l : FsChangeLog) (dump dbstats : option bytes)
    (uri : bytes) (g : Agents) : res (list sent * Agents) :=
  if handler_set w then
    if Z.of_nat (length uri) <? 10000 then
      let '(result_string, g') := Handler l dump dbstats uri g in
      Ok ([SentRaw (lit "HTTP/1.1 200 OK" ++ CRLF ++ lit "Transfer-Encoding: chunked" ++ CRLF ++ CRLF);
           SentChunk (lit "{ " ++ QUOTE ++ lit "Result" ++ QUOTE ++ lit ": " ++ QUOTE
                        ++ cstr result_string ++ QUOTE ++ lit " }" ++ [Byte.x0a]);
           SentChunk []], g')
    else Crash AssertFailed
  else Crash FatalLog.

(** One step of [RunLoop]; [uris] are the requests the poll delivers. *)
Fixpoint handle_all (w : RESTfulWebServer) (l : FsChangeLog) (dump dbstats : option bytes)
    (uris : list bytes) (g : Agents) : res (list sent * Agents) :=
  match uris with
  | [] => Ok ([], g)
  | u :: uris =>
      match StaticHandleEvent w l dump dbstats u g with
      | Crash c => Crash c
      | Ok (x, g1) =>
          match handle_all w l dump dbstats uris g1 with
          | Crash c => Crash c
          | Ok (y, g2) => Ok (x ++ y, g2)
          end
      end
  end.

Definition set_polling (t : option web_pc) (w : RESTfulWebServer) : RESTfulWebServer :=
  MkServer (http_port w) (handler_set w) (initialized w) (web_stop w) t.
Definition web_step (l : FsChangeLog) (dump dbstats : option bytes) (uris : list bytes)
    (w : RESTfulWebServer) (g : Agents) : res (list sent * RESTfulWebServer * Agents) :=
  match polling_thread w with
  | Some W_test => Ok ([], set_polling (Some (if web_stop w then W_done else W_poll)) w, g)
  | Some W_poll =>
      match handle_all w l dump dbstats uris g with
      | Ok (x, g') => Ok (x, set_polling (Some W_test) w, g')
      | Crash c => Crash c
      end
  | _ => Ok ([], w, g)
  end.

(** WebController: the server (null before [Start]) and the port. *)
Record WebController := MkController { web_server : option RESTfulWebServer; tcp_port : Z }.

Definition new_WebController (port : Z) : WebController := MkController None port.

(** [WebController::Start]: whether the port could be bound is not looked at. *)
Definition web_Start (bound : bool) (c : WebController) : Z * WebController :=
  let w := set_handler (new_RESTfulWebServer (fmt_ld (tcp_port c))) in
  let '(_, w) := web_Init bound w in
  let '(_, w) := StartPollingThread w in
  (0, MkController (Some w) (tcp_port c)).

Definition controller_RequestStop (c : WebController) : Z * WebController :=
  match web_server c with
  | None => (EINVAL, c)
  | Some w => (0, MkController (Some (web_RequestStop w)) (tcp_port c))
  end.

(** [WebController::Join]. *)
Definition web_Join (c : WebController) : option (res unit) :=
  match web_server c with
  | None => Some (Crash AssertFailed)
  | Some w => server_Join w
  end.
