(* ===== verification/Config.v ===== *)
(** * Configuration (src/Config.h, src/Config.cc, src/config/)

    [Config] reads a JSON file through the json-c library, which is third-party code: its
    calls are the class [JsonC], on a type of objects.  The conversions of numbers with a
    unit and of names of enumerations, and their printing by the test program, are
    modelled here, with the accessors; [ConfigManager] reads the protobuf text file of
    the mount. *)

From Stdlib Require Import ZArith Lia Strings.String.
From stdpp Require Import base list gmap.
From S2P Require Import Prelude Status MetaData ChangeLog.

(** ** Tables *)

(** The unit tables, without their terminators. *)
Definition unit_table := list (bytes * Z).

Definition times : unit_table :=
  [(lit "S", 1); (lit "s", 1); (lit "M", 60); (lit "m", 60); (lit "H", 60 * 60);
   (lit "h", 60 * 60); (lit "D", 24 * 60 * 60); (lit "d", 24 * 60 * 60)].

Definition sizes : unit_table :=
  [(lit "B", 1); (lit "b", 1); (lit "KB", 1024); (lit "kb", 1024); (lit "MB", 1024 * 1024);
   (lit "mb", 1024 * 1024); (lit "GB", 1024 * 1024 * 1024); (lit "gb", 1024 * 1024 * 1024);
   (lit "TB", 1024 * 1024 * 1024 * 1024); (lit "tb", 1024 * 1024 * 1024 * 1024);
   (lit "XB", 1024 * 1024 * 1024 * 1024 * 1024); (lit "xb", 1024 * 1024 * 1024 * 1024 * 1024)].

(** The tables of names. *)
Definition xlate_table := list (bytes * Z).
Definition e_kvs : xlate_table := [(lit "LevelDB", 1); (lit "RoxDB", 2); (lit "RAMcloud", 3)].
Definition e_persist : xlate_table := [(lit "on-write", 1); (lit "on-close", 2); (lit "lazy", 3)].
Definition e_crypt : xlate_table := [(lit "AES-128", 1)].
Definition e_comp : xlate_table := [(lit "ZIP", 1)].
Definition e_protocol : xlate_table := [(lit "S3", 1)].

(** ** strtoll *)

Fixpoint skip_space (l : bytes) : bytes :=
  match l with
  | b :: l' => if is_space b then skip_space l' else l
  | [] => []
  end.

(** [strtoll(s, &suffix, 10)]: the value, clamped to 64 bits, and the rest; without
    digits the rest is the whole string. *)
Definition LLONG_MAX : Z := 9223372036854775807.
Definition strtoll (s : bytes) : Z * bytes :=
  let t := skip_space s in
  let '(neg, t) :=
    match t with
    | b :: t' => if b2z b =? 45 then (true, t') else if b2z b =? 43 then (false, t') else (false, t)
    | [] => (false, t)
    end in
  let ds := take_digits t in
  match ds with
  | [] => (0, s)
  | _ =>
      let v := if neg : bool then - dec_val ds else dec_val ds in
      (Z.max (- LLONG_MAX - 1) (Z.min LLONG_MAX v), drop (length ds) t)
  end.

(** ** json-c *)

Inductive json_type :=
  | json_type_null | json_type_boolean | json_type_double | json_type_int | json_type_object
  | json_type_array | json_type_string.

#[export] Instance json_type_eq_dec : EqDecision json_type.
Proof. solve_decision. Defined.

Class JsonC (J : Type) := {
  json_tokener_parse : bytes → option J;
  json_object_object_get : J → bytes → option J;
  json_object_get_type : J → json_type;
  json_object_get_string : J → bytes;
  json_object_get_int : J → Z;
}.

(** json-c documents that [json_object_get_int] returns an int32_t, the nearest one for
    a number that does not fit. *)
Class JsonCLaws (J : Type) `{JsonC J} : Prop := {
  json_int_range j : -2147483648 ≤ json_object_get_int j ≤ 2147483647;
}.

(** The time functions of the C library: [strptime] with the format of the file, [mktime]
    with the global [timezone], and the daylight-saving flag. *)
Class TimeLib := {
  tm : Type;
  strptime : bytes → option tm;
  mktime : tm → Z;
  timezone : Z;
  tm_isdst : tm → Z;
}.

Section Config.
Context {J : Type} `{JsonC J}.

(** The root object: null when the file could not be read or parsed. *)
Definition Config := option J.

(** [json_object_object_get_ex]; nothing is found in a null object. *)
Definition get_ex (obj : option J) (name : bytes) : option J :=
  o ← obj; json_object_object_get o name.

(** [loadFile]: [file] is what [open], [fstat] and [read] give; the length is an int,
    and malloc of a negative one fails. *)
Definition loadFile (file : option bytes) : Config :=
  match file with
  | None => None
  | Some b =>
      let file_len := i32 (Z.of_nat (length b)) in
      if file_len <? 0 then None else json_tokener_parse (take (Z.to_nat file_len) b)
  end.

(** The constructors.  In the first, CBFS_CFG_DIR + '/' adds 47 to a pointer to a string
    of nine characters. *)
Definition new_Config (read_file : bytes → option bytes) (file : bytes) : res Config :=
  Crash UndefinedBehaviour.
Definition new_Config_in (read_file : bytes → option bytes) (file directory : bytes) : res Config :=
  Ok (loadFile (read_file (directory ++ lit "/" ++ file))).

Definition getString (obj : option J) (name : bytes) : bytes :=
  match get_ex obj name with
  | Some found =>
      if decide (json_object_get_type found = json_type_string)
      then cstr (json_object_get_string found) else []
  | None => []
  end.

(** The unit whose suffix starts with the first character of [suffix]. *)
Fixpoint find_unit (suffix : bytes) (units : unit_table) : option Z :=
  match units with
  | [] => None
  | (u, m) :: units =>
      match suffix, u with
      | c :: _, c' :: _ => if decide (c = c') then Some m else find_unit suffix units
      | _, _ => find_unit suffix units
      end
  end.

(** [getNumber]; [units] is empty for a null table.  The product is signed. *)
Definition getNumber (obj : option J) (name : bytes) (units : unit_table) : res Z :=
  match get_ex obj name with
  | None => Ok 0
  | Some found =>
      if decide (json_object_get_type found = json_type_int) then Ok (json_object_get_int found)
      else if decide (json_object_get_type found = json_type_string) then
        let '(val, suffix) := strtoll (cstr (json_object_get_string found)) in
        match find_unit suffix units with
        | None => Ok val
        | Some m => if (- LLONG_MAX - 1 <=? val * m) && (val * m <=? LLONG_MAX)
                    then Ok (val * m) else Crash UndefinedBehaviour
        end
      else Ok 0
  end.

Fixpoint find_code (s : bytes) (x : xlate_table) : option Z :=
  match x with
  | [] => None
  | (n, c) :: x => if decide (s = n) then Some c else find_code s x
  end.

Definition getEnum (obj : option J) (name : bytes) (xtable : xlate_table) : Z :=
  match get_ex obj name with
  | None => 0
  | Some found =>
      if decide (json_object_get_type found = json_type_string)
      then default 0 (find_code (cstr (json_object_get_string found)) xtable) else 0
  end.

(** ** The accessors *)

Definition fsName (root : Config) : bytes := getString root (lit "name").
Definition fsUUID (root : Config) : bytes := getString root (lit "uuid").
Definition fsPrimary (root : Config) : bytes :=
  match get_ex root (lit "primary") with
  | None => []
  | Some primary => getString (Some primary) (lit "host")
  end.
Definition fsEpoch (root : Config) : res Z :=
  match get_ex root (lit "primary") with
  | None => Ok 0
  | Some primary => getNumber (Some primary) (lit "epoch") []
  end.
Definition fsEpochStart `{TimeLib} (root : Config) : Z :=
  match get_ex root (lit "primary") with
  | None => 0
  | Some primary =>
      match strptime (getString (Some primary) (lit "starting")) with
      | None => 0
      | Some t =>
          let time := mktime t - timezone in
          if tm_isdst t =? 1 then time + 3600 else time
      end
  end.

(** The accessors of a section: the default without the section. *)
Definition in_section {A} (root : Config) (section : string) (dflt : A) (f : option J → A) : A :=
  match get_ex root (lit section) with
  | None => dflt
  | Some s => f (Some s)
  end.

Definition kvsLoc (root : Config) : bytes :=
  in_section root "kvs" [] (λ kvs, getString kvs (lit "file")).
Definition kvsType (root : Config) : Z :=
  in_section root "kvs" 0 (λ kvs, getEnum kvs (lit "type") e_kvs).
Definition kvsMaxBytes (root : Config) : res Z :=
  in_section root "kvs" (Ok 0) (λ kvs, getNumber kvs (lit "max_size") sizes).
Definition persistence (root : Config) : Z :=
  in_section root "kvs" 0 (λ kvs, getEnum kvs (lit "persistence") e_persist).
Definition encryption (root : Config) : Z :=
  in_section root "tiering" 0 (λ tier, getEnum tier (lit "encryption") e_crypt).
Definition keyFile (root : Config) : bytes :=
  in_section root "tiering" [] (λ tier, getString tier (lit "encryption_key")).
Definition compression (root : Config) : Z :=
  in_section root "tiering" 0 (λ tier, getEnum tier (lit "compression") e_comp).
Definition cacheDir (root : Config) : bytes :=
  in_section root "tiering" [] (λ tier, getString tier (lit "cache_dir")).

(** A long long returned as an int. *)
Definition as_int (r : res Z) : res Z :=
  match r with Ok v => Ok (i32 v) | Crash c => Crash c end.

Definition mirrorLag (root : Config) : res Z :=
  in_section root "tiering" (Ok 0) (λ tier, as_int (getNumber tier (lit "mirror_lag") times)).
Definition freePercent (root : Config) : res Z :=
  in_section root "tiering" (Ok 0) (λ tier, as_int (getNumber tier (lit "free_pct") [])).
Definition cacheMaxBytes (root : Config) : res Z :=
  in_section root "tiering" (Ok 0) (λ tier, getNumber tier (lit "cache_size") sizes).
Definition objectMaxBytes (root : Config) : res Z :=
  in_section root "tiering" (Ok 0) (λ tier, getNumber tier (lit "max_object") sizes).
Definition cloudProtocol (root : Config) : Z :=
  in_section root "cloud" 0 (λ cloud, getEnum cloud (lit "protocol") e_protocol).
Definition cloudEndpoint (root : Config) : bytes :=
  in_section root "cloud" [] (λ cloud, getString cloud (lit "endpoint")).

End Config.

Arguments Config J : clear implicits.

(** ** Printing *)

(** The unit [showNumber] stops at: the next one is not smaller than [value]. *)
Fixpoint pick_unit (value : Z) (u : bytes * Z) (rest : unit_table) : bytes * Z :=
  match rest with
  | [] => u
  | v :: rest => if snd v <? value then pick_unit value v rest else u
  end.

Definition showNumber (value : Z) (table : unit_table) : bytes :=
  match table with
  | [] => fmt_ld value
  | u :: rest =>
      let x := pick_unit value u rest in
      fmt_ld (Z.quot value (snd x)) ++ fst x
  end.

Definition showEnum (code : Z) (table : xlate_table) : bytes :=
  match find (λ x, snd x =? code) table with
  | Some x => fst x
  | None => lit "none"
  end.

(** A computation that may crash, with the next one. *)
Definition res_bind {A B} (r : res A) (k : A → res B) : res B :=
  match r with Ok a => k a | Crash c => Crash c end.
#[local] Notation "x ⇐ r ; k" := (res_bind r (λ x, k)) (at level 100, r at level 99, k at level 200, right associativity).

(** A line of the test program: an indented, quoted name and value. *)
Definition Q : bytes := [Byte.x22].
Definition show_line (indent name : string) (value : bytes) (comma : bool) : bytes :=
  [Byte.x09] ++ lit indent ++ Q ++ lit name ++ Q ++ lit ": " ++ Q ++ value ++ Q
    ++ (if comma then lit "," else []) ++ [Byte.x0a].
Definition show_open (name : string) : bytes :=
  [Byte.x0a; Byte.x09] ++ Q ++ lit name ++ Q ++ lit ": {" ++ [Byte.x0a].
Definition show_close (comma : bool) : bytes :=
  [Byte.x09] ++ lit "}" ++ (if comma then lit "," else []) ++ [Byte.x0a].

(** The test program: what it prints for a configuration; [showDate] renders a time. *)
Definition config_report {J} `{JsonC J} `{TimeLib} (showDate : Z → bytes) (cfg : Config J) : res bytes :=
  fs_epoch ⇐ fsEpoch cfg;
  free ⇐ freePercent cfg;
  kvs_size ⇐ kvsMaxBytes cfg;
  mirror ⇐ mirrorLag cfg;
  cache_size ⇐ cacheMaxBytes cfg;
  obj_size ⇐ objectMaxBytes cfg;
  Ok (lit "{" ++ [Byte.x0a]
    ++ show_line "" "name" (fsName cfg) true
    ++ show_line "" "uuid" (fsUUID cfg) true
    ++ show_open "primary"
    ++ show_line "    " "host" (fsPrimary cfg) true
    ++ show_line "    " "epoch" (showNumber fs_epoch []) true
    ++ show_line "    " "starting" (showDate (fsEpochStart cfg)) false
    ++ show_close true
    ++ show_open "kvs"
    ++ show_line "    " "type" (showEnum (kvsType cfg) e_kvs) true
    ++ show_line "    " "file" (kvsLoc cfg) true
    ++ show_line "    " "persistence" (showEnum (persistence cfg) e_persist) true
    ++ show_line "    " "max_size" (showNumber kvs_size sizes) false
    ++ show_close true
    ++ show_open "tiering"
    ++ show_line "    " "cache_dir" (cacheDir cfg) true
    ++ show_line "    " "encryption" (showEnum (encryption cfg) e_crypt) true
    ++ show_line "    " "encryption_key" (keyFile cfg) true
    ++ show_line "    " "compression" (showEnum (compression cfg) e_comp) true
    ++ show_line "    " "mirror_lag" (showNumber mirror times) true
    ++ show_line "    " "cache_size" (showNumber cache_size sizes) true
    ++ show_line "    " "free_pct" (showNumber free []) true
    ++ show_line "    " "max_object" (showNumber obj_size sizes) false
    ++ show_close true
    ++ show_open "cloud"
    ++ show_line "    " "protocol" (showEnum (cloudProtocol cfg) e_protocol) true
    ++ show_line "    " "endpoint" (cloudEndpoint cfg) true
    ++ show_close false
    ++ lit "}" ++ [Byte.x0a]).

(** ** The protobuf configuration of the mount *)

(** The messages of config.proto that main reads, with the defaults of unset fields. *)
Record ProtoPrimary := MkPrimary { pp_fuse_cache_enable : bool; pp_fuse_direct_io : bool }.
Record ProtoConfig := MkProtoConfig {
  pc_primary : option ProtoPrimary;
  pc_cloud : option (option bytes);
}.
Definition proto_config_empty : ProtoConfig := MkProtoConfig None None.
Definition primary (c : ProtoConfig) : ProtoPrimary := default (MkPrimary true false) (pc_primary c).
Definition has_cloud (c : ProtoConfig) : bool := bool_decide (is_Some (pc_cloud c)).
Definition cloud_endpoint (c : ProtoConfig) : option bytes := default None (pc_cloud c).

(** ConfigManager; [merge] is TextFormat::Merge, [path] names a file of [files]. *)
Record ConfigManager := MkConfigManager { config_path : bytes; config : ProtoConfig }.
Definition new_ConfigManager (path : bytes) : ConfigManager := MkConfigManager path proto_config_empty.

Definition cm_Refresh (merge : bytes → ProtoConfig → bool * ProtoConfig) (files : gmap bytes bytes)
    (m : ConfigManager) : res (Z * ConfigManager) :=
  match files !! config_path m with
  | None => Crash FatalLog
  | Some text =>
      let '(ok, c) := merge text (config m) in
      Ok (if ok : bool then 0 else EINVAL, MkConfigManager (config_path m) c)
  end.

(** ** The program that copies a configuration (src/config/test_main.cc) *)

Section Copy.
(** The message type and its empty message; TextFormat::Merge and Print: what they make of a
    text, and what they write; the paths [creat] can open, and [errno] after a failure. *)
Context {C : Type} (empty : C) (merge : bytes → C → bool * C) (print : C → bool * bytes).
Context (creatable : bytes → bool) (errno : Z).

Definition errno_or_EIO : Z := if errno =? 0 then EIO else errno.

(** [ReadConfig]: the message is cleared only when the file can be opened. *)
Definition ReadConfig (files : gmap bytes bytes) (pathname : bytes) (config : C) : Z * C :=
  match files !! pathname with
  | None => (errno_or_EIO, config)
  | Some text => let '(ok, c) := merge text empty in (if ok : bool then 0 else errno_or_EIO, c)
  end.

(** [WriteConfig]: the file is created, and what [Print] writes is in it even if it fails. *)
Definition WriteConfig (config : C) (pathname : bytes) (files : gmap bytes bytes) : Z * gmap bytes bytes :=
  if creatable pathname then
    let '(ok, text) := print config in (if ok : bool then 0 else errno_or_EIO, <[pathname := text]> files)
  else (errno_or_EIO, files).

(** [main]: neither result is looked at. *)
Definition copy_main (files : gmap bytes bytes) : gmap bytes bytes :=
  let '(_, config) := ReadConfig files (lit "sampleconfig.txt") empty in
  snd (WriteConfig config (lit "/tmp/config.txt") files).

(** The copy is read as the sample is, if what [Print] writes merges back; a sample that
    cannot be opened is copied as the empty message. *)
Lemma copy_reads_back files c0 :
  creatable (lit "/tmp/config.txt") = true →
  (∀ c, merge (snd (print c)) empty = (true, c)) →
  snd (ReadConfig (copy_main files) (lit "/tmp/config.txt") c0) = snd (ReadConfig files (lit "sampleconfig.txt") empty)
  ∧ ∀ path, path ≠ lit "/tmp/config.txt" → copy_main files !! path = files !! path.
Proof.
  intros Hc Hp. unfold copy_main, WriteConfig. destruct (ReadConfig files (lit "sampleconfig.txt") empty) as [e c].
  rewrite Hc. pose proof (Hp c) as Hm. destruct (print c) as [ok text]. cbn in Hm |- *. split.
  - unfold ReadConfig. by rewrite lookup_insert_eq, Hm.
  - intros path Hne. by rewrite lookup_insert_ne.
Qed.

End Copy.

(** ** Lemmas *)

Lemma take_digits_app ds suf :
  Forall (λ b, is_digit b = true) ds → (∀ c t, suf = c :: t → is_digit c = false) →
  take_digits (ds ++ suf) = ds.
Proof.
  induction 1 as [|b ds Hb _ IH]; intros Hs; cbn.
  - destruct suf as [|c t]; [done|]. cbn. by rewrite (Hs c t).
  - by rewrite Hb, IH.
Qed.

Lemma fmt_lu_is_digit n : Forall (λ b, is_digit b = true) (fmt_lu n).
Proof.
  apply Forall_forall. intros b Hb%fmt_lu_digits. unfold is_digit.
  apply andb_true_iff. split; apply Z.leb_le; lia.
Qed.

Lemma fmt_lu_nonempty n : fmt_lu n ≠ [].
Proof.
  unfold fmt_lu. cbn [dec_fuel]. destruct (u64 n <? 10); [done|].
  intros E%(f_equal length). rewrite length_app in E. cbn in E. lia.
Qed.

(** Reading back a number that was printed, with a suffix. *)
Lemma strtoll_printed n suf :
  0 ≤ n ≤ LLONG_MAX → (∀ c t, suf = c :: t → is_digit c = false) →
  strtoll (fmt_lu n ++ suf) = (n, suf).
Proof.
  unfold LLONG_MAX. intros Hn Hs. pose proof (fmt_lu_is_digit n) as Hd. pose proof (fmt_lu_nonempty n) as Hne.
  pose proof (take_digits_app _ _ Hd Hs) as Ht. pose proof (dec_val_lu n) as Hv.
  rewrite u64_small in Hv by lia. revert Ht Hv Hd Hne. generalize (fmt_lu n). intros [|d ds] Ht Hv Hd Hne; [done|].
  apply Forall_cons in Hd as [Hd _]. unfold is_digit in Hd. apply andb_true_iff in Hd as [D1 D2].
  apply Z.leb_le in D1, D2. cbn [app] in *.
  assert (is_space d = false) as Hsp.
  { unfold is_space. rewrite orb_false_iff, andb_false_iff, Z.eqb_neq, !Z.leb_gt. lia. }
  unfold strtoll. cbn [skip_space]. rewrite Hsp.
  rewrite (proj2 (Z.eqb_neq (b2z d) 45)), (proj2 (Z.eqb_neq (b2z d) 43)) by lia.
  rewrite Ht, Hv. unfold LLONG_MAX. f_equal; [lia|]. cbn [length drop]. by rewrite drop_app_length.
Qed.

Lemma cstr_no_nul l : Byte.x00 ∉ l → cstr l = l.
Proof.
  induction l as [|b l IH]; [done|]. intros [Hb Hl]%not_elem_of_cons. cbn.
  rewrite decide_False by done. by rewrite IH.
Qed.

Lemma pick_unit_in v u rest : pick_unit v u rest ∈ u :: rest.
Proof.
  revert u. induction rest as [|w rest IH]; intros u; cbn; [by left|].
  destruct (snd w <? v); [right; apply IH|by left].
Qed.

(** What the round trip needs of a unit table. *)
Definition good_table (t : unit_table) : Prop :=
  Forall (λ u, find_unit (fst u) t = Some (snd u) ∧ 1 ≤ snd u ∧ (Byte.x00 ∉ fst u)
               ∧ match fst u with c :: _ => is_digit c = false | [] => False end) t.

Lemma sizes_good : good_table sizes.
Proof. repeat (apply Forall_cons; split; [by (split_and!; try done; apply (bool_decide_unpack _))|]). done. Qed.
Lemma times_good : good_table times.
Proof. repeat (apply Forall_cons; split; [by (split_and!; try done; apply (bool_decide_unpack _))|]). done. Qed.

(** A unit is the smallest one or smaller than the value. *)
Lemma pick_unit_below v u rest : pick_unit v u rest = u ∨ snd (pick_unit v u rest) < v.
Proof.
  revert u. induction rest as [|w rest IH]; intros u; cbn; [by left|].
  destruct (Z.ltb_spec (snd w) v); [|by left]. right. destruct (IH w) as [->|?]; done.
Qed.

(** The value printed is the quotient by the unit, which the suffix multiplies back. *)
Lemma showNumber_parts v t :
  good_table t → t ≠ [] → 0 ≤ v ≤ LLONG_MAX →
  ∃ u, u ∈ t ∧ showNumber v t = fmt_lu (v / snd u) ++ fst u ∧ 1 ≤ snd u
       ∧ find_unit (fst u) t = Some (snd u) ∧ (Byte.x00 ∉ fst u) ∧ (head t = Some u ∨ snd u < v)
       ∧ (∀ c s, fst u = c :: s → is_digit c = false).
Proof.
  unfold LLONG_MAX. intros Hg Hne Hv. destruct t as [|u0 rest]; [done|].
  pose proof (pick_unit_in v u0 rest) as Hin. exists (pick_unit v u0 rest).
  unfold good_table in Hg. rewrite Forall_forall in Hg. destruct (Hg _ Hin) as (F & P & N & D).
  assert (0 ≤ v / (pick_unit v u0 rest).2 ≤ v) by (split; [apply Z.div_pos|apply Z.div_le_upper_bound]; nia).
  split_and!; try done.
  - unfold showNumber. rewrite Z.quot_div_nonneg by lia. unfold fmt_ld.
    destruct (Z.ltb_spec (v / (pick_unit v u0 rest).2) 0); [lia|done].
  - destruct (pick_unit_below v u0 rest) as [->|?]; [by left|by right].
  - intros c s E. by rewrite E in D.
Qed.

Section Reading.
Context {J : Type} `{JsonC J}.

(** A string attribute. *)
Definition string_attr (obj : option J) (name value : bytes) : Prop :=
  ∃ found, get_ex obj name = Some found ∧ json_object_get_type found = json_type_string
           ∧ json_object_get_string found = value.

Lemma getNumber_string obj name value t :
  string_attr obj name value → Byte.x00 ∉ value →
  getNumber obj name t =
    (let '(val, suffix) := strtoll value in
     match find_unit suffix t with
     | None => Ok val
     | Some m => if (- LLONG_MAX - 1 <=? val * m) && (val * m <=? LLONG_MAX)
                 then Ok (val * m) else Crash UndefinedBehaviour
     end).
Proof.
  intros (found & Hf & Ht & Hs) Hn. unfold getNumber. rewrite Hf, Ht, Hs. cbn.
  by rewrite cstr_no_nul.
Qed.

Lemma getEnum_string obj name value t :
  string_attr obj name value → Byte.x00 ∉ value →
  getEnum obj name t = default 0 (find_code value t).
Proof.
  intros (found & Hf & Ht & Hs) Hn. unfold getEnum. rewrite Hf, Ht, Hs. cbn.
  by rewrite cstr_no_nul.
Qed.

Lemma fmt_lu_no_nul n : Byte.x00 ∉ fmt_lu n.
Proof. intros Hb%fmt_lu_digits. cbn in Hb. lia. Qed.

(** Reading a printed number gives the multiple of the unit below it. *)
Lemma getNumber_showNumber obj name t v :
  good_table t → t ≠ [] → 0 ≤ v ≤ LLONG_MAX → string_attr obj name (showNumber v t) →
  ∃ u, u ∈ t ∧ getNumber obj name t = Ok (v - v mod snd u) ∧ (head t = Some u ∨ snd u < v).
Proof.
  intros Hg Hne Hv Ha. destruct (showNumber_parts v t Hg Hne Hv) as (u & Hin & Hsh & Hp & Hfu & Hn & Hb & Hd).
  exists u. split; [done|]. split; [|done]. rewrite Hsh in Ha.
  rewrite (getNumber_string _ _ _ _ Ha); [|rewrite elem_of_app; intros [?%fmt_lu_no_nul|?]; done].
  assert (0 ≤ v / snd u ≤ v) by (split; [apply Z.div_pos|apply Z.div_le_upper_bound]; nia).
  rewrite strtoll_printed by (done || unfold LLONG_MAX in *; lia). rewrite Hfu.
  assert (v / snd u * snd u = v - v mod snd u) as -> by (rewrite Z.mod_eq by lia; lia).
  pose proof (Z.mod_pos_bound v (snd u)). pose proof (Z.mod_le v (snd u)).
  unfold LLONG_MAX in *. rewrite (proj2 (Z.leb_le _ _)), (proj2 (Z.leb_le _ _)) by lia. done.
Qed.

End Reading.

(** ** A concrete JSON value *)

Inductive json :=
  | JNull
  | JInt (z : Z)
  | JString (s : bytes)
  | JObject (l : list (bytes * json)).

Fixpoint json_find (l : list (bytes * json)) (name : bytes) : option json :=
  match l with
  | [] => None
  | (n, v) :: l => if decide (n = name) then Some v else json_find l name
  end.

(** The calls on such values; the text is what [parse] makes of it. *)
Definition json_calls (parse : bytes → option json) : JsonC json := {|
  json_tokener_parse := parse;
  json_object_object_get j name := match j with JObject l => json_find l name | _ => None end;
  json_object_get_type j :=
    match j with
    | JNull => json_type_null | JInt _ => json_type_int
    | JString _ => json_type_string | JObject _ => json_type_object
    end;
  json_object_get_string j := match j with JString s => s | _ => [] end;
  json_object_get_int j :=
    match j with JInt z => Z.max (-2147483648) (Z.min 2147483647 z) | _ => 0 end;
|}.

Lemma json_calls_laws parse : @JsonCLaws json (json_calls parse).
Proof. constructor. intros []; cbn; lia. Qed.

(** ** Properties *)

(** C31: a number that the test program prints with a unit is read back as the multiple of
    that unit at or below it: exactly the number when the unit divides it, and never
    less than half of it; the name printed for a code of an enumeration is read back as
    that code, and so is the name of no code.  So a configuration that is printed and
    read again gives the same settings, up to the rounding of sizes and times to their
    unit. *)
Theorem config_values_roundtrip {J} `{JsonC J} (obj : option J) (name : bytes) :
  (∀ table v, table ∈ [sizes; times] → 0 ≤ v ≤ LLONG_MAX →
     string_attr obj name (showNumber v table) →
     ∃ u r, u ∈ table ∧ getNumber obj name table = Ok r ∧ r = v - v mod snd u ∧ v ≤ 2 * r
            ∧ ((snd u | v) → r = v))
  ∧ (∀ table code, table ∈ [e_kvs; e_persist; e_crypt; e_comp; e_protocol] →
       code = 0 ∨ code ∈ table.*2 →
       string_attr obj name (showEnum code table) → getEnum obj name table = code).
Proof.
  split.
  - intros t v Ht Hv Ha.
    assert (good_table t ∧ ∃ u, head t = Some u ∧ snd u = 1) as (Hg & u0 & Hh & H1).
    { set_unfold in Ht. destruct Ht as [->|[->|[]]]; (split; [apply sizes_good || apply times_good|by eexists]). }
    assert (t ≠ []) as Hne by (by intros ->).
    destruct (getNumber_showNumber obj name t v Hg Hne Hv Ha) as (u & Hin & Hr & Hb).
    exists u, (v - v mod snd u). split_and!; try done.
    + destruct Hb as [Hb|Hb].
      * assert (snd u = 1) as -> by congruence. rewrite Z.mod_1_r. lia.
      * assert (0 < snd u) by (unfold good_table in Hg; rewrite Forall_forall in Hg; destruct (Hg u Hin) as (_ & ? & _); lia).
        pose proof (Z.div_mod v (snd u)). pose proof (Z.mod_pos_bound v (snd u)).
        assert (1 ≤ v / snd u) by (apply Z.div_le_lower_bound; lia). nia.
    + intros [q ->]. rewrite Z_mod_mult. lia.
  - intros t c Ht Hc Ha.
    assert ((Byte.x00 ∉ showEnum c t) ∧ default 0 (find_code (showEnum c t) t) = c) as [Hn Hd].
    { set_unfold in Ht. destruct Hc as [->|Hc].
      - destruct_or! Ht; subst; (split; [apply (bool_decide_unpack _)|]); done.
      - destruct_or! Ht; subst; cbn in Hc; set_unfold in Hc; destruct_or! Hc; subst;
          (split; [apply (bool_decide_unpack _)|]); done. }
    by rewrite (getEnum_string _ _ _ _ Ha).
Qed.

Lemma config_values_roundtrip_witness :
  ∃ u r, u ∈ sizes
    ∧ @getNumber json (json_calls (λ _, None))
        (Some (JObject [(lit "max_size", JString (lit "10gb"))])) (lit "max_size") sizes = Ok r
    ∧ r = 10737418240 - 10737418240 mod snd u ∧ 10737418240 ≤ 2 * r
    ∧ ((snd u | 10737418240) → r = 10737418240).
Proof.
  refine (proj1 (@config_values_roundtrip json (json_calls (λ _, None)) _ _) sizes 10737418240 _ _ _).
  - left.
  - unfold LLONG_MAX. lia.
  - exists (JString (lit "10gb")). split_and!; vm_compute; reflexivity.
Defined.

(** ** Types of the accessors *)

Lemma find_code_in s x c : find_code s x = Some c → c ∈ x.*2.
Proof.
  induction x as [|[n k] x IH]; cbn; [done|]. case_decide; [intros [= ->]; left|right; auto].
Qed.

Lemma i32_range z : -2147483648 ≤ i32 z ≤ 2147483647.
Proof. unfold i32. pose proof (Z.mod_pos_bound (z + 2147483648) 4294967296). lia. Qed.

Lemma strtoll_range s : - LLONG_MAX - 1 ≤ fst (strtoll s) ≤ LLONG_MAX.
Proof.
  unfold strtoll, LLONG_MAX. set (p := match skip_space s with [] => _ | _ :: _ => _ end).
  destruct p as [neg t]. destruct (take_digits t); cbn; lia.
Qed.

Section Types.
Context {J : Type} `{JsonCLaws J}.

Lemma getEnum_type obj name x : getEnum obj name x ∈ 0 :: x.*2.
Proof.
  unfold getEnum. destruct (get_ex obj name); [|left]. case_decide; [|left].
  destruct (find_code _ x) eqn:E; [right; by eapply find_code_in|left].
Qed.

Lemma getNumber_type obj name t v : getNumber obj name t = Ok v → - LLONG_MAX - 1 ≤ v ≤ LLONG_MAX.
Proof.
  unfold getNumber. destruct (get_ex obj name) as [found|]; [|unfold LLONG_MAX; intros [= <-]; lia].
  case_decide; [pose proof (json_int_range found); unfold LLONG_MAX; intros [= <-]; lia|].
  case_decide; [|unfold LLONG_MAX; intros [= <-]; lia].
  pose proof (strtoll_range (cstr (json_object_get_string found))).
  destruct (strtoll _) as [val suf]. destruct (find_unit suf t); [|by intros [= <-]].
  destruct (Z.leb_spec (- LLONG_MAX - 1) (val * z)), (Z.leb_spec (val * z) LLONG_MAX); cbn; try done.
  intros [= <-]. lia.
Qed.

(** Without a unit table no product is computed. *)
Lemma getNumber_no_units obj name : ∃ v, getNumber obj name [] = Ok v.
Proof.
  unfold getNumber. destruct (get_ex obj name); [|by eexists]. case_decide; [by eexists|].
  case_decide; [|by eexists]. destruct (strtoll _). by eexists.
Qed.

End Types.


