(* ===== verification/Main.v ===== *)
(** * The program (src/fuse_kvfs_main.cc): the composition of the components

    The set-up that [main] does from its options, the configuration file and the
    environment; the running system, whose steps are the requests of the kernel, the
    steps of the threads of the two agents and of the web server, in any order; and the
    way down after the unmount.  A request and a piece of work of an agent are one step:
    the code takes no lock around them. *)

From Stdlib Require Import ZArith Lia Strings.String.
From stdpp Require Import base list gmap.
From S2P Require Import Prelude Status SortedMap KVStore MetaData Partition File Directory ChangeLog.
From S2P Require Import FileSystemManager Mount Fuse Tiering Agents Config.

(** ** Set-up *)

Record FkOptions := MkFkOptions {
  use_rocksdb : Z;
  cloud_proxy_dir : option bytes;
  config_file : option bytes;
  force_leak : Z;
}.

(** What the set-up decides: the back end, the proxy and the options of the mount. *)
Record Setup := MkSetup { su_rocksdb : bool; su_proxy : CloudProxy; su_options : MountOptions }.

Definition TEST_FSID : Z := 0.
Definition local_proxy_dir : bytes := lit "proxy_dir/" ++ fmt_lu TEST_FSID.

(** The cloud directory: the option unless it is empty, else the configured endpoint. *)
Definition choose_cloud_dir (o : FkOptions) (c : ProtoConfig) : res bytes :=
  match default [] (cloud_proxy_dir o) with
  | [] => if has_cloud c
          then match cloud_endpoint c with Some e => Ok e | None => Crash FatalLog end
          else Crash FatalLog
  | d => Ok d
  end.

(** [parsed] is the result of fuse_opt_parse, [cmdline] that of fuse_parse_cmdline; a
    failing LOG_ASSERT is fatal. *)
Definition main_setup (merge : bytes → ProtoConfig → bool * ProtoConfig) (config_files : gmap bytes bytes)
    (parsed : option FkOptions) (cmdline : bool) : res Setup :=
  match parsed with
  | None => Crash FatalLog
  | Some o =>
    match config_file o with
    | None => Crash FatalLog
    | Some path =>
      match cm_Refresh merge config_files (new_ConfigManager path) with
      | Crash c => Crash c
      | Ok (error, cm) =>
        if negb (error =? 0) then Crash FatalLog
        else if negb cmdline then Crash FatalLog
        else
          match choose_cloud_dir o (config cm) with
          | Crash c => Crash c
          | Ok dir =>
              Ok (MkSetup (negb (use_rocksdb o =? 0)) (new_CloudProxy local_proxy_dir dir)
                    (MkOptions (pp_fuse_cache_enable (primary (config cm)))
                               (pp_fuse_direct_io (primary (config cm)))))
          end
      end
    end
  end.

(** WEB_SERVER_PORT. *)
Definition web_port (port : option bytes) : res Z :=
  match port with
  | None => Crash FatalLog
  | Some p => if atoi p <=? 1024 then Crash FatalLog else Ok (atoi p)
  end.

(** The template of the working directories. *)
Definition seg_template : bytes := lit "./seg_".

(** The file system around a step: main hands the tiering-in agent to the mount, so a file
    that was evicted is opened through the index and the working directories as they are
    when the step begins.  What [Open] unpacks on the way is not kept. *)
Definition agent_env `{TierEnv} (env : FsEnv) (ix : IndexManager) (d : disk) : FsEnv := {|
  env_time := env_time;
  env_uid := env_uid;
  env_gid := env_gid;
  CityHash64 := CityHash64;
  tier_Open inode_num min_xid := fst (agent_Open seg_template ix inode_num min_xid d);
|}.

(** ** The work of the agents *)

Section Work.
Context {S : Type} `{KVStore S} `{FsEnv} `{MountEnv} `{EntryCodec} `{TierEnv}.

(** The bounds of the two loops of the tiering-out agent. *)
Context (fuel depth : nat).

(** The tiering-out agent works on the mount, the index and the staging area. *)
Abbreviation Shared := (MountState S * (IndexManager * disk))%type.

Definition at_shared {A} (m : M (MountState S) A) : M Shared A := λ '(s, x),
  match m s with
  | Ok (a, s') => Ok (a, (s', x))
  | Crash c => Crash c
  end.

(** One batch: [MountSnapshot], the persister on it, and its [Close]; the persister's
    result is not looked at. *)
Definition persist_batch (inodes : list Z) (first last : Z) : M Shared unit := λ '(s, (ix, d)),
  match at_manager (fm ← get_st; snap ← MountSnapshot (fm_kv fm); mret (fm, snap)) s with
  | Crash c => Crash c
  | Ok ((live, snap), s) =>
    match persist depth seg_template TEST_FSID inodes first last (mkT live snap ix d) with
    | Crash c => Crash c
    | Ok (_, t) =>
      match at_manager (put_st (t_live t)) s with
      | Crash c => Crash c
      | Ok (_, s) => Ok (tt, (s, (t_index t, t_disk t)))
      end
    end
  end.

Definition out_work : M Shared unit :=
  out_Snapshot (λ A m, at_shared (at_log m)) persist_batch fuel.

End Work.

(** ** Steps *)

Section System.
Context {S : Type} `{KVStore S} `{FsEnv} `{MountEnv} `{EntryCodec} `{TierEnv}.

(** What the store prints for the web controller, and the bounds of the tiering-out
    agent. *)
Context (dump dbstats : S → option bytes) (fuel depth : nat).

(** The running program. *)
Record System := mkSys {
  sys_mount : MountState S;
  sys_index : IndexManager;
  sys_disk : disk;
  sys_agents : Agents;
  sys_web : WebController;
  sys_sent : list sent;
}.

(** [now] is the clock an eviction pass reads, [uris] the HTTP requests of a poll. *)
Inductive event :=
  | E_request (r : request)
  | E_out
  | E_evict (now : Z → Z)
  | E_web (uris : list bytes).

Definition set_out (a : Agent) (g : Agents) : Agents := MkAgents a (evict_agent g).
Definition set_evict (a : Agent) (g : Agents) : Agents := MkAgents (out_agent g) a.

Definition sys_step (err_ops : bool) (e : event) (y : System) : res System :=
  let env := agent_env _ (sys_index y) (sys_disk y) in
  match e with
  | E_request r =>
      match dispatch err_ops r (sys_mount y) with
      | Crash c => Crash c
      | Ok (_, s) => Ok (mkSys s (sys_index y) (sys_disk y) (sys_agents y) (sys_web y) (sys_sent y))
      end
  | E_out =>
      match thread_step (out_work fuel depth) (out_agent (sys_agents y)) (sys_mount y, (sys_index y, sys_disk y)) with
      | Crash c => Crash c
      | Ok (a, (s, (ix, d))) => Ok (mkSys s ix d (set_out a (sys_agents y)) (sys_web y) (sys_sent y))
      end
  | E_evict now =>
      match evict_step (ProcessEvictions now) (evict_agent (sys_agents y)) (sys_mount y) with
      | Crash c => Crash c
      | Ok (a, s) =>
          Ok (mkSys s (sys_index y) (sys_disk y) (set_evict a (sys_agents y)) (sys_web y) (sys_sent y))
      end
  | E_web uris =>
      let s := sys_mount y in
      match web_server (sys_web y) with
      | None => Ok y
      | Some w =>
        match web_step (m_log s) (dump (w_kv (m_world s))) (dbstats (w_kv (m_world s))) uris w (sys_agents y) with
        | Crash c => Crash c
        | Ok (out, w, g) =>
            Ok (mkSys s (sys_index y) (sys_disk y) g (MkController (Some w) (tcp_port (sys_web y)))
                  (sys_sent y ++ out))
        end
      end
  end.

Fixpoint sys_run (err_ops : bool) (es : list event) (y : System) : res System :=
  match es with
  | [] => Ok y
  | e :: es =>
      match sys_step err_ops e y with
      | Crash c => Crash c
      | Ok y' => sys_run err_ops es y'
      end
  end.

(** ** main *)

(** Up to the mount: the index is read (an error is not looked at), the mount is
    initialised, the agents and the web server start, and the root is created.  [opened]
    is the result of opening the store, [bound] that of binding the port. *)
Definition main_start (su : Setup) (opened : bool) (port : option bytes) (bound : bool)
    (kv : S) (clk : nat) (files : gmap bytes bytes) (d : disk) : res System :=
  match im_Refresh false (new_IndexManager (su_proxy su) TEXT_FORMAT) d with
  | Crash c => Crash c
  | Ok (_, ix) =>
    match Init opened (local_dir (su_proxy su)) port (fresh_mount kv clk TEST_FSID (su_options su) files) with
    | Crash c => Crash c
    | Ok (_, s) =>
      let '(_, d) := proxy_Init (su_proxy su) d in
      let '(_, out) := Start new_Agent in
      let '(_, evict) := evict_Start new_Agent in
      match web_port port with
      | Crash c => Crash c
      | Ok port_num =>
        let '(_, web) := web_Start bound (new_WebController port_num) in
        match at_manager (CreateRoot TEST_FSID) s with
        | Crash c => Crash c
        | Ok (_, s) => Ok (mkSys s ix d (MkAgents out evict) web [])
        end
      end
    end
  end.

(** The stop requests. *)
Definition main_stop (y : System) : System :=
  let g := MkAgents (RequestStop (out_agent (sys_agents y))) (evict_RequestStop (evict_agent (sys_agents y))) in
  let '(_, web) := controller_RequestStop (sys_web y) in
  mkSys (sys_mount y) (sys_index y) (sys_disk y) g web (sys_sent y).

(** The joins, in order; [None] while one of them blocks. *)
Definition main_join (y : System) : option (res System) :=
  evict ← evict_Join (evict_agent (sys_agents y));
  match evict with
  | Crash c => Some (Crash c)
  | Ok evict =>
    out ← Join (out_agent (sys_agents y));
    match out with
    | Crash c => Some (Crash c)
    | Ok out =>
      web ← web_Join (sys_web y);
      match web with
      | Crash c => Some (Crash c)
      | Ok _ => Some (Ok (mkSys (sys_mount y) (sys_index y) (sys_disk y) (MkAgents out evict)
                            (sys_web y) (sys_sent y)))
      end
    end
  end.

(** The label [out]: the mount is shut down, which synchronises the proxy. *)
Definition main_out (y : System) : res System :=
  match Shutdown (sys_mount y) with
  | Crash c => Crash c
  | Ok (_, s) =>
      let '(_, d) := Sync (im_proxy (sys_index y)) SYNC_OUT (sys_disk y) in
      Ok (mkSys s (sys_index y) d (sys_agents y) (sys_web y) (sys_sent y))
  end.

(** From the mount on.  [mounted] is the result of fuse_mount and [session] whether the
    session could be set up; [es] happens during the session and [es'], which has no
    requests, between the stop requests and the joins.  When the mount fails, the
    threads are neither stopped nor joined. *)
Definition main_run (err_ops mounted session : bool) (es es' : list event) (y : System)
    : option (res System) :=
  if mounted then
    match (if session then sys_run err_ops es y else Ok y) with
    | Crash c => Some (Crash c)
    | Ok y =>
      match sys_run err_ops es' (main_stop y) with
      | Crash c => Some (Crash c)
      | Ok y =>
          r ← main_join y;
          match r with
          | Crash c => Some (Crash c)
          | Ok y => Some (main_out y)
          end
      end
    end
  else Some (main_out y).

End System.

Arguments System S : clear implicits.
Arguments mkSys {S} _ _ _ _ _ _.
