(* ===== verification/MainProps.v ===== *)
(** * Properties of the program

    What the set-up accepts; an invariant of every interleaving of requests and threads;
    that the program ends after the unmount; and what a clean shutdown hands to the next
    mount. *)

From Stdlib Require Import ZArith Lia Strings.String.
From stdpp Require Import base list gmap.
From S2P Require Import Prelude Status SortedMap KVStore MetaData Partition File FileData Directory ChangeLog.
From S2P Require Import FileSystemManager Mount Fuse Frame MountProps FuseProps Tiering TieringProps.
From S2P Require Import Agents AgentProps Config Main.

Section Quiet.
Context {S : Type} `{KVStore S} `{FsEnv} `{MountEnv} `{EntryCodec} `{TierEnv}.
Context (fuel depth : nat).

Abbreviation qt := (quiet (λ s : MountState S, s)).
Abbreviation Shared := (MountState S * (IndexManager * disk))%type.
Abbreviation πs := (fst : Shared → MountState S).

(** ** The agents send no replies and keep the table *)

Lemma quiet_at_shared {A} (m : M (MountState S) A) : qt m → quiet πs (at_shared m).
Proof.
  intros Hm [s x] a [s' x'] T. unfold at_shared. destruct (m s) as [[b t]|] eqn:E; [|done].
  intros [= <- <- <-]. cbn in *. apply (Hm _ _ _ T E).
Qed.

Lemma quiet_persist_batch inodes first last : quiet πs (persist_batch depth inodes first last).
Proof.
  apply quiet_same. intros [s [ix d]] a [s' x'] E T. unfold persist_batch in E.
  destruct (at_manager _ s) as [[[live snap] s1]|] eqn:E1; [|done].
  destruct (persist _ _ _ _ _ _ _) as [[r t]|]; [|done].
  destruct (at_manager _ s1) as [[u s2]|] eqn:E2; [|done]. injection E as <- <- <-.
  destruct (quiet_at_manager _ _ _ _ T E1) as ([T1 S1] & l1 & El1 & ->%nil_length_inv).
  destruct (quiet_at_manager _ _ _ _ T1 E2) as ([T2 S2] & l2 & El2 & ->%nil_length_inv).
  rewrite app_nil_r in El1, El2. cbn. unfold goes. by rewrite S2, S1, El2, El1.
Qed.

#[local] Hint Resolve quiet_at_shared quiet_persist_batch quiet_at_log : serves.

Lemma quiet_snapshot_loop end_xid n :
  quiet πs (snapshot_loop (λ A m, at_shared (at_log m)) (persist_batch depth) end_xid n).
Proof.
  induction n as [|n IH]; cbn [snapshot_loop]; [apply serves_crash|]. serves.
  all: try (unfold cassert; case_match; serves). all: try exact IH.
Qed.

Lemma quiet_out_work : quiet πs (out_work fuel depth).
Proof. unfold out_work, out_Snapshot. do 2 serves_step. apply quiet_snapshot_loop. Qed.

#[local] Hint Resolve quiet_GetInode quiet_Refresh quiet_inode : serves.

Lemma quiet_Getattr_stat ino : qt (Getattr_stat ino).
Proof. unfold Getattr_stat. serves. Qed.
Lemma quiet_inode_Evict ino : qt (inode_Evict ino).
Proof. unfold inode_Evict. serves. Qed.
#[local] Hint Resolve quiet_Getattr_stat quiet_inode_Evict : serves.

Lemma quiet_evict_loop now inodes : qt (evict_loop now inodes).
Proof. induction inodes as [|i inodes IH]; cbn [evict_loop]; serves; exact IH. Qed.
#[local] Hint Resolve quiet_evict_loop : serves.

Lemma quiet_ProcessEvictions now : qt (ProcessEvictions now).
Proof. unfold ProcessEvictions. serves. Qed.

(** A step of a thread whose work is quiet. *)
Lemma thread_step_quiet {St} (π : St → MountState S) (work : M St unit) a st a' st' :
  quiet π work → table_ok (π st) → thread_step work a st = Ok (a', st') →
  goes (π st) (π st') ∧ m_replies (π st') = m_replies (π st).
Proof.
  intros Hw T. unfold thread_step.
  destruct (run_thread a) as [[]|]; try (intros [= <- <-]; by split; [split|]).
  destruct (work st) as [[u st1]|] eqn:E; [|done]. intros [= <- <-].
  destruct (Hw _ _ _ T E) as (G & l & El & ->%nil_length_inv). by rewrite app_nil_r in El.
Qed.

End Quiet.

(** ** Steps of the system *)

Section Steps.
Context {S : Type} `{KVStore S} `{FsEnv} `{MountEnv} `{EntryCodec} `{TierEnv}.
Context (dump dbstats : S → option bytes) (fuel depth : nat).

(** The replies a step sends; the requests are ones the kernel sends. *)
Definition event_ok (e : event) : Prop :=
  match e with E_request r => request_ok r | _ => True end.
Definition event_replies (err_ops : bool) (e : event) : nat :=
  match e with E_request r => replies_expected err_ops r | _ => 0%nat end.
Definition total_replies (err_ops : bool) (es : list event) : nat :=
  sum_list (event_replies err_ops <$> es).

Lemma sys_step_ok err_ops e (y y' : System S) :
  event_ok e → table_ok (sys_mount y) → sys_step dump dbstats fuel depth err_ops e y = Ok y' →
  goes (sys_mount y) (sys_mount y')
  ∧ ∃ l, m_replies (sys_mount y') = m_replies (sys_mount y) ++ l ∧ length l = event_replies err_ops e.
Proof.
  intros He T. destruct e as [r| |now|uris]; cbn [sys_step event_ok event_replies] in *.
  - destruct (dispatch err_ops r _) as [[u s]|] eqn:E; [|done]. intros [= <-].
    apply (dispatch_serves err_ops r He _ _ _ T E).
  - destruct (thread_step _ _ _) as [[a [s [ix d]]]|] eqn:E; [|done]. intros [= <-]. cbn.
    destruct (thread_step_quiet fst _ _ (_, _) _ _ (quiet_out_work fuel depth) T E) as [G R].
    split; [done|]. exists []. by rewrite app_nil_r.
  - unfold evict_step. destruct (thread_step _ _ _) as [[a s]|] eqn:E; [|done]. intros [= <-]. cbn.
    destruct (thread_step_quiet (λ s, s) _ _ _ _ _ (quiet_ProcessEvictions now) T E) as [G R].
    split; [done|]. exists []. by rewrite app_nil_r.
  - destruct (web_server (sys_web y)) as [w|].
    + destruct (web_step _ _ _ _ _ _) as [[[out w'] g]|]; [|done]. intros [= <-].
      split; [by split|]. exists []. by rewrite app_nil_r.
    + intros [= <-]. split; [by split|]. exists []. by rewrite app_nil_r.
Qed.

Lemma sys_run_ok err_ops es (y y' : System S) :
  Forall event_ok es → table_ok (sys_mount y) → sys_run dump dbstats fuel depth err_ops es y = Ok y' →
  goes (sys_mount y) (sys_mount y')
  ∧ ∃ l, m_replies (sys_mount y') = m_replies (sys_mount y) ++ l ∧ length l = total_replies err_ops es.
Proof.
  intros He. revert y. induction He as [|e es He Hes IH]; intros y T; cbn [sys_run].
  - intros [= <-]. split; [by split|]. exists []. by rewrite app_nil_r.
  - destruct (sys_step _ _ _ _ _ e y) as [y1|] eqn:E; [|done]. intros E2.
    destruct (sys_step_ok _ _ _ _ He T E) as ([T1 S1] & l1 & El1 & Hl1).
    destruct (IH y1 T1 E2) as ([T2 S2] & l2 & El2 & Hl2).
    split; [split; [done|by rewrite S2]|]. exists (l1 ++ l2).
    rewrite El2, El1, length_app, Hl1, Hl2. by rewrite (assoc_L (++)).
Qed.

End Steps.

(** ** Starting *)

Section Starting.
Context {S : Type} `{KVStore S} `{FsEnv} `{MountEnv} `{EntryCodec} `{TierEnv}.

(** The inode table, the file objects and the replies are left alone. *)
Definition same_table (s s' : MountState S) : Prop :=
  m_inodes s' = m_inodes s ∧ w_heap (m_world s') = w_heap (m_world s) ∧ m_fs_id s' = m_fs_id s
  ∧ m_replies s' = m_replies s.

Lemma WriteSuperblock_table (s : MountState S) err s' :
  WriteSuperblock s = Ok (err, s') → same_table s s'.
Proof.
  intros (cur & s1 & E1 & E)%bind_inv. injection E1 as <- <-.
  apply bind_inv in E as ([] & s2 & E2 & E). injection E2 as <-.
  apply bind_inv in E as (s3 & s4 & E3 & E). injection E3 as <- <-.
  destruct (super_print _); [|by injection E as <- <-]. cbv zeta in E.
  destruct (kv_put _ _ _) as [ok kv']. apply bind_inv in E as ([] & s5 & E4 & E). injection E4 as <-.
  by injection E as <- <-.
Qed.

Lemma ReadSuperblock_table (s : MountState S) err s' :
  ReadSuperblock s = Ok (err, s') → same_table s s'.
Proof.
  intros (s0 & s1 & E1 & E)%bind_inv. injection E1 as <- <-.
  destruct (kv_get _ _) as [v|].
  - apply bind_inv in E as (e & s2 & E2 & E).
    apply bind_inv in E as (s3 & s4 & E3 & E). injection E3 as <- <-.
    apply bind_inv in E as ([] & s5 & E4 & E). injection E4 as <-. injection E as <- <-.
    destruct (super_merge _ _); [|by injection E2 as <- <-].
    apply bind_inv in E2 as ([] & s6 & E5 & E2). injection E5 as <-. by injection E2 as <- <-.
  - apply bind_inv in E as ([] & s2 & E2 & E). injection E2 as <-.
    apply bind_inv in E as (e & s3 & E3 & E). injection E as <- <-.
    by apply WriteSuperblock_table in E3.
Qed.

Lemma Init_inv opened dir port (s : MountState S) err s' :
  Init opened dir port s = Ok (err, s') →
  err = 0 ∧ ∃ s1, ReadSuperblock s = Ok (0, s1)
    ∧ s' = set_log (set_next_xid (sb_next_xid (m_super s1)) (new_FsChangeLog dir 0)) s1.
Proof.
  unfold Init. destruct (negb opened); [done|]. intros (e & s1 & E1 & E)%bind_inv.
  destruct (Z.eqb_spec e 0) as [->|]; cbn [negb] in E; [|done].
  apply bind_inv in E as (s2 & s3 & E2 & E). injection E2 as <- <-.
  apply bind_inv in E as ([] & s4 & E3 & E). injection E3 as <-.
  destruct port as [p|]; [|done]. destruct (atoi p <=? 1024); [done|]. injection E as <- <-.
  split; [done|]. by exists s1.
Qed.

Lemma Init_table opened dir port (s : MountState S) err s' :
  Init opened dir port s = Ok (err, s') → same_table s s'.
Proof. intros (_ & s1 & E & ->)%Init_inv. by apply ReadSuperblock_table in E. Qed.

Lemma Init_fresh opened dir port (kv : S) clk fs o files err s' :
  Init opened dir port (fresh_mount kv clk fs o files) = Ok (err, s') →
  table_ok s' ∧ m_replies s' = [] ∧ m_fs_id s' = fs.
Proof.
  intros (A1 & A2 & A3 & A4)%Init_table. cbn in *. split; [|done].
  split; rewrite ?A1, ?A2; [done|intros ??; by rewrite lookup_empty..].
Qed.

Lemma main_start_inv su opened port bound (kv : S) clk files d y :
  main_start su opened port bound kv clk files d = Ok y →
  ∃ p ix s0 s1, web_port port = Ok p
    ∧ Init opened (local_dir (su_proxy su)) port (fresh_mount kv clk TEST_FSID (su_options su) files) = Ok (0, s0)
    ∧ at_manager (CreateRoot TEST_FSID) s0 = Ok (tt, s1)
    ∧ y = mkSys s1 ix (proxy_Init (su_proxy su) d).2
            (MkAgents (Start new_Agent).2 (evict_Start new_Agent).2) (web_Start bound (new_WebController p)).2 [].
Proof.
  unfold main_start. destruct (im_Refresh _ _ _) as [[e ix]|]; [|done].
  destruct (Init _ _ _ _) as [[err s0]|] eqn:Ei; [|done].
  destruct (proxy_Init _ _) as [r d']. cbn [evict_Start Start run_thread new_Agent].
  destruct (web_port port) as [p|] eqn:Ep; [|done].
  destruct (web_Start _ _) as [r' web] eqn:Ew.
  destruct (at_manager _ _) as [[[] s1]|] eqn:Ec; [|done]. intros [= <-].
  assert (err = 0) as -> by by apply Init_inv in Ei as [? _].
  eexists _, _, _, _. by rewrite Ew.
Qed.

(** The table is well formed, and empty, and nothing has been answered. *)
Lemma main_start_table su opened port bound (kv : S) clk files d y :
  main_start su opened port bound kv clk files d = Ok y →
  table_ok (sys_mount y) ∧ m_replies (sys_mount y) = [].
Proof.
  intros (p & ix & s0 & s1 & _ & Ei & Ec & ->)%main_start_inv.
  destruct (Init_fresh _ _ _ _ _ _ _ _ _ _ Ei) as (T & R & _).
  destruct (quiet_at_manager _ _ _ _ T Ec) as ([T1 _] & l & El & ->%nil_length_inv).
  cbn. by rewrite El, R.
Qed.

(** ** Threads *)

(** The three threads have been started and not joined. *)
Definition threads (y : System S) : Prop :=
  is_Some (run_thread (out_agent (sys_agents y))) ∧ is_Some (run_thread (evict_agent (sys_agents y)))
  ∧ ∃ w, web_server (sys_web y) = Some w ∧ is_Some (polling_thread w).

Lemma main_start_threads su opened port bound (kv : S) clk files d y :
  main_start su opened port bound kv clk files d = Ok y → threads y.
Proof.
  intros (p & ix & s0 & s1 & _ & _ & _ & ->)%main_start_inv. cbn. split_and!; by eexists.
Qed.

(** The steps a thread takes at most before it ends, once it was asked to stop. *)
Definition agent_left (a : Agent) : nat :=
  match run_thread a with
  | Some P_sleep => 5 | Some P_check => 4 | Some P_work => 3 | Some P_clear => 2 | Some P_test => 1
  | _ => 0
  end.
Definition web_left (w : RESTfulWebServer) : nat :=
  match polling_thread w with Some W_poll => 2 | Some W_test => 1 | _ => 0 end.

Definition stopped (n : nat) (a : Agent) : Prop :=
  is_Some (run_thread a) ∧ stop_requested a = true ∧ (agent_left a ≤ n)%nat.
Definition web_stopped (n : nat) (c : WebController) : Prop :=
  ∃ w, web_server c = Some w ∧ is_Some (polling_thread w) ∧ web_stop w = true ∧ (web_left w ≤ n)%nat.

Lemma thread_step_stopped {St} (work : M St unit) n a s a' s' :
  stopped n a → thread_step work a s = Ok (a', s') → stopped (pred n) a'.
Proof.
  unfold stopped, thread_step, agent_left. intros ([p Hp] & Hs & Hn). rewrite Hp in *.
  destruct p; [..|destruct (work s) as [[u s1]|]; [|done]| | |];
    intros [= <- <-]; cbn; rewrite ?Hs, ?Hp; (split; [by eexists|]); (split; [done|]); try lia.
  destruct (work_requested a); lia.
Qed.

Lemma thread_step_runs {St} (work : M St unit) a s a' s' :
  is_Some (run_thread a) → thread_step work a s = Ok (a', s') → is_Some (run_thread a').
Proof.
  unfold thread_step. intros [p Hp]. rewrite Hp. destruct p; try (intros [= <- <-]; cbn; by eauto).
  destruct (work s) as [[u s1]|]; [|done]. intros [= <- <-]. by eexists.
Qed.

(** What the web server does to the agents: it sets their flags. *)
Definition flagged (a a' : Agent) : Prop :=
  run_thread a' = run_thread a ∧ (stop_requested a = true → stop_requested a' = true).
Definition flagged2 (g g' : Agents) : Prop :=
  flagged (out_agent g) (out_agent g') ∧ flagged (evict_agent g) (evict_agent g').

Lemma handle_all_flags w l du db uris g out g' :
  handle_all w l du db uris g = Ok (out, g') → flagged2 g g'.
Proof.
  revert g out. induction uris as [|u uris IH]; intros g out; cbn; [by intros [= <- <-]|].
  destruct (StaticHandleEvent w l du db u g) as [[x g1]|] eqn:E; [|done].
  destruct (handle_all _ _ _ _ uris g1) as [[x2 g2]|] eqn:E2; [|done]. intros [= <- <-].
  assert (flagged2 g g1) as [[A1 A2] [A3 A4]].
  { unfold StaticHandleEvent in E. destruct (handler_set w); [|done]. destruct (_ <? 10000); [|done].
    destruct (Handler l du db u g) as [r g''] eqn:Eh. injection E as <- <-.
    unfold Handler, HandleWebEvent in Eh. repeat case_decide; injection Eh as <- <-; by repeat split. }
  destruct (IH _ _ E2) as [[B1 B2] [B3 B4]]. unfold flagged2, flagged. rewrite B1, A1, B3, A3. auto.
Qed.

Lemma web_step_inv l du db uris w g out w' g' :
  web_step l du db uris w g = Ok (out, w', g') →
  flagged2 g g' ∧ web_stop w' = web_stop w ∧ (is_Some (polling_thread w) → is_Some (polling_thread w'))
  ∧ (web_stop w = true → (web_left w' ≤ pred (web_left w))%nat).
Proof.
  unfold web_step, web_left. destruct (polling_thread w) as [[]|] eqn:Ep; try (intros [= <- <- <-]; rewrite ?Ep; cbn).
  - split_and!; try done. intros Hs. by rewrite Hs.
  - destruct (handle_all _ _ _ _ _ _) as [[x g1]|] eqn:E; [|done]. intros [= <- <- <-]. cbn.
    split_and!; try done. by eapply handle_all_flags.
  - by split_and!.
  - by split_and!.
Qed.

Lemma stopped_flagged n a a' : stopped n a → flagged a a' → stopped n a'.
Proof. unfold stopped, agent_left. intros (A & B & C) [D E]. rewrite D. auto. Qed.

Section Running.
Context (dump dbstats : S → option bytes) (fuel depth : nat).
Abbreviation step := (sys_step dump dbstats fuel depth).
Abbreviation run := (sys_run dump dbstats fuel depth).

Lemma sys_step_threads err_ops e (y y' : System S) : threads y → step err_ops e y = Ok y' → threads y'.
Proof.
  intros (A & B & w & Hw & Hp). destruct e as [r| |now|uris]; cbn [sys_step].
  - destruct (dispatch _ _ _) as [[u s]|]; [|done]. intros [= <-]. split_and!; eauto.
  - destruct (thread_step _ _ _) as [[a [s [ix d]]]|] eqn:E; [|done]. intros [= <-].
    split_and!; eauto using thread_step_runs.
  - unfold evict_step. destruct (thread_step _ _ _) as [[a s]|] eqn:E; [|done]. intros [= <-].
    split_and!; eauto using thread_step_runs.
  - rewrite Hw. destruct (web_step _ _ _ _ _ _) as [[[out w'] g]|] eqn:E; [|done]. intros [= <-].
    apply web_step_inv in E as ([[F1 _] [F2 _]] & _ & P & _). unfold threads. cbn. rewrite F1, F2. eauto 6.
Qed.

Lemma sys_run_threads err_ops es (y y' : System S) : threads y → run err_ops es y = Ok y' → threads y'.
Proof.
  revert y. induction es as [|e es IH]; intros y T; cbn [sys_run]; [by intros [= <-]|].
  destruct (step err_ops e y) as [y1|] eqn:E; [|done]. apply IH. by eapply sys_step_threads.
Qed.

(** The number of steps of each thread in a schedule. *)
Definition is_out (e : event) : bool := match e with E_out => true | _ => false end.
Definition is_evict (e : event) : bool := match e with E_evict _ => true | _ => false end.
Definition is_web (e : event) : bool := match e with E_web _ => true | _ => false end.
Definition count (f : event → bool) (es : list event) : nat := length (filter (λ e, f e = true) es).

(** What is left of each thread after the stop requests. *)
Definition stopping (n m k : nat) (y : System S) : Prop :=
  stopped n (out_agent (sys_agents y)) ∧ stopped m (evict_agent (sys_agents y)) ∧ web_stopped k (sys_web y).

Definition minus_if (b : bool) (n : nat) : nat := if b then pred n else n.

Lemma sys_step_stopping err_ops e n m k (y y' : System S) :
  stopping n m k y → step err_ops e y = Ok y' →
  stopping (minus_if (is_out e) n) (minus_if (is_evict e) m) (minus_if (is_web e) k) y'.
Proof.
  intros (A & B & w & Hw & Hp & Hs & Hl). destruct e as [r| |now|uris]; cbn [sys_step is_out is_evict is_web minus_if].
  - destruct (dispatch _ _ _) as [[u s]|]; [|done]. intros [= <-]. split_and!; try done. by exists w.
  - destruct (thread_step _ _ _) as [[a [s [ix d]]]|] eqn:E; [|done]. intros [= <-].
    split_and!; try done; [by eapply thread_step_stopped|by exists w].
  - unfold evict_step. destruct (thread_step _ _ _) as [[a s]|] eqn:E; [|done]. intros [= <-].
    split_and!; try done; [by eapply thread_step_stopped|by exists w].
  - rewrite Hw. destruct (web_step _ _ _ _ _ _) as [[[out w'] g]|] eqn:E; [|done]. intros [= <-].
    apply web_step_inv in E as ([F1 F2] & F3 & P & L).
    split_and!; [by eapply stopped_flagged|by eapply stopped_flagged|].
    exists w'. cbn. rewrite F3. split_and!; [done|auto|done|]. specialize (L Hs). lia.
Qed.

Lemma count_cons f e es : count f (e :: es) = ((if f e then 1 else 0) + count f es)%nat.
Proof. unfold count. rewrite filter_cons. destruct (f e); by case_decide. Qed.

Lemma sys_run_stopping err_ops es n m k (y y' : System S) :
  stopping n m k y → run err_ops es y = Ok y' →
  stopping (n - count is_out es) (m - count is_evict es) (k - count is_web es) y'.
Proof.
  revert n m k y. induction es as [|e es IH]; intros n m k y T; cbn [sys_run].
  - intros [= <-]. by rewrite !Nat.sub_0_r.
  - destruct (step err_ops e y) as [y1|] eqn:E; [|done]. intros E2.
    specialize (IH _ _ _ _ (sys_step_stopping _ _ _ _ _ _ _ T E) E2). rewrite !count_cons.
    destruct IH as ((A1 & A2 & A3) & (B1 & B2 & B3) & w & C1 & C2 & C3 & C4).
    split_and!; [split_and!|split_and!|exists w; split_and!]; try done;
      unfold minus_if in *; repeat case_match; lia.
Qed.

Lemma main_stop_stopping (y : System S) : threads y → stopping 5 5 2 (main_stop y).
Proof.
  intros ([p Hp] & [q Hq] & w & Hw & [r Hr]). unfold main_stop, controller_RequestStop. rewrite Hw.
  split_and!.
  - unfold stopped, agent_left. cbn. rewrite Hp. split_and!; [by eexists|done|destruct p; lia].
  - unfold stopped, agent_left. cbn. rewrite Hq. split_and!; [by eexists|done|destruct q; lia].
  - exists (web_RequestStop w). unfold web_left. cbn. rewrite Hr. split_and!; [done|by eexists|done|destruct r; lia].
Qed.

Lemma stopping_joins (y : System S) :
  stopping 0 0 0 y → ∃ y', main_join y = Some (Ok y') ∧ sys_mount y' = sys_mount y.
Proof.
  intros (([p Hp] & _ & A) & ([q Hq] & _ & B) & w & Hw & [r Hr] & _ & C).
  unfold agent_left, web_left in *. unfold main_join, evict_Join, Join, web_Join, server_Join. rewrite Hp, Hq, Hr in *. rewrite Hw, Hr.
  destruct p; try lia. destruct q; try lia. destruct r; try lia. cbn. by eexists.
Qed.

End Running.
End Starting.

(** ** The way down *)

Section WayDown.
Context {S : Type} `{KVStoreLaws S} `{!KVReliable S} `{SuperLaws} `{FsEnv} `{EntryCodec} `{TierEnv}.
Context (dump dbstats : S → option bytes) (fuel depth : nat).

Lemma main_join_mount (y y' : System S) : main_join y = Some (Ok y') → sys_mount y' = sys_mount y.
Proof.
  unfold main_join, evict_Join, mbind, option_bind. destruct (Join _) as [[ev|]|]; [|done..].
  destruct (Join _) as [[out|]|]; [|done..]. destruct (web_Join _) as [[u|]|]; [|done..].
  by intros [= <-].
Qed.

(** Whatever happened, the mount that is shut down has the static part it started with. *)
Lemma main_run_static err_ops mounted session es es' (y y2 : System S) :
  Forall event_ok es → Forall event_ok es' → table_ok (sys_mount y) →
  main_run dump dbstats fuel depth err_ops mounted session es es' y = Some (Ok y2) →
  ∃ y1, main_out y1 = Ok y2 ∧ static (sys_mount y1) = static (sys_mount y).
Proof.
  intros He He' T. unfold main_run. destruct mounted; [|intros [= E]; eauto].
  assert (∀ r, (if session then sys_run dump dbstats fuel depth err_ops es y else Ok y) = Ok r →
    goes (sys_mount y) (sys_mount r)) as Hg.
  { intros r. destruct session; [|by intros [= <-]]. intros E. by apply (sys_run_ok _ _ _ _ _ _ _ _ He T E). }
  destruct (if session then _ else _) as [y1|]; [|done]. destruct (Hg _ eq_refl) as [T1 S1].
  destruct (sys_run _ _ _ _ _ es' _) as [y3|] eqn:E3; [|done].
  assert (sys_mount (main_stop y1) = sys_mount y1) as Hm.
  { unfold main_stop. by destruct (controller_RequestStop _). }
  destruct (sys_run_ok _ _ _ _ _ _ _ _ He' ltac:(by rewrite Hm) E3) as [[_ S3] _].
  destruct (main_join y3) as [[y4|]|] eqn:Ej; cbn; [|done..]. intros [= E]. exists y4.
  by rewrite (main_join_mount _ _ Ej), S3, Hm.
Qed.

(** After a shutdown the stored superblock has the old xid. *)
Lemma main_out_super (y y2 : System S) v :
  super_print (set_next_inode (i64 (u64 (m_handleId (sys_mount y) + 1000))) (m_super (sys_mount y))) = Some v →
  main_out y = Ok y2 → m_fs_id (sys_mount y) = TEST_FSID →
  kv_get (w_kv (m_world (sys_mount y2))) (super_key TEST_FSID) = Some v.
Proof.
  intros Hv Hout Hfs. unfold main_out in Hout.
  destruct (Shutdown _) as [[[] s]|] eqn:Es; [|done]. destruct (Sync _ _ _) as [r d].
  injection Hout as <-. cbn. unfold Shutdown in Es.
  destruct (WriteSuperblock_run (sys_mount y) v Hv) as (s1 & E1 & Hk & _).
  rewrite (bind_ok _ _ _ _ _ E1) in Es. unfold mount_Stop, mount_Join, FlushLog in Es. revert Es. mrun.
  destruct (Flush _ _) as [[files last]|]; [|done]. intros [= <-]. cbn. rewrite <-Hfs.
  by eapply kv_put_eq.
Qed.

(** Mounting a store that has a superblock. *)
Lemma Init_found (kv : S) clk fs o files v b dir port p :
  kv_get kv (super_key fs) = Some v → super_merge v super_empty = Some b → web_port port = Ok p →
  ∃ s', Init true dir port (fresh_mount kv clk fs o files) = Ok (0, s')
    ∧ next_xid (m_log s') = sb_next_xid b.
Proof.
  intros E Hb Hp. unfold Init. cbn [negb].
  assert (ReadSuperblock (fresh_mount kv clk fs o files) =
    Ok (0, set_handleId (u64 (sb_next_inode b)) (set_super b (fresh_mount kv clk fs o files)))) as Er.
  { unfold ReadSuperblock, at_manager, SetNextInode. mrun.
    cbn [m_world w_kv m_fs_id fresh_mount m_super]. rewrite E, Hb. done. }
  rewrite (bind_ok _ _ _ _ _ Er). cbn [Z.eqb negb]. mrun. unfold web_port in Hp.
  destruct port as [q|]; [|done]. destruct (atoi q <=? 1024); [done|]. by eexists.
Qed.

End WayDown.

(** ** Properties *)

(** What [main] needs to get past its set-up: options that parse, a configuration file
    that exists and parses, a command line, and a cloud directory from the option or from
    the configuration. *)
Definition setup_ok (merge : bytes → ProtoConfig → bool * ProtoConfig) (files : gmap bytes bytes)
    (parsed : option FkOptions) (cmdline : bool) (o : FkOptions) (c : ProtoConfig) (dir : bytes) : Prop :=
  parsed = Some o ∧ cmdline = true
  ∧ (∃ path text, config_file o = Some path ∧ files !! path = Some text
                  ∧ merge text proto_config_empty = (true, c))
  ∧ ((cloud_proxy_dir o = Some dir ∧ dir ≠ [])
     ∨ (default [] (cloud_proxy_dir o) = [] ∧ cloud_endpoint c = Some dir)).

(** C33: [main] gets past its set-up exactly when it has what it needs, and then the back
    end, the proxy directories and the mount options are the chosen ones; in every other
    case it stops with a fatal log message, never with undefined behaviour, before any
    store is opened. *)
Theorem setup_accepts merge files parsed cmdline :
  match main_setup merge files parsed cmdline with
  | Ok su => ∃ o c dir, setup_ok merge files parsed cmdline o c dir
      ∧ su = MkSetup (negb (use_rocksdb o =? 0)) (new_CloudProxy local_proxy_dir dir)
               (MkOptions (pp_fuse_cache_enable (primary c)) (pp_fuse_direct_io (primary c)))
  | Crash x => x = FatalLog ∧ ∀ o c dir, ¬ setup_ok merge files parsed cmdline o c dir
  end.
Proof.
  assert (∀ o c, match choose_cloud_dir o c with
    | Ok dir => (cloud_proxy_dir o = Some dir ∧ dir ≠ [])
                ∨ (default [] (cloud_proxy_dir o) = [] ∧ cloud_endpoint c = Some dir)
    | Crash x => x = FatalLog ∧ default [] (cloud_proxy_dir o) = [] ∧ cloud_endpoint c = None end) as Hd.
  { intros o c. unfold choose_cloud_dir, has_cloud, cloud_endpoint.
    destruct (cloud_proxy_dir o) as [[|b dir]|]; cbn; [|by left|]; destruct (pc_cloud c) as [[e|]|]; cbn; auto. }
  unfold main_setup, setup_ok, cm_Refresh.
  destruct parsed as [o|]; [|by split; [|intros ??? [? _]]].
  destruct (config_file o) as [path|] eqn:Ep; [|split; [done|intros ??? ([= <-] & _ & (?&?&?&_) & _); congruence]].
  cbn [config_path new_ConfigManager config].
  destruct (files !! path) as [text|] eqn:Ef;
    [|split; [done|intros ??? ([= <-] & _ & (?&?&E1&E2&_) & _); congruence]].
  destruct (merge text proto_config_empty) as [[] c] eqn:Em; cbn [Z.eqb negb EINVAL];
    [|split; [done|intros ??? ([= <-] & _ & (?&?&E1&E2&E3) & _); congruence]].
  destruct cmdline; [cbn [negb]|by split; [|intros ??? (_ & ? & _)]].
  specialize (Hd o c). cbn [config]. destruct (choose_cloud_dir o c) as [dir|x].
  - exists o, c, dir. split; [|done]. split_and!; eauto.
  - destruct Hd as (-> & Hnil & Hne). split; [done|].
    intros o' c' dir ([= <-] & _ & (p' & t' & E1 & E2 & E3) & [[E4 Hd]|[_ E5]]); [by rewrite E4 in Hnil|].
    assert (c' = c) as -> by congruence. congruence.
Qed.



(** When the kernel refuses the mount, [main] shuts the mount down and closes the
    store without asking the threads to stop: all three are still running, on objects
    that are about to be destroyed. *)
Theorem failed_mount_leaves_threads {S : Type} `{KVStore S} `{FsEnv} `{MountEnv} `{EntryCodec} `{TierEnv}
    (dump dbstats : S → option bytes) fuel depth su opened port bound kv clk files d err_ops session es es' y y2 :
  main_start su opened port bound kv clk files d = Ok y →
  main_run dump dbstats fuel depth err_ops false session es es' y = Some (Ok y2) →
  threads y2 ∧ run_thread (out_agent (sys_agents y2)) = Some P_sleep
  ∧ stop_requested (out_agent (sys_agents y2)) = false ∧ stop_requested (evict_agent (sys_agents y2)) = false.
Proof.
  intros Hs. pose proof (main_start_threads _ _ _ _ _ _ _ _ _ Hs) as T.
  apply main_start_inv in Hs as (p & ix & s0 & s1 & _ & _ & _ & ->). unfold main_run, main_out.
  destruct (Shutdown _) as [[u s]|]; [|done]. destruct (Sync _ _ _) as [r d']. intros [= <-]. done.
Qed.

(** C40: the change log starts over at every mount: no operation but the first creation
    of the superblock sets its [next_xid], so after any session and a clean shutdown the
    next mount numbers its changes from the same xid as the last one did, although the
    index still names segments, their tarballs and their working directories by the old
    xids. *)
Theorem remount_reuses_xids {S : Type} `{KVStoreLaws S} `{!KVReliable S} `{SuperLaws} `{FsEnv}
    `{EntryCodec} `{TierEnv} (dump dbstats : S → option bytes) fuel depth su opened port bound kv clk files d
    err_ops mounted session es es' y y2 clk2 files2 :
  (∀ b, is_Some (super_print b)) →
  main_start su opened port bound kv clk files d = Ok y → Forall event_ok es → Forall event_ok es' →
  main_run dump dbstats fuel depth err_ops mounted session es es' y = Some (Ok y2) →
  ∃ s1 s2,
    Init opened (local_dir (su_proxy su)) port (fresh_mount kv clk TEST_FSID (su_options su) files) = Ok (0, s1)
    ∧ Init opened (local_dir (su_proxy su)) port
        (fresh_mount (w_kv (m_world (sys_mount y2))) clk2 TEST_FSID (su_options su) files2) = Ok (0, s2)
    ∧ next_xid (m_log s2) = next_xid (m_log s1).
Proof.
  intros Hp Hs He He' Hr. destruct (main_start_table _ _ _ _ _ _ _ _ _ Hs) as [T _].
  destruct (main_run_static _ _ _ _ _ _ _ _ _ _ _ He He' T Hr) as (y1 & Ho & Hst).
  apply main_start_inv in Hs as (p & ix & s0 & s1 & Hport & Hi & Hc & ->). exists s0.
  destruct (Hp (set_next_inode (i64 (u64 (m_handleId (sys_mount y1) + 1000))) (m_super (sys_mount y1)))) as [v Hv].
  destruct (Init_fresh _ _ _ _ _ _ _ _ _ _ Hi) as (T0 & _ & A3).
  destruct (quiet_at_manager _ _ _ _ T0 Hc) as ([_ S1] & _). cbn in Hst. rewrite S1 in Hst.
  injection Hst as Hsup Hfs _. rewrite A3 in Hfs.
  pose proof (main_out_super y1 y2 v Hv Ho Hfs) as Hk.
  assert (opened = true) as -> by (unfold Init in Hi; by destruct opened).
  destruct (Init_found _ clk2 TEST_FSID (su_options su) files2 v _ (local_dir (su_proxy su)) port p
    Hk (super_roundtrip _ _ Hv) Hport) as (s2 & E2 & X2).
  exists s2. split_and!; [done|done|]. rewrite X2. cbn. rewrite Hsup.
  apply Init_inv in Hi as (_ & sr & _ & ->). done.
Qed.

(** ** Witnesses: a first mount on an empty store *)

(** A text format for superblocks: the number of the record, in binary. *)
#[local] Instance super_eq_dec : EqDecision Superblock.
Proof. solve_decision. Defined.
#[local] Instance super_countable : Countable Superblock :=
  inj_countable' (λ b, (sb_magic b, sb_filesystem_name b, sb_cloud_uri b, sb_next_inode b,
                        sb_next_xid b, sb_fs_id b, sb_dev b, sb_chunk_size b))
    (λ '(a, b, c, d, e, f, g, h), MkSuper a b c d e f g h) ltac:(by intros []).

Fixpoint pos_print (p : positive) : bytes :=
  match p with xH => [] | xO p => Byte.x30 :: pos_print p | xI p => Byte.x31 :: pos_print p end.
Fixpoint pos_parse (l : bytes) : positive :=
  match l with
  | [] => xH
  | b :: l => if decide (b = Byte.x30) then xO (pos_parse l) else xI (pos_parse l)
  end.
Lemma pos_parse_print p : pos_parse (pos_print p) = p.
Proof. induction p as [p IH|p IH|]; cbn; by rewrite ?IH. Qed.

#[local] Instance demo_main_env : MountEnv := {|
  fuse_reply_ret _ := 0;
  uninit_attr := stat_zero;
  super_print b := Some (pos_print (encode b));
  super_merge v _ := decode (pos_parse v);
  env_errno := 0;
  fuse_direntry_size name := Z.of_nat (length name) + 24;
  cloud_uri0 := [];
|}.
#[local] Instance demo_main_laws : SuperLaws.
Proof. split. intros b v [= <-]. cbn. rewrite pos_parse_print. apply countable.decode_encode. Qed.
#[local] Instance demo_main_fs : FsEnv := demo_env (demo_tier []).
#[local] Existing Instance demo_tier_env.

Definition demo_setup : Setup :=
  MkSetup false (new_CloudProxy local_proxy_dir (lit "c")) (MkOptions true false).
Definition demo_start : res (System MemStore) :=
  main_start demo_setup true (Some (lit "8080")) true ∅ 0 ∅ ∅.
Definition no_dump : MemStore → option bytes := λ _, None.

(** A getattr of the root and an HTTP request for a snapshot, then the thread's steps. *)
Definition demo_events : list event :=
  [E_request (R_getattr 1); E_web []; E_web [lit "/SNAP"]; E_out; E_out; E_out; E_out; E_out].
Definition demo_tail : list event :=
  [E_out; E_out; E_out; E_out; E_out; E_evict (λ _, 0); E_evict (λ _, 0); E_evict (λ _, 0);
   E_evict (λ _, 0); E_evict (λ _, 0); E_web []; E_web []].

Lemma demo_runs :
  ∃ y y1 y2, demo_start = Ok y ∧ sys_run no_dump no_dump 4 4 false demo_events y = Ok y1
    ∧ sys_run no_dump no_dump 4 4 false demo_tail (main_stop y1) = Ok y2.
Proof.
  assert (match demo_start with
          | Ok y => match sys_run no_dump no_dump 4 4 false demo_events y with
                    | Ok y1 => match sys_run no_dump no_dump 4 4 false demo_tail (main_stop y1) with
                               | Ok y2 => true | _ => false end
                    | _ => false end
          | _ => false end = true) as Hok by (vm_compute; reflexivity).
  destruct demo_start as [y|]; [|done]. exists y.
  destruct (sys_run _ _ _ _ _ demo_events y) as [y1|]; [|done]. exists y1.
  destruct (sys_run _ _ _ _ _ demo_tail _) as [y2|]; [|done]. by exists y2.
Qed.

Lemma demo_events_ok : Forall event_ok demo_events.
Proof. by repeat constructor. Qed.



(** The shut-down of the demonstration runs: after the session, and when the mount is
    refused. *)
Lemma demo_ends (mounted : bool) :
  ∃ y y2, demo_start = Ok y
    ∧ main_run no_dump no_dump 4 4 false mounted true demo_events demo_tail y = Some (Ok y2).
Proof.
  assert (match demo_start with
          | Ok y => match main_run no_dump no_dump 4 4 false mounted true demo_events demo_tail y with
                    | Some (Ok y2) => true | _ => false end
          | _ => false end = true) as Hok by (destruct mounted; vm_compute; reflexivity).
  destruct demo_start as [y|]; [|done]. exists y.
  destruct (main_run _ _ _ _ _ _ _ _ _ y) as [[y2|]|]; [|done..]. exists y2. by split.
Qed.

Lemma failed_mount_leaves_threads_witness :
  ∃ y y2, demo_start = Ok y
    ∧ main_run no_dump no_dump 4 4 false false true demo_events demo_tail y = Some (Ok y2)
    ∧ threads y2 ∧ run_thread (out_agent (sys_agents y2)) = Some P_sleep
    ∧ stop_requested (out_agent (sys_agents y2)) = false ∧ stop_requested (evict_agent (sys_agents y2)) = false.
Proof.
  destruct (demo_ends false) as (y & y2 & E & E2). exists y, y2. split; [exact E|]. split; [exact E2|].
  exact (failed_mount_leaves_threads no_dump no_dump 4 4 demo_setup true (Some (lit "8080")) true ∅ 0 ∅ ∅
           false true demo_events demo_tail y y2 E E2).
Defined.

Lemma remount_reuses_xids_witness :
  ∃ (y2 : System MemStore) s1 s2,
    Init true (local_dir (su_proxy demo_setup)) (Some (lit "8080"))
      (fresh_mount (∅ : MemStore) 0 TEST_FSID (su_options demo_setup) ∅) = Ok (0, s1)
    ∧ Init true (local_dir (su_proxy demo_setup)) (Some (lit "8080"))
        (fresh_mount (w_kv (m_world (sys_mount y2))) 0 TEST_FSID (su_options demo_setup) ∅) = Ok (0, s2)
    ∧ next_xid (m_log s2) = next_xid (m_log s1).
Proof.
  destruct (demo_ends true) as (y & y2 & E & E2). exists y2.
  apply (remount_reuses_xids no_dump no_dump 4 4 demo_setup true (Some (lit "8080")) true ∅ 0 ∅ ∅
           false true true demo_events demo_tail y y2 0 ∅); [by intros b; eexists|exact E|apply demo_events_ok| |exact E2].
  by repeat constructor.
Defined.
