(* ===== verification/CycleProps.v ===== *)
(** * The tiering cycle

    A file is tiered out, evicted and read again, on the running system: a pass of the
    tiering-out agent, a pass of the eviction agent and a read request, which opens the
    copy through the tiering-in agent, one after the other. *)

From Stdlib Require Import ZArith Lia Strings.String.
From stdpp Require Import base list gmap.
From S2P Require Import Prelude Status Mode SortedMap KVStore MetaData Partition File FileData Directory.
From S2P Require Import ChangeLog FileSystemManager Mount Fuse MountProps IOProps Tiering TieringProps.
From S2P Require Import PersistProps Agents Config Main.

#[local] Arguments inode_key : simpl never.
#[local] Arguments sub_key : simpl never.
#[local] Arguments encode_meta : simpl never.
#[local] Arguments on_file : simpl never.

(** ** The inodes of a part of the log *)

Lemma GetInodes_sorted es s :
  sm_sorted s →
  sm_sorted (foldl (λ s e, match e_inode_num e with Some i => ss_insert (u64 i) s | None => s end) s es).
Proof.
  revert s. induction es as [|e es IH]; intros s Hs; [done|]. cbn. apply IH.
  destruct (e_inode_num e); [by apply sm_insert_sorted|done].
Qed.

Lemma GetInodes_NoDup es : NoDup (GetInodes es).
Proof. apply ss_sorted_NoDup, GetInodes_sorted. constructor. Qed.

Lemma elem_of_GetInodes es j :
  j ∈ GetInodes es ↔ ∃ e i, e ∈ es ∧ e_inode_num e = Some i ∧ j = u64 i.
Proof.
  unfold GetInodes. assert (sm_sorted ([] : list (Z * unit))) as H0 by constructor.
  enough (∀ s, sm_sorted s →
    j ∈ ss_elems (foldl (λ s e, match e_inode_num e with Some i => ss_insert (u64 i) s | None => s end) s es)
    ↔ j ∈ ss_elems s ∨ ∃ e i, e ∈ es ∧ e_inode_num e = Some i ∧ j = u64 i) as Hg.
  { rewrite (Hg [] H0). cbn. set_solver. }
  induction es as [|e es IH]; intros s Hs; cbn [foldl]; [set_solver|].
  rewrite IH by (destruct (e_inode_num e); [by apply sm_insert_sorted|done]).
  destruct (e_inode_num e) as [i|] eqn:Ei; [rewrite ss_insert_elem by done|]; set_solver.
Qed.

Lemma GetInodes_mono es es' : es ⊆ es' → GetInodes es ⊆ GetInodes es'.
Proof. intros Hs j. rewrite !elem_of_GetInodes. set_solver. Qed.

(** ** The eviction pass *)

Section Pass.
Context {S : Type} `{KVStoreLaws S} `{!KVReliable S} `{FsEnv} `{MountEnv}.

Abbreviation kv_of := (λ s : MountState S, w_kv (m_world s)).

(** The keys of inode [h] read the same in both stores. *)
Definition same_inode (h : Z) (kv kv' : S) : Prop :=
  kv_get kv' (inode_key h) = kv_get kv (inode_key h)
  ∧ ∀ c, kv_get kv' (sub_key h c) = kv_get kv (sub_key h c).

Lemma same_inode_byte h kv kv' cs i : same_inode h kv kv' → file_byte kv' h cs i = file_byte kv h cs i.
Proof. intros [_ E]. unfold file_byte. by rewrite E. Qed.

Lemma same_inode_inv f kv kv' : same_inode (handle f) kv kv' → file_inv f kv → file_inv f kv'.
Proof.
  intros E [? ? ? ? ? ? Hc He]. split; try done.
  - intros c v Hr. rewrite (proj2 E). by apply Hc.
  - intros i Hi. rewrite (same_inode_byte _ _ _ _ _ E). by apply He.
Qed.

(** Evicting one file leaves the keys of the others alone. *)
Lemma dropped_elsewhere f kv kv' j : dropped f kv kv' → u64 j ≠ u64 (handle f) → same_inode j kv kv'.
Proof.
  intros (kv1 & R & Ep) Hj. split.
  - rewrite (kv_put_ne _ _ _ _ _ _ Ep) by (intros E%inode_key_inj; done).
    apply (resized_only _ _ _ _ _ R). intros c _. apply inode_sub_key.
  - intros c. rewrite (kv_put_ne _ _ _ _ _ _ Ep) by (intros E; by apply (inode_sub_key (handle f) j c)).
    apply (resized_only _ _ _ _ _ R). intros c' _. by apply sub_key_handle_ne.
Qed.

(** An inode the pass can deal with: in the table with valid attributes, and a regular
    file only if its metadata is loaded and stored. *)
Definition tracked (s : MountState S) (j : Z) : Prop :=
  0 ≤ j < 18446744073709551616 ∧ ∃ i, m_inodes s !! j = Some i ∧ istate i ≠ I_INVALID
  ∧ (S_ISREG (st_mode (attr i)) = true → ∃ f, loaded_file s j i f ∧ handle f = j).

Lemma tracked_log l (s : MountState S) j : tracked s j → tracked (set_log l s) j.
Proof.
  intros (Hj & i & Ei & Hv & Hr). split; [done|]. exists i. split; [done|]. split; [done|].
  intros Hreg. destruct (Hr Hreg) as (f & [] & Hh). exists f. by split.
Qed.

(** What a turn of the loop on inode [j] leaves alone. *)
Definition turned (j : Z) (s s' : MountState S) : Prop :=
  m_log s' = m_log s ∧ m_replies s' = m_replies s
  ∧ ∀ k, 0 ≤ k < 18446744073709551616 → k ≠ j →
      m_inodes s' !! k = m_inodes s !! k ∧ w_heap (m_world s') !! k = w_heap (m_world s) !! k
      ∧ same_inode k (kv_of s) (kv_of s').

(** Inode [k] is as it was. *)
Definition untouched (k : Z) (s s' : MountState S) : Prop :=
  m_log s' = m_log s ∧ m_replies s' = m_replies s
  ∧ m_inodes s' !! k = m_inodes s !! k ∧ w_heap (m_world s') !! k = w_heap (m_world s) !! k
  ∧ same_inode k (kv_of s) (kv_of s').

Lemma turned_untouched j k s s' :
  turned j s s' → 0 ≤ k < 18446744073709551616 → k ≠ j → untouched k s s'.
Proof. intros (E1 & E2 & T) Hk Hne. destruct (T k Hk Hne) as (? & ? & ?). done. Qed.

Lemma untouched_trans k s1 s2 s3 : untouched k s1 s2 → untouched k s2 s3 → untouched k s1 s3.
Proof.
  intros (A1 & A2 & A3 & A4 & [A5 A6]) (B1 & B2 & B3 & B4 & [B5 B6]).
  split_and!; try congruence. split; [congruence|]. intros c. by rewrite B6, A6.
Qed.

Lemma untouched_loaded k i f s s' :
  untouched k s s' → handle f = k → loaded_file s k i f → loaded_file s' k i f.
Proof.
  intros (_ & _ & Ti & Tf & Tk) Hh [Ei Hv Hr Ef I Sy]. split; rewrite ?Ti, ?Tf; try done.
  - rewrite <-Hh in Tk. by apply (same_inode_inv _ (kv_of s)).
  - unfold synced in *. rewrite Hh in *. by rewrite (proj1 Tk).
Qed.

Lemma turned_loaded j s s' k i f :
  turned j s s' → 0 ≤ k < 18446744073709551616 → k ≠ j → handle f = k →
  loaded_file s k i f → loaded_file s' k i f.
Proof.
  intros T Hk Hne Hh. apply untouched_loaded; [|done]. by apply (turned_untouched j).
Qed.

Lemma turned_tracked j s s' k : turned j s s' → k ≠ j → tracked s k → tracked s' k.
Proof.
  intros T Hne (Hk & i & Ei & Hv & Hr). split; [done|]. exists i.
  destruct (proj2 (proj2 T) k Hk Hne) as (Ti & _). rewrite Ti. split; [done|]. split; [done|].
  intros Hreg. destruct (Hr Hreg) as (f & L & Hh). exists f. split; [|done]. by eapply turned_loaded.
Qed.

(** The loop is its turns, one after the other. *)
Lemma evict_loop_cons now j l (s : MountState S) :
  evict_loop now (j :: l) s = (evict_loop now [j];; evict_loop now l) s.
Proof.
  cbn [evict_loop]. unfold mbind, M_bind, mret, M_ret. destruct (GetInode j true s) as [[o s1]|]; [|done].
  destruct (Getattr_stat j s1) as [[[err st] s2]|]; [|done].
  by destruct (negb (err =? 0)), (S_ISDIR (st_mode st)), (S_ISREG (st_mode st)),
    (eviction_age <=? now j - st_mtime st); repeat case_match.
Qed.

(** One turn on a file that is old enough. *)
Lemma evict_turn_file (s : MountState S) now j i f :
  0 ≤ j < 18446744073709551616 →
  loaded_file s j i f → handle f = j → 2 ≤ now j - st_mtime (attr i) →
  ∃ s', evict_loop now [j] s = Ok (tt, s') ∧ turned j s s'
    ∧ m_inodes s' !! j = Some (set_nlookup (nlookup i + 1) i)
    ∧ w_heap (m_world s') !! j = Some (evicted f) ∧ dropped f (kv_of s) (kv_of s').
Proof.
  intros Hj L Hh Hold. destruct (evict_one s now j i f L Hold) as (kv' & E & Dr).
  eexists. split; [exact E|]. split; [|cbn; by rewrite !lookup_insert_eq].
  split; [done|]. split; [done|]. intros k Hk Hne. cbn. rewrite !lookup_insert_ne by done.
  split; [done|]. split; [done|]. apply (dropped_elsewhere _ _ _ _ Dr). rewrite Hh, !u64_small; lia.
Qed.

(** One turn on any inode that is tracked. *)
Lemma evict_turn (s : MountState S) now j :
  tracked s j → ∃ s', evict_loop now [j] s = Ok (tt, s') ∧ turned j s s'.
Proof.
  intros (Hj & i & Ei & Hv & Hr).
  destruct (S_ISREG (st_mode (attr i))) eqn:Hreg;
    [destruct (decide (2 ≤ now j - st_mtime (attr i))) as [Hold|Hyoung]|].
  { destruct (Hr eq_refl) as (f & L & Hh).
    destruct (evict_turn_file s now j i f Hj L Hh Hold) as (s' & E & T & _). eauto. }
  all: set (s1 := set_inodes (<[j := set_nlookup (nlookup i + 1) i]> (m_inodes s)) s).
  all: exists s1; split;
    [|split; [done|split; [done|intros k _ Hne; cbn; by rewrite lookup_insert_ne]]].
  all: cbn [evict_loop]; rewrite (bind_ok _ _ _ _ _ (GetInode_held s j i true Ei)); fold s1.
  all: assert (m_inodes s1 !! j = Some (set_nlookup (nlookup i + 1) i)) as Ei1 by apply lookup_insert_eq.
  all: rewrite (bind_ok _ _ s1 (0, attr i) s1);
    [|unfold Getattr_stat; rewrite (bind_ok _ _ _ _ _ (Refresh_loaded s1 j _ Ei1 Hv));
      by rewrite (bind_ok _ _ _ _ _ (inode_run s1 j _ Ei1))].
  all: cbn [negb Z.eqb]; rewrite ?Hreg.
  - rewrite (reg_not_dir _ Hreg), (proj2 (Z.leb_gt _ _)) by (unfold eviction_age; lia). done.
  - by destruct (S_ISDIR _).
Qed.

(** The pass over inodes that are tracked ends, and leaves the others alone. *)
Lemma evict_others now ino l (s : MountState S) :
  0 ≤ ino < 18446744073709551616 → NoDup l → ino ∉ l → (∀ j, j ∈ l → tracked s j) →
  ∃ s', evict_loop now l s = Ok (tt, s') ∧ untouched ino s s'
    ∧ ∀ k, k ∉ l → tracked s k → tracked s' k.
Proof.
  intros Hi Hnd. revert s. induction Hnd as [|j l Hj Hnd IH]; intros s Hin Ht.
  { exists s. split; [done|]. by split. }
  apply not_elem_of_cons in Hin as [Hne Hin].
  destruct (evict_turn s now j) as (s1 & E1 & T1); [apply Ht; left|].
  destruct (IH s1 Hin) as (s2 & E2 & U2 & K2).
  { intros k Hk. apply (turned_tracked j s); [done|congruence|]. apply Ht. by right. }
  exists s2. rewrite evict_loop_cons, (bind_ok _ _ _ _ _ E1). split; [done|]. split.
  - apply (untouched_trans _ _ s1); [by apply (turned_untouched j)|done].
  - intros k [Hkj Hk]%not_elem_of_cons Hs. apply K2; [done|]. by apply (turned_tracked j s).
Qed.

Lemma evict_loop_app now l1 l2 (s s' : MountState S) :
  evict_loop now l1 s = Ok (tt, s') → evict_loop now (l1 ++ l2) s = evict_loop now l2 s'.
Proof.
  revert s. induction l1 as [|j l1 IH]; intros s; [by intros [= ->]|].
  cbn [app]. rewrite !evict_loop_cons. unfold mbind, M_bind.
  destruct (evict_loop now [j] s) as [[[] s1]|]; [|done]. apply IH.
Qed.

(** The pass over a list of inodes: the file [ino] among them is evicted, whatever the
    others are. *)
Lemma evict_loop_file now ino i f l (s : MountState S) :
  0 ≤ ino < 18446744073709551616 → NoDup l → (∀ j, j ∈ l → j ≠ ino → tracked s j) → ino ∈ l →
  loaded_file s ino i f → handle f = ino → 2 ≤ now ino - st_mtime (attr i) →
  ∃ s', evict_loop now l s = Ok (tt, s') ∧ m_log s' = m_log s ∧ m_replies s' = m_replies s
    ∧ m_inodes s' !! ino = Some (set_nlookup (nlookup i + 1) i)
    ∧ w_heap (m_world s') !! ino = Some (evicted f)
    ∧ file_inv (evicted f) (kv_of s') ∧ synced (evicted f) (kv_of s')
    ∧ ∀ o, 0 ≤ o < OFF_MAX → fbyte (evicted f) (kv_of s') o = Byte.x00.
Proof.
  intros Hi Hnd Ht Hin L Hh Hold. apply list_elem_of_split in Hin as (l1 & l2 & ->).
  apply NoDup_app in Hnd as (Hnd1 & Hd & Hnd2). apply NoDup_cons in Hnd2 as [Hn2 Hnd2].
  assert (ino ∉ l1) as Hn1 by (intros Hx; apply (Hd ino Hx); left).
  destruct (evict_others now ino l1 s Hi Hnd1 Hn1) as (s1 & E1 & U1 & K1).
  { intros j Hj. apply Ht; set_solver. }
  destruct (evict_turn_file s1 now ino i f Hi) as (s2 & E2 & T2 & Ei2 & Ef2 & Dr);
    [by apply (untouched_loaded _ _ _ s)|done|done|].
  destruct (evict_others now ino l2 s2 Hi Hnd2 Hn2) as (s3 & E3 & U3 & _).
  { intros j Hj. apply (turned_tracked ino s1); [done|set_solver|].
    apply K1; [|apply Ht; set_solver]. intros Hx. apply (Hd j Hx). by right. }
  exists s3. rewrite (evict_loop_app _ _ _ _ _ E1), evict_loop_cons, (bind_ok _ _ _ _ _ E2).
  destruct U1 as (A1 & A2 & _ & _ & A5), U3 as (B1 & B2 & B3 & B4 & B5), T2 as (C1 & C2 & _).
  rewrite B1, C1, A1, B2, C2, A2, B3, B4. do 5 (split; [done|]).
  assert (same_inode (handle (evicted f)) (kv_of s2) (kv_of s3)) as B5' by (cbn; by rewrite Hh).
  split_and!.
  - apply (same_inode_inv _ (kv_of s2)); [done|]. destruct Dr as (kv1 & R & Ep).
    apply (evicted_inv f (kv_of s1) kv1); [|done|done]. apply (same_inode_inv _ (kv_of s)), L. by rewrite Hh.
  - unfold synced. rewrite (proj1 B5'). apply (dropped_synced _ _ _ Dr).
  - intros o Ho. unfold fbyte. rewrite (same_inode_byte _ _ _ _ _ B5'). by apply (dropped_zero _ _ _ _ Dr).
Qed.

(** The whole pass. *)
Lemma evict_pass_file now ino i f (s : MountState S) :
  let l := m_log s in
  let es := filter (λ e, eviction_next_xid l ≤ xid e ≤ tiered_out_xid l) (log_deque l) in
  dense l → small_log l → 0 ≤ eviction_next_xid l ≤ next_xid l → 0 ≤ tiered_out_xid l →
  0 ≤ ino < 18446744073709551616 → (∀ j, j ∈ GetInodes es → j ≠ ino → tracked s j) → ino ∈ GetInodes es →
  loaded_file s ino i f → handle f = ino → 2 ≤ now ino - st_mtime (attr i) →
  ∃ s', ProcessEvictions now s = Ok (tt, s') ∧ m_replies s' = m_replies s
    ∧ m_inodes s' !! ino = Some (set_nlookup (nlookup i + 1) i)
    ∧ w_heap (m_world s') !! ino = Some (evicted f)
    ∧ file_inv (evicted f) (kv_of s')
    ∧ ∀ o, 0 ≤ o < OFF_MAX → fbyte (evicted f) (kv_of s') o = Byte.x00.
Proof.
  intros l es D Sm Hn Ht Hi Hothers Hin L Hh Hold.
  destruct (evict_loop_file now ino i f (GetInodes es) s Hi (GetInodes_NoDup es) Hothers Hin L Hh Hold)
    as (s' & E & _ & Er & Ei & Ef & I & _ & Hz).
  assert (∃ l', ProcessEvictions now s = Ok (tt, set_log l' s')) as [l' El].
  { eexists. unfold ProcessEvictions. rewrite (bind_ok _ _ s s s) by done. fold l.
    rewrite (Read_dense l _ _ D Sm Hn) by lia. fold es. by rewrite (bind_ok _ _ _ _ _ E). }
  by exists (set_log l' s').
Qed.

End Pass.

(** ** The pass of the tiering-out agent *)

Section Out.
Context {S : Type} `{KVStoreLaws S} `{FsEnv} `{TierEnv}.

(** What the persister works on: the manager of the mount and that of a snapshot. *)
Definition tier_of (s : MountState S) (ix : IndexManager) (d : disk) : TierState S :=
  let w := m_world s in
  mkT (mkFSM (w_kv w) (w_clock w) (Some (m_log s)) (m_handleId s))
    (new_FileSystemManager (w_kv w) (w_clock w)) ix d.

Lemma persist_batch_run depth inodes first last (s : MountState S) ix d t' :
  persist depth seg_template 0 inodes first last (tier_of s ix d) = Ok (0, t') →
  t_live t' = t_live (tier_of s ix d) →
  persist_batch depth inodes first last (s, (ix, d)) = Ok (tt, (s, (t_index t', t_disk t'))).
Proof.
  intros E L. unfold persist_batch, at_manager, MountSnapshot. mrun.
  unfold tier_of in *. cbn [fm_kv fm_clock fm_log fm_handleId default] in *.
  change TEST_FSID with 0. unfold set_handleId, set_log, set_world.
  cbn [m_world m_log m_handleId w_kv w_clock]. rewrite E, L. cbn.
  destruct s as [[]]; reflexivity.
Qed.

(** A pass over what one segment holds is one batch. *)
Lemma out_work_one fuel depth (s : MountState S) ix d t' :
  let l := m_log s in
  let pending := filter (λ e, tiered_out_xid l + 1 ≤ xid e ≤ get_last_xid l) (log_deque l) in
  snapshot_pre l → get_last_xid l ≤ tiered_out_xid l + 1 + MAX_XID_PER_SEGMENT → (0 < fuel)%nat →
  persist depth seg_template 0 (GetInodes pending) (tiered_out_xid l + 1) (get_last_xid l) (tier_of s ix d)
    = Ok (0, t') →
  t_live t' = t_live (tier_of s ix d) →
  out_work fuel depth (s, (ix, d)) =
    Ok (tt, (set_log (set_tiered_out_xid (get_last_xid l) l) s, (t_index t', t_disk t'))).
Proof.
  intros l pending P Hone Hf E L. pose proof (sp_end l P) as Hend. destruct P as [D Sm Hst Hlow Hnew].
  destruct (last_in_range l (tiered_out_xid l + 1) (get_last_xid l) D ltac:(lia) ltac:(lia)) as (e & El & Ex).
  destruct fuel as [|fuel]; [lia|]. unfold out_work, out_Snapshot.
  rewrite (bind_ok _ _ _ l (s, (ix, d))) by (by destruct s). cbn [snapshot_loop].
  rewrite (bind_ok _ _ _ l (s, (ix, d))) by (by destruct s).
  rewrite Z.min_r by lia. rewrite Read_dense by (done || lia). fold pending in El |- *. rewrite El.
  rewrite Z.max_l by lia.
  rewrite (bind_ok _ _ _ tt (s, (ix, d))) by (apply cassert_true; unfold has_xid; by rewrite Ex).
  assert (xid e = get_last_xid l) as -> by (unfold xid; by rewrite Ex).
  rewrite (bind_ok _ _ _ _ _ (persist_batch_run _ _ _ _ s ix d t' E L)).
  set (s' := set_log _ s).
  rewrite (bind_ok _ _ _ tt (s', (t_index t', t_disk t'))) by done.
  rewrite (bind_ok _ _ _ (m_log s') (s', (t_index t', t_disk t'))) by done.
  by rewrite (proj2 (Z.ltb_ge _ _)) by (cbn; lia).
Qed.

End Out.

(** ** Reading an evicted file *)

Section Back.
Context {S : Type} `{KVStoreLaws S} `{!KVReliable S} `{FsEnv} `{MountEnv}.

Abbreviation kv_of := (λ s : MountState S, w_kv (m_world s)).

(** A request to read a file that is evicted and of which a copy can be opened: the reply
    has the bytes of the copy, and the file is resident again, with these contents. *)
Lemma read_brings_back (s : MountState S) ino c i f tf size off e :
  replies_delivered → ino ≠ 0 →
  m_inodes s !! ino = Some i → 1 ≤ nlookup i → st_ino (attr i) = ino → istate i ≠ I_INVALID →
  st_size (attr i) = Z.of_nat (length c) →
  w_heap (m_world s) !! ino = Some f → file_inv f (kv_of s) → handle f = ino →
  meta_evictionState (meta f) = ES_DATA_EVICTED → meta_fileTotalSize (meta f) = Z.of_nat (length c) →
  tier_Open ino XID_MAX = Some tf → tiered_contents tf ino c →
  0 ≤ off ≤ Z.of_nat (length c) → 0 ≤ size ≤ MAX_SIZE →
  ∃ s', dispatch e (R_read ino size off ino) s = Ok (tt, s') ∧ m_log s' = m_log s
    ∧ m_replies s' = m_replies s ++ [ReplyBuf (slice (Z.to_nat off) (Z.to_nat size) c)]
    ∧ open_file s' ino c.
Proof.
  intros Hr Hz Ei Hheld Hino Hv Hsz Ef I Hh He Ht Hop T Ho Hs.
  destruct (read_evicted f (kv_of s) (w_clock (m_world s)) tf c off size) as (f2 & kv2 & E & R2 & Sy2 & I2 & Hh2 & C2);
    rewrite ?Hh, ?Ht; try done.
  set (n := Z.min size (meta_fileTotalSize (meta f) - off)) in E.
  assert (slice (Z.to_nat off) (Z.to_nat n) c = slice (Z.to_nat off) (Z.to_nat size) c) as Eout.
  { unfold slice. destruct (decide (size ≤ Z.of_nat (length c) - off)).
    - by replace n with size by (unfold n; lia).
    - rewrite !take_ge; rewrite ?length_drop; [done|lia|unfold n; lia]. }
  rewrite Eout in E. set (out := slice (Z.to_nat off) (Z.to_nat size) c) in *.
  assert (Z.to_nat n = length out) as Hn.
  { rewrite <-Eout. unfold slice. rewrite length_take, length_drop. unfold n. lia. }
  set (s1 := set_world (mkW (<[ino := f2]> (w_heap (m_world s))) kv2 (w_clock (m_world s))) s).
  exists (add_reply (ReplyBuf out) s1). split; [|split; [done|split; [done|]]].
  - change (dispatch e (R_read ino size off ino) s) with (fk_read ino size off ino s).
    unfold fk_read. rewrite (bind_ok _ _ _ _ _ (fi_inode_run s ino i Ei Hino Hz)).
    unfold inode_Read. rewrite (bind_ok _ _ _ _ _ (Refresh_valid s ino i Ei Hv)).
    rewrite (bind_ok _ _ s 0 (add_reply (ReplyBuf out) s1)); [done|]. cbn [negb Z.eqb].
    rewrite (bind_ok _ _ _ _ _ (on_file_run s ino _ f _ f2 kv2 (w_clock (m_world s)) Ef E)). fold s1.
    rewrite (proj2 (Z.ltb_ge _ _)) by (unfold out, slice; rewrite length_take; lia).
    rewrite (bind_ok _ _ s1 tt s1) by done.
    cbn [StatusToErrno Z.eqb]. rewrite Hn, firstn_all.
    rewrite (bind_ok _ _ s1 tt (add_reply (ReplyBuf out) s1)); [done|].
    unfold fuse_reply. mrun. by rewrite Hr.
  - exists i, f2. split; [split|done]; cbn; try done; [apply lookup_insert_eq|congruence].
Qed.

End Back.

(** ** The cycle *)

Section Cycle.
Context {S : Type} `{KVStoreLaws S} `{!KVReliable S} `{FsEnv} `{MountEnv} `{EntryCodec} `{TierEnv}.

Abbreviation kv_of := (λ s : MountState S, w_kv (m_world s)).

(** The entries the two passes read. *)
Definition to_tier (l : FsChangeLog) : list ChangeLogEntry :=
  filter (λ e, tiered_out_xid l + 1 ≤ xid e ≤ get_last_xid l) (log_deque l).
Definition to_evict (l : FsChangeLog) : list ChangeLogEntry :=
  filter (λ e, eviction_next_xid l ≤ xid e ≤ get_last_xid l) (log_deque l).

(** Where the cycle starts: both agents are about to work; the log has entries that were
    not tiered out, no more than one segment holds, and nothing was evicted past them; the
    batch can be persisted and has [ino] in it, an open regular file with contents [c]
    that was not modified for two seconds; the inodes the eviction pass looks at are
    loaded. *)
Record cycle_start (y : System S) (depth : nat) (now : Z → Z) (ino : Z) (c : bytes) : Prop := {
  cs_out : run_thread (out_agent (sys_agents y)) = Some P_work;
  cs_evict : run_thread (evict_agent (sys_agents y)) = Some P_work;
  cs_log : snapshot_pre (m_log (sys_mount y));
  cs_one : get_last_xid (m_log (sys_mount y))
             ≤ tiered_out_xid (m_log (sys_mount y)) + 1 + MAX_XID_PER_SEGMENT;
  cs_mark : 0 ≤ eviction_next_xid (m_log (sys_mount y)) ≤ tiered_out_xid (m_log (sys_mount y)) + 1;
  cs_batch : ∃ path p,
    batch (tier_of (sys_mount y) (sys_index y) (sys_disk y)) depth seg_template
      (tiered_out_xid (m_log (sys_mount y)) + 1) (get_last_xid (m_log (sys_mount y)))
      (GetInodes (to_tier (m_log (sys_mount y)))) path ino p c;
  cs_file : ∃ i f, represents (sys_mount y) ino c i f
    ∧ S_ISREG (st_mode (attr i)) = true ∧ 2 ≤ now ino - st_mtime (attr i);
  cs_others j : j ∈ GetInodes (to_evict (m_log (sys_mount y))) → j ≠ ino → tracked (sys_mount y) j;
}.

End Cycle.

(** C3: a file survives the tiering cycle.  From a start as above, a pass of the
    tiering-out agent, a pass of the eviction agent and a read request run to their end:
    the first tiers out the log to its last entry, the second marks the file as evicted
    and leaves not one byte of it in the store, and the read, which finds the copy through
    the index and opens it, is answered with the bytes the file had; the file is then open
    and resident with the same contents as before. *)
Theorem tiering_cycle {S : Type} `{KVStoreLaws S} `{!KVReliable S} `{FsEnv} `{MountEnv} `{EntryCodec}
    `{TierEnv} dump dbstats fuel depth err_ops now ino c size off (y : System S) :
  let step := sys_step dump dbstats fuel depth err_ops in
  replies_delivered → (0 < fuel)%nat → cycle_start y depth now ino c →
  0 ≤ off ≤ Z.of_nat (length c) → 0 ≤ size ≤ MAX_SIZE →
  ∃ y1 y2 y3 f,
    step E_out y = Ok y1 ∧ step (E_evict now) y1 = Ok y2
    ∧ step (E_request (R_read ino size off ino)) y2 = Ok y3
    ∧ tiered_out_xid (m_log (sys_mount y1)) = get_last_xid (m_log (sys_mount y))
    ∧ w_heap (m_world (sys_mount y2)) !! ino = Some f
    ∧ meta_evictionState (meta f) = ES_DATA_EVICTED
    ∧ (∀ o, 0 ≤ o < OFF_MAX → fbyte f (w_kv (m_world (sys_mount y2))) o = Byte.x00)
    ∧ m_replies (sys_mount y3) =
        m_replies (sys_mount y) ++ [ReplyBuf (slice (Z.to_nat off) (Z.to_nat size) c)]
    ∧ open_file (sys_mount y3) ino c.
Proof.
  intros step Hr Hf [Ho He P Hone Hmark (path & p & B) (i & f & R & Hreg & Hold) Hothers] Hoff Hsize.
  destruct (persist_then_open (H1 := agent_env _ (sys_index y) (sys_disk y)) _ _ _ _ _ _ path ino p c B)
    as (t' & Ep & Lv & _ & Hopen).
  pose proof (out_work_one (H1 := agent_env _ (sys_index y) (sys_disk y)) fuel depth (sys_mount y)
    (sys_index y) (sys_disk y) t' P Hone Hf Ep Lv) as Eo.
  destruct y as [s ix d g web sent].
  cbn [sys_mount sys_index sys_disk sys_agents] in *. set (l := m_log s) in *.
  set (s1 := set_log (set_tiered_out_xid (get_last_xid l) l) s) in Eo.
  assert (0 ≤ ino < 9223372036854775808) as Hi by (apply (b_copy _ _ _ _ _ _ _ _ _ _ B), B).
  pose proof R as [[Ei Hheld Hino Hv Hsz Ef Hh I Hres Hc] Sy].
  pose proof (sp_end l P) as Hend. pose proof (sp_low l P). pose proof (sp_new l P).
  destruct (evict_pass_file now ino i f s1) as (s2 & Ee & Er2 & Ei2 & Ef2 & I2 & Hz2).
  { apply P. } { by destruct (sp_small l P). } { cbn. fold l. lia. } { cbn. fold l. lia. } { lia. }
  { intros j Hj Hne. apply tracked_log, (Hothers j Hj Hne). }
  { apply (GetInodes_mono (to_tier l)), B. intros e. unfold to_tier. cbn. rewrite !list_elem_of_filter.
    fold l. intros [? ?]. split; [lia|done]. }
  { by split. } { done. } { done. }
  destruct (Hopen XID_MAX) as (tf & d' & Eopen & T).
  { destruct (sp_small l P). unfold XID_MAX. lia. }
  pose proof (contents_length f (w_kv (m_world s)) I) as Hlen. rewrite Hc in Hlen.
  destruct (read_brings_back (H1 := agent_env _ (t_index t') (t_disk t')) s2 ino c
    (set_nlookup (nlookup i + 1) i) (evicted f) tf size off err_ops) as (s3 & Erd & _ & Er3 & O3);
    try done; try lia.
  { intros ->. pose proof (b_walks _ _ _ _ _ _ _ _ _ _ B 0 (b_in _ _ _ _ _ _ _ _ _ _ B)) as Hw.
    rewrite (b_path _ _ _ _ _ _ _ _ _ _ B) in Hw. destruct Hw as (parts & Hw & _). by inversion Hw. }
  { cbn. lia. } { unfold tier_Open, agent_env. by rewrite Eopen. }
  set (g1 := set_out (set_thread (Some P_clear) (out_agent g)) g).
  set (g2 := set_evict (set_thread (Some P_clear) (evict_agent g1)) g1).
  exists (mkSys s1 (t_index t') (t_disk t') g1 web sent), (mkSys s2 (t_index t') (t_disk t') g2 web sent),
    (mkSys s3 (t_index t') (t_disk t') g2 web sent), (evicted f).
  split_and!; try done.
  - unfold step, sys_step. cbn [sys_mount sys_index sys_disk sys_agents]. unfold thread_step. by rewrite Ho, Eo.
  - unfold step, sys_step. cbn [sys_mount sys_index sys_disk sys_agents]. unfold evict_step, thread_step.
    change (run_thread (evict_agent g1)) with (run_thread (evict_agent g)). by rewrite He, Ee.
  - unfold step, sys_step. cbn [sys_mount sys_index sys_disk sys_agents sys_web sys_sent]. by rewrite Erd.
  - cbn. by rewrite Er3, Er2.
Qed.

(** ** Witness: a file of three bytes, changed twice *)

#[local] Instance demo_cycle_fs : FsEnv := demo_env (demo_tier []).
#[local] Existing Instance demo_tier_env.
#[local] Existing Instance demo_mount_env.

Definition demo_cycle_file : LogFSFile := loaded 5 demo_named.
Definition demo_cycle_inode : FuseKvfsInode :=
  MkInode (stat_size 3 (stat_mode (S_IFREG + 420) (stat_ino_dev 5 0 stat_zero))) 1 I_CLEAN.
Definition demo_cycle_mount : MountState MemStore :=
  mkM (mkW {[ 5 := demo_cycle_file ]} (demo_small (encode_meta demo_named)) 0) {[ 5 := demo_cycle_inode ]}
    (MkLog [] 3 0 0 [demo_touched 1; demo_touched 2]) super_empty 6 0 (MkOptions true false) ∅ [] [].
Definition demo_working : Agent := MkAgent (Some P_work) false true.
Definition demo_cycle : System MemStore :=
  mkSys demo_cycle_mount demo_index ∅ (MkAgents demo_working demo_working) (new_WebController 8080) [].

Lemma demo_cycle_batch :
  batch (tier_of demo_cycle_mount demo_index ∅) 4 seg_template 1 2 [5] demo_path 5 (lit "a") (lit "abc").
Proof.
  split; try done.
  - intros j Hj. set_unfold in Hj. destruct Hj as [->|[]]. exists [lit "a"]. split_and!; [|done|cbn; lia].
    apply (chain_up _ 5 demo_named []); [done|apply demo_named_stored|constructor].
  - intros j Hj. set_unfold in Hj. destruct Hj as [->|[]]. split; [lia|].
    eapply copy_file; [apply demo_named_stored|done| |done]. by apply demo_small_inv.
  - left.
  - intros j Hj Hne. set_unfold in Hj. by destruct Hj as [->|[]].
  - exists demo_named. split_and!; [apply demo_named_stored|done|done].
  - vm_compute. lia.
Qed.

Lemma demo_cycle_start : cycle_start demo_cycle 4 (λ _, 100) 5 (lit "abc").
Proof.
  split; try done.
  - split; [by intros [|[|j]] e [= <-]|split; cbn; lia|cbn; lia|cbn; lia|done].
  - exists demo_path, (lit "a"). exact demo_cycle_batch.
  - exists demo_cycle_inode, demo_cycle_file. split; [|done]. split; [|done]. split; try done.
    by apply demo_small_inv.
  - intros j Hj Hne. replace (GetInodes _) with [5] in Hj by (vm_compute; done).
    set_unfold in Hj. by destruct Hj as [->|[]].
Qed.

Lemma tiering_cycle_witness :
  let step := sys_step (λ _, None) (λ _, None) 3 4 false in
  ∃ y1 y2 y3 f,
    step E_out demo_cycle = Ok y1 ∧ step (E_evict (λ _, 100)) y1 = Ok y2
    ∧ step (E_request (R_read 5 9 1 5)) y2 = Ok y3
    ∧ tiered_out_xid (m_log (sys_mount y1)) = 2
    ∧ w_heap (m_world (sys_mount y2)) !! 5 = Some f
    ∧ meta_evictionState (meta f) = ES_DATA_EVICTED
    ∧ (∀ o, 0 ≤ o < OFF_MAX → fbyte f (w_kv (m_world (sys_mount y2))) o = Byte.x00)
    ∧ m_replies (sys_mount y3) = [] ++ [ReplyBuf (lit "bc")]
    ∧ open_file (sys_mount y3) 5 (lit "abc").
Proof.
  exact (tiering_cycle (λ _, None) (λ _, None) 3 4 false (λ _, 100) 5 (lit "abc") 9 1 demo_cycle
    (λ _, eq_refl) ltac:(lia) demo_cycle_start ltac:(cbn; lia) ltac:(unfold MAX_SIZE; lia)).
Defined.
